(* ===== verification/_CoqProject ===== *)
-Q . S2P
Prelude.v
CInt.v
CMonad.v
CStr.v
Etm.v
EtmSafety.v
EtmPackets.v
EtmAtoms.v
EtmFormatter.v
Device.v
Memtool.v
MemtoolSpec.v
MemtoolTables.v
MemtoolCmds.v
MemtoolMain.v
LtpPattern.v
CStruct.v
Kernel.v
SimKernel.v
Memalloc.v
MemallocSpec.v
Spdc.v
PortableOs.v
Sdma.v
SdmaCopy.v
SdmaCopySpec.v
SdmaMem.v
SdmaMemSpec.v
KmTest.v
KmTestSpec.v
Dryice.v
DryiceTests.v
Rand16.v
DryiceSpec.v
DryiceKeys.v
Rng.v
RngSpec.v
RngSession.v
Scc.v
SccSpec.v
Scc2.v
Scc2Spec.v
SocCheck.v
Dptc.v
UserProc.v
ShwHelp.v
RngProgram.v
RngProgramSpec.v
SccProgram.v
SccProgramSpec.v
Asrc.v
AsrcSpec.v
AsrcHeader.v
AsrcPlay.v
AsrcFile.v
