(* ===== verification/Prelude.v ===== *)
(** * Verification of the i.MX unit tests

    The repository holds programs and kernel modules that exercise i.MX
    processors under Linux.  Most of it drives hardware and prints what comes
    back; this development models the parts with logic of their own and
    proves what makes them correct, or shows where they are not.

    ** The program and its model

    Kernel modules ([src/module_test], headers in [src/include]).  Each is a
    character device: [init] registers it, [open], [ioctl], [mmap] and [close]
    serve processes, [cleanup] unregisters it.  They share no state with each
    other; each calls the kernel and one hardware driver.

    - [CStruct]: C structures as bytes with computed offsets (ARM EABI),
      member access, ioctl numbers.
    - [Kernel]: the services of the kernel the modules call: user copies, the
      allocators, registrations, mappings.  What the kernel decides is the
      class [Kernel], what callers may rely on is [KernelLaws]; the state the
      services keep is in the record [kernel].  [SimKernel] is an instance
      that satisfies the laws and that the witnesses run on.
    - [Memalloc], [MemallocSpec]: [memalloc.c], buffers for a video encoder.
      [heap_list] is the list of buffers; a finite map from bus addresses to
      sizes is the specification the operations refine.
    - [Spdc]: [spdc_test_driver.c], commands for the display controller, and
      the table of them the handler is equivalent to.
    - [PortableOs]: the layer of [portable_os.h] (not in the repository) the
      security modules use, including which handler serves which call.
    - [Rng], [RngSpec], [RngSession]: [rng_test_driver.c], random numbers, and
      any interleaving of the files of the module.
    - [Scc], [SccSpec]: [scc_test_driver.c], registers, cipher and key slots
      of the first security controller.
    - [Scc2], [Scc2Spec]: [scc2_test_driver.c], registers and memory
      partitions of the second one; its ioctls exclude each other by a mutex,
      and several processes are a step relation ([Scc2.step]).
    - [Sdma]: what the two SDMA modules share, and [mxc_sdma_test.c], the
      program that drives either through a record of file operations
      ([Sdma.file_operations]).  [SdmaCopy], [SdmaCopySpec]:
      [mxc_sdma_memcopy_test.c], buffers that the DMA engine copies.
      [SdmaMem], [SdmaMemSpec]: [mxc_sdma_mem_test.c], the older test of one
      transfer between two buffers.
    - [KmTest], [KmTestSpec]: [km_test.c], test suites of the SHW library
      started by what a process writes, with the interpreter of these commands
      in [mxc_sahara_test/run_tests.c].  A suite is a computation on kernel
      memory, library and log.
    - [Dryice], [DryiceTests]: [dryice_test.c], the tests of the DryIce driver,
      run when the module is loaded.  [DryiceSpec] (tamper test, end and
      bounds), [DryiceKeys] (the key tests), [Rand16] (the generator of keys).
    - [SocCheck]: [soc_check.h], the test whether a program applies to the
      processor it runs on.  [Dptc]: the messages of [dptc_daemon.h].

    Programs ([src/test]).

    - [Etm], [EtmSafety], [EtmPackets], [EtmAtoms], [EtmFormatter]: the trace
      decoder [etm/etm.c], which reads a byte stream and prints one line per
      packet.  [struct state] is the record [state]; each packet decoder is a
      definition of the same name; [decode_loop] is the loop of [main].
    - [Device], [Memtool], [MemtoolSpec], [MemtoolCmds], [MemtoolMain],
      [MemtoolTables]: [memtool/memtool.c], which reads and writes registers
      through [/dev/mem] by the tables of [mx6ul_modules.c] and its siblings.
      The globals [g_...] are the record [globals].
    - [LtpPattern]: [mxc_pmic_test/lib/pattern.c], pattern buffers.
    - [Asrc]: [mxc_asrc_test/mxc_asrc_test.c], which converts the sample rate
      of a WAV file by the ASRC device; [struct audio_info_s] is the record
      [audio_info_s], the other globals and the two files are in [world].
      [AsrcSpec] (size of the output), [AsrcHeader] (WAV files and parsing),
      [AsrcPlay] (the loop around the device), [AsrcFile] (from the command
      line to the output file).
    - [UserProc]: a process that drives a module of this repository.  Its
      memory is the user memory of the record [kernel], so the structures it
      passes to [ioctl] are the ones the module reads and writes; a system
      call runs the module's entry point.
    - [RngProgram], [RngProgramSpec]: [mxc_rng_test/rng_test.c] on top of
      [Rng].  [ShwHelp]: [mxc_sahara_test/apihelp.c], helpers of its library's
      tests.
    - [SccProgram], [SccProgramSpec]: [mxc_scc/scc_test.c] on top of [Scc];
      the program's variables are the record [scc_vars], its structures on the
      stack are at the [places].

    Shared below them: [CInt] (machine integers with their wrap-around),
    [CMonad] (effects: a state monad whose outcomes are a value, [exit],
    undefined behaviour, or fuel used up; weakest preconditions [wp]), [CStr]
    (C strings).

    ** What the theorems show

    - Memory safety and resource balance: the buffer driver keeps its list,
      the allocations and its specification consistent over every sequence of
      calls ([memalloc_refines], [memalloc_reachable_safe]); no command of the
      first security module but the two key commands changes what is
      allocated, and only cipher requests with certain addresses and lengths
      can run out of their buffers ([scc_ioctl_keeps_memory]); a request for random bytes stays
      in its buffer exactly when it is whole words
      ([random_request_in_bounds_iff]); raw reads of memtool stay in their
      mapping; however the files of the random number module are used, each
      open file owns its own context and nothing else is left behind, and every
      call returns but a request for random bytes that overruns its buffer
      ([rng_contexts_owned]); the SHW module balances its own memory, and
      what is left after a session is what test suites kept
      ([km_session_balanced]).
    - Function: what a cipher, random number or partition request delivers,
      what a register or partition returns after it was written, what the
      commands of memtool do, what each trace packet decodes to, what the
      processor and pattern checks decide, which suites a written text runs
      ([km_write_runs_commands]), what the tests report on drivers that work
      and on drivers that do not ([sdma_copy_session], [sdma_mem_session],
      [key_tests_pass], [stuck_byte_detected], [tamper_test_decides],
      [rand16_full_period]), how a WAV file is read
      ([header_parser_reads_wav]).
    - Program and module together: the bytes the kernel's generator gives are
      the numbers the program prints ([rng_program_kernel_random]); the cipher
      test exits with 0 exactly if the controller encrypts the plain text and
      gives it back, from the cipher text or, if asked to, from one with a
      wrong bit ([scc_program_cipher_status]).
    - Progress: the trace decoder ends on every input, though with the
      formatter it may meet an undefined shift ([main_terminates]); the
      requests of competing processes all end and exclude each other, unless
      one makes the driver follow an address that lies in no partition
      ([scc2_requests_complete]); the DryIce tests end whatever the driver
      answers ([dryice_init_total]).
    - Equivalence and refinement: the display module is its command table
      ([spdc_session_equiv]); memtool's page cache is invisible
      ([page_cache_transparent]); the computation of the converter's buffer
      size is a division ([asrc_output_size_is_quotient]), and the converter
      refines a stream of blocks through the device from one WAV file to
      another ([asrc_main_converts]).
    - Loading and unloading restore the kernel's registrations
      ([load_unload_restores], [spdc_load_unload], [rng_load_unload],
      [scc2_load_unload]).
    - Errors: where the code departs from its comments or its evident
      intention, the theorem states what it does: keys that are not freed,
      [mmap] served by the close handler, a registration of another driver
      removed ([scc_load_outcome]), nodes and contexts lost on error paths,
      error codes overwritten.

    ** Conventions

    Definitions have the names of the C functions.  A function that touches
    state has type [M W A]; an undefined operation of C is the outcome
    [Undef], so that a proved [wp] (or [wpu False]) excludes it.  Debugging
    output compiled in by a macro is controlled by a [bool] parameter.  Fuel:
    a loop that is not structural takes a number of turns; the callers pass
    the length of the list ([memalloc_free_buffers]), the input that is left
    ([formatter_fuel], [decode_loop]) or a bound from the buffer
    ([pattern_fill], [widen_loop]); the polls of a
    DryIce test are counted by the code itself ([tamper_fuel], 1002); the
    fuel of the conversion loop is a parameter that has to exceed the length
    of the output, as each turn adds to it; the theorems show that the outcome [NoFuel] does not
    occur.  A lock that is taken twice by the same process is [NoFuel] too: it
    waits for ever.  Hardware drivers are classes ([SccDriver], [Scc2Driver],
    [RngDriver], [Spdc], [DmaEngine], [MxcDma], [Shw], [DryIce],
    [AsrcDevice], the library of a process [UserShw]) whose operations are arbitrary functions of the driver's
    state; the properties the code relies on are their laws ([DmaCopies],
    [MxcDmaWorks], [DryIceLaws], [KeepsKeys], [AsrcLaws] and so on), each with
    an instance that the witnesses run on.  Numbers of headers outside the
    repository are the classes [ShwCodes], [RngRegisters] and [SccHeader].
    Callbacks and completions are delivered where the code waits or after each
    call of the driver.

    ** Not modelled

    The kernel, the hardware drivers and [portable_os.h] beyond the classes
    above; interrupts; changes a process makes to its memory while a call
    runs; the two commands of the second security module whose structure no
    header declares; the suites that the SHW module starts, of which the
    theorems assume that they end, add to their counters and leave the memory
    of others alone ([SuitesCount]), not that they free their own; delays, and [free] and [close] of programs, which have
    no effect on what is stated; the other programs under [src/test], which
    drive a device and print; the register tables of memtool but three
    modules of the i.MX6UL, as they are data of the same shape; build files
    and shell scripts.

    ** What may follow

    Slot bookkeeping of the first security module against a stateful driver;
    the key commands of its test program as a theorem, which is run on
    examples here ([wrap_mismatch_succeeds]); several processes in the buffer
    driver, whose ioctls do not take its lock. *)
From stdpp Require Export base tactics numbers list strings option.
From Stdlib Require Export ZArith Lia Ascii.

Open Scope Z_scope.

(** Byte lists and the like are lists of [Z]; [zlen] is a C [int] length. *)
Abbreviation zlen l := (Z.of_nat (length l)).

Create HintDb cint.
Create HintDb keeps.
