(* ===== verification/CInt.v ===== *)
(** * C integers

    The programs are built for 32-bit ARM Linux (ILP32: [int], [long] and
    pointers have 32 bits, [long long] and [uint64_t] have 64).  A C value is
    a [Z] in the range of its type.  [u8 .. u64] are the conversions to the
    unsigned types, [i32] and [i64] those to the signed ones (two's
    complement, what the compilers of the target implement). *)
From S2P Require Import Prelude.

Definition wrap (w z : Z) : Z := z mod 2 ^ w.
Definition swrap (w z : Z) : Z :=
  let u := wrap w z in if u <? 2 ^ (w - 1) then u else u - 2 ^ w.

Abbreviation u8 := (wrap 8).
Abbreviation u16 := (wrap 16).
Abbreviation u32 := (wrap 32).
Abbreviation u64 := (wrap 64).
Abbreviation i32 := (swrap 32).
Abbreviation i64 := (swrap 64).

(** The truth value of a C integer, and the integer of a comparison. *)
Definition truth (z : Z) : bool := negb (z =? 0).
Definition b2z (b : bool) : Z := if b then 1 else 0.
Lemma truth_true z : z <> 0 -> truth z = true.
Proof. intros Hz. unfold truth. by rewrite (proj2 (Z.eqb_neq z 0)). Qed.

(** Operators used on [uint32_t] operands. *)
Definition not32 (z : Z) : Z := u32 (Z.lnot z).
Definition shl32 (z n : Z) : Z := u32 (Z.shiftl z n).

Definition in_uint (w z : Z) : Prop := 0 <= z < 2 ^ w.
Definition in_sint (w z : Z) : Prop := - 2 ^ (w - 1) <= z < 2 ^ (w - 1).

Section Range.
Implicit Types w n a b z : Z.

Lemma pow2_pos w : 0 <= w -> 0 < 2 ^ w.
Proof. intros. apply Z.pow_pos_nonneg; lia. Qed.

Lemma wrap_range w z : 0 <= w -> in_uint w (wrap w z).
Proof. intros. apply Z.mod_pos_bound, pow2_pos. lia. Qed.

Lemma wrap_id w z : in_uint w z -> wrap w z = z.
Proof. apply Z.mod_small. Qed.

Lemma wrap_wrap w z : 0 <= w -> wrap w (wrap w z) = wrap w z.
Proof. intros. apply wrap_id, wrap_range. lia. Qed.

Lemma wrap_add_l w a b : 0 <= w -> wrap w (wrap w a + b) = wrap w (a + b).
Proof. intros. unfold wrap. rewrite Zplus_mod_idemp_l. done. Qed.

Lemma swrap_id w z : 0 < w -> in_sint w z -> swrap w z = z.
Proof.
  intros Hw [Hl Hu]. unfold swrap, wrap.
  assert (2 ^ w = 2 * 2 ^ (w - 1)) as E by (rewrite <- Z.pow_succ_r by lia; f_equal; lia).
  pose proof (pow2_pos (w - 1) ltac:(lia)).
  destruct (decide (0 <= z)).
  - rewrite Z.mod_small by lia. destruct (Z.ltb_spec z (2 ^ (w - 1))); lia.
  - rewrite <- (Z.mod_add z 1 (2 ^ w)) by lia. rewrite Z.mod_small by lia.
    destruct (Z.ltb_spec (z + 1 * 2 ^ w) (2 ^ (w - 1))); lia.
Qed.

Lemma swrap_range w z : 0 < w -> in_sint w (swrap w z).
Proof.
  intros Hw. unfold swrap, in_sint.
  assert (2 ^ w = 2 * 2 ^ (w - 1)) as E by (rewrite <- Z.pow_succ_r by lia; f_equal; lia).
  pose proof (wrap_range w z ltac:(lia)) as [? ?].
  destruct (Z.ltb_spec (wrap w z) (2 ^ (w - 1))); lia.
Qed.

Lemma testbit_wrap w z n :
  0 <= w -> Z.testbit (wrap w z) n = (n <? w) && Z.testbit z n.
Proof.
  intros. unfold wrap. destruct (Z.ltb_spec n w).
  - rewrite Z.mod_pow2_bits_low by lia. done.
  - rewrite Z.mod_pow2_bits_high by lia. done.
Qed.

Lemma testbit_uint w z n : in_uint w z -> w <= n -> Z.testbit z n = false.
Proof.
  intros Hz Hn. destruct (decide (0 <= w)) as [Hw|Hw].
  - rewrite <- (wrap_id w z Hz), testbit_wrap by lia.
    destruct (Z.ltb_spec n w); [lia | done].
  - unfold in_uint in Hz. rewrite Z.pow_neg_r in Hz by lia. lia.
Qed.

Lemma uint_testbit w z :
  0 <= w -> (forall n, w <= n -> Z.testbit z n = false) -> in_uint w z.
Proof.
  intros Hw Hz.
  replace z with (wrap w z); [apply wrap_range; lia|].
  apply Z.bits_inj'. intros n Hn. rewrite testbit_wrap by lia.
  destruct (Z.ltb_spec n w) as [|Hle]; [done|]. by rewrite Hz.
Qed.

Lemma land_uint_l w a b : 0 <= w -> in_uint w a -> in_uint w (Z.land a b).
Proof.
  intros Hw Ha. apply uint_testbit; [lia|]. intros n Hn.
  rewrite Z.land_spec, (testbit_uint w a n Ha Hn). done.
Qed.

Lemma land_uint_r w a b : 0 <= w -> in_uint w b -> in_uint w (Z.land a b).
Proof. rewrite Z.land_comm. apply land_uint_l. Qed.

Lemma lor_uint w a b :
  0 <= w -> in_uint w a -> in_uint w b -> in_uint w (Z.lor a b).
Proof.
  intros Hw Ha Hb. apply uint_testbit; [lia|]. intros n Hn.
  rewrite Z.lor_spec, (testbit_uint w a n Ha Hn), (testbit_uint w b n Hb Hn). done.
Qed.

Lemma lxor_uint w a b :
  0 <= w -> in_uint w a -> in_uint w b -> in_uint w (Z.lxor a b).
Proof.
  intros Hw Ha Hb. apply uint_testbit; [lia|]. intros n Hn.
  rewrite Z.lxor_spec, (testbit_uint w a n Ha Hn), (testbit_uint w b n Hb Hn). done.
Qed.

Lemma shiftr_uint w a n : 0 <= w -> 0 <= n -> in_uint w a -> in_uint w (Z.shiftr a n).
Proof.
  intros Hw Hn Ha. apply uint_testbit; [lia|]. intros k Hk.
  rewrite Z.shiftr_spec by lia. apply (testbit_uint w); [done|lia].
Qed.

Lemma uint_weaken w w' z : 0 <= w <= w' -> in_uint w z -> in_uint w' z.
Proof.
  unfold in_uint. intros Hw [? ?].
  pose proof (Z.pow_le_mono_r 2 w w' ltac:(lia) ltac:(lia)). lia.
Qed.
End Range.

Lemma i32_u32 z : i32 (u32 z) = i32 z.
Proof. unfold swrap, wrap. by rewrite Z.mod_mod by lia. Qed.

Lemma u32_i32 z : u32 (i32 z) = u32 z.
Proof.
  unfold swrap. case_match; [by apply wrap_wrap|].
  unfold wrap. rewrite <- Zminus_mod_idemp_r, Z.mod_same, Z.sub_0_r by lia.
  apply Z.mod_mod. lia.
Qed.

(** A narrower conversion does not see a wider one. *)
Lemma wrap_wrap_le k w z : 0 <= k <= w -> wrap k (wrap w z) = wrap k z.
Proof.
  intros. apply Z.bits_inj'. intros n Hn. rewrite !testbit_wrap by lia.
  destruct (Z.ltb_spec n k), (Z.ltb_spec n w); try lia; done.
Qed.

Lemma wrap_i32 k z : 0 <= k <= 32 -> wrap k (i32 z) = wrap k z.
Proof.
  intros. by rewrite <- (wrap_wrap_le k 32 (i32 z)), u32_i32, wrap_wrap_le by lia.
Qed.

Lemma shl32_range z n : in_uint 32 (shl32 z n).
Proof. by apply wrap_range. Qed.
Lemma not32_range z : in_uint 32 (not32 z).
Proof. by apply wrap_range. Qed.

#[export] Hint Resolve shl32_range not32_range wrap_range land_uint_l land_uint_r lor_uint lxor_uint : cint.
#[export] Hint Extern 1 (0 <= _) => lia : cint.
#[export] Hint Extern 5 (in_uint _ (Zpos _)) => (unfold in_uint; lia) : cint.
#[export] Hint Extern 5 (in_uint _ Z0) => (unfold in_uint; lia) : cint.

(** ** Bit fields

    [ones len] shifted to [pos] is the mask of a field; [put_field] replaces
    the field, the operation every bit-field writer below computes. *)
Definition field_mask (pos len : Z) : Z := Z.shiftl (Z.ones len) pos.
Definition put_field (pos len old v : Z) : Z :=
  Z.lor (Z.land old (Z.lnot (field_mask pos len))) (Z.land (Z.shiftl v pos) (field_mask pos len)).
Definition get_field (pos len z : Z) : Z := Z.land (Z.shiftr z pos) (Z.ones len).

Section Fields.
Implicit Types pos len n old v z : Z.

Lemma testbit_ones len n : 0 <= len -> 0 <= n -> Z.testbit (Z.ones len) n = (n <? len).
Proof.
  intros. destruct (Z.ltb_spec n len).
  - apply Z.ones_spec_low. lia.
  - apply Z.ones_spec_high. lia.
Qed.

Lemma testbit_shiftl z pos n :
  0 <= n -> Z.testbit (Z.shiftl z pos) n = Z.testbit z (n - pos).
Proof. intros. apply Z.shiftl_spec. lia. Qed.

Lemma testbit_field_mask pos len n :
  0 <= pos -> 0 <= len -> 0 <= n ->
  Z.testbit (field_mask pos len) n = (pos <=? n) && (n <? pos + len).
Proof.
  intros. unfold field_mask. rewrite testbit_shiftl by lia.
  destruct (Z.leb_spec pos n).
  - rewrite testbit_ones by lia. simpl. apply Bool.eq_iff_eq_true; rewrite !Z.ltb_lt; lia.
  - rewrite Z.testbit_neg_r by lia. done.
Qed.

Lemma testbit_put_field pos len old v n :
  0 <= pos -> 0 <= len -> 0 <= n ->
  Z.testbit (put_field pos len old v) n =
  if (pos <=? n) && (n <? pos + len) then Z.testbit v (n - pos) else Z.testbit old n.
Proof.
  intros. unfold put_field.
  rewrite Z.lor_spec, !Z.land_spec, Z.lnot_spec, testbit_field_mask, testbit_shiftl by lia.
  destruct ((pos <=? n) && (n <? pos + len)); simpl;
    rewrite ?andb_true_r, ?andb_false_r, ?orb_false_r; done.
Qed.

Lemma testbit_get_field pos len z n :
  0 <= pos -> 0 <= len -> 0 <= n ->
  Z.testbit (get_field pos len z) n = (n <? len) && Z.testbit z (n + pos).
Proof.
  intros. unfold get_field.
  rewrite Z.land_spec, Z.shiftr_spec, testbit_ones by lia. apply andb_comm.
Qed.

Lemma get_put_field pos len old v :
  0 <= pos -> 0 <= len -> get_field pos len (put_field pos len old v) = wrap len v.
Proof.
  intros. apply Z.bits_inj'. intros n Hn.
  rewrite testbit_get_field, testbit_put_field, testbit_wrap by lia.
  destruct (Z.ltb_spec n len); simpl; [|done].
  replace ((pos <=? n + pos) && (n + pos <? pos + len)) with true
    by (symmetry; rewrite andb_true_iff, Z.leb_le, Z.ltb_lt; lia).
  f_equal. lia.
Qed.

Lemma put_field_uint w pos len old v :
  0 <= pos -> 0 <= len -> pos + len <= w ->
  in_uint w old -> in_uint w (put_field pos len old v).
Proof.
  intros ? ? ? Hold. apply uint_testbit; [lia|]. intros n Hn.
  rewrite testbit_put_field by lia.
  destruct (Z.ltb_spec n (pos + len)); [lia|]. rewrite andb_false_r.
  eapply testbit_uint; eauto.
Qed.
End Fields.

(** ** Assembling a number from groups of bits *)
Definition splice (pos len old z : Z) : Z := put_field pos len old (Z.shiftr z pos).

Section Groups.
Implicit Types w pos len n old v z : Z.

Lemma wrap_lor w a b : 0 <= w -> wrap w (Z.lor a b) = Z.lor (wrap w a) (wrap w b).
Proof.
  intros. apply Z.bits_inj'. intros n Hn. rewrite Z.lor_spec, !testbit_wrap, Z.lor_spec by lia.
  by destruct (n <? w).
Qed.

(** The next group of [z], or-ed in above the groups already there. *)
Lemma join_group w pos len z :
  0 <= w -> 0 <= pos -> 0 <= len ->
  Z.lor (wrap w (wrap pos z)) (wrap w (Z.shiftl (Z.land (Z.shiftr z pos) (Z.ones len)) pos)) =
  wrap w (wrap (pos + len) z).
Proof.
  intros Hw Hp Hl. rewrite <- wrap_lor by lia. f_equal.
  apply Z.bits_inj'. intros n Hn. rewrite Z.lor_spec, testbit_shiftl, !testbit_wrap by lia.
  destruct (Z.ltb_spec n pos).
  - rewrite (Z.testbit_neg_r _ (n - pos)) by lia.
    destruct (Z.ltb_spec n (pos + len)); [|lia]. by rewrite orb_false_r.
  - rewrite Z.land_spec, Z.shiftr_spec, testbit_ones by lia.
    replace (n - pos + pos) with n by lia. simpl.
    destruct (Z.ltb_spec (n - pos) len), (Z.ltb_spec n (pos + len)); try lia;
      by rewrite ?andb_true_r, ?andb_false_r.
Qed.

(** What the C code writes for a bit-field store at width [w]. *)
Lemma field_store w pos len old v :
  0 <= w -> 0 <= pos -> 0 <= len -> in_uint w old ->
  Z.lor (Z.land old (wrap w (Z.lnot (Z.shiftl (Z.ones len) pos))))
        (wrap w (Z.shiftl (Z.land v (Z.ones len)) pos)) =
  wrap w (put_field pos len old v).
Proof.
  intros Hw Hp Hl Hold. apply Z.bits_inj'. intros n Hn.
  rewrite Z.lor_spec, Z.land_spec, !testbit_wrap, Z.lnot_spec, testbit_put_field,
    (testbit_field_mask pos len), testbit_shiftl by lia.
  destruct (Z.ltb_spec n w); simpl.
  2: { rewrite (testbit_uint w old n) by done. done. }
  destruct (Z.leb_spec pos n); simpl.
  - rewrite Z.land_spec, testbit_ones by lia.
    destruct (Z.ltb_spec (n - pos) len), (Z.ltb_spec n (pos + len)); try lia; simpl;
      by rewrite ?andb_true_r, ?andb_false_r, ?orb_false_r.
  - rewrite (Z.testbit_neg_r _ (n - pos)) by lia. by rewrite andb_true_r, orb_false_r.
Qed.

Lemma wrap_lnot_wrap w z : 0 <= w -> wrap w (Z.lnot (wrap w z)) = wrap w (Z.lnot z).
Proof.
  intros. apply Z.bits_inj'. intros n Hn.
  rewrite !testbit_wrap, !Z.lnot_spec, testbit_wrap by lia. by destruct (n <? w).
Qed.

(** [(old & ~(mask << pos)) | ((v & mask) << pos)] on 32-bit operands. *)
Lemma field_store32 pos len old v :
  0 <= pos -> 0 <= len -> in_uint 32 old ->
  Z.lor (Z.land old (not32 (shl32 (Z.ones len) pos))) (shl32 (Z.land v (Z.ones len)) pos) =
  u32 (put_field pos len old v).
Proof.
  intros. unfold not32, shl32. rewrite wrap_lnot_wrap by lia. by apply field_store.
Qed.

Lemma testbit_splice pos len old z n :
  0 <= pos -> 0 <= len -> 0 <= n ->
  Z.testbit (splice pos len old z) n =
  if (pos <=? n) && (n <? pos + len) then Z.testbit z n else Z.testbit old n.
Proof.
  intros. unfold splice. rewrite testbit_put_field by lia.
  destruct (Z.leb_spec pos n); [|done]. rewrite Z.shiftr_spec by lia.
  by replace (n - pos + pos) with n by lia.
Qed.

Lemma splice_splice pos l1 l2 old z :
  0 <= pos -> 0 <= l1 -> 0 <= l2 ->
  splice (pos + l1) l2 (splice pos l1 old z) z = splice pos (l1 + l2) old z.
Proof.
  intros. apply Z.bits_inj'. intros n Hn. rewrite !testbit_splice by lia.
  destruct (Z.leb_spec (pos + l1) n), (Z.ltb_spec n (pos + l1 + l2)),
    (Z.leb_spec pos n), (Z.ltb_spec n (pos + l1)), (Z.ltb_spec n (pos + (l1 + l2)));
    simpl; try done; lia.
Qed.

Lemma splice_uint w pos len old z :
  0 <= pos -> 0 <= len -> pos + len <= w -> in_uint w old -> in_uint w (splice pos len old z).
Proof. apply put_field_uint. Qed.

(** Splicing in the low bits of a number whose high bits agree. *)
Lemma splice_low len old z :
  0 <= len -> Z.shiftr old len = Z.shiftr z len -> splice 0 len old z = z.
Proof.
  intros Hl E. apply Z.bits_inj'. intros n Hn. rewrite testbit_splice, Z.add_0_l by lia.
  destruct (Z.leb_spec 0 n); [|lia]. destruct (Z.ltb_spec n len); [done|]. simpl.
  pose proof (f_equal (fun x => Z.testbit x (n - len)) E) as Ht. simpl in Ht.
  rewrite !Z.shiftr_spec in Ht by lia. by replace (n - len + len) with n in Ht by lia.
Qed.
End Groups.

(** Deciding a property of all small numbers by computation. *)
Definition all_below (n : nat) (f : Z -> bool) : bool := forallb f (map Z.of_nat (seq 0 n)).
Lemma all_below_spec n f :
  all_below n f = true -> forall b, 0 <= b < Z.of_nat n -> f b = true.
Proof.
  unfold all_below. rewrite forallb_forall. intros Hf b [? ?]. apply Hf.
  replace b with (Z.of_nat (Z.to_nat b)) by lia. apply in_map, in_seq. lia.
Qed.

(** A seven-bit group with and without the continuation bit. *)
Lemma more_group g :
  in_uint 7 g ->
  in_uint 8 (Z.lor g 0x80) /\ Z.land (Z.lor g 0x80) 0x7f = g /\
  Z.land (Z.lor g 0x80) 0x80 = 0x80.
Proof.
  intros Hg.
  pose proof (all_below_spec 128 (fun g => (Z.lor g 0x80 <? 256) && (0 <=? Z.lor g 0x80) &&
    (Z.land (Z.lor g 0x80) 0x7f =? g) && (Z.land (Z.lor g 0x80) 0x80 =? 0x80))
    ltac:(vm_compute; done) g Hg) as H. cbv beta in H.
  rewrite !andb_true_iff, Z.ltb_lt, Z.leb_le, !Z.eqb_eq in H. unfold in_uint. lia.
Qed.

Lemma last_group g :
  in_uint 7 g -> in_uint 8 g /\ Z.land g 0x7f = g /\ Z.land g 0x80 = 0.
Proof.
  intros Hg.
  pose proof (all_below_spec 128 (fun g => (Z.land g 0x7f =? g) && (Z.land g 0x80 =? 0))
    ltac:(vm_compute; done) g Hg) as H. cbv beta in H.
  rewrite !andb_true_iff, !Z.eqb_eq in H. unfold in_uint in *. lia.
Qed.
