(* ===== verification/CMonad.v ===== *)
(** * Effects of a C program

    A C function that touches global state, prints, exits or can run into
    undefined behaviour is a value of [M W A]: it takes the world and returns
    an outcome and the world it leaves.  [Exit c] is [exit(c)], [Undef] is
    undefined behaviour of the source (a null pointer handed to [strcmp], an
    index out of bounds), and [NoFuel] is the bound of a loop that was not
    structural; theorems show that it is not reached. *)
From S2P Require Import Prelude CInt.

Inductive outcome (A : Type) : Type :=
  | Ret (a : A)
  | Exit (code : Z)
  | Undef
  | NoFuel.
Arguments Ret {A} a.
Arguments Exit {A} code.
Arguments Undef {A}.
Arguments NoFuel {A}.

Definition M (W A : Type) : Type := W -> outcome A * W.

#[export] Instance M_ret {W} : MRet (M W) := fun A a w => (Ret a, w).
#[export] Instance M_bind {W} : MBind (M W) := fun A B k m w =>
  match m w with
  | (Ret a, w') => k a w'
  | (Exit c, w') => (Exit c, w')
  | (Undef, w') => (Undef, w')
  | (NoFuel, w') => (NoFuel, w')
  end.

Section Ops.
Context {W : Type}.
Definition exit {A} (code : Z) : M W A := fun w => (Exit code, w).
Definition undef {A} : M W A := fun w => (Undef, w).
Definition no_fuel {A} : M W A := fun w => (NoFuel, w).
Definition gets {A} (f : W -> A) : M W A := fun w => (Ret (f w), w).
Definition modify (f : W -> W) : M W unit := fun w => (Ret tt, f w).
Definition skip : M W unit := mret tt.
Definition when (b : bool) (m : M W unit) : M W unit := if b then m else skip.

(** [while (n--) body], and [for (i = i0; i < i0 + n; i++) body(i)]. *)
Fixpoint times (n : nat) (body : M W unit) : M W unit :=
  match n with
  | O => skip
  | S n => body;; times n body
  end.
Fixpoint for_m (n : nat) (i : Z) (body : Z -> M W unit) : M W unit :=
  match n with
  | O => skip
  | S n => body i;; for_m n (i + 1) body
  end.
End Ops.

(** Two sequences agree when their parts do. *)
Lemma bind_ext {W A B} (m : M W A) (k1 k2 : A -> M W B) w :
  (forall a w', k1 a w' = k2 a w') -> (m ≫= k1) w = (m ≫= k2) w.
Proof. intros Hk. unfold mbind, M_bind. destruct (m w) as [[] ?]; auto. Qed.

Lemma bind_eq {W A B} (m : M W A) (k : A -> M W B) w a w1 r :
  m w = (Ret a, w1) -> k a w1 = r -> (m ≫= k) w = r.
Proof. unfold mbind, M_bind. by intros -> <-. Qed.

(** ** What a program prints

    One value per call of [printf]: the format string, escapes as in the
    source, and the arguments.  The log is kept newest first. *)
Inductive parg := AInt (z : Z) | AStr (s : string).
Record print := Printf { fmt : string; args : list parg }.
Coercion AInt : Z >-> parg.

Class Output (W : Type) := {
  log : W -> list print;
  emit : print -> W -> W;
  log_emit p w : log (emit p w) = p :: log w;
}.

Definition printf `{Output W} (f : string) (a : list parg) : M W unit :=
  modify (emit (Printf f a)).

(** ** Weakest preconditions

    [wpu U m Q E w]: run from [w], [m] returns with [Q] or exits with [E];
    it does not run out of fuel, and it meets undefined behaviour only if [U]
    holds.  [wp] allows none. *)
Definition wpu {W A} (U : Prop) (m : M W A) (Q : A -> W -> Prop) (E : Z -> W -> Prop)
    (w : W) : Prop :=
  match m w with
  | (Ret a, w') => Q a w'
  | (Exit c, w') => E c w'
  | (Undef, _) => U
  | (NoFuel, _) => False
  end.
Abbreviation wp := (wpu False).

Section Wp.
Context {W : Type} (U : Prop).
Implicit Types E : Z -> W -> Prop.

Lemma wp_ret {A} (a : A) (Q : A -> W -> Prop) E w : Q a w -> wpu U (mret a) Q E w.
Proof. done. Qed.

Lemma wp_bind {A B} (m : M W A) (k : A -> M W B) (Q : B -> W -> Prop) E w :
  wpu U m (fun a w' => wpu U (k a) Q E w') E w -> wpu U (m ≫= k) Q E w.
Proof. unfold wpu, mbind, M_bind. destruct (m w) as [[] ?]; done. Qed.

Lemma wp_exit {A} c (Q : A -> W -> Prop) E w : E c w -> wpu U (exit c) Q E w.
Proof. done. Qed.

Lemma wp_undef {A} (Q : A -> W -> Prop) E w : U -> wpu U undef Q E w.
Proof. done. Qed.

Lemma wp_gets {A} (f : W -> A) (Q : A -> W -> Prop) E w : Q (f w) w -> wpu U (gets f) Q E w.
Proof. done. Qed.

Lemma wp_modify (f : W -> W) (Q : unit -> W -> Prop) E w : Q tt (f w) -> wpu U (modify f) Q E w.
Proof. done. Qed.

Lemma wp_printf `{Output W} f a (Q : unit -> W -> Prop) E w :
  Q tt (emit (Printf f a) w) -> wpu U (printf f a) Q E w.
Proof. done. Qed.

Lemma wp_skip (Q : unit -> W -> Prop) E w : Q tt w -> wpu U skip Q E w.
Proof. done. Qed.

Lemma wp_mono {A} (m : M W A) (Q Q' : A -> W -> Prop) E w :
  wpu U m Q E w -> (forall a w', Q a w' -> Q' a w') -> wpu U m Q' E w.
Proof. unfold wpu. destruct (m w) as [[] ?]; eauto. Qed.

Lemma wp_mono_exit {A} (m : M W A) (Q Q' : A -> W -> Prop) E E' w :
  wpu U m Q E w -> (forall a w', Q a w' -> Q' a w') -> (forall c w', E c w' -> E' c w') ->
  wpu U m Q' E' w.
Proof. unfold wpu. destruct (m w) as [[] ?]; eauto. Qed.

(** A run that is defined is one that need not be. *)
Lemma wp_allow {A} (m : M W A) (Q : A -> W -> Prop) E w : wp m Q E w -> wpu U m Q E w.
Proof. unfold wpu. by destruct (m w) as [[] ?]. Qed.

(** Two properties of one run. *)
Lemma wp_conj {A} (U' : Prop) (m : M W A) (Q Q' : A -> W -> Prop) E E' w :
  wpu U m Q E w -> wpu U' m Q' E' w -> wpu U m (fun a w' => Q a w' /\ Q' a w') E w.
Proof. unfold wpu. destruct (m w) as [[] ?]; auto. Qed.

Lemma wp_times (I : W -> Prop) n (body : M W unit) E w :
  I w -> (forall w, I w -> wpu U body (fun _ => I) E w) ->
  wpu U (times n body) (fun _ => I) E w.
Proof.
  intros HI Hb. revert w HI. induction n as [|n IH]; intros w HI; simpl; [done|].
  apply wp_bind. eapply wp_mono; [by apply Hb|]. auto.
Qed.

Lemma wp_for (I : W -> Prop) n i (body : Z -> M W unit) E w :
  I w -> (forall j w, i <= j < i + Z.of_nat n -> I w -> wpu U (body j) (fun _ => I) E w) ->
  wpu U (for_m n i body) (fun _ => I) E w.
Proof.
  revert i w. induction n as [|n IH]; intros i w HI Hb; simpl; [done|].
  apply wp_bind. eapply wp_mono; [apply Hb; [lia|done]|].
  intros ? w' HI'. apply IH; [done|]. intros j u Hj. apply Hb. lia.
Qed.

(** A computation that keeps an invariant and is safe to run. *)
Definition keeps {A} (I : W -> Prop) (m : M W A) : Prop :=
  forall w, I w -> wpu U m (fun _ => I) (fun _ => I) w.

Lemma keeps_bind {A B} I (m : M W A) (k : A -> M W B) :
  keeps I m -> (forall a, keeps I (k a)) -> keeps I (m ≫= k).
Proof.
  intros Hm Hk w HI. apply wp_bind. eapply wp_mono; [by apply Hm|]. intros; by apply Hk.
Qed.

Lemma keeps_ret {A} I (a : A) : keeps I (mret a).
Proof. intros w HI. done. Qed.

Lemma keeps_when I b m : keeps I m -> keeps I (when b m).
Proof. destruct b; [done|]. intros _. apply (keeps_ret I tt). Qed.

Lemma keeps_times I n m : keeps I m -> keeps I (times n m).
Proof. intros Hm w HI. by apply wp_times. Qed.
End Wp.

Arguments wp_mono {W} U {A} m Q Q' E w.

(** [wp_step] applies the rule of the head of the computation. *)
Ltac wp_step :=
  lazymatch goal with
  | |- wpu _ (mbind _ _) _ _ _ => apply wp_bind
  | |- wpu _ (mret _) _ _ _ => apply wp_ret
  | |- wpu _ (exit _) _ _ _ => apply wp_exit
  | |- wpu _ undef _ _ _ => apply wp_undef
  | |- wpu _ (gets _) _ _ _ => apply wp_gets
  | |- wpu _ (modify _) _ _ _ => apply wp_modify
  | |- wpu _ (printf _ _) _ _ _ => apply wp_printf
  | |- wpu _ skip _ _ _ => apply wp_skip
  | |- wpu _ (when ?b _) _ _ _ => unfold when; destruct b eqn:?
  | |- wpu _ (if ?b then _ else _) _ _ _ => destruct b eqn:?
  end; cbv beta.
Ltac wp_steps := repeat wp_step.
