(* ===== verification/CStr.v ===== *)
(** * C strings

    A NUL-terminated [char *] is a [string] (no NUL inside).  These are the
    functions of [<string.h>] and [<stdlib.h>] the programs call, with the
    behaviour the C standard gives them on 32-bit [long]. *)
From S2P Require Import Prelude CInt.

Definition chr (c : ascii) : Z := Z.of_N (N_of_ascii c).

Fixpoint strlen (s : string) : Z :=
  match s with EmptyString => 0 | String _ s => 1 + strlen s end.

(** [strcmp(a, b) == 0]. *)
Definition streq (a b : string) : bool := String.eqb a b.

(** [strncmp(s, p, strlen(p)) == 0]. *)
Fixpoint starts_with (p s : string) : bool :=
  match p, s with
  | EmptyString, _ => true
  | String a p, String b s => Ascii.eqb a b && starts_with p s
  | String _ _, EmptyString => false
  end.

(** [strstr(s, sub)]: the suffix where [sub] first occurs. *)
Fixpoint strstr (s sub : string) : option string :=
  if starts_with sub s then Some s
  else match s with EmptyString => None | String _ s => strstr s sub end.

(** [str = strchr(s, c)] followed by [*str = 0]: what is left before [c], and
    what follows it; [None] when [c] does not occur. *)
Fixpoint cut (c : ascii) (s : string) : option (string * string) :=
  match s with
  | EmptyString => None
  | String a s =>
      if Ascii.eqb a c then Some (EmptyString, s)
      else match cut c s with
           | Some (l, r) => Some (String a l, r)
           | None => None
           end
  end.

Definition isspace (c : ascii) : bool := (chr c =? 32) || ((9 <=? chr c) && (chr c <=? 13)).

(** The value of a digit in a base up to 36. *)
Definition digit (base : Z) (c : ascii) : option Z :=
  let v := chr c in
  let d := if (48 <=? v) && (v <=? 57) then v - 48
           else if (97 <=? v) && (v <=? 122) then v - 87
           else if (65 <=? v) && (v <=? 90) then v - 55
           else base in
  if d <? base then Some d else None.

Fixpoint skip_space (s : string) : string :=
  match s with
  | EmptyString => EmptyString
  | String c r => if isspace c then skip_space r else s
  end.

(** The longest digit string at the head of [s], and the rest. *)
Fixpoint digits (base acc : Z) (s : string) : Z * string :=
  match s with
  | EmptyString => (acc, EmptyString)
  | String c r =>
      match digit base c with
      | Some d => digits base (acc * base + d) r
      | None => (acc, s)
      end
  end.

Definition sign_of (s : string) : bool * string :=
  match s with
  | String "-" r => (true, r)
  | String "+" r => (false, r)
  | _ => (false, s)
  end.

(** [0x] is a prefix in base 16 only when a hexadecimal digit follows it. *)
Definition drop_0x (base : Z) (s : string) : string :=
  match s with
  | String "0" (String x (String c _ as r)) =>
      if (base =? 16) && ((chr x =? 120) || (chr x =? 88)) &&
         match digit 16 c with Some _ => true | None => false end
      then r else s
  | _ => s
  end.

Definition scan_number (base : Z) (s : string) : bool * Z * string :=
  let '(neg, r) := sign_of (skip_space s) in
  let '(v, rest) := digits base 0 (drop_0x base r) in
  (neg, v, rest).

Definition strtoul (base : Z) (s : string) : Z :=
  let '(neg, v, _) := scan_number base s in
  if 2 ^ 32 <=? v then 2 ^ 32 - 1 else if neg : bool then u32 (- v) else v.

Definition strtol (base : Z) (s : string) : Z :=
  let '(neg, v, _) := scan_number base s in
  let z := if neg : bool then - v else v in
  if z <? - 2 ^ 31 then - 2 ^ 31 else if 2 ^ 31 <=? z then 2 ^ 31 - 1 else z.

Definition atoi (s : string) : Z := strtol 10 s.

Example strtoul_hex : strtoul 16 " 0x1fG" = 31.
Proof. reflexivity. Qed.
Example strtoul_bare_0x : strtoul 16 "0xg" = 0.
Proof. reflexivity. Qed.
Example atoi_neg : atoi "-12abc" = -12.
Proof. reflexivity. Qed.

Lemma streq_spec a b : streq a b = true <-> a = b.
Proof. apply String.eqb_eq. Qed.

Lemma streq_refl a : streq a a = true.
Proof. by apply streq_spec. Qed.

Lemma strlen_nonneg s : 0 <= strlen s.
Proof. induction s; simpl; lia. Qed.

Lemma strlen_pos s : s <> EmptyString -> 0 < strlen s.
Proof. intros Hs. destruct s as [|c s]; [done|]. simpl. pose proof (strlen_nonneg s). lia. Qed.

Lemma cut_app c (l r : string) :
  cut c l = None -> cut c (l +:+ String c r) = Some (l, r).
Proof.
  induction l as [|a l IH]; simpl.
  - intros _. by rewrite Ascii.eqb_refl.
  - destruct (Ascii.eqb a c); [done|].
    destruct (cut c l) as [[]|]; [done|]. intros _. by rewrite IH.
Qed.

Lemma cut_None_app c (l r : string) :
  cut c l = None -> cut c r = None -> cut c (l +:+ r) = None.
Proof.
  induction l as [|a l IH]; simpl; [done|].
  destruct (Ascii.eqb a c); [done|].
  destruct (cut c l) as [[]|]; [done|]. intros _ Hr. by rewrite IH.
Qed.

Lemma starts_with_app p s : starts_with p (p +:+ s) = true.
Proof. induction p as [|a p IH]; simpl; [done|]. by rewrite Ascii.eqb_refl. Qed.

Lemma digit_range base c d : digit base c = Some d -> 0 <= d < base.
Proof.
  unfold digit. intros H.
  repeat match type of H with
  | context [(?a <=? ?b) && (?c <=? ?d)] =>
      destruct (Z.leb_spec a b), (Z.leb_spec c d); simpl in H
  | context [?a <? ?b] => destruct (Z.ltb_spec a b)
  end; simplify_eq; lia.
Qed.

Lemma digits_nonneg base acc s : 0 <= base -> 0 <= acc -> 0 <= (digits base acc s).1.
Proof.
  intros Hb. revert acc. induction s as [|c s IH]; simpl; intros acc Hacc; [done|].
  destruct (digit base c) as [d|] eqn:Hd; [|done].
  apply digit_range in Hd. apply IH. nia.
Qed.

Lemma strtoul_range base s : 0 <= base -> in_uint 32 (strtoul base s).
Proof.
  intros Hb. unfold strtoul, scan_number.
  destruct (sign_of (skip_space s)) as [neg r].
  pose proof (digits_nonneg base 0 (drop_0x base r) Hb ltac:(lia)) as Hv.
  destruct (digits base 0 (drop_0x base r)) as [v rest]. simpl in Hv.
  destruct (Z.leb_spec (2 ^ 32) v); [unfold in_uint; lia|].
  destruct neg; [by apply wrap_range | unfold in_uint; lia].
Qed.
