(* ===== verification/Etm.v ===== *)
(** * ETM trace decoder (test/etm/etm.c)

    The decoder reads a byte stream from standard input (optionally unpacking
    the trace-port formatter), keeps the compression state of an ETMv3 or PFT
    trace, and prints one line per packet. *)
From S2P Require Import Prelude CInt CMonad CStr.

(** ** State

    [struct state]; the fields of type [bool] are C [int]s that [getopt_long]
    stores, so they are integers here too. *)
Record state := mkState {
  s_data : Z;
  s_iaddr : Z;
  s_iaddr_valid : Z;
  s_timestamp : Z;
  s_wait_count : Z;
  s_long_wait : Z;
  s_pc : Z;
  s_branch_count : Z;
  s_mode : Z;
  s_sync : Z;
  s_formatter_packet : list Z;
  s_formatter_index : Z;
  s_sourceid : Z;
  s_contextid_bytes : Z;
  s_sourceid_match : Z;
  s_cycle_accurate : Z;
  s_alt_branch : Z;
  s_program_flow_only : Z;
  s_print_input : Z;
  s_formatter : Z;
}.

Definition set_data (v : Z) (s : state) : state :=
  {| s_data := v; s_iaddr := s_iaddr s; s_iaddr_valid := s_iaddr_valid s; s_timestamp := s_timestamp s;
     s_wait_count := s_wait_count s; s_long_wait := s_long_wait s; s_pc := s_pc s; s_branch_count :=
     s_branch_count s; s_mode := s_mode s; s_sync := s_sync s; s_formatter_packet := s_formatter_packet
     s; s_formatter_index := s_formatter_index s; s_sourceid := s_sourceid s; s_contextid_bytes :=
     s_contextid_bytes s; s_sourceid_match := s_sourceid_match s; s_cycle_accurate := s_cycle_accurate s;
     s_alt_branch := s_alt_branch s; s_program_flow_only := s_program_flow_only s; s_print_input :=
     s_print_input s; s_formatter := s_formatter s |}.
Definition set_iaddr (v : Z) (s : state) : state :=
  {| s_data := s_data s; s_iaddr := v; s_iaddr_valid := s_iaddr_valid s; s_timestamp := s_timestamp s;
     s_wait_count := s_wait_count s; s_long_wait := s_long_wait s; s_pc := s_pc s; s_branch_count :=
     s_branch_count s; s_mode := s_mode s; s_sync := s_sync s; s_formatter_packet := s_formatter_packet
     s; s_formatter_index := s_formatter_index s; s_sourceid := s_sourceid s; s_contextid_bytes :=
     s_contextid_bytes s; s_sourceid_match := s_sourceid_match s; s_cycle_accurate := s_cycle_accurate s;
     s_alt_branch := s_alt_branch s; s_program_flow_only := s_program_flow_only s; s_print_input :=
     s_print_input s; s_formatter := s_formatter s |}.
Definition set_iaddr_valid (v : Z) (s : state) : state :=
  {| s_data := s_data s; s_iaddr := s_iaddr s; s_iaddr_valid := v; s_timestamp := s_timestamp s;
     s_wait_count := s_wait_count s; s_long_wait := s_long_wait s; s_pc := s_pc s; s_branch_count :=
     s_branch_count s; s_mode := s_mode s; s_sync := s_sync s; s_formatter_packet := s_formatter_packet
     s; s_formatter_index := s_formatter_index s; s_sourceid := s_sourceid s; s_contextid_bytes :=
     s_contextid_bytes s; s_sourceid_match := s_sourceid_match s; s_cycle_accurate := s_cycle_accurate s;
     s_alt_branch := s_alt_branch s; s_program_flow_only := s_program_flow_only s; s_print_input :=
     s_print_input s; s_formatter := s_formatter s |}.
Definition set_timestamp (v : Z) (s : state) : state :=
  {| s_data := s_data s; s_iaddr := s_iaddr s; s_iaddr_valid := s_iaddr_valid s; s_timestamp := v;
     s_wait_count := s_wait_count s; s_long_wait := s_long_wait s; s_pc := s_pc s; s_branch_count :=
     s_branch_count s; s_mode := s_mode s; s_sync := s_sync s; s_formatter_packet := s_formatter_packet
     s; s_formatter_index := s_formatter_index s; s_sourceid := s_sourceid s; s_contextid_bytes :=
     s_contextid_bytes s; s_sourceid_match := s_sourceid_match s; s_cycle_accurate := s_cycle_accurate s;
     s_alt_branch := s_alt_branch s; s_program_flow_only := s_program_flow_only s; s_print_input :=
     s_print_input s; s_formatter := s_formatter s |}.
Definition set_wait_count (v : Z) (s : state) : state :=
  {| s_data := s_data s; s_iaddr := s_iaddr s; s_iaddr_valid := s_iaddr_valid s; s_timestamp :=
     s_timestamp s; s_wait_count := v; s_long_wait := s_long_wait s; s_pc := s_pc s; s_branch_count :=
     s_branch_count s; s_mode := s_mode s; s_sync := s_sync s; s_formatter_packet := s_formatter_packet
     s; s_formatter_index := s_formatter_index s; s_sourceid := s_sourceid s; s_contextid_bytes :=
     s_contextid_bytes s; s_sourceid_match := s_sourceid_match s; s_cycle_accurate := s_cycle_accurate s;
     s_alt_branch := s_alt_branch s; s_program_flow_only := s_program_flow_only s; s_print_input :=
     s_print_input s; s_formatter := s_formatter s |}.
Definition set_long_wait (v : Z) (s : state) : state :=
  {| s_data := s_data s; s_iaddr := s_iaddr s; s_iaddr_valid := s_iaddr_valid s; s_timestamp :=
     s_timestamp s; s_wait_count := s_wait_count s; s_long_wait := v; s_pc := s_pc s; s_branch_count :=
     s_branch_count s; s_mode := s_mode s; s_sync := s_sync s; s_formatter_packet := s_formatter_packet
     s; s_formatter_index := s_formatter_index s; s_sourceid := s_sourceid s; s_contextid_bytes :=
     s_contextid_bytes s; s_sourceid_match := s_sourceid_match s; s_cycle_accurate := s_cycle_accurate s;
     s_alt_branch := s_alt_branch s; s_program_flow_only := s_program_flow_only s; s_print_input :=
     s_print_input s; s_formatter := s_formatter s |}.
Definition set_pc (v : Z) (s : state) : state :=
  {| s_data := s_data s; s_iaddr := s_iaddr s; s_iaddr_valid := s_iaddr_valid s; s_timestamp :=
     s_timestamp s; s_wait_count := s_wait_count s; s_long_wait := s_long_wait s; s_pc := v;
     s_branch_count := s_branch_count s; s_mode := s_mode s; s_sync := s_sync s; s_formatter_packet :=
     s_formatter_packet s; s_formatter_index := s_formatter_index s; s_sourceid := s_sourceid s;
     s_contextid_bytes := s_contextid_bytes s; s_sourceid_match := s_sourceid_match s; s_cycle_accurate
     := s_cycle_accurate s; s_alt_branch := s_alt_branch s; s_program_flow_only := s_program_flow_only s;
     s_print_input := s_print_input s; s_formatter := s_formatter s |}.
Definition set_branch_count (v : Z) (s : state) : state :=
  {| s_data := s_data s; s_iaddr := s_iaddr s; s_iaddr_valid := s_iaddr_valid s; s_timestamp :=
     s_timestamp s; s_wait_count := s_wait_count s; s_long_wait := s_long_wait s; s_pc := s_pc s;
     s_branch_count := v; s_mode := s_mode s; s_sync := s_sync s; s_formatter_packet :=
     s_formatter_packet s; s_formatter_index := s_formatter_index s; s_sourceid := s_sourceid s;
     s_contextid_bytes := s_contextid_bytes s; s_sourceid_match := s_sourceid_match s; s_cycle_accurate
     := s_cycle_accurate s; s_alt_branch := s_alt_branch s; s_program_flow_only := s_program_flow_only s;
     s_print_input := s_print_input s; s_formatter := s_formatter s |}.
Definition set_mode (v : Z) (s : state) : state :=
  {| s_data := s_data s; s_iaddr := s_iaddr s; s_iaddr_valid := s_iaddr_valid s; s_timestamp :=
     s_timestamp s; s_wait_count := s_wait_count s; s_long_wait := s_long_wait s; s_pc := s_pc s;
     s_branch_count := s_branch_count s; s_mode := v; s_sync := s_sync s; s_formatter_packet :=
     s_formatter_packet s; s_formatter_index := s_formatter_index s; s_sourceid := s_sourceid s;
     s_contextid_bytes := s_contextid_bytes s; s_sourceid_match := s_sourceid_match s; s_cycle_accurate
     := s_cycle_accurate s; s_alt_branch := s_alt_branch s; s_program_flow_only := s_program_flow_only s;
     s_print_input := s_print_input s; s_formatter := s_formatter s |}.
Definition set_sync (v : Z) (s : state) : state :=
  {| s_data := s_data s; s_iaddr := s_iaddr s; s_iaddr_valid := s_iaddr_valid s; s_timestamp :=
     s_timestamp s; s_wait_count := s_wait_count s; s_long_wait := s_long_wait s; s_pc := s_pc s;
     s_branch_count := s_branch_count s; s_mode := s_mode s; s_sync := v; s_formatter_packet :=
     s_formatter_packet s; s_formatter_index := s_formatter_index s; s_sourceid := s_sourceid s;
     s_contextid_bytes := s_contextid_bytes s; s_sourceid_match := s_sourceid_match s; s_cycle_accurate
     := s_cycle_accurate s; s_alt_branch := s_alt_branch s; s_program_flow_only := s_program_flow_only s;
     s_print_input := s_print_input s; s_formatter := s_formatter s |}.
Definition set_formatter_packet (v : list Z) (s : state) : state :=
  {| s_data := s_data s; s_iaddr := s_iaddr s; s_iaddr_valid := s_iaddr_valid s; s_timestamp :=
     s_timestamp s; s_wait_count := s_wait_count s; s_long_wait := s_long_wait s; s_pc := s_pc s;
     s_branch_count := s_branch_count s; s_mode := s_mode s; s_sync := s_sync s; s_formatter_packet := v;
     s_formatter_index := s_formatter_index s; s_sourceid := s_sourceid s; s_contextid_bytes :=
     s_contextid_bytes s; s_sourceid_match := s_sourceid_match s; s_cycle_accurate := s_cycle_accurate s;
     s_alt_branch := s_alt_branch s; s_program_flow_only := s_program_flow_only s; s_print_input :=
     s_print_input s; s_formatter := s_formatter s |}.
Definition set_formatter_index (v : Z) (s : state) : state :=
  {| s_data := s_data s; s_iaddr := s_iaddr s; s_iaddr_valid := s_iaddr_valid s; s_timestamp :=
     s_timestamp s; s_wait_count := s_wait_count s; s_long_wait := s_long_wait s; s_pc := s_pc s;
     s_branch_count := s_branch_count s; s_mode := s_mode s; s_sync := s_sync s; s_formatter_packet :=
     s_formatter_packet s; s_formatter_index := v; s_sourceid := s_sourceid s; s_contextid_bytes :=
     s_contextid_bytes s; s_sourceid_match := s_sourceid_match s; s_cycle_accurate := s_cycle_accurate s;
     s_alt_branch := s_alt_branch s; s_program_flow_only := s_program_flow_only s; s_print_input :=
     s_print_input s; s_formatter := s_formatter s |}.
Definition set_sourceid (v : Z) (s : state) : state :=
  {| s_data := s_data s; s_iaddr := s_iaddr s; s_iaddr_valid := s_iaddr_valid s; s_timestamp :=
     s_timestamp s; s_wait_count := s_wait_count s; s_long_wait := s_long_wait s; s_pc := s_pc s;
     s_branch_count := s_branch_count s; s_mode := s_mode s; s_sync := s_sync s; s_formatter_packet :=
     s_formatter_packet s; s_formatter_index := s_formatter_index s; s_sourceid := v; s_contextid_bytes
     := s_contextid_bytes s; s_sourceid_match := s_sourceid_match s; s_cycle_accurate := s_cycle_accurate
     s; s_alt_branch := s_alt_branch s; s_program_flow_only := s_program_flow_only s; s_print_input :=
     s_print_input s; s_formatter := s_formatter s |}.
Definition set_contextid_bytes (v : Z) (s : state) : state :=
  {| s_data := s_data s; s_iaddr := s_iaddr s; s_iaddr_valid := s_iaddr_valid s; s_timestamp :=
     s_timestamp s; s_wait_count := s_wait_count s; s_long_wait := s_long_wait s; s_pc := s_pc s;
     s_branch_count := s_branch_count s; s_mode := s_mode s; s_sync := s_sync s; s_formatter_packet :=
     s_formatter_packet s; s_formatter_index := s_formatter_index s; s_sourceid := s_sourceid s;
     s_contextid_bytes := v; s_sourceid_match := s_sourceid_match s; s_cycle_accurate := s_cycle_accurate
     s; s_alt_branch := s_alt_branch s; s_program_flow_only := s_program_flow_only s; s_print_input :=
     s_print_input s; s_formatter := s_formatter s |}.
Definition set_sourceid_match (v : Z) (s : state) : state :=
  {| s_data := s_data s; s_iaddr := s_iaddr s; s_iaddr_valid := s_iaddr_valid s; s_timestamp :=
     s_timestamp s; s_wait_count := s_wait_count s; s_long_wait := s_long_wait s; s_pc := s_pc s;
     s_branch_count := s_branch_count s; s_mode := s_mode s; s_sync := s_sync s; s_formatter_packet :=
     s_formatter_packet s; s_formatter_index := s_formatter_index s; s_sourceid := s_sourceid s;
     s_contextid_bytes := s_contextid_bytes s; s_sourceid_match := v; s_cycle_accurate :=
     s_cycle_accurate s; s_alt_branch := s_alt_branch s; s_program_flow_only := s_program_flow_only s;
     s_print_input := s_print_input s; s_formatter := s_formatter s |}.
Definition set_cycle_accurate (v : Z) (s : state) : state :=
  {| s_data := s_data s; s_iaddr := s_iaddr s; s_iaddr_valid := s_iaddr_valid s; s_timestamp :=
     s_timestamp s; s_wait_count := s_wait_count s; s_long_wait := s_long_wait s; s_pc := s_pc s;
     s_branch_count := s_branch_count s; s_mode := s_mode s; s_sync := s_sync s; s_formatter_packet :=
     s_formatter_packet s; s_formatter_index := s_formatter_index s; s_sourceid := s_sourceid s;
     s_contextid_bytes := s_contextid_bytes s; s_sourceid_match := s_sourceid_match s; s_cycle_accurate
     := v; s_alt_branch := s_alt_branch s; s_program_flow_only := s_program_flow_only s; s_print_input :=
     s_print_input s; s_formatter := s_formatter s |}.
Definition set_alt_branch (v : Z) (s : state) : state :=
  {| s_data := s_data s; s_iaddr := s_iaddr s; s_iaddr_valid := s_iaddr_valid s; s_timestamp :=
     s_timestamp s; s_wait_count := s_wait_count s; s_long_wait := s_long_wait s; s_pc := s_pc s;
     s_branch_count := s_branch_count s; s_mode := s_mode s; s_sync := s_sync s; s_formatter_packet :=
     s_formatter_packet s; s_formatter_index := s_formatter_index s; s_sourceid := s_sourceid s;
     s_contextid_bytes := s_contextid_bytes s; s_sourceid_match := s_sourceid_match s; s_cycle_accurate
     := s_cycle_accurate s; s_alt_branch := v; s_program_flow_only := s_program_flow_only s;
     s_print_input := s_print_input s; s_formatter := s_formatter s |}.
Definition set_program_flow_only (v : Z) (s : state) : state :=
  {| s_data := s_data s; s_iaddr := s_iaddr s; s_iaddr_valid := s_iaddr_valid s; s_timestamp :=
     s_timestamp s; s_wait_count := s_wait_count s; s_long_wait := s_long_wait s; s_pc := s_pc s;
     s_branch_count := s_branch_count s; s_mode := s_mode s; s_sync := s_sync s; s_formatter_packet :=
     s_formatter_packet s; s_formatter_index := s_formatter_index s; s_sourceid := s_sourceid s;
     s_contextid_bytes := s_contextid_bytes s; s_sourceid_match := s_sourceid_match s; s_cycle_accurate
     := s_cycle_accurate s; s_alt_branch := s_alt_branch s; s_program_flow_only := v; s_print_input :=
     s_print_input s; s_formatter := s_formatter s |}.
Definition set_print_input (v : Z) (s : state) : state :=
  {| s_data := s_data s; s_iaddr := s_iaddr s; s_iaddr_valid := s_iaddr_valid s; s_timestamp :=
     s_timestamp s; s_wait_count := s_wait_count s; s_long_wait := s_long_wait s; s_pc := s_pc s;
     s_branch_count := s_branch_count s; s_mode := s_mode s; s_sync := s_sync s; s_formatter_packet :=
     s_formatter_packet s; s_formatter_index := s_formatter_index s; s_sourceid := s_sourceid s;
     s_contextid_bytes := s_contextid_bytes s; s_sourceid_match := s_sourceid_match s; s_cycle_accurate
     := s_cycle_accurate s; s_alt_branch := s_alt_branch s; s_program_flow_only := s_program_flow_only s;
     s_print_input := v; s_formatter := s_formatter s |}.
Definition set_formatter (v : Z) (s : state) : state :=
  {| s_data := s_data s; s_iaddr := s_iaddr s; s_iaddr_valid := s_iaddr_valid s; s_timestamp :=
     s_timestamp s; s_wait_count := s_wait_count s; s_long_wait := s_long_wait s; s_pc := s_pc s;
     s_branch_count := s_branch_count s; s_mode := s_mode s; s_sync := s_sync s; s_formatter_packet :=
     s_formatter_packet s; s_formatter_index := s_formatter_index s; s_sourceid := s_sourceid s;
     s_contextid_bytes := s_contextid_bytes s; s_sourceid_match := s_sourceid_match s; s_cycle_accurate
     := s_cycle_accurate s; s_alt_branch := s_alt_branch s; s_program_flow_only := s_program_flow_only s;
     s_print_input := s_print_input s; s_formatter := v |}.

(** The world of the decoder: the state, the [static] data address of
    [ndata], the rest of the input, and the output (newest line first). *)
Record world := mkWorld {
  st : state;
  daddr : Z;
  input : list Z;
  prints : list print;
}.

#[export] Instance etm_output : Output world := {
  log := prints;
  emit p w := mkWorld (st w) (daddr w) (input w) (p :: prints w);
  log_emit p w := eq_refl;
}.

Definition get : M world state := gets st.
Definition upd (f : state -> state) : M world unit :=
  modify (fun w => mkWorld (f (st w)) (daddr w) (input w) (prints w)).
Definition get_daddr : M world Z := gets daddr.
Definition put_daddr (v : Z) : M world unit :=
  modify (fun w => mkWorld (st w) v (input w) (prints w)).

(** [getchar()]: the next byte, or [EOF]. *)
Definition getchar : M world Z := fun w =>
  match input w with
  | [] => (Ret (-1), w)
  | c :: r => (Ret c, mkWorld (st w) (daddr w) r (prints w))
  end.

(** ** Trace-port formatter *)

(** The loop that reads a 16-byte frame; [Some ch] is the early return. *)
Fixpoint fill_packet (n : nat) (i : Z) : M world (option Z) :=
  match n with
  | O => mret None
  | S n =>
      ch ← getchar;
      if ch <? 0 then mret (Some ch) else
      s ← get;
      when (truth (s_print_input s))
        (printf " %02x%s" [AInt ch;
           AStr (if negb (truth (Z.land i 1)) && truth (Z.land ch 1) then "(ID)" else "")]);;
      upd (fun s => set_formatter_packet (<[Z.to_nat i := u8 ch]> (s_formatter_packet s)) s);;
      fill_packet n (i + 1)
  end.

(** What one turn of [while (1)] does: return a byte, or go round with the
    local [sourceid]. *)
Inductive turn := Return (ch : Z) | Again (sourceid : Z).

(** The tail of the loop body: deliver [ch] if its source is selected.
    Shifting [1] by 32 or more is undefined. *)
Definition deliver (sourceid ch : Z) : M world turn :=
  s ← get;
  if 32 <=? sourceid then undef else
  if truth (Z.land (i32 (Z.shiftl 1 sourceid)) (s_sourceid_match s)) then mret (Return ch) else
  when (truth (s_print_input s)) (printf "%02x ignored source %x\n" [AInt ch; AInt sourceid]);;
  s ← get;
  mret (Again (s_sourceid s)).

Definition packet_byte (s : state) (i : Z) : Z :=
  default 0 (s_formatter_packet s !! Z.to_nat i).

Definition formatter_turn (sourceid : Z) : M world turn :=
  s ← get;
  eof ← (if s_formatter_index s =? 0 then
           when (truth (s_print_input s)) (printf "raw:" []);;
           eof ← fill_packet 16 0;
           match eof with
           | Some ch => mret (Some ch)
           | None => when (truth (s_print_input s)) (printf "\n" []);; mret None
           end
         else mret None);
  match eof with
  | Some ch => mret (Return ch)
  | None =>
      s ← get;
      let i := s_formatter_index s in
      let ch := packet_byte s i in
      upd (set_formatter_index (Z.rem (i + 1) 15));;
      if negb (truth (Z.land i 1)) then
        let ebit := Z.land (Z.shiftr (packet_byte s 15) (Z.quot i 2)) 1 in
        if truth (Z.land ch 1) then
          let ch := Z.shiftr ch 1 in
          if negb (s_sourceid s =? ch) then
            printf "New ID %x %d\n" [AInt ch; AInt ebit];;
            upd (set_sourceid ch);;
            mret (Again (if negb (truth ebit) then ch else sourceid))
          else mret (Again sourceid)
        else deliver sourceid (Z.lor ch ebit)
      else deliver sourceid ch
  end.

Fixpoint formatter_loop (fuel : nat) (sourceid : Z) : M world Z :=
  match fuel with
  | O => no_fuel
  | S fuel =>
      t ← formatter_turn sourceid;
      match t with
      | Return ch => mret ch
      | Again sourceid => formatter_loop fuel sourceid
      end
  end.

(** Every turn that goes round moves the index on or reads a frame, so the
    number of turns is bounded by the input that is left. *)
Definition formatter_fuel (w : world) : nat := 16 + length (input w).

Definition get_byte_from_formatter : M world Z :=
  s ← get;
  fuel ← gets formatter_fuel;
  formatter_loop fuel (s_sourceid s).

(** [get_byte]: the next trace byte; the program ends at end of input. *)
Definition get_byte : M world Z :=
  s ← get;
  ch ← (if truth (s_formatter s) then get_byte_from_formatter else getchar);
  s ← get;
  if ch <? 0 then
    when (truth (s_wait_count s)) (printf " Waited %d" [AInt (s_wait_count s)]);;
    exit 0
  else
    upd (set_data (u8 ch));;
    (if negb (truth ch) && (s_sync s <=? 0) then
       if s_sync s =? -4 then upd (set_sync 1) else upd (set_sync (s_sync s - 1))
     else mret tt);;
    when (truth (s_print_input s))
      (printf "%02x (" [AInt ch];;
       for_m 8 0 (fun i => printf "%d" [AInt (Z.land (Z.shiftr ch (7 - i)) 1)]);;
       printf ")\n" []);;
    mret ch.

(** ** Instructions *)

Definition in_sync_char (s : state) : string := if 0 <? s_sync s then " " else "?".

Definition next_pc : M world Z :=
  s ← get;
  (if truth (s_program_flow_only s)
   then upd (set_branch_count (i32 (s_branch_count s + 1)))
   else upd (set_pc (u32 (s_pc s + Z.shiftl 1 (s_mode s)))));;
  mret (s_pc s).

Definition print_instruction (execute : bool) : M world unit :=
  s ← get;
  let waited := s_wait_count s in
  pc ← next_pc;
  when (truth waited) (upd (set_wait_count 0));;
  when (s_long_wait s <? u32 waited) (printf "  ==== Long wait ====\n" []);;
  s ← get;
  printf "%c %c(%08x)" [AStr (in_sync_char s); AStr (if execute then "E" else "N"); AInt pc];;
  when (truth (s_program_flow_only s)) (printf " +%d branch points" [AInt (s_branch_count s)]);;
  when (negb (s_iaddr_valid s =? 0xffffffff)) (printf " valid %08x" [AInt (s_iaddr_valid s)]);;
  when (truth waited) (printf " Waited %d" [AInt waited]);;
  printf "\n" [].

(** ** Branch addresses *)

(** The continuation bytes of a branch packet: from [count] = 1 at most four
    turns, so the bound is exact. *)
Fixpoint branch_bytes (n : nat) (count addr valid_mask : Z) : M world (Z * Z * Z) :=
  match n with
  | O => mret (count, addr, valid_mask)
  | S n =>
      s ← get;
      if truth (Z.land (s_data s) 0x80) && (count <? 5) then
        _ ← get_byte;
        s ← get;
        let mask := if truth (s_alt_branch s) && negb (truth (Z.land (s_data s) 0x80))
                    then 0x3f else 0x7f in
        let sh := 7 * count - 1 in
        let addr := Z.lor (Z.land addr (not32 (shl32 mask sh)))
                          (shl32 (Z.land (s_data s) mask) sh) in
        let valid_mask := Z.lxor valid_mask (shl32 mask sh) in
        when (truth (s_print_input s))
          (printf "  v %x a %x\n" [AInt (shl32 valid_mask (s_mode s)); AInt (shl32 addr (s_mode s))]);;
        branch_bytes n (count + 1) addr valid_mask
      else mret (count, addr, valid_mask)
  end.

Definition get_branch_addr : M world bool :=
  s ← get;
  let addr := Z.shiftr (s_iaddr s) (s_mode s) in
  let addr := Z.lor (Z.land addr (not32 0x3f)) (Z.land (Z.shiftr (s_data s) 1) 0x3f) in
  when (truth (s_print_input s))
    (printf "  v %x a %x\n" [AInt (shl32 0x3f (s_mode s)); AInt (shl32 addr (s_mode s))]);;
  '(count, addr, valid_mask) ← branch_bytes 4 1 addr 0x3f;
  s ← get;
  let ret := ((count =? 5) || (truth (s_alt_branch s) && (1 <? count)))
             && truth (Z.land (s_data s) 0x40) in
  when (negb ret && truth (s_program_flow_only s)) (print_instruction true);;
  (if count =? 5 then
     if negb (truth (Z.land (s_data s) 0xb0)) then upd (set_mode 2)
     else if negb (truth (Z.land (s_data s) 0xa0)) then upd (set_mode 1)
     else upd (set_mode 0)
   else mret tt);;
  s ← get;
  let addr := shl32 addr (s_mode s) in
  let valid_mask := shl32 valid_mask (Z.lor (s_mode s) (Z.shiftl 1 (s_mode s) - 1)) in
  (if s_iaddr_valid s <? valid_mask then upd (set_iaddr_valid valid_mask) else mret tt);;
  upd (set_iaddr addr);;
  upd (set_pc addr);;
  upd (set_branch_count 0);;
  mret ret.

(** [mode_name[state->mode]]. *)
Definition mode_name : list string := ["Jazelle"; "Thumb"; "ARM"]%string.
Definition get_mode_name (mode : Z) : M world string :=
  if mode <? 0 then undef else
  match mode_name !! Z.to_nat mode with
  | Some n => mret n
  | None => undef
  end.

Definition branch : M world Z :=
  ret ← get_branch_addr;
  exception_data ← (if ret : bool then
      d ← get_byte;
      if truth (Z.land d 0x80) then d' ← get_byte; mret (Z.lor d d') else mret d
    else mret 0);
  s ← get;
  printf "%c   Branch %08x" [AStr (in_sync_char s); AInt (s_iaddr s)];;
  when ret (printf " Exception data %04x" [AInt exception_data]);;
  when (negb (s_iaddr_valid s =? 0xffffffff)) (printf " (valid %08x)" [AInt (s_iaddr_valid s)]);;
  name ← get_mode_name (s_mode s);
  printf " %s\n" [AStr name];;
  mret 0.

(** ** Packet decoders *)

(** Up to nine 7-bit groups; the last one has eight bits. *)
Fixpoint timestamp_bytes (n : nat) (i timestamp : Z) : M world Z :=
  match n with
  | O => mret timestamp
  | S n =>
      _ ← get_byte;
      s ← get;
      let mask := if i =? 8 then 0xff else 0x7f in
      let timestamp := Z.lor (Z.land timestamp (u64 (Z.lnot (Z.shiftl mask (7 * i)))))
                             (u64 (Z.shiftl (Z.land (s_data s) mask) (7 * i))) in
      if negb (truth (Z.land (s_data s) 0x80)) then mret timestamp
      else timestamp_bytes n (i + 1) timestamp
  end.

Definition timestamp : M world Z :=
  s ← get;
  let r := b2z (truth (Z.land (s_data s) 4)) in
  ts ← timestamp_bytes 9 0 (s_timestamp s);
  s ← get;
  printf "%c   Timestamp %PRIu64 (%+PRIi64), R %d\n"
    [AStr (in_sync_char s); AInt ts; AInt (i64 (ts - s_timestamp s)); AInt r];;
  upd (set_timestamp ts);;
  mret 0.

Definition async : M world Z := mret 0.
Definition ignore : M world Z := mret 0.

Fixpoint ccount_bytes (n : nat) (i count : Z) : M world Z :=
  match n with
  | O => mret count
  | S n =>
      _ ← get_byte;
      s ← get;
      let count := Z.lor count (shl32 (Z.land (s_data s) 0x7f) (7 * i)) in
      if negb (truth (Z.land (s_data s) 0x80)) then mret count
      else ccount_bytes n (i + 1) count
  end.

Definition print_count (count : Z) : M world unit :=
  s ← get;
  when (s_long_wait s <? count) (printf "    ==== Long wait ====\n" []);;
  printf "%c   Cycle count %d\n" [AStr (in_sync_char s); AInt count].

Definition ccount : M world Z :=
  count ← ccount_bytes 5 0 0;
  print_count count;;
  mret 0.

(** Little-endian bytes, [data << (8 * i)]; a shift by 32 or more is
    undefined ([contextid_bytes] is whatever the user typed). *)
Fixpoint le_bytes (n : nat) (i acc : Z) : M world Z :=
  match n with
  | O => mret acc
  | S n =>
      _ ← get_byte;
      s ← get;
      if 32 <=? 8 * i then undef else
      le_bytes n (i + 1) (Z.lor acc (shl32 (s_data s) (8 * i)))
  end.

Definition get_contextid : M world Z :=
  s ← get;
  le_bytes (Z.to_nat (s_contextid_bytes s)) 0 0.

Definition get_addr : M world Z := le_bytes 4 0 0.

Definition update_addr (ib addr : Z) : M world unit :=
  addr ← (if truth (Z.land ib 0x10) then upd (set_mode 0);; mret addr
          else if truth (Z.land addr 1) then upd (set_mode 1);; mret (Z.land addr (not32 1))
          else upd (set_mode 2);; mret addr);
  upd (set_iaddr addr);;
  upd (set_iaddr_valid 0xffffffff);;
  upd (set_pc addr);;
  upd (set_branch_count 0).

Definition print_isync (contextid ib : Z) : M world unit :=
  s ← get;
  printf "%c I-sync Context %08x, IB %02x, Addr %08x\n"
    [AStr (in_sync_char s); AInt contextid; AInt ib; AInt (s_iaddr s)].

Definition isync : M world Z :=
  contextid ← get_contextid;
  ib ← get_byte;
  addr ← get_addr;
  update_addr ib addr;;
  print_isync contextid ib;;
  mret 0.

Definition isynccc : M world Z := _ ← ccount; isync.

Definition contextid : M world Z :=
  contextid ← get_contextid;
  s ← get;
  printf "%c ContextID %08x\n" [AStr (in_sync_char s); AInt contextid];;
  mret 0.

Definition vmid : M world Z :=
  vmid ← get_byte;
  s ← get;
  printf "%c VMID %08x\n" [AStr (in_sync_char s); AInt vmid];;
  mret 0.

(** The address bytes of a data packet update the [static daddr] in place. *)
Fixpoint daddr_bytes (n : nat) (i : Z) : M world unit :=
  match n with
  | O => mret tt
  | S n =>
      _ ← get_byte;
      s ← get;
      daddr ← get_daddr;
      put_daddr (Z.lor (Z.land daddr (not32 (shl32 0x7f (7 * i))))
                       (shl32 (Z.land (s_data s) 0x7f) (7 * i)));;
      if negb (truth (Z.land (s_data s) 0x80)) then mret tt else daddr_bytes n (i + 1)
  end.

Definition ndata : M world Z :=
  s ← get;
  let h := s_data s in
  let size := Z.land (Z.shiftr h 2) 3 in
  when (truth (Z.land h 0x20)) (daddr_bytes 5 0);;
  data ← le_bytes (Z.to_nat size) 0 0;
  s ← get;
  daddr ← get_daddr;
  (if truth size then
     if truth (Z.land h 0x20)
     then printf "%c   Normal data %08x addr %08x\n" [AStr (in_sync_char s); AInt data; AInt daddr]
     else printf "%c   Normal data %08x\n" [AStr (in_sync_char s); AInt data]
   else
     if truth (Z.land h 0x20)
     then printf "%c   Normal data addr %08x\n" [AStr (in_sync_char s); AInt daddr]
     else printf "%c   Normal data\n" [AStr (in_sync_char s)]);;
  mret 0.

Definition add_wait (n : Z) : M world unit :=
  upd (fun s => set_wait_count (i32 (s_wait_count s + n)) s).

Definition lose_sync (msg : M world unit) : M world unit := upd (set_sync 0);; msg.

Definition pheader_cycle_accurate : M world Z :=
  s ← get;
  let d := s_data s in
  (if d =? 0x80 then add_wait 1
   else if Z.land d 0xa3 =? 0x80 then
     times (Z.to_nat (Z.land (Z.shiftr d 2) 0x7)) (add_wait 1;; print_instruction true);;
     times (Z.to_nat (Z.land (Z.shiftr d 6) 0x1)) (add_wait 1;; print_instruction false)
   else if Z.land d 0xf3 =? 0x82 then
     add_wait 1;;
     print_instruction (negb (truth (Z.land d 0x08)));;
     print_instruction (negb (truth (Z.land d 0x04)))
   else if Z.land d 0xa3 =? 0xa0 then
     add_wait (Z.land (Z.shiftr d 2) 0x7 + 1);;
     times (Z.to_nat (Z.land (Z.shiftr d 6) 0x1)) (print_instruction true)
   else if Z.land d 0xfb =? 0x92 then
     print_instruction (negb (truth (Z.land d 0x04)))
   else lose_sync (printf "  ?\n" []));;
  mret 0.

Definition pheader_non_cycle_accurate : M world Z :=
  s ← get;
  let d := s_data s in
  (if Z.land d 0x83 =? 0x80 then
     times (Z.to_nat (Z.land (Z.shiftr d 2) 0x0f)) (print_instruction true);;
     when (truth (Z.land d 0x40)) (print_instruction false)
   else if Z.land d 0xf3 =? 0x82 then
     print_instruction (negb (truth (Z.land d 0x08)));;
     print_instruction (negb (truth (Z.land d 0x04)))
   else lose_sync (printf "  ?\n" []));;
  mret 0.

Definition pheader : M world Z :=
  s ← get;
  if truth (s_cycle_accurate s) then pheader_cycle_accurate else pheader_non_cycle_accurate.

Fixpoint cycle_bytes (n : nat) (shift count : Z) : M world Z :=
  match n with
  | O => mret count
  | S n =>
      _ ← get_byte;
      s ← get;
      let count := Z.lor count (shl32 (Z.land (s_data s) 0x7f) shift) in
      if negb (truth (Z.land (s_data s) 0x80)) then mret count
      else cycle_bytes n (shift + 7) count
  end.

Definition cycle_count_pft : M world Z :=
  s ← get;
  let h := s_data s in
  let count := Z.land (Z.shiftr h 2) 0xf in
  count ← (if truth (Z.land h 0x40) then cycle_bytes 4 4 count else mret count);
  print_count count;;
  mret 0.

Definition isync_pft : M world Z :=
  addr ← get_addr;
  ib ← get_byte;
  update_addr ib addr;;
  s ← get;
  when (truth (s_cycle_accurate s) && truth (Z.land ib 0x60))
    (_ ← get_byte; _ ← cycle_count_pft; mret tt);;
  contextid ← get_contextid;
  print_isync contextid ib;;
  mret 0.

Definition waypoint : M world Z :=
  _ ← get_byte;
  ret ← get_branch_addr;
  ib ← (if ret : bool then get_byte else mret 0);
  s ← get;
  printf "%c   Waypoint %08x" [AStr (in_sync_char s); AInt (s_iaddr s)];;
  when ret (printf " ib %02x" [AInt ib]);;
  when (negb (s_iaddr_valid s =? 0xffffffff)) (printf " (valid %08x)" [AInt (s_iaddr_valid s)]);;
  name ← get_mode_name (s_mode s);
  printf " %s\n" [AStr name];;
  mret 0.

(** [branch_pft] and [timestamp_pft]: the packet, then a cycle count. *)
Definition then_cycle_count (packet : M world Z) : M world Z :=
  ret ← packet;
  s ← get;
  if negb (truth ret) && truth (s_cycle_accurate s)
  then _ ← get_byte; cycle_count_pft
  else mret ret.
Definition branch_pft : M world Z := then_cycle_count branch.
Definition timestamp_pft : M world Z := then_cycle_count timestamp.

Definition atom_cycle_accurate : M world Z :=
  s ← get;
  let h := s_data s in
  _ ← cycle_count_pft;
  print_instruction (negb (truth (Z.land h 0x02)));;
  mret 0.

(** [for (i = 5; i > 0; i--, d <<= 1) if (d & 0x80) break;] *)
Fixpoint find_stop (i : nat) (d : Z) : nat * Z :=
  match i with
  | O => (O, d)
  | S i' => if truth (Z.land d 0x80) then (i, d) else find_stop i' (u8 (Z.shiftl d 1))
  end.
Fixpoint print_atoms (i : nat) (d : Z) : M world unit :=
  match i with
  | O => mret tt
  | S i =>
      let d := u8 (Z.shiftl d 1) in
      print_instruction (negb (truth (Z.land d 0x80)));;
      print_atoms i d
  end.
Definition atom_non_cycle_accurate : M world Z :=
  s ← get;
  let '(i, d) := find_stop 5 (u8 (Z.shiftl (s_data s) 1)) in
  print_atoms i d;;
  mret 0.

Definition atom : M world Z :=
  s ← get;
  if truth (s_cycle_accurate s) then atom_cycle_accurate else atom_non_cycle_accurate.

Definition trigger : M world Z :=
  s ← get;
  printf "%c   Trigger\n" [AStr (in_sync_char s)];;
  mret 0.

Definition except_ret : M world Z :=
  s ← get;
  printf "%c   Exception return\n" [AStr (in_sync_char s)];;
  mret 0.

(** ** Packet tables *)
Record packet_type := mkPacket {
  match_mask : Z;
  match_val : Z;
  nonzero_mask : Z;
  decode : option (M world Z);
  name : string;
}.

Definition packet_types_etm_3_3 : list packet_type := [
  mkPacket 0x01 0x01 0x00 (Some branch) "Branch address";
  mkPacket 0xff 0x00 0x00 (Some async) "A-sync";
  mkPacket 0xff 0x04 0x00 (Some ccount) "Cycle count";
  mkPacket 0xff 0x08 0x00 (Some isync) "I-sync";
  mkPacket 0xff 0x0c 0x00 None "Trigger";
  mkPacket 0x93 0x00 0x60 None "Out-of-order data";
  mkPacket 0xff 0x50 0x00 None "Store failed";
  mkPacket 0xff 0x70 0x00 (Some isynccc) "I-sync with cycle count";
  mkPacket 0xd3 0x50 0x0c None "Out-of-order placeholder";
  mkPacket 0xd3 0x12 0x00 None "Reserved";
  mkPacket 0xf3 0x10 0x00 None "Reserved";
  mkPacket 0xfb 0x30 0x00 None "Reserved";
  mkPacket 0xff 0x3c 0x00 (Some vmid) "VMID";
  mkPacket 0xff 0x38 0x00 None "Reserved";
  mkPacket 0xd3 0x02 0x00 (Some ndata) "Normal data";
  mkPacket 0xf3 0x52 0x00 None "Reserved";
  mkPacket 0xfb 0x42 0x00 (Some timestamp) "Timestamp";
  mkPacket 0xfb 0x4a 0x00 None "Reserved";
  mkPacket 0xff 0x62 0x00 None "Data suppressed";
  mkPacket 0xff 0x66 0x00 (Some ignore) "Ignore";
  mkPacket 0xef 0x6a 0x00 None "Value not traced";
  mkPacket 0xff 0x6e 0x00 (Some contextid) "Context ID";
  mkPacket 0xff 0x76 0x00 None "Exception exit";
  mkPacket 0xff 0x7e 0x00 None "Exception entry";
  mkPacket 0xff 0x72 0x00 None "Reserved";
  mkPacket 0x81 0x80 0x00 (Some pheader) "P-header";
  mkPacket 0x00 0x00 0x00 None "Unknown"
].

Definition packet_types_pft : list packet_type := [
  mkPacket 0xff 0x00 0x00 (Some async) "A-sync";
  mkPacket 0xff 0x08 0x00 (Some isync_pft) "I-sync";
  mkPacket 0x81 0x80 0x00 (Some atom) "Atom";
  mkPacket 0x01 0x01 0x00 (Some branch_pft) "Branch address";
  mkPacket 0xff 0x72 0x00 (Some waypoint) "Waypoint update";
  mkPacket 0xff 0x0c 0x00 (Some trigger) "Trigger";
  mkPacket 0xff 0x6e 0x00 (Some contextid) "Context ID";
  mkPacket 0xff 0x3c 0x00 (Some vmid) "VMID";
  mkPacket 0xfb 0x42 0x00 (Some timestamp_pft) "Timestamp";
  mkPacket 0xff 0x76 0x00 (Some except_ret) "Exception return";
  mkPacket 0xff 0x66 0x00 (Some ignore) "Ignore";
  mkPacket 0xff 0x04 0x00 None "Reserved";
  mkPacket 0x93 0x00 0x60 None "Reserved";
  mkPacket 0xff 0x50 0x00 None "Reserved";
  mkPacket 0xff 0x70 0x00 None "Reserved";
  mkPacket 0xd3 0x50 0x0c None "Reserved";
  mkPacket 0xd3 0x12 0x00 None "Reserved";
  mkPacket 0xf3 0x10 0x00 None "Reserved";
  mkPacket 0xfb 0x30 0x00 None "Reserved";
  mkPacket 0xff 0x38 0x00 None "Reserved";
  mkPacket 0xd3 0x02 0x00 None "Reserved";
  mkPacket 0xf3 0x52 0x00 None "Reserved";
  mkPacket 0xfb 0x4a 0x00 None "Reserved";
  mkPacket 0xff 0x62 0x00 None "Reserved";
  mkPacket 0xef 0x6a 0x00 None "Reserved";
  mkPacket 0xff 0x7e 0x00 None "Reserved";
  mkPacket 0x00 0x00 0x00 None "Unknown"
].

Definition is_match (p : packet_type) (ch : Z) : bool :=
  (Z.land ch (match_mask p) =? match_val p) &&
  ((nonzero_mask p =? 0) || truth (Z.land (nonzero_mask p) ch)).

(** ** The self-check of [main]

    The scan stops at the first entry without a mask. *)
Fixpoint masked (t : list packet_type) : list packet_type :=
  match t with
  | [] => []
  | p :: t => if truth (match_mask p) then p :: masked t else []
  end.

Definition match_count (t : list packet_type) (ch : Z) : Z :=
  zlen (List.filter (fun p => is_match p ch) (masked t)).

Definition check_byte (t : list packet_type) (ch : Z) : M world unit :=
  let mc := match_count t ch in
  if mc =? 1 then mret tt
  else if mc =? 0 then printf "%02x not covered\n" [AInt ch]
  else
    printf "%02x has multiple matches, %d\n" [AInt ch; AInt mc];;
    (fix show (l : list packet_type) : M world unit :=
       match l with
       | [] => mret tt
       | p :: l =>
           when (is_match p ch)
             (printf "    %02x %02x %02x %s\n"
                [AInt (match_mask p); AInt (match_val p); AInt (nonzero_mask p); AStr (name p)]);;
           show l
       end) (masked t).

Definition check_table (t : list packet_type) : M world unit := for_m 256 0 (check_byte t).

(** ** The main loop *)

(** [for (i = 0; !is_match(i, ch); i++)]: running off the table is undefined. *)
Fixpoint find_packet (t : list packet_type) (ch : Z) : M world packet_type :=
  match t with
  | [] => undef
  | p :: t => if is_match p ch then mret p else find_packet t ch
  end.

Definition decode_packet (t : list packet_type) : M world unit :=
  ch ← get_byte;
  p ← find_packet t ch;
  s ← get;
  when (truth (s_print_input s)) (printf "  %s\n" [AStr (name p)]);;
  match decode p with
  | Some d => _ ← d; mret tt
  | None => lose_sync (printf "  %02x: not handled (%s)\n" [AInt ch; AStr (name p)])
  end.

(** [while (1)]: each turn consumes a byte. *)
Fixpoint decode_loop (fuel : nat) (t : list packet_type) : M world unit :=
  match fuel with
  | O => no_fuel
  | S fuel => decode_packet t;; decode_loop fuel t
  end.

(** ** Options

    What [getopt_long] returns, one value per call: the index of a long
    option with its argument, ['h'], ['?'], or something else. *)
Inductive options :=
  | OPT_ETM_3_3 | OPT_ETM_3_4_ALT | OPT_PFT_1_1 | OPT_CYCLE_ACCURATE | OPT_CONTEXTID_BYTES
  | OPT_FORMATTER | OPT_SOURCEID | OPT_LONG_WAIT | OPT_PRINT_INPUT | OPT_PRINT_CONFIG.

Inductive getopt_result :=
  | GetLong (option_index : options) (optarg : option string)
  | GetHelp
  | GetUnknown
  | GetOther (c : Z).

Definition long_options : list (string * string) := [
  ("etm-3.3", "ETM v3.3 trace data");
  ("etm-3.4-alt-branch", "ETM v3.4 trace data with alternative branch encoding");
  ("pft-1.1", "PFT v1.1 trace data\n");
  ("cycle-accurate", "Cycle-accurate tracing was enabled (Default 1)");
  ("contextid-bytes", "Number of Context ID bytes (Default 4)\n");
  ("formatter", "Enable Formatter Unpacking");
  ("sourceid-match", "Enable Source ID from formatter. Also enables formatter\n");
  ("print-long-waits", "Highlight long waits");
  ("print-input", "Print input data");
  ("print-config", "Print configuration data");
  ("help", "Print usage information")]%string.

Definition option_name (o : options) : string :=
  match o with
  | OPT_ETM_3_3 => "etm-3.3" | OPT_ETM_3_4_ALT => "etm-3.4-alt-branch"
  | OPT_PFT_1_1 => "pft-1.1" | OPT_CYCLE_ACCURATE => "cycle-accurate"
  | OPT_CONTEXTID_BYTES => "contextid-bytes" | OPT_FORMATTER => "formatter"
  | OPT_SOURCEID => "sourceid-match" | OPT_LONG_WAIT => "print-long-waits"
  | OPT_PRINT_INPUT => "print-input" | OPT_PRINT_CONFIG => "print-config"
  end.

(** The locals of [main] the options set. *)
Record locals := mkLocals { packet_types : option (list packet_type); print_config : Z }.

(** Storing into the [flag] of an option; the entries without one ignore it. *)
Definition store_flag (o : options) (v : Z) (l : locals) : M world locals :=
  match o with
  | OPT_CYCLE_ACCURATE => upd (set_cycle_accurate v);; mret l
  | OPT_CONTEXTID_BYTES => upd (set_contextid_bytes v);; mret l
  | OPT_FORMATTER => upd (set_formatter v);; mret l
  | OPT_LONG_WAIT => upd (set_long_wait (u32 v));; mret l
  | OPT_PRINT_INPUT => upd (set_print_input v);; mret l
  | OPT_PRINT_CONFIG => mret (mkLocals (packet_types l) v)
  | _ => mret l
  end.

(** The [val] of an option, which [getopt_long] itself stores in the flag. *)
Definition option_val (o : options) : Z :=
  match o with
  | OPT_CYCLE_ACCURATE | OPT_FORMATTER | OPT_PRINT_INPUT | OPT_PRINT_CONFIG => 1
  | _ => 0
  end.

Definition process_long (o : options) (optarg : option string) (l : locals) : M world locals :=
  l ← store_flag o (option_val o) l;
  l ← match o with
      | OPT_ETM_3_3 =>
          upd (set_alt_branch 0);; mret (mkLocals (Some packet_types_etm_3_3) (print_config l))
      | OPT_ETM_3_4_ALT =>
          upd (set_alt_branch 1);; mret (mkLocals (Some packet_types_etm_3_3) (print_config l))
      | OPT_PFT_1_1 =>
          upd (set_alt_branch 1);; upd (set_program_flow_only 1);;
          mret (mkLocals (Some packet_types_pft) (print_config l))
      | OPT_SOURCEID =>
          upd (set_formatter 1);;
          match optarg with
          | Some a =>
              if (atoi a <? 0) || (32 <=? atoi a) then undef else
              upd (fun s => set_sourceid_match
                     (Z.lor (s_sourceid_match s) (i32 (Z.shiftl 1 (atoi a)))) s);; mret l
          | None => undef
          end
      | _ =>
          match optarg with
          | Some a => store_flag o (atoi a) l
          | None => mret l
          end
      end;
  when (truth (print_config l))
    (printf "option %s" [AStr (option_name o)];;
     match optarg with Some a => printf " with arg %s" [AStr a] | None => mret tt end;;
     printf "\n" []);;
  mret l.

Fixpoint process_options (argv0 : string) (opts : list getopt_result) (l : locals) : M world locals :=
  match opts with
  | [] => mret l
  | GetLong o optarg :: opts => l ← process_long o optarg l; process_options argv0 opts l
  | GetHelp :: _ =>
      printf "Usage: %s [options]\n" [AStr argv0];;
      printf "Options:\n" [];;
      (fix show (l : list (string * string)) : M world unit :=
         match l with
         | [] => mret tt
         | (n, h) :: l => printf "  --%-20s %s\n" [AStr n; AStr h];; show l
         end) long_options;;
      exit 0
  | GetUnknown :: _ => exit 1
  | GetOther c :: _ => printf "unhandled getopt return code %d\n" [AInt c];; exit 1
  end.

(** [memset(&state, 0, ...)] and the three defaults. *)
Definition init_state : state :=
  mkState 0 0 0 0 0 1000000 0 0 0 0 (replicate 16 0) 0 0 4 0 1 0 0 0 0.

Definition show_config : M world unit :=
  s ← get;
  printf "contextid_bytes %d\n" [AInt (s_contextid_bytes s)];;
  printf "cycle_accurate %d\n" [AInt (s_cycle_accurate s)];;
  printf "alt_branch %d\n" [AInt (s_alt_branch s)];;
  printf "formatter %d\n" [AInt (s_formatter s)];;
  printf "sourceid_match 0x%x\n" [AInt (u32 (s_sourceid_match s))];;
  printf "print_input %d\n" [AInt (s_print_input s)];;
  printf "long_wait %d\n" [AInt (i32 (s_long_wait s))].

Definition main (argv0 : string) (opts : list getopt_result) : M world unit :=
  upd (fun _ => init_state);;
  l ← process_options argv0 opts (mkLocals None 0);
  match packet_types l with
  | None => printf "%s: Must specify etm/pft type\n" [AStr argv0];; exit 1
  | Some t =>
      when (truth (print_config l)) show_config;;
      check_table t;;
      fuel ← gets formatter_fuel;
      decode_loop fuel t
  end.

(** What the program prints and how it ends on a given input. *)
Definition run (opts : list getopt_result) (bytes : list Z) : outcome unit * list print :=
  let '(o, w) := main "etm" opts (mkWorld init_state 0 bytes []) in (o, reverse (prints w)).

Example run_vmid :
  run [GetLong OPT_ETM_3_3 None] [0; 0; 0; 0; 0; 0x3c; 0x2a] =
  (Exit 0, [Printf "%c VMID %08x\n" [AStr " "; AInt 0x2a]]).
Proof. vm_compute. reflexivity. Qed.
