(* ===== verification/EtmSafety.v ===== *)
(** * Safety and termination of the ETM decoder

    The state invariant of [test/etm/etm.c], its preservation by every
    decoder, and the termination of the loops of the formatter and of
    [main]. *)
From S2P Require Import Prelude CInt CMonad CStr Etm.

(** ** Well-formed states *)
Record wf (s : state) : Prop := {
  wf_data : in_uint 8 (s_data s);
  wf_iaddr : in_uint 32 (s_iaddr s);
  wf_iaddr_valid : in_uint 32 (s_iaddr_valid s);
  wf_timestamp : in_uint 64 (s_timestamp s);
  wf_pc : in_uint 32 (s_pc s);
  wf_mode : 0 <= s_mode s <= 2;
  wf_sync : -4 <= s_sync s <= 1;
  wf_packet : Forall (in_uint 8) (s_formatter_packet s);
  wf_packet_len : length (s_formatter_packet s) = 16%nat;
  wf_index : 0 <= s_formatter_index s < 15;
  wf_sourceid : 0 <= s_sourceid s;
  wf_contextid_bytes : s_contextid_bytes s <= 4;
}.

(** Bytes still to come: what is left of the current frame and of the input.
    Every byte the decoder gets makes it smaller. *)
Definition frame_left (s : state) : nat :=
  if s_formatter_index s =? 0 then O else Z.to_nat (15 - s_formatter_index s).
Definition pending (w : world) : nat := frame_left (st w) + length (input w).

Section Safety.
(** Undefined behaviour is possible only in the formatter (a source ID of
    32 or more is shifted); [U] is a proposition implied by its use. *)
Context (U : Prop).

Definition Inv (w : world) : Prop :=
  wf (st w) /\ in_uint 32 (daddr w) /\ Forall (in_uint 8) (input w) /\
  (truth (s_formatter (st w)) = true -> U).

Definition okv {A} (P : A -> Prop) (m : M world A) : Prop :=
  forall w, Inv w ->
  wpu U m (fun a w' => P a /\ Inv w' /\ (pending w' <= pending w)%nat)
          (fun c w' => c = 0 /\ Inv w') w.
Local Abbreviation ok := (okv (fun _ => True)).

Lemma okv_bind {A B} (P : A -> Prop) (Q : B -> Prop) m k :
  okv P m -> (forall a, P a -> okv Q (k a)) -> okv Q (m ≫= k).
Proof.
  intros Hm Hk w HI. apply wp_bind. eapply wp_mono; [by apply Hm|].
  intros a w' (HP & HI' & Hle). eapply wp_mono; [by apply (Hk a HP w' HI')|].
  intros b u (HQ & HI2 & Hle2). split; [done|]. split; [done|]. simpl in *. lia.
Qed.

Lemma okv_weaken {A} (P Q : A -> Prop) m : okv P m -> (forall a, P a -> Q a) -> okv Q m.
Proof.
  intros Hm HPQ w HI. eapply wp_mono; [by apply Hm|]. intros a w' (? & ? & ?). eauto.
Qed.

Lemma okv_ok {A} (P : A -> Prop) m : okv P m -> ok m.
Proof. intros H. by eapply okv_weaken. Qed.

Lemma okv_ret {A} (P : A -> Prop) a : P a -> okv P (mret a).
Proof. intros HP w HI. apply wp_ret. auto. Qed.

Lemma okv_get : okv wf get.
Proof. intros w HI. apply wp_gets. split; [apply HI | auto]. Qed.

Lemma ok_printf f a : ok (printf f a).
Proof. intros w HI. by apply wp_printf. Qed.

Lemma ok_upd f :
  (forall s, wf s -> wf (f s)) ->
  (forall s, s_formatter (f s) = s_formatter s) ->
  (forall s, s_formatter_index (f s) = s_formatter_index s) ->
  ok (upd f).
Proof.
  intros Hwf Hfmt Hidx w (Hs & Hd & Hin & HU). apply wp_modify. split; [done|]. split.
  - unfold Inv. simpl. rewrite Hfmt. auto.
  - unfold pending, frame_left. simpl. rewrite Hidx. lia.
Qed.

Lemma okv_if {A} (P : A -> Prop) (b : bool) m1 m2 :
  okv P m1 -> okv P m2 -> okv P (if b then m1 else m2).
Proof. by destruct b. Qed.

Lemma ok_when b m : ok m -> ok (when b m).
Proof. intros. destruct b; [done|]. by apply okv_ret. Qed.

Lemma ok_times n m : ok m -> ok (times n m).
Proof.
  intros Hm. induction n as [|n IH]; simpl; [by apply okv_ret|].
  eapply okv_bind; [apply Hm|]. intros; apply IH.
Qed.

Lemma ok_for n i body : (forall i, ok (body i)) -> ok (for_m n i body).
Proof.
  intros Hm. revert i. induction n as [|n IH]; intros i; simpl; [by apply okv_ret|].
  eapply okv_bind; [apply Hm|]. intros; apply IH.
Qed.

Lemma okv_exit {A} (P : A -> Prop) : okv P (exit 0).
Proof. intros w HI. by apply wp_exit. Qed.
End Safety.

(** A field update keeps the state well formed: all fields by the
    projections of the hypothesis but the new one. *)
Ltac wf_upd := intros []; constructor; simpl; auto with cint; lia.

Abbreviation ok U := (okv U (fun _ => True)).

Ltac ok_step :=
  lazymatch goal with
  | |- okv _ _ (mbind _ get) => eapply okv_bind; [apply okv_get | intros ? ?]
  | |- okv _ _ (mbind _ (when _ _)) => eapply (okv_bind _ (fun _ => True)); [|intros ? _]
  | |- okv _ _ (mbind _ (printf _ _)) => eapply okv_bind; [apply ok_printf | intros ? _]
  | |- okv _ _ (mbind _ (upd _)) =>
      eapply (okv_bind _ (fun _ => True)); [apply ok_upd; [|done|done]; try (intros ?; wf_upd) | intros ? _]
  | |- okv _ _ (when _ _) => apply ok_when
  | |- okv _ _ (printf _ _) => apply ok_printf
  | |- okv _ _ (times _ _) => apply ok_times
  | |- okv _ _ (mret _) => apply okv_ret
  | |- okv _ _ (exit 0) => apply okv_exit
  | |- okv _ _ (upd _) => apply ok_upd; [|done|done]; try (intros ?; wf_upd)
  | |- okv _ _ (if _ then _ else _) => apply okv_if
  | |- forall _, _ -> okv _ _ _ => intros ? ?
  end.
Ltac ok_steps := repeat ok_step; auto.

(** ** Reading bytes *)
Section Reading.
Context (U : Prop).
Local Abbreviation Inv := (Inv U).
Local Abbreviation okv := (okv U).
Local Abbreviation ok := (okv (fun _ => True)).

Lemma wp_getchar (Q : Z -> world -> Prop) E w :
  (input w = [] -> Q (-1) w) ->
  (forall c r, input w = c :: r -> Q c (mkWorld (st w) (daddr w) r (prints w))) ->
  wpu U getchar Q E w.
Proof. intros Hnil Hcons. unfold wpu, getchar. destruct (input w) eqn:Hin; eauto. Qed.

Lemma land_1_uint8 z : in_uint 8 (Z.land z 1).
Proof. apply land_uint_r; [lia | unfold in_uint; lia]. Qed.

Lemma packet_byte_range s i : wf s -> in_uint 8 (packet_byte s i).
Proof.
  intros [_ _ _ _ _ _ _ Hp _ _ _ _]. unfold packet_byte.
  destruct (s_formatter_packet s !! Z.to_nat i) as [b|] eqn:Hb; simpl.
  - by eapply Forall_lookup_1.
  - unfold in_uint; lia.
Qed.

Lemma wf_set_packet s l :
  wf s -> Forall (in_uint 8) l -> length l = 16%nat -> wf (set_formatter_packet l s).
Proof. intros [] ? ?; constructor; simpl; auto. Qed.

(** Printing changes only the output. *)
Lemma wp_log b f a (Q : unit -> world -> Prop) E w :
  (forall ps, Q tt (mkWorld (st w) (daddr w) (input w) ps)) ->
  wpu U (when b (printf f a)) Q E w.
Proof.
  intros HQ. destruct w; destruct b; [apply wp_printf | apply wp_skip]; apply HQ.
Qed.

(** [fill_packet] reads exactly the bytes it is asked for, or returns the
    end of input. *)
Lemma fill_packet_spec n i w :
  Inv w ->
  wpu U (fill_packet n i)
    (fun r w' => Inv w' /\ s_formatter_index (st w') = s_formatter_index (st w) /\
       match r with
       | None => length (input w) = (n + length (input w'))%nat
       | Some ch => ch = -1 /\ (length (input w') <= length (input w))%nat
       end)
    (fun _ _ => False) w.
Proof.
  revert i w. induction n as [|n IH]; intros i w HI; simpl.
  { wp_step. auto. }
  apply wp_bind, wp_getchar; [intros Hin | intros c r Hin].
  { simpl. wp_step. auto. }
  destruct HI as (Hs & Hd & Hbytes & HU). rewrite Hin in Hbytes |- *.
  apply Forall_cons_1 in Hbytes as [Hc Hr].
  assert ((c <? 0) = false) as -> by (destruct Hc; apply Z.ltb_ge; lia).
  apply wp_bind, wp_gets, wp_bind, wp_log. intros ps.
  apply wp_bind, wp_modify. simpl.
  eapply wp_mono_exit; [apply IH | |done].
  - unfold Inv. simpl. split_and!; try done. apply wf_set_packet; [done| |].
    + apply Forall_insert; [apply Hs | apply wrap_range; lia].
    + rewrite length_insert. apply Hs.
  - simpl. intros [ch|] w' (? & -> & ?); split_and!; simpl; try done; lia.
Qed.

(** What a turn of the formatter loop leaves: a byte or the end of input, or
    another turn; every turn makes [pending] smaller. *)
Definition turn_post (w : world) (t : turn) (w' : world) : Prop :=
  Inv w' /\
  match t with
  | Return ch => ch = -1 \/ (in_uint 8 ch /\ (pending w' < pending w)%nat)
  | Again src => 0 <= src /\ (pending w' < pending w)%nat
  end.

Lemma deliver_spec src ch w :
  U -> Inv w -> in_uint 8 ch ->
  wpu U (deliver src ch)
    (fun t w' => Inv w' /\ pending w' = pending w /\
       match t with Return c => c = ch | Again src' => 0 <= src' end)
    (fun _ _ => False) w.
Proof.
  intros HU HI Hch. unfold deliver.
  apply wp_bind, wp_gets. destruct (32 <=? src); [by apply wp_undef|].
  case_match; [by apply wp_ret|].
  apply wp_bind, wp_log. intros ps. apply wp_bind, wp_gets, wp_ret.
  split; [apply HI|]. split; [done|]. simpl. apply HI.
Qed.

Lemma frame_left_step s :
  wf s ->
  (frame_left (set_formatter_index (Z.rem (s_formatter_index s + 1) 15) s) +
   (if (s_formatter_index s =? 0)%Z then 0 else 1) <=
   frame_left s + (if (s_formatter_index s =? 0)%Z then 14 else 0))%nat.
Proof.
  intros [_ _ _ _ _ _ _ _ _ Hi _ _]. unfold frame_left. simpl.
  rewrite Z.rem_mod_nonneg by lia.
  destruct (Z.eqb_spec (s_formatter_index s) 0) as [->|]; [simpl; lia|].
  destruct (decide (s_formatter_index s = 14)) as [->|]; [simpl; lia|].
  rewrite Z.mod_small by lia. destruct (Z.eqb_spec (s_formatter_index s + 1) 0); lia.
Qed.

Lemma wf_next_index s :
  wf s -> wf (set_formatter_index (Z.rem (s_formatter_index s + 1) 15) s).
Proof.
  intros []; constructor; simpl; try done.
  rewrite Z.rem_mod_nonneg by lia. apply Z.mod_pos_bound. lia.
Qed.

(** The part of a turn after the frame is there. *)
Lemma unpack_spec src w :
  U -> Inv w -> 0 <= src ->
  let s := st w in
  let i := s_formatter_index s in
  let ch := packet_byte s i in
  wpu U
    (upd (set_formatter_index (Z.rem (i + 1) 15));;
     if negb (truth (Z.land i 1)) then
       let ebit := Z.land (Z.shiftr (packet_byte s 15) (Z.quot i 2)) 1 in
       if truth (Z.land ch 1) then
         let ch := Z.shiftr ch 1 in
         if negb (s_sourceid s =? ch) then
           printf "New ID %x %d\n" [AInt ch; AInt ebit];;
           upd (set_sourceid ch);;
           mret (Again (if negb (truth ebit) then ch else src))
         else mret (Again src)
       else deliver src (Z.lor ch ebit)
     else deliver src ch)
    (fun t w' => Inv w' /\
       pending w' = (frame_left (set_formatter_index (Z.rem (i + 1) 15) s) + length (input w))%nat /\
       match t with Return c => in_uint 8 c | Again src' => 0 <= src' end)
    (fun _ _ => False) w.
Proof.
  intros HU HI Hsrc s i ch. destruct HI as (Hs & Hd & Hin & HU').
  pose proof (packet_byte_range s i Hs) as Hch. fold ch in Hch.
  pose proof (wf_next_index s Hs) as Hs'. fold i in Hs'.
  apply wp_bind, wp_modify. cbv zeta beta. fold s.
  set (w1 := mkWorld (set_formatter_index (Z.rem (i + 1) 15) s) (daddr w) (input w) (prints w)).
  assert (Inv w1) as HI1 by (split_and!; done).
  assert (forall c, in_uint 8 c ->
    wpu U (deliver src c)
      (fun t w' => Inv w' /\ pending w' = pending w1 /\
         match t with Return c => in_uint 8 c | Again src' => 0 <= src' end)
      (fun _ _ => False) w1) as Hdel.
  { intros c Hc. eapply wp_mono; [by apply deliver_spec|].
    intros [c'|src'] w' (? & ? & ?); subst; auto. }
  destruct (negb (truth (Z.land i 1))); [|by apply Hdel].
  destruct (truth (Z.land ch 1)).
  - assert (0 <= Z.shiftr ch 1) as Hsh by (apply Z.shiftr_nonneg; apply Hch).
    destruct (negb (s_sourceid s =? Z.shiftr ch 1)); [|wp_step; by split_and!].
    apply wp_bind, wp_printf, wp_bind, wp_modify, wp_ret.
    split; [|split; [done|by case_match]].
    split_and!; simpl; try done. destruct Hs'. constructor; assumption.
  - apply Hdel, lor_uint; [lia|done|apply land_1_uint8].
Qed.

Lemma formatter_turn_spec src w :
  U -> Inv w -> 0 <= src ->
  wpu U (formatter_turn src) (turn_post w) (fun _ _ => False) w.
Proof.
  intros HU HI Hsrc. unfold formatter_turn. apply wp_bind, wp_gets, wp_bind.
  eapply (wp_mono _ _ (fun eof w1 => Inv w1 /\
    s_formatter_index (st w1) = s_formatter_index (st w) /\
    match eof with
    | Some ch => ch = -1
    | None => length (input w) =
        (length (input w1) + if (s_formatter_index (st w) =? 0)%Z then 16 else 0)%nat
    end)).
  - destruct (Z.eqb_spec (s_formatter_index (st w)) 0) as [E|E].
    + apply wp_bind, wp_log. intros ps.
      set (w0 := mkWorld (st w) (daddr w) (input w) ps).
      apply wp_bind. eapply wp_mono; [by apply (fill_packet_spec 16 0 w0)|].
      intros [ch|] w1 (HI1 & Hi & Hlen).
      * apply wp_ret. split; [done|]. split; [done|]. apply Hlen.
      * apply wp_bind, wp_log. intros ps'. apply wp_ret.
        split; [done|]. split; [done|]. simpl in *. lia.
    + apply wp_ret. split; [done|]. split; [done|]. lia.
  - intros [ch|] w1 (HI1 & Hi & Hlen).
    { apply wp_ret. split; [done|]. by left. }
    apply wp_bind, wp_gets.
    eapply wp_mono; [by apply unpack_spec|].
    pose proof (frame_left_step (st w1) (proj1 HI1)) as Hstep.
    assert (frame_left (st w1) = frame_left (st w)) as Hfl
      by (unfold frame_left; by rewrite Hi).
    rewrite Hi in *.
    intros t w2 (HI2 & Hp & Ht). split; [done|].
    assert ((pending w2 < pending w)%nat).
    { unfold pending in *. rewrite Hp, Hlen. destruct (s_formatter_index (st w) =? 0); lia. }
    destruct t; auto.
Qed.

(** The loop reaches a byte or the end of input within its fuel. *)
Lemma formatter_loop_spec fuel src w :
  U -> Inv w -> 0 <= src -> (pending w < fuel)%nat ->
  wpu U (formatter_loop fuel src)
    (fun ch w' => Inv w' /\ (ch = -1 \/ (in_uint 8 ch /\ (pending w' < pending w)%nat)))
    (fun _ _ => False) w.
Proof.
  revert src w. induction fuel as [|fuel IH]; intros src w HU HI Hsrc Hfuel; [lia|].
  simpl. apply wp_bind. eapply wp_mono; [by apply formatter_turn_spec|].
  intros [ch|src'] w1 [HI1 Ht]; [by apply wp_ret|].
  destruct Ht as [Hsrc' Hlt]. eapply wp_mono; [apply IH; auto; lia|].
  intros ch w2 [HI2 [->|[Hch ?]]]; split; auto. right. split; [done|]. lia.
Qed.

Lemma pending_fuel w : Inv w -> (pending w < formatter_fuel w)%nat.
Proof.
  intros [[_ _ _ _ _ _ _ _ _ Hi _ _] _]. unfold pending, formatter_fuel, frame_left.
  case_match; lia.
Qed.

(** What [get_byte] does with the byte. *)
Lemma feed_ok s ch :
  wf s -> in_uint 8 ch ->
  okv (in_uint 8)
    (upd (set_data (u8 ch));;
     (if negb (truth ch) && (s_sync s <=? 0) then
        if s_sync s =? -4 then upd (set_sync 1) else upd (set_sync (s_sync s - 1))
      else mret tt);;
     when (truth (s_print_input s))
       (printf "%02x (" [AInt ch];;
        for_m 8 0 (fun i => printf "%d" [AInt (Z.land (Z.shiftr ch (7 - i)) 1)]);;
        printf ")\n" []);;
     mret ch).
Proof.
  intros Hs Hch. ok_step. eapply (okv_bind _ (fun _ => True)).
  { destruct (Z.leb_spec (s_sync s) 0); [|rewrite andb_false_r; by ok_step].
    apply okv_if; [|by ok_step].
    destruct (Z.eqb_spec (s_sync s) (-4)); ok_step.
    destruct Hs. intros ?; wf_upd. }
  intros _ _. ok_step.
  { do 2 ok_step. eapply (okv_bind _ (fun _ => True)); [apply ok_for; intros; apply ok_printf|]. intros. apply ok_printf. }
  by ok_step.
Qed.

(** [get_byte] consumes input, or ends the program with status 0. *)
Lemma get_byte_spec w :
  Inv w ->
  wpu U get_byte
    (fun ch w' => in_uint 8 ch /\ Inv w' /\ (pending w' < pending w)%nat)
    (fun c w' => c = 0 /\ Inv w') w.
Proof.
  intros HI. unfold get_byte. apply wp_bind, wp_gets, wp_bind.
  eapply (wp_mono _ _ (fun ch w' => Inv w' /\
    (ch = -1 \/ (in_uint 8 ch /\ (pending w' < pending w)%nat)))).
  { destruct (truth (s_formatter (st w))) eqn:Hf.
    - assert U as HU by (by apply HI).
      apply wp_bind, wp_gets, wp_bind, wp_gets.
      eapply wp_mono_exit;
        [apply formatter_loop_spec; [done|done|apply HI|by apply pending_fuel]|done|done].
    - apply wp_getchar; [by auto|]. intros c r Hin.
      destruct HI as (Hs & Hd & Hb & HU). rewrite Hin in Hb.
      apply Forall_cons_1 in Hb as [Hc Hr]. split; [by split_and!|].
      right. split; [done|]. unfold pending. rewrite Hin. simpl. lia. }
  intros ch w1 [HI1 Hch]. apply wp_bind, wp_gets.
  destruct (Z.ltb_spec ch 0) as [Hneg|Hpos].
  { apply wp_bind, wp_log. intros ps. by apply wp_exit. }
  destruct Hch as [->|[Hch Hlt]]; [lia|].
  eapply wp_mono; [apply (feed_ok (st w1) ch); [apply HI1|done|done]|].
  intros a w2 (? & ? & ?). split_and!; [done|done|lia].
Qed.

Lemma get_byte_ok : okv (in_uint 8) get_byte.
Proof.
  intros w HI. eapply wp_mono; [by apply get_byte_spec|].
  intros a w' (? & ? & ?). split_and!; [done|done|lia].
Qed.
End Reading.

Ltac ok_go :=
  repeat first
    [ ok_step
    | lazymatch goal with
      | |- okv _ _ (mbind _ get_byte) => eapply okv_bind; [apply get_byte_ok | intros ? ?]
      | |- okv _ _ (mbind _ (if _ then _ else _)) =>
          eapply (okv_bind _ (fun _ => True)); [|intros ? _]
      | |- okv _ _ (mbind _ (times _ _)) => eapply okv_bind; [apply ok_times | intros ? _]
      | |- okv _ _ (mbind _ _) => eapply okv_bind; [solve [eauto with keeps] | intros ? ?]
      | |- okv _ _ (match ?x with _ => _ end) => is_var x; destruct x
      | |- okv _ _ _ => solve [eauto with keeps]
      end ];
  auto with cint.

(** ** Every decoder keeps the invariant *)
Section Decoders.
Context (U : Prop).
Local Abbreviation okv := (okv U).
Local Abbreviation ok := (okv (fun _ => True)).

Lemma next_pc_ok : ok next_pc.
Proof.
  unfold next_pc. ok_go.
Qed.

#[local] Hint Resolve next_pc_ok : keeps.

Lemma print_instruction_ok e : ok (print_instruction e).
Proof. unfold print_instruction. ok_go. Qed.
#[local] Hint Resolve print_instruction_ok : keeps.

Lemma branch_bytes_ok n count addr vm : ok (branch_bytes n count addr vm).
Proof.
  revert count addr vm. induction n as [|n IH]; intros count addr vm; simpl; ok_go.
Qed.
#[local] Hint Resolve branch_bytes_ok : keeps.

Lemma get_branch_addr_ok : ok get_branch_addr.
Proof. unfold get_branch_addr. ok_go. Qed.
#[local] Hint Resolve get_branch_addr_ok : keeps.

(** The index into [mode_name] is always in range. *)
Lemma get_mode_name_ok s : wf s -> ok (get_mode_name (s_mode s)).
Proof.
  intros [_ _ _ _ _ Hm _ _ _ _ _ _]. unfold get_mode_name.
  assert (s_mode s = 0 \/ s_mode s = 1 \/ s_mode s = 2) as [-> | [-> | ->]] by lia;
    simpl; by apply okv_ret.
Qed.
#[local] Hint Resolve get_mode_name_ok : keeps.

Lemma branch_ok : ok branch.
Proof. unfold branch. ok_go. Qed.

Lemma timestamp_bytes_ok n i ts : in_uint 64 ts -> okv (in_uint 64) (timestamp_bytes n i ts).
Proof.
  revert i ts. induction n as [|n IH]; intros i ts Hts; simpl; ok_go.
Qed.
#[local] Hint Resolve timestamp_bytes_ok branch_ok : keeps.

Lemma timestamp_ok : ok timestamp.
Proof.
  unfold timestamp. ok_go. eapply okv_bind; [apply timestamp_bytes_ok, H|]. ok_go.
Qed.

Lemma ccount_bytes_ok n i count : ok (ccount_bytes n i count).
Proof. revert i count. induction n as [|n IH]; intros i count; simpl; ok_go. Qed.

Lemma print_count_ok count : ok (print_count count).
Proof. unfold print_count. ok_go. Qed.
#[local] Hint Resolve timestamp_ok ccount_bytes_ok print_count_ok : keeps.

Lemma ccount_ok : ok ccount.
Proof. unfold ccount. ok_go. Qed.

(** At most four bytes are shifted in. *)
Lemma le_bytes_ok n i acc :
  0 <= i -> i + Z.of_nat n <= 4 -> in_uint 32 acc -> okv (in_uint 32) (le_bytes n i acc).
Proof.
  revert i acc. induction n as [|n IH]; intros i acc Hi Hn Hacc; simpl; [by ok_go|].
  do 2 (eapply okv_bind; [first [apply get_byte_ok | apply okv_get]|intros ? ?]).
  destruct (Z.leb_spec 32 (8 * i)); [lia|]. apply IH; [lia|lia|]. auto with cint.
Qed.

Lemma get_contextid_ok : okv (in_uint 32) get_contextid.
Proof.
  unfold get_contextid. ok_step. apply le_bytes_ok; [lia| |unfold in_uint; lia].
  pose proof (wf_contextid_bytes _ H). lia.
Qed.

Lemma get_addr_ok : okv (in_uint 32) get_addr.
Proof. apply le_bytes_ok; unfold in_uint; lia. Qed.

Lemma update_addr_ok ib addr : in_uint 32 addr -> ok (update_addr ib addr).
Proof.
  intros Haddr. unfold update_addr. apply (okv_bind _ (in_uint 32)); ok_go.
Qed.
#[local] Hint Resolve get_contextid_ok get_addr_ok update_addr_ok ccount_ok : keeps.

Lemma print_isync_ok c ib : ok (print_isync c ib).
Proof. unfold print_isync. ok_go. Qed.
#[local] Hint Resolve print_isync_ok : keeps.

Lemma isync_ok : ok isync.
Proof. unfold isync. ok_go. Qed.
#[local] Hint Resolve isync_ok : keeps.

Lemma isynccc_ok : ok isynccc.
Proof. unfold isynccc. ok_go. Qed.

Lemma contextid_ok : ok contextid.
Proof. unfold contextid. ok_go. Qed.

Lemma vmid_ok : ok vmid.
Proof. unfold vmid. ok_go. Qed.

Lemma put_daddr_ok v : in_uint 32 v -> ok (put_daddr v).
Proof. intros Hv w (? & ? & ? & ?). by apply wp_modify. Qed.

Lemma get_daddr_ok : okv (in_uint 32) get_daddr.
Proof. intros w HI. apply wp_gets. split; [apply HI|auto]. Qed.
#[local] Hint Resolve put_daddr_ok get_daddr_ok : keeps.

Lemma daddr_bytes_ok n i : ok (daddr_bytes n i).
Proof.
  revert i. induction n as [|n IH]; intros i; simpl; ok_go.
  eapply okv_bind; [apply put_daddr_ok; auto with cint|]. ok_go.
Qed.
#[local] Hint Resolve daddr_bytes_ok : keeps.

Lemma ndata_ok : ok ndata.
Proof.
  unfold ndata. ok_step. ok_step; [by ok_go|].
  eapply okv_bind; [apply le_bytes_ok; [lia| |unfold in_uint; lia]|ok_go].
  assert (in_uint 2 (Z.land (Z.shiftr (s_data a) 2) 3)) as [? ?].
  { apply land_uint_r; unfold in_uint; lia. }
  lia.
Qed.

Lemma add_wait_ok n : ok (add_wait n).
Proof. unfold add_wait. ok_go. Qed.

Lemma lose_sync_ok msg : ok msg -> ok (lose_sync msg).
Proof. intros. unfold lose_sync. ok_go. Qed.
#[local] Hint Resolve add_wait_ok lose_sync_ok ok_printf : keeps.

Lemma pheader_ok : ok pheader.
Proof.
  unfold pheader, pheader_cycle_accurate, pheader_non_cycle_accurate. ok_go.
Qed.

Lemma cycle_bytes_ok n shift count : ok (cycle_bytes n shift count).
Proof. revert shift count. induction n as [|n IH]; intros shift count; simpl; ok_go. Qed.
#[local] Hint Resolve cycle_bytes_ok : keeps.

Lemma cycle_count_pft_ok : ok cycle_count_pft.
Proof. unfold cycle_count_pft. ok_go. Qed.
#[local] Hint Resolve cycle_count_pft_ok : keeps.

Lemma isync_pft_ok : ok isync_pft.
Proof. unfold isync_pft. ok_go. Qed.

Lemma waypoint_ok : ok waypoint.
Proof. unfold waypoint. ok_go. by eapply okv_weaken; [apply get_byte_ok|]. Qed.

Lemma then_cycle_count_ok p : ok p -> ok (then_cycle_count p).
Proof. intros. unfold then_cycle_count. ok_go. Qed.

Lemma print_atoms_ok i d : ok (print_atoms i d).
Proof. revert d. induction i as [|i IH]; intros d; simpl; ok_go. Qed.
#[local] Hint Resolve print_atoms_ok : keeps.

Lemma atom_ok : ok atom.
Proof.
  unfold atom, atom_cycle_accurate, atom_non_cycle_accurate. ok_go.
  destruct (find_stop _ _) as [i d]. ok_go.
Qed.

Lemma trigger_ok : ok trigger.
Proof. unfold trigger. ok_go. Qed.
Lemma except_ret_ok : ok except_ret.
Proof. unfold except_ret. ok_go. Qed.

(** A table of safe decoders that covers every byte. *)
Definition safe_table (t : list packet_type) : Prop :=
  Forall (fun p => from_option ok True (decode p)) t /\
  (forall ch, existsb (fun p => is_match p ch) t = true).

Lemma last_entry_matches t p :
  match_mask p = 0 -> match_val p = 0 -> nonzero_mask p = 0 -> In p t ->
  forall ch, existsb (fun p => is_match p ch) t = true.
Proof.
  intros Hm Hv Hn Hin ch. apply existsb_exists. exists p. split; [done|].
  unfold is_match. by rewrite Hm, Hv, Hn, Z.land_0_r.
Qed.

Lemma nop_ok : ok (mret 0 : M world Z).
Proof. by apply okv_ret. Qed.

#[local] Hint Resolve isynccc_ok vmid_ok ndata_ok contextid_ok pheader_ok isync_pft_ok atom_ok
  waypoint_ok then_cycle_count_ok trigger_ok except_ret_ok nop_ok : keeps.
#[local] Hint Unfold async ignore branch_pft timestamp_pft : keeps.
Ltac safe_entries :=
  repeat (apply Forall_cons_2; [simpl; solve [exact I | autounfold with keeps; eauto with keeps]|]);
  apply Forall_nil_2.

Lemma etm_3_3_safe : safe_table packet_types_etm_3_3.
Proof.
  split.
  - unfold packet_types_etm_3_3. safe_entries.
  - eapply last_entry_matches with (p := mkPacket 0 0 0 None "Unknown"); try done.
    simpl. tauto.
Qed.

Lemma pft_safe : safe_table packet_types_pft.
Proof.
  split.
  - unfold packet_types_pft. safe_entries.
  - eapply last_entry_matches with (p := mkPacket 0 0 0 None "Unknown"); try done.
    simpl. tauto.
Qed.

Lemma find_packet_ok t ch :
  existsb (fun p => is_match p ch) t = true ->
  okv (fun p => In p t /\ is_match p ch = true) (find_packet t ch).
Proof.
  induction t as [|p t IH]; simpl; [done|].
  destruct (is_match p ch) eqn:E; simpl.
  - intros _. apply okv_ret. auto.
  - intros H. eapply okv_weaken; [by apply IH|]. intros q [? ?]. auto.
Qed.

Lemma decode_rest_ok t ch :
  safe_table t ->
  ok (p ← find_packet t ch;
      s ← get;
      when (truth (s_print_input s)) (printf "  %s\n" [AStr (name p)]);;
      match decode p with
      | Some d => _ ← d; mret tt
      | None => lose_sync (printf "  %02x: not handled (%s)\n" [AInt ch; AStr (name p)])
      end).
Proof.
  intros [Hok Hcov]. eapply okv_bind; [apply find_packet_ok, Hcov|].
  intros p [Hin _]. ok_go. rewrite Forall_forall in Hok.
  specialize (Hok p Hin).
  destruct (decode p); [|ok_go]. eapply okv_bind; [apply Hok|]. ok_go.
Qed.

(** One packet consumes at least one byte. *)
Lemma decode_packet_spec t w :
  safe_table t -> Inv U w ->
  wpu U (decode_packet t)
    (fun _ w' => Inv U w' /\ (pending w' < pending w)%nat)
    (fun c w' => c = 0 /\ Inv U w') w.
Proof.
  intros Ht HI. unfold decode_packet. apply wp_bind.
  eapply wp_mono; [by apply get_byte_spec|]. intros ch w1 (Hch & HI1 & Hlt).
  eapply wp_mono; [by apply (decode_rest_ok t ch Ht)|].
  intros _ w2 (_ & HI2 & Hle). split; [done|]. lia.
Qed.

Lemma decode_loop_spec fuel t w :
  safe_table t -> Inv U w -> (pending w < fuel)%nat ->
  wpu U (decode_loop fuel t) (fun _ _ => False) (fun c w' => c = 0 /\ Inv U w') w.
Proof.
  intros Ht. revert w. induction fuel as [|fuel IH]; intros w HI Hf; [lia|].
  simpl. apply wp_bind. eapply wp_mono; [by apply decode_packet_spec|].
  intros _ w1 [HI1 Hlt]. apply IH; [done|]. lia.
Qed.
End Decoders.

(** ** The self-check and the options of [main] *)

(** The options whose argument the decoder uses as a shift count. *)
Definition good_option (o : getopt_result) : Prop :=
  match o with
  | GetLong OPT_CONTEXTID_BYTES (Some a) => atoi a <= 4
  | GetLong OPT_SOURCEID (Some a) => 0 <= atoi a < 32
  | GetLong OPT_SOURCEID None => False
  | _ => True
  end.
Definition uses_formatter (o : getopt_result) : bool :=
  match o with
  | GetLong OPT_FORMATTER _ | GetLong OPT_SOURCEID _ => true
  | _ => false
  end.

Lemma for_m_noop {W} n i (body : Z -> M W unit) w :
  (forall j, i <= j < i + Z.of_nat n -> body j w = (Ret tt, w)) ->
  for_m n i body w = (Ret tt, w).
Proof.
  revert i. induction n as [|n IH]; intros i Hb; [done|].
  simpl. unfold mbind, M_bind. rewrite Hb by lia. apply IH. intros j Hj. apply Hb. lia.
Qed.

Lemma check_table_silent t w :
  all_below 256 (fun ch => match_count t ch =? 1) = true -> check_table t w = (Ret tt, w).
Proof.
  intros Hall. apply for_m_noop. intros j Hj. unfold check_byte.
  rewrite (all_below_spec 256 _ Hall j) by (unfold in_uint; lia). done.
Qed.

Lemma etm_3_3_count : all_below 256 (fun ch => match_count packet_types_etm_3_3 ch =? 1) = true.
Proof. vm_compute. reflexivity. Qed.
Lemma pft_count : all_below 256 (fun ch => match_count packet_types_pft ch =? 1) = true.
Proof. vm_compute. reflexivity. Qed.

Section Options.
Context (U : Prop).
Local Abbreviation okv := (okv U).
Local Abbreviation ok := (okv (fun _ => True)).

Lemma upd_formatter_ok v : U -> ok (upd (set_formatter v)).
Proof.
  intros HU w (Hs & Hd & Hin & _). apply wp_modify. split; [done|]. split; [|done].
  split_and!; try done. destruct Hs. constructor; done.
Qed.

Lemma upd_contextid_ok v : v <= 4 -> ok (upd (set_contextid_bytes v)).
Proof. intros Hv. ok_go. Qed.

(** The table a run has chosen is one of the two. *)
Definition good_locals (l : locals) : Prop := from_option (safe_table U) True (packet_types l).

Lemma store_flag_ok o v l :
  good_locals l -> (o = OPT_FORMATTER -> U) -> (o = OPT_CONTEXTID_BYTES -> v <= 4) ->
  okv good_locals (store_flag o v l).
Proof.
  intros Hl HU Hv.
  destruct o; simpl;
    try (by apply okv_ret);
    (eapply (okv_bind _ (fun _ => True)); [|intros; by apply okv_ret]);
    auto using upd_formatter_ok, upd_contextid_ok; by ok_go.
Qed.

Lemma process_long_ok o optarg l :
  good_locals l -> good_option (GetLong o optarg) -> (uses_formatter (GetLong o optarg) = true -> U) ->
  okv good_locals (process_long o optarg l).
Proof.
  intros Hl Hg HU. unfold process_long.
  eapply okv_bind.
  { apply store_flag_ok; [done|..]; intros ->; simpl; [by apply HU | lia]. }
  intros l1 Hl1. eapply (okv_bind _ good_locals).
  2: { intros l2 Hl2. ok_go. eapply (okv_bind _ (fun _ => True)); [destruct optarg|]; ok_go. }
  assert (forall v, (o = OPT_CONTEXTID_BYTES -> v <= 4) -> okv good_locals (store_flag o v l1)) as Hst.
  { intros v Hv. apply store_flag_ok; [done| |done]. intros ->. by apply HU. }
  destruct o; simpl in *;
    try (destruct optarg; [apply Hst; try done; by intros _ | by apply okv_ret]).
  1-3: ok_go; apply etm_3_3_safe || apply pft_safe.
  eapply okv_bind; [by apply upd_formatter_ok, HU|]. intros _ _.
  destruct optarg as [a|]; [|done].
  destruct (Z.ltb_spec (atoi a) 0), (Z.leb_spec 32 (atoi a)); try lia. simpl. ok_go.
Qed.

Lemma process_options_ok argv0 opts l w :
  good_locals l -> Forall good_option opts -> (existsb uses_formatter opts = true -> U) -> Inv U w ->
  wpu U (process_options argv0 opts l)
    (fun l' w' => good_locals l' /\ Inv U w') (fun c _ => c = 0 \/ c = 1) w.
Proof.
  intros Hl Hopts. revert l w Hl. induction Hopts as [|o opts Ho Hopts IH]; intros l w Hl HU HI.
  { by apply wp_ret. }
  simpl in HU. rewrite orb_true_iff in HU. destruct o as [o optarg| | |c]; simpl.
  - apply wp_bind. eapply wp_mono_exit;
      [apply process_long_ok; auto| |intros c ? [-> _]; by left].
    intros l1 w1 (Hl1 & HI1 & _). apply IH; auto.
  - apply wp_bind, wp_printf, wp_bind, wp_printf, wp_bind.
    eapply (wp_mono _ _ (fun _ _ => True)); [|intros; apply wp_exit; by left].
    unfold wpu. by vm_compute.
  - apply wp_exit. by right.
  - apply wp_bind, wp_printf, wp_exit. by right.
Qed.
End Options.

(** ** Properties *)

(** C4: On every finite input and every option list whose context-ID and
    source-ID arguments are in range, the decoder ends with status 0 or 1, or,
    only if an option enabled the formatter, it meets undefined behaviour (the
    formatter shifts 1 by source IDs up to 127).  Neither the [while (1)] of
    [main] nor that of the formatter runs for ever, [main] never falls out of
    its loop, and the scans of the packet tables stay inside them. *)
Theorem main_terminates argv0 opts bytes :
  Forall (in_uint 8) bytes -> Forall good_option opts ->
  (exists c w, main argv0 opts (mkWorld init_state 0 bytes []) = (Exit c, w) /\ (c = 0 \/ c = 1)) \/
  (exists w, main argv0 opts (mkWorld init_state 0 bytes []) = (Undef, w) /\
     existsb uses_formatter opts = true).
Proof.
  intros Hb Ho. set (U := existsb uses_formatter opts = true).
  assert (wpu U (main argv0 opts) (fun _ _ => False) (fun c _ => c = 0 \/ c = 1)
            (mkWorld init_state 0 bytes [])) as H.
  { apply wp_bind, wp_modify, wp_bind.
    eapply wp_mono; [apply (process_options_ok U); try done|].
    { split_and!; try done. by constructor; vm_compute; repeat constructor. }
    intros [[t|] pc] w [Ht HI]; simpl;
      [|by apply wp_bind, wp_printf, wp_exit; right].
    assert (forall b, ok U (when b show_config)) as Hshow
      by (intros b; unfold show_config; ok_go).
    assert (ok U (check_table t)) as Hcheck.
    { apply ok_for. intros ch. unfold check_byte. repeat apply okv_if; try by ok_go.
      ok_step. generalize (masked t) as l. induction l; ok_go. }
    apply wp_bind. eapply wp_mono_exit; [by apply Hshow| |by intros c ? [-> _]; left].
    intros _ w1 (_ & HI1 & _).
    apply wp_bind. eapply wp_mono_exit; [by apply Hcheck| |by intros c ? [-> _]; left].
    intros _ w2 (_ & HI2 & _). apply wp_bind, wp_gets.
    eapply wp_mono_exit; [apply decode_loop_spec; [done|done|by eapply pending_fuel]|done|].
    intros c ? [-> _]. by left. }
  unfold wpu in H. destruct (main argv0 opts _) as [[] w]; try done; eauto 6.
Qed.

(** A thumb of ten bytes, decoded with the formatter off. *)
Example main_terminates_witness :
  (exists c w, main "etm" [GetLong OPT_PFT_1_1 None]
     (mkWorld init_state 0 [0; 0; 0; 0; 0; 0x80; 0x86; 0x3c] []) = (Exit c, w) /\ (c = 0 \/ c = 1)) \/
  (exists w, main "etm" [GetLong OPT_PFT_1_1 None]
     (mkWorld init_state 0 [0; 0; 0; 0; 0; 0x80; 0x86; 0x3c] []) = (Undef, w) /\
     existsb uses_formatter [GetLong OPT_PFT_1_1 None] = true).
Proof.
  apply (main_terminates "etm" [GetLong OPT_PFT_1_1 None]);
    repeat constructor; unfold in_uint; lia.
Defined.

(** Both packet tables are complete and unambiguous: every byte matches
    exactly one entry before the catch-all, so the self-check of [main] prints
    nothing. *)
Theorem packet_tables_unambiguous :
  (forall ch, in_uint 8 ch ->
     match_count packet_types_etm_3_3 ch = 1 /\ match_count packet_types_pft ch = 1) /\
  (forall w, check_table packet_types_etm_3_3 w = (Ret tt, w) /\
             check_table packet_types_pft w = (Ret tt, w)).
Proof.
  split; [intros ch Hch | intros w]; split.
  - apply Z.eqb_eq. exact (all_below_spec 256 _ etm_3_3_count ch Hch).
  - apply Z.eqb_eq. exact (all_below_spec 256 _ pft_count ch Hch).
  - exact (check_table_silent _ w etm_3_3_count).
  - exact (check_table_silent _ w pft_count).
Qed.

(** C17: Every packet that is decoded keeps the state well formed, with the
    formatter on or off (registers within their widths, [mode] a valid index
    of [mode_name], the synchronisation counter between -4 and 1, the index of
    the formatter inside its frame), and consumes at least one byte; or the
    program ends with status 0 in a well-formed state.  Decoding meets no
    undefined behaviour, unless the formatter is on (source IDs from 32 up). *)
Theorem decode_packet_invariant t w :
  In t [packet_types_etm_3_3; packet_types_pft] ->
  wf (st w) -> in_uint 32 (daddr w) -> Forall (in_uint 8) (input w) ->
  wpu (truth (s_formatter (st w)) = true) (decode_packet t)
    (fun _ w' => wf (st w') /\ in_uint 32 (daddr w') /\ Forall (in_uint 8) (input w') /\
       (pending w' < pending w)%nat)
    (fun c w' => c = 0 /\ wf (st w')) w.
Proof.
  intros Ht Hs Hd Hin.
  assert (safe_table (truth (s_formatter (st w)) = true) t) as Hsafe.
  { destruct Ht as [<-|[<-|[]]]; [apply etm_3_3_safe | apply pft_safe]. }
  eapply wp_mono_exit; [by apply decode_packet_spec| |].
  - intros _ w' ((? & ? & ? & _) & ?). auto.
  - intros c w' [? [? _]]. auto.
Qed.

(** A frame through the formatter: source ID 3, then a p-header. *)
Definition framed : world :=
  mkWorld (set_sourceid_match 8 (set_formatter 1 init_state)) 0 (7 :: 0x84 :: replicate 14 0) [].
Example decode_packet_invariant_witness :
  (decode_packet packet_types_etm_3_3 framed).1 = Ret tt /\
  wpu (truth (s_formatter (st framed)) = true) (decode_packet packet_types_etm_3_3)
    (fun _ w' => wf (st w') /\ in_uint 32 (daddr w') /\ Forall (in_uint 8) (input w') /\ (pending w' < 16)%nat)
    (fun c w' => c = 0 /\ wf (st w')) framed.
Proof.
  split; [by vm_compute|].
  apply (decode_packet_invariant packet_types_etm_3_3 framed);
    [left; reflexivity|constructor; vm_compute; repeat constructor; done|unfold in_uint; simpl; lia|].
  unfold framed, in_uint. simpl. repeat constructor; lia.
Defined.
