(* ===== verification/EtmPackets.v ===== *)
(** * What the packets decode to

    Round trips for the packets of [test/etm/etm.c]: an encoder for the
    wire format of a packet, and the theorem that the decoder recovers what
    was encoded.  The formatter and [--print-input] are off ([plain]); the
    formatter has its own round trip at the end. *)
From S2P Require Import Prelude CInt CMonad CStr Etm.

Definition plain (s : state) : Prop := s_formatter s = 0 /\ s_print_input s = 0.

(** What [get_byte] does to the state. *)
Definition feed (c : Z) (s : state) : state :=
  let s := set_data c s in
  if (c =? 0) && (s_sync s <=? 0) then
    if s_sync s =? -4 then set_sync 1 s else set_sync (s_sync s - 1) s
  else s.
Fixpoint feeds (cs : list Z) (s : state) : state :=
  match cs with [] => s | c :: cs => feeds cs (feed c s) end.

Lemma feed_frame c s :
  plain (feed c s) = plain s /\ s_data (feed c s) = c /\
  s_iaddr (feed c s) = s_iaddr s /\ s_iaddr_valid (feed c s) = s_iaddr_valid s /\
  s_timestamp (feed c s) = s_timestamp s /\ s_mode (feed c s) = s_mode s /\
  s_pc (feed c s) = s_pc s /\ s_alt_branch (feed c s) = s_alt_branch s /\
  s_program_flow_only (feed c s) = s_program_flow_only s /\
  s_contextid_bytes (feed c s) = s_contextid_bytes s /\
  s_long_wait (feed c s) = s_long_wait s.
Proof. unfold feed. repeat case_match; done. Qed.

Lemma get_byte_plain s d c r ps :
  plain s -> in_uint 8 c ->
  get_byte (mkWorld s d (c :: r) ps) = (Ret c, mkWorld (feed c s) d r ps).
Proof.
  intros [Hf Hp] Hc. unfold get_byte, mbind, M_bind, get, gets, getchar. simpl.
  rewrite Hf. simpl. rewrite Hp. simpl.
  assert ((c <? 0) = false) as -> by (apply Z.ltb_ge; apply Hc).
  assert (u8 c = c) as -> by (by apply wrap_id).
  unfold feed, truth. rewrite negb_involutive. simpl.
  destruct ((c =? 0) && (s_sync s <=? 0)); [destruct (s_sync s =? -4)|]; simpl;
    unfold when; simpl; by rewrite ?Hp.
Qed.

Lemma plain_feed c s : plain s -> plain (feed c s).
Proof. pose proof (feed_frame c s) as (-> & _). done. Qed.

(** Reading the state after a byte: the data is the byte, and the fields the
    decoders read are the old ones. *)
Lemma bind_get {A} (k : state -> M world A) w : (s ← get; k s) w = k (st w) w.
Proof. done. Qed.
Lemma bind_byte {A} (k : Z -> M world A) s d c r ps :
  plain s -> in_uint 8 c ->
  (x ← get_byte; k x) (mkWorld s d (c :: r) ps) = k c (mkWorld (feed c s) d r ps).
Proof. intros Hs Hc. unfold mbind, M_bind. by rewrite get_byte_plain. Qed.

(** ** Groups of bits on the wire

    [groups top k i z] are the groups [i], ..., [i + k - 1] of seven bits of
    [z], least significant first, with the continuation bit on all but the
    last; the last one is masked by [top]. *)
Fixpoint groups (top : Z -> Z) (k : nat) (i z : Z) : list Z :=
  match k with
  | O => []
  | S O => [Z.land (Z.shiftr z (7 * i)) (top i)]
  | S k => Z.lor (Z.land (Z.shiftr z (7 * i)) 0x7f) 0x80 :: groups top k (i + 1) z
  end.
Definition top7 (i : Z) : Z := 0x7f.
(** The ninth timestamp byte carries eight bits. *)
Definition top_timestamp (i : Z) : Z := if i =? 8 then 0xff else 0x7f.

Lemma land_7f_uint z : in_uint 7 (Z.land z 0x7f).
Proof. apply land_uint_r; unfold in_uint; lia. Qed.

(** [pos] bits of [z] are collected; the next groups extend them. *)
Lemma cycle_bytes_groups b k n i pos z d r s ps :
  (0 < k <= n)%nat -> 0 <= b -> pos = 7 * i + b -> 0 <= i -> plain s ->
  cycle_bytes n pos (u32 (wrap pos z)) (mkWorld s d (groups top7 k i (Z.shiftr z b) ++ r) ps) =
  (Ret (u32 (wrap (pos + 7 * Z.of_nat k) z)),
   mkWorld (feeds (groups top7 k i (Z.shiftr z b)) s) d r ps).
Proof.
  revert n i pos s. induction k as [|k IH]; intros n i pos s [Hk Hn] Hb Hpi Hi Hs; [lia|].
  destruct n as [|n]; [lia|].
  assert (Z.shiftr (Z.shiftr z b) (7 * i) = Z.shiftr z pos) as Esh
    by (rewrite Z.shiftr_shiftr by lia; f_equal; lia).
  set (g := Z.land (Z.shiftr (Z.shiftr z b) (7 * i)) 0x7f).
  assert (in_uint 7 g) as Hg by apply land_7f_uint.
  assert (Z.lor (u32 (wrap pos z)) (shl32 g pos) = u32 (wrap (pos + 7) z)) as Ejoin.
  { unfold g, shl32. rewrite Esh. apply (join_group 32 pos 7 z); lia. }
  destruct k as [|k].
  - change (groups top7 1 i (Z.shiftr z b)) with [g].
    cbn [cycle_bytes app]. destruct (last_group g Hg) as (H8 & Hd & Hc).
    rewrite bind_byte by done. rewrite bind_get. cbn [st].
    destruct (feed_frame g s) as (_ & -> & _). cbv zeta. rewrite Hd, Hc, Ejoin. simpl.
    replace (pos + 7 * Z.of_nat 1) with (pos + 7) by lia. done.
  - change (groups top7 (S (S k)) i (Z.shiftr z b))
      with (Z.lor g 0x80 :: groups top7 (S k) (i + 1) (Z.shiftr z b)).
    cbn [cycle_bytes app]. destruct (more_group g Hg) as (H8 & Hd & Hc).
    rewrite bind_byte by done. rewrite bind_get. cbn [st].
    destruct (feed_frame (Z.lor g 0x80) s) as (_ & -> & _). cbv zeta. rewrite Hd, Hc, Ejoin.
    cbn [truth negb Z.eqb]. rewrite IH by (try lia; by apply plain_feed).
    replace (pos + 7 + 7 * Z.of_nat (S k)) with (pos + 7 * Z.of_nat (S (S k))) by lia. done.
Qed.

Lemma ccount_cycle_bytes n i count w : ccount_bytes n i count w = cycle_bytes n (7 * i) count w.
Proof.
  revert i count w. induction n as [|n IH]; intros i count w; [done|]. simpl.
  apply bind_ext. intros _ w1. apply bind_ext. intros s w2. case_match; [done|].
  rewrite IH. f_equal. lia.
Qed.

(** [k] groups carry a number of up to [7 * k] bits. *)
Lemma cycle_bytes_number b k n z d r s ps :
  (0 < k <= n)%nat -> 0 <= b -> plain s -> in_uint (Z.min 32 (7 * Z.of_nat k + b)) z ->
  cycle_bytes n b (wrap b z) (mkWorld s d (groups top7 k 0 (Z.shiftr z b) ++ r) ps) =
  (Ret z, mkWorld (feeds (groups top7 k 0 (Z.shiftr z b)) s) d r ps).
Proof.
  intros Hk Hb Hs Hz.
  assert (in_uint 32 z) as H32 by (eapply uint_weaken; [|exact Hz]; lia).
  assert (in_uint (b + 7 * Z.of_nat k) z) as Hk7 by (eapply uint_weaken; [|exact Hz]; lia).
  pose proof (cycle_bytes_groups b k n 0 b z d r s ps Hk Hb ltac:(lia) ltac:(lia) Hs) as H.
  rewrite (wrap_id _ _ Hk7), (wrap_id _ _ H32) in H.
  destruct (decide (b <= 32)).
  - rewrite (wrap_id 32 (wrap b z)) in H; [done|].
    eapply uint_weaken; [|by apply wrap_range]; lia.
  - assert (in_uint b z) as Hbz by (eapply uint_weaken; [|exact Hz]; lia).
    rewrite (wrap_id b z Hbz), (wrap_id 32 z H32) in H. by rewrite (wrap_id b z Hbz).
Qed.

(** ** Cycle counts *)
Definition long_wait_line (s : state) (count : Z) : list print :=
  if s_long_wait s <? count then [Printf "    ==== Long wait ====\n" []] else [].
Definition count_line (s : state) (count : Z) : print :=
  Printf "%c   Cycle count %d\n" [AStr (in_sync_char s); AInt count].

Lemma print_count_log count s d r ps :
  print_count count (mkWorld s d r ps) =
  (Ret tt, mkWorld s d r (count_line s count :: long_wait_line s count ++ ps)).
Proof.
  unfold print_count, long_wait_line. rewrite bind_get. cbn [st].
  by destruct (s_long_wait s <? count).
Qed.

(** Cycle counts round trip.  A count of up to 32 bits, sent as one to
    five groups of seven bits, is printed back exactly, preceded by the
    long-wait line when it exceeds the threshold; only the packet is consumed. *)
Theorem cycle_packet_roundtrip k z s d r ps :
  (0 < k <= 5)%nat -> plain s -> in_uint (Z.min 32 (7 * Z.of_nat k)) z ->
  let s' := feeds (groups top7 k 0 z) s in
  ccount (mkWorld s d (groups top7 k 0 z ++ r) ps) =
  (Ret 0, mkWorld s' d r (count_line s' z :: long_wait_line s' z ++ ps)).
Proof.
  intros Hk Hs Hz s'. unfold ccount.
  pose proof (cycle_bytes_number 0 k 5 z d r s ps Hk ltac:(lia) Hs) as H.
  rewrite Z.shiftr_0_r, Z.add_0_r in H. specialize (H Hz).
  eapply bind_eq; [rewrite ccount_cycle_bytes, Z.mul_0_r|].
  { replace (wrap 0 z) with 0 in H by (symmetry; apply Z.mod_1_r). exact H. }
  eapply bind_eq; [apply print_count_log|]. done.
Qed.

Example cycle_packet_roundtrip_witness :
  let bytes := groups top7 2 0 300 in
  bytes = [0xac; 0x02] /\
  ccount (mkWorld init_state 0 (bytes ++ [0x3c]) []) =
  (Ret 0, mkWorld (feeds bytes init_state) 0 [0x3c]
     (count_line (feeds bytes init_state) 300 :: long_wait_line (feeds bytes init_state) 300 ++ [])).
Proof.
  split; [reflexivity|].
  apply (cycle_packet_roundtrip 2 300 init_state 0 [0x3c] []);
    [lia | split; reflexivity | unfold in_uint; change (Z.min 32 (7 * Z.of_nat 2)) with 14; lia].
Defined.

(** ** Timestamps *)

(** Bits covered by the groups [i .. i + k - 1] of a timestamp. *)
Definition timestamp_bits (k i : nat) : Z := 7 * Z.of_nat k + (if (i + k =? 9)%nat then 1 else 0).

Lemma timestamp_step m len i ts z d :
  m = Z.ones len -> 0 <= len -> 7 * Z.of_nat i + len <= 64 -> in_uint 64 ts ->
  Z.land d m = Z.land (Z.shiftr z (7 * Z.of_nat i)) m ->
  Z.lor (Z.land ts (u64 (Z.lnot (Z.shiftl m (7 * Z.of_nat i)))))
        (u64 (Z.shiftl (Z.land d m) (7 * Z.of_nat i))) = splice (7 * Z.of_nat i) len ts z.
Proof.
  intros -> Hl Hpos Hts ->. rewrite field_store by (done || lia).
  apply wrap_id, put_field_uint; done || lia.
Qed.

Lemma timestamp_bytes_groups k i ts z s d r ps :
  (0 < k)%nat -> (i + k <= 9)%nat -> plain s -> in_uint 64 ts ->
  timestamp_bytes (9 - i) (Z.of_nat i) ts
    (mkWorld s d (groups top_timestamp k (Z.of_nat i) z ++ r) ps) =
  (Ret (splice (7 * Z.of_nat i) (timestamp_bits k i) ts z),
   mkWorld (feeds (groups top_timestamp k (Z.of_nat i) z) s) d r ps).
Proof.
  revert i ts s. induction k as [|k IH]; intros i ts s Hk Hi Hs Hts; [lia|].
  destruct (9 - i)%nat as [|n] eqn:En; [lia|].
  destruct k as [|k].
  - unfold groups, top_timestamp, timestamp_bits. cbn [timestamp_bytes app].
    destruct (Nat.eqb_spec (i + 1) 9) as [Ei|Ei].
    + assert (i = 8%nat) as -> by lia. assert (n = O) as -> by lia.
      change (Z.of_nat 8 =? 8) with true. cbv iota.
      assert (in_uint 8 (Z.land (Z.shiftr z (7 * Z.of_nat 8)) 255)) as H8
        by (apply land_uint_r; unfold in_uint; lia).
      rewrite bind_byte by done. rewrite bind_get. cbn [st].
      destruct (feed_frame (Z.land (Z.shiftr z (7 * Z.of_nat 8)) 255) s) as (_ & -> & _).
      cbv zeta. rewrite (timestamp_step 255 8 8 ts z) by (done || lia || (rewrite <- Z.land_assoc; done)).
      cbn [timestamp_bytes]. by destruct (negb _).
    + assert ((Z.of_nat i =? 8) = false) as E8 by (apply Z.eqb_neq; lia). rewrite E8. cbv iota.
      destruct (last_group _ (land_7f_uint (Z.shiftr z (7 * Z.of_nat i)))) as (H8 & Hd & Hc).
      rewrite bind_byte by done. rewrite bind_get. cbn [st].
      destruct (feed_frame (Z.land (Z.shiftr z (7 * Z.of_nat i)) 127) s) as (_ & -> & _).
      cbv zeta. rewrite Hc, (timestamp_step 127 7 i ts z) by (done || lia).
      by rewrite Z.add_0_r.
  - set (g := Z.land (Z.shiftr z (7 * Z.of_nat i)) 127).
    change (groups top_timestamp (S (S k)) (Z.of_nat i) z)
      with (Z.lor g 0x80 :: groups top_timestamp (S k) (Z.of_nat i + 1) z).
    cbn [timestamp_bytes app].
    destruct (more_group g (land_7f_uint _)) as (H8 & Hd & Hc).
    rewrite bind_byte by done. rewrite bind_get. cbn [st].
    destruct (feed_frame (Z.lor g 0x80) s) as (_ & -> & _). cbv zeta.
    assert ((Z.of_nat i =? 8) = false) as -> by (apply Z.eqb_neq; lia). cbv iota.
    rewrite Hc, (timestamp_step 127 7 i ts z) by (done || lia).
    cbn [truth negb Z.eqb]. replace n with (9 - S i)%nat by lia.
    replace (Z.of_nat i + 1) with (Z.of_nat (S i)) by lia.
    rewrite IH; [|lia|lia|by apply plain_feed|apply splice_uint; done || lia].
    replace (7 * Z.of_nat (S i)) with (7 * Z.of_nat i + 7) by lia.
    rewrite splice_splice by (unfold timestamp_bits; repeat case_match; lia).
    unfold timestamp_bits. rewrite (Nat.add_succ_comm i (S k)).
    do 3 f_equal. case_match; lia.
Qed.

Definition timestamp_line (s : state) (ts old : Z) (r : Z) : print :=
  Printf "%c   Timestamp %PRIu64 (%+PRIi64), R %d\n"
    [AStr (in_sync_char s); AInt ts; AInt (i64 (ts - old)); AInt r].

Lemma feeds_frame cs s :
  plain (feeds cs s) = plain s /\ s_iaddr (feeds cs s) = s_iaddr s /\
  s_iaddr_valid (feeds cs s) = s_iaddr_valid s /\ s_timestamp (feeds cs s) = s_timestamp s /\
  s_mode (feeds cs s) = s_mode s /\ s_pc (feeds cs s) = s_pc s /\
  s_alt_branch (feeds cs s) = s_alt_branch s /\
  s_program_flow_only (feeds cs s) = s_program_flow_only s /\
  s_contextid_bytes (feeds cs s) = s_contextid_bytes s.
Proof.
  revert s. induction cs as [|c cs IH]; intros s; [by repeat split|]. simpl.
  destruct (IH (feed c s)) as (-> & -> & -> & -> & -> & -> & -> & -> & ->).
  destruct (feed_frame c s) as (-> & _ & -> & -> & -> & -> & -> & -> & -> & -> & _).
  by repeat split.
Qed.

(** Timestamps round trip.  A timestamp packet sends the low groups of the
    new 64-bit time, and the groups left out are those where it agrees with the
    last one; the decoder arrives at the new time and prints it with its signed
    distance from the old one. *)
Theorem timestamp_packet_decodes k new s d r ps :
  (0 < k <= 9)%nat -> plain s -> in_uint 64 (s_timestamp s) ->
  Z.shiftr (s_timestamp s) (timestamp_bits k 0) = Z.shiftr new (timestamp_bits k 0) ->
  let s' := feeds (groups top_timestamp k 0 new) s in
  timestamp (mkWorld s d (groups top_timestamp k 0 new ++ r) ps) =
  (Ret 0, mkWorld (set_timestamp new s') d r
     (timestamp_line s' new (s_timestamp s) (b2z (truth (Z.land (s_data s) 4))) :: ps)).
Proof.
  intros Hk Hs Hold Hagree s'. unfold timestamp. rewrite bind_get. cbn [st]. cbv zeta.
  eapply bind_eq.
  { apply (timestamp_bytes_groups k 0 _ new); done || lia. }
  change (7 * Z.of_nat 0) with 0.
  rewrite splice_low by (done || (unfold timestamp_bits; case_match; lia)).
  rewrite bind_get. cbn [st]. fold s'.
  assert (s_timestamp s' = s_timestamp s) as E by apply (feeds_frame _ s).
  eapply bind_eq; [done|]. eapply bind_eq; [done|]. unfold timestamp_line. rewrite <- E.
  reflexivity.
Qed.

Example timestamp_packet_decodes_witness :
  let s := set_timestamp 0x123456 init_state in
  let bytes := groups top_timestamp 2 0 0x122345 in
  timestamp (mkWorld s 0 (bytes ++ [0x3c]) []) =
  (Ret 0, mkWorld (set_timestamp 0x122345 (feeds bytes s)) 0 [0x3c]
     [timestamp_line (feeds bytes s) 0x122345 0x123456 0]).
Proof.
  apply (timestamp_packet_decodes 2 0x122345 (set_timestamp 0x123456 init_state) 0 [0x3c] []);
    [lia | split; reflexivity | unfold in_uint; simpl; lia | reflexivity].
Defined.

(** ** Little-endian words and I-sync *)
Fixpoint le_list (n : nat) (i z : Z) : list Z :=
  match n with
  | O => []
  | S n => Z.land (Z.shiftr z (8 * i)) 0xff :: le_list n (i + 1) z
  end.

Lemma le_bytes_list n i z s d r ps :
  0 <= i -> i + Z.of_nat n <= 4 -> plain s ->
  le_bytes n i (u32 (wrap (8 * i) z)) (mkWorld s d (le_list n i z ++ r) ps) =
  (Ret (u32 (wrap (8 * (i + Z.of_nat n)) z)), mkWorld (feeds (le_list n i z) s) d r ps).
Proof.
  revert i s. induction n as [|n IH]; intros i s Hi Hn Hs.
  { by rewrite Z.add_0_r. }
  cbn [le_bytes le_list app feeds].
  assert (in_uint 8 (Z.land (Z.shiftr z (8 * i)) 255)) as H8
    by (apply land_uint_r; unfold in_uint; lia).
  rewrite bind_byte, bind_get by done. cbn [st].
  destruct (feed_frame (Z.land (Z.shiftr z (8 * i)) 255) s) as (_ & -> & _).
  destruct (Z.leb_spec 32 (8 * i)); [lia|].
  pose proof (join_group 32 (8 * i) 8 z ltac:(lia) ltac:(lia) ltac:(lia)) as J.
  change (Z.ones 8) with 255 in J. unfold shl32. rewrite J.
  replace (8 * i + 8) with (8 * (i + 1)) by lia.
  rewrite IH by (try lia; by apply plain_feed). by replace (i + 1 + Z.of_nat n) with (i + Z.of_nat (S n)) by lia.
Qed.

Lemma le_bytes_number n z s d r ps :
  (n <= 4)%nat -> plain s -> in_uint (8 * Z.of_nat n) z ->
  le_bytes n 0 0 (mkWorld s d (le_list n 0 z ++ r) ps) =
  (Ret z, mkWorld (feeds (le_list n 0 z) s) d r ps).
Proof.
  intros Hn Hs Hz. pose proof (le_bytes_list n 0 z s d r ps ltac:(lia) ltac:(lia) Hs) as H.
  replace (u32 (wrap (8 * 0) z)) with 0 in H
    by (symmetry; unfold wrap at 2; rewrite Z.mod_1_r; done).
  rewrite H, Z.add_0_l, (wrap_id (8 * Z.of_nat n) z) by done. rewrite wrap_id; [done|].
  eapply uint_weaken; [|exact Hz]; lia.
Qed.

(** What an I-sync address makes of the state. *)
Definition isync_mode (ib addr : Z) : Z :=
  if truth (Z.land ib 0x10) then 0 else if truth (Z.land addr 1) then 1 else 2.
Definition isync_addr (ib addr : Z) : Z :=
  if isync_mode ib addr =? 1 then Z.land addr (not32 1) else addr.
Definition synced (ib addr : Z) (s : state) : state :=
  set_branch_count 0 (set_pc (isync_addr ib addr) (set_iaddr_valid 0xffffffff
    (set_iaddr (isync_addr ib addr) (set_mode (isync_mode ib addr) s)))).

Lemma update_addr_synced ib addr s d r ps :
  update_addr ib addr (mkWorld s d r ps) = (Ret tt, mkWorld (synced ib addr s) d r ps).
Proof.
  unfold update_addr, synced, isync_addr, isync_mode.
  destruct (truth (Z.land ib 16)); [done|]. by destruct (truth (Z.land addr 1)).
Qed.

Definition isync_packet (n : nat) (ctx ib addr : Z) : list Z :=
  le_list n 0 ctx ++ ib :: le_list 4 0 addr.
Definition isync_line (s : state) (ctx ib : Z) : print :=
  Printf "%c I-sync Context %08x, IB %02x, Addr %08x\n"
    [AStr (in_sync_char s); AInt ctx; AInt ib; AInt (s_iaddr s)].

Lemma feeds_app a b s : feeds (a ++ b) s = feeds b (feeds a s).
Proof. revert s. induction a as [|c a IH]; intros s; simpl; auto. Qed.

(** C40: Decoding an I-sync packet read straight from the port (formatter and
    dump of the input off) inverts its encoding: a context ID of as many bytes as configured (at
    most four), an information byte and a 32-bit address are printed as they
    were sent and set the mode (Jazelle, Thumb or ARM), the address with its
    Thumb bit dropped, a full valid mask and a branch count of zero; exactly
    the bytes of the packet are consumed. *)
Theorem isync_packet_decodes n ctx ib addr s d r ps :
  plain s -> s_contextid_bytes s = Z.of_nat n -> (n <= 4)%nat ->
  in_uint (8 * Z.of_nat n) ctx -> in_uint 8 ib -> in_uint 32 addr ->
  let s' := synced ib addr (feeds (isync_packet n ctx ib addr) s) in
  isync (mkWorld s d (isync_packet n ctx ib addr ++ r) ps) =
  (Ret 0, mkWorld s' d r (isync_line s' ctx ib :: ps)).
Proof.
  intros Hs Hn Hn4 Hctx Hib Haddr s'.
  unfold isync, isync_packet in *. rewrite <- app_assoc.
  set (s1 := feeds (le_list n 0 ctx) s).
  assert (plain s1) as Hs1 by (unfold s1; by rewrite (proj1 (feeds_frame _ s))).
  eapply bind_eq.
  { unfold get_contextid. rewrite bind_get. cbn [st]. rewrite Hn, Nat2Z.id.
    by apply le_bytes_number. }
  rewrite <- app_comm_cons, bind_byte by done.
  eapply bind_eq; [apply le_bytes_number; [done|by apply plain_feed|done]|].
  eapply bind_eq; [apply update_addr_synced|].
  subst s'. rewrite feeds_app. reflexivity.
Qed.

Example isync_packet_decodes_witness :
  let bytes := isync_packet 4 0xcafe 0x21 0x8001 in
  let s' := synced 0x21 0x8001 (feeds bytes init_state) in
  isync (mkWorld init_state 0 (bytes ++ [0x3c]) []) =
  (Ret 0, mkWorld s' 0 [0x3c] [isync_line s' 0xcafe 0x21]).
Proof.
  apply (isync_packet_decodes 4 0xcafe 0x21 0x8001 init_state 0 [0x3c] []);
    unfold in_uint; simpl; try lia; split; reflexivity.
Defined.

(** ** Branch addresses *)

(** [k] continued groups. *)
Fixpoint more (k : nat) (i z : Z) : list Z :=
  match k with
  | O => []
  | S k => Z.lor (Z.land (Z.shiftr z (7 * i)) 0x7f) 0x80 :: more k (i + 1) z
  end.

(** The mask of valid address bits after [k] more bytes. *)
Fixpoint valid_masks (k : nat) (count vm : Z) : Z :=
  match k with
  | O => vm
  | S k => valid_masks k (count + 1) (Z.lxor vm (shl32 0x7f (7 * count - 1)))
  end.

Lemma store_group pos old v :
  0 <= pos -> in_uint 32 old ->
  Z.lor (Z.land old (not32 (shl32 0x7f pos))) (shl32 (Z.land v 0x7f) pos) =
  u32 (put_field pos 7 old v).
Proof. intros. by apply (field_store32 pos 7). Qed.

Lemma branch_bytes_more k n count a addr L s d r ps vm :
  Z.of_nat n = 5 - count -> 1 <= count -> (k < n)%nat ->
  plain s -> s_alt_branch s = 0 -> Z.land (s_data s) 0x80 = 0x80 ->
  in_uint 32 addr -> in_uint 8 L -> Z.land L 0x80 = 0 \/ S k = n ->
  branch_bytes n count addr vm
    (mkWorld s d (more k (count - 1) (Z.shiftr a 6) ++ L :: r) ps) =
  (Ret (count + Z.of_nat k + 1,
        u32 (put_field (7 * (count + Z.of_nat k) - 1) 7
               (splice (7 * count - 1) (7 * Z.of_nat k) addr a) L),
        valid_masks (S k) count vm),
   mkWorld (feed L (feeds (more k (count - 1) (Z.shiftr a 6)) s)) d r ps).
Proof.
  revert n count addr vm s. induction k as [|k IH];
    intros n count addr vm s Hn Hc Hk Hs Halt Hd Haddr HL Hstop;
    (destruct n as [|n]; [lia|]); cbn [branch_bytes]; rewrite bind_get; cbn [st];
    rewrite Hd; (assert ((count <? 5) = true) as -> by (apply Z.ltb_lt; lia));
    cbn [truth negb Z.eqb andb].
  - cbn [more app feeds].
    rewrite bind_byte, bind_get by done. cbn [st].
    destruct (feed_frame L s) as (Hp & -> & _ & _ & _ & _ & _ & -> & _).
    rewrite Halt. change (truth 0) with false. cbn [andb]. cbv zeta. cbv iota.
    rewrite (store_group (7 * count - 1) addr L) by (done || lia).
    eapply bind_eq. { pose proof (plain_feed L s Hs) as [_ ->]. done. }
    assert (splice (7 * count - 1) (7 * Z.of_nat 0) addr a = addr) as ->.
    { apply Z.bits_inj'. intros m Hm. rewrite testbit_splice by lia.
      destruct (Z.leb_spec (7 * count - 1) m), (Z.ltb_spec m (7 * count - 1 + 7 * Z.of_nat 0));
        simpl; done || lia. }
    rewrite !Z.add_0_r. destruct n as [|n]; cbn [branch_bytes]; [done|].
    rewrite bind_get. cbn [st]. rewrite (proj1 (proj2 (feed_frame L s))).
    destruct Hstop as [->|]; [done|lia].
  - cbn [more app feeds].
    set (g := Z.land (Z.shiftr (Z.shiftr a 6) (7 * (count - 1))) 0x7f).
    destruct (more_group g (land_7f_uint _)) as (H8 & Hg & Hcont).
    rewrite bind_byte, bind_get by done. cbn [st].
    destruct (feed_frame (Z.lor g 128) s) as (Hp & Hdata & _ & _ & _ & _ & _ & Halt' & _).
    rewrite Halt', Hdata, Halt. change (truth 0) with false. cbn [andb]. cbv zeta. cbv iota.
    rewrite Hg.
    assert (g = Z.land (Z.shiftr a (7 * count - 1)) 0x7f) as Eg
      by (unfold g; rewrite Z.shiftr_shiftr by lia; do 2 f_equal; lia).
    replace (shl32 g (7 * count - 1))
      with (shl32 (Z.land (Z.shiftr a (7 * count - 1)) 0x7f) (7 * count - 1)) by (by rewrite Eg).
    rewrite (store_group (7 * count - 1) addr), (wrap_id 32)
      by (done || lia || (apply put_field_uint; done || lia)).
    fold (splice (7 * count - 1) 7 addr a).
    eapply bind_eq. { pose proof (plain_feed (Z.lor g 128) s Hs) as [_ ->]. done. }
    replace (count - 1 + 1) with (count + 1 - 1) by lia.
    rewrite IH; [|lia|lia|lia|by rewrite Hp|by rewrite Halt'|by rewrite Hdata
      |apply splice_uint; done || lia|done|intuition lia].
    replace (7 * (count + 1) - 1) with (7 * count - 1 + 7) by lia.
    rewrite splice_splice by lia.
    replace (7 + 7 * Z.of_nat k) with (7 * Z.of_nat (S k)) by lia.
    replace (count + 1 + Z.of_nat k) with (count + Z.of_nat (S k)) by lia.
    reflexivity.
Qed.

(** A branch packet to an ARM address with all five address bytes: [b0]
    carries six bits, three more bytes seven each, the last one the three bits
    that are left and the ARM marker. *)
Definition arm_branch_head (a : Z) : Z := Z.lor (Z.lor (Z.shiftl (Z.land (Z.shiftr a 2) 0x3f) 1) 1) 0x80.
Definition arm_branch_last (a : Z) : Z := Z.lor (Z.land (Z.shiftr a 29) 7) 8.
Definition arm_branch_tail (a : Z) : list Z :=
  more 3 0 (Z.shiftr (Z.shiftr a 2) 6) ++ [arm_branch_last a].

Lemma arm_branch_head_facts a :
  in_uint 8 (arm_branch_head a) /\ Z.land (arm_branch_head a) 0x80 = 0x80 /\
  Z.land (Z.shiftr (arm_branch_head a) 1) 0x3f = Z.land (Z.shiftr a 2) 0x3f.
Proof.
  unfold arm_branch_head.
  assert (in_uint 6 (Z.land (Z.shiftr a 2) 0x3f)) as Hg
    by (apply land_uint_r; unfold in_uint; lia).
  generalize dependent (Z.land (Z.shiftr a 2) 0x3f). intros g Hg.
  pose proof (all_below_spec 64 (fun g =>
    let h := Z.lor (Z.lor (Z.shiftl g 1) 1) 0x80 in
    (0 <=? h) && (h <? 256) && (Z.land h 0x80 =? 0x80) && (Z.land (Z.shiftr h 1) 0x3f =? g))
    ltac:(vm_compute; done) g Hg) as H. cbv beta zeta in H.
  rewrite !andb_true_iff, Z.ltb_lt, Z.leb_le, !Z.eqb_eq in H. unfold in_uint. lia.
Qed.

Lemma arm_branch_last_facts a :
  let L := arm_branch_last a in
  in_uint 8 L /\ Z.land L 0x80 = 0 /\ Z.land L 0x40 = 0 /\ Z.land L 0xb0 = 0.
Proof.
  unfold arm_branch_last.
  assert (in_uint 3 (Z.land (Z.shiftr a 29) 7)) as Hg
    by (apply land_uint_r; unfold in_uint; lia).
  generalize dependent (Z.land (Z.shiftr a 29) 7). intros g Hg.
  pose proof (all_below_spec 8 (fun g =>
    let L := Z.lor g 8 in
    (0 <=? L) && (L <? 256) && (Z.land L 0x80 =? 0) && (Z.land L 0x40 =? 0) &&
    (Z.land L 0xb0 =? 0))
    ltac:(vm_compute; done) g Hg) as H. cbv beta zeta in H.
  rewrite !andb_true_iff, Z.ltb_lt, Z.leb_le, !Z.eqb_eq in H. unfold in_uint. lia.
Qed.

(** The address the five groups assemble. *)
Lemma arm_addr_assembles a addr0 :
  in_uint 32 a -> Z.land a 3 = 0 ->
  (forall n, 0 <= n < 6 -> Z.testbit addr0 n = Z.testbit (Z.shiftr a 2) n) ->
  shl32 (u32 (put_field 27 7 (splice 6 21 addr0 (Z.shiftr a 2)) (arm_branch_last a))) 2 = a.
Proof.
  intros Ha Ha4 H0. apply Z.bits_inj'. intros n Hn.
  unfold shl32. rewrite testbit_wrap, testbit_shiftl by lia.
  destruct (Z.ltb_spec n 32); [|by rewrite (testbit_uint 32 a n)].
  destruct (Z.ltb_spec n 2).
  { rewrite Z.testbit_neg_r by lia. simpl.
    pose proof (f_equal (fun z => Z.testbit z n) Ha4) as E. cbv beta in E.
    rewrite Z.land_spec, Z.testbit_0_l in E. change 3 with (Z.ones 2) in E.
    rewrite Z.ones_spec_low, andb_true_r in E by lia. by symmetry. }
  simpl. rewrite testbit_wrap, testbit_put_field, testbit_splice by lia.
  assert (Z.testbit a n = Z.testbit (Z.shiftr a 2) (n - 2)) as ->
    by (rewrite Z.shiftr_spec by lia; f_equal; lia).
  destruct (Z.ltb_spec (n - 2) 32); [|lia].
  destruct (Z.leb_spec 27 (n - 2)), (Z.ltb_spec (n - 2) (27 + 7)),
    (Z.leb_spec 6 (n - 2)), (Z.ltb_spec (n - 2) (6 + 21)); simpl; try lia; try done.
  - unfold arm_branch_last. rewrite Z.lor_spec, Z.land_spec, !Z.shiftr_spec by lia.
    change 7 with (Z.ones 3). rewrite Z.ones_spec_low, andb_true_r by lia.
    change 8 with (2 ^ 3). rewrite Z.pow2_bits_false, orb_false_r by lia. f_equal. lia.
  - apply H0. lia.
Qed.

(** The state a branch leaves. *)
Definition branched (mode addr valid : Z) (s : state) : state :=
  set_branch_count 0 (set_pc addr (set_iaddr addr (set_iaddr_valid valid (set_mode mode s)))).

(** The mask of a full ARM address as the code computes it: the shift count
    [mode | ((1 << mode) - 1)] is 3, not 2. *)
Definition arm_valid_mask : Z := 0xfffffff8.

(** C36: full ARM branch addresses.  A five-byte branch packet that carries a
    word-aligned 32-bit address sets the address, the program counter, ARM mode
    and a branch count of zero, whatever was known before.  The valid mask it
    leaves is at most [0xfffffff8] unless the old one was larger: [valid_mask]
    is shifted by [mode | ((1 << mode) - 1)] = 3 and not by the mode. *)
Theorem arm_branch_decodes a s d r ps :
  plain s -> s_alt_branch s = 0 -> s_program_flow_only s = 0 ->
  in_uint 32 (s_iaddr s) -> 0 <= s_mode s -> s_data s = arm_branch_head a ->
  in_uint 32 a -> Z.land a 3 = 0 ->
  get_branch_addr (mkWorld s d (arm_branch_tail a ++ r) ps) =
  (Ret false,
   mkWorld (branched 2 a (Z.max (s_iaddr_valid s) arm_valid_mask) (feeds (arm_branch_tail a) s))
     d r ps).
Proof.
  intros Hs Halt Hpf Hia Hmode Hdata Ha Ha4.
  destruct (arm_branch_head_facts a) as (Hh8 & Hh80 & Hh1).
  destruct (arm_branch_last_facts a) as (HL8 & HL80 & HL40 & HLb0).
  unfold get_branch_addr, arm_branch_tail. rewrite bind_get. cbn [st]. cbv zeta.
  eapply bind_eq. { destruct Hs as [_ ->]. done. }
  rewrite <- app_assoc. cbn [app].
  eapply bind_eq.
  { apply (branch_bytes_more 3 4 1 (Z.shiftr a 2)); try done; try lia.
    - by rewrite Hdata.
    - auto with cint. }
  cbv beta iota. change (7 * (1 + Z.of_nat 3) - 1) with 27. change (7 * 1 - 1) with 6.
  change (7 * Z.of_nat 3) with 21. change (1 + Z.of_nat 3 + 1) with 5. change (1 - 1) with 0.
  set (s1 := feed (arm_branch_last a) (feeds (more 3 0 (Z.shiftr (Z.shiftr a 2) 6)) s)).
  assert (feeds (more 3 0 (Z.shiftr (Z.shiftr a 2) 6) ++ [arm_branch_last a]) s = s1) as Hs1
    by apply feeds_app.
  destruct (feeds_frame (more 3 0 (Z.shiftr (Z.shiftr a 2) 6) ++ [arm_branch_last a]) s)
    as (Hp1 & _ & Hv1 & _ & _ & _ & Ha1 & Hf1 & _).
  rewrite Hs1 in Hp1, Hv1, Ha1, Hf1.
  assert (s_data s1 = arm_branch_last a) as Hd1 by apply feed_frame.
  rewrite bind_get. cbn [st]. rewrite Hd1, HL40, HLb0, Hf1, Hpf.
  cbn [truth negb Z.eqb andb Pos.eqb]. rewrite andb_false_r. cbn [negb andb].
  eapply bind_eq; [done|]. eapply bind_eq; [done|].
  rewrite bind_get. cbn [st s_mode set_mode].
  change (shl32 (valid_masks 4 1 63) (Z.lor 2 (1 ≪ 2 - 1))) with arm_valid_mask.
  rewrite arm_addr_assembles; [|done|done|].
  2: { intros n Hn. rewrite Hdata, Hh1. change 63 with (Z.ones 6).
       rewrite Z.lor_spec, !Z.land_spec, Z.ones_spec_low, andb_true_r by lia.
       unfold not32. rewrite testbit_wrap, Z.lnot_spec, Z.ones_spec_low by lia.
       by rewrite andb_false_r, andb_false_r. }
  rewrite Hs1. change (s_iaddr_valid (set_mode 2 s1)) with (s_iaddr_valid s1). rewrite Hv1.
  destruct (Z.ltb_spec (s_iaddr_valid s) arm_valid_mask).
  - rewrite Z.max_r by lia. reflexivity.
  - rewrite Z.max_l, <- Hv1 by lia. reflexivity.
Qed.

Example arm_branch_decodes_witness :
  let a := 0x80001234 in
  let s := set_data (arm_branch_head a) init_state in
  get_branch_addr (mkWorld s 0 (arm_branch_tail a ++ [0x3c]) []) =
  (Ret false, mkWorld (branched 2 a (Z.max 0 arm_valid_mask) (feeds (arm_branch_tail a) s))
     0 [0x3c] []).
Proof.
  apply (arm_branch_decodes 0x80001234 (set_data (arm_branch_head 0x80001234) init_state) 0 [0x3c] []);
    unfold in_uint; simpl; try lia; try reflexivity; split; reflexivity.
Defined.
