(* ===== verification/EtmAtoms.v ===== *)
(** * Executed instructions

    What P-headers (ETMv3) and atoms (PFT) of [test/etm/etm.c] print: one
    line per instruction, with the address the decoder believes it is at. *)
From S2P Require Import Prelude CInt CMonad CStr Etm.

(** The instructions of an output, newest first: executed or not, and where. *)
Definition instruction (p : print) : option (string * Z) :=
  match p with
  | Printf f [AStr _; AStr e; AInt pc] =>
      if String.eqb f "%c %c(%08x)" then Some (e, pc) else None
  | _ => None
  end.
Definition instructions (ps : list print) : list (string * Z) := omap instruction ps.

Definition flag (e : bool) : string := if e then "E" else "N".

(** The state after one instruction: the address moves on by one instruction,
    or, in program-flow trace, one more branch point is counted. *)
Definition stepped (s : state) : state :=
  set_wait_count 0
    (if truth (s_program_flow_only s)
     then set_branch_count (i32 (s_branch_count s + 1)) s
     else set_pc (u32 (s_pc s + Z.shiftl 1 (s_mode s))) s).

(** The state and the instructions (newest first) after a list of flags. *)
Fixpoint stepped_all (l : list bool) (s : state) : state :=
  match l with [] => s | _ :: l => stepped_all l (stepped s) end.
Fixpoint executed (l : list bool) (s : state) (acc : list (string * Z)) : list (string * Z) :=
  match l with [] => acc | e :: l => executed l (stepped s) ((flag e, s_pc s) :: acc) end.

Lemma when_upd b f s d r ps :
  when b (upd f) (mkWorld s d r ps) = (Ret tt, mkWorld (if b then f s else s) d r ps).
Proof. by destruct b. Qed.
Lemma when_printf b f a s d r ps :
  when b (printf f a) (mkWorld s d r ps) =
  (Ret tt, mkWorld s d r ((if b then [Printf f a] else []) ++ ps)).
Proof. by destruct b. Qed.

Lemma next_pc_eq s d r ps :
  next_pc (mkWorld s d r ps) =
  (Ret (s_pc s), mkWorld (if truth (s_program_flow_only s)
     then set_branch_count (i32 (s_branch_count s + 1)) s
     else set_pc (u32 (s_pc s + Z.shiftl 1 (s_mode s))) s) d r ps).
Proof.
  unfold next_pc, mbind, M_bind, get, gets. cbn [st]. by destruct (truth _).
Qed.

Lemma set_wait_count_id s : s_wait_count s = 0 -> set_wait_count 0 s = s.
Proof. destruct s. simpl. by intros ->. Qed.

Lemma print_instruction_spec e s d r ps :
  exists ps', print_instruction e (mkWorld s d r ps) = (Ret tt, mkWorld (stepped s) d r ps') /\
              instructions ps' = (flag e, s_pc s) :: instructions ps.
Proof.
  eexists. split.
  - unfold print_instruction. eapply bind_eq; [reflexivity|]. cbn [st]. cbv zeta.
    eapply bind_eq; [apply next_pc_eq|].
    eapply bind_eq; [apply when_upd|]. eapply bind_eq; [apply when_printf|].
    eapply bind_eq; [reflexivity|]. cbn [st]. eapply bind_eq; [reflexivity|].
    do 3 (eapply bind_eq; [apply when_printf|]).
    unfold printf, modify. cbn [emit etm_output st daddr input prints]. do 2 f_equal.
    unfold stepped. destruct (truth (s_wait_count s)) eqn:Hw; [done|].
    unfold truth in Hw. apply negb_false_iff, Z.eqb_eq in Hw.
    rewrite set_wait_count_id; [done|]. by destruct (truth _).
  - unfold instructions. cbn [omap list_omap instruction]. rewrite !omap_app.
    destruct e; repeat case_match; simplify_eq; simpl in *; simplify_eq; done.
Qed.

(** A sequence of [print_instruction] calls. *)
Fixpoint print_all (l : list bool) : M world unit :=
  match l with [] => skip | e :: l => print_instruction e;; print_all l end.

Lemma print_all_spec l s d r ps :
  exists ps', print_all l (mkWorld s d r ps) = (Ret tt, mkWorld (stepped_all l s) d r ps') /\
              instructions ps' = executed l s (instructions ps).
Proof.
  revert s ps. induction l as [|e l IH]; intros s ps; simpl; [by exists ps|].
  destruct (print_instruction_spec e s d r ps) as (ps1 & E1 & Hi1).
  destruct (IH (stepped s) ps1) as (ps2 & E2 & Hi2). exists ps2. split.
  - by eapply bind_eq.
  - by rewrite Hi2, Hi1.
Qed.

Lemma times_print_all n e w : times n (print_instruction e) w = print_all (replicate n e) w.
Proof. revert w. induction n as [|n IH]; intros w; simpl; [done|]. by apply bind_ext. Qed.

Lemma print_all_app l1 l2 w : print_all (l1 ++ l2) w = (print_all l1;; print_all l2) w.
Proof.
  revert w. induction l1 as [|e l1 IH]; intros w; simpl; [done|].
  unfold mbind, M_bind in *. destruct (print_instruction e w) as [[] ?]; auto.
Qed.

(** ** P-headers without cycle accuracy *)

(** Format 1: [E] atoms, then possibly one [N] atom. *)
Definition pheader_flags (d : Z) : list bool :=
  replicate (Z.to_nat (Z.land (Z.shiftr d 2) 0xf)) true ++
  (if truth (Z.land d 0x40) then [false] else []).

Lemma pheader_print_all s d r ps :
  Z.land (s_data s) 0x83 = 0x80 ->
  pheader_non_cycle_accurate (mkWorld s d r ps) =
  (print_all (pheader_flags (s_data s));; mret 0) (mkWorld s d r ps).
Proof.
  intros Hd. unfold pheader_non_cycle_accurate, pheader_flags, mbind, M_bind, get, gets. cbn [st].
  cbv zeta. rewrite Hd. change (0x80 =? 0x80) with true. cbv iota beta.
  rewrite times_print_all, print_all_app. unfold mbind, M_bind.
  destruct (print_all (replicate _ true) _) as [[] w]; try done.
  destruct (truth (Z.land (s_data s) 64)); simpl; [|done].
  unfold mbind, M_bind. by destruct (print_instruction false w) as [[] ?].
Qed.

(** ** PFT atoms *)

(** The byte of one to five atoms: bit 7, a stop bit above the atoms, the
    atoms from the first down to bit 1; an [N] atom is a 1. *)
Definition atom_payload (l : list bool) : Z :=
  (fix go acc (l : list bool) := match l with
   | [] => acc
   | e :: l => go (2 * acc + b2z (negb e)) l
   end) 1 l.
Definition atom_packet (l : list bool) : Z := Z.lor 0x80 (2 * atom_payload l).

Lemma atom_print_all l w :
  (0 < length l <= 5)%nat ->
  (let '(i, d) := find_stop 5 (u8 (Z.shiftl (atom_packet l) 1)) in print_atoms i d) w = print_all l w.
Proof.
  intros Hl.
  destruct l as [|b1 [|b2 [|b3 [|b4 [|b5 [|b6 l]]]]]]; simpl in Hl; try lia;
    repeat match goal with b : bool |- _ => destruct b end; reflexivity.
Qed.

Lemma print_all_ret l s d r ps :
  exists ps', (print_all l;; mret 0) (mkWorld s d r ps) = (Ret 0, mkWorld (stepped_all l s) d r ps') /\
              instructions ps' = executed l s (instructions ps).
Proof.
  destruct (print_all_spec l s d r ps) as (ps' & E & Hi). exists ps'. split; [|done].
  by eapply bind_eq.
Qed.

(** ** Properties *)

(** P-headers.  A format-1 P-header prints one line per instruction: the
    executed ones its count field says and then a failed one if bit 6 is set,
    each at the address the previous one leads to. *)
Theorem pheader_instructions s d r ps :
  Z.land (s_data s) 0x83 = 0x80 ->
  exists ps',
    pheader_non_cycle_accurate (mkWorld s d r ps) =
      (Ret 0, mkWorld (stepped_all (pheader_flags (s_data s)) s) d r ps') /\
    instructions ps' = executed (pheader_flags (s_data s)) s (instructions ps).
Proof. intros Hd. rewrite pheader_print_all by done. apply print_all_ret. Qed.

Example pheader_instructions_witness :
  exists ps',
    pheader_non_cycle_accurate (mkWorld (set_mode 2 (set_data 0xc8 init_state)) 0 [] []) =
      (Ret 0, mkWorld (set_pc 12 (set_mode 2 (set_data 0xc8 init_state))) 0 [] ps') /\
    instructions ps' = [("N", 8); ("E", 4); ("E", 0)]%string.
Proof. apply (pheader_instructions (set_mode 2 (set_data 0xc8 init_state)) 0 [] []). reflexivity. Defined.

(** PFT atoms round trip.  One to five atoms packed under a stop bit are
    printed back one by one, in order. *)
Theorem atom_roundtrip l s d r ps :
  (0 < length l <= 5)%nat -> s_data s = atom_packet l ->
  exists ps',
    atom_non_cycle_accurate (mkWorld s d r ps) = (Ret 0, mkWorld (stepped_all l s) d r ps') /\
    instructions ps' = executed l s (instructions ps).
Proof.
  intros Hl Hd. destruct (print_all_ret l s d r ps) as (ps' & E & Hi). exists ps'. split; [|done].
  rewrite <- E. unfold atom_non_cycle_accurate.
  change ((s ← get; _) (mkWorld s d r ps)) with
    ((fun s => let '(i, d0) := find_stop 5 (u8 (Z.shiftl (s_data s) 1)) in print_atoms i d0;; mret 0) s
       (mkWorld s d r ps)). cbv beta.
  rewrite Hd. pose proof (fun w => atom_print_all l w Hl) as H.
  destruct (find_stop 5 _) as [i d']. unfold mbind, M_bind. by rewrite H.
Qed.

Example atom_roundtrip_witness :
  exists ps',
    atom_non_cycle_accurate (mkWorld (set_data (atom_packet [true; false]) init_state) 0 [] []) =
      (Ret 0, mkWorld (stepped_all [true; false] (set_data (atom_packet [true; false]) init_state)) 0 [] ps') /\
    instructions ps' = [("N", 1); ("E", 0)]%string.
Proof.
  apply (atom_roundtrip [true; false] (set_data (atom_packet [true; false]) init_state) 0 [] []);
    [simpl; lia | reflexivity].
Defined.
