(* ===== verification/EtmFormatter.v ===== *)
(** * The trace-port formatter

    A frame of the formatter carries a source ID, fourteen data bytes and a
    byte with the low bits of the data bytes at even positions.  The packer
    below builds such a frame; the decoder of [test/etm/etm.c] gets the
    data bytes back. *)
From S2P Require Import Prelude CInt CMonad CStr Etm EtmPackets.

Fixpoint pack (p : Z) (ds : list Z) : list Z :=
  match ds with
  | [] => []
  | d :: ds => (if Z.even p then Z.land d 0xfe else d) :: pack (p + 1) ds
  end.
Fixpoint low_bits (p : Z) (ds : list Z) : Z :=
  match ds with
  | [] => 0
  | d :: ds => Z.lor (if Z.even p then Z.shiftl (Z.land d 1) (p / 2) else 0) (low_bits (p + 1) ds)
  end.
Definition frame (id : Z) (ds : list Z) : list Z := (2 * id + 1) :: pack 1 ds ++ [low_bits 1 ds].

Lemma testbit_land_1 d n : 0 <= n -> Z.testbit (Z.land d 1) n = (n =? 0) && Z.testbit d 0.
Proof.
  intros. change 1 with (Z.ones 1). rewrite Z.land_spec, testbit_ones by lia.
  destruct (Z.ltb_spec n 1), (Z.eqb_spec n 0); try lia; subst; simpl; by rewrite ?andb_true_r, ?andb_false_r.
Qed.

Lemma testbit_low_bits ds p j :
  0 <= p -> 0 <= j ->
  Z.testbit (low_bits p ds) j =
  if p <=? 2 * j then from_option (fun d => Z.testbit d 0) false (ds !! Z.to_nat (2 * j - p))
  else false.
Proof.
  revert p. induction ds as [|d ds IH]; intros p Hp Hj.
  { cbn [low_bits]. rewrite Z.testbit_0_l. case_match; done. }
  simpl low_bits. rewrite Z.lor_spec, IH by lia.
  assert (Z.testbit (if Z.even p then Z.shiftl (Z.land d 1) (p / 2) else 0) j =
          (2 * j =? p) && Z.testbit d 0) as ->.
  { destruct (Z.even p) eqn:He.
    - apply Z.even_spec in He as [q ->]. rewrite (Z.mul_comm 2 q), Z.div_mul by lia.
      rewrite testbit_shiftl by lia. destruct (decide (q <= j)).
      + rewrite testbit_land_1 by lia. f_equal.
        destruct (Z.eqb_spec (j - q) 0), (Z.eqb_spec (2 * j) (q * 2)); try lia; done.
      + rewrite Z.testbit_neg_r by lia. destruct (Z.eqb_spec (2 * j) (q * 2)); [lia|done].
    - rewrite Z.testbit_0_l. destruct (Z.eqb_spec (2 * j) p); [|done]. subst p.
      by rewrite Z.even_even in He. }
  destruct (Z.eqb_spec (2 * j) p), (Z.leb_spec (p + 1) (2 * j)), (Z.leb_spec p (2 * j));
    try lia; simpl; try done.
  - subst p. rewrite Z.sub_diag. simpl. by rewrite orb_false_r.
  - replace (Z.to_nat (2 * j - p)) with (S (Z.to_nat (2 * j - (p + 1)))) by lia. done.
Qed.

Lemma pack_length p ds : length (pack p ds) = length ds.
Proof. revert p. induction ds; intros p; simpl; auto. Qed.

Lemma pack_lookup p ds k d :
  ds !! k = Some d ->
  pack p ds !! k = Some (if Z.even (p + Z.of_nat k) then Z.land d 0xfe else d).
Proof.
  revert p k. induction ds as [|d' ds IH]; intros p k; [done|].
  destruct k as [|k]; simpl; [intros [= ->]; by rewrite Z.add_0_r|].
  intros Hk. rewrite (IH (p + 1) k Hk). replace (p + 1 + Z.of_nat k) with (p + Z.of_nat (S k)) by lia.
  done.
Qed.

(** Reading a whole frame into the packet buffer. *)
Lemma fill_packet_reads n i bs s d r ps :
  length bs = n -> i = 16 - Z.of_nat n -> 0 <= i -> length (s_formatter_packet s) = 16%nat ->
  s_print_input s = 0 -> Forall (in_uint 8) bs ->
  fill_packet n i (mkWorld s d (bs ++ r) ps) =
  (Ret None,
   mkWorld (set_formatter_packet (take (Z.to_nat i) (s_formatter_packet s) ++ bs) s) d r ps).
Proof.
  revert i bs s. induction n as [|n IH]; intros i bs s Hlen Hi Hi0 Hpk Hpr Hbs.
  - destruct bs; [|done]. rewrite take_ge, app_nil_r by lia. by destruct s.
  - destruct bs as [|b bs]; [done|]. simpl in Hlen. apply Forall_cons_1 in Hbs as [Hb Hbs].
    cbn [fill_packet app]. eapply bind_eq; [reflexivity|].
    assert ((b <? 0) = false) as -> by (apply Z.ltb_ge, Hb).
    rewrite bind_get. cbn [st]. rewrite Hpr. eapply bind_eq; [reflexivity|].
    eapply bind_eq; [reflexivity|]. cbn [st daddr input prints].
    rewrite IH; simpl; try done; try lia.
    + rewrite (wrap_id 8 b) by done.
      replace (Z.to_nat (i + 1)) with (S (Z.to_nat i)) by lia.
      rewrite (take_S_r _ _ b) by (apply list_lookup_insert_eq; lia).
      by rewrite take_insert_ge, <- app_assoc by lia.
    + by rewrite length_insert.
Qed.

Lemma truth_land_1 p : truth (Z.land p 1) = Z.odd p.
Proof.
  change 1 with (Z.ones 1). rewrite Z.land_ones by lia. change (2 ^ 1) with 2.
  rewrite Zmod_odd. by destruct (Z.odd p).
Qed.

(** An even byte is its high bits and its bit of the last byte. *)
Lemma unpack_even ds k x p :
  ds !! k = Some x -> in_uint 8 x -> p = Z.of_nat k + 1 -> Z.even p = true ->
  Z.lor (Z.land x 0xfe) (Z.land (Z.shiftr (low_bits 1 ds) (Z.quot p 2)) 1) = x.
Proof.
  intros Hk Hx Hp He. apply Z.even_spec in He as [q Hq].
  assert (Z.quot p 2 = q) as -> by (rewrite Hq, (Z.mul_comm 2 q), Z.quot_mul; lia).
  apply Z.bits_inj'. intros n Hn. rewrite Z.lor_spec, testbit_land_1 by lia.
  change 0xfe with (Z.shiftl (Z.ones 7) 1). rewrite Z.land_spec, testbit_shiftl by lia.
  rewrite Z.shiftr_spec, testbit_low_bits by lia.
  destruct (Z.eqb_spec n 0) as [->|].
  - rewrite (Z.testbit_neg_r (Z.ones 7)) by lia. rewrite andb_false_r. simpl.
    destruct (Z.leb_spec 1 (2 * (0 + q))); [|lia].
    replace (Z.to_nat (2 * (0 + q) - 1)) with k by lia. by rewrite Hk.
  - simpl. rewrite orb_false_r, testbit_ones by lia. destruct (Z.ltb_spec (n - 1) 7).
    + by rewrite andb_true_r.
    + rewrite andb_false_r. symmetry. by apply (testbit_uint 8); [|lia].
Qed.

Lemma land_fe_even x : truth (Z.land (Z.land x 0xfe) 1) = false.
Proof. by rewrite <- Z.land_assoc, Z.land_0_r. Qed.

Section Frame.
Context (id : Z) (ds : list Z) (r : list Z) (d : Z) (ps : list print).
Context (Hid : 0 <= id < 32) (Hlen : length ds = 14%nat) (Hds : Forall (in_uint 8) ds).

(** The decoder is inside the frame, at index [p], listening to [id]. *)
Definition inside (s : state) (p : Z) : Prop :=
  s_formatter_packet s = frame id ds /\ s_formatter_index s = p /\ s_sourceid s = id /\
  s_print_input s = 0 /\ truth (Z.land (i32 (Z.shiftl 1 id)) (s_sourceid_match s)) = true.

Lemma frame_last s p : inside s p -> packet_byte s 15 = low_bits 1 ds.
Proof.
  intros (E & _). unfold packet_byte, frame. rewrite E.
  change (Z.to_nat 15) with 15%nat. unfold frame. simpl lookup.
  rewrite lookup_app_r by (rewrite pack_length; lia). by rewrite pack_length, Hlen.
Qed.

Lemma frame_byte s p k x :
  inside s p -> ds !! k = Some x ->
  packet_byte s (Z.of_nat k + 1) = if Z.even (1 + Z.of_nat k) then Z.land x 0xfe else x.
Proof.
  intros (E & _) Hk. unfold packet_byte. rewrite E. unfold frame.
  replace (Z.to_nat (Z.of_nat k + 1)) with (S k) by lia. simpl lookup.
  pose proof (lookup_lt_Some _ _ _ Hk).
  rewrite lookup_app_l by (rewrite pack_length; lia). by rewrite (pack_lookup 1 ds k x Hk).
Qed.

Lemma deliver_match s ch :
  inside s (s_formatter_index s) ->
  deliver id ch (mkWorld s d r ps) = (Ret (Return ch), mkWorld s d r ps).
Proof.
  intros (_ & _ & _ & _ & Hm). unfold deliver. rewrite bind_get. cbn [st].
  destruct (Z.leb_spec 32 id); [lia|]. by rewrite Hm.
Qed.

Lemma turn_data s k x :
  inside s (Z.of_nat k + 1) -> ds !! k = Some x ->
  formatter_turn id (mkWorld s d r ps) =
  (Ret (Return x), mkWorld (set_formatter_index (Z.rem (Z.of_nat k + 2) 15) s) d r ps).
Proof.
  intros Hs Hk. pose proof Hs as (Epk & Eidx & Esrc & Epr & Em).
  assert (in_uint 8 x) as Hx by (by eapply Forall_lookup_1).
  unfold formatter_turn. rewrite bind_get. cbn [st].
  assert ((s_formatter_index s =? 0) = false) as -> by (rewrite Eidx; apply Z.eqb_neq; lia).
  eapply bind_eq; [reflexivity|]. cbv beta iota. rewrite bind_get. cbn [st]. cbv zeta.
  rewrite (frame_last s _ Hs), Eidx, (frame_byte s _ k x Hs Hk).
  eapply bind_eq; [reflexivity|]. cbn [st daddr input prints].
  replace (Z.of_nat k + 1 + 1) with (Z.of_nat k + 2) by lia.
  rewrite truth_land_1, (Z.add_comm 1), <- Z.negb_even, negb_involutive.
  set (s' := set_formatter_index (Z.rem (Z.of_nat k + 2) 15) s).
  assert (inside s' (s_formatter_index s')) as Hs' by (by split_and!).
  destruct (Z.even (Z.of_nat k + 1)) eqn:He; [|by apply deliver_match].
  rewrite land_fe_even, (unpack_even ds k x) by (done || lia). by apply deliver_match.
Qed.

Lemma get_byte_data s k x :
  inside s (Z.of_nat k + 1) -> ds !! k = Some x ->
  get_byte_from_formatter (mkWorld s d r ps) =
  (Ret x, mkWorld (set_formatter_index (Z.rem (Z.of_nat k + 2) 15) s) d r ps).
Proof.
  intros Hs Hk. pose proof Hs as (_ & _ & Esrc & _).
  unfold get_byte_from_formatter. rewrite bind_get. cbn [st].
  eapply bind_eq; [reflexivity|]. unfold formatter_fuel. cbn [Nat.add formatter_loop].
  rewrite Esrc. eapply bind_eq; [by apply turn_data|]. done.
Qed.

Fixpoint read_bytes (n : nat) : M world (list Z) :=
  match n with
  | O => mret []
  | S n => b ← get_byte_from_formatter; bs ← read_bytes n; mret (b :: bs)
  end.

(** The data bytes from position [k] on; the frame is used up. *)
Lemma read_rest n k s :
  (n + k = 14)%nat -> (0 < n)%nat -> inside s (Z.of_nat k + 1) ->
  read_bytes n (mkWorld s d r ps) = (Ret (drop k ds), mkWorld (set_formatter_index 0 s) d r ps).
Proof.
  revert k s. induction n as [|n IH]; intros k s Hnk Hn Hs; [lia|].
  destruct (lookup_lt_is_Some_2 ds k ltac:(lia)) as [x Hx].
  cbn [read_bytes]. eapply bind_eq; [by apply (get_byte_data s k x)|].
  rewrite (drop_S ds x k Hx).
  destruct n as [|n].
  - eapply bind_eq; [reflexivity|]. rewrite drop_ge by lia.
    assert (Z.rem (Z.of_nat k + 2) 15 = 0) as -> by (by replace (Z.of_nat k + 2) with 15 by lia).
    done.
  - assert (Z.rem (Z.of_nat k + 2) 15 = Z.of_nat (S k) + 1) as ->
      by (rewrite Z.rem_small by lia; lia).
    eapply bind_eq; [apply (IH (S k)); [lia|lia|]|done].
    destruct Hs as (? & ? & ? & ? & ?). by split_and!.
Qed.
End Frame.

Definition new_id_line (id : Z) (s : state) : list print :=
  if s_sourceid s =? id then [] else [Printf "New ID %x %d\n" [AInt id; AInt 0]].
Definition in_frame (id : Z) (ds : list Z) (s : state) : state :=
  set_sourceid id (set_formatter_index 1 (set_formatter_packet (frame id ds) s)).

Lemma pack_bytes p ds : Forall (in_uint 8) ds -> Forall (in_uint 8) (pack p ds).
Proof.
  intros Hds. revert p. induction Hds as [|x ds Hx Hds IH]; intros p; simpl; constructor; [|done].
  destruct (Z.even p); auto with cint.
Qed.

Lemma low_bits_byte p ds : 0 <= p -> p + Z.of_nat (length ds) <= 16 -> in_uint 8 (low_bits p ds).
Proof.
  intros Hp Hl. apply uint_testbit; [lia|]. intros n Hn. rewrite testbit_low_bits by lia.
  destruct (Z.leb_spec p (2 * n)); [|done].
  by rewrite (lookup_ge_None_2 ds) by lia.
Qed.

Lemma frame_bytes id ds :
  0 <= id < 32 -> length ds = 14%nat -> Forall (in_uint 8) ds -> Forall (in_uint 8) (frame id ds).
Proof.
  intros Hid Hlen Hds. constructor; [unfold in_uint; lia|].
  apply Forall_app_2; [by apply pack_bytes|]. constructor; [|constructor].
  apply low_bits_byte; rewrite ?Hlen; lia.
Qed.

(** The turn that reads a frame and switches to its source. *)
Lemma turn_frame id ds s d r ps :
  0 <= id < 32 -> length ds = 14%nat -> Forall (in_uint 8) ds ->
  s_print_input s = 0 -> s_formatter_index s = 0 -> length (s_formatter_packet s) = 16%nat ->
  formatter_turn (s_sourceid s) (mkWorld s d (frame id ds ++ r) ps) =
  (Ret (Again id), mkWorld (in_frame id ds s) d r (new_id_line id s ++ ps)).
Proof.
  intros Hid Hlen Hds Hpr Hidx Hpk. unfold formatter_turn. rewrite bind_get. cbn [st].
  rewrite Hidx, Hpr. change (0 =? 0) with true. cbv iota.
  eapply bind_eq.
  { eapply bind_eq; [reflexivity|]. eapply bind_eq.
    - apply (fill_packet_reads 16 0); try done; [|by apply frame_bytes].
      unfold frame. simpl. rewrite length_app, pack_length, Hlen. done.
    - reflexivity. }
  cbv beta iota. change (take (Z.to_nat 0) (s_formatter_packet s)) with (@nil Z). cbn [app].
  set (s1 := set_formatter_packet (frame id ds) s).
  rewrite bind_get. cbn [st]. cbv zeta.
  assert (s_formatter_index s1 = 0) as -> by done.
  assert (packet_byte s1 15 = low_bits 1 ds) as ->.
  { unfold packet_byte, frame. change (Z.to_nat 15) with 15%nat. simpl lookup.
    rewrite lookup_app_r by (rewrite pack_length; lia). by rewrite pack_length, Hlen. }
  assert (packet_byte s1 0 = 2 * id + 1) as -> by done.
  eapply bind_eq; [reflexivity|]. change (negb (truth (Z.land 0 1))) with true. cbv iota.
  assert (truth (Z.land (2 * id + 1) 1) = true) as ->.
  { rewrite truth_land_1. by apply Z.odd_spec; exists id. }
  assert (Z.shiftr (2 * id + 1) 1 = id) as ->.
  { rewrite Z.shiftr_div_pow2 by lia. change (2 ^ 1) with 2.
    rewrite Z.mul_comm, Z.div_add_l by lia. change (1 / 2) with 0. lia. }
  assert (Z.land (Z.shiftr (low_bits 1 ds) (Z.quot 0 2)) 1 = 0) as ->.
  { apply Z.bits_inj'. intros n Hn. rewrite testbit_land_1, Z.testbit_0_l by lia.
    change (Z.quot 0 2) with 0. rewrite Z.shiftr_0_r, testbit_low_bits by lia.
    by destruct (n =? 0). }
  unfold new_id_line, in_frame. fold s1.
  assert (s_sourceid s1 = s_sourceid s) as -> by done.
  destruct (Z.eqb_spec (s_sourceid s) id) as [<-|]; [|done].
  unfold set_sourceid. simpl. destruct s; done.
Qed.

(** The first byte of the frame costs the turn that reads it. *)
Lemma get_byte_frame id ds s d r ps x :
  0 <= id < 32 -> length ds = 14%nat -> Forall (in_uint 8) ds ->
  s_print_input s = 0 -> s_formatter_index s = 0 -> length (s_formatter_packet s) = 16%nat ->
  inside id ds (in_frame id ds s) (Z.of_nat 0 + 1) -> ds !! 0%nat = Some x ->
  get_byte_from_formatter (mkWorld s d (frame id ds ++ r) ps) =
  (Ret x, mkWorld (set_formatter_index 2 (in_frame id ds s)) d r (new_id_line id s ++ ps)).
Proof.
  intros Hid Hlen Hds Hpr Hidx Hpk Hin Hx.
  unfold get_byte_from_formatter. rewrite bind_get. cbn [st].
  eapply bind_eq; [reflexivity|]. unfold formatter_fuel. cbn [Nat.add formatter_loop].
  eapply bind_eq; [by apply turn_frame|]. cbv beta iota.
  eapply bind_eq; [by apply (turn_data id ds r d _ Hid Hlen Hds _ 0 x)|]. done.
Qed.

(** C19: the formatter round trip.  A 16-byte frame with a source ID below 32
    that the decoder listens to yields its fourteen data bytes, the low bits
    of the even positions restored from the last byte, whatever the source
    was before; the frame is used up and the new source remembered. *)
Theorem formatter_frame_roundtrip id ds s d r ps :
  0 <= id < 32 -> length ds = 14%nat -> Forall (in_uint 8) ds ->
  s_print_input s = 0 -> s_formatter_index s = 0 -> length (s_formatter_packet s) = 16%nat ->
  truth (Z.land (i32 (Z.shiftl 1 id)) (s_sourceid_match s)) = true ->
  read_bytes 14 (mkWorld s d (frame id ds ++ r) ps) =
  (Ret ds, mkWorld (set_formatter_index 0 (in_frame id ds s)) d r (new_id_line id s ++ ps)).
Proof.
  intros Hid Hlen Hds Hpr Hidx Hpk Hm.
  assert (inside id ds (in_frame id ds s) (Z.of_nat 0 + 1)) as Hin by (by split_and!).
  destruct ds as [|x ds']; [done|]. set (ds := x :: ds') in *.
  change (read_bytes 14) with (b ← get_byte_from_formatter; bs ← read_bytes 13; mret (b :: bs)).
  eapply bind_eq; [by apply (get_byte_frame id ds s d r ps x)|].
  eapply bind_eq; [|reflexivity].
  refine (read_rest id ds r d _ Hid Hlen Hds 13 1 (set_formatter_index 2 (in_frame id ds s))
            eq_refl _ _); [lia|].
  destruct Hin as (? & _ & ? & ? & ?). unfold inside. by split_and!.
Qed.

Example formatter_frame_roundtrip_witness :
  let ds := [1; 2; 3; 4; 5; 6; 7; 8; 9; 10; 0xff; 0xfe; 0; 0x81] in
  let s := set_sourceid_match 4 init_state in
  read_bytes 14 (mkWorld s 0 (frame 2 ds ++ [9]) []) =
  (Ret ds, mkWorld (set_formatter_index 0 (in_frame 2 ds s)) 0 [9] (new_id_line 2 s ++ [])).
Proof.
  apply (formatter_frame_roundtrip 2 [1; 2; 3; 4; 5; 6; 7; 8; 9; 10; 0xff; 0xfe; 0; 0x81]
           (set_sourceid_match 4 init_state) 0 [9] []); try reflexivity; [lia|].
  repeat constructor; unfold in_uint; lia.
Defined.
