(* ===== verification/Device.v ===== *)
(** * Memory-mapped devices

    Several of the programs open [/dev/mem], [mmap] device pages and access
    registers through pointers.  The kernel and the hardware are not part of
    the sources: the results of [open] and [mmap] come from an oracle [os],
    and the device is any instance of [Device].  What is modelled is the
    address space of the process: an access outside the live mappings is
    undefined. *)
From S2P Require Import Prelude CInt CMonad.

(** ** Devices

    [dev_read width addr] and [dev_write width addr v]: an access of [width]
    bytes at a physical address.  Reading may change the device. *)
Class Device (D : Type) := {
  dev_read : Z -> Z -> D -> Z * D;
  dev_write : Z -> Z -> Z -> D -> D;
}.

(** What [open("/dev/mem")] and [mmap] return, call by call. *)
Record os_calls := mkOs {
  o_open : nat -> Z;
  o_mmap : nat -> Z;
}.

Record mapping := mkMapping { m_vaddr : Z; m_len : Z; m_paddr : Z }.

Record machine (D : Type) := mkMachine {
  device : D;
  maps : list mapping;
  opens : nat;
  mmaps : nat;
}.
Arguments mkMachine {D}.
Arguments device {D}.
Arguments maps {D}.
Arguments opens {D}.
Arguments mmaps {D}.

(** A world that contains a machine. *)
Class HasMachine (W D : Type) := {
  mach : W -> machine D;
  set_mach : machine D -> W -> W;
  mach_set m w : mach (set_mach m w) = m;
  set_mach_mach w : set_mach (mach w) w = w;
}.

Definition covers (a width : Z) (m : mapping) : bool :=
  (m_vaddr m <=? a) && (a + width <=? m_vaddr m + m_len m).

(** The physical address of [width] bytes at virtual address [a]. *)
Definition translate (ms : list mapping) (a width : Z) : option Z :=
  match List.find (covers a width) ms with
  | Some m => Some (m_paddr m + (a - m_vaddr m))
  | None => None
  end.

Section Access.
Context {W D : Type} `{Device D} `{HasMachine W D} (os : os_calls).

(** [*(uintN_t * )a] and [*(uintN_t * )a = v], [width] in bytes. *)
Definition load (width a : Z) : M W Z := fun w =>
  let m := mach w in
  match translate (maps m) a width with
  | Some p =>
      let '(v, d) := dev_read width p (device m) in
      (Ret (wrap (8 * width) v), set_mach (mkMachine d (maps m) (opens m) (mmaps m)) w)
  | None => (Undef, w)
  end.
Definition store (width a v : Z) : M W unit := fun w =>
  let m := mach w in
  match translate (maps m) a width with
  | Some p =>
      (Ret tt, set_mach (mkMachine (dev_write width p (wrap (8 * width) v) (device m))
                           (maps m) (opens m) (mmaps m)) w)
  | None => (Undef, w)
  end.

(** [open("/dev/mem", O_RDWR | O_SYNC, 0)]. *)
Definition open_devmem : M W Z := fun w =>
  let m := mach w in
  (Ret (o_open os (opens m)), set_mach (mkMachine (device m) (maps m) (S (opens m)) (mmaps m)) w).

(** [mmap(NULL, len, PROT_READ | PROT_WRITE, MAP_SHARED, fd, off)]: the new
    address, or [MAP_FAILED]; a bad descriptor always fails. *)
Definition map_failed : Z := 0xffffffff.
Definition mmap (len fd off : Z) : M W Z := fun w =>
  let m := mach w in
  let a := if fd <? 0 then map_failed else o_mmap os (mmaps m) in
  (Ret a,
   set_mach (mkMachine (device m)
     (if a =? map_failed then maps m else mkMapping a len (u32 off) :: maps m)
     (opens m) (S (mmaps m))) w).

(** [munmap(addr, len)] of a whole mapping. *)
Definition munmap (a len : Z) : M W unit := fun w =>
  let m := mach w in
  (Ret tt, set_mach (mkMachine (device m)
     (List.filter (fun x => negb ((m_vaddr x =? a) && (m_len x =? len))) (maps m))
     (opens m) (mmaps m)) w).

(** ** Laws *)
Lemma load_eq width a p w :
  translate (maps (mach w)) a width = Some p ->
  load width a w =
  (Ret (wrap (8 * width) (dev_read width p (device (mach w))).1),
   set_mach (mkMachine (dev_read width p (device (mach w))).2 (maps (mach w))
               (opens (mach w)) (mmaps (mach w))) w).
Proof. intros E. unfold load. rewrite E. by destruct (dev_read _ _ _). Qed.

Lemma store_eq width a p v w :
  translate (maps (mach w)) a width = Some p ->
  store width a v w =
  (Ret tt, set_mach (mkMachine (dev_write width p (wrap (8 * width) v) (device (mach w)))
             (maps (mach w)) (opens (mach w)) (mmaps (mach w))) w).
Proof. intros E. unfold store. by rewrite E. Qed.

Lemma translate_hd v len p ms a width :
  v <= a -> a + width <= v + len ->
  translate (mkMapping v len p :: ms) a width = Some (p + (a - v)).
Proof.
  intros Hl Hu. unfold translate. simpl. unfold covers. simpl.
  apply Z.leb_le in Hl as ->. apply Z.leb_le in Hu as ->. done.
Qed.
End Access.

(** ** A memory

    The simplest device: little-endian bytes that read back what was written. *)
Record ram := mkRam { cells : list (Z * Z) }.

Definition byte_at (a : Z) (r : ram) : Z :=
  match List.find (fun x => x.1 =? a) (cells r) with Some x => x.2 | None => 0 end.
Fixpoint read_le (n : nat) (a : Z) (r : ram) : Z :=
  match n with
  | O => 0
  | S n => byte_at a r + 256 * read_le n (a + 1) r
  end.
Fixpoint write_le (n : nat) (a v : Z) (r : ram) : ram :=
  match n with
  | O => r
  | S n => write_le n (a + 1) (v / 256) (mkRam ((a, v mod 256) :: cells r))
  end.

#[export] Instance ram_device : Device ram := {
  dev_read width a r := (read_le (Z.to_nat width) a r, r);
  dev_write width a v r := write_le (Z.to_nat width) a v r;
}.

Lemma byte_at_write_le n a v r b :
  b < a -> byte_at b (write_le n a v r) = byte_at b r.
Proof.
  revert a v r. induction n as [|n IH]; intros a v r Hb; [done|]. simpl.
  rewrite IH by lia. unfold byte_at. simpl.
  destruct (Z.eqb_spec a b); [lia|done].
Qed.

Lemma read_write_le n a v r :
  read_le n a (write_le n a v r) = v mod 2 ^ (8 * Z.of_nat n).
Proof.
  revert a v r. induction n as [|n IH]; intros a v r.
  { simpl. by rewrite Z.mod_1_r. }
  cbn [read_le write_le]. rewrite byte_at_write_le by lia.
  unfold byte_at. simpl. rewrite Z.eqb_refl. simpl. rewrite IH.
  replace (8 * Z.of_nat (S n)) with (8 + 8 * Z.of_nat n) by lia.
  rewrite Z.pow_add_r, Z.rem_mul_r by lia. done.
Qed.
