(* ===== verification/Memtool.v ===== *)
(** * memtool (test/memtool/memtool.c)

    Reads and writes physical memory and named peripheral registers through
    [/dev/mem].  The register tables ([mx6q_modules.c] and the others) are
    data and a parameter here; the kernel (version, SoC files, [open],
    [mmap]) is one too. *)
From S2P Require Import Prelude CInt CMonad CStr Device.

(** ** Register descriptions (memtools_register_info.h) *)
Record field_t := mkField {
  f_name : string;
  f_description : string;
  f_lsb : Z;
  f_msb : Z;
  f_is_readable : bool;
  f_is_writable : bool;
}.
Record reg_t := mkReg {
  r_name : string;
  r_description : string;
  r_width : Z;
  r_offset : Z;
  r_is_readable : bool;
  r_is_writable : bool;
  r_fields : list field_t;   (* [field_count] is the length *)
}.
Record module_t := mkModule {
  m_name : string;
  m_instance : Z;
  m_base_address : Z;
  m_regs : list reg_t;   (* [reg_count] is the length *)
}.

(** The chips, and the terminated array of modules of each: a list here, and
    a pointer into the array is what is left of the list. *)
Inductive soc := mx6q | mx6dl | mx6sl | mx6sx | mx6ul | mx7d | mx6ull.

(** What the kernel says about itself. *)
Record sysinfo := mkSys {
  uname_release : option string;    (* [None]: uname fails *)
  cpuinfo : option string;          (* /proc/cpuinfo, [None]: open fails *)
  soc_id : option string;           (* /sys/devices/soc0/soc_id *)
}.

(** ** Globals *)
Record globals := mkGlobals {
  g_size : Z;
  g_paddr : Z;
  g_is_write : Z;
  g_value : Z;
  g_count : Z;
  g_is_reg : Z;
  g_module : option string;
  g_reg : option string;
  g_field : option string;
  g_fmem : Z;
  g_map_vaddr : Z;
  g_map_paddr : Z;
  g_comp : Z;
  g_module_match : Z;
}.

Definition set_g_size (v : Z) (s : globals) : globals :=
  {| g_size := v; g_paddr := g_paddr s; g_is_write := g_is_write s; g_value := g_value s;
     g_count := g_count s; g_is_reg := g_is_reg s; g_module := g_module s; g_reg := g_reg s;
     g_field := g_field s; g_fmem := g_fmem s; g_map_vaddr := g_map_vaddr s; g_map_paddr :=
     g_map_paddr s; g_comp := g_comp s; g_module_match := g_module_match s |}.
Definition set_g_paddr (v : Z) (s : globals) : globals :=
  {| g_size := g_size s; g_paddr := v; g_is_write := g_is_write s; g_value := g_value s; g_count
     := g_count s; g_is_reg := g_is_reg s; g_module := g_module s; g_reg := g_reg s; g_field :=
     g_field s; g_fmem := g_fmem s; g_map_vaddr := g_map_vaddr s; g_map_paddr := g_map_paddr s;
     g_comp := g_comp s; g_module_match := g_module_match s |}.
Definition set_g_is_write (v : Z) (s : globals) : globals :=
  {| g_size := g_size s; g_paddr := g_paddr s; g_is_write := v; g_value := g_value s; g_count :=
     g_count s; g_is_reg := g_is_reg s; g_module := g_module s; g_reg := g_reg s; g_field :=
     g_field s; g_fmem := g_fmem s; g_map_vaddr := g_map_vaddr s; g_map_paddr := g_map_paddr s;
     g_comp := g_comp s; g_module_match := g_module_match s |}.
Definition set_g_value (v : Z) (s : globals) : globals :=
  {| g_size := g_size s; g_paddr := g_paddr s; g_is_write := g_is_write s; g_value := v; g_count
     := g_count s; g_is_reg := g_is_reg s; g_module := g_module s; g_reg := g_reg s; g_field :=
     g_field s; g_fmem := g_fmem s; g_map_vaddr := g_map_vaddr s; g_map_paddr := g_map_paddr s;
     g_comp := g_comp s; g_module_match := g_module_match s |}.
Definition set_g_count (v : Z) (s : globals) : globals :=
  {| g_size := g_size s; g_paddr := g_paddr s; g_is_write := g_is_write s; g_value := g_value s;
     g_count := v; g_is_reg := g_is_reg s; g_module := g_module s; g_reg := g_reg s; g_field :=
     g_field s; g_fmem := g_fmem s; g_map_vaddr := g_map_vaddr s; g_map_paddr := g_map_paddr s;
     g_comp := g_comp s; g_module_match := g_module_match s |}.
Definition set_g_is_reg (v : Z) (s : globals) : globals :=
  {| g_size := g_size s; g_paddr := g_paddr s; g_is_write := g_is_write s; g_value := g_value s;
     g_count := g_count s; g_is_reg := v; g_module := g_module s; g_reg := g_reg s; g_field :=
     g_field s; g_fmem := g_fmem s; g_map_vaddr := g_map_vaddr s; g_map_paddr := g_map_paddr s;
     g_comp := g_comp s; g_module_match := g_module_match s |}.
Definition set_g_module (v : option string) (s : globals) : globals :=
  {| g_size := g_size s; g_paddr := g_paddr s; g_is_write := g_is_write s; g_value := g_value s;
     g_count := g_count s; g_is_reg := g_is_reg s; g_module := v; g_reg := g_reg s; g_field :=
     g_field s; g_fmem := g_fmem s; g_map_vaddr := g_map_vaddr s; g_map_paddr := g_map_paddr s;
     g_comp := g_comp s; g_module_match := g_module_match s |}.
Definition set_g_reg (v : option string) (s : globals) : globals :=
  {| g_size := g_size s; g_paddr := g_paddr s; g_is_write := g_is_write s; g_value := g_value s;
     g_count := g_count s; g_is_reg := g_is_reg s; g_module := g_module s; g_reg := v; g_field
     := g_field s; g_fmem := g_fmem s; g_map_vaddr := g_map_vaddr s; g_map_paddr := g_map_paddr
     s; g_comp := g_comp s; g_module_match := g_module_match s |}.
Definition set_g_field (v : option string) (s : globals) : globals :=
  {| g_size := g_size s; g_paddr := g_paddr s; g_is_write := g_is_write s; g_value := g_value s;
     g_count := g_count s; g_is_reg := g_is_reg s; g_module := g_module s; g_reg := g_reg s;
     g_field := v; g_fmem := g_fmem s; g_map_vaddr := g_map_vaddr s; g_map_paddr := g_map_paddr
     s; g_comp := g_comp s; g_module_match := g_module_match s |}.
Definition set_g_fmem (v : Z) (s : globals) : globals :=
  {| g_size := g_size s; g_paddr := g_paddr s; g_is_write := g_is_write s; g_value := g_value s;
     g_count := g_count s; g_is_reg := g_is_reg s; g_module := g_module s; g_reg := g_reg s;
     g_field := g_field s; g_fmem := v; g_map_vaddr := g_map_vaddr s; g_map_paddr := g_map_paddr
     s; g_comp := g_comp s; g_module_match := g_module_match s |}.
Definition set_g_map_vaddr (v : Z) (s : globals) : globals :=
  {| g_size := g_size s; g_paddr := g_paddr s; g_is_write := g_is_write s; g_value := g_value s;
     g_count := g_count s; g_is_reg := g_is_reg s; g_module := g_module s; g_reg := g_reg s;
     g_field := g_field s; g_fmem := g_fmem s; g_map_vaddr := v; g_map_paddr := g_map_paddr s;
     g_comp := g_comp s; g_module_match := g_module_match s |}.
Definition set_g_map_paddr (v : Z) (s : globals) : globals :=
  {| g_size := g_size s; g_paddr := g_paddr s; g_is_write := g_is_write s; g_value := g_value s;
     g_count := g_count s; g_is_reg := g_is_reg s; g_module := g_module s; g_reg := g_reg s;
     g_field := g_field s; g_fmem := g_fmem s; g_map_vaddr := g_map_vaddr s; g_map_paddr := v;
     g_comp := g_comp s; g_module_match := g_module_match s |}.
Definition set_g_comp (v : Z) (s : globals) : globals :=
  {| g_size := g_size s; g_paddr := g_paddr s; g_is_write := g_is_write s; g_value := g_value s;
     g_count := g_count s; g_is_reg := g_is_reg s; g_module := g_module s; g_reg := g_reg s;
     g_field := g_field s; g_fmem := g_fmem s; g_map_vaddr := g_map_vaddr s; g_map_paddr :=
     g_map_paddr s; g_comp := v; g_module_match := g_module_match s |}.
Definition set_g_module_match (v : Z) (s : globals) : globals :=
  {| g_size := g_size s; g_paddr := g_paddr s; g_is_write := g_is_write s; g_value := g_value s;
     g_count := g_count s; g_is_reg := g_is_reg s; g_module := g_module s; g_reg := g_reg s;
     g_field := g_field s; g_fmem := g_fmem s; g_map_vaddr := g_map_vaddr s; g_map_paddr :=
     g_map_paddr s; g_comp := g_comp s; g_module_match := v |}.

Definition init_globals : globals := mkGlobals 4 0 0 0 1 0 None None None 0 0 0 0 0.

(** [MAP_SIZE] and the masks; [int] addresses are signed. *)
Definition MAP_SIZE : Z := 0x1000.
Definition page_of (address : Z) : Z := Z.land address (Z.lnot (MAP_SIZE - 1)).
Definition in_page (address : Z) : Z := Z.land address (MAP_SIZE - 1).
Definition KERN_VER (a b c : Z) : Z := i32 (Z.shiftl a 16 + Z.shiftl b 8 + c).

(** [sscanf(s, "%d.%d.%d", ...)] with three conversions, and
    [fscanf(fp, "%s", ...)]. *)
Definition scan_d (s : string) : option (Z * string) :=
  let '(neg, r) := sign_of (skip_space s) in
  match r with
  | String c _ =>
      match digit 10 c with
      | Some _ => let '(v, rest) := digits 10 0 r in Some (if neg : bool then - v else v, rest)
      | None => None
      end
  | EmptyString => None
  end.
Definition scan_dot (s : string) : option string :=
  match s with String "." r => Some r | _ => None end.
Definition scan_version (s : string) : option (Z * Z * Z) :=
  '(a, s) ← scan_d s; s ← scan_dot s;
  '(b, s) ← scan_d s; s ← scan_dot s;
  '(c, s) ← scan_d s; Some (a, b, c).
Fixpoint token (s : string) : string :=
  match s with
  | EmptyString => EmptyString
  | String c r => if isspace c then EmptyString else String c (token r)
  end.
Definition scan_word (s : string) : option string :=
  match skip_space s with EmptyString => None | s => Some (token s) end.

(** [strchr(s, '*')] and cutting there. *)
Definition cut_star (s : string) : string :=
  match cut "*" s with Some (l, _) => l | None => s end.
Fixpoint take_str (n : nat) (s : string) : string :=
  match n, s with
  | S n, String c s => String c (take_str n s)
  | _, _ => EmptyString
  end.
Definition tail_str (s : string) : string :=
  match s with String _ s => s | EmptyString => EmptyString end.
Definition first_is (c : ascii) (s : string) : bool :=
  match s with String a _ => Ascii.eqb a c | EmptyString => false end.

Section Memtool.
Context {D : Type} `{!Device D} (os : os_calls) (sys : sysinfo) (tables : soc -> list module_t).

Record world := mkWorld {
  glob : globals;
  machine_ : machine D;
  prints : list print;
}.

#[export] Instance memtool_output : Output world := {
  log := prints;
  emit p w := mkWorld (glob w) (machine_ w) (p :: prints w);
  log_emit p w := eq_refl;
}.
#[export] Program Instance memtool_machine : HasMachine world D := {
  mach := machine_;
  set_mach m w := mkWorld (glob w) m (prints w);
  mach_set m w := eq_refl;
}.
Next Obligation. by intros []. Qed.

Definition get : M world globals := gets glob.
Definition upd (f : globals -> globals) : M world unit :=
  modify (fun w => mkWorld (f (glob w)) (machine_ w) (prints w)).

(** ** Register access *)
Definition die {A} (p : string) : M world A :=
  printf "%s\n" [AStr p];; exit (-1).

Definition open_mem_file : M world unit :=
  g ← get;
  (if negb (truth (g_fmem g)) then fd ← open_devmem os; upd (set_g_fmem fd) else skip);;
  g ← get;
  if negb (truth (g_fmem g)) then die "Can't open file /dev/mem\n" else mret tt.

Definition map_address (address : Z) : M world unit :=
  g ← get;
  if page_of address =? g_map_paddr g then mret tt else
  when (truth (g_map_vaddr g)) (munmap (u32 (g_map_vaddr g)) MAP_SIZE);;
  v ← mmap os MAP_SIZE (g_fmem g) (page_of address);
  upd (set_g_map_vaddr (i32 v));;
  upd (set_g_map_paddr (page_of address)).

(** [g_map_vaddr + (address & (MAP_SIZE - 1))] as a pointer. *)
Definition mapped_ptr (g : globals) (address : Z) : Z :=
  u32 (g_map_vaddr g + in_page address).

Definition readm (address width : Z) : M world Z :=
  open_mem_file;;
  map_address address;;
  g ← get;
  let addr := mapped_ptr g address in
  if width =? 1 then load 1 addr
  else if width =? 2 then load 2 addr
  else if width =? 4 then v ← load 4 addr; mret (i32 v)
  else die "Unknown size\n".

Definition writem (address width value : Z) : M world unit :=
  open_mem_file;;
  map_address address;;
  g ← get;
  let addr := mapped_ptr g address in
  if width =? 1 then store 1 addr value
  else if width =? 2 then store 2 addr value
  else if width =? 4 then store 4 addr value
  else die "Unknown size\n".

(** Shift counts outside [0 .. 31] are undefined. *)
Definition shift_ok (n : Z) : bool := (0 <=? n) && (n <? 32).

Definition get_value (value lsb msb : Z) : M world Z :=
  if shift_ok lsb && shift_ok (31 - (msb - lsb)) then
    mret (Z.land (u32 (Z.shiftr value lsb)) (Z.shiftr 0xFFFFFFFF (31 - (msb - lsb))))
  else undef.

Definition print_blank (x : Z) : M world unit :=
  times (Z.to_nat x) (printf " " []).

(** ** Printing registers

    [parse_field] cuts its argument at a star, in place: the string it
    leaves is its result. *)
Definition parse_field (mx : module_t) (reg : reg_t) (field : option string) (value : Z)
    : M world (option string) :=
  let field := match field with Some s => Some (cut_star s) | None => None end in
  (fix fields (l : list field_t) : M world unit :=
     match l with
     | [] => mret tt
     | f :: l =>
         when (match field with
               | None => true
               | Some s => (strlen s =? 0) || starts_with s (f_name f)
               end)
           (g ← get;
            if truth (g_comp g) then
              printf "%s.%s.%s\n" [AStr (m_name mx); AStr (r_name reg); AStr (f_name f)]
            else
              v ← get_value value (i32 (f_lsb f)) (i32 (f_msb f));
              printf "     %s.%s.%s(%d..%d) \t:0x%x\n"
                [AStr (m_name mx); AStr (r_name reg); AStr (f_name f);
                 AInt (f_lsb f); AInt (f_msb f); AInt v];;
              printf "             %s\n" [AStr (f_description f)]);;
         fields l
     end) (r_fields reg);;
  mret field.

(** The address of a register: [unsigned] arithmetic, then an [int]. *)
Definition reg_addr (mx : module_t) (r : reg_t) : Z :=
  u32 (m_base_address mx + r_offset r).

(** One register of [parse_reg]; [reg] is the name after the cut. *)
Definition parse_one (mx : module_t) (sreg : reg_t) (reg : string) (field : option string)
    : M world (option string) :=
  g ← get;
  if truth (g_comp g) then
    match field with
    | Some _ => if streq (r_name sreg) reg then parse_field mx sreg field 0 else mret field
    | None =>
        when (starts_with reg (r_name sreg))
          (printf "%s.%s.\n" [AStr (m_name mx); AStr (r_name sreg)]);;
        mret field
    end
  else if (strlen reg =? 0) || starts_with reg (r_name sreg) || first_is "-" reg then
    v ← readm (i32 (reg_addr mx sreg)) (i32 (r_width sreg));
    printf "  %s.%s Addr:0x%08X Value:0x%08X - %s\n"
      [AStr (m_name mx); AStr (r_name sreg); AInt (reg_addr mx sreg); AInt (u32 v);
       AStr (r_description sreg)];;
    field ← (if negb (first_is "-" reg) then
               v ← readm (i32 (reg_addr mx sreg)) (i32 (r_width sreg));
               parse_field mx sreg field v
             else mret field);
    printf "\n" [];;
    mret field
  else mret field.

(** [strchr(reg, '*')] comes before any test of [reg]. *)
Definition parse_reg (mx : module_t) (reg field : option string) : M world unit :=
  match reg with
  | None => undef
  | Some reg =>
      let reg := cut_star reg in
      (fix regs (l : list reg_t) (field : option string) : M world unit :=
         match l with
         | [] => mret tt
         | sreg :: l => field ← parse_one mx sreg reg field; regs l field
         end) (m_regs mx) field
  end.

(** ** Writing registers *)
Definition write_reg_mask (addr width value lsb msb : Z) : M world unit :=
  printf "write 0x%08X to Bit %d..%d of 0x%08X \n"
    [AInt (u32 value); AInt lsb; AInt msb; AInt (u32 addr)];;
  org ← readm addr width;
  if shift_ok lsb && shift_ok (31 - msb) then
    let mask := shl32 (Z.shiftr 0xFFFFFFFF lsb) lsb in
    let mask := Z.shiftr (shl32 mask (31 - msb)) (31 - msb) in
    let org := i32 (Z.land (u32 org) (not32 mask)) in
    let value := i32 (Z.shiftl value lsb) in
    let org := i32 (Z.lor (u32 org) (Z.land (u32 value) mask)) in
    writem addr width org
  else undef.

Definition write_reg (addr width value : Z) : M world unit :=
  printf "write 0x%08X to 0x%08X\n" [AInt (u32 value); AInt (u32 addr)];;
  writem addr width value.

(** ** Which chip *)
Definition soc_of_revision (r : Z) : M world (list module_t) :=
  let id := Z.shiftr r 12 in
  if id =? 0x63 then printf "SOC is mx6q\n\n" [];; mret (tables mx6q)
  else if id =? 0x61 then printf "SOC is mx6dl\n\n" [];; mret (tables mx6dl)
  else if id =? 0x60 then printf "SOC is mx6sl\n\n" [];; mret (tables mx6sl)
  else die "Unknown SOC\n\n".

Definition soc_by_name : list (string * soc) :=
  [("i.MX6Q", mx6q); ("i.MX6DL", mx6dl); ("i.MX6SL", mx6sl); ("i.MX6SX", mx6sx);
   ("i.MX6UL", mx6ul); ("i.MX7D", mx7d); ("i.MX6ULL", mx6ull)]%string.

(** [rev + 2] is one byte past the end of [g_buffer] when the colon is its
    last character. *)
Definition find_tables : M world (list module_t) :=
  match uname_release sys with
  | None => die "uname error"
  | Some release =>
      match scan_version release with
      | None => die "fail to get release version"
      | Some (kv_major, kv_minor, kv_rel) =>
          let kv := i32 (Z.shiftl kv_major 16 + Z.shiftl kv_minor 8 + kv_rel) in
          if kv <? KERN_VER 3 10 0 then
            match cpuinfo sys with
            | None => die "can't open file /proc/cpuinfo\n"
            | Some text =>
                let g_buffer := take_str 4095 text in
                match strstr g_buffer "Revision" with
                | None => die "Unknown SOC\n"
                | Some rev =>
                    match strstr rev ":" with
                    | None => die "Unkown CPUInfo format\n"
                    | Some (String _ (String _ digits)) => soc_of_revision (i32 (strtoul 16 digits))
                    | Some _ =>
                        if strlen g_buffer =? 4095 then undef else soc_of_revision 0
                    end
                end
            end
          else
            match soc_id sys with
            | None => die "fail to get soc_id"
            | Some text =>
                match scan_word text with
                | None => die "fail to get soc_name"
                | Some soc_name =>
                    if 255 <=? strlen soc_name then undef else
                    g ← get;
                    when (negb (truth (g_comp g))) (printf "SOC: %s\n" [AStr soc_name]);;
                    match List.find (fun x => streq x.1 soc_name) soc_by_name with
                    | Some (_, s) => mret (tables s)
                    | None => die "Unknown SOC\n"
                    end
                end
            end
      end
  end.

(** ** parse_module *)

(** The field loop: every field with the name, to the end of the register. *)
Fixpoint write_fields (mx : module_t) (r : reg_t) (field : string) (l : list field_t) : M world unit :=
  match l with
  | [] => mret tt
  | f :: l =>
      when (streq (f_name f) field)
        (if f_is_writable f then
           g ← get;
           write_reg_mask (i32 (reg_addr mx r)) (i32 (r_width r)) (i32 (g_value g))
             (i32 (f_lsb f)) (i32 (f_msb f))
         else
           printf "%s.%s.%s is not writable\n" [AStr (m_name mx); AStr (r_name r); AStr (f_name f)]);;
      write_fields mx r field l
  end.

Fixpoint write_regs (mx : module_t) (reg : string) (field : option string) (l : list reg_t)
    : M world unit :=
  match l with
  | [] => printf "Can't find register %s\n" [AStr reg]
  | r :: l =>
      if streq (r_name r) reg then
        match field with
        | Some (String _ _ as field) => write_fields mx r field (r_fields r)
        | _ =>
            if r_is_writable r then
              g ← get;
              write_reg (i32 (reg_addr mx r)) (i32 (r_width r)) (i32 (g_value g))
            else printf "%s.%s is not writable register\n" [AStr (m_name mx); AStr (r_name r)]
        end
      else write_regs mx reg field l
  end.

(** [while (mx)]: the pointer never becomes null, so the scan goes on to the
    terminator, whose null name [strcmp] reads. *)
Fixpoint write_module (module reg : string) (field : option string) (l : list module_t)
    : M world unit :=
  match l with
  | [] => undef
  | mx :: l =>
      if streq (m_name mx) module then write_regs mx reg field (m_regs mx)
      else write_module module reg field l
  end.

Fixpoint list_comp (module : option string) (l : list module_t) : M world unit :=
  match l with
  | [] => mret tt
  | mx :: l =>
      when (match module with None => true | Some s => (strlen s =? 0) || starts_with s (m_name mx) end)
        (printf "%s.\n" [AStr (m_name mx)]);;
      list_comp module l
  end.

(** [prefix]: the module name that was cut at a star. *)
Fixpoint list_modules (prefix : option string) (l : list module_t) : M world unit :=
  match l with
  | [] => mret tt
  | mx :: l =>
      when (match prefix with None => true | Some s => starts_with s (m_name mx) end)
        (printf "  %s" [AStr (m_name mx)];;
         print_blank (20 - strlen (m_name mx));;
         printf "0x%08X\n" [AInt (m_base_address mx)]);;
      list_modules prefix l
  end.

Fixpoint show_module (module : string) (reg field : option string) (l : list module_t) : M world unit :=
  match l with
  | [] => mret tt
  | mx :: l =>
      if streq (m_name mx) module then
        g ← get;
        when (negb (truth (g_comp g)))
          (printf "%s\t Addr:0x%x \n" [AStr (m_name mx); AInt (m_base_address mx)]);;
        parse_reg mx reg field
      else show_module module reg field l
  end.

(** The module pattern: no listing, or a listing of the modules with a prefix. *)
Definition listing (module : option string) : option (option string) :=
  match module with
  | None | Some EmptyString => Some None
  | Some s => match cut "*" s with Some (l, _) => Some (Some l) | None => None end
  end.

(** After a listing [mx] stands at the terminator, so the last loop of
    [parse_module] does nothing. *)
Definition parse_module (module reg field : option string) (iswrite : Z) : M world unit :=
  mx ← find_tables;
  g ← get;
  if truth iswrite && negb (truth (g_comp g)) then
    match module, reg with
    | Some module, Some reg => write_module module reg field mx
    | _, _ => undef
    end
  else if truth (g_comp g) && negb (truth (g_module_match g)) then
    list_comp module mx
  else
    match listing module with
    | Some prefix => printf "   Module\t\tBase Address\n" [];; list_modules prefix mx
    | None =>
        match module with
        | Some module => show_module module reg field mx
        | None => undef
        end
    end.

(** ** parse_cmdline

    [argv !! argc] is a null pointer, which [strcmp] must not get. *)
Definition arg (argv : list string) (i : nat) : M world string :=
  match argv !! i with Some a => mret a | None => undef end.

Definition contains (s sub : string) : bool :=
  match strstr s sub with Some _ => true | None => false end.

(** The loop that skips the program's own name and empty arguments. *)
Fixpoint skip_self (args : list string) (cur_arg : nat) : M world nat :=
  match args with
  | [] => mret cur_arg
  | a :: args =>
      if contains a "memtool" || (strlen a =? 0) then
        when (contains a "memtool") (upd (set_g_comp 1));;
        skip_self args (S cur_arg)
      else mret cur_arg
  end.

Definition parse_register (a : string) : M world Z :=
  upd (set_g_is_reg 1);;
  match cut "." a with
  | None => upd (set_g_module (Some a));; mret 0
  | Some (module, str) =>
      upd (set_g_module (Some module));;
      upd (set_g_module_match 1);;
      match cut "." str with
      | Some (reg, field) =>
          upd (set_g_reg (Some reg));;
          match cut "=" field with
          | Some (field, equal) =>
              upd (set_g_field (Some field));;
              upd (set_g_is_write 1);;
              upd (set_g_value (strtoul 16 equal));; mret 0
          | None => upd (set_g_field (Some field));; mret 0
          end
      | None =>
          match cut "=" str with
          | Some (reg, equal) =>
              upd (set_g_reg (Some reg));;
              upd (set_g_is_write 1);;
              upd (set_g_value (strtoul 16 equal));; mret 0
          | None => upd (set_g_reg (Some str));; mret 0
          end
      end
  end.

(** The argument after the address: [=], [=value], a value or a count. *)
Definition parse_second (argv : list string) (cur_arg : nat) : M world Z :=
  let cur_arg := S cur_arg in
  match argv !! cur_arg with
  | None => mret (-1)
  | Some a =>
      if first_is "=" a then
        upd (set_g_is_write 1);;
        let value a := upd (set_g_value (strtoul 16 a));; printf "E\n" [];; mret 0 in
        if 1 <? strlen a then value (tail_str a)
        else match argv !! S cur_arg with None => mret (-1) | Some a => value a end
      else
        g ← get;
        (if truth (g_is_write g) then upd (set_g_value (strtoul 16 a))
         else upd (set_g_count (strtoul 16 a)));;
        printf "E\n" [];; mret 0
  end.

Definition parse_address (argv : list string) (cur_arg : nat) (a : string) : M world Z :=
  upd (set_g_paddr (strtoul 16 a));;
  g ← get;
  if negb (truth (g_paddr g)) then mret (-1) else
  match cut "=" a with
  | Some (_, str) =>
      upd (set_g_is_write 1);;
      if 0 <? strlen str then upd (set_g_value (strtoul 16 str));; mret 0
      else parse_second argv cur_arg
  | None => parse_second argv cur_arg
  end.

Definition parse_size (a : string) : M world nat :=
  if streq a "-8" then upd (set_g_size 1);; mret 2%nat
  else if streq a "-16" then upd (set_g_size 2);; mret 2%nat
  else if streq a "-32" then upd (set_g_size 4);; mret 2%nat
  else mret 1%nat.

Definition parse_cmdline (argv : list string) : M world Z :=
  if (length argv <? 2)%nat then mret (-1) else
  a ← arg argv 1;
  cur_arg ← parse_size a;
  a ← arg argv cur_arg;
  cur_arg ← (if streq a "-comp" then upd (set_g_comp 1);; mret (S cur_arg) else mret cur_arg);
  cur_arg ← skip_self (drop cur_arg argv) cur_arg;
  g ← get;
  match argv !! cur_arg with
  | None => mret (if truth (g_comp g) then 0 else -1)
  | Some a =>
      if truth (g_comp g) || contains a "." then parse_register a
      else parse_address argv cur_arg a
  end.

(** ** Raw memory *)

(** [for (i = 0; i < count; i++)] with an [int] index: past 2^31 - 1 the
    increment is undefined. *)
Definition read_units (mem size per_line : Z) (digits : string) (count : Z) : M world unit :=
  for_m (Z.to_nat count) 0 (fun i =>
    if 2 ^ 31 <=? i then undef else
    g ← get;
    when (Z.rem i per_line =? 0) (printf "\n0x%08X: " [AInt (g_paddr g)]);;
    v ← load size (u32 (mem + size * i));
    printf digits [AInt v];;
    g ← get;
    upd (set_g_paddr (u32 (g_paddr g + size)))).

Definition read_mem (mem count size : Z) : M world unit :=
  (if size =? 1 then read_units mem 1 16 " %02X" count
   else if size =? 2 then read_units mem 2 8 " %04X" count
   else if size =? 4 then read_units mem 4 4 " %08X" count
   else skip);;
  printf "\n\n" [].

Definition write_mem (mem value size : Z) : M world unit :=
  if size =? 1 then store 1 mem value
  else if size =? 2 then store 2 mem value
  else if size =? 4 then store 4 mem value
  else skip.

Definition usage : M world Z :=
  printf "Usage:\n\nRead memory: memtool [-8 | -16 | -32] <phys addr> <count>\nWrite memory: memtool [-8 | -16 | -32] <phys addr>=<value>\n\nList SOC module: memtool *. or memtool .\nRead register:  memtool UART1.*\n                memtool UART1.UMCR\n                memtool UART1.UMCR.MDEN\n		memtool UART1.-\nWrite register: memtool UART.UMCR=0x12\n                memtool UART.UMCR.MDEN=0x1\nDefault access size is 32-bit.\n\nAddress, count and value are all in hex.\n\nTo support autocompete feature please run below command:\n     complete -o nospace -C /unit_tests/memtool memtool\n" [];; mret 1.

(** The mapping of [main]: base and length, whole pages. *)
Definition aligned_paddr (g : globals) : Z := Z.land (g_paddr g) (not32 (4096 - 1)).
Definition aligned_size (g : globals) : Z :=
  let size := u32 (g_paddr g - aligned_paddr g + u32 (g_count g * g_size g)) in
  Z.land (u32 (size + 4096 - 1)) (not32 (4096 - 1)).

Definition raw_access : M world Z :=
  upd (fun g => set_g_paddr (Z.land (g_paddr g) (not32 (g_size g - 1))) g);;
  g ← get;
  (if truth (g_is_write g) then
     printf "Writing %d-bit value 0x%X to address 0x%08X\n"
       [AInt (g_size g * 8); AInt (g_value g); AInt (g_paddr g)]
   else
     printf "Reading 0x%X count starting at address 0x%08X\n"
       [AInt (g_count g); AInt (g_paddr g)]);;
  fd ← open_devmem os;
  if fd <? 0 then mret 1 else
  aligned_vaddr ← mmap os (aligned_size g) fd (aligned_paddr g);
  if aligned_vaddr =? 0 then printf "Error mapping address\n" [];; mret 1 else
  let mem := u32 (aligned_vaddr + (g_paddr g - aligned_paddr g)) in
  (if truth (g_is_write g) then write_mem mem (g_value g) (g_size g)
   else read_mem mem (g_count g) (g_size g));;
  munmap aligned_vaddr (aligned_size g);;
  g ← get;
  when (truth (g_map_vaddr g)) (munmap (u32 (g_map_vaddr g)) MAP_SIZE);;
  mret 0.

Definition main (argv : list string) : M world Z :=
  r ← parse_cmdline argv;
  if truth r then usage else
  g ← get;
  if truth (g_is_reg g) || truth (g_comp g) then
    parse_module (g_module g) (g_reg g) (g_field g) (g_is_write g);; mret 0
  else raw_access.
End Memtool.
