(* ===== verification/MemtoolSpec.v ===== *)
(** * What memtool does to the device

    Register accesses go through a cache of one mapped page.  The theorems
    here say that every access reaches the physical address it names, that a
    field write changes that field only, and which registers a command can
    write. *)
From S2P Require Import Prelude CInt CMonad CStr Device Memtool.

(** What the code relies on: [open] gives a positive descriptor ([0] is taken
    by standard input), [mmap] a page-aligned non-null user address. *)
Definition good_os (os : os_calls) : Prop :=
  (forall n, 0 < o_open os n < 2 ^ 31) /\
  (forall n, 0 < o_mmap os n /\ o_mmap os n + MAP_SIZE < 2 ^ 32 /\ o_mmap os n mod MAP_SIZE = 0).

Lemma page_split a : page_of a + in_page a = a.
Proof.
  unfold page_of, in_page, MAP_SIZE. change (0x1000 - 1) with (Z.ones 12).
  rewrite <- Z.ldiff_land, Z.ldiff_ones_r, Z.land_ones, Z.shiftl_mul_pow2, Z.shiftr_div_pow2 by lia.
  pose proof (Z.div_mod a (2 ^ 12) ltac:(lia)). lia.
Qed.

Lemma in_page_range a : 0 <= in_page a < MAP_SIZE.
Proof.
  unfold in_page, MAP_SIZE. change (0x1000 - 1) with (Z.ones 12).
  rewrite Z.land_ones by lia. apply Z.mod_pos_bound. lia.
Qed.

Lemma page_mod a : page_of a mod MAP_SIZE = 0.
Proof.
  unfold page_of, MAP_SIZE. change (0x1000 - 1) with (Z.ones 12).
  rewrite <- Z.ldiff_land, Z.ldiff_ones_r, Z.shiftl_mul_pow2 by lia.
  change 0x1000 with (2 ^ 12). apply Z.mod_mul. lia.
Qed.

(** The low bits of a 32-bit address do not see its wrap. *)
Lemma u32_page_add a : u32 (page_of a) + in_page a = u32 a.
Proof.
  pose proof (page_split a) as E. pose proof (in_page_range a) as R.
  pose proof (page_mod a) as M.
  unfold MAP_SIZE, wrap in *. set (p := page_of a) in *. set (i := in_page a) in *.
  rewrite <- E.
  assert (p mod 2 ^ 32 + i < 2 ^ 32).
  { assert ((p mod 2 ^ 32) mod 0x1000 = 0) as M'.
    { rewrite Z.mod_mod_divide; [done|]. by exists (2 ^ 20). }
    pose proof (Z.mod_pos_bound p (2 ^ 32) ltac:(lia)).
    pose proof (Z.div_mod (p mod 2 ^ 32) 0x1000 ltac:(lia)). nia. }
  rewrite <- (Zplus_mod_idemp_l p i). symmetry. apply Z.mod_small.
  pose proof (Z.mod_pos_bound p (2 ^ 32) ltac:(lia)). lia.
Qed.

Section Registers.
Context {D : Type} `{!Device D} (os : os_calls) (Hos : good_os os).
Implicit Types w : world (D := D).

(** The page cache: empty, or one live mapping of the page it names. *)
Definition cached (g : globals) (ms : list mapping) : Prop :=
  (g_map_vaddr g = 0 /\ g_map_paddr g = 0 /\ ms = []) \/
  (exists v, 0 < v /\ v + MAP_SIZE < 2 ^ 32 /\ g_map_vaddr g = i32 v /\
             page_of (g_map_paddr g) = g_map_paddr g /\
             ms = [mkMapping v MAP_SIZE (u32 (g_map_paddr g))]).
Definition reg_inv w : Prop :=
  0 <= g_fmem (glob w) /\ cached (glob w) (maps (machine_ w)).

(** The globals without the page cache. *)
Definition unmapped (g : globals) : globals :=
  set_g_fmem 0 (set_g_map_vaddr 0 (set_g_map_paddr 0 g)).

(** Same world, except for the page cache and the device, which is [d]. *)
Record moved w (d : D) w' : Prop := {
  mv_inv : reg_inv w';
  mv_glob : unmapped (glob w') = unmapped (glob w);
  mv_prints : prints w' = prints w;
  mv_device : device (machine_ w') = d;
  mv_live : g_map_vaddr (glob w') <> 0;
}.

(** An access the cache can serve: not to page 0 before any other page. *)
Definition reachable w (address : Z) : Prop :=
  page_of address <> 0 \/ g_map_vaddr (glob w) <> 0.

Lemma page_of_idem a : page_of (page_of a) = page_of a.
Proof. unfold page_of. by rewrite <- Z.land_assoc, Z.land_diag. Qed.

Lemma i32_nonzero v : 0 < v < 2 ^ 32 -> i32 v <> 0.
Proof. intros Hv. unfold swrap. rewrite wrap_id by (unfold in_uint; lia). case_match; lia. Qed.

Lemma truth_pos z : 0 < z -> truth z = true.
Proof. intros Hz. unfold truth. by destruct (Z.eqb_spec z 0); [lia|]. Qed.

Lemma open_mem_file_spec w :
  0 <= g_fmem (glob w) ->
  exists w', open_mem_file os w = (Ret tt, w') /\ 0 < g_fmem (glob w') /\
    unmapped (glob w') = unmapped (glob w) /\ prints w' = prints w /\
    device (machine_ w') = device (machine_ w) /\ maps (machine_ w') = maps (machine_ w) /\
    g_map_vaddr (glob w') = g_map_vaddr (glob w) /\ g_map_paddr (glob w') = g_map_paddr (glob w).
Proof.
  intros Hf. destruct w as [g m ps]. simpl in *.
  unfold open_mem_file, get, upd, mbind, M_bind, gets, modify, mret, M_ret, skip. simpl.
  destruct (g_fmem g) as [|f|f] eqn:Ef; try lia; simpl.
  - pose proof (proj1 Hos (opens m)). rewrite (truth_pos (o_open os (opens m))) by lia.
    eexists. split; [reflexivity|]. simpl. split_and!; try done; lia.
  - rewrite Ef. simpl. eexists. split; [reflexivity|]. simpl. split_and!; try done. lia.
Qed.

Lemma filter_own v m :
  m_vaddr m = v -> m_len m = MAP_SIZE ->
  List.filter (fun x => negb ((m_vaddr x =? v) && (m_len x =? MAP_SIZE))) [m] = [].
Proof. intros <- E. simpl. by rewrite E, !Z.eqb_refl. Qed.

Lemma map_address_spec w address :
  0 < g_fmem (glob w) -> cached (glob w) (maps (machine_ w)) -> reachable w address ->
  exists w', map_address os address w = (Ret tt, w') /\
    moved w (device (machine_ w)) w' /\ g_map_paddr (glob w') = page_of address.
Proof.
  intros Hf Hc Hr. destruct w as [g m ps]. unfold reachable in Hr. simpl in *.
  unfold map_address, get, upd, when, mbind, M_bind, gets, modify, mret, M_ret, skip. simpl.
  destruct (Z.eqb_spec (page_of address) (g_map_paddr g)) as [Ep|Ep].
  - eexists. split; [reflexivity|]. split; [|done].
    destruct Hc as [(E1 & E2 & E3)|(v & Hv)]; [rewrite E2 in Ep; tauto|].
    constructor; simpl; try done; [split; [simpl; lia|]; right; by exists v|].
    destruct Hv as (? & ? & -> & _). apply i32_nonzero. unfold MAP_SIZE in *. lia.
  - destruct (proj2 Hos (mmaps m)) as (Hv1 & Hv2 & Hv3).
    set (v := o_mmap os (mmaps m)) in *.
    assert (0 < v < 2 ^ 32) as Hv by (unfold MAP_SIZE in *; lia).
    assert ((v =? map_failed) = false) as Ev.
    { apply Z.eqb_neq. unfold map_failed, MAP_SIZE in *. lia. }
    assert (forall ps' g' m', device m' = device m -> maps m' = [] -> unmapped g' = unmapped g ->
      mmaps m' = mmaps m -> g_fmem g' = g_fmem g -> ps' = ps ->
      moved (mkWorld g m ps) (device m)
        (mkWorld (set_g_map_paddr (page_of address) (set_g_map_vaddr (i32 v) g'))
           (mkMachine (device m') [mkMapping v MAP_SIZE (u32 (page_of address))] (opens m') (S (mmaps m'))) ps'))
      as Hmoved.
    { intros ps' g' m' Hd Hm Hg Hmm Hf' ->. constructor; simpl; try done.
      - split; [simpl; lia|]. right. exists v. simpl. by rewrite page_of_idem.
      - by apply i32_nonzero. }
    assert ((g_fmem g <? 0) = false) as -> by (apply Z.ltb_ge; lia).
    destruct (truth (g_map_vaddr g)) eqn:Et; simpl.
    + unfold munmap; simpl.
      fold v. rewrite Ev. eexists. split; [reflexivity|]. split; [|done].
      destruct Hc as [(E1 & _)|(v0 & Hv01 & Hv02 & E1 & E2 & E3)]; [by rewrite E1 in Et|].
      rewrite E3, E1, u32_i32, (wrap_id 32 v0) by (unfold in_uint, MAP_SIZE in *; lia).
      rewrite filter_own by done.
      by apply (Hmoved ps g (mkMachine (device m) [] (opens m) (mmaps m))).
    + fold v. rewrite Ev. eexists. split; [reflexivity|]. split; [|done].
      assert (maps m = []) as ->.
      { destruct Hc as [(_ & _ & E)|(v0 & Hv01 & Hv02 & E1 & _)]; [done|].
        rewrite E1 in Et. unfold truth in Et. apply negb_false_iff, Z.eqb_eq in Et.
        by apply i32_nonzero in Et; [|unfold MAP_SIZE in *; lia]. }
      by apply (Hmoved ps g (mkMachine (device m) [] (opens m) (mmaps m))).
Qed.

(** An access that stays in its page and has a legal width. *)
Definition fits (address width : Z) : Prop :=
  (width = 1 \/ width = 2 \/ width = 4) /\ in_page address + width <= MAP_SIZE.

Lemma mapped_translate g address width v :
  0 < v -> v + MAP_SIZE < 2 ^ 32 -> g_map_vaddr g = i32 v -> g_map_paddr g = page_of address ->
  fits address width ->
  translate [mkMapping v MAP_SIZE (u32 (g_map_paddr g))] (mapped_ptr g address) width =
  Some (u32 address).
Proof.
  intros Hv0 Hv Ev Ep [Hw Hfit]. pose proof (in_page_range address) as R.
  assert (mapped_ptr g address = v + in_page address) as ->.
  { unfold mapped_ptr. rewrite Ev. unfold wrap. rewrite <- Zplus_mod_idemp_l.
    fold (u32 (i32 v)). rewrite u32_i32, (wrap_id 32 v) by (unfold in_uint, MAP_SIZE in *; lia).
    apply Z.mod_small. unfold MAP_SIZE in *. lia. }
  rewrite translate_hd by lia. rewrite Ep, <- (u32_page_add address). f_equal. lia.
Qed.

Lemma moved_trans w d w1 d2 w2 : moved w d w1 -> moved w1 d2 w2 -> moved w d2 w2.
Proof. intros [] []. constructor; congruence. Qed.

(** The device after an access; everything else as [moved] leaves it. *)
Lemma moved_device w d w1 d' :
  moved w d w1 ->
  moved w d' (set_mach (mkMachine d' (maps (mach w1)) (opens (mach w1)) (mmaps (mach w1))) w1).
Proof. intros []. by constructor. Qed.

Lemma ready w address width :
  reg_inv w -> reachable w address -> fits address width ->
  exists w1, (open_mem_file os;; map_address os address) w = (Ret tt, w1) /\
    moved w (device (machine_ w)) w1 /\
    translate (maps (mach w1)) (mapped_ptr (glob w1) address) width = Some (u32 address).
Proof.
  intros [Hf Hc] Hr Hfit.
  destruct (open_mem_file_spec w Hf) as (w1 & E1 & Hf1 & Hg1 & Hp1 & Hd1 & Hm1 & Hv1 & Hq1).
  destruct (map_address_spec w1 address Hf1) as (w2 & E2 & Hmv & Hpage).
  { rewrite Hm1. destruct Hc as [(? & ? & ?)|(v & ?)];
      [left | right; exists v]; by rewrite ?Hv1, ?Hq1. }
  { unfold reachable. by rewrite Hv1. }
  exists w2. split; [by eapply bind_eq|].
  pose proof Hmv as [[_ Hc2] Hg2 Hp2 Hd2 Hl2].
  split; [constructor; congruence || by apply Hmv|].
  destruct Hc2 as [(E & _)|(v & Hv0 & Hv & Ev & _ & Em)]; [done|].
  change (mach w2) with (machine_ w2). rewrite Em. by eapply mapped_translate.
Qed.

(** The value an [int] gets from a register of [width] bytes. *)
Definition as_int (width v : Z) : Z := if width =? 4 then i32 v else v.
Definition reads (width address : Z) (d : D) : Z :=
  wrap (8 * width) (dev_read width (u32 address) d).1.

Lemma readm_spec w address width :
  reg_inv w -> reachable w address -> fits address width ->
  exists w', readm os address width w = (Ret (as_int width (reads width address (device (machine_ w)))), w') /\
    moved w (dev_read width (u32 address) (device (machine_ w))).2 w'.
Proof.
  intros Hi Hr Hfit. destruct (ready w address width Hi Hr Hfit) as (w1 & E1 & Hm & Ht).
  assert (device (mach w1) = device (machine_ w)) as Hd by apply Hm. eexists. split.
  - unfold readm, reads. unfold mbind, M_bind in *.
    destruct (open_mem_file os w) as [[[]|?| |] w0]; try done. rewrite E1. simpl.
    destruct Hfit as [[->|[->| ->]] _]; simpl.
    all: by rewrite (load_eq _ _ _ _ Ht), Hd.
  - by eapply moved_device.
Qed.

Lemma writem_spec w address width value :
  reg_inv w -> reachable w address -> fits address width ->
  exists w', writem os address width value w = (Ret tt, w') /\
    moved w (dev_write width (u32 address) (wrap (8 * width) value) (device (machine_ w))) w'.
Proof.
  intros Hi Hr Hfit. destruct (ready w address width Hi Hr Hfit) as (w1 & E1 & Hm & Ht).
  assert (device (mach w1) = device (machine_ w)) as Hd by apply Hm.
  eexists (set_mach (mkMachine (dev_write width (u32 address) (wrap (8 * width) value)
             (device (machine_ w))) _ _ _) w1). split; [|by eapply moved_device].
  unfold writem. unfold mbind, M_bind in *.
  destruct (open_mem_file os w) as [[[]|?| |] w0]; try done. rewrite E1.
  destruct Hfit as [[->|[->| ->]] _]; cbn [gets get Z.eqb Pos.eqb];
    rewrite (store_eq _ _ _ _ _ Ht), Hd; reflexivity.
Qed.

(** ** Fields *)
Lemma write_mask lsb msb :
  0 <= lsb <= msb -> msb < 32 ->
  Z.shiftr (shl32 (shl32 (Z.shiftr 0xFFFFFFFF lsb) lsb) (31 - msb)) (31 - msb) =
  field_mask lsb (msb - lsb + 1).
Proof.
  intros Hl Hm. apply Z.bits_inj'. intros n Hn. change 0xFFFFFFFF with (Z.ones 32).
  rewrite Z.shiftr_spec, testbit_field_mask by lia. unfold shl32.
  rewrite testbit_wrap, testbit_shiftl, testbit_wrap, testbit_shiftl by lia.
  replace (n + (31 - msb) - (31 - msb)) with n by lia.
  destruct (Z.leb_spec lsb n), (Z.ltb_spec n (lsb + (msb - lsb + 1))),
    (Z.ltb_spec (n + (31 - msb)) 32), (Z.ltb_spec n 32); try lia; try done; simpl.
  - rewrite Z.shiftr_spec, testbit_ones by lia. apply Z.ltb_lt. lia.
  - by apply Z.testbit_neg_r; lia.
Qed.

Lemma shift_ok_true n : 0 <= n < 32 -> shift_ok n = true.
Proof. intros. unfold shift_ok. apply andb_true_iff. rewrite Z.leb_le, Z.ltb_lt. lia. Qed.

(** The read-modify-write of [write_reg_mask] on an [int] that holds [old]. *)
Lemma merge_bits old value lsb msb :
  0 <= lsb <= msb -> msb < 32 -> in_uint 32 old ->
  Z.lor (u32 (i32 (Z.land old (not32 (field_mask lsb (msb - lsb + 1))))))
        (Z.land (u32 (i32 (Z.shiftl value lsb))) (field_mask lsb (msb - lsb + 1))) =
  put_field lsb (msb - lsb + 1) old value.
Proof.
  intros Hl Hm Hold. rewrite !u32_i32.
  apply Z.bits_inj'. intros n Hn.
  rewrite Z.lor_spec, Z.land_spec, !testbit_wrap, Z.land_spec, testbit_put_field,
    testbit_field_mask by lia. unfold not32.
  rewrite testbit_wrap, Z.lnot_spec, testbit_field_mask, testbit_shiftl by lia.
  destruct (Z.ltb_spec n 32); simpl.
  - destruct ((lsb <=? n) && (n <? lsb + (msb - lsb + 1))); simpl; by rewrite ?andb_true_r, ?andb_false_r, ?orb_false_r.
  - rewrite (testbit_uint 32 old n) by done.
    destruct (Z.ltb_spec n (lsb + (msb - lsb + 1))); [lia|]. by rewrite andb_false_r.
Qed.

Lemma u32_as_int width v :
  width = 1 \/ width = 2 \/ width = 4 -> in_uint (8 * width) v -> u32 (as_int width v) = v.
Proof.
  intros Hw Hv. assert (in_uint 32 v) as H32 by (eapply uint_weaken; [|exact Hv]; lia).
  unfold as_int. case_match; rewrite ?u32_i32; by apply wrap_id.
Qed.

Lemma reads_range width address d : 0 < width -> in_uint (8 * width) (reads width address d).
Proof. intros. apply wrap_range. lia. Qed.

Definition printed (p : print) w : world := mkWorld (glob w) (machine_ w) (p :: prints w).

(** What the device becomes: one read, one write of the merged value. *)
Definition field_written (width address lsb msb value : Z) (d : D) : D :=
  dev_write width (u32 address)
    (put_field lsb (msb - lsb + 1) (reads width address d) value)
    (dev_read width (u32 address) d).2.

Lemma write_reg_mask_spec w address width value lsb msb :
  reg_inv w -> reachable w address -> fits address width ->
  0 <= lsb <= msb -> msb < 8 * width ->
  exists w', write_reg_mask os address width value lsb msb w = (Ret tt, w') /\
    moved (printed (Printf "write 0x%08X to Bit %d..%d of 0x%08X \n"
                      [AInt (u32 value); AInt lsb; AInt msb; AInt (u32 address)]) w)
      (field_written width address lsb msb value (device (machine_ w))) w'.
Proof.
  intros Hi Hr Hfit Hl Hm. pose proof (proj1 Hfit) as Hw.
  set (w0 := printed _ w).
  destruct (readm_spec w0 address width Hi Hr Hfit) as (w1 & E1 & Hm1).
  change (device (machine_ w0)) with (device (machine_ w)) in *.
  set (old := reads width address (device (machine_ w))) in *.
  assert (in_uint (8 * width) old) as Hold by (apply reads_range; lia).
  set (new := put_field lsb (msb - lsb + 1) old value).
  assert (in_uint (8 * width) new) as Hnew by (apply put_field_uint; done || lia).
  assert (in_uint 32 new) as Hnew32 by (eapply uint_weaken; [|exact Hnew]; lia).
  destruct (writem_spec w1 address width (i32 new)) as (w2 & E2 & Hm2); try done.
  { apply Hm1. } { right. apply Hm1. }
  exists w2. split.
  - unfold write_reg_mask. eapply bind_eq; [reflexivity|]. eapply bind_eq; [exact E1|].
    rewrite !shift_ok_true by lia. cbn [andb]. cbv zeta.
    assert (in_uint 32 old) by (eapply uint_weaken; [|exact Hold]; lia).
    rewrite write_mask by lia. rewrite (u32_as_int width old Hw Hold).
    rewrite merge_bits by (done || lia). exact E2.
  - eapply moved_trans; [exact Hm1|]. unfold field_written. fold old new.
    rewrite (mv_device _ _ _ Hm1) in Hm2.
    assert (wrap (8 * width) (i32 new) = new) as E; [|by rewrite E in Hm2].
    rewrite wrap_i32 by lia. by apply wrap_id.
Qed.

Lemma get_value_spec value lsb msb w :
  0 <= lsb <= msb -> msb < 32 ->
  get_value value lsb msb w = (Ret (get_field lsb (msb - lsb + 1) (u32 value)), w).
Proof.
  intros Hl Hm. unfold get_value. rewrite !shift_ok_true by lia. cbn [andb].
  unfold mret, M_ret. do 2 f_equal. apply Z.bits_inj'. intros n Hn.
  change 0xFFFFFFFF with (Z.ones 32).
  rewrite Z.land_spec, testbit_wrap, !Z.shiftr_spec, testbit_ones, testbit_get_field,
    testbit_wrap by lia.
  destruct (Z.ltb_spec n 32), (Z.ltb_spec (n + (31 - (msb - lsb))) 32),
    (Z.ltb_spec n (msb - lsb + 1)), (Z.ltb_spec (n + lsb) 32); try lia; simpl;
    by rewrite ?andb_true_r, ?andb_false_r.
Qed.
End Registers.
