(* ===== verification/MemtoolTables.v ===== *)
(** * Register tables of the i.MX6UL (test/memtool/mx6ul_modules.c)

    The GPIO, UART and watchdog modules, entry by entry as in the source; the
    other modules of the chip are not part of this file.  [wf_module] is what
    memtool relies on in such a table. *)
From S2P Require Import Prelude CInt CStr Device Memtool.

#[local] Open Scope string_scope.

Definition hw_gpio_dr : list field_t := [
  mkField "DR"
    "Data bits."
    0 31 true true
].

Definition hw_gpio_gdir : list field_t := [
  mkField "GDIR"
    "GPIO direction bits."
    0 31 true true
].

Definition hw_gpio_psr : list field_t := [
  mkField "PSR"
    "GPIO pad status bits (status bits)."
    0 31 true false
].

Definition hw_gpio_icr1 : list field_t := [
  mkField "ICR0"
    "Interrupt configuration 1 fields."
    0 1 true true;
  mkField "ICR1"
    "Interrupt configuration 1 fields."
    2 3 true true;
  mkField "ICR2"
    "Interrupt configuration 1 fields."
    4 5 true true;
  mkField "ICR3"
    "Interrupt configuration 1 fields."
    6 7 true true;
  mkField "ICR4"
    "Interrupt configuration 1 fields."
    8 9 true true;
  mkField "ICR5"
    "Interrupt configuration 1 fields."
    10 11 true true;
  mkField "ICR6"
    "Interrupt configuration 1 fields."
    12 13 true true;
  mkField "ICR7"
    "Interrupt configuration 1 fields."
    14 15 true true;
  mkField "ICR8"
    "Interrupt configuration 1 fields."
    16 17 true true;
  mkField "ICR9"
    "Interrupt configuration 1 fields."
    18 19 true true;
  mkField "ICR10"
    "Interrupt configuration 1 fields."
    20 21 true true;
  mkField "ICR11"
    "Interrupt configuration 1 fields."
    22 23 true true;
  mkField "ICR12"
    "Interrupt configuration 1 fields."
    24 25 true true;
  mkField "ICR13"
    "Interrupt configuration 1 fields."
    26 27 true true;
  mkField "ICR14"
    "Interrupt configuration 1 fields."
    28 29 true true;
  mkField "ICR15"
    "Interrupt configuration 1 fields."
    30 31 true true
].

Definition hw_gpio_icr2 : list field_t := [
  mkField "ICR16"
    "Interrupt configuration 2 fields."
    0 1 true true;
  mkField "ICR17"
    "Interrupt configuration 2 fields."
    2 3 true true;
  mkField "ICR18"
    "Interrupt configuration 2 fields."
    4 5 true true;
  mkField "ICR19"
    "Interrupt configuration 2 fields."
    6 7 true true;
  mkField "ICR20"
    "Interrupt configuration 2 fields."
    8 9 true true;
  mkField "ICR21"
    "Interrupt configuration 2 fields."
    10 11 true true;
  mkField "ICR22"
    "Interrupt configuration 2 fields."
    12 13 true true;
  mkField "ICR23"
    "Interrupt configuration 2 fields."
    14 15 true true;
  mkField "ICR24"
    "Interrupt configuration 2 fields."
    16 17 true true;
  mkField "ICR25"
    "Interrupt configuration 2 fields."
    18 19 true true;
  mkField "ICR26"
    "Interrupt configuration 2 fields."
    20 21 true true;
  mkField "ICR27"
    "Interrupt configuration 2 fields."
    22 23 true true;
  mkField "ICR28"
    "Interrupt configuration 2 fields."
    24 25 true true;
  mkField "ICR29"
    "Interrupt configuration 2 fields."
    26 27 true true;
  mkField "ICR30"
    "Interrupt configuration 2 fields."
    28 29 true true;
  mkField "ICR31"
    "Interrupt configuration 2 fields."
    30 31 true true
].

Definition hw_gpio_imr : list field_t := [
  mkField "IMR"
    "Interrupt Mask bits."
    0 31 true true
].

Definition hw_gpio_isr : list field_t := [
  mkField "ISR"
    "Interrupt status bits - Bit n of this register is asserted (active high) when the active condition (as determined by the corresponding ICR bit) is detected on the GPIO input and is waiting for service."
    0 31 true true
].

Definition hw_gpio_edge_sel : list field_t := [
  mkField "GPIO_EDGE_SEL"
    "Edge select."
    0 31 true true
].

Definition hw_gpio : list reg_t := [
  mkReg "DR"
    "The 32-bit GPIO_DR register stores data that is ready to be driven to the output lines."
    4 0 true true hw_gpio_dr;
  mkReg "GDIR"
    "GPIO_GDIR functions as direction control when the IOMUXC is in GPIO mode."
    4 0x00000004 true true hw_gpio_gdir;
  mkReg "PSR"
    "GPIO_PSR is a read-only register."
    4 0x00000008 true false hw_gpio_psr;
  mkReg "ICR1"
    "GPIO_ICR1 contains 16 two-bit fields, where each field specifies the interrupt configuration for a different input signal."
    4 0x0000000c true true hw_gpio_icr1;
  mkReg "ICR2"
    "GPIO_ICR2 contains 16 two-bit fields, where each field specifies the interrupt configuration for a different input signal."
    4 0x00000010 true true hw_gpio_icr2;
  mkReg "IMR"
    "GPIO_IMR contains masking bits for each interrupt line."
    4 0x00000014 true true hw_gpio_imr;
  mkReg "ISR"
    "The GPIO_ISR functions as an interrupt status indicator."
    4 0x00000018 true true hw_gpio_isr;
  mkReg "EDGE_SEL"
    "GPIO_EDGE_SEL may be used to override the ICR registers' configuration."
    4 0x0000001c true true hw_gpio_edge_sel
].

Definition hw_uart_urxd : list field_t := [
  mkField "RX_DATA"
    "Received Data."
    0 7 true false;
  mkField "PRERR"
    "In RS-485 mode, it holds the ninth data bit (bit [8]) of received 9-bit RS-485 data In RS232/IrDA mode, it is the Parity Error flag."
    10 10 true false;
  mkField "BRK"
    "BREAK Detect."
    11 11 true false;
  mkField "FRMERR"
    "Frame Error."
    12 12 true false;
  mkField "OVRRUN"
    "Receiver Overrun."
    13 13 true false;
  mkField "ERR"
    "Error Detect."
    14 14 true false;
  mkField "CHARRDY"
    "Character Ready."
    15 15 true false
].

Definition hw_uart_utxd : list field_t := [
  mkField "TX_DATA"
    "Transmit Data."
    0 7 false false
].

Definition hw_uart_ucr1 : list field_t := [
  mkField "UARTEN"
    "UART Enable."
    0 0 true true;
  mkField "DOZE"
    "DOZE."
    1 1 true true;
  mkField "ATDMAEN"
    "Aging DMA Timer Enable."
    2 2 true true;
  mkField "TXDMAEN"
    "Transmitter Ready DMA Enable."
    3 3 true true;
  mkField "SNDBRK"
    "Send BREAK."
    4 4 true true;
  mkField "RTSDEN"
    "RTS Delta Interrupt Enable."
    5 5 true true;
  mkField "TXMPTYEN"
    "Transmitter Empty Interrupt Enable."
    6 6 true true;
  mkField "IREN"
    "Infrared Interface Enable."
    7 7 true true;
  mkField "RXDMAEN"
    "Receive Ready DMA Enable."
    8 8 true true;
  mkField "RRDYEN"
    "Receiver Ready Interrupt Enable."
    9 9 true true;
  mkField "ICD"
    "Idle Condition Detect."
    10 11 true true;
  mkField "IDEN"
    "Idle Condition Detected Interrupt Enable."
    12 12 true true;
  mkField "TRDYEN"
    "Transmitter Ready Interrupt Enable."
    13 13 true true;
  mkField "ADBR"
    "Automatic Detection of Baud Rate."
    14 14 true true;
  mkField "ADEN"
    "Automatic Baud Rate Detection Interrupt Enable."
    15 15 true true
].

Definition hw_uart_ucr2 : list field_t := [
  mkField "SRST"
    "Software Reset."
    0 0 true true;
  mkField "RXEN"
    "Receiver Enable."
    1 1 true true;
  mkField "TXEN"
    "Transmitter Enable."
    2 2 true true;
  mkField "ATEN"
    "Aging Timer Enable."
    3 3 true true;
  mkField "RTSEN"
    "Request to Send Interrupt Enable."
    4 4 true true;
  mkField "WS"
    "Word Size."
    5 5 true true;
  mkField "STPB"
    "Stop."
    6 6 true true;
  mkField "PROE"
    "Parity Odd/Even."
    7 7 true true;
  mkField "PREN"
    "Parity Enable."
    8 8 true true;
  mkField "RTEC"
    "Request to Send Edge Control."
    9 10 true true;
  mkField "ESCEN"
    "Escape Enable."
    11 11 true true;
  mkField "CTS"
    "Clear to Send."
    12 12 true true;
  mkField "CTSC"
    "CTS Pin Control."
    13 13 true true;
  mkField "IRTS"
    "Ignore RTS Pin."
    14 14 true true;
  mkField "ESCI"
    "Escape Sequence Interrupt Enable."
    15 15 true true
].

Definition hw_uart_ucr3 : list field_t := [
  mkField "ACIEN"
    "Autobaud Counter Interrupt Enable."
    0 0 true true;
  mkField "INVT"
    "Invert TXD output in RS-232/RS-485 mode, set TXD active level in IrDA mode."
    1 1 true true;
  mkField "RXDMUXSEL"
    "RXD Muxed Input Selected."
    2 2 true true;
  mkField "DTRDEN"
    "Data Terminal Ready Delta Enable."
    3 3 true true;
  mkField "AWAKEN"
    "Asynchronous WAKE Interrupt Enable."
    4 4 true true;
  mkField "AIRINTEN"
    "Asynchronous IR WAKE Interrupt Enable."
    5 5 true true;
  mkField "RXDSEN"
    "Receive Status Interrupt Enable."
    6 6 true true;
  mkField "ADNIMP"
    "Autobaud Detection Not Improved-."
    7 7 true true;
  mkField "RI"
    "Ring Indicator."
    8 8 true true;
  mkField "DCD"
    "Data Carrier Detect."
    9 9 true true;
  mkField "DSR"
    "Data Set Ready."
    10 10 true true;
  mkField "FRAERREN"
    "Frame Error Interrupt Enable."
    11 11 true true;
  mkField "PARERREN"
    "Parity Error Interrupt Enable."
    12 12 true true;
  mkField "DTREN"
    "Data Terminal Ready Interrupt Enable."
    13 13 true true;
  mkField "DPEC"
    "DTR/DSR Interrupt Edge Control."
    14 15 true true
].

Definition hw_uart_ucr4 : list field_t := [
  mkField "DREN"
    "Receive Data Ready Interrupt Enable."
    0 0 true true;
  mkField "OREN"
    "Receiver Overrun Interrupt Enable."
    1 1 true true;
  mkField "BKEN"
    "BREAK Condition Detected Interrupt Enable."
    2 2 true true;
  mkField "TCEN"
    "Transmit Complete Interrupt Enable."
    3 3 true true;
  mkField "LPBYP"
    "Low Power Bypass."
    4 4 true true;
  mkField "IRSC"
    "IR Special Case."
    5 5 true true;
  mkField "IDDMAEN"
    "DMA IDLE Condition Detected Interrupt Enable Enables/Disables the receive DMA request dma_req_rx for the IDLE interrupt (triggered with IDLE flag in USR2[12])."
    6 6 true true;
  mkField "WKEN"
    "WAKE Interrupt Enable."
    7 7 true true;
  mkField "ENIRI"
    "Serial Infrared Interrupt Enable."
    8 8 true true;
  mkField "INVR"
    "Invert RXD input in RS-232/RS-485 Mode, determine RXD input logic level being sampled in In IrDA mode."
    9 9 true true;
  mkField "CTSTL"
    "CTS Trigger Level."
    10 15 true true
].

Definition hw_uart_ufcr : list field_t := [
  mkField "RXTL"
    "Receiver Trigger Level."
    0 5 true true;
  mkField "DCEDTE"
    "DCE/DTE mode select."
    6 6 true true;
  mkField "RFDIV"
    "Reference Frequency Divider."
    7 9 true true;
  mkField "TXTL"
    "Transmitter Trigger Level."
    10 15 true true
].

Definition hw_uart_usr1 : list field_t := [
  mkField "SAD"
    "RS-485 Slave Address Detected Interrupt Flag."
    3 3 true true;
  mkField "AWAKE"
    "Asynchronous WAKE Interrupt Flag."
    4 4 true true;
  mkField "AIRINT"
    "Asynchronous IR WAKE Interrupt Flag."
    5 5 true true;
  mkField "RXDS"
    "Receiver IDLE Interrupt Flag."
    6 6 true false;
  mkField "DTRD"
    "DTR Delta."
    7 7 true true;
  mkField "AGTIM"
    "Ageing Timer Interrupt Flag."
    8 8 true true;
  mkField "RRDY"
    "Receiver Ready Interrupt / DMA Flag."
    9 9 true false;
  mkField "FRAMERR"
    "Frame Error Interrupt Flag."
    10 10 true true;
  mkField "ESCF"
    "Escape Sequence Interrupt Flag."
    11 11 true true;
  mkField "RTSD"
    "RTS Delta."
    12 12 true true;
  mkField "TRDY"
    "Transmitter Ready Interrupt / DMA Flag."
    13 13 true false;
  mkField "RTSS"
    "RTS_B Pin Status."
    14 14 true false;
  mkField "PARITYERR"
    "Parity Error Interrupt Flag."
    15 15 true true
].

Definition hw_uart_usr2 : list field_t := [
  mkField "RDR"
    "Receive Data Ready-Indicates that at least 1 character is received and written to the RxFIFO."
    0 0 true false;
  mkField "ORE"
    "Overrun Error."
    1 1 true true;
  mkField "BRCD"
    "BREAK Condition Detected."
    2 2 true true;
  mkField "TXDC"
    "Transmitter Complete."
    3 3 true false;
  mkField "RTSF"
    "RTS Edge Triggered Interrupt Flag."
    4 4 true true;
  mkField "DCDIN"
    "Data Carrier Detect Input."
    5 5 true false;
  mkField "DCDDELT"
    "Data Carrier Detect Delta."
    6 6 true true;
  mkField "WAKE"
    "Wake."
    7 7 true true;
  mkField "IRINT"
    "Serial Infrared Interrupt Flag."
    8 8 true true;
  mkField "RIIN"
    "Ring Indicator Input."
    9 9 true false;
  mkField "RIDELT"
    "Ring Indicator Delta."
    10 10 true true;
  mkField "ACST"
    "Autobaud Counter Stopped."
    11 11 true true;
  mkField "IDLE"
    "Idle Condition."
    12 12 true true;
  mkField "DTRF"
    "DTR edge triggered interrupt flag."
    13 13 true true;
  mkField "TXFE"
    "Transmit Buffer FIFO Empty."
    14 14 true false;
  mkField "ADET"
    "Automatic Baud Rate Detect Complete."
    15 15 true true
].

Definition hw_uart_uesc : list field_t := [
  mkField "ESC_CHAR"
    "UART Escape Character."
    0 7 true true
].

Definition hw_uart_utim : list field_t := [
  mkField "TIM"
    "UART Escape Timer."
    0 11 true true
].

Definition hw_uart_ubir : list field_t := [
  mkField "INC"
    "Incremental Numerator."
    0 15 true true
].

Definition hw_uart_ubmr : list field_t := [
  mkField "MOD"
    "Modulator Denominator."
    0 15 true true
].

Definition hw_uart_ubrc : list field_t := [
  mkField "BCNT"
    "Baud Rate Count Register."
    0 15 true false
].

Definition hw_uart_onems : list field_t := [
  mkField "ONEMS"
    "One Millisecond Register."
    0 23 true true
].

Definition hw_uart_uts : list field_t := [
  mkField "SOFTRST"
    "Software Reset."
    0 0 true true;
  mkField "RXFULL"
    "RxFIFO FULL."
    3 3 true true;
  mkField "TXFULL"
    "TxFIFO FULL."
    4 4 true true;
  mkField "RXEMPTY"
    "RxFIFO Empty."
    5 5 true true;
  mkField "TXEMPTY"
    "TxFIFO Empty."
    6 6 true true;
  mkField "RXDBG"
    "RX_fifo_debug_mode."
    9 9 true true;
  mkField "LOOPIR"
    "Loop TX and RX for IR Test (LOOPIR)."
    10 10 true true;
  mkField "DBGEN"
    "debug_enable_B."
    11 11 true true;
  mkField "LOOP"
    "Loop TX and RX for Test."
    12 12 true true;
  mkField "FRCPERR"
    "Force Parity Error."
    13 13 true true
].

Definition hw_uart_umcr : list field_t := [
  mkField "MDEN"
    "9-bit data or Multidrop Mode (RS-485) Enable."
    0 0 true true;
  mkField "SLAM"
    "RS-485 Slave Address Detect Mode Selection."
    1 1 true true;
  mkField "TXB8"
    "Transmit RS-485 bit 8 (the ninth bit or 9th bit)."
    2 2 true true;
  mkField "SADEN"
    "RS-485 Slave Address Detected Interrupt Enable."
    3 3 true true;
  mkField "SLADDR"
    "RS-485 Slave Address Character."
    8 15 true true
].

Definition hw_uart : list reg_t := [
  mkReg "URXD"
    "The UART will yield a transfer error on the peripheral bus when core is reading URXD register with receive interface disabled (RXEN=0 or UARTEN=0)."
    4 0 true false hw_uart_urxd;
  mkReg "UTXD"
    "The UART will yield a transfer error on the peripheral bus when core is writing into UART_URXD register with transmit interface disabled (TXEN=0 or UARTEN=0)."
    4 0x00000040 false false hw_uart_utxd;
  mkReg "UCR1"
    ""
    4 0x00000080 true true hw_uart_ucr1;
  mkReg "UCR2"
    ""
    4 0x00000084 true true hw_uart_ucr2;
  mkReg "UCR3"
    ""
    4 0x00000088 true true hw_uart_ucr3;
  mkReg "UCR4"
    ""
    4 0x0000008c true true hw_uart_ucr4;
  mkReg "UFCR"
    ""
    4 0x00000090 true true hw_uart_ufcr;
  mkReg "USR1"
    ""
    4 0x00000094 true true hw_uart_usr1;
  mkReg "USR2"
    ""
    4 0x00000098 true true hw_uart_usr2;
  mkReg "UESC"
    ""
    4 0x0000009c true true hw_uart_uesc;
  mkReg "UTIM"
    ""
    4 0x000000a0 true true hw_uart_utim;
  mkReg "UBIR"
    "This register can be written by both software and hardware."
    4 0x000000a4 true true hw_uart_ubir;
  mkReg "UBMR"
    "This register can be written by both software and hardware."
    4 0x000000a8 true true hw_uart_ubmr;
  mkReg "UBRC"
    ""
    4 0x000000ac true false hw_uart_ubrc;
  mkReg "ONEMS"
    "This register has been expanded from 16 bits to 24 bits."
    4 0x000000b0 true true hw_uart_onems;
  mkReg "UTS"
    ""
    4 0x000000b4 true true hw_uart_uts;
  mkReg "UMCR"
    ""
    4 0x000000b8 true true hw_uart_umcr
].

Definition hw_wdog_wcr : list field_t := [
  mkField "WDZST"
    "Watchdog Low Power."
    0 0 true true;
  mkField "WDBG"
    "Watchdog DEBUG Enable."
    1 1 true true;
  mkField "WDE"
    "Watchdog Enable."
    2 2 true true;
  mkField "WDT"
    "WDOG_B Time-out assertion."
    3 3 true true;
  mkField "SRS"
    "Software Reset Signal."
    4 4 true true;
  mkField "WDA"
    "WDOG_B assertion."
    5 5 true true;
  mkField "SRE"
    "adopt a new way to generate a more robust software reset."
    6 6 true true;
  mkField "WDW"
    "Watchdog Disable for Wait."
    7 7 true true;
  mkField "WT"
    "Watchdog Time-out Field."
    8 15 true true
].

Definition hw_wdog_wsr : list field_t := [
  mkField "WSR"
    "Watchdog Service Register."
    0 15 true true
].

Definition hw_wdog_wrsr : list field_t := [
  mkField "SFTW"
    "Software Reset."
    0 0 true false;
  mkField "TOUT"
    "Timeout."
    1 1 true false;
  mkField "POR"
    "Power On Reset."
    4 4 true false
].

Definition hw_wdog_wicr : list field_t := [
  mkField "WICT"
    "Watchdog Interrupt Count Time-out (WICT) field determines, how long before the counter time-out must the interrupt occur."
    0 7 true true;
  mkField "WTIS"
    "Watchdog TImer Interrupt Status bit will reflect the timer interrupt status, whether interrupt has occurred or not."
    14 14 true true;
  mkField "WIE"
    "Watchdog Timer Interrupt enable bit."
    15 15 true true
].

Definition hw_wdog_wmcr : list field_t := [
  mkField "PDE"
    "Power Down Enable bit."
    0 0 true true
].

Definition hw_wdog : list reg_t := [
  mkReg "WCR"
    "The Watchdog Control Register (WDOG_WCR) controls the WDOG operation."
    2 0 true true hw_wdog_wcr;
  mkReg "WSR"
    "When enabled, the WDOG requires that a service sequence be written to the Watchdog Service Register (WSR) to prevent the timeout condition."
    2 0x00000002 true true hw_wdog_wsr;
  mkReg "WRSR"
    "The WRSR is a read-only register that records the source of the output reset assertion."
    2 0x00000004 true false hw_wdog_wrsr;
  mkReg "WICR"
    "The WDOG_WICR controls the WDOG interrupt generation."
    2 0x00000006 true true hw_wdog_wicr;
  mkReg "WMCR"
    "WDOG_WMCR Controls the Power Down counter operation."
    2 0x00000008 true true hw_wdog_wmcr
].

Definition mx6ul_gpio : list module_t := [
  mkModule "GPIO1" 1 0x0209c000 hw_gpio;
  mkModule "GPIO2" 2 0x020a0000 hw_gpio;
  mkModule "GPIO3" 3 0x020a4000 hw_gpio;
  mkModule "GPIO4" 4 0x020a8000 hw_gpio;
  mkModule "GPIO5" 5 0x020ac000 hw_gpio
].

Definition mx6ul_uart : list module_t := [
  mkModule "UART1" 1 0x02020000 hw_uart;
  mkModule "UART2" 2 0x021e8000 hw_uart;
  mkModule "UART3" 3 0x021ec000 hw_uart;
  mkModule "UART4" 4 0x021f0000 hw_uart;
  mkModule "UART5" 5 0x021f4000 hw_uart;
  mkModule "UART6" 6 0x021fc000 hw_uart;
  mkModule "UART7" 7 0x02018000 hw_uart;
  mkModule "UART8" 8 0x02024000 hw_uart
].

Definition mx6ul_wdog : list module_t := [
  mkModule "WDOG1" 1 0x020bc000 hw_wdog;
  mkModule "WDOG2" 2 0x020c0000 hw_wdog;
  mkModule "WDOG3" 3 0x021e4000 hw_wdog
].

#[local] Open Scope Z_scope.

(** ** What memtool relies on *)
Definition wf_field (width : Z) (f : field_t) : bool :=
  (0 <=? f_lsb f) && (f_lsb f <=? f_msb f) && (f_msb f <? 8 * width).

Fixpoint distinct (l : list string) : bool :=
  match l with
  | [] => true
  | s :: l => negb (existsb (streq s) l) && distinct l
  end.
Fixpoint disjoint (l : list field_t) : bool :=
  match l with
  | [] => true
  | f :: l => forallb (fun g => (f_msb g <? f_lsb f) || (f_msb f <? f_lsb g)) l && disjoint l
  end.

(** A name without the separators of the command line. *)
Definition plain_name (s : string) : bool :=
  match cut "." s, cut "=" s, cut "*" s with
  | None, None, None => negb (strlen s =? 0)
  | _, _, _ => false
  end.

Definition wf_reg (mx : module_t) (r : reg_t) : bool :=
  existsb (Z.eqb (r_width r)) [1; 2; 4] &&
  (0 <? page_of (i32 (reg_addr mx r))) &&
  (in_page (i32 (reg_addr mx r)) + r_width r <=? MAP_SIZE) &&
  (Z.land (reg_addr mx r) (r_width r - 1) =? 0) &&
  forallb (wf_field (r_width r)) (r_fields r) && disjoint (r_fields r) &&
  distinct (map f_name (r_fields r)) && forallb plain_name (map f_name (r_fields r)).

Definition wf_module (mx : module_t) : bool :=
  plain_name (m_name mx) && forallb (wf_reg mx) (m_regs mx) &&
  distinct (map r_name (m_regs mx)) && forallb plain_name (map r_name (m_regs mx)).

Definition wf_table (ms : list module_t) : bool :=
  forallb wf_module ms && distinct (map m_name ms).

(** The tables are well formed.  Registers have a width of 1, 2 or 4 bytes,
    are aligned and stay in their page; fields are inside their register and
    disjoint; names are distinct and free of the separators of the command
    line. *)
Theorem mx6ul_tables_wf : wf_table (mx6ul_gpio ++ mx6ul_uart ++ mx6ul_wdog) = true.
Proof. vm_compute. reflexivity. Qed.
