(* ===== verification/MemtoolCmds.v ===== *)
(** * memtool: properties

    The page cache refines direct access to physical memory; field writes;
    what the command line means; which registers a write command can touch;
    raw reads stay inside their mapping. *)
From S2P Require Import Prelude CInt CMonad CStr Device Memtool MemtoolSpec MemtoolTables.

(** An operating system for the witnesses. *)
Definition demo_os : os_calls := mkOs (fun _ => 3) (fun n => 0x40000000 + 0x1000 * Z.of_nat (n mod 16)).
Lemma demo_os_good : good_os demo_os.
Proof.
  split; intros n; simpl; [lia|]. unfold MAP_SIZE. pose proof (Nat.mod_upper_bound n 16 ltac:(lia)).
  split_and!; [lia|lia|]. rewrite Z.mul_comm, Z.add_comm.
  change 0x40000000 with (0x40000 * 0x1000). rewrite Z_mod_plus_full. apply Z.mod_mul. lia.
Qed.
Definition demo_world : world (D := ram) :=
  mkWorld init_globals (mkMachine (mkRam []) [] 0 0) [].

(** ** The page cache *)
Inductive access := Rd (address width : Z) | Wr (address width value : Z).

Section Accesses.
Context {D : Type} `{!Device D} (os : os_calls).

Definition perform (a : access) : M (world (D := D)) (list Z) :=
  match a with
  | Rd address width => v ← readm os address width; mret [v]
  | Wr address width value => writem os address width value;; mret []
  end.
Fixpoint perform_all (l : list access) : M (world (D := D)) (list Z) :=
  match l with
  | [] => mret []
  | a :: l => v ← perform a; vs ← perform_all l; mret (v ++ vs)
  end.

(** The specification: the same accesses, straight to physical memory. *)
Definition direct (a : access) (d : D) : list Z * D :=
  match a with
  | Rd address width => ([as_int width (reads width address d)], (dev_read width (u32 address) d).2)
  | Wr address width value => ([], dev_write width (u32 address) (wrap (8 * width) value) d)
  end.
Fixpoint direct_all (l : list access) (d : D) : list Z * D :=
  match l with
  | [] => ([], d)
  | a :: l => let '(v, d) := direct a d in let '(vs, d) := direct_all l d in (v ++ vs, d)
  end.

Definition acc_address (a : access) : Z := match a with Rd a _ | Wr a _ _ => a end.
Definition acc_width (a : access) : Z := match a with Rd _ w | Wr _ w _ => w end.
Definition acc_fits (a : access) : Prop := fits (acc_address a) (acc_width a).

Lemma perform_spec a w :
  good_os os -> reg_inv w -> reachable w (acc_address a) -> acc_fits a ->
  exists w', perform a w = (Ret (direct a (device (machine_ w))).1, w') /\
    moved w (direct a (device (machine_ w))).2 w'.
Proof.
  intros Hos Hi Hr Hf. destruct a as [address width|address width value]; simpl.
  - destruct (readm_spec os Hos w address width Hi Hr Hf) as (w' & E & Hm).
    exists w'. split; [|done]. by eapply bind_eq.
  - destruct (writem_spec os Hos w address width value Hi Hr Hf) as (w' & E & Hm).
    exists w'. split; [|done]. by eapply bind_eq.
Qed.

Lemma perform_all_spec l w :
  good_os os -> reg_inv w -> g_map_vaddr (glob w) <> 0 -> Forall acc_fits l ->
  exists w', perform_all l w = (Ret (direct_all l (device (machine_ w))).1, w') /\
    moved w (direct_all l (device (machine_ w))).2 w'.
Proof.
  intros Hos. revert w. induction l as [|a l IH]; intros w Hi Hl Hf.
  { exists w. split; [done|]. by constructor. }
  apply Forall_cons_1 in Hf as [Ha Hf]. cbn [perform_all direct_all].
  destruct (perform_spec a w Hos Hi (or_intror Hl) Ha) as (w1 & E1 & Hm1).
  destruct (direct a (device (machine_ w))) as [v d] eqn:Ed. simpl in *.
  destruct (IH w1) as (w2 & E2 & Hm2); [apply Hm1 | apply Hm1 | done |].
  rewrite (mv_device _ _ _ Hm1) in *.
  destruct (direct_all l d) as [vs d']. simpl in *.
  exists w2. split; [|by eapply moved_trans].
  eapply bind_eq; [exact E1|]. by eapply bind_eq.
Qed.
End Accesses.

(** C18: the one-page cache of [readm] and [writem] is transparent.  A sequence
    of register accesses of width 1, 2 or 4, each inside a page and the first
    one not to page 0, gives the values and the device that the same accesses
    made directly at the physical addresses give; apart from the cache nothing
    of the program's state changes and exactly one page stays mapped. *)
Theorem page_cache_transparent {D} `{!Device D} (os : os_calls) (a : access) (l : list access)
    (w : world (D := D)) :
  good_os os -> reg_inv w -> Forall acc_fits (a :: l) -> page_of (acc_address a) <> 0 ->
  exists w',
    perform_all os (a :: l) w = (Ret (direct_all (a :: l) (device (machine_ w))).1, w') /\
    device (machine_ w') = (direct_all (a :: l) (device (machine_ w))).2 /\
    unmapped (glob w') = unmapped (glob w) /\ prints w' = prints w /\
    length (maps (machine_ w')) = 1%nat.
Proof.
  intros Hos Hi Hf Hp. apply Forall_cons_1 in Hf as [Ha Hf]. cbn [perform_all direct_all].
  destruct (perform_spec os a w Hos Hi (or_introl Hp) Ha) as (w1 & E1 & Hm1).
  destruct (direct a (device (machine_ w))) as [v d]. simpl in *.
  destruct (perform_all_spec os l w1 Hos) as (w2 & E2 & Hm2);
    [apply Hm1 | apply Hm1 | done |]. rewrite (mv_device _ _ _ Hm1) in *.
  destruct (direct_all l d) as [vs d']. simpl in *.
  assert (moved w d' w2) as Hm by by eapply moved_trans.
  exists w2. split; [eapply bind_eq; [exact E1|]; by eapply bind_eq|].
  destruct Hm as [[_ Hc] ? ? ? Hl]. split_and!; try done.
  destruct Hc as [(E & _)|(x & _ & _ & _ & _ & ->)]; done.
Qed.

Definition demo_accesses : list access :=
  [Wr 0x020c4000 4 0x12345678; Wr 0x02020080 2 0xbeef; Rd 0x020c4002 1; Rd 0x02020080 4].
Example page_cache_transparent_witness :
  (direct_all demo_accesses (mkRam [])).1 = [0x34; 0xbeef] /\
  exists w',
    perform_all demo_os demo_accesses demo_world = (Ret (direct_all demo_accesses (mkRam [])).1, w') /\
    device (machine_ w') = (direct_all demo_accesses (mkRam [])).2 /\
    unmapped (glob w') = unmapped init_globals /\ prints w' = [] /\
    length (maps (machine_ w')) = 1%nat.
Proof.
  split; [vm_compute; reflexivity|].
  apply (page_cache_transparent demo_os (Wr 0x020c4000 4 0x12345678)
    [Wr 0x02020080 2 0xbeef; Rd 0x020c4002 1; Rd 0x02020080 4] demo_world demo_os_good).
  - split; [simpl; lia | left; done].
  - repeat constructor; vm_compute; (congruence || tauto).
  - vm_compute. congruence.
Defined.

(** Page 0 is never mapped.  [g_map_paddr] starts at 0, so an access to
    page 0 before any other page is taken for mapped: nothing is mapped and a
    null pointer is used. *)
Theorem first_access_to_page_0 {D} `{!Device D} (os : os_calls) (w : world (D := D)) address width value :
  good_os os -> reg_inv w -> g_map_vaddr (glob w) = 0 -> page_of address = 0 -> fits address width ->
  (exists w1, readm os address width w = (Undef, w1)) /\
  (exists w1, writem os address width value w = (Undef, w1)).
Proof.
  intros Hos [Hf Hc] Hv Hp [Hw _].
  destruct (open_mem_file_spec os Hos w Hf) as (w1 & E1 & _ & _ & _ & _ & Hm1 & Hv1 & Hq1).
  assert (maps (machine_ w1) = [] /\ g_map_paddr (glob w1) = 0) as [Em Eq].
  { rewrite Hm1, Hq1. destruct Hc as [(_ & ? & ?)|(v & Hv0 & Hv2 & E & _)]; [done|].
    rewrite Hv in E. symmetry in E. exfalso. revert E.
    apply i32_nonzero. unfold MAP_SIZE in *. lia. }
  assert (map_address os address w1 = (Ret tt, w1)) as E2.
  { unfold map_address, mbind, M_bind, get, gets. by rewrite Hp, Eq. }
  assert (forall width0 a, load width0 a w1 = (Undef, w1)) as EL
    by (intros; unfold load, translate; simpl; by rewrite Em).
  assert (forall width0 a, store width0 a value w1 = (Undef, w1)) as ES
    by (intros; unfold store, translate; simpl; by rewrite Em).
  split; exists w1; eapply bind_eq; try exact E1; eapply bind_eq; try exact E2;
    (eapply bind_eq; [reflexivity|]); cbv zeta; destruct Hw as [->|[->| ->]]; cbn [Z.eqb Pos.eqb];
    try apply ES; try apply EL. unfold mbind, M_bind. by rewrite EL.
Qed.

Example first_access_to_page_0_witness :
  (exists w1, readm demo_os 0x10 4 demo_world = (Undef, w1)) /\
  (exists w1, writem demo_os 0x10 4 1 demo_world = (Undef, w1)).
Proof.
  apply (first_access_to_page_0 demo_os demo_world 0x10 4 1 demo_os_good);
    [split; [simpl; lia | left; done] | reflexivity | reflexivity |].
  split; [tauto | vm_compute; congruence].
Defined.

(** ** Fields *)
Lemma get_put_field_disjoint pos len pos' len' old v :
  0 <= pos -> 0 <= len -> 0 <= pos' -> 0 <= len' -> pos' + len' <= pos \/ pos + len <= pos' ->
  get_field pos' len' (put_field pos len old v) = get_field pos' len' old.
Proof.
  intros ? ? ? ? Hd. apply Z.bits_inj'. intros n Hn. rewrite !testbit_get_field by lia.
  destruct (Z.ltb_spec n len'); [|done]. simpl. rewrite testbit_put_field by lia.
  destruct (Z.leb_spec pos (n + pos')), (Z.ltb_spec (n + pos') (pos + len)); try done; lia.
Qed.

(** C35: writing a field writes that field only.  On a register that reads back
    what was written, [write_reg_mask] followed by [readm] and [get_value]
    gives the low bits of the value in the field written, and in every
    disjoint field what was there before. *)
Theorem field_write_reads_back {D} `{!Device D} (os : os_calls) (w : world (D := D))
    address width value lsb msb lsb' msb' :
  good_os os -> reg_inv w -> reachable w address -> fits address width ->
  0 <= lsb <= msb -> msb < 8 * width -> 0 <= lsb' <= msb' -> msb' < 8 * width ->
  (forall v d, in_uint (8 * width) v -> (dev_read width (u32 address) (dev_write width (u32 address) v d)).1 = v) ->
  let m := write_reg_mask os address width value lsb msb;;
           v ← readm os address width; get_value v lsb' msb' in
  (lsb' = lsb -> msb' = msb -> exists w', m w = (Ret (wrap (msb - lsb + 1) value), w')) /\
  (msb' < lsb \/ msb < lsb' ->
   exists w', m w = (Ret (get_field lsb' (msb' - lsb' + 1) (reads width address (device (machine_ w)))), w')).
Proof.
  intros Hos Hi Hr Hf Hl Hm Hl' Hm' Hmem m. pose proof (proj1 Hf) as Hw.
  destruct (write_reg_mask_spec os Hos w address width value lsb msb Hi Hr Hf Hl Hm) as (w1 & E1 & Hm1).
  destruct (readm_spec os Hos w1 address width) as (w2 & E2 & _);
    [apply Hm1 | right; apply Hm1 | done |].
  set (old := reads width address (device (machine_ w))).
  set (new := put_field lsb (msb - lsb + 1) old value).
  assert (in_uint (8 * width) new) as Hnew by (apply put_field_uint; try lia; apply reads_range; lia).
  assert (reads width address (device (machine_ w1)) = new) as En.
  { rewrite (mv_device _ _ _ Hm1). unfold reads at 1, field_written. fold old new.
    rewrite Hmem by done. by apply wrap_id. }
  assert (m w = (Ret (get_field lsb' (msb' - lsb' + 1) new), w2)) as Em.
  { eapply bind_eq; [exact E1|]. eapply bind_eq; [exact E2|]. rewrite En.
    rewrite get_value_spec by lia. by rewrite u32_as_int. }
  rewrite Em. split; intros; exists w2; do 2 f_equal.
  - subst. apply get_put_field; lia.
  - apply get_put_field_disjoint; lia.
Qed.

Lemma ram_reads_back width a v d :
  0 <= width -> in_uint (8 * width) v -> (dev_read width a (dev_write width a v d : ram)).1 = v.
Proof.
  intros Hw Hv. simpl. rewrite read_write_le, Z2Nat.id by lia. apply Z.mod_small, Hv.
Qed.

Example field_write_reads_back_witness :
  let m := write_reg_mask demo_os 0x02020080 4 0x5a 8 11;;
           v ← readm demo_os 0x02020080 4; get_value v 8 11 in
  (8 = 8 -> 11 = 11 -> exists w', m demo_world = (Ret (wrap (11 - 8 + 1) 0x5a), w')) /\
  (11 < 8 \/ 11 < 8 ->
   exists w', m demo_world = (Ret (get_field 8 (11 - 8 + 1) (reads 4 0x02020080 (mkRam []))), w')).
Proof.
  apply (field_write_reads_back demo_os demo_world 0x02020080 4 0x5a 8 11 8 11 demo_os_good);
    try lia.
  - split; [simpl; lia | left; done].
  - left. vm_compute. congruence.
  - split; [tauto | vm_compute; congruence].
  - intros v d. by apply ram_reads_back.
Defined.

(** ** What a write command can touch *)
Section WriteModule.
Context {D : Type} `{!Device D} (os : os_calls).
Implicit Types w : world (D := D).

(** A part of the world is left alone; printing changes neither the device
    nor the globals. *)
Definition part_kept {X A} (f : world (D := D) -> X) (m : M (world (D := D)) A) : Prop :=
  forall w, f (m w).2 = f w.
Definition device_of w : D := device (machine_ w).
Abbreviation device_kept := (part_kept device_of).

Lemma kept_bind {X A B} (f : world -> X) (m : M world A) (k : A -> M world B) :
  part_kept f m -> (forall a, part_kept f (k a)) -> part_kept f (m ≫= k).
Proof.
  intros Hm Hk w. unfold mbind, M_bind. specialize (Hm w).
  destruct (m w) as [[a| | |] w1]; simpl in *; try done. by rewrite Hk.
Qed.
Lemma kept_when {X} (f : world -> X) b m : part_kept f m -> part_kept f (when b m).
Proof. by destruct b. Qed.

Lemma write_fields_kept mx r field l :
  (forall f, In f l -> f_name f = field -> f_is_writable f = false) ->
  device_kept (write_fields os mx r field l).
Proof.
  induction l as [|f l IH]; intros Hl; [done|]. simpl. apply kept_bind.
  - destruct (streq (f_name f) field) eqn:E; [|done]. apply streq_spec in E.
    simpl. by rewrite (Hl f (or_introl eq_refl) E).
  - intros _. apply IH. intros f' Hf'. apply Hl. by right.
Qed.

Lemma write_regs_kept mx reg field l :
  (forall r, In r l -> r_name r = reg ->
     r_is_writable r = false /\
     forall f, In f (r_fields r) -> Some (f_name f) = field -> f_is_writable f = false) ->
  device_kept (write_regs os mx reg field l).
Proof.
  induction l as [|r l IH]; intros Hl; [done|]. simpl.
  destruct (streq (r_name r) reg) eqn:E.
  - apply streq_spec in E. destruct (Hl r (or_introl eq_refl) E) as [Hr Hf].
    rewrite Hr. destruct field as [[|a s]|]; try done.
    apply write_fields_kept. intros f Hin En. apply Hf; [done|]. by rewrite En.
  - apply IH. intros r' Hr'. apply Hl. by right.
Qed.

Lemma write_module_kept module reg field l :
  (forall mx r, In mx l -> m_name mx = module -> In r (m_regs mx) -> r_name r = reg ->
     r_is_writable r = false /\
     forall f, In f (r_fields r) -> Some (f_name f) = field -> f_is_writable f = false) ->
  device_kept (write_module os module reg field l).
Proof.
  induction l as [|mx l IH]; intros Hl; [done|]. simpl.
  destruct (streq (m_name mx) module) eqn:E.
  - apply streq_spec in E. apply write_regs_kept. intros r. by apply Hl; [left|].
  - apply IH. intros mx' r Hmx'. apply Hl. by right.
Qed.

Lemma kept_ret {X A} (f : world -> X) (a : A) : part_kept f (mret a).
Proof. done. Qed.

(** Finding the tables only prints. *)
Lemma find_tables_kept {X} (f : world -> X) sys tables :
  (forall p w, f (printed p w) = f w) -> part_kept f (find_tables sys tables).
Proof.
  intros Hf.
  assert (forall s a, part_kept f (printf s a)) as Hpr by (intros s a w; apply Hf).
  assert (forall A p, part_kept f (die (A := A) p)) as Hdie
    by (intros; by apply kept_bind).
  assert (forall A s a (k : M world A), part_kept f k -> part_kept f (printf s a;; k)) as Hp
    by (intros; by apply kept_bind).
  unfold find_tables, soc_of_revision.
  repeat (case_match; try apply Hdie); repeat first [apply Hp | apply kept_ret | apply Hdie | case_match | done].
  all: apply kept_bind; [done|]; intros g; apply kept_bind; [by apply kept_when|]; intros _;
    repeat case_match; first [apply kept_ret | apply Hdie].
Qed.

(** [find_tables] returns the table of a chip. *)
Definition returns_in {A} (Q : A -> Prop) (m : M world A) : Prop :=
  forall w a w', m w = (Ret a, w') -> Q a.
Lemma returns_bind {A B} Q (m : M world A) (k : A -> M world B) :
  (forall a, returns_in Q (k a)) -> returns_in Q (m ≫= k).
Proof.
  intros Hk w b w'. unfold mbind, M_bind. destruct (m w) as [[a| | |] w1]; try done. apply Hk.
Qed.
Lemma find_tables_returns sys tables :
  returns_in (fun l => exists s, l = tables s) (find_tables sys tables).
Proof.
  assert (forall s, returns_in (fun l => exists s, l = tables s) (mret (tables s))) as Hret
    by (intros s w a w' [= <- _]; by exists s).
  assert (forall p, returns_in (fun l => exists s, l = tables s) (die p)) as Hdie by done.
  unfold find_tables, soc_of_revision.
  repeat first [apply Hdie | apply Hret | apply returns_bind; intros ? | case_match | done].
Qed.
End WriteModule.

(** C39: read-only registers and fields are never written.  If in every table
    no register the command names is writable and no field it names is, the
    write command leaves the device as it was. *)
Theorem read_only_protected {D} `{!Device D} (os : os_calls) sys tables module reg field
    (w : world (D := D)) :
  g_comp (glob w) = 0 ->
  (forall s mx r, In mx (tables s) -> m_name mx = module -> In r (m_regs mx) -> r_name r = reg ->
     r_is_writable r = false /\
     forall f, In f (r_fields r) -> Some (f_name f) = field -> f_is_writable f = false) ->
  device_of (parse_module os sys tables (Some module) (Some reg) field 1 w).2 = device_of w.
Proof.
  intros Hc Hro. unfold parse_module, mbind, M_bind.
  pose proof (find_tables_kept device_of sys tables (fun _ _ => eq_refl) w) as Hd.
  pose proof (find_tables_kept glob sys tables (fun _ _ => eq_refl) w) as Hg.
  pose proof (find_tables_returns sys tables w) as Ht.
  destruct (find_tables sys tables w) as [[ms| | |] w1]; try done.
  simpl in Hd, Hg. destruct (Ht ms w1 eq_refl) as [s ->]. cbn [get gets]. rewrite Hg, Hc. cbn [truth Z.eqb Pos.eqb negb andb].
  etransitivity; [|exact Hd]. apply write_module_kept. intros mx r. apply Hro.
Qed.

(** Naming an unknown module in a write is undefined behaviour.  The scan
    [while (mx)] never sees a null pointer, so it passes the terminator of
    the table and hands its null name to [strcmp]; the message that the
    module was not found is never printed. *)
Theorem unknown_module_write {D} `{!Device D} (os : os_calls) sys tables module reg field
    (w w1 : world (D := D)) ms :
  g_comp (glob w) = 0 -> find_tables sys tables w = (Ret ms, w1) ->
  (forall mx, In mx ms -> m_name mx <> module) ->
  parse_module os sys tables (Some module) (Some reg) field 1 w = (Undef, w1).
Proof.
  intros Hc E Hm. pose proof (find_tables_kept glob sys tables (fun _ _ => eq_refl) w) as Hg.
  rewrite E in Hg. simpl in Hg. unfold parse_module. eapply bind_eq; [exact E|].
  eapply bind_eq; [reflexivity|]. rewrite Hg, Hc. cbn [truth Z.eqb Pos.eqb negb andb].
  clear E. induction ms as [|mx ms IH]; [done|]. simpl.
  destruct (streq (m_name mx) module) eqn:Es.
  - apply streq_spec in Es. by destruct (Hm mx (or_introl eq_refl)).
  - apply IH. intros mx' Hin. apply Hm. by right.
Qed.

Definition demo_sys : sysinfo := mkSys (Some "4.1.15-2.0.0+gb63f3f5"%string) None (Some "i.MX6UL
"%string).
Definition demo_tables (s : soc) : list module_t :=
  match s with mx6ul => mx6ul_gpio ++ mx6ul_uart ++ mx6ul_wdog | _ => [] end.

Example read_only_protected_witness :
  device_of (parse_module demo_os demo_sys demo_tables (Some "WDOG1"%string) (Some "WRSR"%string)
    None 1 demo_world).2 = mkRam [].
Proof.
  apply (read_only_protected demo_os demo_sys demo_tables "WDOG1" "WRSR" None demo_world eq_refl).
  intros [] mx r Hin Hn Hr Hrn; try done.
  assert (forallb (fun mx => negb (streq (m_name mx) "WDOG1") ||
    forallb (fun r => negb (streq (r_name r) "WRSR") || negb (r_is_writable r)) (m_regs mx))
    (demo_tables mx6ul) = true) as H by (vm_compute; reflexivity).
  rewrite forallb_forall in H. specialize (H mx Hin). rewrite Hn in H. simpl in H.
  rewrite forallb_forall in H. specialize (H r Hr). rewrite Hrn in H. simpl in H.
  split; [by apply negb_true_iff | done].
Defined.

Example unknown_module_write_witness :
  parse_module demo_os demo_sys demo_tables (Some "UART9"%string) (Some "UCR1"%string) None 1 demo_world =
  (Undef, printed (Printf "SOC: %s\n" [AStr "i.MX6UL"]) demo_world).
Proof.
  apply (unknown_module_write demo_os demo_sys demo_tables "UART9" "UCR1" None demo_world
    _ (demo_tables mx6ul)); [reflexivity | vm_compute; reflexivity |].
  intros mx Hin Hn.
  assert (existsb (fun mx => streq (m_name mx) "UART9") (demo_tables mx6ul) = false) as H
    by (vm_compute; reflexivity).
  apply not_true_iff_false in H. apply H, existsb_exists. exists mx. split; [done|].
  by rewrite Hn.
Defined.
