(* ===== verification/MemtoolMain.v ===== *)
(** * memtool: the command line, end to end

    What the arguments mean, and what [memtool MODULE.REG.FIELD=value] and
    [memtool <address> <count>] do. *)
From S2P Require Import Prelude CInt CMonad CStr Device Memtool MemtoolSpec MemtoolTables MemtoolCmds.

(** ** Arguments *)
Lemma cut_contains (a l r : string) : cut "." a = Some (l, r) -> contains a "." = true.
Proof.
  revert l r. induction a as [|c a IH]; intros l r; [done|].
  unfold contains. cbn [cut strstr starts_with].
  rewrite andb_true_r. destruct (Ascii.eqb_spec "." c) as [<-|Hc]; [done|].
  destruct (Ascii.eqb_spec c ".") as [->|_]; [done|].
  destruct (cut "." a) as [[l' r']|] eqn:E; [|done]. intros _.
  specialize (IH _ _ eq_refl). unfold contains in IH. by destruct (strstr a ".").
Qed.

(** An argument with a dot is none of the options. *)
Lemma cut_not_option (a o : string) p : cut "." a = Some p -> cut "." o = None -> streq a o = false.
Proof.
  intros Ha Ho. destruct (streq a o) eqn:E; [|done]. apply streq_spec in E. congruence.
Qed.

Section CommandLine.
Context {D : Type}.
Implicit Types w : world (D := D).

Definition with_glob (g : globals) w : world := mkWorld g (machine_ w) (prints w).

(** [memtool ARG]: not an option, not the program's own name. *)
Lemma parse_cmdline_dot prog a l r w :
  cut "." a = Some (l, r) -> contains a "memtool" = false -> g_comp (glob w) = 0 ->
  parse_cmdline [prog; a] w = parse_register a w.
Proof.
  intros Hc Hm Hg. unfold parse_cmdline. cbn [length Nat.ltb Nat.leb].
  eapply bind_eq; [reflexivity|]. eapply bind_eq.
  { unfold parse_size. rewrite !(cut_not_option a _ _ Hc) by done. reflexivity. }
  eapply bind_eq; [reflexivity|]. rewrite (cut_not_option a "-comp" _ Hc) by done.
  eapply bind_eq; [reflexivity|]. cbn [drop skip_self].
  assert ((strlen a =? 0) = false) as Hlen.
  { destruct a; [done|]. simpl. apply Z.eqb_neq.
    pose proof (strlen_nonneg a0). lia. }
  rewrite Hm, Hlen. eapply bind_eq; [reflexivity|]. eapply bind_eq; [reflexivity|].
  cbn [lookup list_lookup]. by rewrite Hg, (cut_contains a l r Hc).
Qed.

(** The globals of [MODULE.REG.FIELD=value]. *)
Definition field_command (M R F V : string) (g : globals) : globals :=
  set_g_value (strtoul 16 V) (set_g_is_write 1 (set_g_field (Some F) (set_g_reg (Some R)
    (set_g_module_match 1 (set_g_module (Some M) (set_g_is_reg 1 g)))))).
Definition field_arg (M R F V : string) : string :=
  M +:+ String "." (R +:+ String "." (F +:+ String "=" V)).

Lemma parse_cmdline_field prog M R F V w :
  cut "." M = None -> cut "." R = None -> cut "=" F = None ->
  contains (field_arg M R F V) "memtool" = false -> g_comp (glob w) = 0 ->
  parse_cmdline [prog; field_arg M R F V] w =
  (Ret 0, with_glob (field_command M R F V (glob w)) w).
Proof.
  intros HM HR HF Hm Hg.
  assert (cut "." (field_arg M R F V) = Some (M, R +:+ String "." (F +:+ String "=" V))) as Hc
    by by apply cut_app.
  rewrite (parse_cmdline_dot prog _ _ _ w Hc Hm Hg).
  unfold parse_register. rewrite Hc.
  eapply bind_eq; [reflexivity|]. do 2 (eapply bind_eq; [reflexivity|]).
  rewrite cut_app by done. eapply bind_eq; [reflexivity|].
  rewrite cut_app by done. done.
Qed.
End CommandLine.

(** ** Finding the chip *)
Definition kernel_at_least_3_10 (v : Z * Z * Z) : Prop :=
  let '(a, b, c) := v in KERN_VER 3 10 0 <= i32 (Z.shiftl a 16 + Z.shiftl b 8 + c).

(** The kernel reports a chip whose table is [ms]. *)
Record detects (sys : sysinfo) (tables : soc -> list module_t) (name : string) (ms : list module_t) : Prop := {
  dt_version : exists s v, uname_release sys = Some s /\ scan_version s = Some v /\ kernel_at_least_3_10 v;
  dt_name : exists s, soc_id sys = Some s /\ scan_word s = Some name;
  dt_short : strlen name < 255;
  dt_table : exists s, List.find (fun x => streq x.1 name) soc_by_name = Some (name, s) /\ ms = tables s;
}.

Lemma find_tables_detects {D} sys tables name ms (w : world (D := D)) :
  detects sys tables name ms -> g_comp (glob w) = 0 ->
  find_tables sys tables w = (Ret ms, printed (Printf "SOC: %s\n" [AStr name]) w).
Proof.
  intros [(rel & [[a b] c] & E1 & E2 & Hv) (txt & E3 & E4) Hs (s & E5 & ->)] Hc.
  unfold find_tables. rewrite E1, E2. cbv zeta. simpl in Hv.
  destruct (Z.ltb_spec (i32 (a ≪ 16 + b ≪ 8 + c)) (KERN_VER 3 10 0)); [lia|].
  rewrite E3, E4. destruct (Z.leb_spec 255 (strlen name)); [lia|].
  eapply bind_eq; [reflexivity|]. rewrite Hc. eapply bind_eq; [reflexivity|]. by rewrite E5.
Qed.

(** ** Finding the field *)
Definition named {A} (nm : A -> string) (s : string) (x : A) : bool := streq (nm x) s.

Section Write.
Context {D : Type} `{!Device D} (os : os_calls).
Implicit Types w : world (D := D).

Lemma write_module_find M R F ms mx w :
  List.find (named m_name M) ms = Some mx ->
  write_module os M R F ms w = write_regs os mx R F (m_regs mx) w.
Proof.
  induction ms as [|mx' ms IH]; [done|]. simpl. unfold named at 1.
  destruct (streq (m_name mx') M); [by intros [= ->]|]. apply IH.
Qed.

Lemma write_regs_find mx R c F l r w :
  List.find (named r_name R) l = Some r ->
  write_regs os mx R (Some (String c F)) l w = write_fields os mx r (String c F) (r_fields r) w.
Proof.
  induction l as [|r' l IH]; [done|]. simpl. unfold named at 1.
  destruct (streq (r_name r') R); [by intros [= ->]|]. apply IH.
Qed.

Lemma write_fields_none mx r F l w :
  existsb (streq F) (map f_name l) = false -> write_fields os mx r F l w = (Ret tt, w).
Proof.
  induction l as [|f l IH]; [done|]. simpl. intros [Hf Hl]%orb_false_iff.
  assert (streq (f_name f) F = false) as ->.
  { destruct (streq (f_name f) F) eqn:E; [|done]. apply streq_spec in E. subst.
    by rewrite streq_refl in Hf. }
  by apply IH.
Qed.

Lemma write_fields_find mx r F l f w w' :
  distinct (map f_name l) = true -> List.find (named f_name F) l = Some f ->
  f_is_writable f = true ->
  write_reg_mask os (i32 (reg_addr mx r)) (i32 (r_width r)) (i32 (g_value (glob w)))
    (i32 (f_lsb f)) (i32 (f_msb f)) w = (Ret tt, w') ->
  write_fields os mx r F l w = (Ret tt, w').
Proof.
  intros Hd Hf Hw E. induction l as [|f' l IH]; [done|].
  simpl in Hd, Hf. apply andb_true_iff in Hd as [Hd1 Hd]. simpl. unfold named in Hf at 1.
  destruct (streq (f_name f') F) eqn:En.
  - injection Hf as ->. eapply bind_eq.
    { cbn [when]. rewrite Hw. eapply bind_eq; [reflexivity|]. exact E. }
    apply streq_spec in En. subst F. apply write_fields_none. by apply negb_true_iff.
  - eapply bind_eq; [reflexivity|]. by apply IH.
Qed.
End Write.

Lemma i32_small z : 0 <= z < 2 ^ 31 -> i32 z = z.
Proof. intros. apply swrap_id; unfold in_sint; lia. Qed.

Lemma plain_name_cut s : plain_name s = true -> cut "." s = None /\ cut "=" s = None /\ s <> EmptyString.
Proof.
  unfold plain_name. repeat case_match; try done. intros Hs. split_and!; try done. by intros ->.
Qed.

Lemma find_named {A} (nm : A -> string) s l x :
  List.find (named nm s) l = Some x -> In x l /\ nm x = s.
Proof. intros [H1 H2]%List.find_some. split; [done|]. by apply streq_spec. Qed.

(** What [wf_module] gives for a field of a register. *)
Lemma wf_module_field mx r f :
  wf_module mx = true -> In r (m_regs mx) -> In f (r_fields r) ->
  fits (i32 (reg_addr mx r)) (r_width r) /\ page_of (i32 (reg_addr mx r)) <> 0 /\
  0 <= f_lsb f <= f_msb f /\ f_msb f < 8 * r_width r /\ r_width r <= 4 /\
  distinct (map f_name (r_fields r)) = true /\
  plain_name (m_name mx) = true /\ plain_name (r_name r) = true /\ plain_name (f_name f) = true.
Proof.
  unfold wf_module. rewrite !andb_true_iff, !forallb_forall. intros [[[Hm Hregs] _] Hrn] Hr Hf.
  specialize (Hregs r Hr). unfold wf_reg in Hregs. rewrite !andb_true_iff in Hregs.
  destruct Hregs as [[[[[[[Hw Hp] Hi] _] Hff] _] Hd] Hfn]. rewrite forallb_forall in Hff, Hfn.
  specialize (Hff f Hf). unfold wf_field in Hff. rewrite !andb_true_iff in Hff.
  assert (r_width r = 1 \/ r_width r = 2 \/ r_width r = 4) as Hw'.
  { apply existsb_exists in Hw as (x & Hx & E). apply Z.eqb_eq in E. rewrite E.
    destruct Hx as [<-|[<-|[<-|[]]]]; auto. }
  rewrite !Z.leb_le, Z.ltb_lt in *.
  pose proof (Hrn _ (in_map r_name _ _ Hr)) as Hrn'. pose proof (Hfn _ (in_map f_name _ _ Hf)) as Hfn'.
  split_and!; try done; lia.
Qed.

(** C5: [memtool MODULE.REG.FIELD=value] on a chip with well-formed tables
    writes the value's low bits to the field at the register's physical
    address, with one read and one write, and exits with 0.  The names are
    found by the command line's own syntax, the chip by what the kernel
    reports. *)
Theorem write_field_command {D} `{!Device D} (os : os_calls) sys tables name ms mx r f prog V (d : D) :
  good_os os -> detects sys tables name ms ->
  List.find (named m_name (m_name mx)) ms = Some mx -> wf_module mx = true ->
  List.find (named r_name (r_name r)) (m_regs mx) = Some r ->
  List.find (named f_name (f_name f)) (r_fields r) = Some f -> f_is_writable f = true ->
  contains (field_arg (m_name mx) (r_name r) (f_name f) V) "memtool" = false ->
  exists w',
    main os sys tables [prog; field_arg (m_name mx) (r_name r) (f_name f) V]
      (mkWorld init_globals (mkMachine d [] 0 0) []) = (Ret 0, w') /\
    device (machine_ w') =
      field_written (r_width r) (reg_addr mx r) (f_lsb f) (f_msb f) (i32 (strtoul 16 V)) d.
Proof.
  intros Hos Hdet Hmx Hwf Hr Hf Hw Hself. set (w := mkWorld _ _ _).
  destruct (find_named _ _ _ _ Hmx) as [_ _], (find_named _ _ _ _ Hr) as [Hinr _],
    (find_named _ _ _ _ Hf) as [Hinf _].
  destruct (wf_module_field mx r f Hwf Hinr Hinf) as (Hfit & Hpage & Hl & Hm & Hw4 & Hd & Pm & Pr & Pf).
  apply plain_name_cut in Pm as (Cm & _ & _), Pr as (Cr & _ & _), Pf as (_ & Cf & Hne).
  set (w1 := with_glob (field_command (m_name mx) (r_name r) (f_name f) V (glob w)) w).
  set (w2 := printed (Printf "SOC: %s\n" [AStr name]) w1).
  assert (0 < r_width r) by (destruct Hfit as [[->|[->| ->]] _]; lia).
  destruct (write_reg_mask_spec os Hos w2 (i32 (reg_addr mx r)) (r_width r) (i32 (strtoul 16 V))
    (f_lsb f) (f_msb f)) as (w3 & E3 & Hm3); try done.
  { by split; [|left]. } { by left. }
  exists w3. split.
  - unfold main. eapply bind_eq; [by apply parse_cmdline_field|]. cbn [truth Z.eqb negb].
    eapply bind_eq; [reflexivity|]. cbn [truth Z.eqb negb orb].
    change (g_is_reg (glob (with_glob _ _))) with 1. cbn [truth Z.eqb negb orb].
    eapply bind_eq; [|reflexivity]. unfold parse_module.
    eapply bind_eq; [by apply find_tables_detects|]. eapply bind_eq; [reflexivity|].
    cbn [truth Z.eqb negb andb glob printed with_glob field_command g_comp set_g_value
      set_g_is_write set_g_field set_g_reg set_g_module_match set_g_module set_g_is_reg g_is_write
      g_module g_reg g_field init_globals w].
    rewrite (write_module_find os _ _ _ _ mx) by done.
    destruct (f_name f) as [|c F] eqn:En; [done|].
    rewrite (write_regs_find os mx _ c F _ r) by done.
    eapply write_fields_find; try done. rewrite (i32_small (r_width r)), (i32_small (f_lsb f)), (i32_small (f_msb f)) by lia.
    exact E3.
  - destruct Hm3 as [_ _ _ -> _]. unfold field_written, reads.
    by rewrite !u32_i32, !(wrap_id 32 (reg_addr mx r)) by (by apply wrap_range).
Qed.

Definition wdog1 : module_t := mkModule "WDOG1" 1 0x020bc000 hw_wdog.
Definition wcr : reg_t := default (mkReg "" "" 0 0 false false []) (hw_wdog !! 0%nat).
Definition wcr_wt : field_t := default (mkField "" "" 0 0 false false) (hw_wdog_wcr !! 8%nat).

Lemma demo_detects : detects demo_sys demo_tables "i.MX6UL" (demo_tables mx6ul).
Proof.
  constructor.
  - exists "4.1.15-2.0.0+gb63f3f5"%string, (4, 1, 15). split_and!; [done|done|vm_compute; congruence].
  - by eexists.
  - vm_compute. congruence.
  - by exists mx6ul.
Qed.

Example write_field_command_witness :
  exists w',
    main demo_os demo_sys demo_tables ["memtool"; "WDOG1.WCR.WT=5a"]%string
      (mkWorld init_globals (mkMachine (mkRam [(0x020bc000, 0x30)]) [] 0 0) []) = (Ret 0, w') /\
    device (machine_ w') = field_written 2 (reg_addr wdog1 wcr) 8 15 (i32 (strtoul 16 "5a"))
      (mkRam [(0x020bc000, 0x30)]).
Proof.
  apply (write_field_command demo_os demo_sys demo_tables "i.MX6UL" (demo_tables mx6ul) wdog1 wcr wcr_wt
    "memtool" "5a" (mkRam [(0x020bc000, 0x30)]) demo_os_good demo_detects);
    vm_compute; reflexivity.
Defined.

(** ** Raw reads *)
Lemma land_not_ones x k :
  0 <= k <= 32 -> in_uint 32 x -> Z.land x (not32 (Z.ones k)) = x - x mod 2 ^ k.
Proof.
  intros Hk Hx. transitivity (Z.ldiff x (Z.ones k)).
  - apply Z.bits_inj'. intros n Hn. unfold not32.
    rewrite Z.land_spec, Z.ldiff_spec, testbit_wrap, Z.lnot_spec by lia.
    destruct (Z.ltb_spec n 32); [done|]. by rewrite (testbit_uint 32 x n).
  - rewrite Z.ldiff_ones_r, Z.shiftl_mul_pow2, Z.shiftr_div_pow2 by lia.
    pose proof (Z.div_mod x (2 ^ k) ltac:(lia)). lia.
Qed.

Section RawRead.
Context {D : Type} `{!Device D} (os : os_calls).
Implicit Types w : world (D := D).

(** The reference: [n] units read at physical addresses [p], [p + size], ...,
    a label with the address in front of every line of [per_line] units.
    Output newest first. *)
Fixpoint dump (size per_line : Z) (digits : string) (n : nat) (i p : Z) (d : D) (acc : list print)
    : list print * D :=
  match n with
  | O => (acc, d)
  | S n =>
      let '(v, d) := dev_read size p d in
      dump size per_line digits n (i + 1) (p + size) d
        (Printf digits [AInt (wrap (8 * size) v)] ::
         (if Z.rem i per_line =? 0 then [Printf "\n0x%08X: " [AInt p]] else []) ++ acc)
  end.

Definition line_of (size : Z) : Z := if size =? 1 then 16 else if size =? 2 then 8 else 4.
Definition digits_of (size : Z) : string :=
  if size =? 1 then " %02X" else if size =? 2 then " %04X" else " %08X".

(** The body of the loops of [read_mem]. *)
Definition read_unit (mem size per_line : Z) (digits : string) (i : Z) : M (world (D := D)) unit :=
  if 2 ^ 31 <=? i then undef else
  g ← get;
  when (Z.rem i per_line =? 0) (printf "\n0x%08X: " [AInt (g_paddr g)]);;
  v ← load size (u32 (mem + size * i));
  printf digits [AInt v];;
  g ← get;
  upd (set_g_paddr (u32 (g_paddr g + size))).

Lemma read_units_eq mem size per_line digits count :
  read_units mem size per_line digits count = for_m (Z.to_nat count) 0 (read_unit mem size per_line digits).
Proof. done. Qed.

Lemma read_loop size per_line digits v len pa n i p mem g m ps d acc :
  maps m = [mkMapping v len pa] -> device m = d -> ps = acc ->
  0 < size -> 0 <= i -> i + Z.of_nat n <= 2 ^ 31 ->
  v <= mem -> 0 <= v -> mem + size * (i + Z.of_nat n) <= v + len -> v + len < 2 ^ 32 ->
  p = pa + (mem - v) + size * i -> 0 <= pa -> pa + len <= 2 ^ 32 ->
  (n = O \/ g_paddr g = p) ->
  exists g' m', for_m n i (read_unit mem size per_line digits) (mkWorld g m ps) =
    (Ret tt, mkWorld g' m' (dump size per_line digits n i p d acc).1) /\
    device m' = (dump size per_line digits n i p d acc).2 /\ maps m' = maps m /\
    set_g_paddr 0 g' = set_g_paddr 0 g.
Proof.
  intros Hms Hd -> Hsz. revert i p g m d acc Hms Hd.
  induction n as [|n IH]; intros i p g m d acc Hms Hd Hi Hin Hmem Hv Hend Hlen Hp Hpa Hpl Hg.
  { exists g, m. by subst. }
  destruct Hg as [?|Hg]; [done|]. cbn [for_m dump].
  destruct (dev_read size p d) as [x d'] eqn:Ex.
  assert (translate (maps m) (u32 (mem + size * i)) size = Some p) as Ht.
  { rewrite Hms, wrap_id by (unfold in_uint; nia). rewrite translate_hd by nia. f_equal. lia. }
  set (acc' := (if Z.rem i per_line =? 0 then [Printf "\n0x%08X: " [AInt p]] else []) ++ acc).
  set (m1 := mkMachine d' (maps m) (opens m) (mmaps m)).
  assert (read_unit mem size per_line digits i (mkWorld g m acc) =
    (Ret tt, mkWorld (set_g_paddr (u32 (p + size)) g) m1 (Printf digits [AInt (wrap (8 * size) x)] :: acc'))) as E.
  { unfold read_unit. destruct (Z.leb_spec (2 ^ 31) i); [lia|].
    eapply bind_eq; [reflexivity|]. cbn [glob]. rewrite Hg.
    eapply (bind_eq _ _ _ tt (mkWorld g m acc')).
    { unfold acc'. by destruct (Z.rem i per_line =? 0). }
    eapply bind_eq; [apply (load_eq _ _ p); exact Ht|].
    change (device (mach (mkWorld g m acc'))) with (device m). rewrite Hd, Ex. cbn [fst snd].
    eapply bind_eq; [reflexivity|]. eapply bind_eq; [reflexivity|].
    unfold upd, modify. cbn. by rewrite Hg. }
  destruct (IH (i + 1) (p + size) (set_g_paddr (u32 (p + size)) g) m1 d'
    (Printf digits [AInt (wrap (8 * size) x)] :: acc')) as (g' & m' & E' & Hd' & Hm' & Hg'); try done; try lia.
  { destruct n; [by left|right]. simpl. apply wrap_id. unfold in_uint. nia. }
  exists g', m'. split_and!; try done. eapply bind_eq; [exact E|]. exact E'.
Qed.
End RawRead.

(** The unit-aligned address [main] starts at. *)
Definition start_of (g : globals) : Z := Z.land (g_paddr g) (not32 (g_size g - 1)).

Lemma aligned_size_covers g :
  in_uint 32 (g_paddr g) -> 0 <= g_count g -> 0 < g_size g ->
  g_paddr g mod 4096 + g_count g * g_size g + 4095 < 2 ^ 32 ->
  aligned_paddr g = g_paddr g - g_paddr g mod 4096 /\
  g_paddr g mod 4096 + g_count g * g_size g <= aligned_size g.
Proof.
  intros Hp Hc Hs Hb. pose proof (Z.mod_pos_bound (g_paddr g) 4096 ltac:(lia)).
  assert (aligned_paddr g = g_paddr g - g_paddr g mod 4096) as Ea.
  { unfold aligned_paddr. change (4096 - 1) with (Z.ones 12). by rewrite land_not_ones. }
  split; [done|]. unfold aligned_size. rewrite Ea.
  rewrite (wrap_id 32 (g_count g * g_size g)) by (unfold in_uint; nia).
  replace (g_paddr g - (g_paddr g - g_paddr g mod 4096)) with (g_paddr g mod 4096) by lia.
  rewrite !(wrap_id 32) by (repeat rewrite wrap_id; unfold in_uint; nia).
  change (4096 - 1) with (Z.ones 12). rewrite land_not_ones by (unfold in_uint; lia || nia).
  pose proof (Z.mod_pos_bound (g_paddr g mod 4096 + g_count g * g_size g + 4096 - 1) (2 ^ 12) ltac:(lia)).
  lia.
Qed.

(** C38: raw reads.  With an access size of 1, 2 or 4 and no overflow of the
    mapped length, [memtool] maps enough: every unit is read inside the
    mapping, at the aligned address onwards, printed under the physical
    address it was read from, and the mapping is removed again. *)
Theorem raw_read_in_bounds {D} `{!Device D} (os : os_calls) (g : globals) (d : D) :
  (g_size g = 1 \/ g_size g = 2 \/ g_size g = 4) -> g_is_write g = 0 -> g_map_vaddr g = 0 ->
  in_uint 32 (g_paddr g) -> 0 <= g_count g <= 2 ^ 31 ->
  let p := start_of g in
  let g1 := set_g_paddr p g in
  let header := Printf "Reading 0x%X count starting at address 0x%08X\n" [AInt (g_count g); AInt p] in
  p mod 4096 + g_count g * g_size g + 4095 < 2 ^ 32 ->
  0 <= o_open os 0 -> 0 < o_mmap os 0 -> o_mmap os 0 + aligned_size g1 < 2 ^ 32 ->
  o_mmap os 0 <> map_failed -> aligned_paddr g1 + aligned_size g1 <= 2 ^ 32 ->
  exists w',
    raw_access os (mkWorld g (mkMachine d [] 0 0) []) = (Ret 0, w') /\
    let '(out, d') := dump (g_size g) (line_of (g_size g)) (digits_of (g_size g))
                        (Z.to_nat (g_count g)) 0 p d [header] in
    prints w' = Printf "\n\n" [] :: out /\ device (machine_ w') = d' /\ maps (machine_ w') = [].
Proof.
  intros Hs Hw Hmv Hp32 Hc p g1 header Hb Ho Hv0 Hv Hvf Hpa.
  assert (in_uint 32 p) as Hp by (apply land_uint_l; [lia|done]).
  destruct (aligned_size_covers g1 Hp) as [Ea Hcov]; try (simpl; lia).
  change (g_paddr g1) with p in *. change (g_count g1) with (g_count g) in *.
  change (g_size g1) with (g_size g) in *.
  set (v := o_mmap os 0) in *. set (len := aligned_size g1) in *.
  pose proof (Z.mod_pos_bound p 4096 ltac:(lia)) as Hmod.
  pose proof (Z.mod_le p 4096 ltac:(apply Hp) ltac:(lia)) as Hle.
  set (m1 := mkMachine d [mkMapping v len (aligned_paddr g1)] 1 1).
  destruct (read_loop (g_size g) (line_of (g_size g)) (digits_of (g_size g)) v len (aligned_paddr g1)
    (Z.to_nat (g_count g)) 0 p (v + p mod 4096) g1 m1 [header] d [header])
    as (g' & m' & E & Hd' & Hm' & Hg'); try done; try (rewrite ?Z2Nat.id by lia; rewrite ?Ea; lia).
  { by right. }
  destruct (dump _ _ _ _ _ _ _ _) as [out d'] eqn:Ed. simpl in E, Hd'.
  assert (g_map_vaddr g' = 0) as Hmv'.
  { change (g_map_vaddr (set_g_paddr 0 g') = 0). by rewrite Hg'. }
  exists (mkWorld g' (mkMachine d' [] (opens m') (mmaps m')) (Printf "\n\n" [] :: out)).
  split; [|done].
  assert (read_mem (v + p mod 4096) (g_count g) (g_size g) (mkWorld g1 m1 [header]) =
    (Ret tt, mkWorld g' m' (Printf "\n\n" [] :: out))) as Er.
  { unfold read_mem. destruct Hs as [Es|[Es|Es]]; rewrite Es in *; cbn [Z.eqb Pos.eqb];
      (eapply bind_eq; [rewrite read_units_eq; exact E | reflexivity]). }
  unfold raw_access. eapply bind_eq; [reflexivity|]. eapply bind_eq; [reflexivity|].
  cbn [glob]. change (set_g_paddr (Z.land _ _) g) with g1.
  change (g_is_write g1) with (g_is_write g). rewrite Hw. cbn [truth Z.eqb negb].
  eapply bind_eq; [reflexivity|].
  eapply (bind_eq _ _ _ (o_open os 0) (mkWorld g1 (mkMachine d [] 1 0) [header])); [reflexivity|].
  destruct (Z.ltb_spec (o_open os 0) 0); [lia|].
  eapply (bind_eq _ _ _ v (mkWorld g1 m1 [header])).
  { unfold mmap. cbn. destruct (Z.ltb_spec (o_open os 0) 0); [lia|].
    fold v. destruct (Z.eqb_spec v map_failed); [done|].
    fold len. rewrite (wrap_id 32 (aligned_paddr g1)); [done|]. unfold in_uint in *. lia. }
  destruct (Z.eqb_spec v 0); [lia|].
  change (g_paddr g1) with p. rewrite Ea at 1.
  replace (p - (p - p mod 4096)) with (p mod 4096) by lia.
  cbv zeta. rewrite (wrap_id 32 (v + _)) by (unfold in_uint; fold v len in Hv; lia).
  eapply bind_eq; [exact Er|].
  set (w' := mkWorld g' (mkMachine d' [] (opens m') (mmaps m')) _).
  eapply (bind_eq _ _ _ tt w').
  { unfold munmap. cbn. fold len. rewrite Hm', Hd'. cbn. by rewrite !Z.eqb_refl. }
  eapply bind_eq; [reflexivity|]. cbn [glob w']. rewrite Hmv'. reflexivity.
Qed.

Example raw_read_in_bounds_witness :
  let g := set_g_count 5 (set_g_paddr 0x020c4ffe (set_g_size 2 init_globals)) in
  exists w',
    raw_access demo_os (mkWorld g (mkMachine (mkRam [(0x020c5000, 0x77)]) [] 0 0) []) = (Ret 0, w') /\
    let '(out, d') := dump 2 8 " %04X" 5 0 0x020c4ffe (mkRam [(0x020c5000, 0x77)])
        [Printf "Reading 0x%X count starting at address 0x%08X\n" [AInt 5; AInt 0x020c4ffe]] in
    prints w' = Printf "\n\n" [] :: out /\ device (machine_ w') = d' /\ maps (machine_ w') = [].
Proof.
  apply (raw_read_in_bounds demo_os (set_g_count 5 (set_g_paddr 0x020c4ffe (set_g_size 2 init_globals)))
    (mkRam [(0x020c5000, 0x77)])); try (vm_compute; congruence); try (unfold in_uint; simpl; lia);
    vm_compute; try (split; congruence); tauto.
Defined.

(** ** Addresses on the command line *)
(** The address forms.  After a size option, [A N] reads [N] units at [A]
    and [A=V] writes [V] there (all hexadecimal), for an address argument that
    is not 0, has no dot and does not name the program; every other global
    keeps its value. *)
Theorem parse_cmdline_address {D} (w : world (D := D)) prog o size A N l V :
  In (o, size) [("-8", 1); ("-16", 2); ("-32", 4)]%string ->
  g_comp (glob w) = 0 -> g_is_write (glob w) = 0 -> g_is_reg (glob w) = 0 ->
  A <> EmptyString -> contains A "." = false -> contains A "memtool" = false ->
  streq A "-comp" = false -> strtoul 16 A <> 0 ->
  let g := set_g_paddr (strtoul 16 A) (set_g_size size (glob w)) in
  (cut "=" A = None -> first_is "=" N = false ->
   parse_cmdline [prog; o; A; N] w =
     (Ret 0, printed (Printf "E\n" []) (with_glob (set_g_count (strtoul 16 N) g) w))) /\
  (cut "=" A = Some (l, V) -> V <> EmptyString ->
   parse_cmdline [prog; o; A] w =
     (Ret 0, with_glob (set_g_value (strtoul 16 V) (set_g_is_write 1 g)) w)).
Proof.
  intros Ho Hc Hw Hr Hne Hdot Hself Hcomp Haddr g.
  assert ((strlen A =? 0) = false) as Hlen by (apply Z.eqb_neq; pose proof (strlen_pos A Hne); lia).
  assert (forall rest, parse_cmdline (prog :: o :: A :: rest) w =
    parse_address (prog :: o :: A :: rest) 2 A (with_glob (set_g_size size (glob w)) w)) as Hargs.
  { intros rest. unfold parse_cmdline. cbn [length Nat.ltb Nat.leb].
    eapply bind_eq; [reflexivity|].
    eapply (bind_eq _ _ _ 2%nat (with_glob (set_g_size size (glob w)) w)).
    { destruct Ho as [[= <- <-]|[[= <- <-]|[[= <- <-]|[]]]]; reflexivity. }
    eapply bind_eq; [reflexivity|]. rewrite Hcomp.
    eapply bind_eq; [reflexivity|]. cbn [drop skip_self]. rewrite Hself, Hlen. cbn [orb].
    eapply bind_eq; [reflexivity|]. eapply bind_eq; [reflexivity|].
    cbn [lookup list_lookup glob with_glob g_comp set_g_size]. by rewrite Hc, Hdot. }
  split; intros HA HN; rewrite Hargs; unfold parse_address;
    (eapply bind_eq; [reflexivity|]); (eapply bind_eq; [reflexivity|]); fold g;
    cbn [glob g_paddr set_g_paddr with_glob];
    (destruct (truth (strtoul 16 A)) eqn:Et;
      [|unfold truth in Et; by apply negb_false_iff, Z.eqb_eq in Et]); rewrite HA; cbn [negb].
  - unfold parse_second. cbn [lookup list_lookup]. rewrite HN.
    eapply bind_eq; [reflexivity|]. cbn [glob g_is_write set_g_paddr set_g_size with_glob].
    rewrite Hw. reflexivity.
  - eapply bind_eq; [reflexivity|].
    destruct (Z.ltb_spec 0 (strlen V)); [reflexivity|].
    pose proof (strlen_pos V HN). lia.
Qed.

Example parse_cmdline_address_witness :
  let g := set_g_paddr 0x020c4000 (set_g_size 2 init_globals) in
  (cut "=" "20c4000" = None -> first_is "=" "10" = false ->
   parse_cmdline ["memtool"; "-16"; "20c4000"; "10"]%string demo_world =
     (Ret 0, printed (Printf "E\n" []) (with_glob (set_g_count (strtoul 16 "10") g) demo_world))) /\
  (cut "=" "20c4000" = Some ("", "1")%string -> "1"%string <> EmptyString ->
   parse_cmdline ["memtool"; "-16"; "20c4000"]%string demo_world =
     (Ret 0, with_glob (set_g_value 1 (set_g_is_write 1 g)) demo_world)).
Proof.
  apply (parse_cmdline_address demo_world "memtool" "-16" 2 "20c4000" "10" "" "1");
    try reflexivity; [right; left; reflexivity | congruence | vm_compute; congruence].
Defined.
