(* ===== verification/LtpPattern.v ===== *)
(** * Pattern buffers (test/mxc_pmic_test/lib/pattern.c)

    [pattern_fill] fills a buffer with a pattern repeated end to end, starting
    [patshift] bytes into it, by doubling what is already there;
    [pattern_check] verifies a buffer the same way. *)
From S2P Require Import Prelude CInt CMonad.

(** ** Memory

    The world is the caller's buffer, a list of bytes.  Accesses outside an
    array and overlapping copies are undefined. *)
Definition sub (a : list Z) (src n : Z) : option (list Z) :=
  if (0 <=? src) && (0 <=? n) && (src + n <=? zlen a)
  then Some (take (Z.to_nat n) (drop (Z.to_nat src) a)) else None.
Definition write_at (dst : nat) (bs buf : list Z) : list Z :=
  take dst buf ++ bs ++ drop (dst + length bs) buf.

Definition put (dst : Z) (bs : list Z) : M (list Z) unit :=
  buf ← gets id;
  if (0 <=? dst) && (dst + zlen bs <=? zlen buf)
  then modify (write_at (Z.to_nat dst) bs) else undef.

(** [memcpy(buf + dst, pat + src, n)] and [memcpy(buf + dst, buf, n)]. *)
Definition copy_pat (pat : list Z) (dst src n : Z) : M (list Z) unit :=
  match sub pat src n with Some bs => put dst bs | None => undef end.
Definition copy_start (dst n : Z) : M (list Z) unit :=
  buf ← gets id;
  if dst <? n then undef else
  match sub buf 0 n with Some bs => put dst bs | None => undef end.

(** [memcmp(buf + at, pat + src, n) == 0] and [memcmp(buf, buf + at, n) == 0]. *)
Definition same_pat (pat : list Z) (at_ src n : Z) : M (list Z) bool :=
  buf ← gets id;
  match sub buf at_ n, sub pat src n with
  | Some a, Some b => mret (bool_decide (a = b))
  | _, _ => undef
  end.
Definition same_start (at_ n : Z) : M (list Z) bool :=
  buf ← gets id;
  match sub buf 0 n, sub buf at_ n with
  | Some a, Some b => mret (bool_decide (a = b))
  | _, _ => undef
  end.

(** ** The functions

    [cp] is [buf + ncopied] throughout the loops. *)
Fixpoint fill_rest (fuel : nat) (buflen ncopied nleft : Z) : M (list Z) Z :=
  match fuel with
  | O => no_fuel
  | S fuel =>
      if ncopied <? buflen then
        let trans := if ncopied <? nleft then ncopied else nleft in
        copy_start ncopied trans;;
        fill_rest fuel buflen (ncopied + trans) (nleft - trans)
      else mret 0
  end.

Definition pattern_fill (fuel : nat) (buflen : Z) (pat : list Z) (patlen patshift : Z) : M (list Z) Z :=
  let patshift := if truth patlen then Z.rem patshift patlen else patshift in
  let trans := patlen - patshift in
  if buflen <? trans then copy_pat pat 0 patshift buflen;; mret 0 else
  copy_pat pat 0 patshift trans;;
  let nleft := buflen - trans in
  let cp := trans in
  if 0 <? patshift then
    let trans := patshift in
    if nleft <? trans then copy_pat pat cp 0 nleft;; mret 0 else
    copy_pat pat cp 0 trans;;
    fill_rest fuel buflen (cp + trans) (nleft - trans)
  else fill_rest fuel buflen cp nleft.

Fixpoint check_rest (fuel : nat) (buflen ncmp nleft : Z) : M (list Z) Z :=
  match fuel with
  | O => no_fuel
  | S fuel =>
      if ncmp <? buflen then
        let nb := if ncmp <? nleft then ncmp else nleft in
        same ← same_start ncmp nb;
        if negb same then mret (-1) else
        check_rest fuel buflen (ncmp + nb) (nleft - nb)
      else mret 0
  end.

Definition pattern_check (fuel : nat) (buflen : Z) (pat : list Z) (patlen patshift : Z) : M (list Z) Z :=
  let patshift := if truth patlen then Z.rem patshift patlen else patshift in
  let nb := patlen - patshift in
  if buflen <? nb then
    same ← same_pat pat 0 patshift buflen; mret (if same : bool then 0 else -1)
  else
    same ← same_pat pat 0 patshift nb;
    if negb same then mret (-1) else
    let nleft := buflen - nb in
    let cp := nb in
    if 0 <? patshift then
      let nb := patshift in
      if nleft <? nb then
        same ← same_pat pat cp 0 nleft; mret (if same : bool then 0 else -1)
      else
        same ← same_pat pat cp 0 nb;
        if negb same then mret (-1) else
        check_rest fuel buflen (cp + nb) (nleft - nb)
    else check_rest fuel buflen cp nleft.

(** ** The repeated pattern *)
Definition pat_byte (pat : list Z) (s i : Z) : Z :=
  default 0 (pat !! Z.to_nat ((i + s) mod zlen pat)).
Definition run (pat : list Z) (s : Z) (i : Z) (n : nat) : list Z :=
  map (fun k => pat_byte pat s (i + Z.of_nat k)) (seq 0 n).

Lemma run_length pat s i n : length (run pat s i n) = n.
Proof. unfold run. by rewrite length_map, length_seq. Qed.

Lemma run_lookup pat s i n k :
  (k < n)%nat -> run pat s i n !! k = Some (pat_byte pat s (i + Z.of_nat k)).
Proof.
  intros Hk. unfold run. rewrite list_lookup_fmap, lookup_seq_lt by lia. done.
Qed.

Lemma run_app pat s i n m : run pat s i (n + m) = run pat s i n ++ run pat s (i + Z.of_nat n) m.
Proof.
  apply list_eq. intros k. destruct (decide (k < n)%nat).
  - rewrite lookup_app_l by (rewrite run_length; lia). by rewrite !run_lookup by lia.
  - rewrite lookup_app_r, run_length by (rewrite run_length; lia).
    destruct (decide (k < n + m)%nat).
    + rewrite !run_lookup by lia. do 2 f_equal. lia.
    + rewrite !lookup_ge_None_2 by (rewrite run_length; lia). done.
Qed.

(** Whole periods do not matter. *)
Lemma run_period pat s i j n : (j mod zlen pat = 0) -> run pat s (i + j) n = run pat s i n.
Proof.
  intros Hj. apply map_ext. intros k. unfold pat_byte.
  replace (i + j + Z.of_nat k + s) with (i + Z.of_nat k + s + j) by lia.
  rewrite <- Zplus_mod_idemp_r, Hj. by rewrite Z.add_0_r.
Qed.

(** A piece of the pattern is a piece of the repetition. *)
Lemma sub_run pat s i src n :
  (i + s) mod zlen pat = src -> 0 <= n -> src + n <= zlen pat -> pat <> [] ->
  sub pat src n = Some (run pat s i (Z.to_nat n)).
Proof.
  intros Hsrc Hn Hle Hne. assert (0 < zlen pat) by (destruct pat; simpl; [done|lia]).
  pose proof (Z.mod_pos_bound (i + s) (zlen pat) ltac:(lia)).
  unfold sub. assert ((0 <=? src) && (0 <=? n) && (src + n <=? zlen pat) = true) as ->
    by (rewrite !andb_true_iff, !Z.leb_le; lia).
  f_equal. apply list_eq. intros k. destruct (decide (k < Z.to_nat n)%nat).
  - rewrite run_lookup by lia. rewrite lookup_take_lt, lookup_drop by lia.
    destruct (lookup_lt_is_Some_2 pat (Z.to_nat src + k) ltac:(lia)) as [x Hx].
    rewrite Hx. unfold pat_byte. replace (i + Z.of_nat k + s) with (i + s + Z.of_nat k) by lia.
    rewrite <- Zplus_mod_idemp_l, Hsrc, Z.mod_small by lia.
    replace (Z.to_nat (src + Z.of_nat k)) with (Z.to_nat src + k)%nat by lia. by rewrite Hx.
  - rewrite !lookup_ge_None_2; [done| |]; rewrite ?run_length, ?length_take; lia.
Qed.

(** ** The loops *)
#[local] Coercion Z.of_nat : nat >-> Z.
Section Pattern.
Context (pat : list Z) (s : Z).
Hypothesis Hpat : pat <> [].

(** The first [i] bytes of the buffer are the pattern. *)
Definition filled (i : nat) (buf : list Z) : Prop := take i buf = run pat s 0 i.

#[export] Instance filled_dec i buf : Decision (filled i buf).
Proof. unfold filled. apply _. Defined.

Lemma pat_pos : 0 < zlen pat.
Proof. destruct pat; [done|]. cbn [length]. lia. Qed.

Lemma filled_step i n buf :
  filled i buf -> (filled (i + n) buf <-> take n (drop i buf) = run pat s i n).
Proof.
  unfold filled. intros Hi. rewrite <- take_take_drop, Hi, run_app. split; [|by intros ->].
  intros E. apply app_inj_1 in E as [_ ->]; [|done]. by rewrite Z.add_0_l.
Qed.
Lemma filled_le i j buf : filled j buf -> (i <= j)%nat -> filled i buf.
Proof.
  unfold filled. intros Hj Hle.
  replace (take i buf) with (take i (take j buf)) by (by rewrite take_take, Nat.min_l).
  rewrite Hj. replace j with (i + (j - i))%nat by lia. rewrite run_app.
  by rewrite take_app_le, take_ge by (rewrite run_length; lia).
Qed.

Lemma wp_put U (i : nat) bs buf (Q : unit -> list Z -> Prop) E :
  filled i buf -> (i + length bs <= length buf)%nat -> bs = run pat s i (length bs) ->
  (forall buf', length buf' = length buf -> filled (i + length bs) buf' -> Q tt buf') ->
  wpu U (put i bs) Q E buf.
Proof.
  intros Hi Hlen Hbs HQ. unfold put. apply wp_bind, wp_gets. unfold id.
  replace (_ && _) with true by (symmetry; rewrite andb_true_iff, !Z.leb_le; lia).
  apply wp_modify. unfold write_at. rewrite Nat2Z.id. apply HQ.
  - rewrite !length_app, length_take, length_drop. lia.
  - unfold filled in *. rewrite Hi, app_assoc, take_app_le by (rewrite length_app, run_length; lia).
    rewrite take_ge by (rewrite length_app, run_length; lia). by rewrite run_app, Z.add_0_l, <- Hbs.
Qed.

Lemma sub_filled (i n : nat) buf :
  filled i buf -> (n <= i)%nat -> (i <= length buf)%nat -> sub buf 0 (Z.of_nat n) = Some (run pat s 0 n).
Proof.
  intros Hi Hn Hl. unfold sub. replace (_ && _) with true by (symmetry; rewrite !andb_true_iff, !Z.leb_le; lia).
  rewrite Nat2Z.id. f_equal. by eapply filled_le.
Qed.
Lemma sub_inside (i n : nat) buf :
  (i + n <= length buf)%nat -> sub buf (Z.of_nat i) (Z.of_nat n) = Some (take n (drop i buf)).
Proof.
  intros Hl. unfold sub. replace (_ && _) with true by (symmetry; rewrite !andb_true_iff, !Z.leb_le; lia).
  by rewrite !Nat2Z.id.
Qed.

(** Filling by doubling: what is copied so far is whole periods, until the end. *)
Lemma fill_rest_wp fuel i buf E :
  filled i buf -> (0 < i <= length buf)%nat -> Z.of_nat i mod zlen pat = 0 \/ i = length buf ->
  (length buf - i < fuel)%nat ->
  wp (fill_rest fuel (zlen buf) i (zlen buf - i))
    (fun r buf' => r = 0 /\ length buf' = length buf /\ filled (length buf) buf') E buf.
Proof.
  revert i buf. induction fuel as [|fuel IH]; intros i buf Hi Hb Hper Hf; [lia|]. simpl.
  destruct (Z.ltb_spec i (zlen buf)) as [Hlt|].
  2: { apply wp_ret. by replace i with (length buf) in * by lia. }
  destruct Hper as [Hper|]; [|lia].
  set (n := Nat.min i (length buf - i)). replace (if _ <? _ then _ else _) with (Z.of_nat n)
    by (destruct (Z.ltb_spec i (zlen buf - i)); lia).
  unfold copy_start. apply wp_bind, wp_bind, wp_gets. destruct (Z.ltb_spec i n); [lia|]. unfold id.
  rewrite (sub_filled i n buf) by (done || lia).
  apply wp_put; [done|rewrite run_length; lia| |].
  - rewrite run_length. symmetry. rewrite <- (Z.add_0_l (Z.of_nat i)). by apply run_period.
  - rewrite run_length. intros buf' Hl Hi'. rewrite <- Hl. replace (i + n) with (Z.of_nat (i + n)) by lia.
    replace (zlen buf' - i - n) with (zlen buf' - (i + n)%nat) by lia.
    apply IH; [done|lia| |lia]. destruct (decide (i <= length buf - i)%nat).
    + left. replace (Z.of_nat (i + n)) with (Z.of_nat i * 2) by lia.
      rewrite Z.mul_mod, Hper, Z.mul_0_l by (pose proof pat_pos; lia). by rewrite Z.mod_0_l by (pose proof pat_pos; lia).
    + right. lia.
Qed.

Lemma check_rest_wp fuel i buf E :
  filled i buf -> (0 < i <= length buf)%nat -> Z.of_nat i mod zlen pat = 0 \/ i = length buf ->
  (length buf - i < fuel)%nat ->
  wp (check_rest fuel (zlen buf) i (zlen buf - i))
    (fun r buf' => buf' = buf /\ r = if decide (filled (length buf) buf) then 0 else -1) E buf.
Proof.
  revert i. induction fuel as [|fuel IH]; intros i Hi Hb Hper Hf; [lia|]. simpl.
  destruct (Z.ltb_spec i (zlen buf)) as [Hlt|].
  2: { replace i with (length buf) in * by lia. apply wp_ret. split; [done|]. by rewrite decide_True. }
  destruct Hper as [Hper|]; [|lia].
  set (n := Nat.min i (length buf - i)). replace (if _ <? _ then _ else _) with (Z.of_nat n)
    by (destruct (Z.ltb_spec i (zlen buf - i)); lia).
  unfold same_start. apply wp_bind, wp_bind, wp_gets. unfold id.
  rewrite (sub_filled i n buf), (sub_inside i n buf) by (done || lia).
  apply wp_ret. assert (run pat s 0 n = run pat s i n) as ->
    by (symmetry; rewrite <- (Z.add_0_l (Z.of_nat i)); by apply run_period).
  pose proof (filled_step i n buf Hi) as Hstep.
  case_bool_decide as Heq; cbn [negb].
  - replace (i + n) with (Z.of_nat (i + n)) by lia.
    replace (zlen buf - i - n) with (zlen buf - (i + n)%nat) by lia.
    apply IH; [by apply Hstep|lia| |lia]. destruct (decide (i <= length buf - i)%nat).
    + left. replace (Z.of_nat (i + n)) with (Z.of_nat i * 2) by lia.
      rewrite Z.mul_mod, Hper, Z.mul_0_l by (pose proof pat_pos; lia). by rewrite Z.mod_0_l by (pose proof pat_pos; lia).
    + right. lia.
  - apply wp_ret. split; [done|]. rewrite decide_False; [done|]. intros Hall. apply Heq.
    symmetry. apply Hstep. eapply filled_le; [done|lia].
Qed.

(** ** The first period *)
Lemma sub_pat (i n : nat) (src : Z) :
  (i + s) mod zlen pat = src -> src + n <= zlen pat -> sub pat src n = Some (run pat s i n).
Proof. intros Hsrc Hn. rewrite (sub_run pat s i src n) by (done || lia). by rewrite Nat2Z.id. Qed.

Lemma copy_pat_wp U (i n : nat) (d src m : Z) buf (Q : unit -> list Z -> Prop) E :
  d = i -> m = n -> filled i buf -> (i + s) mod zlen pat = src -> src + n <= zlen pat ->
  (i + n <= length buf)%nat ->
  (forall buf', length buf' = length buf -> filled (i + n) buf' -> Q tt buf') ->
  wpu U (copy_pat pat d src m) Q E buf.
Proof.
  intros -> -> Hi Hsrc Hn Hl HQ. unfold copy_pat. rewrite (sub_pat i n src) by done.
  apply wp_put; rewrite ?run_length; auto.
Qed.

Lemma same_pat_wp U (i n : nat) (d src m : Z) buf (Q : bool -> list Z -> Prop) E :
  d = i -> m = n -> filled i buf -> (i + s) mod zlen pat = src -> src + n <= zlen pat ->
  (i + n <= length buf)%nat ->
  Q (bool_decide (filled (i + n) buf)) buf -> wpu U (same_pat pat d src m) Q E buf.
Proof.
  intros -> -> Hi Hsrc Hn Hl HQ. unfold same_pat. apply wp_bind, wp_gets. unfold id.
  rewrite (sub_pat i n src), sub_inside by done. apply wp_ret.
  by rewrite (bool_decide_ext _ (filled (i + n) buf)) by (symmetry; by apply filled_step).
Qed.

Definition shift : Z := s mod zlen pat.
Lemma shift_range : 0 <= shift < zlen pat.
Proof. apply Z.mod_pos_bound, pat_pos. Qed.
Lemma shift_turn (i : nat) : zlen pat - shift = i -> (i + s) mod zlen pat = 0.
Proof.
  intros <-. unfold shift. pose proof pat_pos.
  replace (zlen pat - s mod zlen pat + s) with (zlen pat + (s - s mod zlen pat)) by lia.
  rewrite (Z.mod_eq s) by lia. replace (zlen pat + _) with ((1 + s / zlen pat) * zlen pat) by lia.
  apply Z.mod_mul. lia.
Qed.

Lemma pattern_fill_wp fuel buf E :
  0 <= s -> (length buf < fuel)%nat ->
  wp (pattern_fill fuel (zlen buf) pat (zlen pat) s)
    (fun r buf' => r = 0 /\ length buf' = length buf /\ filled (length buf) buf') E buf.
Proof.
  intros Hs Hf. pose proof pat_pos. pose proof shift_range. unfold pattern_fill.
  rewrite truth_true by lia. rewrite Z.rem_mod_nonneg by lia. fold shift. cbv zeta.
  set (t := Z.to_nat (zlen pat - shift)). replace (zlen pat - shift) with (Z.of_nat t) by lia.
  assert (filled 0 buf) as Hnone by done.
  destruct (Z.ltb_spec (zlen buf) t).
  { apply wp_bind, (copy_pat_wp _ 0 (length buf)); [done|done|done|done|lia|lia|]. intros buf' Hl Hi. by apply wp_ret. }
  apply wp_bind, (copy_pat_wp _ 0 t); [done|done|done|done|lia|lia|]. intros b1 Hl1 Hf1. simpl in Hf1.
  destruct (Z.ltb_spec 0 shift).
  - set (m := Z.to_nat shift). replace shift with (Z.of_nat m) by lia. rewrite <- Hl1.
    destruct (Z.ltb_spec (zlen b1 - t) m).
    + set (k := Z.to_nat (zlen b1 - t)). replace (zlen b1 - t) with (Z.of_nat k) by lia.
      apply wp_bind, (copy_pat_wp _ t k); [done|done|done|apply shift_turn; lia|lia|lia|]. intros b2 Hl2 Hf2. apply wp_ret.
      split; [done|]. split; [done|]. by replace (length b1) with (t + k)%nat by lia.
    + apply wp_bind, (copy_pat_wp _ t m); [done|done|done|apply shift_turn; lia|lia|lia|]. intros b2 Hl2 Hf2. rewrite <- Hl2.
      replace (t + m) with (Z.of_nat (t + m)) by lia.
      replace (zlen b2 - t - m) with (zlen b2 - (t + m)%nat) by lia.
      apply fill_rest_wp; [done|lia| |lia]. left. replace (Z.of_nat (t + m)) with (zlen pat) by lia.
      apply Z.mod_same. lia.
  - rewrite <- Hl1. apply fill_rest_wp; [done|lia| |lia]. left.
    replace (Z.of_nat t) with (zlen pat) by lia. apply Z.mod_same. lia.
Qed.

Lemma pattern_check_wp fuel buf E :
  0 <= s -> (length buf < fuel)%nat ->
  wp (pattern_check fuel (zlen buf) pat (zlen pat) s)
    (fun r buf' => buf' = buf /\ r = if decide (filled (length buf) buf) then 0 else -1) E buf.
Proof.
  intros Hs Hf. pose proof pat_pos. pose proof shift_range. unfold pattern_check.
  rewrite truth_true by lia. rewrite Z.rem_mod_nonneg by lia. fold shift. cbv zeta.
  set (t := Z.to_nat (zlen pat - shift)). replace (zlen pat - shift) with (Z.of_nat t) by lia.
  assert (filled 0 buf) as Hnone by done.
  assert (forall i, (i <= length buf)%nat -> ~ filled i buf ->
    (if decide (filled (length buf) buf) then 0 else -1) = -1) as Hbad.
  { intros i Hi Hn. rewrite decide_False; [done|]. intros Hall. apply Hn. by eapply filled_le. }
  destruct (Z.ltb_spec (zlen buf) t).
  { apply wp_bind, (same_pat_wp _ 0 (length buf)); [done|done|done|done|lia|lia|]. apply wp_ret. split; [done|].
    simpl. by rewrite <- (decide_bool_decide (filled (length buf) buf)). }
  apply wp_bind, (same_pat_wp _ 0 t); [done|done|done|done|lia|lia|]. simpl. case_bool_decide as Hf1; cbn [negb].
  2: { apply wp_ret. split; [done|]. symmetry. by apply (Hbad t); [lia|]. }
  destruct (Z.ltb_spec 0 shift).
  - set (m := Z.to_nat shift). replace shift with (Z.of_nat m) by lia.
    destruct (Z.ltb_spec (zlen buf - t) m).
    + set (k := Z.to_nat (zlen buf - t)). replace (zlen buf - t) with (Z.of_nat k) by lia.
      apply wp_bind, (same_pat_wp _ t k); [done|done|done|apply shift_turn; lia|lia|lia|]. apply wp_ret. split; [done|].
      replace (t + k)%nat with (length buf) by lia.
      by rewrite <- (decide_bool_decide (filled (length buf) buf)).
    + apply wp_bind, (same_pat_wp _ t m); [done|done|done|apply shift_turn; lia|lia|lia|].
      case_bool_decide as Hf2; cbn [negb].
      2: { apply wp_ret. split; [done|]. symmetry. by apply (Hbad (t + m)%nat); [lia|]. }
      replace (t + m) with (Z.of_nat (t + m)) by lia.
      replace (zlen buf - t - m) with (zlen buf - (t + m)%nat) by lia.
      apply check_rest_wp; [done|lia| |lia]. left. replace (Z.of_nat (t + m)) with (zlen pat) by lia.
      apply Z.mod_same. lia.
  - apply check_rest_wp; [done|lia| |lia]. left.
    replace (Z.of_nat t) with (zlen pat) by lia. apply Z.mod_same. lia.
Qed.
End Pattern.

(** C20: Filling a buffer from any starting point of a pattern leaves at each
    place [i] the byte of the pattern at [i + patshift] modulo its length,
    and checking it then succeeds; and the check of any buffer says 0 exactly
    if the buffer is that repetition, -1 otherwise, without changing it.  Both
    end within as many turns as the buffer has bytes. *)
Theorem pattern_fill_check pat patshift fuel buf E :
  pat <> [] -> 0 <= patshift -> (length buf < fuel)%nat ->
  wp (r ← pattern_fill fuel (zlen buf) pat (zlen pat) patshift;
      c ← pattern_check fuel (zlen buf) pat (zlen pat) patshift; mret (r, c))
    (fun rc buf' => rc = (0, 0) /\ buf' = run pat patshift 0 (length buf)) E buf /\
  wp (pattern_check fuel (zlen buf) pat (zlen pat) patshift)
    (fun c buf' => buf' = buf /\ (c = 0 <-> buf = run pat patshift 0 (length buf)) /\ (c = 0 \/ c = -1)) E buf.
Proof.
  intros Hp Hs Hf. split.
  - apply wp_bind. eapply wp_mono; [by apply (pattern_fill_wp pat patshift Hp)|].
    intros r b (-> & Hl & Hfill). rewrite <- Hl in Hfill |- *.
    apply wp_bind. eapply wp_mono; [apply (pattern_check_wp pat patshift Hp); lia|].
    intros c b' [-> ->]. apply wp_ret. rewrite decide_True by done. split; [done|].
    unfold filled in Hfill. by rewrite firstn_all in Hfill.
  - eapply wp_mono; [by apply (pattern_check_wp pat patshift Hp)|]. intros c b' [-> ->].
    split; [done|]. assert (filled pat patshift (length buf) buf <-> buf = run pat patshift 0 (length buf)) as <-
      by (unfold filled; by rewrite firstn_all).
    case_decide; (split; [by split|auto]).
Qed.

Lemma pattern_fill_check_witness :
  wp (r ← pattern_fill 8 7 [1; 2; 3] 3 4; c ← pattern_check 8 7 [1; 2; 3] 3 4; mret (r, c))
    (fun rc buf' => rc = (0, 0) /\ buf' = [2; 3; 1; 2; 3; 1; 2]) (fun _ _ => False) (replicate 7 0).
Proof. apply (pattern_fill_check [1; 2; 3] 4 8 (replicate 7 0) (fun _ _ => False)); [done|lia|by vm_compute; lia]. Defined.

(** With an empty pattern the loop does not move on. *)
Lemma put_nothing buf : put 0 [] buf = (Ret tt, buf).
Proof.
  unfold put, gets, modify, mbind, M_bind, id. cbn [length].
  destruct (Z.leb_spec (0 + Z.of_nat 0) (zlen buf)); [done|lia].
Qed.
Lemma sub_nothing a : sub a 0 0 = Some [].
Proof.
  unfold sub. destruct (Z.leb_spec (0 + 0) (zlen a)); [done|lia].
Qed.
Lemma empty_pattern_loops fuel buf :
  buf <> [] -> (pattern_fill fuel (zlen buf) [] 0 0 buf).1 = NoFuel.
Proof.
  intros Hb. assert (0 < zlen buf) as Hl by (destruct buf; [done|cbn [length]; lia]).
  assert (forall f, (fill_rest f (zlen buf) 0 (zlen buf) buf).1 = NoFuel) as Hloop.
  { induction f as [|f IH]; [done|]. cbn [fill_rest]. apply Z.ltb_lt in Hl as Hb0. rewrite Hb0.
    unfold copy_start, gets, mbind, M_bind, id. change (0 <? 0) with false. cbv iota.
    rewrite sub_nothing, put_nothing. change (0 + 0) with 0. by rewrite Z.sub_0_r. }
  unfold pattern_fill, copy_pat. change (truth 0) with false. cbv iota zeta. change (0 - 0) with 0.
  destruct (Z.ltb_spec (zlen buf) 0); [lia|]. rewrite sub_nothing. unfold mbind, M_bind.
  rewrite put_nothing. change (0 <? 0) with false. cbv iota. rewrite Z.sub_0_r. apply Hloop.
Qed.
