(* ===== verification/CStruct.v ===== *)
(** * C structures in memory

    A structure that is copied to or from another address space is its bytes:
    a list of [Z] below 256 of the size of the type.  A structure type is the
    list of its members with their offsets, computed from the declaration by
    the rules of the ARM EABI (natural alignment, 32-bit pointers, enums of
    four bytes), so padding, arrays and unions are where the compiler puts
    them.  [get] and [set] are the member accesses. *)
From S2P Require Import Prelude CInt.

(** ** Little-endian numbers *)
Fixpoint to_le (n : nat) (v : Z) : list Z :=
  match n with
  | O => []
  | S n => v mod 256 :: to_le n (v / 256)
  end.
Fixpoint of_le (l : list Z) : Z :=
  match l with
  | [] => 0
  | b :: l => b + 256 * of_le l
  end.

Definition is_byte (b : Z) : Prop := 0 <= b < 256.

Lemma length_to_le n v : length (to_le n v) = n.
Proof. revert v. induction n; intros; simpl; auto. Qed.

Lemma of_to_le n v : of_le (to_le n v) = wrap (8 * Z.of_nat n) v.
Proof.
  revert v. induction n as [|n IH]; intros v; [unfold wrap; simpl; by rewrite Z.mod_1_r|].
  simpl. rewrite IH. unfold wrap. replace (8 * Z.of_nat (S n)) with (8 + 8 * Z.of_nat n) by lia.
  rewrite Z.pow_add_r, Z.rem_mul_r by lia. done.
Qed.

Lemma to_le_bytes n v : Forall is_byte (to_le n v).
Proof.
  revert v. induction n; intros; simpl; constructor; auto.
  apply Z.mod_pos_bound. lia.
Qed.

Lemma to_of_le l : Forall is_byte l -> to_le (length l) (of_le l) = l.
Proof.
  induction 1 as [|b l Hb Hl IH]; [done|]. simpl. unfold is_byte in Hb.
  rewrite (Z.mul_comm 256), Z.mod_add, Z.mod_small, Z.div_add, Z.div_small by lia.
  rewrite Z.add_0_l. by rewrite IH.
Qed.

Lemma of_le_range l : Forall is_byte l -> in_uint (8 * zlen l) (of_le l).
Proof.
  unfold in_uint, is_byte. induction 1 as [|b l Hb Hl IH]; simpl length; simpl of_le; [simpl; lia|].
  replace (8 * Z.of_nat (S (length l))) with (8 + 8 * zlen l) by lia.
  rewrite Z.pow_add_r by lia. lia.
Qed.

(** ** Types and layouts *)
Inductive ctype := Tu8 | Tu32 | Tint | Tenum | Tulong | Tptr | Tu64 | Tarr (n : nat) (t : ctype).
Fixpoint tsize (t : ctype) : nat :=
  match t with
  | Tu8 => 1
  | Tu64 => 8
  | Tarr n t => n * tsize t
  | _ => 4
  end.
Fixpoint talign (t : ctype) : nat :=
  match t with
  | Tu8 => 1
  | Tu64 => 8
  | Tarr _ t => talign t
  | _ => 4
  end.
Definition align_up (o a : nat) : nat := ((o + (a - 1)) / a * a)%nat.

Record member := mkMember { m_name : string; m_off : nat; m_size : nat }.
Record cstruct := mkStruct { members : list member; sizeof : nat }.

Fixpoint place (o : nat) (l : list (string * ctype)) : list member * nat :=
  match l with
  | [] => ([], o)
  | (x, t) :: l =>
      let a := align_up o (talign t) in
      let '(ms, e) := place (a + tsize t)%nat l in
      (mkMember x a (tsize t) :: ms, e)
  end.
Definition max_align (l : list (string * ctype)) : nat :=
  fold_right (fun '(_, t) a => Nat.max (talign t) a) 1%nat l.
Definition struct (l : list (string * ctype)) : cstruct :=
  let '(ms, e) := place 0 l in mkStruct ms (align_up e (max_align l)).

(** Members placed over each other: the arms of a union at offset [o]. *)
Definition union_at (o : nat) (arms : list (list (string * ctype))) : list member * nat :=
  (concat (map (fun a => fst (place o a)) arms),
   fold_right Nat.max o (map (fun a => snd (place o a)) arms)).

Fixpoint find_member (x : string) (ms : list member) : option member :=
  match ms with
  | [] => None
  | m :: ms => if String.eqb x (m_name m) then Some m else find_member x ms
  end.
Definition member_of (s : cstruct) (x : string) : member :=
  default (mkMember x 0 0) (find_member x (members s)).

(** ** Member access *)
Definition peek (o n : nat) (b : list Z) : list Z := take n (drop o b).
Definition poke (o : nat) (v b : list Z) : list Z := take o b ++ v ++ drop (o + length v) b.

Definition get_bytes (s : cstruct) (x : string) (b : list Z) : list Z :=
  peek (m_off (member_of s x)) (m_size (member_of s x)) b.
Definition get (s : cstruct) (x : string) (b : list Z) : Z := of_le (get_bytes s x b).
Definition set_bytes (s : cstruct) (x : string) (v b : list Z) : list Z :=
  poke (m_off (member_of s x)) v b.
Definition set (s : cstruct) (x : string) (v : Z) (b : list Z) : list Z :=
  set_bytes s x (to_le (m_size (member_of s x)) v) b.

(** A member of [s] lies inside it; two members do not overlap. *)
Definition inside (s : cstruct) (x : string) : bool :=
  let m := member_of s x in
  (0 <? m_size m)%nat && (m_off m + m_size m <=? sizeof s)%nat.
Definition apart (s : cstruct) (x y : string) : bool :=
  let a := member_of s x in let b := member_of s y in
  (m_off a + m_size a <=? m_off b)%nat || (m_off b + m_size b <=? m_off a)%nat.

Section Access.
Implicit Types (b v : list Z) (o n : nat).

Lemma length_peek o n b : (o + n <= length b)%nat -> length (peek o n b) = n.
Proof. intros. unfold peek. rewrite length_take, length_drop. lia. Qed.

Lemma length_poke o v b : (o + length v <= length b)%nat -> length (poke o v b) = length b.
Proof. intros. unfold poke. rewrite !length_app, length_take, length_drop. lia. Qed.

Lemma peek_poke_eq o v b :
  (o + length v <= length b)%nat -> peek o (length v) (poke o v b) = v.
Proof.
  intros. unfold peek, poke. rewrite drop_app_ge by (rewrite length_take; lia).
  rewrite length_take, Nat.min_l by lia. rewrite Nat.sub_diag, drop_0.
  rewrite take_app_le by lia. apply take_ge. lia.
Qed.

Lemma lookup_poke o v b i :
  (o + length v <= length b)%nat -> (i < o \/ o + length v <= i)%nat ->
  poke o v b !! i = b !! i.
Proof.
  intros Hl Hi. unfold poke. destruct Hi as [Hi|Hi].
  - rewrite lookup_app_l by (rewrite length_take; lia). apply lookup_take_lt. lia.
  - rewrite lookup_app_r by (rewrite length_take; lia). rewrite length_take, Nat.min_l by lia.
    rewrite lookup_app_r by lia. rewrite lookup_drop. f_equal. lia.
Qed.

Lemma lookup_peek o n b i : (i < n)%nat -> peek o n b !! i = b !! (o + i)%nat.
Proof. intros. unfold peek. by rewrite lookup_take_lt, lookup_drop. Qed.

Lemma peek_ext o n b b' :
  (forall i, (i < n)%nat -> b !! (o + i)%nat = b' !! (o + i)%nat) -> peek o n b = peek o n b'.
Proof.
  intros H. apply list_eq. intros i. destruct (decide (i < n)%nat) as [Hi|Hi].
  - rewrite !lookup_peek by done. by apply H.
  - unfold peek. by rewrite !lookup_take_ge by lia.
Qed.

Lemma lookup_poke_in o v b i :
  (o + length v <= length b)%nat -> (i < length v)%nat -> poke o v b !! (o + i)%nat = v !! i.
Proof.
  intros Hl Hi. unfold poke. rewrite lookup_app_r by (rewrite length_take; lia).
  rewrite length_take_le by lia. replace (o + i - o)%nat with i by lia. by apply lookup_app_l.
Qed.
Lemma peek_poke_ne o n o' v b :
  (o' + length v <= length b)%nat ->
  (o + n <= o' \/ o' + length v <= o)%nat ->
  peek o n (poke o' v b) = peek o n b.
Proof. intros Hl Hd. apply peek_ext. intros i Hi. apply lookup_poke; lia. Qed.

Lemma poke_bytes o v b :
  Forall is_byte v -> Forall is_byte b -> Forall is_byte (poke o v b).
Proof.
  intros. unfold poke. apply Forall_app. split; [by apply Forall_take|].
  apply Forall_app. split; [done|by apply Forall_drop].
Qed.

Lemma inside_spec s x :
  inside s x = true ->
  (0 < m_size (member_of s x) /\
   m_off (member_of s x) + m_size (member_of s x) <= sizeof s)%nat.
Proof. unfold inside. rewrite andb_true_iff, Nat.ltb_lt, Nat.leb_le. done. Qed.

Lemma length_set s x (v : Z) b :
  inside s x = true -> length b = sizeof s -> length (set s x v b) = sizeof s.
Proof.
  intros [_ Hi]%inside_spec Hb. unfold set, set_bytes.
  rewrite length_poke; rewrite ?length_to_le; lia.
Qed.

Lemma get_set_eq s x (v : Z) b :
  inside s x = true -> length b = sizeof s ->
  get s x (set s x v b) = wrap (8 * Z.of_nat (m_size (member_of s x))) v.
Proof.
  intros [_ Hi]%inside_spec Hb. unfold get, get_bytes, set, set_bytes.
  rewrite <- (length_to_le (m_size (member_of s x)) v) at 1.
  rewrite peek_poke_eq by (rewrite length_to_le; lia). apply of_to_le.
Qed.

Lemma get_bytes_set_ne s x y (v : Z) b :
  inside s x = true -> length b = sizeof s -> apart s x y = true ->
  get_bytes s y (set s x v b) = get_bytes s y b.
Proof.
  intros [_ Hi]%inside_spec Hb Ha. unfold apart in Ha.
  rewrite orb_true_iff, !Nat.leb_le in Ha. unfold get_bytes, set, set_bytes.
  apply peek_poke_ne; rewrite length_to_le; lia.
Qed.

Lemma get_set_ne s x y (v : Z) b :
  inside s x = true -> length b = sizeof s -> apart s x y = true ->
  get s y (set s x v b) = get s y b.
Proof. intros. unfold get. by rewrite get_bytes_set_ne. Qed.

Lemma length_set_bytes s x v b :
  inside s x = true -> length v = m_size (member_of s x) -> length b = sizeof s ->
  length (set_bytes s x v b) = sizeof s.
Proof. intros [_ Hi]%inside_spec Hv Hb. unfold set_bytes. rewrite length_poke; lia. Qed.
Lemma get_bytes_set_bytes_eq s x v b :
  inside s x = true -> length v = m_size (member_of s x) -> length b = sizeof s ->
  get_bytes s x (set_bytes s x v b) = v.
Proof.
  intros [_ Hi]%inside_spec Hv Hb. unfold get_bytes, set_bytes. rewrite <- Hv. apply peek_poke_eq. lia.
Qed.
Lemma get_set_bytes_ne s x y v b :
  inside s x = true -> length v = m_size (member_of s x) -> length b = sizeof s -> apart s x y = true ->
  get s y (set_bytes s x v b) = get s y b.
Proof.
  intros [_ Hi]%inside_spec Hv Hb Ha. unfold apart in Ha. rewrite orb_true_iff, !Nat.leb_le in Ha.
  unfold get, get_bytes, set_bytes. f_equal. apply peek_poke_ne; lia.
Qed.

Lemma set_is_bytes s x (v : Z) b : Forall is_byte b -> Forall is_byte (set s x v b).
Proof. intros. apply poke_bytes; [apply to_le_bytes|done]. Qed.

Lemma get_range s x b :
  Forall is_byte b -> inside s x = true -> length b = sizeof s ->
  in_uint (8 * Z.of_nat (m_size (member_of s x))) (get s x b).
Proof.
  intros Hb [_ Hi]%inside_spec Hl.
  assert (length (get_bytes s x b) = m_size (member_of s x)) as E by (apply length_peek; lia).
  rewrite <- E. apply of_le_range. unfold get_bytes, peek. by apply Forall_take, Forall_drop.
Qed.
End Access.

#[global] Arguments peek : simpl never.
#[global] Arguments poke : simpl never.
#[global] Arguments get : simpl never.
#[global] Arguments set : simpl never.
#[global] Arguments sizeof : simpl never.

(** The side conditions of the access lemmas are facts of the layout. *)
Ltac layout_done := first [assumption | reflexivity | vm_compute; reflexivity].
Ltac struct_simpl :=
  repeat first
    [ rewrite length_set by layout_done
    | rewrite get_set_eq by (first [layout_done | rewrite ?length_set by layout_done; layout_done])
    | rewrite get_set_ne by (first [layout_done | rewrite ?length_set by layout_done; layout_done])
    | rewrite get_bytes_set_ne
        by (first [layout_done | rewrite ?length_set by layout_done; layout_done]) ].

(** ** Ioctl numbers

    [_IO], [_IOR], [_IOW] and [_IOWR] of [<linux/ioctl.h>]: direction, size,
    type and number in one 32-bit word. *)
Definition _IOC_NONE : Z := 0.
Definition _IOC_WRITE : Z := 1.
Definition _IOC_READ : Z := 2.
Definition _IOC (dir type nr size : Z) : Z :=
  Z.lor (Z.shiftl dir 30) (Z.lor (Z.shiftl type 8) (Z.lor nr (Z.shiftl size 16))).
Definition _IO (type nr : Z) : Z := _IOC _IOC_NONE type nr 0.
Definition _IOW (type nr : Z) (size : nat) : Z := _IOC _IOC_WRITE type nr (Z.of_nat size).
Definition _IOWR (type nr : Z) (size : nat) : Z :=
  _IOC (Z.lor _IOC_READ _IOC_WRITE) type nr (Z.of_nat size).
Definition _IOC_DIR (cmd : Z) : Z := Z.land (Z.shiftr cmd 30) 3.
Definition _IOC_TYPE (cmd : Z) : Z := Z.land (Z.shiftr cmd 8) 255.
Definition _IOC_NR (cmd : Z) : Z := Z.land cmd 255.
Definition _IOC_SIZE (cmd : Z) : Z := Z.land (Z.shiftr cmd 16) 0x3fff.

(** ** Error numbers of Linux *)
Definition ENOMEM : Z := 12.
Definition EIO : Z := 5.
Definition EAGAIN : Z := 11.
Definition EFAULT : Z := 14.
Definition EBUSY : Z := 16.
Definition ENODEV : Z := 19.
Definition EINVAL : Z := 22.
Definition ENOTTY : Z := 25.
Definition ESPIPE : Z := 29.
Definition EBADFD : Z := 77.
