(* ===== verification/Kernel.v ===== *)
(** * Services of the Linux kernel

    The modules under [src/module_test] run inside the kernel.  The kernel is
    not part of the sources.  What it decides (which address an allocation
    gets or that it fails, which registration succeeds, which user pages are
    writable) is the class [Kernel]; what the callers rely on is [KernelLaws].
    What is kept here is the state those services have for their callers: the
    user memory that is mapped, the blocks that are allocated, the
    registrations and the mappings that exist.  A block used outside its
    bounds or freed twice is undefined behaviour. *)
From S2P Require Import Prelude CInt CMonad CStruct.
From stdpp Require Export gmap.
Open Scope Z_scope.

(** ** Lists with distinct keys *)
Section Lists.
Context {A B : Type} (f : A -> B).
Lemma nodup_map_inj l x y : NoDup (map f l) -> x ∈ l -> y ∈ l -> f x = f y -> x = y.
Proof.
  induction l as [|a l IH]; simpl; intros Hn Hx Hy E; [by apply not_elem_of_nil in Hx|].
  apply NoDup_cons in Hn as [Ha Hn]. rewrite elem_of_cons in Hx, Hy.
  destruct Hx as [->|Hx], Hy as [->|Hy]; auto; destruct Ha.
  - rewrite E. by apply list_elem_of_fmap_2.
  - rewrite <- E. by apply list_elem_of_fmap_2.
Qed.
Lemma elem_of_lfilter (p : A -> bool) l x : x ∈ List.filter p l <-> x ∈ l /\ p x = true.
Proof. by rewrite !list_elem_of_In, filter_In. Qed.
Lemma nodup_map_filter (p : A -> bool) l : NoDup (map f l) -> NoDup (map f (List.filter p l)).
Proof.
  induction l as [|a l IH]; simpl; [done|]. rewrite NoDup_cons. intros [Ha Hn].
  destruct (p a); simpl; [|auto]. apply NoDup_cons. split; [|auto].
  intros (x & Ex & Hx)%list_elem_of_fmap_1. apply elem_of_lfilter in Hx as [Hx _].
  destruct Ha. rewrite Ex. by apply list_elem_of_fmap_2.
Qed.
End Lists.

Inductive bkind := Kmalloc | Dma (phys : Z).
Record block := mkBlock { b_kind : bkind; b_data : list Z }.
Record vmap := mkVmap { v_start : Z; v_pfn : Z; v_size : Z }.

Record kernel := mkKernel {
  ubytes : gmap Z Z;                 (* mapped user memory *)
  kmem : gmap Z block;               (* live allocations by address *)
  vmaps : list vmap;                 (* what remap_pfn_range mapped *)
  chrdevs : list (Z * string);       (* registered majors *)
  classes : list (Z * string);       (* device classes by handle *)
  devices : list (Z * Z * string);   (* device nodes: class, number, name *)
  mod_refs : Z;                      (* references to the module *)
  calls : nat;                       (* decisions asked of the kernel so far *)
}.

Class Kernel := {
  TASK_SIZE : Z;
  writable : Z -> bool;
  o_kmalloc : gmap Z block -> nat -> Z -> option (Z * list Z);
  o_dma : gmap Z block -> nat -> Z -> option (Z * Z * list Z);
  o_remap : nat -> Z;
  o_register : list (Z * string) -> nat -> Z -> Z;
  o_class : list (Z * string) -> nat -> Z;
  o_device : list (Z * Z * string) -> nat -> Z -> Z -> Z;
}.

(** [kmalloc(0)] returns this pointer, and [kfree] ignores it. *)
Definition ZERO_SIZE_PTR : Z := 16.
Definition IS_ERR (p : Z) : bool := 2 ^ 32 - 4095 <=? p.
Definition PTR_ERR (p : Z) : Z := i32 p.
Lemma IS_ERR_negative h : in_uint 32 h -> IS_ERR h = true -> PTR_ERR h < 0.
Proof.
  unfold in_uint, IS_ERR, PTR_ERR, swrap, wrap. intros Hr Hh%Z.leb_le.
  rewrite Z.mod_small by done. destruct (Z.ltb_spec h (2 ^ (32 - 1))); lia.
Qed.

Definition phys_free (m : gmap Z block) (phys : Z) : Prop :=
  forall q b, m !! q = Some b -> b_kind b <> Dma phys.

Class KernelLaws `{Kernel} : Prop := {
  kmalloc_law m i n p bs :
    0 < n -> o_kmalloc m i n = Some (p, bs) ->
    ZERO_SIZE_PTR < p < 2 ^ 32 /\ m !! p = None /\ zlen bs = n /\ Forall is_byte bs;
  dma_law m i n p phys bs :
    o_dma m i n = Some (p, phys, bs) ->
    0 < p < 2 ^ 32 /\ m !! p = None /\ in_uint 32 phys /\ phys_free m phys /\ zlen bs = n /\
    Forall is_byte bs;
  register_law cs i major :
    (major = 0 -> o_register cs i major <> 0) /\
    (major = 0 -> 0 < o_register cs i major -> o_register cs i major ∉ cs.*1) /\
    (major <> 0 -> o_register cs i major <= 0) /\
    (major <> 0 -> o_register cs i major = 0 -> major ∉ cs.*1);
  class_law cs i :
    in_uint 32 (o_class cs i) /\ (IS_ERR (o_class cs i) = false -> o_class cs i ∉ cs.*1);
  device_law ds i h devt :
    in_uint 32 (o_device ds i h devt) /\
    (IS_ERR (o_device ds i h devt) = false -> (h, devt) ∉ ds.*1);
}.

(** ** The world of a module: kernel, hardware driver, globals, console *)
Record world (D G : Type) := mkWorld {
  kern : kernel;
  dev : D;
  glob : G;
  klog : list print;
}.
Arguments mkWorld {D G}.
Arguments kern {D G}.
Arguments dev {D G}.
Arguments glob {D G}.
Arguments klog {D G}.

#[export] Instance world_output {D G} : Output (world D G).
Proof.
  refine {| log w := klog w; emit p w := mkWorld (kern w) (dev w) (glob w) (p :: klog w) |}.
  done.
Defined.

Definition set_kern {D G} (f : kernel -> kernel) (w : world D G) : world D G :=
  mkWorld (f (kern w)) (dev w) (glob w) (klog w).
Definition set_dev {D G} (d : D) (w : world D G) : world D G :=
  mkWorld (kern w) d (glob w) (klog w).
Definition set_glob {D G} (g : G) (w : world D G) : world D G :=
  mkWorld (kern w) (dev w) g (klog w).

Definition set_ubytes (f : gmap Z Z -> gmap Z Z) (k : kernel) : kernel :=
  mkKernel (f (ubytes k)) (kmem k) (vmaps k) (chrdevs k) (classes k) (devices k) (mod_refs k) (calls k).
Definition set_kmem (f : gmap Z block -> gmap Z block) (k : kernel) : kernel :=
  mkKernel (ubytes k) (f (kmem k)) (vmaps k) (chrdevs k) (classes k) (devices k) (mod_refs k) (calls k).
Definition add_vmap (v : vmap) (k : kernel) : kernel :=
  mkKernel (ubytes k) (kmem k) (v :: vmaps k) (chrdevs k) (classes k) (devices k) (mod_refs k) (calls k).
Definition set_chrdevs (f : list (Z * string) -> list (Z * string)) (k : kernel) : kernel :=
  mkKernel (ubytes k) (kmem k) (vmaps k) (f (chrdevs k)) (classes k) (devices k) (mod_refs k) (calls k).
Definition set_classes (f : list (Z * string) -> list (Z * string)) (k : kernel) : kernel :=
  mkKernel (ubytes k) (kmem k) (vmaps k) (chrdevs k) (f (classes k)) (devices k) (mod_refs k) (calls k).
Definition set_devices (f : list (Z * Z * string) -> list (Z * Z * string)) (k : kernel) : kernel :=
  mkKernel (ubytes k) (kmem k) (vmaps k) (chrdevs k) (classes k) (f (devices k)) (mod_refs k) (calls k).
Definition add_refs (n : Z) (k : kernel) : kernel :=
  mkKernel (ubytes k) (kmem k) (vmaps k) (chrdevs k) (classes k) (devices k) (mod_refs k + n) (calls k).
Definition asked (k : kernel) : kernel :=
  mkKernel (ubytes k) (kmem k) (vmaps k) (chrdevs k) (classes k) (devices k) (mod_refs k) (S (calls k)).

(** ** User memory *)
Fixpoint uread (m : gmap Z Z) (p : Z) (n : nat) : list Z :=
  match n with
  | O => []
  | S n => match m !! p with Some b => b :: uread m (p + 1) n | None => [] end
  end.
Fixpoint uput (m : gmap Z Z) (p : Z) (l : list Z) : gmap Z Z :=
  match l with
  | [] => m
  | b :: l => <[p := b]> (uput m (p + 1) l)
  end.

Section User.
Context `{Kernel}.
Fixpoint room (m : gmap Z Z) (p : Z) (n : nat) : nat :=
  match n with
  | O => 0
  | S n => match m !! p with
           | Some _ => if writable p then S (room m (p + 1) n) else 0
           | None => 0
           end
  end.
Definition access_ok (p n : Z) : bool := (0 <=? p) && (p + n <=? TASK_SIZE).

(** What [copy_from_user] leaves in the destination, padded with zeros when
    it stops early, and the number of bytes it did not copy. *)
Definition from_user (m : gmap Z Z) (p n : Z) : list Z * Z :=
  let got := if access_ok p n then uread m p (Z.to_nat n) else [] in
  (got ++ replicate (Z.to_nat n - length got) 0, n - zlen got).
(** How many bytes [copy_to_user] can write. *)
Definition fits (m : gmap Z Z) (p : Z) (n : nat) : nat :=
  if access_ok p (Z.of_nat n) then room m p n else 0%nat.
End User.

Section Services.
Context `{Kernel} {D G : Type}.
Abbreviation W := (world D G).

Definition printk (f : string) (a : list parg) : M W unit := printf f a.
(** The level prefixes of [printk] formats. *)
Definition KERN_ALERT : string := "<1>".
Definition KERN_ERR : string := "<3>".
Definition KERN_INFO : string := "<6>".
(** A message compiled in only for debugging. *)
Definition debugk (debug : bool) (f : string) (a : list parg) : M W unit :=
  when debug (printk f a).

Definition copy_from_user (p n : Z) : M W (list Z * Z) :=
  gets (fun w => from_user (ubytes (kern w)) p n).
Definition copy_to_user (p : Z) (l : list Z) : M W Z := fun w =>
  let m := ubytes (kern w) in
  let k := fits m p (length l) in
  (Ret (zlen l - Z.of_nat k), set_kern (set_ubytes (fun m => uput m p (take k l))) w).

(** [get_user(x, p)] and [put_user(v, p)] of four bytes; on an error [x] is
    zero.  The variants with underscores leave the range check to the caller. *)
Definition get_user (p : Z) : M W (Z * Z) :=
  '(b, unc) ← copy_from_user p 4;
  mret (if unc =? 0 then (0, of_le b) else (- EFAULT, 0)).
Definition put_user (v p : Z) : M W Z :=
  unc ← copy_to_user p (to_le 4 v);
  mret (if unc =? 0 then 0 else - EFAULT).
Definition __get_user (p : Z) : M W (Z * Z) :=
  gets (fun w => let b := uread (ubytes (kern w)) p 4 in
                 if (length b =? 4)%nat then (0, of_le b) else (- EFAULT, 0)).
Definition __put_user (v p : Z) : M W Z := fun w =>
  let k := room (ubytes (kern w)) p 4 in
  (Ret (if (k =? 4)%nat then 0 else - EFAULT),
   set_kern (set_ubytes (fun m => uput m p (take k (to_le 4 v)))) w).

(** ** Kernel memory *)
Definition kmalloc (n : Z) : M W Z := fun w =>
  let k := kern w in
  if n =? 0 then (Ret ZERO_SIZE_PTR, w)
  else match o_kmalloc (kmem k) (calls k) n with
       | None => (Ret 0, set_kern asked w)
       | Some (p, bs) =>
           (Ret p, set_kern (fun k => asked (set_kmem <[p := mkBlock Kmalloc bs]> k)) w)
       end.
Definition kzalloc (n : Z) : M W Z := fun w =>
  let k := kern w in
  if n =? 0 then (Ret ZERO_SIZE_PTR, w)
  else match o_kmalloc (kmem k) (calls k) n with
       | None => (Ret 0, set_kern asked w)
       | Some (p, bs) =>
           (Ret p, set_kern (fun k => asked (set_kmem
              <[p := mkBlock Kmalloc (replicate (length bs) 0)]> k)) w)
       end.
Definition kfree (p : Z) : M W unit := fun w =>
  if p <=? ZERO_SIZE_PTR then (Ret tt, w)
  else match kmem (kern w) !! p with
       | Some (mkBlock Kmalloc _) => (Ret tt, set_kern (set_kmem (delete p)) w)
       | _ => (Undef, w)
       end.

(** The bytes of the block at [p], from [off]; undefined outside the block. *)
Definition kread (p off n : Z) : M W (list Z) := fun w =>
  if n =? 0 then (Ret [], w)
  else match kmem (kern w) !! p with
       | Some b =>
           if (0 <=? off) && (0 <=? n) && (off + n <=? zlen (b_data b))
           then (Ret (peek (Z.to_nat off) (Z.to_nat n) (b_data b)), w)
           else (Undef, w)
       | None => (Undef, w)
       end.
Definition kwrite (p off : Z) (l : list Z) : M W unit := fun w =>
  if (length l =? 0)%nat then (Ret tt, w)
  else match kmem (kern w) !! p with
       | Some b =>
           if (0 <=? off) && (off + zlen l <=? zlen (b_data b))
           then (Ret tt, set_kern (set_kmem
                   <[p := mkBlock (b_kind b) (poke (Z.to_nat off) l (b_data b))]>) w)
           else (Undef, w)
       | None => (Undef, w)
       end.

(** [dma_alloc_coherent]: the address, or 0, and the bus address. *)
Definition dma_alloc_coherent (n : Z) : M W (Z * Z) := fun w =>
  let k := kern w in
  match o_dma (kmem k) (calls k) n with
  | None => (Ret (0, 0), set_kern asked w)
  | Some (p, phys, bs) =>
      (Ret (p, phys), set_kern (fun k => asked (set_kmem <[p := mkBlock (Dma phys) bs]> k)) w)
  end.
(** The size, address and bus address must be those of the allocation. *)
Definition dma_free_coherent (n p phys : Z) : M W unit := fun w =>
  match kmem (kern w) !! p with
  | Some (mkBlock (Dma ph) bs) =>
      if (ph =? phys) && (zlen bs =? n) then (Ret tt, set_kern (set_kmem (delete p)) w)
      else (Undef, w)
  | _ => (Undef, w)
  end.

Definition remap_pfn_range (start pfn n : Z) : M W Z := fun w =>
  let r := o_remap (calls (kern w)) in
  (Ret r, set_kern (fun k => asked (if r =? 0 then add_vmap (mkVmap start pfn n) k else k)) w).

(** ** Registrations *)
Definition MKDEV (major minor : Z) : Z := Z.lor (Z.shiftl major 20) minor.
Definition drop_key {K : Type} `{EqDecision K} (k : K) : list (K * string) -> list (K * string) :=
  List.filter (fun c => negb (bool_decide (fst c = k))).

(** [register_chrdev] returns the new major when it is asked for one with 0,
    0 when it got the one it asked for, or a negative error. *)
Definition register_chrdev (major : Z) (name : string) : M W Z := fun w =>
  let k := kern w in
  let r := o_register (chrdevs k) (calls k) major in
  (Ret r, set_kern (fun k => asked
     (if r <? 0 then k else set_chrdevs (cons (if major =? 0 then r else major, name)) k)) w).
(** The major number alone says what is unregistered. *)
Definition unregister_chrdev (major : Z) (name : string) : M W unit :=
  modify (set_kern (set_chrdevs (drop_key major))).

Definition class_create (name : string) : M W Z := fun w =>
  let h := o_class (classes (kern w)) (calls (kern w)) in
  (Ret h, set_kern (fun k => asked (if IS_ERR h then k else set_classes (cons (h, name)) k)) w).
Definition class_destroy (h : Z) : M W unit :=
  modify (set_kern (set_classes (drop_key h))).
Definition device_create (h devt : Z) (name : string) : M W Z := fun w =>
  let d := o_device (devices (kern w)) (calls (kern w)) h devt in
  (Ret d, set_kern (fun k => asked (if IS_ERR d then k else set_devices (cons (h, devt, name)) k)) w).
Definition device_destroy (h devt : Z) : M W unit :=
  modify (set_kern (set_devices (drop_key (h, devt)))).

Definition try_module_get : M W unit := modify (set_kern (add_refs 1)).
Definition module_put : M W unit := modify (set_kern (add_refs (-1))).
End Services.

(** Removing what was just added. *)
Section DropKey.
Context {K : Type} `{EqDecision K}.
Implicit Types (k : K) (l : list (K * string)).
Lemma drop_key_fresh k l : k ∉ l.*1 -> drop_key k l = l.
Proof.
  induction l as [|[k' n] l IH]; simpl; [done|]. rewrite not_elem_of_cons. intros [? ?].
  rewrite bool_decide_eq_false_2 by (simpl; congruence). simpl. by rewrite IH.
Qed.
Lemma drop_key_cons k n l : k ∉ l.*1 -> drop_key k ((k, n) :: l) = l.
Proof.
  intros. unfold drop_key. simpl. rewrite bool_decide_eq_true_2 by done. by apply drop_key_fresh.
Qed.
Lemma drop_key_not_in k l : k ∉ (drop_key k l).*1.
Proof.
  induction l as [|[k' n] l IH]; simpl; [apply not_elem_of_nil|].
  case_bool_decide; simpl; [done|]. by rewrite not_elem_of_cons.
Qed.
End DropKey.
#[global] Arguments drop_key : simpl never.

Lemma debugk_eq {D G} b f a (w : world D G) :
  debugk b f a w = (Ret tt, if b then emit (Printf f a) w else w).
Proof. by destruct b. Qed.

(** ** Laws of the user copies *)
Section UserLaws.
Context `{Kernel}.
Implicit Types (m : gmap Z Z) (p : Z) (n : nat) (l : list Z).

Lemma length_uread m p n : (length (uread m p n) <= n)%nat.
Proof. revert p. induction n as [|n IH]; intros p; simpl; [lia|]. destruct (m !! p); simpl; [|lia]. specialize (IH (p + 1)). lia. Qed.

Lemma length_from_user m p (n : Z) : length (from_user m p n).1 = Z.to_nat n.
Proof.
  unfold from_user. simpl. rewrite length_app, length_replicate.
  destruct (access_ok p n); simpl; [|lia]. pose proof (length_uread m p (Z.to_nat n)). lia.
Qed.

Lemma from_user_range m p (n : Z) : 0 <= n -> 0 <= (from_user m p n).2 <= n.
Proof.
  intros Hn. unfold from_user. simpl.
  destruct (access_ok p n); simpl; [|lia]. pose proof (length_uread m p (Z.to_nat n)). lia.
Qed.

Lemma from_user_done m p (n : Z) :
  0 <= n -> (from_user m p n).2 = 0 -> (from_user m p n).1 = uread m p (Z.to_nat n).
Proof.
  unfold from_user. simpl. intros Hn Hr.
  destruct (access_ok p n); simpl in *.
  - replace (Z.to_nat n - _)%nat with 0%nat by lia. apply app_nil_r.
  - by replace (Z.to_nat n) with 0%nat by lia.
Qed.

Lemma uput_lookup_ne m p l q :
  (q < p \/ p + zlen l <= q) -> uput m p l !! q = m !! q.
Proof.
  revert p. induction l as [|b l IH]; intros p Hq; simpl in *; [done|].
  rewrite lookup_insert_ne by lia. apply IH. lia.
Qed.

Lemma uread_insert_lt m p b q n : p < q -> uread (<[p := b]> m) q n = uread m q n.
Proof.
  revert q. induction n as [|n IH]; intros q Hq; simpl; [done|].
  rewrite lookup_insert_ne by lia. case_match; [|done]. f_equal. apply IH. lia.
Qed.

Lemma uread_uput m p l : uread (uput m p l) p (length l) = l.
Proof.
  revert m p. induction l as [|b l IH]; intros m p; simpl; [done|].
  rewrite lookup_insert_eq. f_equal. rewrite uread_insert_lt by lia. apply IH.
Qed.

Lemma uread_uput_ne m p q l n :
  q + Z.of_nat n <= p \/ p + zlen l <= q -> uread (uput m p l) q n = uread m q n.
Proof.
  revert q. induction n as [|n IH]; intros q Hd; simpl; [done|].
  rewrite uput_lookup_ne by lia. case_match; [|done]. f_equal. apply IH. lia.
Qed.

Lemma room_le m p n : (room m p n <= n)%nat.
Proof.
  revert p. induction n as [|n IH]; intros p; simpl; [lia|].
  destruct (m !! p), (writable p); try lia. specialize (IH (p + 1)). lia.
Qed.

Lemma fits_le m p n : (fits m p n <= n)%nat.
Proof. unfold fits. destruct (access_ok _ _); [apply room_le|lia]. Qed.

Lemma uput_mapped m p l q : is_Some (m !! q) -> is_Some (uput m p l !! q).
Proof.
  revert p. induction l as [|b l IH]; intros p Hq; simpl; [done|].
  rewrite lookup_insert. case_decide; [by eexists|by apply IH].
Qed.
Lemma room_uput m p l q n : room m q n = n -> room (uput m p l) q n = n.
Proof.
  revert q. induction n as [|n IH]; intros q; simpl; [done|].
  destruct (m !! q) as [b|] eqn:Hq; [|done].
  destruct (uput_mapped m p l q) as [c ->]; [by eexists|].
  destruct (writable q); [|done]. intros [= Hn]. f_equal. by apply IH.
Qed.
(** Writing never takes writable memory away. *)
Lemma fits_uput m p l q n : fits m q n = n -> fits (uput m p l) q n = n.
Proof. unfold fits. destruct (access_ok _ _); [apply room_uput|done]. Qed.
End UserLaws.

#[global] Arguments from_user : simpl never.
#[global] Arguments fits : simpl never.
#[global] Arguments access_ok : simpl never.

(** A first part whose result is known. *)
Lemma wp_bind_eq {W A B} U (m : M W A) (k : A -> M W B) Q E w a w1 :
  m w = (Ret a, w1) -> wpu U (k a) Q E w1 -> wpu U (m ≫= k) Q E w.
Proof. intros Hm Hk. apply wp_bind. unfold wpu at 1. by rewrite Hm. Qed.

(** A run whose result is known, for evaluation. *)
Lemma returned {W A} (m : M W A) w a : (m w).1 = Ret a -> m w = (Ret a, (m w).2).
Proof. destruct (m w). simpl. by intros ->. Qed.
(** Undefined behaviour of a part is undefined behaviour of the whole. *)
Lemma undef_bind {W A B} (m : M W A) (k : A -> M W B) w :
  (m w).1 = Undef -> ((m ≫= k) w).1 = Undef.
Proof. unfold mbind, M_bind. by destruct (m w) as [[] ?]. Qed.
Lemma undef_bind_eq {W A B} (m : M W A) (k : A -> M W B) w a w1 :
  m w = (Ret a, w1) -> (k a w1).1 = Undef -> ((m ≫= k) w).1 = Undef.
Proof. unfold mbind, M_bind. by intros ->. Qed.

(** ** Rules for the services *)
Section Rules.
Context `{KL : KernelLaws} {D G : Type} (U : Prop).
Abbreviation W := (world D G).
Implicit Types (w : W) (E : Z -> W -> Prop).

Lemma wp_printk f a (Q : unit -> W -> Prop) E w :
  Q tt (emit (Printf f a) w) -> wpu U (printk f a) Q E w.
Proof. done. Qed.

(** A debugging message changes the log at most. *)
Lemma wp_debugk b f a (Q : unit -> W -> Prop) E w :
  (forall l, Q tt (mkWorld (kern w) (dev w) (glob w) l)) -> wpu U (debugk b f a) Q E w.
Proof. intros HQ. destruct b; [apply HQ|]. destruct w. apply HQ. Qed.

Lemma wp_copy_from_user p n (Q : list Z * Z -> W -> Prop) E w :
  Q (from_user (ubytes (kern w)) p n) w -> wpu U (copy_from_user p n) Q E w.
Proof. done. Qed.

Lemma wp_when_debugk c b f a (Q : unit -> W -> Prop) E w :
  (forall l, Q tt (mkWorld (kern w) (dev w) (glob w) l)) -> wpu U (when c (debugk b f a)) Q E w.
Proof. intros HQ. destruct c; [by apply wp_debugk|]. destruct w. apply HQ. Qed.

(** User memory holds the structure [s] of type [T] at [p]. *)
Definition holds (T : cstruct) (w : W) (p : Z) (s : list Z) : Prop :=
  from_user (ubytes (kern w)) p (Z.of_nat (sizeof T)) = (s, 0).

Lemma holds_length T w p s : holds T w p s -> length s = sizeof T.
Proof.
  unfold holds. intros E. pose proof (length_from_user (ubytes (kern w)) p (Z.of_nat (sizeof T))) as Hl.
  rewrite E in Hl. simpl in Hl. lia.
Qed.

(** Writing elsewhere keeps a structure. *)
Lemma holds_uput T p q l s w :
  q + Z.of_nat (sizeof T) <= p \/ p + zlen l <= q -> holds T w q s ->
  holds T (set_kern (set_ubytes (fun m => uput m p l)) w) q s.
Proof.
  unfold holds, from_user. intros Hd. simpl. rewrite uread_uput_ne by lia. done.
Qed.

Lemma wp_copy_held T p s (Q : list Z * Z -> W -> Prop) E w :
  holds T w p s -> Q (s, 0) w -> wpu U (copy_from_user p (Z.of_nat (sizeof T))) Q E w.
Proof. unfold holds. intros Hs HQ. apply wp_copy_from_user. by rewrite Hs. Qed.

Lemma wp_copy_to_user p l (Q : Z -> W -> Prop) E w :
  (forall k, k = fits (ubytes (kern w)) p (length l) -> (k <= length l)%nat ->
     Q (zlen l - Z.of_nat k) (set_kern (set_ubytes (fun m => uput m p (take k l))) w)) ->
  wpu U (copy_to_user p l) Q E w.
Proof. intros HQ. unfold wpu, copy_to_user. apply HQ; [done|apply fits_le]. Qed.

Lemma wp_kmalloc n (Q : Z -> W -> Prop) E w :
  0 <= n ->
  (n = 0 -> Q ZERO_SIZE_PTR w) ->
  (0 < n -> o_kmalloc (kmem (kern w)) (calls (kern w)) n = None -> Q 0 (set_kern asked w)) ->
  (forall p bs, 0 < n -> o_kmalloc (kmem (kern w)) (calls (kern w)) n = Some (p, bs) -> ZERO_SIZE_PTR < p < 2 ^ 32 -> kmem (kern w) !! p = None ->
     zlen bs = n -> Forall is_byte bs ->
     Q p (set_kern (fun k => asked (set_kmem <[p := mkBlock Kmalloc bs]> k)) w)) ->
  wpu U (kmalloc n) Q E w.
Proof.
  intros Hn H0 Hf Hp. unfold wpu, kmalloc.
  destruct (Z.eqb_spec n 0); [auto|].
  destruct (o_kmalloc _ _ _) as [[p bs]|] eqn:Ho; [|apply Hf; [lia|done]].
  assert (0 < n) by lia. destruct (kmalloc_law _ _ _ _ _ ltac:(eassumption) Ho) as (? & ? & ? & ?).
  by apply Hp.
Qed.

Lemma wp_kzalloc n (Q : Z -> W -> Prop) E w :
  0 < n ->
  Q 0 (set_kern asked w) ->
  (forall p, ZERO_SIZE_PTR < p < 2 ^ 32 -> kmem (kern w) !! p = None ->
     Q p (set_kern (fun k => asked (set_kmem
            <[p := mkBlock Kmalloc (replicate (Z.to_nat n) 0)]> k)) w)) ->
  wpu U (kzalloc n) Q E w.
Proof.
  intros Hn Hf Hp. unfold wpu, kzalloc. destruct (Z.eqb_spec n 0); [lia|].
  destruct (o_kmalloc _ _ _) as [[p bs]|] eqn:Ho; [|done].
  apply kmalloc_law in Ho as (? & ? & ? & ?); [|lia].
  replace (length bs) with (Z.to_nat n) by lia. by apply Hp.
Qed.

Lemma wp_kfree_null p (Q : unit -> W -> Prop) E w :
  p <= ZERO_SIZE_PTR -> Q tt w -> wpu U (kfree p) Q E w.
Proof. intros Hp HQ. unfold wpu, kfree. by apply Z.leb_le in Hp as ->. Qed.

Lemma wp_kfree p bs (Q : unit -> W -> Prop) E w :
  ZERO_SIZE_PTR < p -> kmem (kern w) !! p = Some (mkBlock Kmalloc bs) ->
  Q tt (set_kern (set_kmem (delete p)) w) -> wpu U (kfree p) Q E w.
Proof.
  intros Hp Hm HQ. unfold wpu, kfree. rewrite Hm.
  destruct (Z.leb_spec p ZERO_SIZE_PTR); [lia|done].
Qed.

(** [if (p) kfree(p)] of a block that was allocated, or not, on top of [m]. *)
Definition held (p : Z) (m' m : gmap Z block) : Prop :=
  (p = 0 /\ m' = m) \/
  (ZERO_SIZE_PTR < p /\ m !! p = None /\ exists bs, m' = <[p := mkBlock Kmalloc bs]> m).
Lemma wp_kfree_held p m (Q : unit -> W -> Prop) E w :
  held p (kmem (kern w)) m ->
  Q tt (set_kern (set_kmem (fun _ => m)) w) -> wpu U (when (truth p) (kfree p)) Q E w.
Proof.
  intros [[-> Hm]|(Hp & Hfree & bs & Hm)] HQ.
  - apply wp_skip. assert (set_kern (set_kmem (fun _ => m)) w = w) as <-; [|done].
    rewrite <- Hm. by destruct w as [[] ? ? ?].
  - rewrite truth_true by (unfold ZERO_SIZE_PTR in Hp; lia).
    eapply wp_kfree; [done|by rewrite Hm, lookup_insert_eq|].
    assert (set_kern (set_kmem (delete p)) w = set_kern (set_kmem (fun _ => m)) w) as ->; [|done].
    unfold set_kern, set_kmem. by rewrite Hm, delete_insert_eq, delete_id.
Qed.

Lemma wp_kread p off n b (Q : list Z -> W -> Prop) E w :
  kmem (kern w) !! p = Some b -> 0 <= off -> 0 <= n -> off + n <= zlen (b_data b) ->
  Q (peek (Z.to_nat off) (Z.to_nat n) (b_data b)) w -> wpu U (kread p off n) Q E w.
Proof.
  intros Hm Ho Hn Hb HQ. unfold wpu, kread. destruct (Z.eqb_spec n 0) as [->|].
  - unfold peek in HQ. by rewrite take_0 in HQ.
  - rewrite Hm. apply Z.leb_le in Ho as ->, Hn as ->, Hb as ->. done.
Qed.

Lemma set_kmem_same w p b :
  kmem (kern w) !! p = Some b -> set_kern (set_kmem <[p := b]>) w = w.
Proof.
  intros Hm. destruct w as [[] ? ? ?]. unfold set_kern, set_kmem. simpl in *. by rewrite insert_id.
Qed.

Lemma wp_kwrite p off l b (Q : unit -> W -> Prop) E w :
  kmem (kern w) !! p = Some b -> 0 <= off -> off + zlen l <= zlen (b_data b) ->
  Q tt (set_kern (set_kmem <[p := mkBlock (b_kind b) (poke (Z.to_nat off) l (b_data b))]>) w) ->
  wpu U (kwrite p off l) Q E w.
Proof.
  intros Hm Ho Hb HQ. unfold wpu, kwrite. destruct l as [|x l].
  - simpl in *. unfold poke in HQ. simpl in HQ. rewrite Nat.add_0_r, take_drop in HQ.
    destruct b as [k bs]. by rewrite set_kmem_same in HQ.
  - rewrite Hm. apply Z.leb_le in Ho as ->, Hb as ->. done.
Qed.

(** Writing outside a block, or to no block. *)
Lemma kwrite_undef p l (w : W) :
  l <> [] ->
  match kmem (kern w) !! p with Some b => zlen (b_data b) < zlen l | None => True end ->
  (kwrite p 0 l w).1 = Undef.
Proof.
  intros Hl Hm. unfold kwrite. destruct l as [|x l]; [done|]. simpl length. cbn [Nat.eqb].
  destruct (kmem (kern w) !! p) as [b|]; [|done].
  destruct (Z.leb_spec (0 + Z.of_nat (S (length l))) (zlen (b_data b))); [simpl in Hm; lia|].
  by rewrite andb_false_r.
Qed.

Lemma wp_dma_alloc n (Q : Z * Z -> W -> Prop) E w :
  Q (0, 0) (set_kern asked w) ->
  (forall p phys bs, 0 < p < 2 ^ 32 -> kmem (kern w) !! p = None -> in_uint 32 phys ->
     phys_free (kmem (kern w)) phys -> zlen bs = n -> Forall is_byte bs ->
     Q (p, phys) (set_kern (fun k => asked (set_kmem <[p := mkBlock (Dma phys) bs]> k)) w)) ->
  wpu U (dma_alloc_coherent n) Q E w.
Proof.
  intros Hf Hp. unfold wpu, dma_alloc_coherent.
  destruct (o_dma _ _ _) as [[[p phys] bs]|] eqn:Ho; [|done].
  apply dma_law in Ho. destruct Ho as (? & ? & ? & ? & ? & ?). by apply Hp.
Qed.

Lemma wp_dma_free n p phys bs (Q : unit -> W -> Prop) E w :
  kmem (kern w) !! p = Some (mkBlock (Dma phys) bs) -> zlen bs = n ->
  Q tt (set_kern (set_kmem (delete p)) w) -> wpu U (dma_free_coherent n p phys) Q E w.
Proof.
  intros Hm Hl HQ. unfold wpu, dma_free_coherent. rewrite Hm.
  by rewrite Z.eqb_refl, (proj2 (Z.eqb_eq _ _) Hl).
Qed.

Definition regs (w : W) := (chrdevs (kern w), classes (kern w), devices (kern w)).

(** Asking for a major number; asking for a given one. *)
Lemma wp_register_any name (Q : Z -> W -> Prop) E w :
  (forall r, r < 0 -> Q r (set_kern asked w)) ->
  (forall r, 0 < r -> r ∉ (chrdevs (kern w)).*1 ->
     Q r (set_kern (fun k => asked (set_chrdevs (cons (r, name)) k)) w)) ->
  wpu U (register_chrdev 0 name) Q E w.
Proof.
  intros Hf Hr. unfold wpu, register_chrdev. simpl.
  destruct (register_law (chrdevs (kern w)) (calls (kern w)) 0) as (H0 & Hfresh & _).
  destruct (Z.ltb_spec (o_register (chrdevs (kern w)) (calls (kern w)) 0) 0); [by apply Hf|].
  specialize (H0 eq_refl). apply Hr; [lia|]. apply Hfresh; [done|lia].
Qed.

Lemma wp_class_create name (Q : Z -> W -> Prop) E w :
  (forall h, IS_ERR h = true -> in_uint 32 h -> Q h (set_kern asked w)) ->
  (forall h, IS_ERR h = false -> h ∉ (classes (kern w)).*1 ->
     Q h (set_kern (fun k => asked (set_classes (cons (h, name)) k)) w)) ->
  wpu U (class_create name) Q E w.
Proof.
  intros Hf Hh. unfold wpu, class_create.
  destruct (class_law (classes (kern w)) (calls (kern w))) as [Hr Hfresh].
  destruct (IS_ERR _) eqn:He; [by apply Hf|]. by apply Hh; auto.
Qed.

Lemma wp_device_create h devt name (Q : Z -> W -> Prop) E w :
  (forall d, IS_ERR d = true -> Q d (set_kern asked w)) ->
  (forall d, IS_ERR d = false -> (h, devt) ∉ (devices (kern w)).*1 ->
     Q d (set_kern (fun k => asked (set_devices (cons (h, devt, name)) k)) w)) ->
  wpu U (device_create h devt name) Q E w.
Proof.
  intros Hf Hd. unfold wpu, device_create.
  destruct (device_law (devices (kern w)) (calls (kern w)) h devt) as [_ Hfresh].
  destruct (IS_ERR _) eqn:He; [by apply Hf|]. by apply Hd; auto.
Qed.
End Rules.

(** [wp_step] with the services that have one outcome. *)
Ltac kstep :=
  lazymatch goal with
  | |- wpu _ (device_destroy _ _) _ _ _ => apply wp_modify
  | |- wpu _ (class_destroy _) _ _ _ => apply wp_modify
  | |- wpu _ (unregister_chrdev _ _) _ _ _ => apply wp_modify
  | |- wpu _ try_module_get _ _ _ => apply wp_modify
  | |- wpu _ module_put _ _ _ => apply wp_modify
  | |- wpu _ (printk _ _) _ _ _ => apply wp_printk
  | |- wpu _ (debugk _ _ _) _ _ _ => apply wp_debugk; intros ?
  | |- wpu _ (copy_from_user _ _) _ _ _ => apply wp_copy_from_user
  | |- _ => wp_step
  end; cbv beta.
Ltac ksteps := repeat kstep.
