(* ===== verification/SimKernel.v ===== *)
(** * A concrete kernel

    An instance of [Kernel] that runs: the k-th decision places its block in
    the page number [k + 1], of 65536 pages in turn, and a configuration says
    which decisions fail.
    It obeys [KernelLaws], so the theorems about the modules apply to it. *)
From S2P Require Import Prelude CInt CMonad CStruct Kernel.

Record simcfg := mkSim {
  sim_readonly : Z -> bool;
  sim_no_memory : nat -> bool;
  sim_fails : nat -> bool;
}.
(** Everything succeeds. *)
Definition sim_ok : simcfg := mkSim (fun _ => false) (fun _ => false) (fun _ => false).

Definition page (i : nat) : Z := 4096 * (Z.of_nat i mod 65536 + 1).
Definition phys_of (p : Z) : Z := u32 (p + 2 ^ 30).

Definition free_at (m : gmap Z block) (p : Z) : bool :=
  (p <? 2 ^ 32) && bool_decide (m !! p = None).
Definition has_phys (phys : Z) (b : block) : bool :=
  match b_kind b with Dma ph => ph =? phys | Kmalloc => false end.
Definition free_phys (m : gmap Z block) (phys : Z) : bool :=
  forallb (fun x => negb (has_phys phys (snd x))) (map_to_list m).

Definition sim (c : simcfg) : Kernel := {|
  TASK_SIZE := 0xbf000000;
  writable p := negb (sim_readonly c p);
  o_kmalloc m i n :=
    if sim_no_memory c i || negb (free_at m (page i)) then None
    else Some (page i, replicate (Z.to_nat n) 0xa5);
  o_dma m i n :=
    let phys := phys_of (page i) in
    if sim_no_memory c i || negb (free_at m (page i)) || negb (free_phys m phys) || (n <? 0) then None
    else Some (page i, phys, replicate (Z.to_nat n) 0);
  o_remap i := if sim_fails c i then - EAGAIN else 0;
  o_register cs i major :=
    let r := if major =? 0 then 250 else major in
    if sim_fails c i || bool_decide (r ∈ cs.*1) || (r <=? 0) then - EBUSY
    else if major =? 0 then 250 else 0;
  o_class cs i := if sim_fails c i || bool_decide (0x1000 + u8 (Z.of_nat i) ∈ cs.*1) then u32 (- ENOMEM) else 0x1000 + u8 (Z.of_nat i);
  o_device ds i h devt := if sim_fails c i || bool_decide ((h, devt) ∈ ds.*1) then u32 (- ENOMEM) else 0x2000 + u8 (Z.of_nat i);
|}.

Lemma page_range i : ZERO_SIZE_PTR < page i.
Proof. unfold page, ZERO_SIZE_PTR. pose proof (Z.mod_pos_bound (Z.of_nat i) 65536). lia. Qed.

Lemma free_phys_spec m phys : free_phys m phys = true -> phys_free m phys.
Proof.
  unfold free_phys. rewrite forallb_forall. intros Hf q b Hq Hb.
  assert (In (q, b) (map_to_list m)) as Hin by by apply list_elem_of_In, elem_of_map_to_list.
  specialize (Hf _ Hin). simpl in Hf. unfold has_phys in Hf. by rewrite Hb, Z.eqb_refl in Hf.
Qed.

Lemma handle_range (b : bool) c i :
  0 <= c < 0xffff0000 -> in_uint 32 (if b then u32 (- ENOMEM) else c + u8 (Z.of_nat i)).
Proof.
  intros Hc. pose proof (wrap_range 8 (Z.of_nat i) ltac:(lia)) as [? ?].
  destruct b; [apply wrap_range; lia|]. unfold in_uint. lia.
Qed.

#[export] Instance sim_laws c : @KernelLaws (sim c).
Proof.
  split; simpl.
  - intros m i n p bs Hn. case_match eqn:E; [done|]. intros [= <- <-].
    apply orb_false_iff in E as [_ E]. apply negb_false_iff in E. unfold free_at in E.
    rewrite andb_true_iff, Z.ltb_lt, bool_decide_eq_true in E.
    pose proof (page_range i). rewrite length_replicate. destruct E as [E1 E2].
    split; [done|]. split; [done|]. split; [lia|]. apply Forall_replicate. unfold is_byte. lia.
  - intros m i n p phys bs. case_match eqn:E; [done|]. intros [= <- <- <-].
    rewrite !orb_false_iff, !negb_false_iff, Z.ltb_ge in E. destruct E as [[[_ E] Ep] En].
    unfold free_at in E. rewrite andb_true_iff, Z.ltb_lt, bool_decide_eq_true in E.
    pose proof (page_range i) as Hr. unfold ZERO_SIZE_PTR in Hr. rewrite length_replicate.
    destruct E as [E1 E2]. split; [lia|]. split; [done|]. split; [apply wrap_range; lia|].
    split; [by apply free_phys_spec|]. split; [lia|]. apply Forall_replicate. unfold is_byte. lia.
  - intros cs i major. split_and!.
    + intros ->. simpl. by repeat case_match.
    + intros ->. simpl. destruct (sim_fails c i); [unfold EBUSY; simpl; lia|].
      case_bool_decide; simpl; [unfold EBUSY; lia|done].
    + intros Hm. apply Z.eqb_neq in Hm as ->. case_match; [unfold EBUSY|]; lia.
    + intros Hm. apply Z.eqb_neq in Hm as ->. destruct (sim_fails c i); [done|].
      by case_bool_decide.
  - intros cs i. split; [by apply handle_range|].
    destruct (sim_fails c i); [done|]. by case_bool_decide.
  - intros ds i h devt. split; [by apply handle_range|].
    destruct (sim_fails c i); [done|]. by case_bool_decide.
Qed.

(** A kernel that has just started a module. *)
Definition booted (user : gmap Z Z) : kernel := mkKernel user ∅ [] [] [] [] 0 0.
(** User memory holding [l] at [p]. *)
Definition user_at (p : Z) (l : list Z) : gmap Z Z := uput ∅ p l.
