(* ===== verification/Memalloc.v ===== *)
(** * The buffer allocation driver

    [src/module_test/memalloc.c] and [memalloc.h]: a character device that
    hands out physically contiguous buffers to a video encoder, frees them,
    maps them into the process, and frees what is left at the last close.
    The list [heap_list] is a list of entries in list order; an entry carries
    the address of its own [kzalloc]ed node. *)
From S2P Require Import Prelude CInt CMonad CStruct Kernel.

(** ** memalloc.h *)
Definition MEMALLOC_IOC_MAGIC : Z := 107. (* 'k' *)
Definition MEMALLOC_IOCXGETBUFFER : Z := _IOWR MEMALLOC_IOC_MAGIC 1 (tsize Tulong).
Definition MEMALLOC_IOCSFREEBUFFER : Z := _IOW MEMALLOC_IOC_MAGIC 2 (tsize Tulong).
Definition MEMALLOC_IOCHARDRESET : Z := _IO MEMALLOC_IOC_MAGIC 3.
Definition MEMALLOC_IOC_MAXNR : Z := 3.

(** ** State *)
Record allocation := mkAllocation {
  entry : Z;
  phys_addr : Z;
  cpu_addr : Z;
  size : Z;
}.
(** [sizeof(struct allocation)]: a list head and three words. *)
Definition allocation_size : Z :=
  Z.of_nat (sizeof (struct [("list", Tarr 2 Tptr); ("phys_addr", Tu32); ("cpu_addr", Tu32); ("size", Tu32)])).

Record globals := mkGlobals {
  memalloc_major : Z;
  memalloc_class : Z;
  open_count : Z;
  mem_lock : bool;
  heap_list : list allocation;
}.
Definition memalloc_globals : globals := mkGlobals 0 0 0 false [].

Definition set_major (v : Z) (g : globals) : globals :=
  mkGlobals v (memalloc_class g) (open_count g) (mem_lock g) (heap_list g).
Definition set_class (v : Z) (g : globals) : globals :=
  mkGlobals (memalloc_major g) v (open_count g) (mem_lock g) (heap_list g).
Definition set_open_count (v : Z) (g : globals) : globals :=
  mkGlobals (memalloc_major g) (memalloc_class g) v (mem_lock g) (heap_list g).
Definition set_lock (v : bool) (g : globals) : globals :=
  mkGlobals (memalloc_major g) (memalloc_class g) (open_count g) v (heap_list g).
Definition set_heap (v : list allocation) (g : globals) : globals :=
  mkGlobals (memalloc_major g) (memalloc_class g) (open_count g) (mem_lock g) v.

(** What [mmap] gets from the kernel. *)
Record vm_area := mkVma {
  vm_start : Z;
  vm_end : Z;
  vm_pgoff : Z;
  vm_reserved : bool;
  vm_noncached : bool;
}.
Definition PAGE_SHIFT : Z := 12.
Definition PAGE_ALIGN (n : Z) : Z := Z.land (u32 (n + 4095)) 0xfffff000.

Section Driver.
Context `{Kernel} (DEBUG : bool).
Abbreviation W := (world unit globals).

Definition getg {A} (f : globals -> A) : M W A := gets (fun w => f (glob w)).
Definition setg (f : globals -> globals) : M W unit := modify (fun w => set_glob (f (glob w)) w).
Definition pr_debug (f : string) (a : list parg) : M W unit := debugk DEBUG f a.

(** [list_del] and [list_add_tail] of [<linux/list.h>]. *)
Definition list_del (node : Z) : M W unit :=
  setg (fun g => set_heap (List.filter (fun e => negb (entry e =? node)) (heap_list g)) g).
Definition list_add_tail (e : allocation) : M W unit :=
  setg (fun g => set_heap (heap_list g ++ [e]) g).

Definition spin_lock : M W unit :=
  l ← getg mem_lock; if (l : bool) then no_fuel else setg (set_lock true).
Definition spin_unlock : M W unit := setg (set_lock false).

Fixpoint free_loop (fuel : nat) : M W unit :=
  l ← getg heap_list;
  match l, fuel with
  | [], _ => skip
  | _, O => no_fuel
  | e :: _, S fuel =>
      pr_debug "memalloc freeall: phys = %x, virt = %x size = %d\n"
        [AInt (phys_addr e); AInt (cpu_addr e); AInt (size e)];;
      dma_free_coherent (size e) (cpu_addr e) (phys_addr e);;
      list_del (entry e);;
      kfree (entry e);;
      free_loop fuel
  end.
Definition memalloc_free_buffers : M W unit :=
  l ← getg heap_list;
  free_loop (length l);;
  pr_debug "memalloc freed all buffers\n" [].

Definition FindEntryByBus (phys : Z) : M W (option allocation) :=
  getg (fun g => List.find (fun e => phys_addr e =? phys) (heap_list g)).

(** [*phys_addr] comes in and goes out. *)
Definition AllocMemory (phys : Z) (n : Z) : M W (Z * Z) :=
  node ← kzalloc allocation_size;
  if node =? 0 then
    pr_debug "memalloc: failed to alloc entry\n" [];;
    mret (- ENOMEM, phys)
  else
    let n := PAGE_ALIGN n in
    '(cpu, bus) ← dma_alloc_coherent n;
    if cpu =? 0 then
      pr_debug "memalloc: failed to alloc memory\n" [];;
      mret (- ENOMEM, 0)
    else
      pr_debug "memalloc alloc: phys = %x, virt = %x size = %d\n" [AInt bus; AInt cpu; AInt n];;
      list_add_tail (mkAllocation node bus cpu n);;
      mret (0, bus).

Definition FreeMemory (phys : Z) : M W Z :=
  e ← FindEntryByBus phys;
  match e with
  | None => mret (- EINVAL)
  | Some e =>
      pr_debug "memalloc free: phys = %x, virt = %x size = %d\n"
        [AInt (phys_addr e); AInt (cpu_addr e); AInt (size e)];;
      list_del (entry e);;
      dma_free_coherent (size e) (cpu_addr e) (phys_addr e);;
      kfree (entry e);;
      mret 0
  end.

Definition MapBuffer (vma : vm_area) : M W (Z * vm_area) :=
  let offset := u32 (Z.shiftl (vm_pgoff vma) PAGE_SHIFT) in
  let start := u32 (vm_start vma) in
  let n := u32 (vm_end vma - vm_start vma) in
  e ← FindEntryByBus offset;
  match e with
  | None =>
      pr_debug "mmap failed, map buffer entry not found in list\n" [];;
      mret (- EINVAL, vma)
  | Some e =>
      if negb (n =? size e) then
        pr_debug "mmap failed, buffer size does not match\n" [];;
        mret (- EINVAL, vma)
      else
        let vma := mkVma (vm_start vma) (vm_end vma) (vm_pgoff vma) true true in
        r ← remap_pfn_range start (Z.shiftr (phys_addr e) PAGE_SHIFT) n;
        if truth r then
          pr_debug "mmap failed\n" [];;
          mret (- EAGAIN, vma)
        else mret (0, vma)
  end.

(** ** File operations *)
Definition memalloc_mmap (vma : vm_area) : M W (Z * vm_area) :=
  spin_lock;;
  r ← MapBuffer vma;
  spin_unlock;;
  mret r.

Definition ioctl_switch (cmd arg : Z) : M W Z :=
  if cmd =? MEMALLOC_IOCHARDRESET then
    memalloc_free_buffers;; mret 0
  else if cmd =? MEMALLOC_IOCXGETBUFFER then
    '(_, n) ← __get_user arg;
    '(retval, phys) ← AllocMemory 0 n;
    _ ← __put_user phys arg;
    mret retval
  else if cmd =? MEMALLOC_IOCSFREEBUFFER then
    '(_, phys) ← __get_user arg;
    FreeMemory phys
  else mret (- EINVAL).
Definition memalloc_ioctl (cmd arg : Z) : M W Z :=
  if negb (_IOC_TYPE cmd =? MEMALLOC_IOC_MAGIC) then mret (- ENOTTY)
  else if MEMALLOC_IOC_MAXNR <? _IOC_NR cmd then mret (- ENOTTY)
  else
    let err :=
      if truth (Z.land (_IOC_DIR cmd) _IOC_READ) then negb (access_ok arg (_IOC_SIZE cmd))
      else if truth (Z.land (_IOC_DIR cmd) _IOC_WRITE) then negb (access_ok arg (_IOC_SIZE cmd))
      else false in
    if err : bool then mret (- EFAULT)
    else ioctl_switch cmd arg.

Definition memalloc_open : M W Z :=
  setg (fun g => set_open_count (i32 (open_count g + 1)) g);;
  pr_debug "memalloc device opened\n" [];;
  mret 0.

Definition memalloc_release : M W Z :=
  setg (fun g => set_open_count (i32 (open_count g - 1)) g);;
  c ← getg open_count;
  when (c =? 0) memalloc_free_buffers;;
  pr_debug "memalloc device closed\n" [];;
  mret 0.

(** ** Loading and unloading *)
Definition init_error1 : M W Z :=
  major ← getg memalloc_major;
  unregister_chrdev major "memalloc";;
  printk (KERN_INFO ++ "memalloc: Error! \n") [];;
  mret (- EIO).
Definition init_error2 : M W Z :=
  class ← getg memalloc_class;
  class_destroy class;;
  init_error1.
Definition memalloc_init : M W Z :=
  major ← getg memalloc_major;
  result ← register_chrdev major "memalloc";
  if result <=? 0 then
    pr_debug "memalloc: unable to get major\n" [];;
    mret (- EIO)
  else
    setg (set_major result);;
    class ← class_create "memalloc";
    setg (set_class class);;
    if IS_ERR class then
      pr_debug "memalloc: error creating memalloc class\n" [];;
      init_error1
    else
      temp_class ← device_create class (MKDEV result 0) "memalloc";
      if IS_ERR temp_class then
        pr_debug "memalloc: Error creating class device\n" [];;
        init_error2
      else
        printk (KERN_INFO ++ "memalloc: module inserted\n") [];;
        mret 0.

Definition memalloc_cleanup : M W unit :=
  major ← getg memalloc_major;
  class ← getg memalloc_class;
  device_destroy class (MKDEV major 0);;
  class_destroy class;;
  unregister_chrdev major "memalloc";;
  memalloc_free_buffers;;
  printk (KERN_INFO ++ "memalloc: module removed\n") [].
End Driver.
