(* ===== verification/MemallocSpec.v ===== *)
(** * What the buffer driver promises

    The buffers a process can see are a finite map from bus addresses to
    sizes.  [step] is the specification of the file operations on that map;
    every operation of the driver refines it and keeps the list, the
    allocations and the map consistent. *)
From S2P Require Import Prelude CInt CMonad CStruct Kernel SimKernel Memalloc.

(** ** The invariant *)
Definition owns (m : gmap Z block) (e : allocation) : Prop :=
  ZERO_SIZE_PTR < entry e /\ cpu_addr e <> 0 /\
  (exists bs, m !! entry e = Some (mkBlock Kmalloc bs)) /\
  (exists bs, m !! cpu_addr e = Some (mkBlock (Dma (phys_addr e)) bs) /\ zlen bs = size e).

(** Every entry owns its node and its buffer, entries are distinct, and every
    DMA allocation belongs to an entry. *)
Record heap_ok (m : gmap Z block) (l : list allocation) : Prop := {
  ok_owns : forall e, e ∈ l -> owns m e;
  ok_entry : NoDup (map entry l);
  ok_cpu : NoDup (map cpu_addr l);
  ok_phys : NoDup (map phys_addr l);
  ok_dma : forall p phys bs, m !! p = Some (mkBlock (Dma phys) bs) ->
    exists e, e ∈ l /\ cpu_addr e = p;
}.

Definition drop_entry (node : Z) (l : list allocation) : list allocation :=
  List.filter (fun e => negb (entry e =? node)) l.

Section HeapOk.
Implicit Types (m : gmap Z block) (l : list allocation) (e : allocation).

Lemma heap_ok_nil m : (forall p phys bs, m !! p <> Some (mkBlock (Dma phys) bs)) -> heap_ok m [].
Proof.
  intros Hm. split; try (by constructor).
  - intros e He. by apply not_elem_of_nil in He.
  - intros p phys bs E. by destruct (Hm p phys bs).
Qed.

Lemma owns_insert m e p b : owns m e -> m !! p = None -> owns (<[p := b]> m) e.
Proof.
  intros (? & ? & (bs & H1) & (bs' & H2 & ?)) Hp.
  assert (p <> entry e) by congruence. assert (p <> cpu_addr e) by congruence.
  repeat split; try done; eexists; rewrite lookup_insert_ne by done; eauto.
Qed.

Lemma heap_ok_kmalloc m l p bs :
  heap_ok m l -> m !! p = None -> heap_ok (<[p := mkBlock Kmalloc bs]> m) l.
Proof.
  intros [Ho He Hc Hp Hd] Hn. split; try done.
  - intros e Hin. by apply owns_insert; auto.
  - intros q phys bs'. rewrite lookup_insert. case_decide; [done|]. apply Hd.
Qed.

Lemma heap_ok_add m l node bs cpu phys bs' :
  heap_ok m l -> m !! node = Some (mkBlock Kmalloc bs) -> ZERO_SIZE_PTR < node ->
  (forall e, e ∈ l -> entry e <> node) ->
  m !! cpu = None -> cpu <> 0 -> phys_free m phys ->
  heap_ok (<[cpu := mkBlock (Dma phys) bs']> m) (l ++ [mkAllocation node phys cpu (zlen bs')]).
Proof.
  intros [Ho He Hc Hp Hd] Hn Hz Hne Hcpu H0 Hph.
  assert (cpu <> node) by congruence.
  assert (forall e, e ∈ l -> cpu_addr e <> cpu /\ phys_addr e <> phys) as Hd'.
  { intros e (? & ? & _ & (b & H2 & ?))%Ho. split; [congruence|]. intros <-. by apply Hph in H2. }
  split.
  - intros e. rewrite elem_of_app, list_elem_of_singleton. intros [Hin| ->].
    + by apply owns_insert; auto.
    + repeat split; simpl; try done.
      * exists bs. by rewrite lookup_insert_ne.
      * exists bs'. by rewrite lookup_insert_eq.
  - rewrite map_app. apply NoDup_app. split; [done|]. split; [|apply NoDup_singleton].
    intros x (e & Ex & Hin)%list_elem_of_fmap_1 Hx%list_elem_of_singleton.
    simpl in Hx. subst. by apply (Hne e).
  - rewrite map_app. apply NoDup_app. split; [done|]. split; [|apply NoDup_singleton].
    intros x (e & -> & Hin)%list_elem_of_fmap_1 Hx%list_elem_of_singleton. simpl in Hx.
    apply Hd' in Hin. tauto.
  - rewrite map_app. apply NoDup_app. split; [done|]. split; [|apply NoDup_singleton].
    intros x (e & -> & Hin)%list_elem_of_fmap_1 Hx%list_elem_of_singleton. simpl in Hx.
    apply Hd' in Hin. tauto.
  - intros q ph b. rewrite lookup_insert. case_decide.
    + intros _. eexists. rewrite elem_of_app, list_elem_of_singleton. split; [by right|done].
    + intros (e & ? & ?)%Hd. exists e. rewrite elem_of_app. auto.
Qed.

Lemma elem_of_drop node l e : e ∈ drop_entry node l <-> e ∈ l /\ entry e <> node.
Proof. unfold drop_entry. rewrite elem_of_lfilter, negb_true_iff, Z.eqb_neq. done. Qed.

Lemma heap_ok_drop m l e :
  heap_ok m l -> e ∈ l ->
  heap_ok (delete (entry e) (delete (cpu_addr e) m)) (drop_entry (entry e) l).
Proof.
  intros [Ho He Hc Hp Hd] Hin. pose proof (Ho e Hin) as (Hz & H0 & (bs & H1) & (bs' & H2 & Hs)).
  split; try by apply nodup_map_filter.
  - intros x [Hx Hne]%elem_of_drop. pose proof (Ho x Hx) as (? & ? & (c & H3) & (c' & H4 & ?)).
    assert (cpu_addr x <> cpu_addr e).
    { intros E. pose proof (nodup_map_inj cpu_addr l x e Hc Hx Hin E). congruence. }
    assert (entry x <> cpu_addr e) by congruence. assert (cpu_addr x <> entry e) by congruence.
    repeat split; try done; eexists; rewrite !lookup_delete_ne by done; eauto.
  - intros q ph b. rewrite !lookup_delete. repeat case_decide; try done.
    intros (x & Hx & <-)%Hd. exists x. split; [|done]. apply elem_of_drop. split; [done|].
    intros E. pose proof (nodup_map_inj entry l x e He Hx Hin E). congruence.
Qed.

Lemma find_phys l phys e :
  List.find (fun e => phys_addr e =? phys) l = Some e -> e ∈ l /\ phys_addr e = phys.
Proof. intros [? ?]%find_some. rewrite list_elem_of_In. split; [done|]. by apply Z.eqb_eq. Qed.
End HeapOk.

(** ** The abstract state *)
Definition bufs (l : list allocation) : gmap Z Z :=
  list_to_map (map (fun e => (phys_addr e, size e)) l).

Section Bufs.
Implicit Types l : list allocation.
Lemma bufs_find l phys :
  bufs l !! phys = size <$> List.find (fun e => phys_addr e =? phys) l.
Proof.
  unfold bufs. induction l as [|e l IH]; simpl; [done|].
  rewrite lookup_insert. destruct (Z.eqb_spec (phys_addr e) phys); case_decide; try done.
Qed.

Lemma bufs_elem l e :
  NoDup (map phys_addr l) -> e ∈ l -> bufs l !! phys_addr e = Some (size e).
Proof.
  intros Hn He. rewrite bufs_find. destruct (List.find _ _) as [y|] eqn:Hy; simpl.
  - apply find_phys in Hy as [Hy Hp]. by rewrite (nodup_map_inj phys_addr l y e Hn Hy He Hp).
  - apply list_elem_of_In in He. apply (find_none _ _ Hy) in He. by rewrite Z.eqb_refl in He.
Qed.

Lemma bufs_app l e :
  phys_addr e ∉ map phys_addr l -> bufs (l ++ [e]) = <[phys_addr e := size e]> (bufs l).
Proof.
  unfold bufs. induction l as [|x l IH]; simpl; [done|]. rewrite not_elem_of_cons. intros [? Hn].
  rewrite IH by done. by apply insert_insert_ne.
Qed.

Lemma bufs_drop l e :
  NoDup (map entry l) -> NoDup (map phys_addr l) -> e ∈ l ->
  bufs (drop_entry (entry e) l) = delete (phys_addr e) (bufs l).
Proof.
  intros He Hp Hin. apply map_eq. intros phys. rewrite lookup_delete, !bufs_find.
  destruct (List.find _ (drop_entry _ _)) as [x|] eqn:Hx; simpl.
  - apply find_phys in Hx as [[Hx Hne]%elem_of_drop <-]. case_decide as Hph.
    + destruct Hne. by rewrite (nodup_map_inj phys_addr l e x Hp Hin Hx Hph).
    + destruct (List.find _ l) as [y|] eqn:Hy; simpl.
      * apply find_phys in Hy as [Hy Hyx]. by rewrite (nodup_map_inj phys_addr l y x Hp Hy Hx Hyx).
      * apply list_elem_of_In in Hx. apply (find_none _ _ Hy) in Hx. by rewrite Z.eqb_refl in Hx.
  - case_decide as Hph; [done|]. destruct (List.find _ l) as [y|] eqn:Hy; simpl; [|done].
    apply find_phys in Hy as [Hy <-].
    assert (y ∈ drop_entry (entry e) l) as Hd.
    { apply elem_of_drop. split; [done|]. intros E.
      by rewrite (nodup_map_inj entry l y e He Hy Hin E) in Hph. }
    apply list_elem_of_In in Hd. apply (find_none _ _ Hx) in Hd. by rewrite Z.eqb_refl in Hd.
Qed.
End Bufs.

(** ** The operations on the list *)
Section Ops.
Context `{KL : KernelLaws} (DEBUG : bool) (U : Prop).
Abbreviation W := (world unit globals).
Implicit Types (w : W) (E : Z -> W -> Prop).

(** What the list operations leave alone. *)
Definition rest (w : W) :=
  (ubytes (kern w), vmaps (kern w), chrdevs (kern w), classes (kern w), devices (kern w),
   (memalloc_major (glob w), memalloc_class (glob w), open_count (glob w), mem_lock (glob w))).
Definition ok (w : W) : Prop := heap_ok (kmem (kern w)) (heap_list (glob w)).

Lemma wp_getg {A} (f : globals -> A) (Q : A -> W -> Prop) E w :
  Q (f (glob w)) w -> wpu U (getg f) Q E w.
Proof. done. Qed.
Lemma wp_setg f (Q : unit -> W -> Prop) E w :
  Q tt (set_glob (f (glob w)) w) -> wpu U (setg f) Q E w.
Proof. done. Qed.
Lemma wp_pr_debug f a (Q : unit -> W -> Prop) E w :
  (forall l, Q tt (mkWorld (kern w) (dev w) (glob w) l)) -> wpu U (pr_debug DEBUG f a) Q E w.
Proof. apply wp_debugk. Qed.

Lemma AllocMemory_wp phys n E w :
  ok w ->
  wpu U (AllocMemory DEBUG phys n) (fun '(r, out) w' =>
    rest w' = rest w /\ ok w' /\
    ((r = - ENOMEM /\ heap_list (glob w') = heap_list (glob w)) \/
     (r = 0 /\ (out ∉ map phys_addr (heap_list (glob w))) /\
      exists node cpu bs bs', heap_list (glob w') =
        (heap_list (glob w) ++ [mkAllocation node out cpu (PAGE_ALIGN n)])%list /\
        kmem (kern w) !! node = None /\ kmem (kern w) !! cpu = None /\ node <> cpu /\
        kmem (kern w') = <[cpu := mkBlock (Dma out) bs']> (<[node := mkBlock Kmalloc bs]> (kmem (kern w))))))
    E w.
Proof.
  intros Hok. unfold AllocMemory. apply wp_bind, wp_kzalloc; [done| |].
  - simpl. apply wp_bind, wp_pr_debug. intros l. wp_steps. simpl. auto.
  - intros node Hnode Hfree. destruct (Z.eqb_spec node 0); [unfold ZERO_SIZE_PTR in *; lia|].
    assert (forall e, e ∈ heap_list (glob w) -> entry e <> node) as Hne.
    { intros e (? & ? & (bs & H1) & _)%(ok_owns _ _ Hok). congruence. }
    apply wp_bind, wp_dma_alloc.
    + simpl. apply wp_bind, wp_pr_debug. intros l. wp_steps. simpl.
      split; [done|]. split; [by apply heap_ok_kmalloc|]. by left.
    + intros cpu out bs Hcpu Hcf Hout Hpf Hlen _. destruct (Z.eqb_spec cpu 0); [lia|].
      apply wp_bind, wp_pr_debug. intros l. apply wp_bind, wp_setg, wp_ret. simpl.
      simpl in Hcf, Hpf. rewrite <- Hlen.
      split; [done|]. split.
      * unfold ok. simpl. apply heap_ok_add with (replicate (Z.to_nat allocation_size) 0);
          [by apply heap_ok_kmalloc|by rewrite lookup_insert_eq|lia|done..].
      * assert (node <> cpu) by (intros ->; by rewrite lookup_insert_eq in Hcf).
        right. split; [done|]. split.
        2: { do 4 eexists. split_and!; try done. by rewrite lookup_insert_ne in Hcf. }
        intros (e & -> & He)%list_elem_of_fmap_1.
        apply (ok_owns _ _ Hok) in He as (? & ? & _ & (b & H2 & ?)).
        apply (Hpf (cpu_addr e) (mkBlock (Dma (phys_addr e)) b)); [|done].
        rewrite lookup_insert_ne; [done|]. congruence.
Qed.

Lemma release_wp (l : list allocation) e {A} (k : M W A) Q E w :
  ok w -> e ∈ heap_list (glob w) ->
  (forall w', rest w' = rest w -> ok w' ->
     heap_list (glob w') = drop_entry (entry e) (heap_list (glob w)) ->
     kmem (kern w') = delete (entry e) (delete (cpu_addr e) (kmem (kern w))) -> wpu U k Q E w') ->
  wpu U (list_del (entry e);; dma_free_coherent (size e) (cpu_addr e) (phys_addr e);;
         kfree (entry e);; k) Q E w /\
  wpu U (dma_free_coherent (size e) (cpu_addr e) (phys_addr e);; list_del (entry e);;
         kfree (entry e);; k) Q E w.
Proof.
  intros Hok He Hk. pose proof (ok_owns _ _ Hok e He) as (Hz & H0 & (bs & H1) & (bs' & H2 & Hs)).
  assert (cpu_addr e <> entry e) by congruence.
  split.
  - apply wp_bind, wp_setg, wp_bind, wp_dma_free with bs'; [done|done|].
    apply wp_bind, wp_kfree with bs; [done|simpl; by rewrite lookup_delete_ne|].
    apply Hk; [done| |done|done]. unfold ok. simpl. by apply heap_ok_drop.
  - apply wp_bind, wp_dma_free with bs'; [done|done|]. apply wp_bind, wp_setg.
    apply wp_bind, wp_kfree with bs; [done|simpl; by rewrite lookup_delete_ne|].
    apply Hk; [done| |done|done]. unfold ok. simpl. by apply heap_ok_drop.
Qed.

Lemma FreeMemory_wp phys E w :
  ok w ->
  wpu U (FreeMemory DEBUG phys) (fun r w' =>
    rest w' = rest w /\ ok w' /\
    ((r = - EINVAL /\ heap_list (glob w') = heap_list (glob w) /\
      bufs (heap_list (glob w)) !! phys = None) \/
     (r = 0 /\ exists e, e ∈ heap_list (glob w) /\ phys_addr e = phys /\
      heap_list (glob w') = drop_entry (entry e) (heap_list (glob w)) /\
      kmem (kern w') = delete (entry e) (delete (cpu_addr e) (kmem (kern w)))))) E w.
Proof.
  intros Hok. unfold FreeMemory, FindEntryByBus. apply wp_bind, wp_getg.
  destruct (List.find _ _) as [e|] eqn:Hf.
  - apply find_phys in Hf as [He <-]. apply wp_bind, wp_pr_debug. intros l.
    apply (release_wp []); [done|done|]. simpl. intros w' Hr Hok' Hl Hm. apply wp_ret.
    split; [done|]. split; [done|]. right. eauto 10.
  - apply wp_ret. split; [done|]. split; [done|]. left. by rewrite bufs_find, Hf.
Qed.

Lemma free_loop_wp n E w :
  ok w -> (length (heap_list (glob w)) <= n)%nat ->
  wpu U (free_loop DEBUG n) (fun _ w' =>
    rest w' = rest w /\ ok w' /\ heap_list (glob w') = []) E w.
Proof.
  revert w. induction n as [|n IH]; intros w Hok Hn; simpl; apply wp_bind, wp_getg;
    (destruct (heap_list (glob w)) as [|e l] eqn:El; [by apply wp_skip|]); simpl in Hn; [lia|].
  apply wp_bind, wp_pr_debug. intros lg.
  apply (release_wp l e); [done|simpl; rewrite El; by constructor|]. simpl. intros w' Hr Hok' Hl _.
  eapply wp_mono; [apply IH; [done|]|].
  - rewrite Hl, El. unfold drop_entry. simpl. rewrite Z.eqb_refl. simpl.
    etrans; [apply filter_length_le|]. lia.
  - intros _ w'' (Hr' & ?). split; [|done]. by rewrite Hr', Hr.
Qed.

Lemma free_buffers_wp E w :
  ok w ->
  wpu U (memalloc_free_buffers DEBUG) (fun _ w' =>
    rest w' = rest w /\ ok w' /\ heap_list (glob w') = []) E w.
Proof.
  intros Hok. unfold memalloc_free_buffers. apply wp_bind, wp_getg, wp_bind.
  eapply wp_mono; [by apply free_loop_wp|]. intros _ w' (? & ? & ?).
  apply wp_pr_debug. by intros l.
Qed.

(** The buffer a mapping asks for. *)
Definition vma_offset (vma : vm_area) : Z := u32 (Z.shiftl (vm_pgoff vma) PAGE_SHIFT).
Definition vma_size (vma : vm_area) : Z := u32 (vm_end vma - vm_start vma).

Lemma MapBuffer_wp vma E w :
  ok w ->
  wpu U (MapBuffer DEBUG vma) (fun '(r, _) w' =>
    heap_list (glob w') = heap_list (glob w) /\ mem_lock (glob w') = mem_lock (glob w) /\
    open_count (glob w') = open_count (glob w) /\
    ubytes (kern w') = ubytes (kern w) /\ ok w' /\
    let b := bufs (heap_list (glob w)) !! vma_offset vma in
    ((r = - EINVAL /\ b <> Some (vma_size vma) /\ vmaps (kern w') = vmaps (kern w)) \/
     (r = - EAGAIN /\ b = Some (vma_size vma) /\ vmaps (kern w') = vmaps (kern w)) \/
     (r = 0 /\ b = Some (vma_size vma) /\
      vmaps (kern w') = mkVmap (u32 (vm_start vma)) (Z.shiftr (vma_offset vma) PAGE_SHIFT)
        (vma_size vma) :: vmaps (kern w)))) E w.
Proof.
  intros Hok. unfold MapBuffer, FindEntryByBus. fold (vma_offset vma) (vma_size vma).
  apply wp_bind, wp_getg. rewrite bufs_find.
  destruct (List.find _ _) as [e|] eqn:Hf; simpl.
  2: { apply wp_bind, wp_pr_debug. intros l. apply wp_ret. simpl. split_and!; try done. naive_solver. }
  apply find_phys in Hf as [He Hph]. destruct (Z.eqb_spec (vma_size vma) (size e)) as [Hs|Hs]; simpl.
  2: { apply wp_bind, wp_pr_debug. intros l. apply wp_ret. simpl. split_and!; try done. left.
       split; [done|]. split; [congruence|done]. }
  apply wp_bind. unfold wpu at 1, remap_pfn_range. unfold truth.
  destruct (Z.eqb_spec (o_remap (calls (kern w))) 0); simpl.
  - rewrite Hph, <- Hs. split_and!; try done. naive_solver.
  - apply wp_bind, wp_pr_debug. intros l. apply wp_ret. simpl. rewrite <- Hs.
    split_and!; try done. naive_solver.
Qed.
End Ops.

(** ** The specification

    [request] is what a file operation asks for, with the argument read from
    user memory; [step] says what the driver may do with it. *)
Inductive request :=
  | Reset
  | Get (arg n : Z)
  | Free (phys : Z)
  | Map (vma : vm_area)
  | Open
  | Release
  | Reject (err : Z).
Record astate := mkA { a_bufs : gmap Z Z; a_maps : list vmap; a_opens : Z }.

Inductive step : request -> astate -> Z -> Z -> astate -> Prop :=
  | step_reset b m c out : step Reset (mkA b m c) 0 out (mkA ∅ m c)
  | step_get b m c arg n phys :
      b !! phys = None ->
      step (Get arg n) (mkA b m c) 0 phys (mkA (<[phys := PAGE_ALIGN n]> b) m c)
  | step_no_memory s arg n out : step (Get arg n) s (- ENOMEM) out s
  | step_free b m c phys n out :
      b !! phys = Some n -> step (Free phys) (mkA b m c) 0 out (mkA (delete phys b) m c)
  | step_free_unknown s phys out :
      a_bufs s !! phys = None -> step (Free phys) s (- EINVAL) out s
  | step_map b m c vma out :
      b !! vma_offset vma = Some (vma_size vma) ->
      step (Map vma) (mkA b m c) 0 out
        (mkA b (mkVmap (u32 (vm_start vma)) (Z.shiftr (vma_offset vma) PAGE_SHIFT) (vma_size vma) :: m) c)
  | step_map_busy s vma out :
      a_bufs s !! vma_offset vma = Some (vma_size vma) -> step (Map vma) s (- EAGAIN) out s
  | step_map_wrong s vma out :
      a_bufs s !! vma_offset vma <> Some (vma_size vma) -> step (Map vma) s (- EINVAL) out s
  | step_open b m c out : step Open (mkA b m c) 0 out (mkA b m (i32 (c + 1)))
  | step_release b m c out :
      step Release (mkA b m c) 0 out
        (mkA (if i32 (c - 1) =? 0 then ∅ else b) m (i32 (c - 1)))
  | step_reject s err out : 0 < err -> step (Reject err) s (- err) out s.

Inductive call :=
  | Ioctl (cmd arg : Z)
  | Mmap (vma : vm_area)
  | OpenFile
  | CloseFile.

(** The word a process passes by pointer. *)
Definition user_word (m : gmap Z Z) (p : Z) : Z :=
  let b := uread m p 4 in if (length b =? 4)%nat then of_le b else 0.

Section Calls.
Context `{Kernel}.
(** Errors of the commands that are none of the three. *)
Definition reject_code (cmd arg : Z) : Z :=
  if negb (_IOC_TYPE cmd =? MEMALLOC_IOC_MAGIC) || (MEMALLOC_IOC_MAXNR <? _IOC_NR cmd) then ENOTTY
  else if negb (_IOC_DIR cmd =? 0) && negb (access_ok arg (_IOC_SIZE cmd)) then EFAULT
  else EINVAL.
Definition decode (m : gmap Z Z) (c : call) : request :=
  match c with
  | Ioctl cmd arg =>
      if cmd =? MEMALLOC_IOCHARDRESET then Reset
      else if cmd =? MEMALLOC_IOCXGETBUFFER then
        if access_ok arg 4 then Get arg (user_word m arg) else Reject EFAULT
      else if cmd =? MEMALLOC_IOCSFREEBUFFER then
        if access_ok arg 4 then Free (user_word m arg) else Reject EFAULT
      else Reject (reject_code cmd arg)
  | Mmap vma => Map vma
  | OpenFile => Open
  | CloseFile => Release
  end.
(** User memory after the call: [Get] stores the bus address. *)
Definition reply (m : gmap Z Z) (r : request) (out : Z) : gmap Z Z :=
  match r with
  | Get arg _ => uput m arg (take (room m arg 4) (to_le 4 out))
  | _ => m
  end.

Definition run (DEBUG : bool) (c : call) : M (world unit globals) Z :=
  match c with
  | Ioctl cmd arg => memalloc_ioctl DEBUG cmd arg
  | Mmap vma => '(r, _) ← memalloc_mmap DEBUG vma; mret r
  | OpenFile => memalloc_open DEBUG
  | CloseFile => memalloc_release DEBUG
  end.
End Calls.

Definition abs (w : world unit globals) : astate :=
  mkA (bufs (heap_list (glob w))) (vmaps (kern w)) (open_count (glob w)).
Definition inv (w : world unit globals) : Prop :=
  heap_ok (kmem (kern w)) (heap_list (glob w)) /\ mem_lock (glob w) = false.

Section Refinement.
Context `{KL : KernelLaws} (DEBUG : bool) (U : Prop).
Abbreviation W := (world unit globals).
Implicit Types (w : W) (E : Z -> W -> Prop).

Definition refines (r : request) w (ret : Z) (w' : W) : Prop :=
  inv w' /\ exists out, step r (abs w) ret out (abs w') /\
    ubytes (kern w') = reply (ubytes (kern w)) r out.

(** From a fact about [rest], its components. *)
Lemma rest_eq w w' : rest w' = rest w ->
  ubytes (kern w') = ubytes (kern w) /\ vmaps (kern w') = vmaps (kern w) /\
  open_count (glob w') = open_count (glob w) /\ mem_lock (glob w') = mem_lock (glob w).
Proof. unfold rest. intros [=]. done. Qed.

Lemma get_refines arg n E w :
  inv w -> n = user_word (ubytes (kern w)) arg ->
  wpu U ('(_, n) ← __get_user arg;
         '(retval, phys) ← AllocMemory DEBUG 0 n;
         _ ← __put_user phys arg; mret retval) (refines (Get arg n) w) E w.
Proof.
  intros [Hok Hl] Hn.
  assert (exists e, __get_user arg w = (Ret (e, n), w)) as (e & He).
  { unfold __get_user, gets. rewrite Hn. unfold user_word. case_match; eauto. }
  eapply wp_bind_eq; [done|]. apply wp_bind. eapply wp_mono; [by apply AllocMemory_wp|].
  intros [r out] w' (Hr & Hok' & Hcase). apply rest_eq in Hr as (Hu & Hv & Ho & Hm).
  eapply wp_bind_eq; [reflexivity|]. apply wp_ret.
  unfold refines, inv, abs. simpl. rewrite Hv, Ho, Hm, Hu. split; [done|]. exists out.
  split; [|done]. destruct Hcase as [(-> & ->)|(-> & Hnew & node & cpu & bs & bs' & -> & _)].
  - constructor.
  - rewrite (bufs_app _ (mkAllocation node out cpu (PAGE_ALIGN n))) by done. constructor.
    rewrite bufs_find. destruct (List.find _ _) as [x|] eqn:Hx; [|done].
    apply find_phys in Hx as [Hx Ho']. simpl in Ho'. subst out. destruct Hnew.
    by apply list_elem_of_fmap_2.
Qed.

Lemma free_refines arg phys E w :
  inv w -> phys = user_word (ubytes (kern w)) arg ->
  wpu U ('(_, phys) ← __get_user arg; FreeMemory DEBUG phys) (refines (Free phys) w) E w.
Proof.
  intros [Hok Hl] Hn.
  assert (exists e, __get_user arg w = (Ret (e, phys), w)) as (e & He).
  { unfold __get_user, gets. rewrite Hn. unfold user_word. case_match; eauto. }
  eapply wp_bind_eq; [done|]. cbv beta iota. eapply wp_mono; [by apply FreeMemory_wp|].
  intros r w' (Hr & Hok' & Hcase). apply rest_eq in Hr as (Hu & Hv & Ho & Hm).
  unfold refines, inv, abs. rewrite Hv, Ho, Hm, Hu. split; [done|]. exists 0. split; [|done].
  destruct Hcase as [(-> & -> & Hb)|(-> & x & Hx & <- & -> & _)].
  - by constructor.
  - rewrite bufs_drop by (done || apply Hok). econstructor. apply bufs_elem; [apply Hok|done].
Qed.

Lemma reset_refines E w :
  inv w ->
  wpu U (memalloc_free_buffers DEBUG;; mret 0) (refines Reset w) E w.
Proof.
  intros [Hok Hl]. apply wp_bind. eapply wp_mono; [by apply free_buffers_wp|].
  intros _ w' (Hr & Hok' & Hnil). apply rest_eq in Hr as (Hu & Hv & Ho & Hm).
  apply wp_ret. unfold refines, inv, abs. rewrite Hv, Ho, Hm, Hu. split; [done|].
  exists 0. rewrite Hnil. split; [constructor|done].
Qed.

Lemma ioctl_refines cmd arg E w :
  inv w -> wpu U (memalloc_ioctl DEBUG cmd arg) (refines (decode (ubytes (kern w)) (Ioctl cmd arg)) w) E w.
Proof.
  intros Hinv. unfold decode.
  destruct (Z.eqb_spec cmd MEMALLOC_IOCHARDRESET) as [->|H1]; [by apply reset_refines|].
  assert (forall err, 0 < err -> wpu U (mret (- err)) (refines (Reject err) w) E w) as Hrej.
  { intros err Herr. apply wp_ret. split; [done|]. exists 0. split; [by constructor|done]. }
  destruct (Z.eqb_spec cmd MEMALLOC_IOCXGETBUFFER) as [->|H2].
  { unfold memalloc_ioctl. change (_IOC_SIZE MEMALLOC_IOCXGETBUFFER) with 4.
    simpl. destruct (access_ok arg 4); simpl; [by apply get_refines|]. by apply wp_ret, Hrej. }
  destruct (Z.eqb_spec cmd MEMALLOC_IOCSFREEBUFFER) as [->|H3].
  { unfold memalloc_ioctl. change (_IOC_SIZE MEMALLOC_IOCSFREEBUFFER) with 4.
    simpl. destruct (access_ok arg 4); simpl; [by apply free_refines|]. by apply wp_ret, Hrej. }
  unfold memalloc_ioctl, reject_code, ioctl_switch.
  destruct (_IOC_TYPE cmd =? MEMALLOC_IOC_MAGIC); cbn [negb orb]; [|by apply Hrej].
  destruct (MEMALLOC_IOC_MAXNR <? _IOC_NR cmd); [by apply Hrej|].
  apply Z.eqb_neq in H1 as ->, H2 as ->, H3 as ->.
  assert (_IOC_DIR cmd = 0 \/ _IOC_DIR cmd = 1 \/ _IOC_DIR cmd = 2 \/ _IOC_DIR cmd = 3) as Hd.
  { assert (in_uint 2 (_IOC_DIR cmd)) as [? ?] by (apply land_uint_r; [lia|unfold in_uint; lia]). lia. }
  destruct (access_ok arg (_IOC_SIZE cmd));
    destruct Hd as [->|[->|[->| ->]]]; by apply Hrej.
Qed.

Lemma mmap_refines vma E w :
  inv w -> wpu U ('(r, _) ← memalloc_mmap DEBUG vma; mret r) (refines (Map vma) w) E w.
Proof.
  intros [Hok Hl]. unfold memalloc_mmap, spin_lock, spin_unlock.
  apply wp_bind, wp_bind, wp_bind, wp_getg. rewrite Hl. apply wp_setg, wp_bind.
  eapply wp_mono; [by apply MapBuffer_wp|].
  intros [r v] w' (Hh & _ & Ho & Hu & Hok' & Hc). apply wp_bind, wp_setg, wp_ret, wp_ret.
  unfold refines, inv, abs. simpl in *. rewrite Hh, Ho, Hu. split; [by rewrite <- Hh|].
  exists 0. split; [|done].
  destruct Hc as [(-> & Hb & ->)|[(-> & Hb & ->)|(-> & Hb & ->)]]; by constructor.
Qed.

Lemma release_refines E w :
  inv w -> wpu U (memalloc_release DEBUG) (refines Release w) E w.
Proof.
  intros [Hok Hl]. unfold memalloc_release. apply wp_bind, wp_setg, wp_bind, wp_getg, wp_bind.
  simpl. assert (forall w', inv w' -> ubytes (kern w') = ubytes (kern w) ->
    vmaps (kern w') = vmaps (kern w) -> open_count (glob w') = i32 (open_count (glob w) - 1) ->
    bufs (heap_list (glob w')) =
      (if i32 (open_count (glob w) - 1) =? 0 then ∅ else bufs (heap_list (glob w))) ->
    wpu U (pr_debug DEBUG "memalloc device closed\n" [];; mret 0) (refines Release w) E w') as Hend.
  { intros w' Hi Hu Hv Ho Hb. apply wp_bind, wp_pr_debug. intros l. apply wp_ret.
    split; [done|]. exists 0. split; [|done]. unfold abs. simpl. rewrite Hv, Ho, Hb. constructor. }
  unfold when. destruct (_ =? 0) eqn:Hz.
  - eapply wp_mono; [by apply free_buffers_wp|]. intros _ w' (Hr & Hok' & Hnil).
    apply rest_eq in Hr as (Hu & Hv & Ho & Hm). apply Hend; [split|..]; try done.
    + by rewrite Hm.
    + by rewrite Hnil.
  - apply wp_skip, Hend; done.
Qed.
End Refinement.

(** ** Runs of the driver *)
Section Runs.
Context `{KL : KernelLaws} (DEBUG : bool).
Abbreviation W := (world unit globals).
Implicit Types (w : W).

Lemma run_refines c w :
  inv w ->
  wp (run DEBUG c) (refines (decode (ubytes (kern w)) c) w) (fun _ _ => False) w.
Proof.
  intros Hinv. destruct c as [cmd arg|vma| |].
  - by apply ioctl_refines.
  - by apply mmap_refines.
  - apply wp_bind, wp_setg, wp_bind, wp_pr_debug. intros l. apply wp_ret. destruct Hinv.
    split; [done|]. exists 0. split; [constructor|done].
  - by apply release_refines.
Qed.

Lemma run_result c w r w' :
  inv w -> run DEBUG c w = (Ret r, w') -> refines (decode (ubytes (kern w)) c) w r w'.
Proof. intros Hi E. pose proof (run_refines c w Hi) as Hw. unfold wpu in Hw. by rewrite E in Hw. Qed.

Lemma run_returns c w : inv w -> exists r w', run DEBUG c w = (Ret r, w').
Proof.
  intros Hi. pose proof (run_refines c w Hi) as Hw. unfold wpu in Hw.
  destruct (run DEBUG c w) as [[r|code| |] w']; try done. eauto.
Qed.

(** The system calls that can happen: the file is open for all but [open]. *)
Definition enabled (c : call) (w : W) : Prop :=
  match c with
  | OpenFile => open_count (glob w) < 2 ^ 31 - 1
  | _ => 0 < open_count (glob w)
  end.
(** An execution with its trace; processes write their memory between calls. *)
Inductive exec : list (request * Z) -> W -> W -> Prop :=
  | exec_nil w : exec [] w w
  | exec_call c r l w w1 w2 :
      enabled c w -> run DEBUG c w = (Ret r, w1) -> exec l w1 w2 ->
      exec ((decode (ubytes (kern w)) c, r) :: l) w w2
  | exec_user f l w w2 :
      exec l (set_kern (set_ubytes f) w) w2 -> exec l w w2.
Inductive steps : list (request * Z) -> astate -> astate -> Prop :=
  | steps_nil s : steps [] s s
  | steps_cons q r out l s s1 s2 :
      step q s r out s1 -> steps l s1 s2 -> steps ((q, r) :: l) s s2.

Definition no_dma (m : gmap Z block) : Prop :=
  forall p phys bs, m !! p <> Some (mkBlock (Dma phys) bs).
(** Buffers exist only while the device is open. *)
Definition safe (w : W) : Prop :=
  inv w /\ 0 <= open_count (glob w) < 2 ^ 31 /\
  (open_count (glob w) = 0 -> heap_list (glob w) = []).

Lemma bufs_nil l : bufs l = ∅ -> l = [].
Proof.
  destruct l as [|e l]; [done|]. intros H0. pose proof (f_equal (lookup (phys_addr e)) H0) as E.
  unfold bufs in E. simpl in E. by rewrite lookup_insert_eq in E.
Qed.

Lemma step_opens q s ret out s' :
  step q s ret out s' -> 0 <= a_opens s < 2 ^ 31 ->
  (match q with Open => a_opens s < 2 ^ 31 - 1 | _ => 0 < a_opens s end) ->
  0 <= a_opens s' < 2 ^ 31 /\ (a_opens s' = 0 -> a_bufs s' = ∅).
Proof.
  intros Hs Hr He. inversion Hs; subst; simpl in *; try (split; [lia|intros; lia]).
  - rewrite swrap_id by (unfold in_sint; lia). split; lia.
  - rewrite swrap_id by (unfold in_sint; lia). split; [lia|]. by intros ->.
Qed.

Lemma enabled_request c w :
  enabled c w ->
  match decode (ubytes (kern w)) c with
  | Open => open_count (glob w) < 2 ^ 31 - 1
  | _ => 0 < open_count (glob w)
  end.
Proof. destruct c; simpl; try done. by repeat case_match. Qed.

Lemma call_safe c r w w' :
  safe w -> enabled c w -> run DEBUG c w = (Ret r, w') ->
  safe w' /\ exists out, step (decode (ubytes (kern w)) c) (abs w) r out (abs w').
Proof.
  intros (Hi & Ho & H0) He Hrun. apply run_result in Hrun as (Hi' & out & Hs & _); [|done].
  split; [|by eauto]. split; [done|].
  destruct (step_opens _ _ _ _ _ Hs Ho (enabled_request c w He)) as [Ho' Hb].
  split; [done|]. intros E. by apply bufs_nil, Hb.
Qed.

Lemma exec_safe l w w' : exec l w w' -> safe w -> safe w' /\ steps l (abs w) (abs w').
Proof.
  induction 1 as [w|c r l w w1 w2 He Hr _ IH|f l w w2 _ IH]; intros Hs.
  - split; [done|constructor].
  - destruct (call_safe c r w w1 Hs He Hr) as [Hs1 [out Hst]]. destruct (IH Hs1) as [Hs2 Hl].
    split; [done|]. by econstructor.
  - by apply IH.
Qed.
End Runs.

(** ** Loading *)
Section Loading.
Context `{KL : KernelLaws} (DEBUG : bool) (U : Prop).
Abbreviation W := (world unit globals).
Implicit Types (w : W) (E : Z -> W -> Prop).

Definition same_heap (w w' : W) : Prop :=
  heap_list (glob w') = heap_list (glob w) /\ kmem (kern w') = kmem (kern w).

Lemma memalloc_init_wp (Q : Z -> W -> Prop) E w :
  memalloc_major (glob w) = 0 ->
  (forall w', regs w' = regs w /\ same_heap w w' -> Q (- EIO) w') ->
  (forall w' major h,
     chrdevs (kern w') = (major, "memalloc"%string) :: chrdevs (kern w) /\
     classes (kern w') = (h, "memalloc"%string) :: classes (kern w) /\
     devices (kern w') = (h, MKDEV major 0, "memalloc"%string) :: devices (kern w) ->
     major ∉ (chrdevs (kern w)).*1 -> h ∉ (classes (kern w)).*1 ->
     (h, MKDEV major 0) ∉ (devices (kern w)).*1 ->
     memalloc_major (glob w') = major /\ memalloc_class (glob w') = h ->
     same_heap w w' -> Q 0 w') ->
  wpu U (memalloc_init DEBUG) Q E w.
Proof.
  intros Hm Hf Hs. unfold memalloc_init. apply wp_bind, wp_getg. rewrite Hm.
  apply wp_bind, wp_register_any.
  { intros r Hr. apply Z.lt_le_incl, Z.leb_le in Hr as ->.
    apply wp_bind, wp_pr_debug. intros lg. by apply wp_ret, Hf. }
  intros major Hmaj Hfresh. destruct (Z.leb_spec major 0); [lia|].
  apply wp_bind, wp_setg, wp_bind, wp_class_create.
  { intros h Hh _. apply wp_bind, wp_setg. rewrite Hh. apply wp_bind, wp_pr_debug. intros lg.
    unfold init_error1. apply wp_bind, wp_getg. wp_steps. apply Hf. split; [|done].
    unfold regs. simpl. by rewrite drop_key_cons. }
  intros h Hh Hhf. apply wp_bind, wp_setg. rewrite Hh. apply wp_bind, wp_device_create.
  { intros d He. rewrite He. apply wp_bind, wp_pr_debug. intros lg.
    unfold init_error2, init_error1. apply wp_bind, wp_getg, wp_bind.
    apply wp_modify, wp_bind, wp_getg. wp_steps. apply Hf. split; [|done].
    unfold regs. simpl. by rewrite !drop_key_cons. }
  intros d He Hdf. rewrite He. wp_steps. by eapply Hs.
Qed.
End Loading.

(** ** Theorems *)
Section Theorems.
Context `{KL : KernelLaws} (DEBUG : bool).
Abbreviation W := (world unit globals).
Implicit Types (w : W).

(** C1: The buffer driver refines its specification: the trace of any execution
    of file operations (with processes writing their memory in between) is a
    trace of [step] on the map of buffers, and no operation is stuck: from
    every consistent state every call returns, without undefined behaviour. *)
Theorem memalloc_refines l w w' :
  safe w -> exec DEBUG l w w' ->
  steps l (abs w) (abs w') /\
  forall c, exists r w'', run DEBUG c w' = (Ret r, w'').
Proof.
  intros Hs He. destruct (exec_safe DEBUG l w w' He Hs) as [Hs' Hl].
  split; [done|]. intros c. apply run_returns, Hs'.
Qed.

(** C9: In every state the driver can reach from loading, the entries of
    [heap_list] own distinct live blocks, every DMA allocation belongs to one
    entry, the map lock is free, and when nobody has the device open no DMA
    memory is allocated. *)
Theorem memalloc_reachable_safe k log l w :
  no_dma (kmem k) ->
  exec DEBUG l (mkWorld k tt memalloc_globals log) w ->
  heap_ok (kmem (kern w)) (heap_list (glob w)) /\ mem_lock (glob w) = false /\
  (open_count (glob w) = 0 -> no_dma (kmem (kern w))).
Proof.
  intros Hk He. destruct (exec_safe DEBUG _ _ _ He) as [[[Hok Hl] [_ H0]] _].
  { split; [split; [by apply heap_ok_nil|done]|]. simpl. split; [lia|done]. }
  split; [done|]. split; [done|]. intros E p phys bs Hp.
  apply (ok_dma _ _ Hok) in Hp as (e & Hin & _). rewrite H0 in Hin by done.
  by apply not_elem_of_nil in Hin.
Qed.

(** Allocating a buffer and freeing it at the bus address the first call
    returned gives back both allocations: the second call returns 0 and the
    list and all of kernel memory are what they were. *)
Theorem alloc_free_roundtrip n phys w w1 :
  inv w -> AllocMemory DEBUG 0 n w = (Ret (0, phys), w1) ->
  wp (FreeMemory DEBUG phys) (fun r w2 =>
    r = 0 /\ kmem (kern w2) = kmem (kern w) /\ heap_list (glob w2) = heap_list (glob w))
    (fun _ _ => False) w1.
Proof.
  intros [Hok Hl] Ha. pose proof (AllocMemory_wp DEBUG False 0 n (fun _ _ => False) w Hok) as Hw.
  unfold wpu in Hw. rewrite Ha in Hw.
  destruct Hw as (_ & Hok1 & [[? _]|(_ & Hnew & node & cpu & bs & bs' & Hl1 & Hn & Hc & Hnc & Hm1)]);
    [done|].
  eapply wp_mono; [by apply FreeMemory_wp|]. intros r w2 (_ & _ & Hcase).
  assert (mkAllocation node phys cpu (PAGE_ALIGN n) ∈ heap_list (glob w1)) as Hin
    by (rewrite Hl1; apply elem_of_app; right; by apply list_elem_of_singleton).
  destruct Hcase as [(_ & _ & Hb)|(-> & e & He & Hp & Hl2 & Hm2)].
  { pose proof (bufs_elem _ _ (ok_phys _ _ Hok1) Hin) as E. simpl in E. congruence. }
  pose proof (nodup_map_inj phys_addr _ _ _ (ok_phys _ _ Hok1) He Hin Hp) as ->.
  simpl in *. split; [done|]. split.
  - rewrite Hm2, Hm1, delete_insert_eq, delete_insert_ne, (delete_id _ cpu) by done.
    rewrite delete_insert_eq. by apply delete_id.
  - rewrite Hl2, Hl1. unfold drop_entry. rewrite List.filter_app. simpl. rewrite Z.eqb_refl, app_nil_r.
    apply forallb_filter_id, forallb_forall. intros x Hx%list_elem_of_In. simpl.
    apply (ok_owns _ _ Hok) in Hx as (_ & _ & (b & Hb) & _).
    destruct (Z.eqb_spec (entry x) node); [congruence|done].
Qed.

(** C32: Loading the module registers the major number, the class and the
    device node or undoes what it did: when any of the three fails it returns
    -EIO with all registrations as before, and unloading after a success
    restores them too and leaves no buffer. *)
Theorem load_unload_restores w :
  memalloc_major (glob w) = 0 -> heap_list (glob w) = [] -> no_dma (kmem (kern w)) ->
  wp (r ← memalloc_init DEBUG; when (r =? 0) (memalloc_cleanup DEBUG);; mret r)
    (fun r w' => (r = 0 \/ r = - EIO) /\ regs w' = regs w /\ heap_list (glob w') = [] /\
       no_dma (kmem (kern w')))
    (fun _ _ => False) w.
Proof.
  intros Hm Hl Hd. apply wp_bind, memalloc_init_wp; [done| |].
  - intros w' (Hr & Hh & Hk). wp_steps; [done|]. rewrite Hh, Hk. auto.
  - intros w' major h (Hc & Hcl & Hdv) Hfm Hfc Hfd (Hgm & Hgc) (Hh & Hk).
    wp_steps; [|done]. unfold memalloc_cleanup.
    apply wp_bind, wp_getg, wp_bind, wp_getg. ksteps.
    eapply wp_mono; [apply free_buffers_wp|].
    + unfold ok. simpl. rewrite Hh, Hl, Hk. by apply heap_ok_nil.
    + intros _ w2 (Hr & Hok' & Hnil). ksteps. unfold rest in Hr. simpl in Hr.
      injection Hr as _ _ Hc2 Hcl2 Hd2 _. unfold regs. simpl.
      rewrite Hc2, Hcl2, Hd2, Hgm, Hgc, Hc, Hcl, Hdv, !drop_key_cons by done.
      split; [by left|]. split; [done|]. split; [done|]. intros p phys bs Hp.
      apply (ok_dma _ _ Hok') in Hp as (e & Hin & _). rewrite Hnil in Hin.
      by apply not_elem_of_nil in Hin.
Qed.

(** When the buffer cannot be had, the node that was allocated for it is
    lost: the call returns ENOMEM, the list is unchanged, and kernel memory
    has one more block that no entry refers to. *)
Theorem failed_alloc_leaks_node n node bs w :
  inv w ->
  o_kmalloc (kmem (kern w)) (calls (kern w)) allocation_size = Some (node, bs) ->
  o_dma (<[node := mkBlock Kmalloc (replicate (length bs) 0)]> (kmem (kern w)))
    (S (calls (kern w))) (PAGE_ALIGN n) = None ->
  exists w', AllocMemory DEBUG 0 n w = (Ret (- ENOMEM, 0), w') /\
    heap_list (glob w') = heap_list (glob w) /\
    kmem (kern w) !! node = None /\
    kmem (kern w') = <[node := mkBlock Kmalloc (replicate (length bs) 0)]> (kmem (kern w)) /\
    forall e, e ∈ heap_list (glob w') -> entry e <> node.
Proof.
  intros [Hok Hl] Hk Hd. apply kmalloc_law in Hk as Hlaw; [|done].
  destruct Hlaw as ([Hz _] & Hfree & _). unfold ZERO_SIZE_PTR in Hz.
  unfold AllocMemory, kzalloc. eexists. split.
  - eapply bind_eq. { cbv zeta. change (allocation_size =? 0) with false. cbn iota. by rewrite Hk. }
    destruct (Z.eqb_spec node 0); [lia|]. cbv zeta.
    eapply bind_eq. { unfold dma_alloc_coherent. simpl. by rewrite Hd. }
    simpl. eapply bind_eq; [apply debugk_eq|done].
  - destruct DEBUG; simpl; (split; [done|]); (split; [done|]); (split; [done|]);
      intros e (? & ? & (b & Hb) & _)%(ok_owns _ _ Hok); congruence.
Qed.
End Theorems.

(** ** The theorems at work

    A process opens the device and asks for a buffer of 5000 bytes through the
    word at 0x1000. *)
Section Witnesses.
#[local] Existing Instance sim_laws.
Definition boot : world unit globals :=
  mkWorld (booted (user_at 0x1000 (to_le 4 5000))) tt memalloc_globals [].
Definition opened (k : Kernel) : world unit globals := snd (@run k false OpenFile boot).
Definition got (k : Kernel) : world unit globals :=
  snd (@run k false (Ioctl MEMALLOC_IOCXGETBUFFER 0x1000) (opened k)).
Definition demo_trace : list (request * Z) := [(Open, 0); (Get 0x1000 5000, 0)].

Lemma boot_no_dma : no_dma (kmem (kern boot)).
Proof. intros p phys bs. done. Qed.

Lemma demo_exec : @exec (sim sim_ok) false demo_trace boot (got (sim sim_ok)).
Proof.
  apply (@exec_call (sim sim_ok) false OpenFile 0 _ boot (opened (sim sim_ok))); [done|done|].
  apply (@exec_call (sim sim_ok) false (Ioctl MEMALLOC_IOCXGETBUFFER 0x1000) 0 _
           (opened (sim sim_ok)) (got (sim sim_ok))); [done|by vm_compute|].
  constructor.
Qed.

Lemma memalloc_refines_witness :
  steps demo_trace (abs boot) (abs (got (sim sim_ok))) /\
  forall c, exists r w'', @run (sim sim_ok) false c (got (sim sim_ok)) = (Ret r, w'').
Proof.
  apply (@memalloc_refines (sim sim_ok) (sim_laws sim_ok)).
  - split; [split; [apply heap_ok_nil, boot_no_dma|done]|done].
  - apply demo_exec.
Defined.

Lemma memalloc_reachable_safe_witness :
  heap_ok (kmem (kern (got (sim sim_ok)))) (heap_list (glob (got (sim sim_ok)))).
Proof.
  apply (@memalloc_reachable_safe (sim sim_ok) (sim_laws sim_ok) false (kern boot) []
           demo_trace (got (sim sim_ok)) boot_no_dma demo_exec).
Defined.

Lemma alloc_free_roundtrip_witness :
  @AllocMemory (sim sim_ok) false 0 5000 boot =
    (Ret (0, phys_of 8192), snd (@AllocMemory (sim sim_ok) false 0 5000 boot)) /\
  wp (FreeMemory false (phys_of 8192)) (fun r w2 =>
    r = 0 /\ kmem (kern w2) = kmem (kern boot) /\ heap_list (glob w2) = heap_list (glob boot))
    (fun _ _ => False) (snd (@AllocMemory (sim sim_ok) false 0 5000 boot)).
Proof.
  split; [by vm_compute|].
  apply (@alloc_free_roundtrip (sim sim_ok) (sim_laws sim_ok) false 5000).
  - split; [apply heap_ok_nil, boot_no_dma|done].
  - by vm_compute.
Defined.

Lemma load_unload_restores_witness :
  wp (r ← @memalloc_init (sim sim_ok) true; when (r =? 0) (memalloc_cleanup true);; mret r)
    (fun r w' => (r = 0 \/ r = - EIO) /\ regs w' = regs boot /\ heap_list (glob w') = [] /\
       no_dma (kmem (kern w'))) (fun _ _ => False) boot.
Proof.
  apply (@load_unload_restores (sim sim_ok) (sim_laws sim_ok) true boot); [done|done|].
  apply boot_no_dma.
Defined.

(** The second decision, the one about the buffer, fails. *)
Definition low_memory : simcfg := mkSim (fun _ => false) (fun i => (i =? 1)%nat) (fun _ => false).
Lemma failed_alloc_leaks_node_witness :
  exists w', @AllocMemory (sim low_memory) false 0 5000 boot = (Ret (- ENOMEM, 0), w') /\
    is_Some (kmem (kern w') !! 4096).
Proof.
  destruct (@failed_alloc_leaks_node (sim low_memory) (sim_laws low_memory) false 5000 4096
              (replicate 20 0xa5) boot) as (w' & H1 & _ & _ & H2 & _).
  - split; [apply heap_ok_nil, boot_no_dma|done].
  - by vm_compute.
  - by vm_compute.
  - exists w'. split; [done|]. rewrite H2. by eexists.
Defined.
End Witnesses.
