(* ===== verification/Spdc.v ===== *)
(** * The SPDC framebuffer test module

    [src/module_test/spdc_test_driver.c]: a character device whose ioctls
    pass user arguments to the electrophoretic display driver.  That driver
    and its command numbers ([<linux/mxcfb.h>]) are the class [Spdc]; a
    structure it receives is the bytes the process passed. *)
From S2P Require Import Prelude CInt CMonad CStruct Kernel SimKernel.

Class Spdc (D : Type) := {
  MXCFB_SET_WAVEFORM_MODES : Z;
  MXCFB_SET_TEMPERATURE : Z;
  MXCFB_SET_AUTO_UPDATE_MODE : Z;
  MXCFB_SET_UPDATE_SCHEME : Z;
  MXCFB_SEND_UPDATE : Z;
  MXCFB_WAIT_FOR_UPDATE_COMPLETE : Z;
  MXCFB_SET_PWRDOWN_DELAY : Z;
  MXCFB_GET_PWRDOWN_DELAY : Z;
  sizeof_waveform_modes : Z;
  sizeof_update_data : Z;
  sizeof_update_marker_data : Z;
  mxc_spdc_fb_set_waveform_modes : list Z -> D -> D;
  mxc_spdc_fb_set_temperature : Z -> D -> Z * D;
  mxc_spdc_fb_set_auto_update : Z -> D -> Z * D;
  mxc_spdc_fb_set_upd_scheme : Z -> D -> Z * D;
  mxc_spdc_fb_send_update : list Z -> D -> Z * list Z * D;
  mxc_spdc_fb_wait_update_complete : list Z -> D -> Z * list Z * D;
  mxc_spdc_fb_set_pwrdown_delay : Z -> D -> Z * D;
  mxc_spdc_get_pwrdown_delay : D -> Z * D;
}.
Definition commands `{Spdc D} : list Z :=
  [MXCFB_SET_WAVEFORM_MODES; MXCFB_SET_TEMPERATURE; MXCFB_SET_AUTO_UPDATE_MODE;
   MXCFB_SET_UPDATE_SCHEME; MXCFB_SEND_UPDATE; MXCFB_WAIT_FOR_UPDATE_COMPLETE;
   MXCFB_SET_PWRDOWN_DELAY; MXCFB_GET_PWRDOWN_DELAY].

Record globals := mkGlobals { gMajor : Z; spdc_tm_class : Z }.

Section Driver.
Context `{Kernel} {D : Type} `{Spdc D}.
Abbreviation W := (world D globals).

(** A call into the display driver. *)
Definition drv {A} (f : D -> A * D) : M W A := fun w =>
  let '(a, d) := f (dev w) in (Ret a, set_dev d w).

Definition spdc_test_open : M W Z :=
  printk "Opening spdc test handle\n" [];;
  try_module_get;;
  mret 0.

Definition spdc_test_release : M W Z :=
  printk "Closing spdc test handle\n" [];;
  module_put;;
  mret 0.

Definition spdc_test_ioctl (cmd arg : Z) : M W Z :=
  let ret := - EINVAL in
  if cmd =? MXCFB_SET_WAVEFORM_MODES then
    '(modes, unc) ← copy_from_user arg sizeof_waveform_modes;
    if negb (truth unc) then
      drv (fun d => (tt, mxc_spdc_fb_set_waveform_modes modes d));;
      mret 0
    else mret ret
  else if cmd =? MXCFB_SET_TEMPERATURE then
    '(e, temperature) ← get_user arg;
    if negb (truth e) then drv (mxc_spdc_fb_set_temperature (i32 temperature)) else mret ret
  else if cmd =? MXCFB_SET_AUTO_UPDATE_MODE then
    '(e, auto_mode) ← get_user arg;
    if negb (truth e) then drv (mxc_spdc_fb_set_auto_update auto_mode) else mret ret
  else if cmd =? MXCFB_SET_UPDATE_SCHEME then
    '(e, update_scheme) ← get_user arg;
    if negb (truth e) then drv (mxc_spdc_fb_set_upd_scheme update_scheme) else mret ret
  else if cmd =? MXCFB_SEND_UPDATE then
    '(upd_data, unc) ← copy_from_user arg sizeof_update_data;
    if negb (truth unc) then
      '(ret, upd_data) ← drv (mxc_spdc_fb_send_update upd_data);
      if ret =? 0 then
        unc ← copy_to_user arg upd_data;
        mret (if truth unc then - EFAULT else ret)
      else mret ret
    else mret (- EFAULT)
  else if cmd =? MXCFB_WAIT_FOR_UPDATE_COMPLETE then
    '(upd_marker_data, unc) ← copy_from_user arg sizeof_update_marker_data;
    if negb (truth unc) then
      '(ret, upd_marker_data) ← drv (mxc_spdc_fb_wait_update_complete upd_marker_data);
      unc ← copy_to_user arg upd_marker_data;
      mret (if truth unc then - EFAULT else ret)
    else mret (- EFAULT)
  else if cmd =? MXCFB_SET_PWRDOWN_DELAY then
    '(e, delay) ← get_user arg;
    if negb (truth e) then drv (mxc_spdc_fb_set_pwrdown_delay (i32 delay)) else mret ret
  else if cmd =? MXCFB_GET_PWRDOWN_DELAY then
    pwrdown_delay ← drv mxc_spdc_get_pwrdown_delay;
    e ← put_user pwrdown_delay arg;
    let ret := if truth e then - EFAULT else ret in
    let ret := 0 in
    mret ret
  else
    printk "Invalid ioctl for spdc test driver.  ioctl = 0x%x\n" [AInt cmd];;
    mret ret.

Definition getg {A} (f : globals -> A) : M W A := gets (fun w => f (glob w)).
Definition set_gMajor (v : Z) : M W unit :=
  modify (fun w => set_glob (mkGlobals v (spdc_tm_class (glob w))) w).
Definition set_class (v : Z) : M W unit :=
  modify (fun w => set_glob (mkGlobals (gMajor (glob w)) v) w).

Definition spdc_test_init_module : M W Z :=
  error ← register_chrdev 0 "spdc_test";
  if error <? 0 then
    printk "spdc test driver can't get major number\n" [];;
    mret error
  else
    set_gMajor error;;
    class ← class_create "spdc_test";
    set_class class;;
    if IS_ERR class then
      printk (KERN_ERR ++ "Error creating spdc test module class.\n") [];;
      major ← getg gMajor;
      unregister_chrdev major "spdc_test";;
      mret (PTR_ERR class)
    else
      temp_class ← device_create class (MKDEV error 0) "spdc_test";
      if IS_ERR temp_class then
        printk (KERN_ERR ++ "Error creating spdc test class device.\n") [];;
        class_destroy class;;
        major ← getg gMajor;
        unregister_chrdev major "spdc_test";;
        mret (-1)
      else
        printk "spdc test Driver Module loaded\n" [];;
        mret 0.

Definition spdc_test_cleanup_module : M W unit :=
  major ← getg gMajor;
  class ← getg spdc_tm_class;
  unregister_chrdev major "spdc_test";;
  device_destroy class (MKDEV major 0);;
  class_destroy class;;
  printk "spdc test Driver Module Unloaded\n" [].
End Driver.

(** ** A reference for the dispatch

    Each command passes its argument in one of four ways. *)
Inductive passing (D : Type) :=
  | ByWord (f : Z -> D -> Z * D)                          (* get_user *)
  | ByCopy (n : Z) (f : list Z -> D -> D)                 (* copied in *)
  | ByExchange (n : Z) (always : bool) (f : list Z -> D -> Z * list Z * D)
  | ByResult (f : D -> Z * D).                            (* put_user *)
Arguments ByWord {D}.
Arguments ByCopy {D}.
Arguments ByExchange {D}.
Arguments ByResult {D}.

Section Reference.
Context `{Kernel} {D : Type} `{Spdc D}.
Abbreviation W := (world D globals).

Definition table : list (Z * passing D) :=
  [(MXCFB_SET_WAVEFORM_MODES, ByCopy sizeof_waveform_modes mxc_spdc_fb_set_waveform_modes);
   (MXCFB_SET_TEMPERATURE, ByWord (fun v => mxc_spdc_fb_set_temperature (i32 v)));
   (MXCFB_SET_AUTO_UPDATE_MODE, ByWord mxc_spdc_fb_set_auto_update);
   (MXCFB_SET_UPDATE_SCHEME, ByWord mxc_spdc_fb_set_upd_scheme);
   (MXCFB_SEND_UPDATE, ByExchange sizeof_update_data false mxc_spdc_fb_send_update);
   (MXCFB_WAIT_FOR_UPDATE_COMPLETE,
     ByExchange sizeof_update_marker_data true mxc_spdc_fb_wait_update_complete);
   (MXCFB_SET_PWRDOWN_DELAY, ByWord (fun v => mxc_spdc_fb_set_pwrdown_delay (i32 v)));
   (MXCFB_GET_PWRDOWN_DELAY, ByResult mxc_spdc_get_pwrdown_delay)].

(** What one kind of command does to user memory [u] and the driver [d]. *)
Definition perform (p : passing D) (arg : Z) (u : gmap Z Z) (d : D) : Z * gmap Z Z * D :=
  match p with
  | ByWord f =>
      let '(b, unc) := from_user u arg 4 in
      if unc =? 0 then let '(r, d) := f (of_le b) d in (r, u, d) else (- EINVAL, u, d)
  | ByCopy n f =>
      let '(b, unc) := from_user u arg n in
      if unc =? 0 then (0, u, f b d) else (- EINVAL, u, d)
  | ByExchange n always f =>
      let '(b, unc) := from_user u arg n in
      if unc =? 0 then
        let '(r, b, d) := f b d in
        if always || (r =? 0) then
          let k := fits u arg (length b) in
          (if (k =? length b)%nat then r else - EFAULT, uput u arg (take k b), d)
        else (r, u, d)
      else (- EFAULT, u, d)
  | ByResult f =>
      let '(v, d) := f d in (0, uput u arg (take (fits u arg 4) (to_le 4 v)), d)
  end.
Definition reference (cmd arg : Z) (u : gmap Z Z) (d : D) : Z * gmap Z Z * D :=
  match List.find (fun x => cmd =? fst x) table with
  | Some (_, p) => perform p arg u d
  | None => (- EINVAL, u, d)
  end.
(** The result, user memory and driver state a computation ends with. *)
Definition observe (r : outcome Z * W) : option (Z * gmap Z Z * D) :=
  match r with
  | (Ret z, w) => Some (z, ubytes (kern w), dev w)
  | _ => None
  end.

Lemma uncopied_zero (n k : nat) : (k <= n)%nat -> (Z.of_nat n - Z.of_nat k =? 0) = (k =? n)%nat.
Proof. intros. destruct (Z.eqb_spec (Z.of_nat n - Z.of_nat k) 0), (Nat.eqb_spec k n); lia. Qed.

Lemma observe_get_user (f : Z -> D -> Z * D) arg w :
  observe (('(e, v) ← get_user arg; if negb (truth e) then drv (f v) else mret (- EINVAL)) w) =
  Some (perform (ByWord f) arg (ubytes (kern w)) (dev w)).
Proof.
  unfold get_user, copy_from_user, perform, drv, truth, gets, mbind, M_bind, observe, mret, M_ret.
  cbv beta iota zeta. destruct (from_user _ _ _) as [b unc].
  destruct (Z.eqb_spec unc 0); simpl; [|done]. by destruct (f _ _).
Qed.

Lemma observe_copy (f : list Z -> D -> D) n arg w :
  observe (('(b, unc) ← copy_from_user arg n;
    if negb (truth unc) then drv (fun d => (tt, f b d));; mret 0 else mret (- EINVAL)) w) =
  Some (perform (ByCopy n f) arg (ubytes (kern w)) (dev w)).
Proof.
  unfold copy_from_user, perform, drv, truth, gets, mbind, M_bind, observe, mret, M_ret.
  cbv beta iota zeta. destruct (from_user _ _ _) as [b unc].
  by destruct (Z.eqb_spec unc 0).
Qed.

Lemma observe_copy_back (f : list Z -> D -> Z * list Z * D) n (always : bool) arg w :
  observe (('(b, unc) ← copy_from_user arg n;
    if negb (truth unc) then
      '(r, b) ← drv (f b);
      if always || (r =? 0) then
        unc ← copy_to_user arg b; mret (if truth unc then - EFAULT else r)
      else mret r
    else mret (- EFAULT)) w) =
  Some (perform (ByExchange n always f) arg (ubytes (kern w)) (dev w)).
Proof.
  unfold copy_from_user, copy_to_user, perform, drv, truth, gets, mbind, M_bind, observe, mret, M_ret.
  cbv beta iota zeta. destruct (from_user _ _ _) as [b unc].
  destruct (Z.eqb_spec unc 0); simpl; [|done]. destruct (f _ _) as [[r b'] d]. simpl.
  destruct (always || (r =? 0)); [|done]. simpl.
  rewrite uncopied_zero by apply fits_le. by destruct (_ =? _)%nat.
Qed.

Lemma observe_result (f : D -> Z * D) arg w :
  observe ((v ← drv f; e ← put_user v arg;
            let ret := if truth e then - EFAULT else - EINVAL in
            let ret := 0 in mret ret) w) =
  Some (perform (ByResult f) arg (ubytes (kern w)) (dev w)).
Proof.
  unfold put_user, copy_to_user, perform, drv, mbind, M_bind, observe, mret, M_ret.
  cbv beta iota zeta. destruct (f (dev w)) as [v d]. simpl. done.
Qed.

Lemma observe_table cmd arg (w : W) :
  observe (spdc_test_ioctl cmd arg w) = Some (reference cmd arg (ubytes (kern w)) (dev w)).
Proof.
  unfold spdc_test_ioctl, reference, table. cbv zeta. cbn [List.find fst].
  destruct (cmd =? MXCFB_SET_WAVEFORM_MODES); [apply observe_copy|].
  destruct (cmd =? MXCFB_SET_TEMPERATURE); [apply (observe_get_user (fun v => _ (i32 v)))|].
  destruct (cmd =? MXCFB_SET_AUTO_UPDATE_MODE); [apply observe_get_user|].
  destruct (cmd =? MXCFB_SET_UPDATE_SCHEME); [apply observe_get_user|].
  destruct (cmd =? MXCFB_SEND_UPDATE); [apply (observe_copy_back _ _ false)|].
  destruct (cmd =? MXCFB_WAIT_FOR_UPDATE_COMPLETE); [apply (observe_copy_back _ _ true)|].
  destruct (cmd =? MXCFB_SET_PWRDOWN_DELAY); [apply (observe_get_user (fun v => _ (i32 v)))|].
  destruct (cmd =? MXCFB_GET_PWRDOWN_DELAY); [apply observe_result|].
  done.
Qed.

(** A process issuing commands one after the other, and the reference doing so. *)
Fixpoint session (l : list (Z * Z)) : M W (list Z) :=
  match l with
  | [] => mret []
  | (cmd, arg) :: l => r ← spdc_test_ioctl cmd arg; rs ← session l; mret (r :: rs)
  end.
Fixpoint reference_session (l : list (Z * Z)) (u : gmap Z Z) (d : D) : list Z * gmap Z Z * D :=
  match l with
  | [] => ([], u, d)
  | (cmd, arg) :: l =>
      let '(r, u, d) := reference cmd arg u d in
      let '(rs, u, d) := reference_session l u d in (r :: rs, u, d)
  end.

(** C8: The ioctl handler of the display test module is the table of its
    commands: a process that issues any sequence of commands with any
    arguments sees the results, user memory and driver state of the
    reference, which for each command looks up how it passes its argument and
    makes one driver call when the argument can be read, none otherwise. *)
Theorem spdc_session_equiv l (w : W) :
  exists rs w', session l w = (Ret rs, w') /\
    (rs, ubytes (kern w'), dev w') = reference_session l (ubytes (kern w)) (dev w).
Proof.
  revert w. induction l as [|[cmd arg] l IH]; intros w; [by exists [], w|].
  pose proof (observe_table cmd arg w) as Ho. simpl. unfold mbind, M_bind.
  destruct (spdc_test_ioctl cmd arg w) as [[r| | |] w1]; try done.
  simpl in Ho. injection Ho as <-. destruct (IH w1) as (rs & w2 & -> & <-).
  by exists (r :: rs), w2.
Qed.
End Reference.

(** ** Errors *)
Section Errors.
Context `{Kernel} {D : Type} `{Spdc D}.
Abbreviation W := (world D globals).

(** The structures are not empty and the command numbers are distinct (the
    C switch would not compile otherwise). *)
Definition commands_ok : Prop :=
  NoDup commands /\ 0 < sizeof_waveform_modes /\ 0 < sizeof_update_data /\
  0 < sizeof_update_marker_data.

Lemma from_user_unmapped m p n : m !! p = None -> 0 < n -> (from_user m p n).2 = n.
Proof.
  intros Hp Hn. unfold from_user. simpl. destruct (access_ok p n); simpl; [|lia].
  destruct (Z.to_nat n) as [|k]; simpl; [lia|]. rewrite Hp. simpl. lia.
Qed.

Lemma perform_unmapped p arg (u : gmap Z Z) (d : D) :
  u !! arg = None ->
  match p with ByWord _ => True | ByCopy n _ => 0 < n | ByExchange n _ _ => 0 < n | ByResult _ => False end ->
  exists r, r < 0 /\ perform p arg u d = (r, u, d).
Proof.
  intros Hu Hp. destruct p as [f|n f|n always f|f]; unfold perform; [| | |done].
  - pose proof (from_user_unmapped u arg 4 Hu ltac:(lia)) as E. destruct (from_user u arg 4) as [b unc].
    simpl in E. subst. simpl. eexists. split; [|done]. unfold EINVAL. lia.
  - pose proof (from_user_unmapped u arg n Hu Hp) as E. destruct (from_user u arg n) as [b unc].
    simpl in E. subst. destruct (Z.eqb_spec n 0); [lia|]. eexists. split; [|done]. unfold EINVAL. lia.
  - pose proof (from_user_unmapped u arg n Hu Hp) as E. destruct (from_user u arg n) as [b unc].
    simpl in E. subst. destruct (Z.eqb_spec n 0); [lia|]. eexists. split; [|done]. unfold EFAULT. lia.
Qed.

(** A command of the display test module whose argument lies in unmapped
    memory fails with a negative error and reaches neither the display driver
    nor user memory.  The one exception is reading the power-down delay: it
    reports success although nothing was delivered, because the error code is
    overwritten. *)
Theorem spdc_bad_address cmd arg (w : W) :
  commands_ok -> cmd ∈ commands -> ubytes (kern w) !! arg = None ->
  exists r d, observe (spdc_test_ioctl cmd arg w) = Some (r, ubytes (kern w), d) /\
    (cmd <> MXCFB_GET_PWRDOWN_DELAY -> r < 0 /\ d = dev w) /\
    (cmd = MXCFB_GET_PWRDOWN_DELAY -> r = 0 /\ d = (mxc_spdc_get_pwrdown_delay (dev w)).2).
Proof.
  intros (Hnd & H1 & H2 & H3) Hcmd Hu. rewrite observe_table. unfold reference.
  destruct (List.find _ _) as [[c p]|] eqn:Hf; simpl.
  2: { exfalso. change commands with (map fst (table (D := D))) in Hcmd.
       apply list_elem_of_fmap_1 in Hcmd as (x & -> & Hx%list_elem_of_In).
       apply (find_none _ _ Hf) in Hx. by rewrite Z.eqb_refl in Hx. }
  apply find_some in Hf as [Hin Heq%Z.eqb_eq]. simpl in Heq. subst c.
  assert (cmd = MXCFB_GET_PWRDOWN_DELAY \/ match p with
    ByWord _ => True | ByCopy n _ => 0 < n | ByExchange n _ _ => 0 < n | ByResult _ => False end)
    as Hkind by (unfold table in Hin; repeat destruct Hin as [[= <- <-]|Hin]; auto; done).
  destruct (decide (cmd = MXCFB_GET_PWRDOWN_DELAY)) as [->|Hne].
  - assert (p = ByResult mxc_spdc_get_pwrdown_delay) as ->.
    { apply list_elem_of_In in Hin.
      assert ((MXCFB_GET_PWRDOWN_DELAY, ByResult mxc_spdc_get_pwrdown_delay) ∈ table (D := D)) as Hin2
        by (do 7 apply list_elem_of_further; apply list_elem_of_here).
      pose proof (nodup_map_inj fst (table (D := D)) _ _ Hnd Hin Hin2) as E.
      by specialize (E eq_refl) as [= ->]. }
    simpl. destruct (mxc_spdc_get_pwrdown_delay (dev w)) as [v d]. eexists _, _.
    split; [|by split].
    unfold fits. simpl. rewrite Hu. by destruct (access_ok arg (Z.of_nat 4)).
  - destruct Hkind as [|Hk]; [done|].
    destruct (perform_unmapped p arg (ubytes (kern w)) (dev w) Hu Hk) as (r & Hr & ->).
    exists r, (dev w). split; [done|]. by split.
Qed.
End Errors.

(** ** Loading *)
Section Loading.
Context `{KL : KernelLaws} {D : Type}.
Abbreviation W := (world D globals).
Implicit Types w : W.

(** Loading the display test module either registers the major number, the
    class and the device node and returns 0, or returns a negative error and
    leaves the registrations as they were; unloading after a success restores
    them. *)
Theorem spdc_load_unload w :
  wp (r ← spdc_test_init_module; when (r =? 0) spdc_test_cleanup_module;; mret r)
    (fun r w' => r <= 0 /\ regs w' = regs w /\ ubytes (kern w') = ubytes (kern w) /\
       kmem (kern w') = kmem (kern w)) (fun _ _ => False) w.
Proof.
  assert (forall r w', r < 0 -> regs w' = regs w /\ ubytes (kern w') = ubytes (kern w) /\
       kmem (kern w') = kmem (kern w) ->
    wp (when (r =? 0) spdc_test_cleanup_module;; mret r)
    (fun r w' => r <= 0 /\ regs w' = regs w /\ ubytes (kern w') = ubytes (kern w) /\
       kmem (kern w') = kmem (kern w)) (fun _ _ => False) w') as Hfail.
  { intros r w' Hr Hw. destruct (Z.eqb_spec r 0); [lia|]. apply wp_bind, wp_skip, wp_ret.
    split; [lia|done]. }
  unfold spdc_test_init_module. apply wp_bind, wp_bind, wp_register_any.
  { intros r Hr. apply Z.ltb_lt in Hr as Hb. rewrite Hb. apply wp_bind, wp_printk, wp_ret. by apply Hfail. }
  intros major Hm Hfresh. destruct (Z.ltb_spec major 0); [lia|].
  apply wp_bind, wp_modify, wp_bind, wp_class_create.
  { intros h Hh Hr. apply wp_bind, wp_modify. rewrite Hh. apply wp_bind, wp_printk, wp_bind, wp_gets.
    apply wp_bind, wp_modify, wp_ret. apply Hfail; [by apply IS_ERR_negative|]. unfold regs. simpl.
    by rewrite drop_key_cons. }
  intros h Hh Hhf. apply wp_bind, wp_modify. rewrite Hh. apply wp_bind, wp_device_create.
  { intros d He. rewrite He. apply wp_bind, wp_printk, wp_bind, wp_modify, wp_bind, wp_gets.
    apply wp_bind, wp_modify, wp_ret. apply Hfail; [done|]. unfold regs. simpl. by rewrite !drop_key_cons. }
  intros d He Hdf. rewrite He. apply wp_bind, wp_printk, wp_ret. unfold spdc_test_cleanup_module.
  simpl. apply wp_bind, wp_bind, wp_gets, wp_bind, wp_gets. ksteps. unfold regs. simpl.
  by rewrite !drop_key_cons.
Qed.

(** Opening and closing take and drop one reference to the module. *)
Lemma open_release_refs w :
  wp (spdc_test_open;; spdc_test_release) (fun r w' => r = 0 /\
    mod_refs (kern w') = mod_refs (kern w)) (fun _ _ => False) w.
Proof. unfold spdc_test_open, spdc_test_release. ksteps. simpl. split; [done|lia]. Qed.
End Loading.

(** ** A display driver that records its calls *)
#[local] Instance toy_spdc : Spdc (list Z) := {|
  MXCFB_SET_WAVEFORM_MODES := 1; MXCFB_SET_TEMPERATURE := 2; MXCFB_SET_AUTO_UPDATE_MODE := 3;
  MXCFB_SET_UPDATE_SCHEME := 4; MXCFB_SEND_UPDATE := 5; MXCFB_WAIT_FOR_UPDATE_COMPLETE := 6;
  MXCFB_SET_PWRDOWN_DELAY := 7; MXCFB_GET_PWRDOWN_DELAY := 8;
  sizeof_waveform_modes := 8; sizeof_update_data := 4; sizeof_update_marker_data := 4;
  mxc_spdc_fb_set_waveform_modes b d := 1 :: d;
  mxc_spdc_fb_set_temperature v d := (0, v :: d);
  mxc_spdc_fb_set_auto_update v d := (0, v :: d);
  mxc_spdc_fb_set_upd_scheme v d := (0, v :: d);
  mxc_spdc_fb_send_update b d := (0, b, d);
  mxc_spdc_fb_wait_update_complete b d := (0, b, d);
  mxc_spdc_fb_set_pwrdown_delay v d := (0, v :: d);
  mxc_spdc_get_pwrdown_delay d := (List.hd 0 d, d);
|}.
Definition toy_world : world (list Z) globals :=
  mkWorld (booted (user_at 0x1000 (to_le 4 37))) [] (mkGlobals 0 0) [].

(** The temperature is set from user memory and read back as the delay. *)
Example toy_session :
  @reference_session (sim sim_ok) _ _ [(2, 0x1000); (8, 0x1000); (9, 0)]
    (ubytes (kern toy_world)) [] = ([0; 0; - EINVAL], user_at 0x1000 (to_le 4 37), [37]).
Proof. vm_compute. reflexivity. Qed.

Lemma spdc_bad_address_witness :
  @observe _ (@spdc_test_ioctl (sim sim_ok) _ _ 8 0x2000 toy_world) =
    Some (0, ubytes (kern toy_world), []) /\
  exists r d, @observe _ (@spdc_test_ioctl (sim sim_ok) _ _ 2 0x2000 toy_world) =
    Some (r, ubytes (kern toy_world), d) /\ r < 0.
Proof.
  assert (commands_ok (D := list Z)) as Hc.
  { split; [|by vm_compute]. change (NoDup [1; 2; 3; 4; 5; 6; 7; 8]). by apply (bool_decide_unpack _). }
  split.
  - destruct (@spdc_bad_address (sim sim_ok) _ _ 8 0x2000 toy_world Hc) as (r & d & -> & _ & H8);
      [by do 7 apply list_elem_of_further; apply list_elem_of_here|by vm_compute|].
    destruct (H8 eq_refl) as [-> ->]. done.
  - destruct (@spdc_bad_address (sim sim_ok) _ _ 2 0x2000 toy_world Hc) as (r & d & -> & H2 & _);
      [by apply list_elem_of_further, list_elem_of_here|by vm_compute|].
    destruct (H2 ltac:(done)) as [Hr _]. by exists r, d.
Defined.

Lemma spdc_load_unload_witness :
  wp (r ← @spdc_test_init_module (sim sim_ok) _; when (r =? 0) spdc_test_cleanup_module;; mret r)
    (fun r w' => r <= 0 /\ regs w' = ([], [], []) /\ ubytes (kern w') = ubytes (kern toy_world) /\
       kmem (kern w') = ∅) (fun _ _ => False) toy_world.
Proof. apply (@spdc_load_unload (sim sim_ok) (sim_laws sim_ok) _ toy_world). Defined.
