(* ===== verification/PortableOs.v ===== *)
(** * The portable OS layer of the security drivers

    [rng_test_driver.c], [scc_test_driver.c] and [scc2_test_driver.c] call the
    kernel through [portable_os.h], which is not in the repository.  What it
    decides is the class [PortableOs]; what the modules rely on is
    [PortableOsLaws].  Its copies and allocations are those of the kernel.  A
    registration handle remembers which function serves which entry point, so
    a system call on the device file can be traced to its handler. *)
From S2P Require Import Prelude CInt CMonad CStruct Kernel.

(** The modules test results both with [!] and against this name: it is 0. *)
Definition OS_ERROR_OK_S : Z := 0.
Class PortableOs := {
  OS_ERROR_FAIL_S : Z;
  OS_ERROR_NO_MEMORY_S : Z;
  OS_ERROR_BAD_ADDRESS_S : Z;
  (* the result of a registration and the major number it got *)
  o_complete : list (Z * string) -> nat -> Z -> Z * Z;
}.
Class PortableOsLaws `{PortableOs} : Prop := {
  fail_law : OS_ERROR_FAIL_S <> 0;
  no_memory_law : OS_ERROR_NO_MEMORY_S <> 0;
  bad_address_law : OS_ERROR_BAD_ADDRESS_S <> 0;
  complete_law cs i major :
    (o_complete cs i major).1 = OS_ERROR_OK_S ->
    ((o_complete cs i major).2 ∉ cs.*1) /\ (o_complete cs i major).2 <> 0 /\
    (major <> 0 -> (o_complete cs i major).2 = major);
}.

Inductive os_fn := OS_FN_OPEN | OS_FN_CLOSE | OS_FN_READ | OS_FN_WRITE | OS_FN_IOCTL | OS_FN_MMAP.
#[export] Instance os_fn_eq_dec : EqDecision os_fn.
Proof. solve_decision. Defined.

(** The handlers of a driver are an enumeration [F] of its functions. *)
Record os_driver_reg (F : Type) := mkReg {
  fops : list (os_fn * F);
  live : option Z;         (* the major number while registered *)
  stray : nat;             (* removals without a registration *)
}.
Arguments mkReg {F}.
Arguments fops {F}.
Arguments live {F}.
Arguments stray {F}.
Definition no_reg {F} : os_driver_reg F := mkReg [] None 0.

(** The function that serves an entry point: the last one added. *)
Definition handler {F} (r : os_driver_reg F) (fn : os_fn) : option F :=
  match List.find (fun x => bool_decide (fst x = fn)) (fops r) with
  | Some (_, f) => Some f
  | None => None
  end.

Class HasReg (G F : Type) := {
  reg_handle : G -> os_driver_reg F;
  set_reg : os_driver_reg F -> G -> G;
  reg_handle_set r g : reg_handle (set_reg r g) = r;
}.

Section Os.
Context `{Kernel} `{PortableOs} {D G F : Type} `{HasReg G F}.
Abbreviation W := (world D G).

Definition upd_reg (f : os_driver_reg F -> os_driver_reg F) : M W unit :=
  modify (fun w => set_glob (set_reg (f (reg_handle (glob w))) (glob w)) w).
Definition os_driver_init_registration : M W unit :=
  upd_reg (fun r => mkReg [] (live r) (stray r)).
Definition os_driver_add_registration (fn : os_fn) (f : F) : M W unit :=
  upd_reg (fun r => mkReg ((fn, f) :: fops r) (live r) (stray r)).
Definition os_driver_complete_registration (major : Z) (name : string) : M W Z := fun w =>
  let '(code, m) := o_complete (chrdevs (kern w)) (calls (kern w)) major in
  let w := set_kern asked w in
  if code =? OS_ERROR_OK_S then
    let r := reg_handle (glob w) in
    (Ret code, set_glob (set_reg (mkReg (fops r) (Some m) (stray r)) (glob w))
                 (set_kern (set_chrdevs (cons (m, name))) w))
  else (Ret code, w).
Definition os_driver_remove_registration : M W Z := fun w =>
  let r := reg_handle (glob w) in
  match live r with
  | Some m => (Ret OS_ERROR_OK_S, set_glob (set_reg (mkReg (fops r) None (stray r)) (glob w))
                (set_kern (set_chrdevs (drop_key m)) w))
  | None => (Ret OS_ERROR_OK_S, set_glob (set_reg (mkReg (fops r) None (S (stray r))) (glob w)) w)
  end.

Definition os_printk (debug : bool) (f : string) (a : list parg) : M W unit := debugk debug f a.
Definition os_alloc_memory (n : Z) : M W Z := kmalloc n.
Definition os_free_memory (p : Z) : M W unit := kfree p.
Definition os_copy_from_user (p n : Z) : M W (list Z * Z) :=
  '(b, unc) ← copy_from_user p n;
  mret (b, if unc =? 0 then OS_ERROR_OK_S else OS_ERROR_BAD_ADDRESS_S).
Definition os_copy_to_user (p : Z) (b : list Z) : M W Z :=
  unc ← copy_to_user p b;
  mret (if unc =? 0 then OS_ERROR_OK_S else OS_ERROR_BAD_ADDRESS_S).

(** A call into the hardware driver. *)
Definition drv {A} (f : D -> A * D) : M W A := fun w =>
  let '(a, d) := f (dev w) in (Ret a, set_dev d w).
End Os.

Section Rules.
Context `{KL : KernelLaws} `{PL : PortableOsLaws} {D G F : Type} `{HasReg G F} (U : Prop).
Abbreviation W := (world D G).
Implicit Types (w : W) (E : Z -> W -> Prop).

Lemma wp_os_copy_from_user p n (Q : list Z * Z -> W -> Prop) E w :
  0 <= n ->
  ((from_user (ubytes (kern w)) p n).2 = 0 ->
     Q (uread (ubytes (kern w)) p (Z.to_nat n), OS_ERROR_OK_S) w) ->
  ((from_user (ubytes (kern w)) p n).2 <> 0 ->
     Q ((from_user (ubytes (kern w)) p n).1, OS_ERROR_BAD_ADDRESS_S) w) ->
  wpu U (os_copy_from_user p n) Q E w.
Proof.
  intros Hn Hok Hbad. unfold os_copy_from_user. apply wp_bind, wp_copy_from_user.
  destruct (from_user (ubytes (kern w)) p n) as [b unc] eqn:Ef.
  pose proof (from_user_done (ubytes (kern w)) p n Hn) as Hd. rewrite Ef in Hd. simpl in *.
  apply wp_ret. destruct (Z.eqb_spec unc 0) as [->|]; [rewrite Hd by done; by apply Hok|by apply Hbad].
Qed.

Lemma wp_os_copy_to_user p b (Q : Z -> W -> Prop) E w :
  (fits (ubytes (kern w)) p (length b) = length b ->
     Q OS_ERROR_OK_S (set_kern (set_ubytes (fun m => uput m p b)) w)) ->
  (forall k, (k < length b)%nat -> k = fits (ubytes (kern w)) p (length b) ->
     Q OS_ERROR_BAD_ADDRESS_S (set_kern (set_ubytes (fun m => uput m p (take k b))) w)) ->
  wpu U (os_copy_to_user p b) Q E w.
Proof.
  intros Hok Hbad. unfold os_copy_to_user. apply wp_bind, wp_copy_to_user. intros k Hk Hle.
  apply wp_ret. destruct (Z.eqb_spec (zlen b - Z.of_nat k) 0).
  - assert (k = length b) as -> by lia. rewrite take_ge by done. by apply Hok.
  - apply Hbad; [lia|done].
Qed.

Lemma wp_drv {A} (f : D -> A * D) (Q : A -> W -> Prop) E w :
  Q (f (dev w)).1 (set_dev (f (dev w)).2 w) -> wpu U (drv f) Q E w.
Proof. unfold wpu, drv. by destruct (f (dev w)). Qed.

Lemma drv_eq {A} (f : D -> A * D) w : drv f w = (Ret (f (dev w)).1, set_dev (f (dev w)).2 w).
Proof. unfold drv. by destruct (f (dev w)). Qed.

Lemma wp_complete major name (Q : Z -> W -> Prop) E w :
  (forall m, m ∉ (chrdevs (kern w)).*1 -> m <> 0 -> (major <> 0 -> m = major) ->
     Q OS_ERROR_OK_S
       (set_glob (set_reg (mkReg (fops (reg_handle (glob w))) (Some m) (stray (reg_handle (glob w)))) (glob w))
          (set_kern (set_chrdevs (cons (m, name))) (set_kern asked w)))) ->
  (forall code, code <> OS_ERROR_OK_S -> Q code (set_kern asked w)) ->
  wpu U (os_driver_complete_registration major name) Q E w.
Proof.
  intros Hok Hbad. unfold wpu, os_driver_complete_registration.
  pose proof (complete_law (chrdevs (kern w)) (calls (kern w)) major) as Hl.
  destruct (o_complete _ _ _) as [code m]. simpl in Hl.
  destruct (Z.eqb_spec code OS_ERROR_OK_S) as [->|]; [|by apply Hbad].
  destruct (Hl eq_refl) as (? & ? & ?). by apply Hok.
Qed.
Lemma wp_remove_registration (Q : Z -> W -> Prop) E w :
  let r := reg_handle (glob w) in
  Q OS_ERROR_OK_S
    (mkWorld (match live r with Some m => set_chrdevs (drop_key m) (kern w) | None => kern w end) (dev w)
       (set_reg (mkReg (fops r) None (match live r with Some _ => stray r | None => S (stray r) end)) (glob w)) (klog w)) ->
  wpu U os_driver_remove_registration Q E w.
Proof. unfold wpu, os_driver_remove_registration. cbn zeta. by destruct (live (reg_handle (glob w))). Qed.
End Rules.

(** ** Handlers that leave kernel memory and the globals as they found them *)
Section Kept.
Context `{Kernel} {D G : Type}.
Abbreviation W := (world D G).

Definition mem_kept {A} (m : M W A) : Prop :=
  forall E w, wp m (fun _ w' => kmem (kern w') = kmem (kern w) /\ glob w' = glob w) E w.

Lemma mkept_bind {A B} (m : M W A) (k : A -> M W B) :
  mem_kept m -> (forall a, mem_kept (k a)) -> mem_kept (m ≫= k).
Proof.
  intros Hm Hk E w. apply wp_bind. eapply wp_mono; [apply Hm|]. intros a w1 [<- <-]. apply Hk.
Qed.
Lemma mkept_ret {A} (a : A) : mem_kept (mret a).
Proof. done. Qed.
Lemma kept_printk f a : mem_kept (printk f a).
Proof. done. Qed.
Lemma kept_debugk b f a : mem_kept (debugk b f a).
Proof. by destruct b. Qed.
Lemma kept_from p n : mem_kept (copy_from_user p n).
Proof. done. Qed.
Lemma kept_to p l : mem_kept (copy_to_user p l).
Proof. done. Qed.
Lemma kept_drv {A} (f : D -> A * D) : mem_kept (drv f).
Proof. intros E w. by apply wp_drv. Qed.
End Kept.
Create HintDb kept.
#[export] Hint Resolve mkept_ret kept_printk kept_debugk kept_from kept_to kept_drv : kept.
Ltac kept := repeat first
  [ solve [eauto with kept] | apply mkept_bind; [|intros ?] | case_match ].

(** An instance for the concrete kernel. *)
Definition sim_os (fails : nat -> bool) : PortableOs := {|
  OS_ERROR_FAIL_S := - EIO;
  OS_ERROR_NO_MEMORY_S := - ENOMEM;
  OS_ERROR_BAD_ADDRESS_S := - EFAULT;
  o_complete cs i major :=
    let m := if major =? 0 then 250 else major in
    if fails i || bool_decide (m ∈ cs.*1) then (- EBUSY, 0) else (0, m);
|}.
#[export] Instance sim_os_laws fails : @PortableOsLaws (sim_os fails).
Proof.
  split; try done. intros cs i major. simpl. destruct (fails i); simpl; [done|].
  case_bool_decide; simpl; [done|]. intros _. split; [done|].
  destruct (Z.eqb_spec major 0); split; done.
Qed.
