(* ===== verification/Sdma.v ===== *)
(** * What the two SDMA test modules share

    [mxc_sdma_memcopy_test.c] and [mxc_sdma_mem_test.c] register the same
    character device in the same way, and fill and compare arrays in kernel
    memory; one user program drives them.  The globals that both declare are
    the class [SdmaGlobals]; each module instantiates it with its own record. *)
From S2P Require Import Prelude CInt CMonad CStruct Kernel.

Definition SDMA_BUF_SIZE : Z := 1024.

Class SdmaGlobals (G : Type) := {
  gMajor : G -> Z;
  dma_tm_class : G -> Z;
  set_gMajor : Z -> G -> G;
  set_dma_tm_class : Z -> G -> G;
  gMajor_set v g : gMajor (set_gMajor v g) = v;
  gMajor_class v g : gMajor (set_dma_tm_class v g) = gMajor g;
  class_set v g : dma_tm_class (set_dma_tm_class v g) = v;
}.

Section Module.
Context `{Kernel} {D G : Type} `{SdmaGlobals G}.
Abbreviation W := (world D G).

Definition getg {A} (f : G -> A) : M W A := gets (fun w => f (glob w)).
Definition setg (f : G -> G) : M W unit := modify (fun w => set_glob (f (glob w)) w).

(** ** Loading and unloading *)
Definition sdma_init_module : M W Z :=
  error ← register_chrdev 0 "sdma_test";
  if error <? 0 then
    printk "SDMA test driver can't get major number\n" [];;
    mret error
  else
    setg (set_gMajor error);;
    printk "SDMA test major number = %d\n" [AInt error];;
    class ← class_create "sdma_test";
    setg (set_dma_tm_class class);;
    if IS_ERR class then
      printk (KERN_ERR ++ "Error creating sdma test module class.\n") [];;
      major ← getg gMajor;
      unregister_chrdev major "sdma_test";;
      mret (PTR_ERR class)
    else
      major ← getg gMajor;
      temp_class ← device_create class (MKDEV major 0) "sdma_test";
      if IS_ERR temp_class then
        printk (KERN_ERR ++ "Error creating sdma test class device.\n") [];;
        class ← getg dma_tm_class;
        class_destroy class;;
        major ← getg gMajor;
        unregister_chrdev major "sdma_test";;
        mret (-1)
      else
        printk "SDMA test Driver Module loaded\n" [];;
        mret 0.

Definition sdma_cleanup_module : M W unit :=
  major ← getg gMajor;
  unregister_chrdev major "sdma_test";;
  class ← getg dma_tm_class;
  device_destroy class (MKDEV major 0);;
  class_destroy class;;
  printk "SDMA test Driver Module Unloaded\n" [].

(** ** Arrays of 32-bit words in kernel memory *)
Definition word (p i : Z) : M W Z := b ← kread p (4 * i) 4; mret (of_le b).
(** [for (i = 0; i < n; i++) *(p + i) = v] *)
Definition fill_words (p : Z) (n : nat) (v : Z) : M W unit :=
  for_m n 0 (fun i => kwrite p (4 * i) (to_le 4 v)).
(** [for (; n--; i++) if (r[i] != w[i]) ...]: the first difference. *)
Fixpoint compare_words (n : nat) (i r w : Z) : M W (option (Z * Z * Z)) :=
  match n with
  | O => mret None
  | S n =>
      a ← word r i;
      b ← word w i;
      if negb (a =? b) then mret (Some (a, b, i)) else compare_words n (i + 1) r w
  end.
End Module.

(** ** The program that uses the device

    [src/test/mxc_sdma_test/mxc_sdma_test.c], which runs on either module: the
    file operations that serve its system calls and the second it sleeps. *)
Record file_operations (W : Type) := mkFops {
  fop_open : M W Z;
  fop_release : M W Z;
  fop_read : M W Z;
  fop_write : M W Z;
}.
Arguments mkFops {W}.
Arguments fop_open {W}.
Arguments fop_release {W}.
Arguments fop_read {W}.
Arguments fop_write {W}.

Section Program.
Context {D G : Type} (dma_fops : file_operations (world D G)) (sleep : M (world D G) unit).
Definition use_device : M (world D G) Z :=
  _ ← fop_write dma_fops;
  sleep;;
  _ ← fop_read dma_fops;
  _ ← fop_release dma_fops;
  mret 0.
Definition test : M (world D G) Z :=
  fd ← fop_open dma_fops;
  if fd <? 0 then
    printf "Failed open\n" [];;
    exit (-1)
  else use_device.
Definition main : M (world D G) Z := _ ← test; mret 0.
End Program.

(** ** Laws of the arrays *)
Definition words (n : nat) (v : Z) : list Z := concat (replicate n (to_le 4 v)).
Fixpoint first_diff (n : nat) (i : Z) (r w : list Z) : option (Z * Z * Z) :=
  match n with
  | O => None
  | S n =>
      let a := of_le (peek (Z.to_nat (4 * i)) 4 r) in
      let b := of_le (peek (Z.to_nat (4 * i)) 4 w) in
      if negb (a =? b) then Some (a, b, i) else first_diff n (i + 1) r w
  end.

Lemma length_words n v : length (words n v) = (4 * n)%nat.
Proof. induction n as [|n IH]; [done|]. unfold words in *. cbn [replicate concat].
  rewrite length_app, IH, length_to_le. lia. Qed.

Lemma words_snoc n v : words (S n) v = words n v ++ to_le 4 v.
Proof.
  unfold words. replace (S n) with (n + 1)%nat by lia. rewrite replicate_add, concat_app. done.
Qed.

Lemma poke_end (pre v b : list Z) :
  (length pre + length v <= length b)%nat ->
  poke (length pre) v (pre ++ drop (length pre) b) = (pre ++ v) ++ drop (length pre + length v) b.
Proof.
  intros Hl. unfold poke. rewrite take_app_length, drop_app_ge by lia.
  replace (length pre + length v - length pre)%nat with (length v) by lia.
  by rewrite drop_drop, <- app_assoc.
Qed.

Section ArrayRules.
Context `{KL : KernelLaws} {D G : Type} (U : Prop).
Abbreviation W := (world D G).
Implicit Types (w : W) (E : Z -> W -> Prop).

(** A write through [kwrite] only replaces the block. *)
Definition with_block (p : Z) (b : block) (w : W) : W := set_kern (set_kmem <[p := b]>) w.
Lemma with_block_with p b c w : with_block p b (with_block p c w) = with_block p b w.
Proof. unfold with_block, set_kern, set_kmem. simpl. by rewrite insert_insert_eq. Qed.

Lemma fill_from p n k v bs kd (Q : unit -> W -> Prop) E w :
  kmem (kern w) !! p = Some (mkBlock kd (words k v ++ drop (4 * k) bs)) ->
  (4 * (k + n) <= length bs)%nat ->
  Q tt (with_block p (mkBlock kd (words (k + n) v ++ drop (4 * (k + n)) bs)) w) ->
  wpu U (for_m n (Z.of_nat k) (fun i => kwrite p (4 * i) (to_le 4 v))) Q E w.
Proof.
  revert k w. induction n as [|n IH]; intros k w Hm Hl HQ; cbn [for_m].
  { apply wp_skip. rewrite Nat.add_0_r in HQ.
    unfold with_block in HQ. by rewrite set_kmem_same in HQ. }
  apply wp_bind. eapply wp_kwrite; [exact Hm|lia| |].
  { cbn [b_data]. rewrite length_app, length_words, length_drop, length_to_le. lia. }
  cbn [b_data b_kind].
  assert (Z.to_nat (4 * Z.of_nat k) = length (words k v)) as -> by (rewrite length_words; lia).
  replace (drop (4 * k) bs) with (drop (length (words k v)) bs) by by rewrite length_words.
  rewrite poke_end by (rewrite length_words, length_to_le; lia).
  rewrite <- words_snoc, length_words, length_to_le. replace (4 * k + 4)%nat with (4 * S k)%nat by lia.
  replace (Z.of_nat k + 1) with (Z.of_nat (S k)) by lia. apply IH.
  - simpl. by rewrite lookup_insert_eq.
  - lia.
  - fold (with_block p (mkBlock kd (words (S k) v ++ drop (4 * S k) bs)) w).
    rewrite with_block_with. by replace (S k + n)%nat with (k + S n)%nat by lia.
Qed.

Lemma wp_fill_words p n v bs kd (Q : unit -> W -> Prop) E w :
  kmem (kern w) !! p = Some (mkBlock kd bs) -> length bs = (4 * n)%nat ->
  Q tt (with_block p (mkBlock kd (words n v)) w) ->
  wpu U (fill_words p n v) Q E w.
Proof.
  intros Hm Hl HQ. unfold fill_words. apply (fill_from p n 0 v bs kd).
  - by rewrite drop_0.
  - lia.
  - rewrite drop_ge, app_nil_r by lia. by rewrite Nat.add_0_l.
Qed.

Lemma wp_word p i bs kd (Q : Z -> W -> Prop) E w :
  kmem (kern w) !! p = Some (mkBlock kd bs) -> 0 <= i -> 4 * i + 4 <= zlen bs ->
  Q (of_le (peek (Z.to_nat (4 * i)) 4 bs)) w -> wpu U (word p i) Q E w.
Proof.
  intros Hm Hi Hl HQ. unfold word. apply wp_bind.
  eapply wp_kread; [exact Hm|lia|lia|simpl; lia|]. by apply wp_ret.
Qed.

Lemma wp_compare n i r q br bq kr kq (Q : option (Z * Z * Z) -> W -> Prop) E w :
  kmem (kern w) !! r = Some (mkBlock kr br) -> kmem (kern w) !! q = Some (mkBlock kq bq) ->
  0 <= i -> 4 * (i + Z.of_nat n) <= zlen br -> 4 * (i + Z.of_nat n) <= zlen bq ->
  Q (first_diff n i br bq) w -> wpu U (compare_words n i r q) Q E w.
Proof.
  intros Hr Hq. revert i. induction n as [|n IH]; intros i Hi Hlr Hlq HQ; simpl; [done|].
  apply wp_bind. eapply wp_word; [exact Hr|lia|lia|].
  apply wp_bind. eapply wp_word; [exact Hq|lia|lia|].
  simpl in HQ. destruct (negb _); [done|]. apply IH; try lia. done.
Qed.
End ArrayRules.

(** No difference is found between equal arrays. *)
Lemma first_diff_refl n i l : first_diff n i l l = None.
Proof. revert i. induction n as [|n IH]; intros i; simpl; [done|]. rewrite Z.eqb_refl. apply IH. Qed.

(** A pair of arrays without a difference holds the same bytes. *)
Lemma first_diff_none n i (r w : list Z) :
  0 <= i -> Forall is_byte r -> Forall is_byte w ->
  4 * (i + Z.of_nat n) <= zlen r -> 4 * (i + Z.of_nat n) <= zlen w ->
  first_diff n i r w = None ->
  peek (Z.to_nat (4 * i)) (4 * n) r = peek (Z.to_nat (4 * i)) (4 * n) w.
Proof.
  revert i. induction n as [|n IH]; intros i Hi Hr Hw Hlr Hlw Hd; [done|]. simpl in Hd.
  destruct (Z.eqb_spec (of_le (peek (Z.to_nat (4 * i)) 4 r)) (of_le (peek (Z.to_nat (4 * i)) 4 w)))
    as [He|]; simpl in Hd; [|done].
  apply IH in Hd; [|lia|done|done|lia|lia].
  assert (forall l : list Z, Forall is_byte l -> 4 * (i + Z.of_nat (S n)) <= zlen l ->
    peek (Z.to_nat (4 * i)) (4 * S n) l =
    to_le 4 (of_le (peek (Z.to_nat (4 * i)) 4 l)) ++ peek (Z.to_nat (4 * (i + 1))) (4 * n) l) as Hsplit.
  { intros l Hl Hlen. pose proof (to_of_le (peek (Z.to_nat (4 * i)) 4 l)) as Hle.
    rewrite length_peek in Hle by lia. rewrite Hle by (unfold peek; by apply Forall_take, Forall_drop).
    unfold peek. replace (4 * S n)%nat with (4 + 4 * n)%nat by lia.
    rewrite <- take_take_drop, drop_drop. do 3 f_equal. lia. }
  rewrite !Hsplit by done. by rewrite He, Hd.
Qed.

(** ** Loading *)
Section Loading.
Context `{KL : KernelLaws} {D G : Type} `{SdmaGlobals G}.
Abbreviation W := (world D G).
Implicit Types w : W.

(** Loading registers everything and returns 0, or fails with a negative error
    and registers nothing; unloading restores the registrations. *)
Lemma sdma_load_unload w :
  wp (r ← sdma_init_module; when (r =? 0) sdma_cleanup_module;; mret r)
    (fun r w' => r <= 0 /\ regs w' = regs w /\ kmem (kern w') = kmem (kern w) /\ dev w' = dev w)
    (fun _ _ => False) w.
Proof.
  set (post := fun (r : Z) (w' : W) =>
    r <= 0 /\ regs w' = regs w /\ kmem (kern w') = kmem (kern w) /\ dev w' = dev w).
  assert (forall r w', r < 0 -> post r w' ->
    wp (when (r =? 0) sdma_cleanup_module;; mret r) post (fun _ _ => False) w') as Hfail.
  { intros r w' Hr Hw. destruct (Z.eqb_spec r 0); [lia|]. by apply wp_bind, wp_skip, wp_ret. }
  unfold sdma_init_module. apply wp_bind, wp_bind, wp_register_any.
  { intros r Hr. rewrite (proj2 (Z.ltb_lt r 0) Hr). apply wp_bind, wp_printk, wp_ret.
    apply Hfail; [done|]. split; [lia|done]. }
  intros major Hm Hfresh. destruct (Z.ltb_spec major 0); [lia|].
  apply wp_bind, wp_modify, wp_bind, wp_printk, wp_bind, wp_class_create.
  { intros h Hh Hr. apply wp_bind, wp_modify. rewrite Hh.
    apply wp_bind, wp_printk, wp_bind, wp_gets, wp_bind, wp_modify, wp_ret.
    pose proof (IS_ERR_negative h Hr Hh). apply Hfail; [done|]. unfold post, regs. simpl.
    rewrite gMajor_class, gMajor_set, drop_key_cons by done. split; [lia|done]. }
  intros h Hh Hhf. apply wp_bind, wp_modify. rewrite Hh. apply wp_bind, wp_gets, wp_bind. simpl.
  rewrite gMajor_class, gMajor_set. apply wp_device_create.
  { intros d He. rewrite He. apply wp_bind, wp_printk, wp_bind, wp_gets, wp_bind, wp_modify.
    apply wp_bind, wp_gets, wp_bind, wp_modify, wp_ret. apply Hfail; [done|]. unfold post, regs. simpl.
    by rewrite gMajor_class, gMajor_set, class_set, !drop_key_cons by done. }
  intros d He Hdf. rewrite He. apply wp_bind, wp_printk, wp_ret. unfold sdma_cleanup_module, getg. simpl.
  ksteps. unfold post, regs. simpl.
  by rewrite gMajor_class, gMajor_set, class_set, !drop_key_cons by done.
Qed.
End Loading.
