(* ===== verification/SdmaCopy.v ===== *)
(** * The SDMA copy test module

    [src/module_test/mxc_sdma_memcopy_test.c]: opening the device takes a DMA
    channel and eight buffers, writing to it fills four of them and has the
    engine copy them into the other four, reading compares, closing gives
    everything back.  The DMA engine is the class [DmaEngine]; it runs when
    the module waits for it. *)
From S2P Require Import Prelude CInt CMonad CStruct Kernel PortableOs Sdma.

(** ** Data *)
Inductive sdma_buf := wbuf | wbuf2 | wbuf3 | wbuf4 | rbuf | rbuf2 | rbuf3 | rbuf4.
#[export] Instance sdma_buf_eq_dec : EqDecision sdma_buf.
Proof. solve_decision. Defined.

(** An entry of a scatter list: what [sg_set_buf] puts there. *)
Record scatterlist := mkSg { sg_buf : Z; sg_length : Z }.
Definition sg_init_table (n : nat) : list scatterlist := replicate n (mkSg 0 0).
Definition sg_set_buf (i : nat) (buf len : Z) : list scatterlist -> list scatterlist :=
  <[i := mkSg buf len]>.

Inductive dma_direction := DMA_MEM_TO_MEM | DMA_TO_DEVICE | DMA_FROM_DEVICE.
Inductive dma_buswidth := DMA_SLAVE_BUSWIDTH_UNDEFINED | DMA_SLAVE_BUSWIDTH_2_BYTES.
Inductive dma_cap := DMA_SLAVE.
Record dma_slave_config := mkConfig { direction : dma_direction; dst_addr_width : dma_buswidth }.
Inductive dmatype := IMX_DMATYPE_MEMORY.
Inductive dma_prio := DMA_PRIO_HIGH.
Record imx_dma_data := mkDmaData { peripheral_type : dmatype; priority : dma_prio }.

Record globals := mkGlobals {
  major_number : Z;
  tm_class : Z;
  bufs : sdma_buf -> Z;
  dma_m2m_chan : Z;
  dma_m2m_ok : nat;                (* the counter of the completion *)
  sg : list scatterlist;
  sg2 : list scatterlist;
}.
Definition copy_globals : globals :=
  mkGlobals 0 0 (fun _ => 0) 0 0 (sg_init_table 3) (sg_init_table 3).
Definition set_buf (b : sdma_buf) (p : Z) (g : globals) : globals :=
  mkGlobals (major_number g) (tm_class g)
    (fun c => if bool_decide (c = b) then p else bufs g c) (dma_m2m_chan g)
    (dma_m2m_ok g) (sg g) (sg2 g).
Definition set_chan (c : Z) (g : globals) : globals :=
  mkGlobals (major_number g) (tm_class g) (bufs g) c (dma_m2m_ok g) (sg g) (sg2 g).
Definition set_ok (n : nat) (g : globals) : globals :=
  mkGlobals (major_number g) (tm_class g) (bufs g) (dma_m2m_chan g) n (sg g) (sg2 g).
Definition set_sg (f : list scatterlist -> list scatterlist) (g : globals) : globals :=
  mkGlobals (major_number g) (tm_class g) (bufs g) (dma_m2m_chan g) (dma_m2m_ok g) (f (sg g)) (sg2 g).
Definition set_sg2 (f : list scatterlist -> list scatterlist) (g : globals) : globals :=
  mkGlobals (major_number g) (tm_class g) (bufs g) (dma_m2m_chan g) (dma_m2m_ok g) (sg g) (f (sg2 g)).
#[export] Instance copy_sdma_globals : SdmaGlobals globals.
Proof.
  refine {| gMajor := major_number; dma_tm_class := tm_class;
    set_gMajor v g := mkGlobals v (tm_class g) (bufs g) (dma_m2m_chan g) (dma_m2m_ok g) (sg g) (sg2 g);
    set_dma_tm_class v g :=
      mkGlobals (major_number g) v (bufs g) (dma_m2m_chan g) (dma_m2m_ok g) (sg g) (sg2 g) |};
    done.
Defined.

(** ** The DMA engine

    A channel and a descriptor are addresses, 0 for none.  [dma_run] lets the
    engine work on kernel memory up to its next completion interrupt; [None]
    when there will be none. *)
Class DmaEngine (D : Type) := {
  imx_dma_is_general_purpose : Z -> bool;
  dma_request_channel : dma_cap -> (Z -> option imx_dma_data) -> D -> Z * D;
  dma_put_channel : Z -> D -> D;
  dmaengine_slave_config : Z -> dma_slave_config -> D -> Z * D;
  dma_map_sg : list scatterlist -> dma_direction -> D -> Z * D;
  dma_unmap_sg : list scatterlist -> dma_direction -> D -> D;
  dma_map_single : Z -> Z -> dma_direction -> D -> Z * D;
  dma_unmap_single : Z -> Z -> dma_direction -> D -> D;
  device_prep_slave_sg : Z -> list scatterlist -> dma_direction -> Z -> D -> Z * D;
  device_prep_dma_sg : Z -> list scatterlist -> list scatterlist -> D -> Z * D;
  device_prep_dma_memcpy : Z -> Z -> Z -> Z -> D -> Z * D;
  set_callback : Z -> D -> D;
  dmaengine_submit : Z -> D -> Z * D;
  dma_async_issue_pending : Z -> D -> D;
  dma_run : gmap Z block -> D -> option (gmap Z block * D);
}.

Definition KERNEL_VERSION (a b c : Z) : Z := Z.shiftl a 16 + Z.shiftl b 8 + c.

Section Driver.
Context `{Kernel} {D : Type} `{DmaEngine D} (LINUX_VERSION_CODE : Z).
Abbreviation W := (world D globals).

(** Configured at compile time: [since] and [until] 3.0.35. *)
Definition since_3_0_35 : bool := KERNEL_VERSION 3 0 35 <=? LINUX_VERSION_CODE.
Definition until_3_0_35 : bool := LINUX_VERSION_CODE <=? KERNEL_VERSION 3 0 35.

Definition buf (b : sdma_buf) : M W Z := getg (fun g => bufs g b).
Definition drv_ (f : D -> D) : M W unit := drv (fun d => (tt, f d)).

(** What the filter writes to [chan->private], or [None] for [false]. *)
Definition dma_m2m_filter (param : imx_dma_data) (chan : Z) : option imx_dma_data :=
  if negb (imx_dma_is_general_purpose chan) then None else Some param.

(** ** Open and release *)
Definition with_buffer (b : sdma_buf) (n : Z) (msg : string) (k : M W Z) : M W Z :=
  p ← kzalloc n;
  setg (set_buf b p);;
  if p =? 0 then printk msg [];; mret (-1) else k.

Definition sdma_open : M W Z :=
  setg (set_ok 0);;
  chan ← drv (dma_request_channel DMA_SLAVE
                (dma_m2m_filter (mkDmaData IMX_DMATYPE_MEMORY DMA_PRIO_HIGH)));
  setg (set_chan chan);;
  if chan =? 0 then
    printk "Error opening the SDMA memory to memory channel\n" [];;
    mret (- EINVAL)
  else
    with_buffer wbuf SDMA_BUF_SIZE "error wbuf !!!!!!!!!!!\n" (
    with_buffer wbuf2 (SDMA_BUF_SIZE / 2) "error wbuf2 !!!!!!!!!!!\n" (
    with_buffer wbuf3 SDMA_BUF_SIZE "error wbuf3 !!!!!!!!!!!\n" (
    with_buffer wbuf4 SDMA_BUF_SIZE "error wbuf4 !!!!!!!!!!!\n" (
    with_buffer rbuf SDMA_BUF_SIZE "error rbuf !!!!!!!!!!!\n" (
    with_buffer rbuf2 (SDMA_BUF_SIZE / 2) "error rbuf2 !!!!!!!!!!!\n" (
    with_buffer rbuf3 SDMA_BUF_SIZE "error rbuf3 !!!!!!!!!!!\n" (
    with_buffer rbuf4 SDMA_BUF_SIZE "error rbuf4 !!!!!!!!!!!\n" (
    mret 0)))))))).

(** The channel is dereferenced. *)
Definition dma_release_channel (chan : Z) : M W unit :=
  if chan =? 0 then undef else drv_ (dma_put_channel chan).
Definition free_buf (b : sdma_buf) : M W unit := p ← buf b; kfree p.

Definition sdma_release : M W Z :=
  chan ← getg dma_m2m_chan;
  dma_release_channel chan;;
  setg (set_chan 0);;
  free_buf wbuf;;
  free_buf wbuf2;;
  free_buf wbuf3;;
  free_buf wbuf4;;
  free_buf rbuf;;
  free_buf rbuf2;;
  free_buf rbuf3;;
  free_buf rbuf4;;
  mret 0.

(** ** Read: compare what was copied *)
Definition check_copy (r w : sdma_buf) (n : Z) (failed : Z * Z * Z -> print) (passed : string)
    (k : M W Z) : M W Z :=
  pr ← buf r;
  pw ← buf w;
  d ← compare_words (Z.to_nat n) 0 pr pw;
  match d with
  | Some x => printk (fmt (failed x)) (args (failed x));; mret 0
  | None => printk passed [];; k
  end.
Definition falled (f : string) : Z * Z * Z -> print := fun _ => Printf f [].

Definition sdma_read : M W Z :=
  check_copy rbuf wbuf (SDMA_BUF_SIZE / 4)
    (falled "buffer 1 copy falled!\n") "buffer 1 copy passed!\n" (
  check_copy rbuf2 wbuf2 (SDMA_BUF_SIZE / 2 / 4)
    (falled "buffer 2 copy falled!\n") "buffer 2 copy passed!\n" (
  check_copy rbuf3 wbuf3 (SDMA_BUF_SIZE / 4)
    (falled "buffer 3 copy falled!\n") "buffer 3 copy passed!\n" (
  if since_3_0_35 then
    check_copy rbuf4 wbuf4 (SDMA_BUF_SIZE / 4)
      (fun '(r, w, i) => Printf "buffer 4 copy falled!,r=%x,w=%x,%d\n" [AInt r; AInt w; AInt i])
      "buffer 4 copy passed!\n" (mret 0)
  else mret 0))).

(** ** Write: fill and copy *)
Definition dma_m2m_callback : M W unit :=
  printk "in %s\n" [AStr "dma_m2m_callback"];;
  setg (fun g => set_ok (S (dma_m2m_ok g)) g).
(** The engine runs until the completion was signalled; waiting for ever when
    it will not be. *)
Definition wait_for_completion : M W unit :=
  n ← (getg dma_m2m_ok : M W nat);
  match n return M W unit with
  | S n => setg (set_ok n)
  | O => fun w : W =>
      match dma_run (kmem (kern w)) (dev w) with
      | None => (NoFuel, w)
      | Some (m, d) =>
          (dma_m2m_callback;; setg (fun g => set_ok (Nat.pred (dma_m2m_ok g)) g))
            (set_dev d (set_kern (set_kmem (fun _ => m)) w))
      end
  end.
(** [desc->callback = dma_m2m_callback]. *)
Definition store_callback (desc : Z) : M W unit :=
  if desc =? 0 then undef else drv_ (set_callback desc).

Definition fill_buffers : M W unit :=
  index4 ← buf wbuf4;
  index1 ← buf wbuf;
  index2 ← buf wbuf2;
  index3 ← buf wbuf3;
  fill_words index1 (Z.to_nat (SDMA_BUF_SIZE / 4)) 0x12121212;;
  fill_words index2 (Z.to_nat (SDMA_BUF_SIZE / 2 / 4)) 0x34343434;;
  fill_words index3 (Z.to_nat (SDMA_BUF_SIZE / 4)) 0x56565656;;
  fill_words index4 (Z.to_nat (SDMA_BUF_SIZE / 4)) 0x56565656.

(** [sg_init_table] and three [sg_set_buf]. *)
Definition set_table (set : (list scatterlist -> list scatterlist) -> globals -> globals)
    (b1 b2 b3 : sdma_buf) : M W unit :=
  setg (set (fun _ => sg_init_table 3));;
  p1 ← buf b1; setg (set (sg_set_buf 0 p1 SDMA_BUF_SIZE));;
  p2 ← buf b2; setg (set (sg_set_buf 1 p2 (SDMA_BUF_SIZE / 2)));;
  p3 ← buf b3; setg (set (sg_set_buf 2 p3 SDMA_BUF_SIZE)).

(** The first three buffers, through scatter lists. *)
Definition copy_scattered : M W unit :=
  let dma_m2m_config := mkConfig DMA_MEM_TO_MEM DMA_SLAVE_BUSWIDTH_2_BYTES in
  chan ← getg dma_m2m_chan;
  _ ← drv (dmaengine_slave_config chan dma_m2m_config);
  set_table set_sg wbuf wbuf2 wbuf3;;
  l ← getg sg;
  _ ← drv (dma_map_sg l (direction dma_m2m_config));
  when until_3_0_35 (
    _ ← drv (device_prep_slave_sg chan l (direction dma_m2m_config) 1); skip);;
  set_table set_sg2 rbuf rbuf2 rbuf3;;
  l2 ← getg sg2;
  _ ← drv (dma_map_sg l2 (direction dma_m2m_config));
  desc ← (if until_3_0_35
          then drv (device_prep_slave_sg chan l2 (direction dma_m2m_config) 0)
          else drv (device_prep_dma_sg chan l2 l));
  store_callback desc;;
  _ ← drv (dmaengine_submit desc);
  when since_3_0_35 (drv_ (dma_async_issue_pending chan));;
  wait_for_completion;;
  drv_ (dma_unmap_sg l (direction dma_m2m_config));;
  drv_ (dma_unmap_sg l2 (direction dma_m2m_config)).

(** The fourth buffer, as one block. *)
Definition copy_single : M W unit :=
  chan ← getg dma_m2m_chan;
  pw ← buf wbuf4;
  dma_src ← drv (dma_map_single pw SDMA_BUF_SIZE DMA_TO_DEVICE);
  pr ← buf rbuf4;
  dma_dst ← drv (dma_map_single pr SDMA_BUF_SIZE DMA_FROM_DEVICE);
  desc ← drv (device_prep_dma_memcpy chan dma_dst dma_src SDMA_BUF_SIZE);
  when (desc =? 0) (printk "prep error!!\n" []);;
  store_callback desc;;
  _ ← drv (dmaengine_submit desc);
  drv_ (dma_async_issue_pending chan);;
  wait_for_completion;;
  drv_ (dma_unmap_single dma_src SDMA_BUF_SIZE DMA_TO_DEVICE);;
  drv_ (dma_unmap_single dma_dst SDMA_BUF_SIZE DMA_FROM_DEVICE).

Definition sdma_write : M W Z :=
  fill_buffers;;
  copy_scattered;;
  when since_3_0_35 copy_single;;
  mret 0.

Definition dma_fops : file_operations W := mkFops sdma_open sdma_release sdma_read sdma_write.
End Driver.
