(* ===== verification/SdmaCopySpec.v ===== *)
(** * What the SDMA copy test does

    The eight buffers of an open device are eight distinct live blocks
    ([opened]); every function of the module is described by what it does to
    their contents.  A session against an engine that copies reports success
    and gives everything back; a failed open keeps what it got; a second open
    loses the buffers of the first. *)
From S2P Require Import Prelude CInt CMonad CStruct Kernel SimKernel PortableOs Sdma SdmaCopy.

(** ** A family of blocks *)
Definition upd {A} (b : sdma_buf) (x : A) (f : sdma_buf -> A) : sdma_buf -> A :=
  fun c => if bool_decide (c = b) then x else f c.
Lemma upd_eq {A} b (x : A) f : upd b x f b = x.
Proof. unfold upd. by rewrite bool_decide_eq_true_2. Qed.
Lemma upd_ne {A} b c (x : A) f : c <> b -> upd b x f c = f c.
Proof. intros. unfold upd. by rewrite bool_decide_eq_false_2. Qed.

Section Blocks.
Implicit Types (l : list sdma_buf) (p : sdma_buf -> Z) (c : sdma_buf -> list Z) (m : gmap Z block).

Definition blocks l p c m : gmap Z block :=
  fold_right (fun b m => <[p b := mkBlock Kmalloc (c b)]> m) m l.

(** The addresses are distinct and none of them is used in [m]. *)
Record owned l p m : Prop := mkOwned {
  owned_nodup : NoDup l;
  owned_inj b b' : b ∈ l -> b' ∈ l -> p b = p b' -> b = b';
  owned_valid b : b ∈ l -> ZERO_SIZE_PTR < p b;
  owned_fresh b : b ∈ l -> m !! p b = None;
}.

Lemma blocks_ext l p p' c c' m :
  (forall b, b ∈ l -> p b = p' b /\ c b = c' b) -> blocks l p c m = blocks l p' c' m.
Proof.
  induction l as [|b l IH]; intros Hl; simpl; [done|].
  destruct (Hl b (list_elem_of_here _ _)) as [-> ->]. f_equal. apply IH.
  intros. apply Hl. by apply list_elem_of_further.
Qed.
Lemma blocks_other l p c m q : (forall b, b ∈ l -> p b <> q) -> blocks l p c m !! q = m !! q.
Proof.
  induction l as [|b l IH]; intros Hl; simpl; [done|].
  rewrite lookup_insert_ne by (apply Hl, list_elem_of_here).
  apply IH. intros. apply Hl. by apply list_elem_of_further.
Qed.
Lemma blocks_free l p c m q :
  blocks l p c m !! q = None -> m !! q = None /\ forall b, b ∈ l -> p b <> q.
Proof.
  induction l as [|b l IH]; simpl; intros Hq; [by split; [|intros ? []%not_elem_of_nil]|].
  rewrite lookup_insert in Hq. case_decide as Hb; [done|]. destruct (IH Hq) as [Hm Hl].
  split; [done|]. intros b' [->|]%elem_of_cons; auto.
Qed.
Lemma blocks_lookup l p c m b :
  owned l p m -> b ∈ l -> blocks l p c m !! p b = Some (mkBlock Kmalloc (c b)).
Proof.
  intros Ho. pose proof (owned_inj _ _ _ Ho) as Hi. clear Ho. intros Hb.
  induction l as [|b' l IH]; simpl; [by apply not_elem_of_nil in Hb|].
  rewrite lookup_insert. case_decide as He.
  - by rewrite (Hi b' b (list_elem_of_here _ _) Hb He).
  - apply elem_of_cons in Hb as [->|Hb]; [done|]. apply IH; [|done].
    intros. apply Hi; [by apply list_elem_of_further..|done].
Qed.
Lemma blocks_update l p c m b x :
  owned l p m -> b ∈ l ->
  <[p b := mkBlock Kmalloc x]> (blocks l p c m) = blocks l p (upd b x c) m.
Proof.
  intros [Hn Hi _ _] Hb.
  induction l as [|b' l IH]; simpl; [by apply not_elem_of_nil in Hb|].
  apply NoDup_cons in Hn as [Hnb Hn]. destruct (decide (b' = b)) as [->|Hne].
  - rewrite insert_insert_eq, upd_eq. f_equal. apply blocks_ext. intros b' Hb'. split; [done|].
    by rewrite upd_ne by by intros ->.
  - apply elem_of_cons in Hb as [->|Hb]; [done|]. rewrite upd_ne by done.
    rewrite <- IH; [|done| |done].
    + apply insert_insert_ne. intros He. apply Hne. symmetry. apply Hi; [|apply list_elem_of_here|done].
      by apply list_elem_of_further.
    + intros. apply Hi; [by apply list_elem_of_further..|done].
Qed.
Definition without b l : list sdma_buf := List.filter (fun x => negb (bool_decide (x = b))) l.
Lemma blocks_delete l p c m b :
  owned l p m -> b ∈ l -> delete (p b) (blocks l p c m) = blocks (without b l) p c m.
Proof.
  intros [Hn Hi _ Hf] Hb. specialize (Hf b Hb). revert Hb.
  induction l as [|b' l IH]; simpl; intros Hb; [by apply not_elem_of_nil in Hb|].
  apply NoDup_cons in Hn as [Hnb Hn].
  assert (forall b1 b2, b1 ∈ l -> b2 ∈ l -> p b1 = p b2 -> b1 = b2) as Hi'
    by (intros; apply Hi; [by apply list_elem_of_further..|done]).
  case_bool_decide as Hbb; simpl.
  - subst b'. rewrite delete_insert_eq.
    assert (without b l = l) as ->.
    { unfold without. clear -Hnb. induction l as [|a l IH]; [done|]. simpl.
      rewrite not_elem_of_cons in Hnb. destruct Hnb as [Hab Hnb].
      rewrite bool_decide_eq_false_2 by congruence. simpl. f_equal. by apply IH. }
    rewrite delete_id; [done|]. rewrite blocks_other; [done|].
    intros b' Hb' He. apply Hnb. rewrite <- (Hi b' b); auto using list_elem_of_further.
  - apply elem_of_cons in Hb as [->|Hb]; [done|].
    rewrite delete_insert_ne; [by rewrite IH|]. intros He. apply Hbb.
    apply Hi; [apply list_elem_of_here|by apply list_elem_of_further|done].
Qed.
Lemma without_in b l b' : b' ∈ without b l -> b' ∈ l /\ b' <> b.
Proof.
  unfold without. rewrite elem_of_lfilter, negb_true_iff, bool_decide_eq_false. done.
Qed.
Lemma owned_without l p m b : owned l p m -> owned (without b l) p m.
Proof.
  intros [Hn Hi Hv Hf]. split.
  - pose proof (nodup_map_filter (fun x => x) (fun x => negb (bool_decide (x = b))) l) as Hnf.
    rewrite !map_id in Hnf. by apply Hnf.
  - intros b1 b2 [? _]%without_in [? _]%without_in. auto.
  - intros b1 [? _]%without_in. auto.
  - intros b1 [? _]%without_in. auto.
Qed.
Lemma owned_cons l p m b q :
  owned l p m -> b ∉ l -> ZERO_SIZE_PTR < q -> blocks l p (fun _ => []) m !! q = None ->
  owned (b :: l) (upd b q p) m.
Proof.
  intros [Hn Hi Hv Hf] Hb Hq Hfree. apply blocks_free in Hfree as [Hm Hl].
  assert (forall b', b' ∈ l -> upd b q p b' = p b') as Hu
    by (intros; apply upd_ne; by intros ->).
  split.
  - by constructor.
  - intros b1 b2 H1 H2. rewrite elem_of_cons in H1, H2. destruct H1 as [->|H1], H2 as [->|H2];
      rewrite ?upd_eq, ?Hu by done; intros He; auto; by destruct (Hl _ ltac:(eassumption)).
  - intros b1 [->|H1]%elem_of_cons; rewrite ?upd_eq, ?Hu by done; auto.
  - intros b1 [->|H1]%elem_of_cons; rewrite ?upd_eq, ?Hu by done; auto.
Qed.
End Blocks.

(** What the engine does to memory: the bytes of the source entries, one
    after the other, into the destination entries. *)
Definition gather (m : gmap Z block) (l : list scatterlist) : list Z :=
  concat (map (fun e => match m !! sg_buf e with
                        | Some b => take (Z.to_nat (sg_length e)) (b_data b)
                        | None => []
                        end) l).
Fixpoint scatter (l : list scatterlist) (bytes : list Z) (m : gmap Z block) : gmap Z block :=
  match l with
  | [] => m
  | e :: l =>
      let n := Z.to_nat (sg_length e) in
      scatter l (drop n bytes)
        (match m !! sg_buf e with
         | Some b => <[sg_buf e := mkBlock (b_kind b) (poke 0 (take n bytes) (b_data b))]> m
         | None => m
         end)
  end.
Definition dma_copy (dst src : list scatterlist) (m : gmap Z block) : gmap Z block :=
  scatter dst (gather m src) m.

(** ** An engine that works

    [dma_held c h d]: the channel [c] is taken and has nothing to do;
    [dma_free h d]: no channel is taken.  In both, [h] is what the engine has
    copied, the bytes of one transfer each, the latest first. *)
Class DmaCopies (D : Type) `{DmaEngine D} := {
  dma_held : Z -> list (list Z) -> D -> Prop;
  dma_free : list (list Z) -> D -> Prop;
  request_law cap filter h d : dma_free h d -> (dma_request_channel cap filter d).1 <> 0 ->
    dma_held (dma_request_channel cap filter d).1 h (dma_request_channel cap filter d).2;
  put_law c h d : dma_held c h d -> dma_free h (dma_put_channel c d);
  config_law c cfg h d : dma_held c h d -> dma_held c h (dmaengine_slave_config c cfg d).2;
  map_law c l dir h d : dma_held c h d -> dma_held c h (dma_map_sg l dir d).2;
  unmap_law c l dir h d : dma_held c h d -> dma_held c h (dma_unmap_sg l dir d);
  unmap_single_law c a n dir h d : dma_held c h d -> dma_held c h (dma_unmap_single a n dir d);
  sg_law c dst src h d m : dma_held c h d -> forall x d1, device_prep_dma_sg c dst src d = (x, d1) ->
    x <> 0 /\ exists d2, dma_held c (gather m src :: h) d2 /\
      dma_run m (dma_async_issue_pending c (dmaengine_submit x (set_callback x d1)).2) =
        Some (dma_copy dst src m, d2);
  memcpy_law c a b n h d m : dma_held c h d -> forall src dst x d1 d2 d3,
    dma_map_single a n DMA_TO_DEVICE d = (src, d1) ->
    dma_map_single b n DMA_FROM_DEVICE d1 = (dst, d2) ->
    device_prep_dma_memcpy c dst src n d2 = (x, d3) ->
    x <> 0 /\ exists d4, dma_held c (gather m [mkSg a n] :: h) d4 /\
      dma_run m (dma_async_issue_pending c (dmaengine_submit x (set_callback x d3)).2) =
        Some (dma_copy [mkSg b n] [mkSg a n] m, d4);
}.

Definition bsize (b : sdma_buf) : Z :=
  match b with wbuf2 | rbuf2 => SDMA_BUF_SIZE / 2 | _ => SDMA_BUF_SIZE end.
(** In the order [open] allocates them, the last first. *)
Definition all_bufs : list sdma_buf := [rbuf4; rbuf3; rbuf2; rbuf; wbuf4; wbuf3; wbuf2; wbuf].

#[local] Opaque first_diff words.

Section Spec.
Context `{KL : KernelLaws} {D : Type} `{DmaEngine D}.
Abbreviation W := (world D globals).
Implicit Types (w : W) (E : Z -> W -> Prop) (l : list sdma_buf).

(** The buffers of [l] are blocks with the contents [c] on top of [m]. *)
Record opened l (m : gmap Z block) (c : sdma_buf -> list Z) w : Prop := mkOpened {
  op_owned : owned l (bufs (glob w)) m;
  op_mem : kmem (kern w) = blocks l (bufs (glob w)) c m;
  op_size b : b ∈ l -> zlen (c b) = bsize b;
}.

(** What an allocation leaves alone. *)
Record aside w w' : Prop := mkAside {
  as_chan : dma_m2m_chan (glob w') = dma_m2m_chan (glob w);
  as_ok : dma_m2m_ok (glob w') = dma_m2m_ok (glob w);
  as_dev : dev w' = dev w;
}.
#[local] Instance aside_trans : Transitive aside.
Proof. intros w1 w2 w3 [] []. split; congruence. Qed.

Definition zeros (b : sdma_buf) : list Z := replicate (Z.to_nat (bsize b)) 0.
Lemma wp_with_buffer l m w b n msg k (Q : Z -> W -> Prop) E :
  opened l m zeros w -> b ∉ l -> n = bsize b ->
  (forall w', opened l m zeros w' -> aside w w' -> Q (-1) w') ->
  (forall w', opened (b :: l) m zeros w' -> aside w w' -> klog w' = klog w -> wp k Q E w') ->
  wp (with_buffer b n msg k) Q E w.
Proof.
  intros [Ho Hm Hs] Hb -> Hf Hok. unfold with_buffer.
  assert (0 < bsize b) by by destruct b.
  assert (forall q b', b' ∈ l -> (if bool_decide (b' = b) then q else bufs (glob w) b') = bufs (glob w) b')
    as Hkeep.
  { intros q b' Hb'. rewrite bool_decide_eq_false_2; [done|by intros ->]. }
  apply wp_bind, wp_kzalloc; [done| |].
  - apply wp_bind, wp_modify. cbn [Z.eqb]. apply wp_bind, wp_printk, wp_ret. apply Hf; [|done].
    destruct Ho as [Hn Hi Hv Hfr]. split; simpl.
    + split; [done|..]; intros b1; [intros b2 Hb1 Hb2|intros Hb1..]; rewrite !Hkeep by done; auto.
    + rewrite Hm. apply blocks_ext. intros. by rewrite Hkeep.
    + done.
  - intros q Hq Hfree. apply wp_bind, wp_modify.
    destruct (Z.eqb_spec q 0); [unfold ZERO_SIZE_PTR in Hq; lia|].
    clear Hf. assert (blocks l (bufs (glob w)) (fun _ => []) m !! q = None) as Hfree'.
    { rewrite Hm in Hfree. apply blocks_free in Hfree as [? ?]. by rewrite blocks_other. }
    apply Hok; [|done|done]. split; simpl.
    + apply owned_cons; [done|done|lia|done].
    + rewrite bool_decide_eq_true_2 by done. rewrite Hm. f_equal. apply blocks_ext. intros.
      by rewrite Hkeep.
    + intros b' [->|?]%elem_of_cons; [|auto]. unfold zeros. rewrite length_replicate. lia.
Qed.

Lemma opened_nil w : opened [] (kmem (kern w)) zeros w.
Proof. split; [split|done|]; intros; try by (exfalso; eapply not_elem_of_nil). constructor. Qed.

(** One allocation; the [k] before it succeeded. *)
Ltac open_step k :=
  match goal with
  | Ho : opened _ _ _ ?w, Ha : aside _ ?w, Hl : klog ?w = _, Hf : forall k w', _ -> _ -> _ -> _ |- _ =>
      let w' := fresh "w" in let Ho' := fresh in let Ha' := fresh in let Hl' := fresh in
      eapply (wp_with_buffer _ _ _ _ _ _ _ _ _ Ho);
      [by apply (bool_decide_unpack _)|done
      |intros w' Ho' Ha'; apply (Hf k); [lia|by etransitivity|exact Ho']
      |intros w' Ho' Ha' Hl'; rewrite Hl in Hl'; apply (transitivity Ha) in Ha'; clear w Ho Ha Hl;
       rename Ho' into Ho, Ha' into Ha, Hl' into Hl]
  end.

(** Opening: the channel and the eight buffers; or no channel; or the channel
    and only some of them. *)
Lemma copy_open_wp E w :
  wp sdma_open (fun r w' =>
    (r = 0 /\ opened all_bufs (kmem (kern w)) zeros w' /\ dma_m2m_chan (glob w') <> 0 /\
     klog w' = klog w /\ dma_m2m_ok (glob w') = 0%nat /\
     exists f, (dma_m2m_chan (glob w'), dev w') = dma_request_channel DMA_SLAVE f (dev w)) \/
    (r = - EINVAL /\ kmem (kern w') = kmem (kern w) /\ dma_m2m_chan (glob w') = 0) \/
    (r = -1 /\ dma_m2m_chan (glob w') <> 0 /\
     exists k, (k < 8)%nat /\ opened (drop (8 - k) all_bufs) (kmem (kern w)) zeros w')) E w.
Proof.
  unfold sdma_open. apply wp_bind, wp_modify, wp_bind, wp_drv. cbn [set_glob dev].
  set (f := dma_m2m_filter _). destruct (dma_request_channel DMA_SLAVE f (dev w)) as [chan d] eqn:Hr.
  cbn [fst snd]. apply wp_bind, wp_modify. destruct (Z.eqb_spec chan 0) as [->|Hc].
  { apply wp_bind, wp_printk, wp_ret. right. left. done. }
  set (Q := fun (r : Z) (w' : W) => _ \/ _).
  set (w0 := set_glob _ _).
  assert (forall k w', (k < 8)%nat -> aside w0 w' ->
    opened (drop (8 - k) all_bufs) (kmem (kern w)) zeros w' -> Q (-1) w') as Hfail.
  { intros k w' Hk [Hch _ _] Hop. right. right. rewrite Hch. split; [done|]. split; [done|]. by exists k. }
  pose proof (opened_nil w0) as Ho. assert (aside w0 w0) as Ha by done.
  assert (klog w0 = klog w) as Hl by done.
  change (kmem (kern w0)) with (kmem (kern w)) in Ho. revert Ho Ha Hl. generalize w0 at 1 3 4 5.
  intros w1 Ho Ha Hl.
  open_step 0%nat. open_step 1%nat. open_step 2%nat. open_step 3%nat.
  open_step 4%nat. open_step 5%nat. open_step 6%nat. open_step 7%nat.
  apply wp_ret. left. split; [done|]. split; [done|]. destruct Ha as [-> -> ->].
  split; [done|]. split; [done|]. split; [done|]. exists f. by rewrite Hr.
Qed.

(** ** Release *)
Record only_mem w w' : Prop := mkOnly { om_glob : glob w' = glob w; om_dev : dev w' = dev w; om_log : klog w' = klog w }.
#[local] Instance only_mem_refl : Reflexive only_mem.
Proof. done. Qed.
#[local] Instance only_mem_trans : Transitive only_mem.
Proof. intros w1 w2 w3 [] []. split; congruence. Qed.

Lemma wp_free_buf l m c w b (Q : unit -> W -> Prop) E :
  opened l m c w -> b ∈ l ->
  (forall w', opened (without b l) m c w' -> only_mem w w' -> Q tt w') -> wp (free_buf b) Q E w.
Proof.
  intros [Ho Hm Hs] Hb HQ. unfold free_buf. apply wp_bind, wp_gets.
  eapply wp_kfree; [by eapply owned_valid|rewrite Hm; by apply blocks_lookup|].
  apply HQ; [|done]. split; simpl.
  - by apply owned_without.
  - rewrite Hm. by apply blocks_delete.
  - intros b' [? _]%without_in. auto.
Qed.

Ltac free_step :=
  match goal with
  | Ho : opened _ _ _ ?w, Hf : only_mem _ ?w |- _ =>
      let w' := fresh "w" in let Ho' := fresh in let Hf' := fresh in
      apply wp_bind; eapply (wp_free_buf _ _ _ _ _ _ _ Ho); [by apply (bool_decide_unpack _)|];
      intros w' Ho' Hf'; apply (transitivity Hf) in Hf'; clear Ho Hf; rename Ho' into Ho, Hf' into Hf
  end.

Lemma copy_release_wp m c E w :
  opened all_bufs m c w -> dma_m2m_chan (glob w) <> 0 ->
  wp sdma_release (fun r w' => r = 0 /\ kmem (kern w') = m /\ dma_m2m_chan (glob w') = 0 /\
    dev w' = dma_put_channel (dma_m2m_chan (glob w)) (dev w) /\ klog w' = klog w) E w.
Proof.
  intros Ho Hc. unfold sdma_release. apply wp_bind, wp_gets, wp_bind. unfold dma_release_channel.
  rewrite (proj2 (Z.eqb_neq _ _) Hc). apply wp_drv, wp_bind, wp_modify.
  set (w1 := set_glob _ _).
  assert (opened all_bufs m c w1) as Ho1 by (destruct Ho; by split).
  clear Ho. assert (only_mem w1 w1) as Hf by done. revert Ho1 Hf. generalize w1 at 1 3 4.
  intros w2 Ho Hf. do 8 free_step. apply wp_ret. destruct Hf as [-> -> ->].
  split; [done|]. split; [apply (op_mem _ _ _ _ Ho)|done].
Qed.

(** ** Write *)
Lemma wp_fill_buf l m c w b n v (Q : unit -> W -> Prop) E :
  opened l m c w -> b ∈ l -> Z.of_nat (4 * n) = bsize b ->
  (forall w', opened l m (upd b (words n v) c) w' -> only_mem w w' -> Q tt w') ->
  wp (fill_words (bufs (glob w) b) n v) Q E w.
Proof.
  intros [Ho Hm Hs] Hb Hn HQ. specialize (Hs b Hb) as Hsb.
  eapply wp_fill_words; [rewrite Hm; by apply blocks_lookup|lia|].
  apply HQ; [|done]. split; simpl.
  - done.
  - rewrite Hm. by apply blocks_update.
  - intros b' Hb'. destruct (decide (b' = b)) as [->|].
    + rewrite upd_eq, length_words. lia.
    + rewrite upd_ne by done. auto.
Qed.

Definition pattern (b : sdma_buf) : list Z :=
  match b with
  | wbuf | rbuf => words 256 0x12121212
  | wbuf2 | rbuf2 => words 128 0x34343434
  | _ => words 256 0x56565656
  end.

Lemma fill_buffers_wp m c E w :
  opened all_bufs m c w ->
  wp fill_buffers (fun _ w' => only_mem w w' /\ exists c', opened all_bufs m c' w' /\
    forall b, b ∈ [wbuf; wbuf2; wbuf3; wbuf4] -> c' b = pattern b) E w.
Proof.
  intros Ho. unfold fill_buffers. do 4 apply wp_bind, wp_gets.
  change (Z.to_nat (SDMA_BUF_SIZE / 4)) with 256%nat.
  change (Z.to_nat (SDMA_BUF_SIZE / 2 / 4)) with 128%nat.
  apply wp_bind, (wp_fill_buf _ _ _ _ _ _ _ _ _ Ho); [by apply (bool_decide_unpack _)|done|].
  clear Ho. intros w1 Ho Hf. rewrite <- (om_glob _ _ Hf).
  apply wp_bind, (wp_fill_buf _ _ _ _ _ _ _ _ _ Ho); [by apply (bool_decide_unpack _)|done|].
  clear Ho. intros w2 Ho Hf2. rewrite <- (om_glob _ _ Hf2).
  apply wp_bind, (wp_fill_buf _ _ _ _ _ _ _ _ _ Ho); [by apply (bool_decide_unpack _)|done|].
  clear Ho. intros w3 Ho Hf3. rewrite <- (om_glob _ _ Hf3).
  apply (wp_fill_buf _ _ _ _ _ _ _ _ _ Ho); [by apply (bool_decide_unpack _)|done|].
  clear Ho. intros w4 Ho Hf4. split; [by repeat (etransitivity; [eassumption|])|].
  eexists. split; [exact Ho|]. intros b Hb.
  repeat (apply elem_of_cons in Hb as [->|Hb]; [by rewrite ?upd_eq, ?upd_ne by done|]).
  by apply not_elem_of_nil in Hb.
Qed.

(** Copying between buffers of the family. *)
Definition entry_of (p : sdma_buf -> Z) (b : sdma_buf) : scatterlist := mkSg (p b) (bsize b).
Fixpoint upds (l : list sdma_buf) (f c : sdma_buf -> list Z) : sdma_buf -> list Z :=
  match l with [] => c | b :: l => upds l f (upd b (f b) c) end.
Definition source (b : sdma_buf) : sdma_buf :=
  match b with rbuf => wbuf | rbuf2 => wbuf2 | rbuf3 => wbuf3 | rbuf4 => wbuf4 | _ => b end.

Lemma gather_blocks l p c m s :
  owned l p m -> (forall b, b ∈ s -> b ∈ l /\ zlen (c b) = bsize b) ->
  gather (blocks l p c m) (map (entry_of p) s) = concat (map c s).
Proof.
  intros Ho. unfold gather. induction s as [|b s IH]; intros Hs; [done|]. cbn [map concat].
  destruct (Hs b (list_elem_of_here _ _)) as [Hb Hl]. simpl sg_buf. rewrite blocks_lookup by done.
  simpl. rewrite take_ge by lia. f_equal. apply IH. intros. by apply Hs, list_elem_of_further.
Qed.
Lemma scatter_blocks l p c m s f :
  owned l p m -> (forall b, b ∈ l -> zlen (c b) = bsize b) ->
  (forall b, b ∈ s -> b ∈ l /\ zlen (f b) = bsize b) ->
  scatter (map (entry_of p) s) (concat (map f s)) (blocks l p c m) = blocks l p (upds s f c) m.
Proof.
  intros Ho. revert c. induction s as [|b s IH]; intros c Hc Hs; [done|]. cbn [map concat scatter upds].
  destruct (Hs b (list_elem_of_here _ _)) as [Hb Hl]. simpl sg_buf. rewrite blocks_lookup by done.
  cbn [sg_length b_kind b_data entry_of].
  replace (Z.to_nat (bsize b)) with (length (f b)) by lia.
  rewrite take_app_length, drop_app_length.
  assert (poke 0 (f b) (c b) = f b) as ->.
  { specialize (Hc b Hb). unfold poke. rewrite drop_ge by lia. apply app_nil_r. }
  rewrite blocks_update by done. apply IH.
  - intros b' Hb'. destruct (decide (b' = b)) as [->|]; [by rewrite upd_eq|]. rewrite upd_ne by done. auto.
  - intros. by apply Hs, list_elem_of_further.
Qed.
Lemma copy_blocks l m c w s :
  opened l m c w -> (forall b, b ∈ s -> b ∈ l /\ source b ∈ l /\ bsize (source b) = bsize b) ->
  dma_copy (map (entry_of (bufs (glob w))) s) (map (entry_of (bufs (glob w))) (map source s))
    (kmem (kern w)) = blocks l (bufs (glob w)) (upds s (c ∘ source) c) m.
Proof.
  intros [Ho Hm Hz] Hs. unfold dma_copy. rewrite Hm. rewrite gather_blocks; [|done|].
  - rewrite map_map. apply scatter_blocks; [done|auto|]. intros b Hb. destruct (Hs b Hb) as (? & ? & <-).
    split; [done|]. by apply Hz.
  - intros b (b' & -> & Hb')%list_elem_of_fmap_1. destruct (Hs b' Hb') as (? & ? & _). auto.
Qed.

Context `{!DmaCopies D}.
Definition in_callback : print := Printf "in %s\n" [AStr "dma_m2m_callback"].

(** An open device between two calls. *)
Record ready m c h w : Prop := mkReady {
  rd_open : opened all_bufs m c w;
  rd_chan : dma_m2m_chan (glob w) <> 0;
  rd_ok : dma_m2m_ok (glob w) = 0%nat;
  rd_held : dma_held (dma_m2m_chan (glob w)) h (dev w);
}.

Lemma wp_wait m d (Q : unit -> W -> Prop) E w :
  dma_m2m_ok (glob w) = 0%nat -> dma_run (kmem (kern w)) (dev w) = Some (m, d) ->
  Q tt (set_glob (set_ok 0 (set_ok 1 (glob w)))
          (emit in_callback (set_dev d (set_kern (set_kmem (fun _ => m)) w)))) ->
  wp wait_for_completion Q E w.
Proof.
  intros Hok Hrun HQ. unfold wait_for_completion. apply wp_bind, wp_gets. rewrite Hok.
  unfold wpu. rewrite Hrun. unfold dma_m2m_callback, setg. simpl. by rewrite Hok.
Qed.

Lemma wp_set_sg b1 b2 b3 (Q : unit -> W -> Prop) E w :
  let p b := bufs (glob w) b in
  Q tt (set_glob (set_sg (fun _ => [mkSg (p b1) SDMA_BUF_SIZE; mkSg (p b2) (SDMA_BUF_SIZE / 2);
                                    mkSg (p b3) SDMA_BUF_SIZE]) (glob w)) w) ->
  wp (set_table set_sg b1 b2 b3) Q E w.
Proof. intros p HQ. unfold set_table, buf, getg, setg. wp_steps. exact HQ. Qed.
Lemma wp_set_sg2 b1 b2 b3 (Q : unit -> W -> Prop) E w :
  let p b := bufs (glob w) b in
  Q tt (set_glob (set_sg2 (fun _ => [mkSg (p b1) SDMA_BUF_SIZE; mkSg (p b2) (SDMA_BUF_SIZE / 2);
                                     mkSg (p b3) SDMA_BUF_SIZE]) (glob w)) w) ->
  wp (set_table set_sg2 b1 b2 b3) Q E w.
Proof. intros p HQ. unfold set_table, buf, getg, setg. wp_steps. exact HQ. Qed.

Section Recent.
Context (LINUX_VERSION_CODE : Z) (Hrecent : KERNEL_VERSION 3 0 35 < LINUX_VERSION_CODE).

Lemma since_recent : since_3_0_35 LINUX_VERSION_CODE = true.
Proof. apply Z.leb_le. lia. Qed.
Lemma until_recent : until_3_0_35 LINUX_VERSION_CODE = false.
Proof. apply Z.leb_gt. lia. Qed.

Definition copied (s : list sdma_buf) m c h w w' : Prop :=
  ready m (upds s (c ∘ source) c) (concat (map (c ∘ source) s) :: h) w' /\ klog w' = in_callback :: klog w.

Lemma upds_size s c b :
  (forall b, zlen (c b) = bsize b) -> (forall b, b ∈ s -> bsize (source b) = bsize b) ->
  zlen (upds s (c ∘ source) c b) = bsize b.
Proof.
  intros Hc. set (f := c ∘ source). assert (forall b, zlen (f b) = bsize (source b)) as Hf by (intros; apply Hc).
  clearbody f. revert c Hc. induction s as [|b' s IH]; intros c Hc Hs; simpl; [apply Hc|].
  apply IH; [|intros; by apply Hs, list_elem_of_further]. intros b1. destruct (decide (b1 = b')) as [->|].
  - rewrite upd_eq, Hf. apply Hs, list_elem_of_here.
  - by rewrite upd_ne.
Qed.
Lemma all_in (b : sdma_buf) : b ∈ all_bufs.
Proof. destruct b; by apply (bool_decide_unpack _). Qed.
Lemma source_size b : bsize (source b) = bsize b.
Proof. by destruct b. Qed.

(** The world after the engine copied into the buffers of [s]. *)
Lemma copied_intro s m c h w w' k :
  ready m c h w -> glob w' = glob w \/ (bufs (glob w') = bufs (glob w) /\
    dma_m2m_chan (glob w') = dma_m2m_chan (glob w) /\ dma_m2m_ok (glob w') = 0%nat) ->
  kern w' = set_kmem (fun _ => dma_copy (map (entry_of (bufs (glob w))) s)
    (map (entry_of (bufs (glob w))) (map source s)) (kmem (kern w))) k ->
  dma_held (dma_m2m_chan (glob w))
    (gather (kmem (kern w)) (map (entry_of (bufs (glob w))) (map source s)) :: h) (dev w') ->
  klog w' = in_callback :: klog w ->
  copied s m c h w w'.
Proof.
  intros [Ho Hc Hok Hi] Hg Hk Hd Hl. split; [|done].
  assert (bufs (glob w') = bufs (glob w) /\ dma_m2m_chan (glob w') = dma_m2m_chan (glob w) /\
    dma_m2m_ok (glob w') = 0%nat) as (Hb & Hch & Hok') by (destruct Hg as [->|]; done).
  destruct Ho as [Ho Hm Hs]. rewrite Hm, gather_blocks, map_map in Hd; cycle 1; [done| |].
  { intros b _. split; [apply all_in|apply Hs, all_in]. }
  split; [|congruence|done|by rewrite Hch]. split.
  - by rewrite Hb.
  - rewrite Hk, Hb. cbn [kmem set_kmem]. apply copy_blocks; [done|].
    intros b _. split; [apply all_in|]. split; [apply all_in|apply source_size].
  - intros b _. apply upds_size; intros; [apply Hs, all_in|apply source_size].
Qed.

Lemma copy_scattered_wp m c h E w :
  ready m c h w ->
  wp (copy_scattered LINUX_VERSION_CODE) (fun _ => copied [rbuf; rbuf2; rbuf3] m c h w) E w.
Proof.
  intros Hr. pose proof Hr as [Ho Hc Hok Hi]. unfold copy_scattered. cbv zeta.
  rewrite since_recent, until_recent. cbn [when direction].
  apply wp_bind, wp_gets, wp_bind, wp_drv, wp_bind, wp_set_sg, wp_bind, wp_gets, wp_bind, wp_drv.
  apply wp_bind, wp_skip, wp_bind, wp_set_sg2, wp_bind, wp_gets, wp_bind, wp_drv, wp_bind, wp_drv.
  cbn -[SDMA_BUF_SIZE KERNEL_VERSION].
  set (chan := dma_m2m_chan (glob w)) in *. set (p := bufs (glob w)).
  set (d0 := (dma_map_sg _ _ (dma_map_sg _ _ _).2).2).
  assert (dma_held chan h d0) as Hi0 by by apply map_law, map_law, config_law.
  clearbody d0.
  change [mkSg (p rbuf) SDMA_BUF_SIZE; mkSg (p rbuf2) (SDMA_BUF_SIZE / 2); mkSg (p rbuf3) SDMA_BUF_SIZE]
    with (map (entry_of p) [rbuf; rbuf2; rbuf3]).
  change [mkSg (p wbuf) SDMA_BUF_SIZE; mkSg (p wbuf2) (SDMA_BUF_SIZE / 2); mkSg (p wbuf3) SDMA_BUF_SIZE]
    with (map (entry_of p) (map source [rbuf; rbuf2; rbuf3])).
  set (dst := map (entry_of p) [rbuf; rbuf2; rbuf3]). set (src := map (entry_of p) (map _ _)).
  destruct (device_prep_dma_sg chan dst src d0) as [x d1] eqn:Hprep.
  destruct (sg_law chan dst src h d0 (kmem (kern w)) Hi0 x d1 Hprep) as (Hh & d2 & Hi2 & Hrun).
  unfold store_callback. cbn [fst snd]. rewrite (proj2 (Z.eqb_neq x 0) Hh).
  apply wp_bind, wp_drv, wp_bind, wp_drv, wp_bind, wp_drv, wp_bind.
  eapply wp_wait; [exact Hok|exact Hrun|].
  apply wp_bind, wp_drv, wp_drv.
  eapply copied_intro; [exact Hr|right; done|reflexivity|by apply unmap_law, unmap_law|done].
Qed.

Lemma copy_single_wp m c h E w :
  ready m c h w -> wp copy_single (fun _ => copied [rbuf4] m c h w) E w.
Proof.
  intros Hr. pose proof Hr as [Ho Hc Hok Hi]. unfold copy_single.
  apply wp_bind, wp_gets, wp_bind, wp_gets, wp_bind, wp_drv, wp_bind, wp_gets, wp_bind, wp_drv.
  apply wp_bind, wp_drv. cbn -[SDMA_BUF_SIZE KERNEL_VERSION].
  set (chan := dma_m2m_chan (glob w)) in *. set (p := bufs (glob w)).
  destruct (dma_map_single (p wbuf4) SDMA_BUF_SIZE DMA_TO_DEVICE (dev w)) as [src d1] eqn:H1.
  cbn [fst snd].
  destruct (dma_map_single (p rbuf4) SDMA_BUF_SIZE DMA_FROM_DEVICE d1) as [dst d2] eqn:H2.
  cbn [fst snd]. destruct (device_prep_dma_memcpy chan dst src SDMA_BUF_SIZE d2) as [x d3] eqn:H3.
  destruct (memcpy_law chan _ _ _ h (dev w) (kmem (kern w)) Hi _ _ _ _ _ _ H1 H2 H3)
    as (Hh & d4 & Hi4 & Hrun).
  unfold store_callback. cbn [fst snd]. rewrite (proj2 (Z.eqb_neq x 0) Hh).
  apply wp_bind, wp_skip, wp_bind, wp_drv, wp_bind, wp_drv, wp_bind, wp_drv, wp_bind.
  eapply wp_wait; [exact Hok|exact Hrun|]. apply wp_bind, wp_drv, wp_drv.
  eapply copied_intro; [exact Hr|right; done|reflexivity|by apply unmap_single_law, unmap_single_law|done].
Qed.
End Recent.

(** ** Read *)
Definition check : Type := sdma_buf * Z * (Z * Z * Z -> print) * string.
Definition checks (since : bool) : list check :=
  [(rbuf, SDMA_BUF_SIZE / 4, falled "buffer 1 copy falled!\n", "buffer 1 copy passed!\n"%string);
   (rbuf2, SDMA_BUF_SIZE / 2 / 4, falled "buffer 2 copy falled!\n", "buffer 2 copy passed!\n"%string);
   (rbuf3, SDMA_BUF_SIZE / 4, falled "buffer 3 copy falled!\n", "buffer 3 copy passed!\n"%string)] ++
  if since then
    [(rbuf4, SDMA_BUF_SIZE / 4,
      (fun '(r, w, i) => Printf "buffer 4 copy falled!,r=%x,w=%x,%d\n" [AInt r; AInt w; AInt i]),
      "buffer 4 copy passed!\n"%string)]
  else [].
(** What is printed: up to the first pair that differs. *)
Fixpoint report (l : list check) (c : sdma_buf -> list Z) : list print :=
  match l with
  | [] => []
  | (r, n, failed, passed) :: l =>
      match first_diff (Z.to_nat n) 0 (c r) (c (source r)) with
      | Some x => [failed x]
      | None => Printf passed [] :: report l c
      end
  end.
Definition run_checks (l : list check) : M W Z :=
  fold_right (fun '(r, n, failed, passed) k => check_copy r (source r) n failed passed k) (mret 0) l.

Lemma run_checks_wp (t : list check) m c E w :
  opened all_bufs m c w -> Forall (fun '(r, n, _, _) => 0 <= n /\ 4 * n = bsize r) t ->
  wp (run_checks t) (fun r w' => r = 0 /\ kern w' = kern w /\ dev w' = dev w /\ glob w' = glob w /\
    klog w' = rev (report t c) ++ klog w) E w.
Proof.
  intros Ho Ht. revert w Ho. induction Ht as [|[[[r n] failed] passed] t [Hn Hs] Ht IH]; intros w Ho.
  { by apply wp_ret. }
  cbn [run_checks fold_right report]. unfold check_copy. apply wp_bind, wp_gets, wp_bind, wp_gets.
  destruct Ho as [Hown Hm Hz].
  apply wp_bind. eapply wp_compare; [rewrite Hm; by apply blocks_lookup, all_in..|lia| | |].
  { rewrite Hz by apply all_in. lia. }
  { rewrite Hz, source_size by apply all_in. lia. }
  destruct (first_diff _ _ _ _) as [x|].
  - apply wp_bind, wp_printk, wp_ret. simpl. by destruct (failed x).
  - apply wp_bind, wp_printk. eapply wp_mono; [apply IH; by split|].
    intros r' w' (? & ? & ? & ? & Hlog). split_and!; try done. rewrite Hlog. simpl.
    by rewrite <- app_assoc.
Qed.

Lemma read_wp V m c E w :
  opened all_bufs m c w ->
  wp (sdma_read V) (fun r w' => r = 0 /\ kern w' = kern w /\ dev w' = dev w /\ glob w' = glob w /\
    klog w' = rev (report (checks (since_3_0_35 V)) c) ++ klog w) E w.
Proof.
  intros Ho. assert (sdma_read V = run_checks (checks (since_3_0_35 V))) as ->
    by (unfold sdma_read; by destruct (since_3_0_35 V)).
  apply (run_checks_wp _ m); [done|]. by destruct (since_3_0_35 V); repeat constructor.
Qed.

Definition passes : list print :=
  [Printf "buffer 4 copy passed!\n" []; Printf "buffer 3 copy passed!\n" [];
   Printf "buffer 2 copy passed!\n" []; Printf "buffer 1 copy passed!\n" []].

(** Reading says that all buffers were copied exactly if they were. *)
Lemma report_passes c :
  (forall b, zlen (c b) = bsize b) -> (forall b, Forall is_byte (c b)) ->
  rev (report (checks true) c) = passes <-> forall b, c b = c (source b).
Proof.
  intros Hs Hb. split.
  - intros Hr. assert (forall r n, Z.of_nat (4 * n) = bsize r ->
      first_diff n 0 (c r) (c (source r)) = None -> c r = c (source r)) as Heq.
    { intros r n Hn Hd. apply first_diff_none in Hd; [|lia|done|done| |]; cycle 1.
      { rewrite Hs. lia. } { rewrite Hs, source_size. lia. }
      unfold peek in Hd. change (Z.to_nat (4 * 0)) with 0%nat in Hd. rewrite !drop_0 in Hd.
      rewrite !take_ge in Hd; [done|..]; specialize (Hs r) as H1; specialize (Hs (source r)) as H2;
        rewrite ?source_size in H2; lia. }
    apply (f_equal (@rev print)) in Hr. rewrite rev_involutive in Hr. cbn [report checks app] in Hr.
    destruct (first_diff _ _ (c rbuf) _) eqn:H1; [done|].
    destruct (first_diff _ _ (c rbuf2) _) eqn:H2; [done|].
    destruct (first_diff _ _ (c rbuf3) _) eqn:H3; [done|].
    destruct (first_diff _ _ (c rbuf4) _) as [[[? ?] ?]|] eqn:H4; [done|].
    intros []; try done; by eapply Heq; [|eassumption].
  - intros He. cbn [report checks app]. by rewrite (He rbuf), (He rbuf2), (He rbuf3), (He rbuf4), !first_diff_refl.
Qed.
End Spec.

(** ** The module *)
Section Session.
Context `{KL : KernelLaws} {D : Type} `{DC : DmaCopies D} (LINUX_VERSION_CODE : Z).
Abbreviation W := (world D globals).
Implicit Types (w : W).


(** Reading the device of the SDMA copy test never fails and changes
    nothing; it reports four passed copies exactly when each destination
    buffer holds the bytes of its source. *)
Theorem sdma_read_verdict m c w :
  KERNEL_VERSION 3 0 35 <= LINUX_VERSION_CODE ->
  opened all_bufs m c w -> (forall b, Forall is_byte (c b)) ->
  wp (sdma_read LINUX_VERSION_CODE)
    (fun r w' => r = 0 /\ kern w' = kern w /\ dev w' = dev w /\ glob w' = glob w /\
       exists ps, klog w' = ps ++ klog w /\ (ps = passes <-> forall b, c b = c (source b)))
    (fun _ _ => False) w.
Proof.
  intros HV Ho Hb. eapply wp_mono; [eapply read_wp; exact Ho|].
  intros r w' (? & ? & ? & ? & Hl). split_and!; try done. eexists. split; [exact Hl|].
  assert (since_3_0_35 LINUX_VERSION_CODE = true) as -> by by apply Z.leb_le.
  apply report_passes; [|done]. intros b. apply (op_size _ _ _ _ Ho), all_in.
Qed.

(** What opening the device of the SDMA copy test leaves behind: on success
    eight fresh zeroed buffers; without a channel nothing; but when an
    allocation fails, the channel stays taken and the buffers that were
    allocated before stay allocated, although no release will follow. *)
Theorem sdma_open_outcome w :
  wp sdma_open (fun r w' =>
    (r = 0 /\ opened all_bufs (kmem (kern w)) zeros w' /\ dma_m2m_chan (glob w') <> 0) \/
    (r = - EINVAL /\ kmem (kern w') = kmem (kern w) /\ dma_m2m_chan (glob w') = 0) \/
    (r = -1 /\ dma_m2m_chan (glob w') <> 0 /\
     exists k, (k < 8)%nat /\
       kmem (kern w') = blocks (drop (8 - k) all_bufs) (bufs (glob w')) zeros (kmem (kern w)) /\
       owned (drop (8 - k) all_bufs) (bufs (glob w')) (kmem (kern w))))
    (fun _ _ => False) w.
Proof.
  eapply wp_mono; [apply copy_open_wp|]. cbv beta.
  intros r w' [(? & ? & ? & _)|[?|(? & ? & k & ? & [])]]; [by left|by right; left|right; right].
  split; [done|]. split; [done|]. by exists k.
Qed.

Lemma open_ret w w1 : sdma_open w = (Ret 0, w1) ->
  opened all_bufs (kmem (kern w)) zeros w1 /\ dma_m2m_chan (glob w1) <> 0.
Proof.
  intros He. pose proof (copy_open_wp (fun _ _ => False) w) as Ho. unfold wpu in Ho. rewrite He in Ho.
  by destruct Ho as [(_ & ? & ? & _)|[[? _]|[? _]]].
Qed.

(** The device of the SDMA copy test cannot be opened twice at a time: the
    second open overwrites the globals, so closing one file gives back its
    buffers, those of the first open are lost, and closing the other file
    is undefined behaviour. *)
Theorem sdma_second_open_loses w w1 w2 :
  sdma_open w = (Ret 0, w1) -> sdma_open w1 = (Ret 0, w2) ->
  exists w3, sdma_release w2 = (Ret 0, w3) /\
    kmem (kern w3) = blocks all_bufs (bufs (glob w1)) zeros (kmem (kern w)) /\
    owned all_bufs (bufs (glob w1)) (kmem (kern w)) /\
    (sdma_release w3).1 = Undef.
Proof.
  intros H1 H2. apply open_ret in H1 as [Ho1 _]. apply open_ret in H2 as [Ho2 Hc2].
  pose proof (copy_release_wp _ _ (fun _ _ => False) w2 Ho2 Hc2) as Hr. unfold wpu in Hr.
  destruct (sdma_release w2) as [[r| | |] w3]; try done. destruct Hr as (-> & Hm & Hc & _).
  exists w3. split; [done|]. split; [rewrite Hm; apply Ho1|]. split; [apply Ho1|].
  unfold sdma_release. eapply undef_bind_eq; [done|]. apply undef_bind.
  unfold dma_release_channel. by rewrite Hc.
Qed.

(** A descriptor the engine could not prepare is used all the same. *)
Lemma copy_single_without_descriptor w chan a b src dst h d1 d2 d3 :
  dma_m2m_chan (glob w) = chan -> bufs (glob w) wbuf4 = a -> bufs (glob w) rbuf4 = b ->
  dma_map_single a SDMA_BUF_SIZE DMA_TO_DEVICE (dev w) = (src, d1) ->
  dma_map_single b SDMA_BUF_SIZE DMA_FROM_DEVICE d1 = (dst, d2) ->
  device_prep_dma_memcpy chan dst src SDMA_BUF_SIZE d2 = (h, d3) -> h = 0 ->
  (copy_single w).1 = Undef.
Proof.
  intros <- <- <- H1 H2 H3 ->. unfold copy_single.
  eapply undef_bind_eq; [done|]. eapply undef_bind_eq; [done|].
  eapply undef_bind_eq; [rewrite drv_eq, H1; reflexivity|]. eapply undef_bind_eq; [done|].
  eapply undef_bind_eq; [rewrite drv_eq; simpl; rewrite H2; reflexivity|].
  eapply undef_bind_eq; [rewrite drv_eq; simpl; rewrite H3; reflexivity|]. done.
Qed.
End Session.

(** ** The theorems at work: an engine with one channel *)
Section Witnesses.
(** What it has to do, whether the channel is taken, and what it has copied. *)
Record engine := mkEngine {
  work : option (list scatterlist * list scatterlist); taken : bool; history : list (list Z) }.
#[local] Instance toy_dma : DmaEngine engine := {|
  imx_dma_is_general_purpose c := c =? 7;
  dma_request_channel _ f d :=
    match f 7 with Some _ => (7, mkEngine None true (history d)) | None => (0, d) end;
  dma_put_channel _ d := mkEngine (work d) false (history d);
  dmaengine_slave_config _ _ d := (0, d);
  dma_map_sg l _ d := (zlen l, d);
  dma_unmap_sg _ _ d := d;
  dma_map_single a _ _ d := (a, d);
  dma_unmap_single _ _ _ d := d;
  device_prep_slave_sg _ _ _ _ d := (0, d);
  device_prep_dma_sg _ dst src d := (1, mkEngine (Some (dst, src)) (taken d) (history d));
  device_prep_dma_memcpy _ dst src n d := (1, mkEngine (Some ([mkSg dst n], [mkSg src n])) (taken d) (history d));
  set_callback _ d := d;
  dmaengine_submit x d := (x, d);
  dma_async_issue_pending _ d := d;
  dma_run m d :=
    match work d with
    | Some (dst, src) => Some (dma_copy dst src m, mkEngine None (taken d) (gather m src :: history d))
    | None => None
    end;
|}.
#[local] Instance toy_copies : DmaCopies engine.
Proof.
  refine {| dma_held c h d := d = mkEngine None true h; dma_free h d := d = mkEngine None false h |}; cbn.
  - intros cap filter h d -> Hf. destruct (filter 7); [done|by destruct Hf].
  - by intros c h d ->.
  - done.
  - done.
  - done.
  - done.
  - intros c dst src h d m -> x d1 [= <- <-]. split; [done|]. by eexists.
  - intros c a b n h d m -> src dst x d1 d2 d3 [= <- <-] [= <- <-] [= <- <-]. split; [done|]. by eexists.
Defined.
Abbreviation toy_world := (mkWorld (booted ∅) (mkEngine None false []) copy_globals [] : world _ globals).
#[local] Instance toy_kernel : Kernel := sim sim_ok.


Definition once_opened := (sdma_open toy_world).2.
Definition twice_opened := (sdma_open once_opened).2.

Lemma first_open : sdma_open toy_world = (Ret 0, once_opened).
Proof. unfold once_opened. apply (returned sdma_open). by vm_compute. Qed.
Lemma second_open : sdma_open once_opened = (Ret 0, twice_opened).
Proof. unfold twice_opened. apply (returned sdma_open). by vm_compute. Qed.

Lemma sdma_second_open_loses_witness :
  exists w3, sdma_release twice_opened = (Ret 0, w3) /\ (sdma_release w3).1 = Undef.
Proof.
  pose proof (@sdma_second_open_loses (sim sim_ok) (sim_laws sim_ok) _ _ toy_world once_opened
    twice_opened first_open second_open) as (w3 & Hr & _ & _ & Hu).
  exists w3. exact (conj Hr Hu).
Defined.

(** The buffers of a device that was just opened are all zero, so they agree. *)
Lemma sdma_read_verdict_witness :
  exists ps, wp (sdma_read (KERNEL_VERSION 3 14 0))
    (fun r w' => r = 0 /\ exists ps', ps' = ps /\ klog w' = ps' ++ klog once_opened) (fun _ _ => False)
    once_opened.
Proof.
  exists passes. eapply wp_mono.
  - apply (@sdma_read_verdict _ (KERNEL_VERSION 3 14 0) ∅ zeros once_opened).
    + by vm_compute.
    + apply (@open_ret (sim sim_ok) (sim_laws sim_ok) _ _ toy_world). apply first_open.
    + intros b. unfold zeros. apply Forall_replicate. unfold is_byte. lia.
  - intros r w' (-> & _ & _ & _ & ps & Hl & Hps). split; [done|]. exists ps. split; [|done].
    apply Hps. by intros [].
Defined.
End Witnesses.
