(* ===== verification/SdmaMem.v ===== *)
(** * The SDMA memory test module

    [src/module_test/mxc_sdma_mem_test.c]: the older of the two SDMA tests.
    Writing to the device fills one coherent buffer with a pseudo-random
    sequence and starts a transfer to the other; reading generates the same
    sequence again and compares.  The driver of the engine and the device
    registers are the class [MxcDma]; a transfer makes progress between the
    calls of the module ([dma_progress]). *)
From S2P Require Import Prelude CInt CMonad CStruct Kernel SimKernel PortableOs Sdma.

Record globals := mkGlobals {
  major_number : Z;
  tm_class : Z;
  wbuf : Z;
  rbuf : Z;
  wpaddr : Z;
  rpaddr : Z;
  sdma_channel : Z;
  g_sand : Z;
}.
Definition mem_globals : globals := mkGlobals 0 0 0 0 0 0 0 100.
Definition set_wbuf (p phys : Z) (g : globals) : globals :=
  mkGlobals (major_number g) (tm_class g) p (rbuf g) phys (rpaddr g) (sdma_channel g) (g_sand g).
Definition set_rbuf (p phys : Z) (g : globals) : globals :=
  mkGlobals (major_number g) (tm_class g) (wbuf g) p (wpaddr g) phys (sdma_channel g) (g_sand g).
Definition set_channel (c : Z) (g : globals) : globals :=
  mkGlobals (major_number g) (tm_class g) (wbuf g) (rbuf g) (wpaddr g) (rpaddr g) c (g_sand g).
Definition set_sand (v : Z) (g : globals) : globals :=
  mkGlobals (major_number g) (tm_class g) (wbuf g) (rbuf g) (wpaddr g) (rpaddr g) (sdma_channel g) v.
#[export] Instance mem_sdma_globals : SdmaGlobals globals.
Proof.
  refine {| gMajor := major_number; dma_tm_class := tm_class;
    set_gMajor v g := mkGlobals v (tm_class g) (wbuf g) (rbuf g) (wpaddr g) (rpaddr g) (sdma_channel g) (g_sand g);
    set_dma_tm_class v g :=
      mkGlobals (major_number g) v (wbuf g) (rbuf g) (wpaddr g) (rpaddr g) (sdma_channel g) (g_sand g) |};
    done.
Defined.

(** [put_request dst src n] stores the three members into the bytes of an
    [mxc_dma_requestbuf_t]. *)
Class MxcDma (D : Type) := {
  MXC_DMA_MEMORY : Z;
  MXC_DMA_MODE_READ : Z;
  sizeof_requestbuf : Z;
  put_request : Z -> Z -> Z -> list Z -> list Z;
  mxc_dma_request : Z -> string -> D -> Z * D;
  mxc_dma_free : Z -> D -> D;
  mxc_dma_config : Z -> list Z -> Z -> Z -> D -> Z * D;
  mxc_dma_enable : Z -> D -> Z * D;
  dma_progress : gmap Z block -> D -> gmap Z block * D;
  IO_ADDRESS : Z -> Z;
  SDMA_BASE_ADDR : Z;
  raw_readl : Z -> D -> Z * D;
  raw_writel : Z -> Z -> D -> D;
}.

Section Driver.
Context `{Kernel} {D : Type} `{MxcDma D}.
Abbreviation W := (world D globals).

(** ** The pseudo-random sequence *)
Definition sand (rand : Z) : M W unit := setg (set_sand rand).
Definition rand : M W Z :=
  g ← getg g_sand;
  setg (set_sand (Z.quot (i32 (g * 12357)) 1103));;
  g ← getg g_sand;
  mret (u8 g).

Definition FillMem (p size rd : Z) : M W unit :=
  sand rd;;
  for_m (Z.to_nat size) 0 (fun i => x ← rand; kwrite p i [x]).

(** The loop ends at the first difference. *)
Fixpoint verify_loop (p : Z) (n : nat) (i : Z) : M W Z :=
  match n with
  | O => mret 0
  | S n =>
      x ← rand;
      y ← kread p i 1;
      if negb (x =? of_le y) then mret 1 else verify_loop p n (i + 1)
  end.
Definition Verify (p size rd : Z) : M W Z :=
  sand rd;;
  j ← verify_loop p (Z.to_nat size) 0;
  mret (if 0 <? j then 1 else 0).

(** ** The registers of a channel, through the debug port *)
Definition readl (addr : Z) : M W Z := drv (raw_readl addr).
Definition writel (v addr : Z) : M W unit := drv (fun d => (tt, raw_writel v addr d)).
Definition mxc_printSDMAcontext (channel : Z) : M W unit :=
  let tempAddr := IO_ADDRESS SDMA_BASE_ADDR in
  let offset := i32 (0x800 + i32 (32 * channel)) in
  reg ← readl (tempAddr + 0x40);
  writel (Z.lor reg 1) (tempAddr + 0x40);;
  writel 0x05 (tempAddr + 0x50);;
  printk "Context of Channel %d\n" [AInt channel];;
  for_m 32 0 (fun i =>
    writel (Z.land (Z.lor (Z.shiftl 0x08 8) (Z.land (Z.shiftr offset 8) 0xff)) 0xffff) (tempAddr + 0x48);;
    writel 0x02 (tempAddr + 0x50);;
    writel 0x0011 (tempAddr + 0x48);;
    writel 0x02 (tempAddr + 0x50);;
    writel (Z.land (Z.lor (Z.shiftl 0x18 8) (Z.land offset 0xff) + i) 0xffff) (tempAddr + 0x48);;
    writel 0x02 (tempAddr + 0x50);;
    writel 0x5100 (tempAddr + 0x48);;
    writel 0x02 (tempAddr + 0x50);;
    writel 0x01 (tempAddr + 0x50);;
    result ← readl (tempAddr + 0x44);
    printk "Context[%d] : %x\n" [AInt i; AInt result]);;
  writel 0x03 (tempAddr + 0x50).

(** ** File operations *)
Definition sdma_open : M W Z :=
  channel ← drv (mxc_dma_request MXC_DMA_MEMORY "SDMA Memory to Memory");
  setg (set_channel channel);;
  if channel <? 0 then
    printk "Error opening the SDMA memory to memory channel\n" [];;
    mret (- ENODEV)
  else
    '(p, phys) ← dma_alloc_coherent SDMA_BUF_SIZE;
    setg (set_wbuf p phys);;
    '(p, phys) ← dma_alloc_coherent SDMA_BUF_SIZE;
    setg (set_rbuf p phys);;
    mret 0.

Definition sdma_release : M W Z :=
  g ← getg (fun g => g);
  drv (fun d => (tt, mxc_dma_free (sdma_channel g) d));;
  dma_free_coherent SDMA_BUF_SIZE (wbuf g) (wpaddr g);;
  dma_free_coherent SDMA_BUF_SIZE (rbuf g) (rpaddr g);;
  mret 0.

Definition sdma_read : M W Z :=
  p ← getg rbuf;
  v ← Verify p SDMA_BUF_SIZE 100;
  (if v =? 0 then printk "SDMA memory test PASSED\n" []
   else
     printk "SDMA memory test FAILED\n" [];;
     c ← getg sdma_channel;
     mxc_printSDMAcontext c);;
  mret 0.

Definition sdma_write : M W Z :=
  reqelem ← kmalloc sizeof_requestbuf;
  if reqelem =? 0 then mret (- ENOMEM)
  else
    p ← getg wbuf;
    FillMem p SDMA_BUF_SIZE 100;;
    g ← getg (fun g => g);
    old ← kread reqelem 0 sizeof_requestbuf;
    kwrite reqelem 0 (put_request (rpaddr g) (wpaddr g) SDMA_BUF_SIZE old);;
    req ← kread reqelem 0 sizeof_requestbuf;
    _ ← drv (mxc_dma_config (sdma_channel g) req 1 MXC_DMA_MODE_READ);
    _ ← drv (mxc_dma_enable (sdma_channel g));
    kfree reqelem;;
    printk "Data write completed\n" [];;
    mret 0.

(** The engine works while no call is running. *)
Definition transfer : M W unit := fun w =>
  let '(m, d) := dma_progress (kmem (kern w)) (dev w) in
  (Ret tt, set_dev d (set_kern (set_kmem (fun _ => m)) w)).

Definition dma_fops : file_operations W := mkFops sdma_open sdma_release sdma_read sdma_write.

(** Loading and unloading are those of the other module. *)
Definition sdma_init_module : M W Z := Sdma.sdma_init_module.
Definition sdma_cleanup_module : M W unit := Sdma.sdma_cleanup_module.
End Driver.
