(* ===== verification/SdmaMemSpec.v ===== *)
(** * What the SDMA memory test does

    [Verify] accepts exactly the bytes [FillMem] writes; a session whose
    transfer takes place passes and gives everything back; a session without
    memory for the buffers opens all the same. *)
From S2P Require Import Prelude CInt CMonad CStruct Kernel SimKernel PortableOs Sdma SdmaMem.

(** The sequence after a seed. *)
Definition next_sand (g : Z) : Z := Z.quot (i32 (g * 12357)) 1103.
Fixpoint sequence (n : nat) (g : Z) : list Z :=
  match n with
  | O => []
  | S n => u8 (next_sand g) :: sequence n (next_sand g)
  end.
Lemma length_sequence n g : length (sequence n g) = n.
Proof. revert g. induction n as [|n IH]; intros g; [done|]. cbn [sequence length]. by rewrite IH. Qed.

(** The product leaves the range of [int] at the fifth number; from there on
    the sequence relies on the wrap-around the kernel is compiled with. *)
Example product_overflows :
  map (fun n => bool_decide (i32 (Nat.iter n next_sand 100 * 12357) = Nat.iter n next_sand 100 * 12357))
    [0; 1; 2; 3; 4]%nat = [true; true; true; true; false].
Proof. vm_compute. reflexivity. Qed.

(** The block at [p] is the one at the bus address [phys]. *)
Definition at_phys (m : gmap Z block) (phys p : Z) (bs : list Z) : Prop :=
  in_uint 32 phys /\ m !! p = Some (mkBlock (Dma phys) bs) /\
  forall q b, m !! q = Some b -> b_kind b = Dma phys -> q = p.

Class MxcDmaWorks (D : Type) `{MxcDma D} : Prop := {
  size_law : 0 < sizeof_requestbuf;
  put_law dst src n old : zlen old = sizeof_requestbuf ->
    zlen (put_request dst src n old) = sizeof_requestbuf;
  (* a transfer that was configured and enabled copies its bytes *)
  transfer_law ch dst src n old d m p q bs bd :
    at_phys m src p bs -> at_phys m dst q bd ->
    zlen bs = n -> zlen bd = n -> in_uint 32 n -> zlen old = sizeof_requestbuf ->
    (dma_progress m (mxc_dma_enable ch (mxc_dma_config ch (put_request dst src n old) 1
       MXC_DMA_MODE_READ d).2).2).1 = <[q := mkBlock (Dma dst) bs]> m;
}.

Section Spec.
Context `{KL : KernelLaws} {D : Type} `{MxcDma D} (U : Prop).
Abbreviation W := (world D globals).
Implicit Types (w : W) (E : Z -> W -> Prop).

(** Everything but the state of the generator. *)
Record same w w' : Prop := mkSame {
  sm_dev : dev w' = dev w;
  sm_glob : exists s, glob w' = set_sand s (glob w);
  sm_log : klog w' = klog w;
}.
Lemma set_sand_twice a b g : set_sand a (set_sand b g) = set_sand a g.
Proof. done. Qed.
#[local] Instance same_trans : Transitive same.
Proof.
  intros w1 w2 w3 [? [s Hs] ?] [? [s' Hs'] ?]. split; [congruence| |congruence].
  exists s'. by rewrite Hs', Hs.
Qed.

Lemma wp_rand (Q : Z -> W -> Prop) E w :
  Q (u8 (next_sand (g_sand (glob w)))) (set_glob (set_sand (next_sand (g_sand (glob w))) (glob w)) w) ->
  wpu U rand Q E w.
Proof. intros HQ. unfold rand, getg, setg. wp_steps. exact HQ. Qed.

Lemma fill_loop n p pre bs kd E w :
  kmem (kern w) !! p = Some (mkBlock kd (pre ++ drop (length pre) bs)) ->
  (length pre + n <= length bs)%nat ->
  wpu U (for_m n (zlen pre) (fun i => x ← rand; kwrite p i [x])) (fun _ w' => same w w' /\
    kern w' = set_kmem <[p := mkBlock kd ((pre ++ sequence n (g_sand (glob w)))
                                           ++ drop (length pre + n) bs)]> (kern w)) E w.
Proof.
  revert pre w. induction n as [|n IH]; intros pre w Hm Hl; cbn [for_m].
  { apply wp_skip. split; [split; try done; exists (g_sand (glob w)); by destruct w as [? ? [] ?]|].
    cbn [sequence]. rewrite app_nil_r, Nat.add_0_r. pose proof (set_kmem_same w p _ Hm) as Hs.
    by apply (f_equal kern) in Hs. }
  apply wp_bind, wp_bind, wp_rand. set (x := u8 _).
  eapply wp_kwrite; [exact Hm|lia|cbn [b_data]; rewrite length_app, length_drop; simpl; lia|].
  cbn [b_data b_kind]. rewrite Nat2Z.id, poke_end by (simpl; lia).
  replace (length pre + length [x])%nat with (length (pre ++ [x])) by by rewrite length_app.
  replace (zlen pre + 1) with (zlen (pre ++ [x])) by (rewrite length_app; simpl; lia).
  eapply wp_mono; [apply IH|].
  - simpl. by rewrite lookup_insert_eq.
  - rewrite length_app. simpl. lia.
  - intros _ w' [[Hd [s Hs] Hlog] Hk]. split.
    + split; [done| |done]. exists s. by rewrite Hs.
    + rewrite Hk. unfold set_kmem. cbn [kern set_kern set_glob kmem]. rewrite insert_insert_eq.
      rewrite length_app, <- !app_assoc. simpl. by replace (length pre + 1 + n)%nat with (length pre + S n)%nat by lia.
Qed.

Lemma FillMem_wp p n rd bs kd E w :
  kmem (kern w) !! p = Some (mkBlock kd bs) -> 0 <= n <= zlen bs ->
  wpu U (FillMem p n rd) (fun _ w' => same w w' /\
    kern w' = set_kmem <[p := mkBlock kd (sequence (Z.to_nat n) rd ++ drop (Z.to_nat n) bs)]> (kern w)) E w.
Proof.
  intros Hm Hn. unfold FillMem, sand. apply wp_bind, wp_modify.
  eapply wp_mono; [apply (fill_loop (Z.to_nat n) p [] bs kd); [by rewrite drop_0|simpl; lia]|].
  intros _ w' [Hs Hk]. split; [|exact Hk].
  eapply (same_trans w); [|exact Hs]. split; [done|by eexists|done].
Qed.

Lemma verify_loop_wp n p i bs kd E w :
  kmem (kern w) !! p = Some (mkBlock kd bs) -> (i + n <= length bs)%nat -> Forall is_byte bs ->
  wpu U (verify_loop p n (Z.of_nat i)) (fun r w' => same w w' /\ kern w' = kern w /\
    r = if bool_decide (peek i n bs = sequence n (g_sand (glob w))) then 0 else 1) E w.
Proof.
  revert i w. induction n as [|n IH]; intros i w Hm Hl Hb; cbn [verify_loop].
  { apply wp_ret. split; [split; try done; exists (g_sand (glob w)); by destruct w as [? ? [] ?]|].
    split; [done|]. unfold peek. by rewrite take_0, bool_decide_eq_true_2. }
  apply wp_bind, wp_rand, wp_bind.
  eapply wp_kread; [exact Hm|lia|lia|simpl; lia|]. cbn [b_data].
  destruct (drop i bs) as [|y rest] eqn:Hd.
  { apply (f_equal length) in Hd. rewrite length_drop in Hd. simpl in Hd. lia. }
  assert (peek (Z.to_nat (Z.of_nat i)) (Z.to_nat 1) bs = [y]) as ->.
  { unfold peek. by rewrite Nat2Z.id, Hd. }
  assert (peek i (S n) bs = y :: peek (S i) n bs) as ->.
  { unfold peek. rewrite Hd. simpl. f_equal. f_equal. replace (S i) with (i + 1)%nat by lia.
    by rewrite <- drop_drop, Hd. }
  cbn [of_le sequence]. rewrite Z.mul_0_r, Z.add_0_r.
  set (g := next_sand _). assert (same w (set_glob (set_sand g (glob w)) w)) as Hsame.
  { split; [done|by eexists|done]. }
  destruct (Z.eqb_spec (u8 g) y) as [Hy|Hy]; cbn [negb].
  - replace (Z.of_nat i + 1) with (Z.of_nat (S i)) by lia.
    eapply wp_mono; [apply IH; [done|lia|done]|]. intros r w' (Hs & Hk & ->).
    split; [by etransitivity|]. split; [exact Hk|]. cbn [glob set_glob g_sand set_sand].
    rewrite Hy. repeat case_bool_decide; congruence.
  - apply wp_ret. split; [done|]. split; [done|]. by rewrite bool_decide_eq_false_2 by congruence.
Qed.

Lemma Verify_wp p n rd bs kd E w :
  kmem (kern w) !! p = Some (mkBlock kd bs) -> 0 <= n <= zlen bs -> Forall is_byte bs ->
  wpu U (Verify p n rd) (fun r w' => same w w' /\ kern w' = kern w /\
    r = if bool_decide (take (Z.to_nat n) bs = sequence (Z.to_nat n) rd) then 0 else 1) E w.
Proof.
  intros Hm Hn Hb. unfold Verify, sand. apply wp_bind, wp_modify, wp_bind.
  eapply wp_mono; [apply (verify_loop_wp (Z.to_nat n) p 0 bs kd); [done|lia|done]|].
  intros r w' (Hs & Hk & ->). apply wp_ret. split; [|split; [exact Hk|]].
  - eapply (same_trans w); [|exact Hs]. split; [done|by eexists|done].
  - unfold peek. rewrite drop_0. cbn [glob set_glob g_sand set_sand]. by case_bool_decide.
Qed.
End Spec.

Section Session.
Context `{KL : KernelLaws} {D : Type} `{MW : MxcDmaWorks D}.
Abbreviation W := (world D globals).
Implicit Types (w : W) (E : Z -> W -> Prop).

Definition coherent (phys : Z) (bs : list Z) : block := mkBlock (Dma phys) bs.
(** An open device: its two buffers on top of [m]. *)
Record opened (m : gmap Z block) w : Prop := mkOpened {
  op_fresh : m !! wbuf (glob w) = None /\ m !! rbuf (glob w) = None;
  op_ne : wbuf (glob w) <> rbuf (glob w);
  op_phys : in_uint 32 (wpaddr (glob w)) /\ in_uint 32 (rpaddr (glob w)) /\
    wpaddr (glob w) <> rpaddr (glob w) /\
    phys_free m (wpaddr (glob w)) /\ phys_free m (rpaddr (glob w));
  op_mem : exists bw br, zlen bw = SDMA_BUF_SIZE /\ zlen br = SDMA_BUF_SIZE /\
    kmem (kern w) = <[rbuf (glob w) := coherent (rpaddr (glob w)) br]>
                      (<[wbuf (glob w) := coherent (wpaddr (glob w)) bw]> m);
}.

(** Opening: no channel; or a channel, and both buffers if none is null. *)
Lemma mem_open_wp E w :
  wp sdma_open (fun r w' =>
    (r = - ENODEV /\ kmem (kern w') = kmem (kern w) /\ sdma_channel (glob w') < 0) \/
    (r = 0 /\ (wbuf (glob w') <> 0 -> rbuf (glob w') <> 0 -> opened (kmem (kern w)) w'))) E w.
Proof.
  unfold sdma_open. apply wp_bind, wp_drv, wp_bind, wp_modify.
  destruct (mxc_dma_request _ _ _) as [ch d]. cbn [fst snd].
  destruct (Z.ltb_spec ch 0) as [Hc|Hc]; [by apply wp_bind, wp_printk, wp_ret; left|].
  apply wp_bind, wp_dma_alloc; [|intros p phys bs Hp Hf Hph Hpf Hl Hb]; apply wp_bind, wp_modify, wp_bind.
  - apply wp_dma_alloc; intros; apply wp_bind, wp_modify, wp_ret; by right.
  - apply wp_dma_alloc; [|intros q phq bq Hq Hfq Hphq Hpfq Hlq Hbq];
      apply wp_bind, wp_modify, wp_ret; right; [done|]. split; [done|]. intros _ _. simpl in *.
    destruct (decide (p = q)) as [->|Hne]; [by rewrite lookup_insert_eq in Hfq|].
    rewrite lookup_insert_ne in Hfq by done. split; simpl; [done|done| |by exists bs, bq].
    split_and!; try done.
    + intros ->. by apply (Hpfq p _ (lookup_insert_eq _ _ _)).
    + intros p' b' Hp'. apply (Hpfq p'). rewrite lookup_insert_ne; [done|]. by intros ->; rewrite Hf in Hp'.
Qed.

Definition passed : list print := [Printf "SDMA memory test PASSED\n" []; Printf "Data write completed\n" []].

Definition filled : list Z := sequence 1024 100.
Lemma filled_bytes : Forall is_byte filled.
Proof.
  unfold filled. generalize 1024%nat 100. induction n as [|n IH]; intros g; cbn [sequence]; constructor.
  - apply (wrap_range 8). lia.
  - apply IH.
Qed.

(** Each of the two blocks is alone at its bus address. *)
Lemma buffers_at_phys m (g : globals) bw br :
  wbuf g <> rbuf g ->
  in_uint 32 (wpaddr g) /\ in_uint 32 (rpaddr g) /\ wpaddr g <> rpaddr g /\
    phys_free m (wpaddr g) /\ phys_free m (rpaddr g) ->
  let m' := <[rbuf g := coherent (rpaddr g) br]> (<[wbuf g := coherent (wpaddr g) bw]> m) in
  at_phys m' (wpaddr g) (wbuf g) bw /\ at_phys m' (rpaddr g) (rbuf g) br.
Proof.
  intros Hne (Hw & Hr & Hwr & Hfw & Hfr) m'. unfold m'.
  split; (split; [done|split; [by simplify_map_eq|]]);
    intros q b Hq Hb; rewrite lookup_insert in Hq; (case_decide as E1;
      [|rewrite lookup_insert in Hq; case_decide as E2]).
  - injection Hq as <-. injection Hb as Hb. congruence.
  - done.
  - by destruct (Hfw q b Hq).
  - done.
  - injection Hq as <-. injection Hb as Hb. congruence.
  - by destruct (Hfr q b Hq).
Qed.

(** Writing fills the buffer and starts the transfer that [d] is about to do. *)
Lemma mem_write_wp m E w :
  opened m w ->
  wp sdma_write (fun r w' =>
    (r = - ENOMEM /\ o_kmalloc (kmem (kern w)) (calls (kern w)) sizeof_requestbuf = None) \/
    (r = 0 /\ (exists s, glob w' = set_sand s (glob w)) /\
     klog w' = Printf "Data write completed\n" [] :: klog w /\
     exists br old ch d, zlen br = SDMA_BUF_SIZE /\ zlen old = sizeof_requestbuf /\
       kmem (kern w') = <[rbuf (glob w) := coherent (rpaddr (glob w)) br]>
                          (<[wbuf (glob w) := coherent (wpaddr (glob w)) filled]> m) /\
       dev w' = (mxc_dma_enable ch (mxc_dma_config ch (put_request (rpaddr (glob w)) (wpaddr (glob w))
                   SDMA_BUF_SIZE old) 1 MXC_DMA_MODE_READ d).2).2)) E w.
Proof.
  intros [[Hfw Hfr] Hne _ (bw & br & Hbw & Hbr & Hm)]. unfold sdma_write. pose proof size_law as Hsz.
  apply wp_bind, wp_kmalloc; [lia|lia|intros _ Hno|].
  { cbn [Z.eqb]. apply wp_ret. left. split; [done|]. exact Hno. }
  intros p old _ _ Hp Hfree Hold _. set (k1 := set_kern _ w).
  destruct (Z.eqb_spec p 0); [unfold ZERO_SIZE_PTR in Hp; lia|].
  assert (p <> wbuf (glob w)) as Hpw.
  { intros ->. by rewrite Hm, lookup_insert_ne, lookup_insert_eq in Hfree by done. }
  apply wp_bind, wp_gets. change (glob k1) with (glob w).
  assert (kmem (kern k1) !! wbuf (glob w) = Some (coherent (wpaddr (glob w)) bw)) as Hlw.
  { simpl. by rewrite lookup_insert_ne, Hm, lookup_insert_ne, lookup_insert_eq by done. }
  apply wp_bind. eapply wp_mono; [eapply FillMem_wp; [exact Hlw|unfold SDMA_BUF_SIZE in *; lia]|].
  intros _ w2 [[Hd2 [s Hg2] Hl2] Hk2]. apply wp_bind, wp_gets.
  rewrite drop_ge, app_nil_r in Hk2 by (unfold SDMA_BUF_SIZE in *; lia).
  change (sequence (Z.to_nat SDMA_BUF_SIZE) 100) with filled in Hk2.
  change (glob k1) with (glob w) in Hg2. apply (f_equal kmem) in Hk2. simpl in Hk2.
  rewrite insert_insert_ne, Hm, (insert_insert_ne _ (wbuf (glob w)) (rbuf (glob w))), insert_insert_eq
    in Hk2 by done.
  set (m2 := <[rbuf (glob w):=_]> _) in Hk2.
  assert (m2 !! p = None) as Hp2.
  { rewrite Hm in Hfree. rewrite lookup_insert in Hfree. case_decide as Hpr; [done|].
    unfold m2. rewrite lookup_insert_ne, lookup_insert_ne by done. by rewrite lookup_insert_ne in Hfree by done. }
  pose proof (put_law (rpaddr (glob w)) (wpaddr (glob w)) SDMA_BUF_SIZE old Hold) as Hput.
  apply wp_bind. eapply wp_kread; [by rewrite Hk2, lookup_insert_eq|done|lia|simpl; lia|].
  assert (forall l : list Z, zlen l = sizeof_requestbuf -> peek (Z.to_nat 0) (Z.to_nat sizeof_requestbuf) l = l)
    as Hpeek by (intros; unfold peek; change (Z.to_nat 0) with 0%nat; rewrite drop_0; apply take_ge; lia).
  cbn [b_data]. rewrite Hpeek by done. rewrite Hg2. cbn [rpaddr wpaddr set_sand sdma_channel].
  apply wp_bind. eapply wp_kwrite; [by rewrite Hk2, lookup_insert_eq|done|simpl; lia|].
  cbn [b_data b_kind].
  assert (forall l v : list Z, length v = length l -> poke (Z.to_nat 0) v l = v) as Hpoke.
  { intros l v Hlen. unfold poke. change (Z.to_nat 0) with 0%nat. rewrite drop_ge by lia. apply app_nil_r. }
  rewrite Hpoke by lia. apply wp_bind.
  eapply wp_kread; [simpl; by rewrite lookup_insert_eq|done|lia|simpl; lia|]. cbn [b_data]. rewrite Hpeek by done.
  apply wp_bind, wp_drv, wp_bind, wp_drv, wp_bind.
  eapply wp_kfree; [lia|simpl; by rewrite lookup_insert_eq|].
  apply wp_bind, wp_printk, wp_ret. right. split; [done|]. split; [by exists s|].
  split; [by simpl; rewrite Hl2|]. simpl. rewrite Hk2, insert_insert_eq, delete_insert_eq, delete_id by done.
  exists br, old, (sdma_channel (glob w)), (dev w2). split_and!; done.
Qed.

Lemma mem_release_wp m E w :
  opened m w ->
  wp sdma_release (fun r w' => r = 0 /\ kmem (kern w') = m /\ klog w' = klog w) E w.
Proof.
  intros [[Hfw Hfr] Hne _ (bw & br & Hbw & Hbr & Hm)]. unfold sdma_release.
  apply wp_bind, wp_gets, wp_bind, wp_drv, wp_bind.
  eapply wp_dma_free; [simpl; rewrite Hm, lookup_insert_ne, lookup_insert_eq by done; reflexivity|done|].
  apply wp_bind. eapply wp_dma_free;
    [simpl; rewrite lookup_delete_ne, Hm, lookup_insert_eq by done; reflexivity|done|].
  apply wp_ret. simpl. split; [done|]. split; [|done].
  rewrite Hm, delete_insert_ne, delete_insert_eq by done. rewrite delete_insert_eq, !delete_id; try done.
  by rewrite delete_id.
Qed.

(** C21: What the test program does on an open device of the SDMA memory module
    while the engine works, if there is memory for the request: the sequence
    that is read is the one that was written, so the test passes, the request
    is given back, and closing frees both buffers. *)
Theorem sdma_mem_session m w :
  opened m w ->
  o_kmalloc (kmem (kern w)) (calls (kern w)) sizeof_requestbuf <> None ->
  wp (use_device dma_fops transfer)
    (fun r w' => r = 0 /\ kmem (kern w') = m /\ klog w' = passed ++ klog w) (fun _ _ => False) w.
Proof.
  intros Ho Hreq. pose proof Ho as [[Hfw Hfr] Hne Hph _]. unfold use_device. cbn [fop_write fop_read fop_release dma_fops]. apply wp_bind.
  eapply wp_mono; [eapply mem_write_wp; exact Ho|].
  intros r w1 [[_ Hno]|(-> & [s Hs] & Hl & br & old & ch & d & Hbr & Hold & Hm & Hd)].
  { done. }
  cbv beta. apply wp_bind.
  pose proof (transfer_law ch (rpaddr (glob w)) (wpaddr (glob w)) SDMA_BUF_SIZE old d (kmem (kern w1))
    (wbuf (glob w)) (rbuf (glob w)) filled br) as Ht.
  unfold wpu at 1, transfer. rewrite Hd.
  destruct (dma_progress _ _) as [m2 d2]. simpl in Ht.
  destruct (buffers_at_phys m (glob w) filled br Hne Hph) as [Hsrc Hdst]. rewrite <- Hm in Hsrc, Hdst.
  rewrite Ht; [|done..]. rewrite Hm, insert_insert_eq. set (w2 := set_dev _ _). clear Ht.
  assert (kmem (kern w2) !! rbuf (glob w2) = Some (coherent (rpaddr (glob w)) filled)) as Hr2.
  { simpl. rewrite Hs. apply lookup_insert_eq. }
  apply wp_bind. unfold sdma_read. apply wp_bind, wp_gets, wp_bind.
  eapply wp_mono; [eapply Verify_wp; [exact Hr2|by split|apply filled_bytes]|].
  intros v w3 ([Hd3 [s3 Hs3] Hl3] & Hk3 & ->).
  rewrite bool_decide_eq_true_2 by (rewrite take_ge; [done|done]).
  cbn [Z.eqb]. apply wp_bind, wp_printk, wp_ret, wp_bind.
  eapply wp_mono; [eapply mem_release_wp|].
  - split; simpl; rewrite Hs3; simpl; rewrite Hs; simpl; [done|done|done|].
    exists filled, filled. rewrite Hk3. done.
  - intros r w4 (-> & Hm4 & Hl4). apply wp_ret. split; [done|]. split; [exact Hm4|].
    rewrite Hl4. simpl. rewrite Hl3. simpl. by rewrite Hl.
Qed.

(** An open of the SDMA memory test that gets a channel but no memory for
    its buffers succeeds all the same; a write on the file then goes through
    the null pointer, unless there is no memory for the request either. *)
Theorem sdma_mem_open_unchecked w :
  0 <= (mxc_dma_request MXC_DMA_MEMORY "SDMA Memory to Memory" (dev w)).1 ->
  o_dma (kmem (kern w)) (calls (kern w)) SDMA_BUF_SIZE = None -> kmem (kern w) !! 0 = None ->
  exists w1, sdma_open w = (Ret 0, w1) /\ wbuf (glob w1) = 0 /\
    ((sdma_write w1).1 = Undef \/ (sdma_write w1).1 = Ret (- ENOMEM)).
Proof.
  intros Hc Ho Hm0. unfold sdma_open.
  destruct (mxc_dma_request MXC_DMA_MEMORY "SDMA Memory to Memory" (dev w)) as [ch d] eqn:Hr.
  cbn [fst] in Hc.
  assert (exists w1, sdma_open w = (Ret 0, w1) /\ wbuf (glob w1) = 0 /\ kmem (kern w1) !! 0 = None)
    as (w1 & Hw & Hb & Hz).
  { unfold sdma_open, drv, getg, setg, mbind, M_bind, modify. rewrite Hr. cbn [set_dev set_glob glob kern dev].
    destruct (Z.ltb_spec ch 0); [lia|]. unfold dma_alloc_coherent at 1. simpl. rewrite Ho. simpl.
    unfold dma_alloc_coherent. simpl. destruct (o_dma _ (S _) _) as [[[p ph] bs]|] eqn:Ho2.
    - eexists. split; [done|]. split; [done|]. simpl.
      apply dma_law in Ho2 as (Hp & _). by rewrite lookup_insert_ne by lia.
    - eexists. split; [done|]. by split. }
  exists w1. split; [exact Hw|]. split; [done|]. unfold sdma_write, kmalloc.
  pose proof size_law as Hsz. destruct (Z.eqb_spec sizeof_requestbuf 0); [lia|].
  destruct (o_kmalloc (kmem (kern w1)) (calls (kern w1)) sizeof_requestbuf) as [[p bs]|] eqn:Hk.
  - left. eapply undef_bind_eq; [by rewrite Hk|]. apply kmalloc_law in Hk as (Hp & _); [|lia].
    destruct (Z.eqb_spec p 0); [unfold ZERO_SIZE_PTR in Hp; lia|].
    eapply undef_bind_eq; [done|]. apply undef_bind. cbn [glob set_kern]. rewrite Hb.
    unfold FillMem. eapply undef_bind_eq; [done|]. change (Z.to_nat SDMA_BUF_SIZE) with (S 1023).
    cbn [for_m]. apply undef_bind. eapply undef_bind_eq; [done|]. unfold kwrite. simpl.
    by rewrite lookup_insert_ne, Hz by (unfold ZERO_SIZE_PTR in Hp; lia).
  - right. unfold mbind, M_bind. by rewrite Hk.
Qed.
End Session.

(** ** The theorems at work: an engine that keeps the last request *)
Section Witnesses.
Definition find_phys (phys : Z) (m : gmap Z block) : option (Z * block) :=
  List.find (fun x => has_phys phys (snd x)) (map_to_list m).
Lemma find_phys_spec m phys p bs :
  at_phys m phys p bs -> find_phys phys m = Some (p, mkBlock (Dma phys) bs).
Proof.
  intros (_ & Hp & Hu). unfold find_phys. destruct (List.find _ _) as [[q b]|] eqn:Hf.
  - apply find_some in Hf as [Hin Hb]. apply list_elem_of_In, elem_of_map_to_list in Hin.
    unfold has_phys in Hb. simpl in Hb. destruct (b_kind b) as [|ph] eqn:Hk; [done|].
    apply Z.eqb_eq in Hb as ->. assert (q = p) as -> by by apply (Hu q b).
    rewrite Hp in Hin. by injection Hin as <-.
  - assert (In (p, mkBlock (Dma phys) bs) (map_to_list m)) as Hin
      by by apply list_elem_of_In, elem_of_map_to_list.
    pose proof (find_none _ _ Hf _ Hin) as Hn. unfold has_phys in Hn. simpl in Hn.
    by rewrite Z.eqb_refl in Hn.
Qed.

#[local] Instance toy_mxc : MxcDma (list Z) := {|
  MXC_DMA_MEMORY := 0; MXC_DMA_MODE_READ := 0; sizeof_requestbuf := 12;
  put_request dst src n _ := to_le 4 dst ++ to_le 4 src ++ to_le 4 n;
  mxc_dma_request _ _ d := (3, d);
  mxc_dma_free _ d := d;
  mxc_dma_config _ req _ _ _ := (0, req);
  mxc_dma_enable _ d := (0, d);
  dma_progress m d :=
    match find_phys (of_le (peek 4 4 d)) m, find_phys (of_le (peek 0 4 d)) m with
    | Some (_, b), Some (q, c) => (<[q := mkBlock (b_kind c) (b_data b)]> m, [])
    | _, _ => (m, d)
    end;
  IO_ADDRESS a := a;
  SDMA_BASE_ADDR := 0x53fd4000;
  raw_readl _ d := (0, d);
  raw_writel _ _ d := d;
|}.
#[local] Instance toy_works : MxcDmaWorks (list Z).
Proof.
  split; [done|done|].
  intros ch dst src n old d m p q bs bd Hs Hd _ _ Hn _. cbn [mxc_dma_enable mxc_dma_config toy_mxc snd].
  assert (of_le (peek 4 4 (to_le 4 dst ++ to_le 4 src ++ to_le 4 n)) = src) as Es
    by (transitivity (of_le (to_le 4 src)); [done|]; rewrite of_to_le; apply wrap_id, Hs).
  assert (of_le (peek 0 4 (to_le 4 dst ++ to_le 4 src ++ to_le 4 n)) = dst) as Ed
    by (transitivity (of_le (to_le 4 dst)); [done|]; rewrite of_to_le; apply wrap_id, Hd).
  unfold dma_progress, toy_mxc, put_request. rewrite Es, Ed.
  by rewrite (find_phys_spec m src p bs), (find_phys_spec m dst q bd).
Qed.
Definition toy_world : world (list Z) globals := mkWorld (booted ∅) [] mem_globals [].
(** No memory at all. *)
Definition sim_poor : simcfg := mkSim (fun _ => false) (fun _ => true) (fun _ => false).

Lemma sdma_mem_session_witness :
  let w := (@sdma_open (sim sim_ok) _ _ toy_world).2 in
  wp (use_device (@dma_fops (sim sim_ok) _ _) transfer)
    (fun r w' => r = 0 /\ kmem (kern w') = ∅ /\ klog w' = passed) (fun _ _ => False) w.
Proof.
  assert (opened ∅ (@sdma_open (sim sim_ok) _ _ toy_world).2) as Ho.
  { split; [by vm_compute|by vm_compute| |].
    - split_and!; try (by vm_compute); intros q b Hq; by rewrite lookup_empty in Hq.
    - exists (replicate 1024 0), (replicate 1024 0). by vm_compute. }
  apply (@sdma_mem_session (sim sim_ok) (sim_laws sim_ok) _ _ toy_works ∅ _ Ho). by vm_compute.
Defined.

Lemma sdma_mem_open_unchecked_witness :
  exists w1, @sdma_open (sim sim_poor) _ _ toy_world = (Ret 0, w1) /\ wbuf (glob w1) = 0.
Proof.
  destruct (@sdma_mem_open_unchecked (sim sim_poor) (sim_laws sim_poor) _ _ toy_works toy_world)
    as (w1 & ? & ? & _); [by vm_compute..|]. by exists w1.
Defined.
End Witnesses.
