(* ===== verification/KmTest.v ===== *)
(** * The kernel-mode security test module

    [src/module_test/km_test.c]: a device whose files each own a context of
    the FSL SHW library; what a process writes to it is a list of one-letter
    commands, which [run_tests] of [src/test/mxc_sahara_test/run_tests.c]
    interprets.  The suites it calls are the programs of
    [src/test/mxc_sahara_test], which are not modelled: each is a computation
    on kernel memory, library and log, as the code calls it, and a field of
    the class [Shw] like the library they exercise. *)
From S2P Require Import Prelude CInt CMonad CStr CStruct Kernel SimKernel PortableOs.
From Stdlib Require String.

Definition KM_TEST_DRIVER_NAME : string := "shwtest".

(** ** The test suites and the library *)
Inductive suite :=
  | run_gen_encrypt | run_callback | show_capabilities | run_dryice | run_result | run_hash
  | run_hmac1 | run_hmac2 | run_pkha | run_random | run_symmetric | run_wrap | run_user_wrap
  | run_smalloc.

(** A suite gets the context and the two counters, and returns the counters;
    in between it may allocate and write kernel memory, call the library and
    print.  It does not reach the variables of the module. *)
Class Shw (D : Type) := {
  FSL_RETURN_OK_S : Z;
  FSL_UCO_BLOCKING_MODE : Z;
  sizeof_uco : Z;
  fsl_shw_uco_init : Z -> list Z -> list Z;
  fsl_shw_uco_set_flags : Z -> list Z -> list Z;
  fsl_shw_register_user : Z -> D -> Z * D;
  fsl_shw_deregister_user : Z -> D -> Z * D;
  run_suite : suite -> Z -> Z * Z -> M (world D unit) (Z * Z);
}.
(** The length of a context does not change; 0 is the library's success. *)
Class ShwLaws (D : Type) `{Shw D} : Prop := {
  ok_law : FSL_RETURN_OK_S = OS_ERROR_OK_S;
  uco_pos : 0 < sizeof_uco;
  uco_init_law n b : zlen (fsl_shw_uco_init n b) = zlen b;
  uco_flags_law n b : zlen (fsl_shw_uco_set_flags n b) = zlen b;
}.

(** ** State *)
Inductive km_fn := km_test_open_fn | km_test_write_fn | km_test_close_fn.
Record globals := mkGlobals {
  km_reg : os_driver_reg km_fn;
  Major : Z;
  private : gmap Z Z;              (* the private pointer of each open file *)
}.
Definition km_globals : globals := mkGlobals no_reg 0 ∅.
Definition set_Major (v : Z) (g : globals) : globals := mkGlobals (km_reg g) v (private g).
Definition set_private (f : gmap Z Z -> gmap Z Z) (g : globals) : globals :=
  mkGlobals (km_reg g) (Major g) (f (private g)).
#[export] Instance km_has_reg : HasReg globals km_fn.
Proof.
  refine {| reg_handle := km_reg; set_reg r g := mkGlobals r (Major g) (private g) |}. done.
Defined.

Definition is_char (c : ascii) (type : Z) : bool := type =? chr c.

(** The commands the switch knows; [None] for the ones it ignores. *)
Definition suites_of (FSL_API_TEST_PKC : bool) (type : Z) : list suite :=
  if is_char "a" type then [run_gen_encrypt]
  else if is_char "c" type then [run_callback]
  else if is_char "C" type then [show_capabilities]
  else if is_char "d" type then [run_dryice]
  else if is_char "g" type then [run_result]
  else if is_char "h" type then [run_hash]
  else if is_char "m" type then [run_hmac1; run_hmac2]
  else if FSL_API_TEST_PKC && is_char "p" type then [run_pkha]
  else if is_char "r" type then [run_random]
  else if is_char "s" type then [run_symmetric]
  else if is_char "w" type then [run_wrap]
  else if is_char "W" type then [run_user_wrap]
  else if is_char "z" type then [run_smalloc]
  else [].
Definition full_suite : list Z := map chr (String.list_ascii_of_string "CagshcmrwWzd").

Section Driver.
Context `{Kernel} `{PortableOs} {D : Type} `{Shw D} (FSL_API_TEST_PKC : bool).
Abbreviation W := (world D globals).

Definition getg {A} (f : globals -> A) : M W A := gets (fun w => f (glob w)).
Definition setg (f : globals -> globals) : M W unit := modify (fun w => set_glob (f (glob w)) w).
Definition user_private (file : Z) : M W Z := getg (fun g => default 0 (private g !! file)).
Definition set_user_private (file p : Z) : M W unit := setg (set_private <[file := p]>).

(** ** [run_tests]

    The string is read one character at a time through [fetch]: from kernel
    memory, or from the literal of the full suite, which does not contain the
    command that starts it.  [fuel] bounds the characters of one string. *)
Definition strip (w : W) : world D unit := mkWorld (kern w) (dev w) tt (klog w).
Definition call_suite {A} (m : M (world D unit) A) : M W A := fun w =>
  let '(r, u) := m (strip w) in (r, mkWorld (kern u) (dev u) (glob w) (klog u)).
Fixpoint run_suites (l : list suite) (user_ctx : Z) (counts : Z * Z) : M W (Z * Z) :=
  match l with
  | [] => mret counts
  | s :: l => counts ← call_suite (run_suite s user_ctx counts); run_suites l user_ctx counts
  end.
Definition add_counts (total counts : Z * Z) : Z * Z :=
  (u32 (total.1 + counts.1), u32 (total.2 + counts.2)).

Section RunTests.
Context (full : Z * Z -> M W (Z * Z)) (user_ctx : Z).
Fixpoint run_loop (fuel : nat) (i : Z) (fetch : Z -> M W Z) (counts : Z * Z) : M W (Z * Z) :=
  match fuel with
  | O => no_fuel
  | S fuel =>
      type ← fetch i;
      if type =? 0 then mret counts
      else
        counts ← (if is_char "F" type then full counts
                  else run_suites (suites_of FSL_API_TEST_PKC type) user_ctx counts);
        run_loop fuel (i + 1) fetch counts
  end.
End RunTests.

Definition fetch_literal (l : list Z) (i : Z) : M W Z :=
  match (l ++ [0]) !! Z.to_nat i with Some c => mret c | None => undef end.
Definition fetch_kernel (p i : Z) : M W Z := b ← kread p i 1; mret (of_le b).

(** The recursive call: a literal without an F. *)
Definition run_full (user_ctx : Z) (total : Z * Z) : M W (Z * Z) :=
  counts ← run_loop (fun _ => no_fuel) user_ctx (S (length full_suite)) 0 (fetch_literal full_suite) (0, 0);
  mret (add_counts total counts).
Definition run_tests (fuel : nat) (user_ctx test_string : Z) (total : Z * Z) : M W (Z * Z) :=
  counts ← run_loop (run_full user_ctx) user_ctx fuel 0 (fetch_kernel test_string) (0, 0);
  mret (add_counts total counts).

(** ** Entry points; [file] is the open file the call is made on *)
Definition km_test_open (file : Z) : M W Z :=
  set_user_private file 0;;
  user_ctx ← os_alloc_memory sizeof_uco;
  if user_ctx =? 0 then mret OS_ERROR_NO_MEMORY_S
  else
    b ← kread user_ctx 0 sizeof_uco;
    kwrite user_ctx 0 (fsl_shw_uco_set_flags FSL_UCO_BLOCKING_MODE (fsl_shw_uco_init 10 b));;
    code ← drv (fsl_shw_register_user user_ctx);
    if code =? FSL_RETURN_OK_S then
      set_user_private file user_ctx;;
      mret OS_ERROR_OK_S
    else
      os_free_memory user_ctx;;
      mret OS_ERROR_FAIL_S.

(** [count] bytes at [buffer]; at most [count + 1] characters are read. *)
Definition km_test_write (file buffer count : Z) : M W Z :=
  user_ctx ← user_private file;
  if count =? 0 then mret 0
  else
    test_string ← os_alloc_memory (u32 (1 + count));
    if test_string =? 0 then mret OS_ERROR_NO_MEMORY_S
    else
      kwrite test_string count [0];;
      '(b, retval) ← os_copy_from_user buffer count;
      kwrite test_string 0 b;;
      retval ← (if retval =? FSL_RETURN_OK_S then
                  printk "km_test: running tests %s\n" [AInt test_string];;
                  '(passed_count, failed_count) ← run_tests (S (Z.to_nat count)) user_ctx test_string (0, 0);
                  printk "Total km_test run: %d passed, %d failed\n" [AInt passed_count; AInt failed_count];;
                  mret count
                else mret retval);
      os_free_memory test_string;;
      mret retval.

Definition km_test_close (file : Z) : M W Z :=
  user_ctx ← user_private file;
  when (negb (user_ctx =? 0)) (
    _ ← drv (fsl_shw_deregister_user user_ctx);
    os_free_memory user_ctx);;
  mret OS_ERROR_OK_S.

(** ** Loading and unloading *)
Definition km_test_init : M W Z :=
  os_driver_init_registration;;
  os_driver_add_registration OS_FN_OPEN km_test_open_fn;;
  os_driver_add_registration OS_FN_WRITE km_test_write_fn;;
  os_driver_add_registration OS_FN_CLOSE km_test_close_fn;;
  major ← getg Major;
  code ← os_driver_complete_registration major KM_TEST_DRIVER_NAME;
  if code =? OS_ERROR_FAIL_S then
    printk "km_test driver initialization failed: %d\n" [AInt code];;
    mret code
  else
    setg (set_Major code);;
    mret 0.

Definition km_test_cleanup : M W unit :=
  _ ← os_driver_remove_registration; skip.
End Driver.
