(* ===== verification/KmTestSpec.v ===== *)
(** * What the kernel-mode security test module does

    A write runs the suites its commands stand for, in order, and adds up
    what they report; it stays inside its buffer for every input and gives
    the buffer back on every path.  Opening and closing a file balance.  What
    the suites allocate and keep is theirs: it stays after the last close. *)
From S2P Require Import Prelude CInt CMonad CStr CStruct Kernel SimKernel PortableOs KmTest.

(** What a suite may do to the kernel: it sees no memory of the process; the
    blocks others own stay as they are, only the contents of the context it
    is given may change; its own blocks come and go, and may stay. *)
Definition spares (ctx : Z) (k k' : kernel) : Prop :=
  ubytes k' = ubytes k /\
  (forall p b, p <> ctx -> kmem k !! p = Some b -> kmem k' !! p = Some b) /\
  (forall b, kmem k !! ctx = Some b -> exists bs,
     length bs = length (b_data b) /\ kmem k' !! ctx = Some (mkBlock (b_kind b) bs)).
#[export] Instance spares_preorder ctx : PreOrder (spares ctx).
Proof.
  split.
  - intros k. split_and!; [done|done|]. intros [kd bs] Hb. by exists bs.
  - intros k1 k2 k3 (Hu1 & Ho1 & Hc1) (Hu2 & Ho2 & Hc2). split_and!; [congruence|eauto|].
    intros b Hb. destruct (Hc1 b Hb) as (bs & Hl & Hb2).
    destruct (Hc2 _ Hb2) as (bs' & Hl' & Hb3). exists bs'. split; [simpl in Hl'; lia|done].
Qed.

(** With a context to work with a suite ends, adds what it counted to the
    counters it is given, and spares what is not its own. *)
Definition alive (ctx : Z) (k : kernel) : Prop := kmem k !! ctx <> None.
Class SuitesCount (D : Type) `{Shw D} := {
  suite_result : suite -> Z -> world D unit -> (Z * Z) * world D unit;
  suite_law s ctx counts u : alive ctx (kern u) ->
    run_suite s ctx counts u =
      (Ret (add_counts counts (suite_result s ctx u).1), (suite_result s ctx u).2);
  suite_spares s ctx u : alive ctx (kern u) ->
    spares ctx (kern u) (kern (suite_result s ctx u).2);
}.
(** A suite that frees all it allocates. *)
Definition tidy `{SuitesCount D} (s : suite) : Prop :=
  forall ctx u, alive ctx (kern u) ->
    dom (kmem (kern (suite_result s ctx u).2)) ⊆ dom (kmem (kern u)).
Lemma spares_alive ctx p k k' : spares ctx k k' -> alive p k -> alive p k'.
Proof.
  unfold alive. intros (_ & Ho & Hc) Ha. destruct (kmem k !! p) as [b|] eqn:Hb; [|done].
  destruct (decide (p = ctx)) as [->|Hp]; [|by rewrite (Ho p b Hp Hb)].
  destruct (Hc b Hb) as (bs & _ & ->). done.
Qed.

Section Reference.
Context {D : Type} `{SC : SuitesCount D} (FSL_API_TEST_PKC : bool).

(** The suites one after the other: the sums of their counts. *)
Fixpoint outcome_of (l : list suite) (ctx : Z) (u : world D unit) : (Z * Z) * world D unit :=
  match l with
  | [] => ((0, 0), u)
  | s :: l =>
      let '(a, u1) := suite_result s ctx u in
      let '(b, u2) := outcome_of l ctx u1 in
      ((a.1 + b.1, a.2 + b.2), u2)
  end.
(** The suites a string stands for, up to its terminator. *)
Fixpoint expand (full : list suite) (l : list Z) : list suite :=
  match l with
  | [] => []
  | c :: l =>
      if c =? 0 then []
      else (if is_char "F" c then full else suites_of FSL_API_TEST_PKC c) ++ expand full l
  end.
Definition commands (l : list Z) : list suite := expand (expand [] full_suite) l.

Lemma outcome_app l1 l2 ctx u :
  let r1 := outcome_of l1 ctx u in
  let r2 := outcome_of l2 ctx r1.2 in
  outcome_of (l1 ++ l2) ctx u = ((r1.1.1 + r2.1.1, r1.1.2 + r2.1.2), r2.2).
Proof.
  revert u. induction l1 as [|s l1 IH]; intros u; simpl.
  - by destruct (outcome_of l2 ctx u) as [[? ?] ?].
  - destruct (suite_result s ctx u) as [a u1]. specialize (IH u1). simpl in IH.
    destruct (outcome_of l1 ctx u1) as [b u2]. simpl in *. rewrite IH. simpl. do 2 f_equal; lia.
Qed.
Lemma outcome_spares l ctx u :
  alive ctx (kern u) -> spares ctx (kern u) (kern (outcome_of l ctx u).2).
Proof.
  revert u. induction l as [|s l IH]; intros u Ha; simpl; [done|].
  pose proof (suite_spares s ctx u Ha) as Hs. destruct (suite_result s ctx u) as [a u1].
  specialize (IH u1 (spares_alive _ _ _ _ Hs Ha)). destruct (outcome_of l ctx u1) as [b u2].
  simpl in *. by etrans.
Qed.
Lemma outcome_tidy l ctx u :
  Forall tidy l -> alive ctx (kern u) -> dom (kmem (kern (outcome_of l ctx u).2)) ⊆ dom (kmem (kern u)).
Proof.
  intros Hl. revert u. induction Hl as [|s l Hs Hl IH]; intros u Ha; simpl; [done|].
  pose proof (suite_spares s ctx u Ha) as Hsp. specialize (Hs ctx u Ha).
  destruct (suite_result s ctx u) as [a u1].
  specialize (IH u1 (spares_alive _ _ _ _ Hsp Ha)). destruct (outcome_of l ctx u1) as [b u2].
  simpl in *. by etrans.
Qed.
End Reference.

Definition in_range (c : Z * Z) : Prop := in_uint 32 c.1 /\ in_uint 32 c.2.
Lemma add_counts_range a b : in_range (add_counts a b).
Proof. split; apply wrap_range; lia. Qed.
Lemma add_counts_zero c : in_range c -> add_counts c (0, 0) = c.
Proof.
  intros [H1 H2]. unfold add_counts. simpl. rewrite !Z.add_0_r, !wrap_id by done. by destruct c.
Qed.
Lemma add_counts_assoc c a b : add_counts (add_counts c a) b = add_counts c (a.1 + b.1, a.2 + b.2).
Proof. unfold add_counts. simpl. by rewrite !wrap_add_l, !Z.add_assoc by lia. Qed.

Section Spec.
Context `{KL : KernelLaws} `{PL : PortableOsLaws} {D : Type} `{SC : SuitesCount D}.
Context `{!ShwLaws D} (FSL_API_TEST_PKC : bool).
Abbreviation W := (world D globals).
Implicit Types (w : W) (E : Z -> W -> Prop).

(** What a computation that runs the suites [l] does. *)
Definition runs (l : list suite) (ctx : Z) (counts : Z * Z) w (c : Z * Z) w' : Prop :=
  c = add_counts counts (outcome_of l ctx (strip w)).1 /\
  strip w' = (outcome_of l ctx (strip w)).2 /\ glob w' = glob w.

Lemma runs_spares l ctx counts w c w' :
  alive ctx (kern w) -> runs l ctx counts w c w' -> spares ctx (kern w) (kern w').
Proof.
  intros Ha (_ & Hu & _). change (kern w') with (kern (strip w')). rewrite Hu.
  by apply (outcome_spares l ctx (strip w)).
Qed.
Lemma runs_nil ctx counts w : in_range counts -> runs [] ctx counts w counts w.
Proof. intros Hc. unfold runs. simpl. by rewrite add_counts_zero. Qed.
Lemma runs_app l1 l2 ctx counts w c1 w1 c2 w2 :
  runs l1 ctx counts w c1 w1 -> runs l2 ctx c1 w1 c2 w2 -> runs (l1 ++ l2) ctx counts w c2 w2.
Proof.
  intros (-> & Hu1 & Hg1) (-> & Hu2 & Hg2).
  unfold runs. rewrite outcome_app. cbn [fst snd].
  rewrite <- Hu1, add_counts_assoc, Hu2, Hg2. done.
Qed.

Lemma run_suites_wp l ctx counts E w :
  in_range counts -> alive ctx (kern w) -> wp (run_suites l ctx counts) (runs l ctx counts w) E w.
Proof.
  revert counts w. induction l as [|s l IH]; intros counts w Hc Ha; simpl.
  { by apply wp_ret, runs_nil. }
  pose proof (suite_law s ctx counts (strip w) Ha) as Hs.
  pose proof (suite_spares s ctx (strip w) Ha) as Hsp.
  apply wp_bind. unfold wpu at 1, call_suite. rewrite Hs. cbn [fst snd].
  eapply wp_mono; [apply IH; [apply add_counts_range|by eapply spares_alive]|]. intros c w' Hr.
  eapply (runs_app [s]); [|exact Hr]. unfold runs. simpl.
  destruct (suite_result s ctx (strip w)) as [[a b] [k d [] lg]]. simpl. by rewrite !Z.add_0_r.
Qed.

(** The loop over a string that is in memory, or in the program. *)
Lemma run_loop_wp full fl ctx (data l : list Z) i fuel fetch counts E w :
  (forall w' j c, spares ctx (kern w) (kern w') -> data !! j = Some c -> fetch (Z.of_nat j) w' = (Ret c, w')) ->
  (chr "F" ∈ l -> forall cs w', in_range cs -> alive ctx (kern w') ->
     wp (full cs) (runs fl ctx cs w') E w') ->
  drop i data = l ++ [0] -> (length l < fuel)%nat -> in_range counts -> alive ctx (kern w) ->
  wp (run_loop FSL_API_TEST_PKC full ctx fuel (Z.of_nat i) fetch counts)
     (runs (expand FSL_API_TEST_PKC fl l) ctx counts w) E w.
Proof.
  intros Hf. revert i fuel counts w Hf.
  induction l as [|c l IH]; intros i fuel counts w Hf Hfull Hd Hfuel Hc Ha;
    destruct fuel as [|fuel]; [simpl in Hfuel; lia| |simpl in Hfuel; lia|]; cbn [run_loop].
  - apply wp_bind. unfold wpu at 1. rewrite (Hf w i 0); [|done|by rewrite <- (Nat.add_0_r i), <- lookup_drop, Hd].
    by apply wp_ret, runs_nil.
  - apply wp_bind. unfold wpu at 1. rewrite (Hf w i c); [|done|by rewrite <- (Nat.add_0_r i), <- lookup_drop, Hd].
    cbn [expand]. destruct (c =? 0); [by apply wp_ret, runs_nil|].
    apply wp_bind. set (first := if is_char "F" c then fl else _).
    assert (wp (if is_char "F" c then full counts
                else run_suites (suites_of FSL_API_TEST_PKC c) ctx counts) (runs first ctx counts w) E w) as Hone.
    { unfold first. destruct (is_char "F" c) eqn:HF; [|by apply run_suites_wp].
      apply Hfull; [|done|done]. apply Z.eqb_eq in HF as ->. apply list_elem_of_here. }
    eapply wp_mono; [exact Hone|]. intros c1 w1 Hr. pose proof Hr as (Hc1 & _).
    pose proof (runs_spares _ _ _ _ _ _ Ha Hr) as Hs.
    replace (Z.of_nat i + 1) with (Z.of_nat (S i)) by lia.
    eapply wp_mono; [apply IH|].
    + intros w' j x Hw'. apply Hf. by etrans.
    + intros HF. apply Hfull. by apply list_elem_of_further.
    + replace (S i) with (i + 1)%nat by lia. by rewrite <- drop_drop, Hd.
    + simpl in Hfuel. lia.
    + rewrite Hc1. apply add_counts_range.
    + by eapply spares_alive.
    + intros c2 w2 Hr2. by eapply runs_app.
Qed.

Lemma run_full_wp ctx counts E w :
  in_range counts -> alive ctx (kern w) ->
  wp (run_full FSL_API_TEST_PKC ctx counts)
    (runs (expand FSL_API_TEST_PKC [] full_suite) ctx counts w) E w.
Proof.
  intros Hc Ha. unfold run_full. apply wp_bind.
  eapply wp_mono; [apply (run_loop_wp _ [] ctx (full_suite ++ [0]) full_suite 0)|].
  - intros w' j c _ Hj. unfold fetch_literal. by rewrite Nat2Z.id, Hj.
  - intros HF. exfalso. revert HF. by apply (bool_decide_unpack _).
  - by rewrite drop_0.
  - lia.
  - split; by unfold in_uint.
  - done.
  - intros c w' (-> & Hr). apply wp_ret. split; [|done].
    unfold add_counts. simpl. rewrite !(Z.add_comm _ (u32 _)), !wrap_add_l by lia.
    by rewrite !(Z.add_comm (counts.1)), !(Z.add_comm (counts.2)).
Qed.

(** [run_tests] on a string in kernel memory. *)
Lemma run_tests_wp p ctx b l E w :
  kmem (kern w) !! p = Some b -> b_data b = l ++ [0] -> p <> ctx -> alive ctx (kern w) ->
  wp (run_tests FSL_API_TEST_PKC (S (length l)) ctx p (0, 0))
    (runs (commands FSL_API_TEST_PKC l) ctx (0, 0) w) E w.
Proof.
  intros Hm Hb Hp Ha. unfold run_tests. apply wp_bind.
  eapply wp_mono; [apply (run_loop_wp _ (expand FSL_API_TEST_PKC [] full_suite) ctx (l ++ [0]) l 0)|].
  - intros w' j c (_ & Ho & _) Hj. unfold fetch_kernel, kread, mbind, M_bind. cbn [Z.eqb].
    rewrite (Ho p b Hp Hm), Hb.
    apply lookup_lt_Some in Hj as Hlt.
    assert (0 <= Z.of_nat j /\ Z.of_nat j + 1 <= zlen (l ++ [0])) as [H0j Hj1] by lia.
    apply Z.leb_le in H0j as ->. apply Z.leb_le in Hj1 as ->. simpl.
    rewrite Nat2Z.id. unfold peek. rewrite (drop_S _ c j Hj).
    change (of_le (take (Z.to_nat 1) (c :: drop (S j) (l ++ [0])))) with (c + 256 * 0).
    by rewrite Z.mul_0_r, Z.add_0_r.
  - intros _ cs w' Hcs Hw'. by apply run_full_wp.
  - by rewrite drop_0.
  - lia.
  - split; by unfold in_uint.
  - done.
  - intros c w' (-> & Hr). apply wp_ret. split; [|done].
    unfold add_counts. cbn [fst snd]. by rewrite !Z.add_0_l, !wrap_wrap by lia.
Qed.

(** ** Writing *)
Definition total (out : Z * Z) : print :=
  Printf "Total km_test run: %d passed, %d failed\n" [AInt (u32 out.1); AInt (u32 out.2)].
(** What the suites find: the string in a block of its own. *)
Definition started (p : Z) (bs : list Z) (w : W) : world D unit :=
  mkWorld (asked (set_kmem <[p := mkBlock Kmalloc (bs ++ [0])]> (kern w))) (dev w) tt
    (Printf "km_test: running tests %s\n" [AInt p] :: klog w).
(** A write that runs suites leaves what they left, without the string. *)
Definition wrote (ctx buffer count r : Z) w w' : Prop :=
  let bs := uread (ubytes (kern w)) buffer (Z.to_nat count) in
  r = count /\ exists p, kmem (kern w) !! p = None /\
    let out := outcome_of (commands FSL_API_TEST_PKC bs) ctx (started p bs w) in
    strip w' = mkWorld (set_kmem (delete p) (kern out.2)) (dev out.2) tt (total out.1 :: klog out.2).
(** A write that runs none. *)
Definition ran_nothing w w' : Prop := dev w' = dev w /\ kmem (kern w') = kmem (kern w).

(** The block of the string makes no difference to the others. *)
Lemma spares_delete ctx p b k k' :
  kmem k !! p = None -> p <> ctx ->
  spares ctx (asked (set_kmem <[p := b]> k)) k' -> spares ctx k (set_kmem (delete p) k').
Proof.
  intros Hp Hc (Hu & Ho & Hcx). simpl in *. split_and!; [done| |].
  - intros q b' Hq Hb. simpl. assert (q <> p) by congruence. rewrite lookup_delete_ne by done.
    apply Ho; [done|]. by rewrite lookup_insert_ne.
  - intros b' Hb. simpl. rewrite lookup_delete_ne by done. apply Hcx. by rewrite lookup_insert_ne.
Qed.
Lemma wrote_spares ctx buffer count r w w' :
  alive ctx (kern w) -> wrote ctx buffer count r w w' -> spares ctx (kern w) (kern w').
Proof.
  intros Ha (_ & p & Hp & Hw'). cbv zeta in Hw'. change (kern w') with (kern (strip w')). rewrite Hw'. cbn [kern].
  assert (p <> ctx) by (intros ->; by apply Ha).
  eapply spares_delete; [done|done|]. apply (outcome_spares _ _ (started p _ w)). unfold alive. simpl.
  by rewrite lookup_insert_ne.
Qed.
Lemma wrote_tidy ctx buffer count r w w' :
  alive ctx (kern w) -> wrote ctx buffer count r w w' ->
  Forall tidy (commands FSL_API_TEST_PKC (uread (ubytes (kern w)) buffer (Z.to_nat count))) ->
  dom (kmem (kern w')) = dom (kmem (kern w)).
Proof.
  intros Ha Hwr Hl. pose proof (wrote_spares _ _ _ _ _ _ Ha Hwr) as Hs.
  apply set_eq. intros q. split.
  - destruct Hwr as (_ & p & Hp & Hw'). cbv zeta in Hw'. change (kern w') with (kern (strip w')). rewrite Hw'.
    assert (p <> ctx) by (intros ->; by apply Ha). cbn [kern kmem set_kmem]. rewrite dom_delete_L.
    set (u := started p _ w). intros [Hin Hne]%elem_of_difference.
    assert (alive ctx (kern u)) as Hu by (unfold alive; simpl; by rewrite lookup_insert_ne).
    pose proof (outcome_tidy _ ctx u Hl Hu q Hin) as Ht. simpl in Ht. rewrite dom_insert_L in Ht.
    apply elem_of_union in Ht as [Ht|Ht]; [by destruct Hne|done].
  - rewrite !elem_of_dom, <- !not_eq_None_Some. by apply (spares_alive ctx q).
Qed.

(** Storing the user's bytes in front of the terminator; giving the string back. *)
Lemma wp_km_store p l0 b m (Q : unit -> W -> Prop) E w :
  kmem (kern w) = <[p := mkBlock Kmalloc (l0 ++ [0])]> m -> length b = length l0 ->
  (forall w', kmem (kern w') = <[p := mkBlock Kmalloc (b ++ [0])]> m ->
     w' = set_kern (set_kmem (fun _ => kmem (kern w'))) w -> Q tt w') ->
  wp (kwrite p 0 b) Q E w.
Proof.
  intros Hm Hb HQ. eapply wp_kwrite;
    [by rewrite Hm, lookup_insert_eq|done|cbn [b_data]; rewrite length_app; simpl; lia|].
  cbn [b_data b_kind]. apply HQ; [|done]. cbn [kern set_kern set_kmem kmem].
  rewrite Hm, insert_insert_eq. do 2 f_equal. unfold poke. change (Z.to_nat 0) with 0%nat.
  rewrite take_0, Nat.add_0_l, Hb, drop_app_length. done.
Qed.
Lemma wp_give_back p b m (Q : unit -> W -> Prop) E w :
  kmem (kern w) = <[p := mkBlock Kmalloc b]> m -> m !! p = None -> ZERO_SIZE_PTR < p ->
  Q tt (set_kern (set_kmem (fun _ => m)) w) -> wp (os_free_memory p) Q E w.
Proof.
  intros Hm Hf Hp HQ. eapply wp_kfree; [done|by rewrite Hm, lookup_insert_eq|].
  assert (set_kern (set_kmem (delete p)) w = set_kern (set_kmem (fun _ => m)) w) as ->; [|done].
  unfold set_kern, set_kmem. by rewrite Hm, delete_insert_eq, delete_id.
Qed.

Lemma km_write_cases ctx file buffer count E w :
  0 <= count < 2 ^ 32 - 1 -> default 0 (private (glob w) !! file) = ctx -> alive ctx (kern w) ->
  wp (km_test_write FSL_API_TEST_PKC file buffer count) (fun r w' =>
    ubytes (kern w') = ubytes (kern w) /\ glob w' = glob w /\
    ((count = 0 /\ r = 0 /\ ran_nothing w w') \/
     (r = OS_ERROR_NO_MEMORY_S /\ ran_nothing w w' /\ o_kmalloc (kmem (kern w)) (calls (kern w)) (1 + count) = None) \/
     (r = OS_ERROR_BAD_ADDRESS_S /\ ran_nothing w w' /\ (from_user (ubytes (kern w)) buffer count).2 <> 0) \/
     (0 < count /\ (from_user (ubytes (kern w)) buffer count).2 = 0 /\ wrote ctx buffer count r w w'))) E w.
Proof.
  intros Hc Hctx Ha. unfold km_test_write. apply wp_bind, wp_gets. rewrite Hctx.
  destruct (Z.eqb_spec count 0) as [->|Hn0].
  { apply wp_ret. split_and!; try done. by left. }
  rewrite (wrap_id 32 (1 + count)) by (unfold in_uint; lia).
  apply wp_bind, wp_kmalloc; [lia|lia| |].
  { intros _ Hno. apply wp_ret. split_and!; try done. by right; left. }
  intros p bs _ _ Hp Hfree Hbs _. set (k1 := set_kern _ w).
  destruct (Z.eqb_spec p 0) as [|_]; [unfold ZERO_SIZE_PTR in Hp; lia|].
  set (n := Z.to_nat count). assert (length bs = S n) as Hlen by lia.
  apply wp_bind. eapply wp_kwrite; [simpl; by rewrite lookup_insert_eq|lia|simpl; lia|].
  cbn [b_data b_kind]. set (k2 := set_kern _ k1).
  assert (kmem (kern k2) = <[p := mkBlock Kmalloc (take n bs ++ [0])]> (kmem (kern w))) as Hk2.
  { simpl. rewrite insert_insert_eq. do 2 f_equal. unfold poke. rewrite (drop_ge bs) by (simpl; lia).
    by rewrite app_nil_r. }
  apply wp_bind, wp_os_copy_from_user; [lia| |]; intros Hun; change (ubytes (kern k2)) with (ubytes (kern w)) in *.
  - pose proof (length_from_user (ubytes (kern w)) buffer count) as Hlb.
    rewrite (from_user_done (ubytes (kern w)) buffer count ltac:(lia) Hun) in Hlb. fold n in Hlb |- *.
    set (str := uread (ubytes (kern w)) buffer n) in *.
    apply wp_bind. eapply wp_km_store; [exact Hk2|rewrite length_take; lia|]. intros k3 Hk3 E3.
    rewrite ok_law, Z.eqb_refl. apply wp_bind, wp_bind, wp_printk, wp_bind.
    match goal with |- context [emit ?x k3] => set (k4 := emit x k3) end.
    assert (strip k4 = started p str w) as Hst.
    { unfold strip, started, k4. cbn [emit world_output kern dev klog]. rewrite E3, Hk3. done. }
    assert (alive ctx (kern k4) /\ p <> ctx) as [Ha4 Hpc].
    { assert (p <> ctx) as Hpc by (intros ->; by apply Ha). split; [|done]. unfold alive.
      change (kern k4) with (kern k3). by rewrite Hk3, lookup_insert_ne. }
    replace (S n) with (S (length str)) by by rewrite Hlb.
    eapply wp_mono; [eapply run_tests_wp; [change (kern k4) with (kern k3); by rewrite Hk3, lookup_insert_eq|done..]|].
    intros [a f] w4 Hr. pose proof (runs_spares _ _ _ _ _ _ Ha4 Hr) as (Hu4 & Ho4 & _).
    destruct Hr as (Hcnt & Hs4 & Hg4). rewrite Hst in Hcnt, Hs4.
    apply wp_bind, wp_printk, wp_ret, wp_bind. eapply wp_kfree; [lia| |].
    { cbn [emit world_output kern]. apply Ho4; [done|]. change (kern k4) with (kern k3). by rewrite Hk3, lookup_insert_eq. }
    apply wp_ret. split; [|split].
    + cbn [set_kern emit world_output kern set_kmem ubytes]. rewrite Hu4. change (kern k4) with (kern k3). by rewrite E3.
    + cbn [set_kern emit world_output glob]. rewrite Hg4. change (glob k4) with (glob k3). by rewrite E3.
    + right. right. right. split; [lia|]. split; [done|]. split; [done|]. exists p. split; [done|].
      cbv zeta. fold n str. rewrite <- Hs4. injection Hcnt as -> ->. done.
  - apply wp_bind. eapply wp_km_store; [exact Hk2|rewrite length_from_user, length_take; lia|].
    intros k3 Hk3 E3. rewrite ok_law.
    destruct (Z.eqb_spec OS_ERROR_BAD_ADDRESS_S OS_ERROR_OK_S) as [He|_]; [by destruct (bad_address_law He)|].
    apply wp_bind, wp_ret, wp_bind. eapply wp_give_back; [exact Hk3|done|lia|].
    apply wp_ret. rewrite E3. split_and!; try done. right. right. by left.
Qed.

(** With what the suites spare. *)
Lemma km_write_wp ctx file buffer count E w :
  0 <= count < 2 ^ 32 - 1 -> private (glob w) !! file = Some ctx -> alive ctx (kern w) ->
  wp (km_test_write FSL_API_TEST_PKC file buffer count) (fun r w' =>
    ubytes (kern w') = ubytes (kern w) /\ glob w' = glob w /\ spares ctx (kern w) (kern w') /\
    ((count = 0 /\ r = 0 /\ ran_nothing w w') \/
     (r = OS_ERROR_NO_MEMORY_S /\ ran_nothing w w' /\ o_kmalloc (kmem (kern w)) (calls (kern w)) (1 + count) = None) \/
     (r = OS_ERROR_BAD_ADDRESS_S /\ ran_nothing w w' /\ (from_user (ubytes (kern w)) buffer count).2 <> 0) \/
     (0 < count /\ (from_user (ubytes (kern w)) buffer count).2 = 0 /\ wrote ctx buffer count r w w' /\
      (Forall tidy (commands FSL_API_TEST_PKC (uread (ubytes (kern w)) buffer (Z.to_nat count))) ->
       dom (kmem (kern w')) = dom (kmem (kern w)))))) E w.
Proof.
  intros Hc Hf Ha. eapply wp_mono; [apply (km_write_cases ctx); [done|by rewrite Hf|done]|].
  intros r w' (Hu & Hg & Hr). split; [done|]. split; [done|].
  assert (ran_nothing w w' -> spares ctx (kern w) (kern w')) as Hn.
  { intros [_ Hm]. unfold spares. rewrite Hu, Hm. split_and!; [done..|]. intros [kd bs] Hb. by exists bs. }
  destruct Hr as [(? & ? & ?)|[(? & ? & ?)|[(? & ? & ?)|(? & ? & Hw)]]].
  - by split; [apply Hn|left].
  - by split; [apply Hn|right; left].
  - by split; [apply Hn|right; right; left].
  - split; [by eapply wrote_spares|]. right. right. right. split_and!; try done. by eapply wrote_tidy.
Qed.

(** C14: A write of fewer than 2^32 - 1 bytes to an open file of the kernel-mode
    test module takes its bytes as commands: it runs exactly the suites they
    stand for, in order, F being the full suite, and reports the sums of
    their counts modulo 2^32.  The suites are programs of their own; each is
    taken to end and to leave alone the memory of others, the contents of the
    context excepted, and the run leaves exactly what they leave.  Without
    memory, or with a buffer that cannot be read, it runs nothing and says
    so.  In every case it stays inside its own buffer, ends, and gives the
    buffer back: no block from before is lost, and none is added unless a
    suite keeps one. *)
Theorem km_write_runs_commands ctx file buffer count w :
  0 <= count < 2 ^ 32 - 1 -> private (glob w) !! file = Some ctx -> alive ctx (kern w) ->
  wp (km_test_write FSL_API_TEST_PKC file buffer count) (fun r w' =>
    ubytes (kern w') = ubytes (kern w) /\ glob w' = glob w /\ spares ctx (kern w) (kern w') /\
    ((count = 0 /\ r = 0 /\ ran_nothing w w') \/
     (r = OS_ERROR_NO_MEMORY_S /\ ran_nothing w w' /\ o_kmalloc (kmem (kern w)) (calls (kern w)) (1 + count) = None) \/
     (r = OS_ERROR_BAD_ADDRESS_S /\ ran_nothing w w' /\ (from_user (ubytes (kern w)) buffer count).2 <> 0) \/
     (0 < count /\ (from_user (ubytes (kern w)) buffer count).2 = 0 /\ wrote ctx buffer count r w w' /\
      (Forall tidy (commands FSL_API_TEST_PKC (uread (ubytes (kern w)) buffer (Z.to_nat count))) ->
       dom (kmem (kern w')) = dom (kmem (kern w)))))) (fun _ _ => False) w.
Proof. apply km_write_wp. Qed.

(** The largest count wraps: nothing is allocated, and the terminator is
    stored far outside. *)
Lemma write_max_count file buffer w :
  kmem (kern w) !! ZERO_SIZE_PTR = None ->
  (km_test_write FSL_API_TEST_PKC file buffer (2 ^ 32 - 1) w).1 = Undef.
Proof.
  intros Hz. unfold km_test_write. eapply undef_bind_eq; [done|].
  change (2 ^ 32 - 1 =? 0) with false. change (u32 (1 + (2 ^ 32 - 1))) with 0. cbn iota.
  eapply undef_bind_eq; [done|]. change (ZERO_SIZE_PTR =? 0) with false. cbn iota.
  apply undef_bind. unfold kwrite. cbn [length Nat.eqb]. by rewrite Hz.
Qed.

(** ** Sessions *)
Fixpoint writes (file : Z) (l : list (Z * Z)) : M W unit :=
  match l with
  | [] => skip
  | (buffer, count) :: l => _ ← km_test_write FSL_API_TEST_PKC file buffer count; writes file l
  end.
(** Every suite the writes call for frees what it allocates. *)
Definition all_tidy (k : kernel) (l : list (Z * Z)) : Prop :=
  Forall (fun x => Forall tidy (commands FSL_API_TEST_PKC (uread (ubytes k) x.1 (Z.to_nat x.2)))) l.
Lemma writes_wp ctx file l E w :
  Forall (fun x => 0 <= snd x < 2 ^ 32 - 1) l ->
  private (glob w) !! file = Some ctx -> alive ctx (kern w) ->
  wp (writes file l) (fun _ w' => glob w' = glob w /\ spares ctx (kern w) (kern w') /\
    (all_tidy (kern w) l -> dom (kmem (kern w')) = dom (kmem (kern w)))) E w.
Proof.
  intros Hl. revert w. induction Hl as [|[b n] l Hn Hl IH]; intros w Hp Ha; [done|]. cbn [writes].
  apply wp_bind. eapply wp_mono; [by apply (km_write_wp ctx file b n _ w Hn)|].
  intros r w1 (Hu & Hg & Hs & Hr).
  eapply wp_mono; [apply IH; [by rewrite Hg|by eapply spares_alive]|].
  intros _ w2 (Hg2 & Hs2 & Ht2). split; [congruence|]. split; [by etrans|].
  unfold all_tidy in *. rewrite Hu in Ht2. intros [H1t H2t]%Forall_cons. rewrite Ht2 by done.
  by destruct Hr as [(_ & _ & _ & ->)|[(_ & (_ & ->) & _)|[(_ & (_ & ->) & _)|(_ & _ & _ & Ht)]]]; [..|apply Ht].
Qed.

Lemma km_open_wp file E w :
  wp (km_test_open file) (fun r w' => ubytes (kern w') = ubytes (kern w) /\
    ((r = OS_ERROR_OK_S /\ exists ctx bs, ZERO_SIZE_PTR < ctx /\ kmem (kern w) !! ctx = None /\
       kmem (kern w') = <[ctx := mkBlock Kmalloc bs]> (kmem (kern w)) /\
       private (glob w') = <[file := ctx]> (private (glob w))) \/
    (r <> OS_ERROR_OK_S /\ kmem (kern w') = kmem (kern w) /\
       private (glob w') = <[file := 0]> (private (glob w))))) E w.
Proof.
  unfold km_test_open. pose proof uco_pos as Hpos. apply wp_bind, wp_modify, wp_bind.
  apply wp_kmalloc; [lia|lia| |].
  { intros _ _. apply wp_ret. split; [done|]. right. split; [apply no_memory_law|done]. }
  intros p bs _ _ Hp Hfree Hbs _. destruct (Z.eqb_spec p 0) as [|_]; [unfold ZERO_SIZE_PTR in Hp; lia|].
  assert (peek (Z.to_nat 0) (Z.to_nat sizeof_uco) bs = bs) as Hpeek.
  { unfold peek. change (Z.to_nat 0) with 0%nat. rewrite drop_0. apply take_ge. lia. }
  apply wp_bind. eapply wp_kread; [simpl; by rewrite lookup_insert_eq|done|lia|simpl; lia|].
  cbn [b_data]. rewrite Hpeek. set (b := fsl_shw_uco_set_flags _ _).
  assert (zlen b = sizeof_uco) as Hb by (unfold b; by rewrite uco_flags_law, uco_init_law).
  apply wp_bind. eapply wp_kwrite; [simpl; by rewrite lookup_insert_eq|done|simpl; lia|].
  apply wp_bind, wp_drv. destruct (fsl_shw_register_user p _) as [code d]. cbn [fst snd].
  destruct (code =? FSL_RETURN_OK_S).
  - apply wp_bind, wp_modify, wp_ret. split; [done|]. left. split; [done|]. eexists p, _. simpl.
    split; [lia|]. split; [done|]. split; by rewrite insert_insert_eq.
  - apply wp_bind. eapply wp_kfree; [lia|simpl; by rewrite lookup_insert_eq|]. apply wp_ret. split; [done|]. right. simpl.
    rewrite insert_insert_eq, delete_insert_eq, delete_id by done. by split; [apply fail_law|].
Qed.

(** Without the context, what is left is what was there, and what suites kept. *)
Lemma session_ends ctx b k k1 k2 (T : Prop) :
  kmem k !! ctx = None -> kmem k1 = <[ctx := b]> (kmem k) -> spares ctx k1 k2 ->
  (T -> dom (kmem k2) = dom (kmem k1)) ->
  kmem k ⊆ delete ctx (kmem k2) /\ (T -> delete ctx (kmem k2) = kmem k).
Proof.
  intros Hfree Hk1 (_ & Ho & _) Ht.
  assert (forall q x, q <> ctx -> kmem k !! q = Some x -> kmem k2 !! q = Some x) as Hold.
  { intros q x Hq Hx. apply Ho; [done|]. by rewrite Hk1, lookup_insert_ne. }
  split.
  - apply map_subseteq_spec. intros q x Hx. assert (q <> ctx) by congruence.
    rewrite lookup_delete_ne by done. by apply Hold.
  - intros HT. apply map_eq. intros q. destruct (decide (q = ctx)) as [->|Hq].
    { by rewrite lookup_delete_eq. }
    rewrite lookup_delete_ne by done. destruct (kmem k !! q) as [x|] eqn:Hx; [by apply Hold|].
    apply not_elem_of_dom. rewrite (Ht HT), Hk1, dom_insert_L, not_elem_of_union, not_elem_of_singleton.
    split; [done|]. by apply not_elem_of_dom.
Qed.

(** C24: A file of the kernel-mode test module gives back all the memory the
    module takes for it: whatever a process writes between open and close, in
    writes of fewer than 2^32 - 1 bytes, and whether or not open succeeds,
    nothing runs into undefined behaviour, every block of kernel memory from
    before is untouched, and what is added is what test suites kept; if the
    suites the commands stand for free all they allocate, kernel memory is as
    before.  The suites themselves are taken to end and to spare the memory
    of others (the contents of the context excepted), not to free their own:
    those of user_wrap.c and wrap.c do not. *)
Theorem km_session_balanced file l w :
  Forall (fun x => 0 <= snd x < 2 ^ 32 - 1) l ->
  wp (r ← km_test_open file;
      if r =? OS_ERROR_OK_S then writes file l;; km_test_close file else mret r)
    (fun _ w' => kmem (kern w) ⊆ kmem (kern w') /\
      (all_tidy (kern w) l -> kmem (kern w') = kmem (kern w))) (fun _ _ => False) w.
Proof.
  intros Hl. apply wp_bind. eapply wp_mono; [apply km_open_wp|]. cbv beta.
  intros r w1 (Hu & [(-> & ctx & bs & Hctx & Hfree & Hm & Hp)|(Hr & Hm & _)]).
  2: { rewrite (proj2 (Z.eqb_neq _ _) Hr). apply wp_ret. by rewrite Hm. }
  rewrite Z.eqb_refl. assert (kmem (kern w1) !! ctx = Some (mkBlock Kmalloc bs)) as Hc1
    by by rewrite Hm, lookup_insert_eq.
  assert (private (glob w1) !! file = Some ctx) as Hp1 by by rewrite Hp, lookup_insert_eq.
  apply wp_bind. eapply wp_mono; [apply (writes_wp ctx); [done..|unfold alive; by rewrite Hc1]|].
  intros _ w2 (Hg2 & Hs2 & Ht2). unfold km_test_close. apply wp_bind, wp_gets. rewrite Hg2, Hp1. simpl default.
  destruct (Z.eqb_spec ctx 0) as [|_]; [unfold ZERO_SIZE_PTR in Hctx; lia|].
  pose proof Hs2 as (_ & _ & Hcx). destruct (Hcx _ Hc1) as (bs' & _ & Hc2).
  apply wp_bind, wp_bind, wp_drv. eapply wp_kfree; [done|exact Hc2|].
  apply wp_ret. cbn [set_kern set_dev kern set_kmem kmem]. unfold all_tidy in *. rewrite Hu in Ht2.
  by apply (session_ends ctx (mkBlock Kmalloc bs) (kern w) (kern w1) (kern w2)).
Qed.

(** Loading takes every error but one for success. *)
Lemma init_misses_errors w :
  let code := (o_complete (chrdevs (kern w)) (calls (kern w)) (Major (glob w))).1 in
  code <> OS_ERROR_OK_S -> code <> OS_ERROR_FAIL_S ->
  wp km_test_init (fun r w' => r = 0 /\ chrdevs (kern w') = chrdevs (kern w) /\
    live (km_reg (glob w')) = live (km_reg (glob w)) /\ Major (glob w') = code) (fun _ _ => False) w.
Proof.
  intros code Hok Hfail. unfold km_test_init. do 4 apply wp_bind, wp_modify. apply wp_bind, wp_gets, wp_bind.
  unfold wpu, os_driver_complete_registration. cbn [kern set_glob glob Major set_reg km_has_reg].
  unfold code in *. clear code. destruct (o_complete _ _ _) as [c m]. cbn [fst] in *.
  rewrite (proj2 (Z.eqb_neq _ _) Hok). cbn beta iota. by rewrite (proj2 (Z.eqb_neq _ _) Hfail).
Qed.
End Spec.

(** The full suite is everything but the public key tests. *)
Example full_command (pkc : bool) :
  commands pkc [chr "F"; 10; chr "p"] =
  [show_capabilities; run_gen_encrypt; run_result; run_symmetric; run_hash; run_callback; run_hmac1;
   run_hmac2; run_random; run_wrap; run_user_wrap; run_smalloc; run_dryice] ++
  if pkc then [run_pkha] else [].
Proof. by destruct pkc. Qed.

(** ** The theorems at work: every suite passes once *)
Section Witnesses.
#[local] Instance toy_kernel : Kernel := sim sim_ok.
#[local] Instance toy_os : PortableOs := sim_os (fun _ => false).
(** Every suite passes once and prints its number; only the wrap suites do
    not free the block they allocate. *)
Definition toy_keeps (s : suite) (k : kernel) : kernel :=
  match s with
  | run_wrap | run_user_wrap => set_kmem (fun m => <[fresh (dom m) := mkBlock Kmalloc [81]]> m) k
  | _ => k
  end.
Definition toy_suite (s : suite) (u : world (list suite) unit) : world (list suite) unit :=
  mkWorld (toy_keeps s (kern u)) (dev u ++ [s]) tt (Printf "passed" [] :: klog u).
#[local] Instance toy_shw : Shw (list suite) := {|
  FSL_RETURN_OK_S := 0; FSL_UCO_BLOCKING_MODE := 1; sizeof_uco := 4;
  fsl_shw_uco_init _ b := b; fsl_shw_uco_set_flags _ b := b;
  fsl_shw_register_user _ d := (0, d); fsl_shw_deregister_user _ d := (0, d);
  run_suite s _ counts u := (Ret (add_counts counts (1, 0)), toy_suite s u);
|}.
#[local] Instance toy_shw_laws : ShwLaws (list suite).
Proof. by split. Qed.
Lemma toy_spares s ctx k : alive ctx k -> spares ctx k (toy_keeps s k).
Proof.
  intros Ha. assert (spares ctx k (set_kmem (fun m => <[fresh (dom m) := mkBlock Kmalloc [81]]> m) k)) as Hs.
  { assert (forall p b, kmem k !! p = Some b -> fresh (dom (kmem k)) <> p) as Hne.
    { intros p b Hb He. apply (is_fresh (dom (kmem k))). rewrite He. by apply elem_of_dom_2 in Hb. }
    split_and!; [done| |]; simpl.
    - intros p b _ Hb. rewrite lookup_insert_ne; [done|by eapply Hne].
    - intros [kd bs] Hb. exists bs. split; [done|]. rewrite lookup_insert_ne; [done|by eapply Hne]. }
  by destruct s.
Qed.
#[local] Instance toy_counts : SuitesCount (list suite).
Proof.
  refine {| suite_result s _ u := ((1, 0), toy_suite s u) |}; [done|].
  intros s ctx u. apply toy_spares.
Defined.
Definition toy_world : world (list suite) globals :=
  mkWorld (set_kmem <[0x5000 := mkBlock Kmalloc [1; 2; 3; 4]]>
      (booted (user_at 0x1000 [chr "h"; 10; chr "m"]))) []
    (mkGlobals no_reg 0 {[1 := 0x5000]}) [].

Lemma km_write_runs_commands_witness :
  wp (km_test_write false 1 0x1000 3)
    (fun r w' => dom (kmem (kern w')) = {[ 0x5000 ]} /\ (r = 3 -> dev w' = [run_hash; run_hmac1; run_hmac2]))
    (fun _ _ => False) toy_world.
Proof.
  eapply wp_mono.
  - apply (@km_write_runs_commands (sim sim_ok) (sim_laws sim_ok) (sim_os (fun _ => false)) (sim_os_laws _)
      _ _ toy_counts toy_shw_laws false 0x5000 1 0x1000 3 toy_world); by vm_compute.
  - intros r w' (_ & _ & _ & Hr).
    destruct Hr as [(He & _)|[(-> & (_ & ->) & _)|[(-> & (_ & ->) & _)|(_ & _ & (-> & p & _ & Hw) & Ht)]]]; [done|done|done|].
    split.
    + rewrite Ht; [done|]. vm_compute commands. repeat constructor; by intros ctx u Ha.
    + intros _. change (dev w') with (dev (strip w')). by rewrite Hw.
Defined.

Lemma km_session_balanced_witness :
  wp (r ← km_test_open 2;
      if r =? OS_ERROR_OK_S then writes false 2 [(0x1000, 3); (0, 7)];; km_test_close 2 else mret r)
    (fun _ w' => kmem (kern toy_world) ⊆ kmem (kern w') /\
      (all_tidy false (kern toy_world) [(0x1000, 3); (0, 7)] -> kmem (kern w') = kmem (kern toy_world)))
    (fun _ _ => False) toy_world.
Proof.
  apply (@km_session_balanced (sim sim_ok) (sim_laws sim_ok) (sim_os (fun _ => false)) (sim_os_laws _)
    _ _ toy_counts toy_shw_laws false 2 [(0x1000, 3); (0, 7)] toy_world).
  repeat constructor; simpl; lia.
Defined.
End Witnesses.
