(* ===== verification/Dryice.v ===== *)
(** * The DryIce test module

    [src/module_test/dryice_test.c]: a module that runs one test of the
    DryIce driver when it is loaded, chosen by the parameters [test] and
    [nr], and reports the result as the result of loading.  The driver is the
    class [DryIce]; the callbacks it makes ([di_interrupts]) are delivered
    after each call and each sleep. *)
From S2P Require Import Prelude CInt CMonad CStruct Kernel PortableOs.

(** ** The driver *)
Inductive di_cb := setp_callback_fn | setr_callback_fn | sel_callback_fn | busy_callback_fn.

(** A key pointer: null, or an address with the bytes from there on. *)
Definition keyptr : Type := option (Z * list Z).

Class DryIce (D : Type) := {
  DI_SUCCESS : Z; DI_ERR_BUSY : Z; DI_ERR_STATE : Z; DI_ERR_INUSE : Z; DI_ERR_UNSET : Z;
  DI_ERR_WRITE : Z; DI_ERR_INVAL : Z; DI_ERR_FAIL : Z; DI_ERR_HLOCK : Z; DI_ERR_SLOCK : Z;
  DI_ERR_NOMEM : Z;
  DI_KEY_FK : Z; DI_KEY_FRK : Z;
  DI_FUNC_FLAG_ASYNC : Z; DI_FUNC_FLAG_READ_LOCK : Z; DI_FUNC_FLAG_WRITE_LOCK : Z;
  DI_FUNC_FLAG_HARD_LOCK : Z; DI_FUNC_FLAG_WORD_KEY : Z;
  MAX_KEY_LEN : Z; MAX_KEY_BYTES : Z;
  stack : Z;                     (* the address of the array of words key_store *)
  dryice_set_programmed_key : keyptr -> Z -> Z -> D -> Z * D;
  dryice_get_programmed_key : bool -> Z -> D -> (Z * list Z) * D;
  dryice_release_programmed_key : D -> Z * D;
  dryice_set_random_key : Z -> D -> Z * D;
  dryice_select_key : Z -> Z -> D -> Z * D;
  dryice_release_key_selection : D -> Z * D;
  dryice_check_key : bool -> D -> (Z * Z) * D;
  dryice_get_tamper_event : bool -> Z -> D -> (Z * (Z * Z)) * D;
  dryice_register_callback : option di_cb -> Z -> D -> Z * D;
  di_msleep : Z -> D -> D;
  di_interrupts : D -> list (di_cb * Z * Z) * D;
}.

Definition PASS : Z := 0.
Definition FAIL : Z := 1.
Definition INVAL : Z := 2.

(** ** State *)
Record globals := mkGlobals {
  nr : Z;
  test : string;
  rand16_state : Z;
  setp_callback_state : Z;
  setr_done : Z;
  sel_done : Z;
  busy_done : Z;
}.
Definition dryice_globals (test : string) (nr : Z) : globals := mkGlobals nr test 0x1234 0 0 0 0.
Definition set_rand16 (v : Z) (g : globals) : globals :=
  mkGlobals (nr g) (test g) v (setp_callback_state g) (setr_done g) (sel_done g) (busy_done g).
Definition set_setp_state (v : Z) (g : globals) : globals :=
  mkGlobals (nr g) (test g) (rand16_state g) v (setr_done g) (sel_done g) (busy_done g).
Definition set_setr_done (v : Z) (g : globals) : globals :=
  mkGlobals (nr g) (test g) (rand16_state g) (setp_callback_state g) v (sel_done g) (busy_done g).
Definition set_sel_done (v : Z) (g : globals) : globals :=
  mkGlobals (nr g) (test g) (rand16_state g) (setp_callback_state g) (setr_done g) v (busy_done g).
Definition set_busy_done (v : Z) (g : globals) : globals :=
  mkGlobals (nr g) (test g) (rand16_state g) (setp_callback_state g) (setr_done g) (sel_done g) v.

(** The step of the generator on its 16-bit state. *)
Definition rand16_next (s : Z) : Z :=
  let t1 := if truth (Z.land s (Z.shiftl 1 15)) then 0 else 1 in
  let t2 := if truth (Z.land s (Z.shiftl 1 13)) then 1 else 0 in
  let t3 := if truth (Z.land s (Z.shiftl 1 7)) then 0 else 1 in
  let t4 := if truth (Z.land s (Z.shiftl 1 2)) then 1 else 0 in
  u16 (Z.lor (Z.shiftl s 1) (Z.lxor (Z.lxor (Z.lxor t1 t2) t3) t4)).

Section Module.
Context {D : Type} `{DryIce D}.
Abbreviation W := (world D globals).

Definition getg {A} (f : globals -> A) : M W A := gets (fun w => f (glob w)).
Definition setg (f : globals -> globals) : M W unit := modify (fun w => set_glob (f (glob w)) w).

Definition di_err (err : Z) : string :=
  if err =? DI_SUCCESS then "DI_SUCCESS: operation was successful"
  else if err =? DI_ERR_BUSY then "DI_ERR_BUSY: device or resource busy"
  else if err =? DI_ERR_STATE then "DI_ERR_STATE: dryice is in incompatible state"
  else if err =? DI_ERR_INUSE then "DI_ERR_INUSE: resource is already in use"
  else if err =? DI_ERR_UNSET then "DI_ERR_UNSET: resource has not been initialized"
  else if err =? DI_ERR_WRITE then "DI_ERR_WRITE: error occurred during register write"
  else if err =? DI_ERR_INVAL then "DI_ERR_INVAL: invalid argument"
  else if err =? DI_ERR_FAIL then "DI_ERR_FAIL: operation failed"
  else if err =? DI_ERR_HLOCK then "DI_ERR_HLOCK: resource is hard locked"
  else if err =? DI_ERR_SLOCK then "DI_ERR_SLOCK: resource is soft locked"
  else if err =? DI_ERR_NOMEM then "DI_ERR_NOMEM: out of memory"
  else "unknown DI error code".

Definition pr_info (f : string) (a : list parg) : M W unit := printk (KERN_INFO ++ f) a.
Definition pr_test (func f : string) (a : list parg) : M W unit :=
  n ← getg nr; pr_info ("%s(%d): " ++ f) ([AStr func; AInt n] ++ a).
(** The macro that ends a test with [FAIL] unless [rc] is [expect]. *)
Definition UNLESS (func : string) (rc expect : Z) (msg : string) (a : list parg) (k : M W Z) : M W Z :=
  if negb (rc =? expect) then
    pr_test func (msg ++ " (%s)\n") (a ++ [AStr (di_err rc)]);;
    mret FAIL
  else k.

(** ** Callbacks *)
Definition setp_callback (rc cookie : Z) : M W unit :=
  when (negb (cookie =? 0xdead2bad)) (pr_info "UNEXPECTED COOKIE\n" []);;
  setg (set_setp_state (i32 rc)).
Definition setr_callback : M W unit := setg (fun g => set_setr_done (i32 (setr_done g + 1)) g).
Definition sel_callback : M W unit := setg (fun g => set_sel_done (i32 (sel_done g + 1)) g).
Definition busy_callback : M W unit := setg (fun g => set_busy_done (i32 (busy_done g + 1)) g).
Definition call_back (x : di_cb * Z * Z) : M W unit :=
  match x with
  | (setp_callback_fn, rc, cookie) => setp_callback rc cookie
  | (setr_callback_fn, _, _) => setr_callback
  | (sel_callback_fn, _, _) => sel_callback
  | (busy_callback_fn, _, _) => busy_callback
  end.
Fixpoint call_backs (l : list (di_cb * Z * Z)) : M W unit :=
  match l with [] => skip | x :: l => call_back x;; call_backs l end.
(** A call of the driver, and the callbacks that come in. *)
Definition api {A} (f : D -> A * D) : M W A :=
  r ← drv f; l ← drv di_interrupts; call_backs l;; mret r.
Definition msleep (ms : Z) : M W unit := api (fun d => (tt, di_msleep ms d)).

(** ** Keys *)
Definition rand16 : M W Z :=
  setg (fun g => set_rand16 (rand16_next (rand16_state g)) g);; getg rand16_state.
Definition rand16_seed (seed : Z) : M W unit := setg (set_rand16 (u16 seed)).

(** Stores into a local array. *)
Definition store (o : nat) (v a : list Z) : M W (list Z) :=
  if (o + length v <=? length a)%nat then mret (poke o v a) else undef.
(** [for (r = 0; r < n; r++) key[r] = rand16() & 0xff], [key] being [ks + o]. *)
Fixpoint fill_key (n o : nat) (ks : list Z) : M W (list Z) :=
  match n with
  | O => mret ks
  | S n => x ← rand16; ks ← store o [Z.land x 0xff] ks; fill_key n (S o) ks
  end.
Fixpoint print_bytes (n : nat) (key : list Z) : M W unit :=
  match n, key with
  | O, _ => skip
  | S n, b :: key => printk "%02x" [AInt b];; print_bytes n key
  | S _, [] => undef
  end.
Definition print_key (tag : string) (key : list Z) (bits : Z) : M W unit :=
  pr_info "%s" [AStr tag];;
  print_bytes (Z.to_nat (Z.quot (bits + 7) 8)) key;;
  printk "\n" [].

Definition key_at (o : nat) (ks : list Z) : keyptr := Some (stack + Z.of_nat o, drop o ks).
(** [dryice_get_programmed_key(key_ret, bits)] *)
Definition get_key (key_ret : list Z) (bits : Z) : M W (Z * list Z) :=
  '(rc, data) ← api (dryice_get_programmed_key true bits);
  key_ret ← store 0 data key_ret;
  mret (rc, key_ret).
Definition key_store0 : list Z := replicate 36 0.
Definition key_ret0 : list Z := replicate (Z.to_nat MAX_KEY_BYTES) 0.

(** The loop over the key lengths [bits], [bits + 8], ...; [n] turns. *)
Fixpoint key_rounds (n o : nat) (bits : Z) (ks kr : list Z) (k : list Z -> list Z -> M W Z) : M W Z :=
  match n with
  | O => k ks kr
  | S n =>
      ks ← fill_key (Z.to_nat MAX_KEY_BYTES) o ks;
      pr_info "  testing key_len = %d\n" [AInt bits];;
      rc ← api (dryice_set_programmed_key (key_at o ks) bits 0);
      UNLESS "test_setp" rc DI_SUCCESS "can't set programmed key len=%d" [AInt bits] (
      let kr := replicate (Z.to_nat MAX_KEY_BYTES) 0 in
      '(rc, kr) ← get_key kr bits;
      UNLESS "test_setp" rc DI_SUCCESS "can't get programmed key len=%d" [AInt bits] (
      rc ← api dryice_release_programmed_key;
      UNLESS "test_setp" rc DI_SUCCESS "can't release programmed key" [] (
      let len := Z.to_nat (Z.quot bits 8) in
      let rc := if bool_decide (take len (drop o ks) = take len kr) then DI_SUCCESS else DI_ERR_FAIL in
      when (rc =? DI_ERR_FAIL) (
        print_key "    set_key=" ks bits;;
        print_key "    get_key=" kr bits);;
      UNLESS "test_setp" rc DI_SUCCESS "key mismatch for len=%d" [AInt bits]
        (key_rounds n o (bits + 8) ks kr k))))
  end.
End Module.
