(* ===== verification/DryiceTests.v ===== *)
(** * The tests of the DryIce test module

    The functions [test_...] of [src/module_test/dryice_test.c], the table of
    them, and loading and unloading. *)
From S2P Require Import Prelude CInt CMonad CStruct Kernel PortableOs Dryice.

(** The quotation mark, which the format of the last message contains. *)
Definition quote : string := String.String (ascii_of_nat 34) String.EmptyString.

Section Tests.
Context {D : Type} `{DryIce D}.
Abbreviation W := (world D globals).

(** [pr_info("%s: test(%d) ...", __func__, nr)] *)
Definition pr_step (func msg : string) : M W unit :=
  n ← getg nr; pr_info ("%s: test(%d) " ++ msg) [AStr func; AInt n].
Definition set_key (o : nat) (ks : list Z) (bits flags : Z) : M W Z :=
  api (dryice_set_programmed_key (key_at o ks) bits flags).
Definition release_key : M W Z := api dryice_release_programmed_key.

(** ** test_setp *)
(** Releasing to get to a known state, then setting a key. *)
Definition basic_set (func : string) (k : M W Z) : M W Z :=
  _ ← release_key;
  pr_step func "basic test\n";;
  rc ← set_key 0 key_store0 MAX_KEY_LEN 0;
  UNLESS func rc DI_SUCCESS "can't set programmed key [locked???]" [] k.
Definition release_ok (func : string) (k : M W Z) : M W Z :=
  rc ← release_key; UNLESS func rc DI_SUCCESS "can't release programmed key" [] k.

Definition test_setp_0 : M W Z :=
  let f := "test_setp"%string in
  basic_set f (
  pr_step f "set a key when already set\n";;
  rc ← set_key 0 key_store0 MAX_KEY_LEN 0;
  UNLESS f rc DI_ERR_INUSE "double set programmed key allowed" [] (
  release_ok f (
  pr_step f "invalid-args test: NULL key_data test\n";;
  rc ← api (dryice_set_programmed_key None MAX_KEY_LEN 0);
  UNLESS f rc DI_ERR_INVAL "NULL key_data didn't fail" [] (
  pr_step f "invalid-args test: key_bits too large test\n";;
  rc ← set_key 0 key_store0 (MAX_KEY_LEN + 8) 0;
  UNLESS f rc DI_ERR_INVAL "NULL key_bits too large didn't fail" [] (
  pr_step f "invalid-args test: key_bits not mult of 8 test\n";;
  rc ← set_key 0 key_store0 1 0;
  UNLESS f rc DI_ERR_INVAL "key_bits not mult of 8 didn't fail" [] (
  pr_step f "invalid-args test: key_bits = 0 test\n";;
  rc ← set_key 0 key_store0 0 0;
  UNLESS f rc DI_SUCCESS "key_bits = 0 failed" [] (
  release_ok f (
  pr_step f "aligned-key tests\n";;
  if negb (Z.land stack 3 =? 0) then pr_test f "key_aligned is unaligned" [];; mret FAIL
  else
    rand16_seed 0x1234;;
    key_rounds 32 0 8 key_store0 key_ret0 (fun ks kr =>
    pr_step f "unaligned-key tests\n";;
    if Z.land (stack + 1) 3 =? 0 then pr_test f "key_unaligned is aligned" [];; mret FAIL
    else
      rand16_seed 0x4321;;
      key_rounds 32 1 8 ks kr (fun _ _ => mret PASS)))))))))).

(** The words 0x01020304 ... 0x29303132, and the bytes they should become. *)
Definition word_keys : list Z :=
  concat (map (to_le 4) [0x01020304; 0x05060708; 0x09101112; 0x13141516; 0x17181920; 0x21222324;
                         0x25262728; 0x29303132]).
Definition bcd (i : Z) : Z := Z.quot (i + 1) 10 * 16 + Z.rem (i + 1) 10.
Definition word_key_ok (n : nat) (kr : list Z) : bool :=
  bool_decide (take n kr = map (fun i => bcd (Z.of_nat i)) (seq 0 n)).
Definition word_key_round (ks kr : list Z) (bits : Z) (n : nat) (k : list Z -> M W Z) : M W Z :=
  let f := "test_setp"%string in
  rc ← set_key 0 ks bits DI_FUNC_FLAG_WORD_KEY;
  UNLESS f rc DI_SUCCESS "32-bit set_programmed_key returned error" [] (
  '(rc, kr) ← get_key kr bits;
  UNLESS f rc DI_SUCCESS "can't get programmed key" [] (
  release_ok f (
  let rc := if word_key_ok n kr then DI_SUCCESS else DI_ERR_FAIL in
  when (rc =? DI_ERR_FAIL) (print_key "    get_key=" kr MAX_KEY_LEN);;
  UNLESS f rc DI_SUCCESS "key mismatch for 32-bit key" [] (k kr)))).

Definition test_setp_1 : M W Z :=
  let f := "test_setp"%string in
  basic_set f (
  release_ok f (
  ks ← store 0 word_keys key_store0;
  pr_step f "32-bit key test, 256 bits\n";;
  word_key_round ks key_ret0 MAX_KEY_LEN (Z.to_nat MAX_KEY_BYTES) (fun kr =>
  pr_step f "32-bit key test, 32 bits\n";;
  word_key_round ks kr 32 4 (fun _ =>
  pr_step f "32-bit key, unaligned test\n";;
  rc ← set_key 1 ks 32 DI_FUNC_FLAG_WORD_KEY;
  UNLESS f rc DI_ERR_INVAL "32-bit key misalignment not detected" [] (
  pr_step f "32-bit key, odd length test\n";;
  rc ← set_key 1 ks 33 DI_FUNC_FLAG_WORD_KEY;
  UNLESS f rc DI_ERR_INVAL "32-bit key odd length not detected" [] (
  mret PASS)))))).

Definition test_setp_2 : M W Z :=
  let f := "test_setp"%string in
  basic_set f (
  release_ok f (
  pr_step f "async test\n";;
  setg (set_setp_state (-1));;
  rc ← api (dryice_register_callback (Some setp_callback_fn) 0xdead2bad);
  UNLESS f rc DI_SUCCESS "register callback failed" [] (
  rc ← set_key 0 key_store0 MAX_KEY_LEN DI_FUNC_FLAG_ASYNC;
  UNLESS f rc DI_SUCCESS "async set_programmed_key returned error" [] (
  msleep 10;;
  state ← getg setp_callback_state;
  if state =? -1 then pr_test f "callback function was not called" [];; mret FAIL
  else
    rc ← getg setp_callback_state;
    UNLESS f rc DI_SUCCESS "async set_programmed_key failed" [] (
    release_ok f (
    rc ← api (dryice_register_callback None 0);
    UNLESS f rc DI_SUCCESS "deregister callback failed" [] (mret PASS))))))).

(** The two destructive tests differ in the locks and in what they say. *)
Definition test_setp_lock (rlock wlock locked : Z)
    (s_read s_set_r s_get s_rel_r s_write s_set_w s_rel_w bye : string) : M W Z :=
  let f := "test_setp"%string in
  basic_set f (
  release_ok f (
  pr_step f s_read;;
  rc ← set_key 0 key_store0 MAX_KEY_LEN rlock;
  UNLESS f rc DI_SUCCESS s_set_r [] (
  '(rc, kr) ← get_key key_ret0 MAX_KEY_LEN;
  UNLESS f rc locked s_get [] (
  rc ← release_key;
  UNLESS f rc DI_SUCCESS s_rel_r [] (
  pr_step f s_write;;
  rc ← set_key 0 key_store0 MAX_KEY_LEN wlock;
  UNLESS f rc DI_SUCCESS s_set_w [] (
  rc ← release_key;
  UNLESS f rc locked s_rel_w [] (
  pr_info bye [];;
  mret PASS))))))).
Definition test_setp_3 : M W Z :=
  test_setp_lock DI_FUNC_FLAG_READ_LOCK DI_FUNC_FLAG_WRITE_LOCK DI_ERR_SLOCK
    "set_programmed_key soft-read lock test\n" "can't set programmed key with soft-read lock"
    "shouldn't be able to read soft-locked programmed key" "soft-read locked key could not be released"
    "set_programmed_key soft-write lock test\n" "can't set programmed key with soft-write lock"
    "shouldn't be able to release a soft-write locked key" "RESET THE PROCESSOR TO CLEAR SOFT LOCKS!\n".
Definition test_setp_4 : M W Z :=
  test_setp_lock (Z.lor DI_FUNC_FLAG_READ_LOCK DI_FUNC_FLAG_HARD_LOCK)
    (Z.lor DI_FUNC_FLAG_WRITE_LOCK DI_FUNC_FLAG_HARD_LOCK) DI_ERR_HLOCK
    "set_programmed_key hard-read lock test\n" "can't set programmed key with hard-read lock"
    "shouldn't be able to read hard-locked programmed key" "hard-read locked key could not be released"
    "set_programmed_key hard-write lock test\n" "can't set programmed key with hard-write lock"
    "shouldn't be able to release a hard-write locked key" "POWER-CYCLE THE BOARD TO CLEAR HARD LOCKS!\n".

Definition test_setp : M W Z :=
  pr_info "%s: entry\n" [AStr "test_setp"];;
  n ← getg nr;
  if n =? 0 then test_setp_0
  else if n =? 1 then test_setp_1
  else if n =? 2 then test_setp_2
  else if n =? 3 then test_setp_3
  else if n =? 4 then test_setp_4
  else mret INVAL.

(** ** test_relp, test_getp *)
Definition test_relp : M W Z :=
  let f := "test_relp"%string in
  pr_info "%s: entry\n" [AStr f];;
  n ← getg nr;
  if n =? 0 then
    basic_set f (
    pr_step f "release a set key\n";;
    rc ← release_key;
    UNLESS f rc DI_SUCCESS "can't release a programmed key" [] (
    pr_step f "release an unset key\n";;
    rc ← release_key;
    UNLESS f rc DI_ERR_UNSET "can't release an unset key" [] (
    pr_step f "release_programmed_key with locks tested by setp\n";;
    mret PASS)))
  else mret INVAL.

Definition test_getp : M W Z :=
  let f := "test_getp"%string in
  pr_info "%s: entry\n" [AStr f];;
  n ← getg nr;
  if n =? 0 then
    _ ← release_key;
    pr_step f "get a key when not set\n";;
    '(rc, kr) ← get_key key_ret0 MAX_KEY_LEN;
    UNLESS f rc DI_ERR_UNSET "shouldn't be able to get an unset key" [] (
    pr_step f "basic test\n";;
    rc ← set_key 0 key_store0 MAX_KEY_LEN 0;
    UNLESS f rc DI_SUCCESS "can't set programmed key [locked???]" [] (
    '(rc, kr) ← get_key kr MAX_KEY_LEN;
    UNLESS f rc DI_SUCCESS "can't get programmed key" [] (
    pr_step f "invalid-args test: NULL key_data test\n";;
    '(rc, _) ← api (dryice_get_programmed_key false MAX_KEY_LEN);
    UNLESS f rc DI_ERR_INVAL "NULL key_data didn't fail" [] (
    pr_step f "invalid-args test: key_bits too large test\n";;
    '(rc, kr) ← get_key kr (MAX_KEY_LEN + 8);
    UNLESS f rc DI_ERR_INVAL "NULL key_bits too large didn't fail" [] (
    pr_step f "invalid-args test: key_bits not mult of 8 test\n";;
    '(rc, kr) ← get_key kr 1;
    UNLESS f rc DI_ERR_INVAL "key_bits not mult of 8 didn't fail" [] (
    pr_step f "invalid-args test: key_bits = 0 test\n";;
    '(rc, kr) ← get_key kr 0;
    UNLESS f rc DI_SUCCESS "key_bits = 0 failed" [] (
    release_ok f (mret PASS))))))))
  else mret INVAL.
(** ** test_setr, test_sel, test_rel *)
Definition register (func : string) (cb : di_cb) (k : M W Z) : M W Z :=
  rc ← api (dryice_register_callback (Some cb) 0);
  UNLESS func rc DI_SUCCESS "bad result from register_callback" [] k.
(** [msleep(2)], then the counter of the callback. *)
Definition wait_done (func : string) (done : globals -> Z) (k : M W Z) : M W Z :=
  msleep 2;;
  n ← getg done;
  if negb (truth n) then pr_test func "async call incomplete\n" [];; mret FAIL else k.

Definition test_setr : M W Z :=
  let f := "test_setr"%string in
  n ← getg nr;
  if n =? 0 then
    pr_test f "test normal invocation\n" [];;
    rc ← api (dryice_set_random_key 0);
    UNLESS f rc DI_SUCCESS "bad result from set_random_key" [] (mret PASS)
  else if n =? 1 then pr_test f "test invalid parameters\n" [];; mret PASS
  else if n =? 2 then
    pr_test f "test for BUSY handling\n" [];;
    setg (set_setr_done 0);;
    register f setr_callback_fn (
    rc ← api (dryice_select_key DI_KEY_FK DI_FUNC_FLAG_ASYNC);
    UNLESS f rc DI_SUCCESS "bad result from select_key" [] (
    rc ← api (dryice_set_random_key 0);
    UNLESS f rc DI_ERR_BUSY "expected BUSY error" [] (
    wait_done f setr_done (mret PASS))))
  else if n =? 3 then
    pr_test f "test async mode\n" [];;
    setg (set_setr_done 0);;
    register f setr_callback_fn (
    rc ← api (dryice_set_random_key DI_FUNC_FLAG_ASYNC);
    UNLESS f rc DI_SUCCESS "bad result from set_random_key" [] (
    wait_done f setr_done (mret PASS)))
  else if n =? 4 then
    pr_test f "with write lock (hard reset required after)\n" [];;
    rc ← api (dryice_set_random_key DI_FUNC_FLAG_WRITE_LOCK);
    UNLESS f rc DI_SUCCESS "bad result from set_random_key" [] (
    rc ← api (dryice_set_random_key 0);
    UNLESS f rc DI_ERR_SLOCK "key should be soft locked" [] (
    pr_info "RESET THE PROCESSOR TO CLEAR SOFT LOCKS!\n" [];;
    mret PASS))
  else mret INVAL.

(** [for (i = -10; i < 20; i++)]; [n] turns are left. *)
Fixpoint select_range (n : nat) (i : Z) (k : M W Z) : M W Z :=
  let f := "test_sel"%string in
  match n with
  | O => k
  | S n =>
      rc ← api (dryice_select_key i 0);
      if (DI_KEY_FK <=? i) && (i <=? DI_KEY_FRK) then
        UNLESS f rc DI_SUCCESS "bad result for in-range key index" [] (
        rc ← api dryice_release_key_selection;
        UNLESS f rc DI_SUCCESS "unable to release key selection" [] (select_range n (i + 1) k))
      else
        UNLESS f rc DI_ERR_INVAL "bad result for out-of-range key index" [] (select_range n (i + 1) k)
  end.
Definition select_lock (flags locked : Z) (msg bye : string) : M W Z :=
  let f := "test_sel"%string in
  rc ← api (dryice_select_key DI_KEY_FK flags);
  UNLESS f rc DI_SUCCESS "bad result from select_key" [] (
  rc ← api dryice_release_key_selection;
  UNLESS f rc locked msg [] (
  rc ← api (dryice_select_key DI_KEY_FK 0);
  UNLESS f rc DI_ERR_INUSE msg [] (
  pr_info bye [];;
  mret PASS))).

Definition test_sel : M W Z :=
  let f := "test_sel"%string in
  n ← getg nr;
  if n =? 0 then
    pr_test f "test normal invocation\n" [];;
    _ ← api dryice_release_key_selection;
    rc ← api (dryice_select_key DI_KEY_FK 0);
    UNLESS f rc DI_SUCCESS "bad result from key selection" [] (
    rc ← api dryice_release_key_selection;
    UNLESS f rc DI_SUCCESS "unable to release key selection" [] (mret PASS))
  else if n =? 1 then
    pr_test f "test invalid parameters\n" [];;
    _ ← api dryice_release_key_selection;
    select_range 30 (-10) (mret PASS)
  else if n =? 2 then
    pr_test f "test for BUSY handling\n" [];;
    _ ← api dryice_release_key_selection;
    setg (set_sel_done 0);;
    register f sel_callback_fn (
    rc ← api (dryice_select_key DI_KEY_FK DI_FUNC_FLAG_ASYNC);
    UNLESS f rc DI_SUCCESS "bad result from select_key" [] (
    rc ← api (dryice_select_key DI_KEY_FK 0);
    UNLESS f rc DI_ERR_BUSY "expected BUSY error" [] (
    wait_done f sel_done (mret PASS))))
  else if n =? 3 then
    pr_test f "test async mode\n" [];;
    _ ← api dryice_release_key_selection;
    setg (set_sel_done 0);;
    register f sel_callback_fn (
    rc ← api (dryice_select_key DI_KEY_FK DI_FUNC_FLAG_ASYNC);
    UNLESS f rc DI_SUCCESS "bad result from select_key" [] (
    wait_done f sel_done (mret PASS)))
  else if n =? 4 then
    pr_test f "select with write lock (hard reset required after)\n" [];;
    _ ← api dryice_release_key_selection;
    select_lock DI_FUNC_FLAG_WRITE_LOCK DI_ERR_SLOCK "key should be soft locked"
      "RESET THE PROCESSOR TO CLEAR SOFT LOCKS!\n"
  else if n =? 5 then
    pr_test f "select with hard lock (power-cycle required after)\n" [];;
    _ ← api dryice_release_key_selection;
    select_lock (Z.lor DI_FUNC_FLAG_WRITE_LOCK DI_FUNC_FLAG_HARD_LOCK) DI_ERR_HLOCK
      "key should be hard locked" "POWER-CYCLE THE BOARD TO CLEAR HARD LOCKS!\n"
  else mret INVAL.

Definition test_rel : M W Z :=
  pr_info "%s: entry\n" [AStr "test_rel"];; mret PASS.

(** ** test_chk *)
Definition test_chk : M W Z :=
  let f := "test_chk"%string in
  n ← getg nr;
  if n =? 0 then
    pr_test f "test normal invocation\n" [];;
    _ ← api dryice_release_key_selection;
    rc ← api (dryice_select_key DI_KEY_FK 0);
    UNLESS f rc DI_SUCCESS "bad result from select_key" [] (
    '(rc, key) ← api (dryice_check_key true);
    UNLESS f rc DI_SUCCESS "error checking key" [] (
    if negb (key =? DI_KEY_FK) then pr_test f "expected key not selected\n" [];; mret FAIL
    else mret PASS))
  else if n =? 1 then
    pr_test f "test invalid parameters\n" [];;
    '(rc, _) ← api (dryice_check_key false);
    UNLESS f rc DI_ERR_INVAL "bad result for NULL key pointer" [] (mret PASS)
  else if n =? 2 then
    pr_test f "test for BUSY handling\n" [];;
    setg (set_sel_done 0);;
    _ ← api dryice_release_key_selection;
    register f sel_callback_fn (
    rc ← api (dryice_select_key DI_KEY_FK DI_FUNC_FLAG_ASYNC);
    UNLESS f rc DI_SUCCESS "bad result from select_key" [] (
    '(rc, _) ← api (dryice_check_key true);
    UNLESS f rc DI_ERR_BUSY "expected BUSY error" [] (
    wait_done f sel_done (
    rc ← api dryice_release_key_selection;
    UNLESS f rc DI_SUCCESS "unable to release key selection" [] (mret PASS)))))
  else mret INVAL.

(** ** test_tamp *)
(** [for (;;)], [tries] counting; it leaves when the count passes 1000. *)
Fixpoint tamper_loop (fuel : nat) (tries : Z) : M W Z :=
  let f := "test_tamp"%string in
  match fuel with
  | O => no_fuel
  | S fuel =>
      '(rc, (events, timestamp)) ← api (dryice_get_tamper_event true 0);
      let rest : M W Z :=
        if 10 * 100 <? tries then
          pr_test f "timed out waiting for tamper event\n" [];; mret FAIL
        else msleep 10;; tamper_loop fuel (tries + 1) in
      if rc =? DI_SUCCESS then
        if events =? 0 then pr_test f "dryice in failure state w/out tamper events\n" [];; mret FAIL
        else
          pr_test f "got tamper event=0x%08x timestamp=%d\n" [AInt events; AInt timestamp];;
          pr_test f "YOU MUST NOW POWER-CYCLE THE BOARD TO RUN OTHER TESTS.\n" [];;
          mret PASS
      else if rc =? DI_ERR_STATE then rest
      else UNLESS f rc 0 "unexpected result from get_tamper_event" [] rest
  end.
Definition tamper_fuel : nat := 1002.
Definition test_tamp : M W Z :=
  let f := "test_tamp"%string in
  '(rc, (events, timestamp)) ← api (dryice_get_tamper_event true 0);
  if rc =? DI_SUCCESS then
    pr_test f "tamper event=0x%08x timestamp=%d\n" [AInt events; AInt timestamp];;
    pr_test f "Dryice already in failure state.\n" [];;
    pr_test f "Your board needs to be power-cycled to run this test.\n" [];;
    mret FAIL
  else
    pr_info "%s: Waiting 10 seconds for you to cause a tamper event...\n" [AStr f];;
    tamper_loop tamper_fuel 0.

(** ** test_busy *)
Definition busy (func msg : string) (rc : Z) (k : M W Z) : M W Z :=
  UNLESS func rc DI_ERR_BUSY (msg ++ ": expected BUSY error") [] k.
Definition test_busy : M W Z :=
  let f := "test_busy"%string in
  n ← getg nr;
  if n =? 0 then
    pr_test f "test all interfaces for BUSY handling\n" [];;
    _ ← api dryice_release_key_selection;
    setg (set_busy_done 0);;
    register f busy_callback_fn (
    rc ← api (dryice_select_key DI_KEY_FK DI_FUNC_FLAG_ASYNC);
    UNLESS f rc DI_SUCCESS "bad result from select_key" [] (
    rc ← api (dryice_set_programmed_key None 0 0);
    busy f "dryice_set_programmed_key" rc (
    '(rc, _) ← api (dryice_get_programmed_key false 0);
    busy f "dryice_get_programmed_key" rc (
    rc ← release_key;
    busy f "dryice_release_programmed_key" rc (
    rc ← api (dryice_set_random_key 0);
    busy f "dryice_set_random_key" rc (
    rc ← api (dryice_select_key 0 0);
    busy f "dryice_select_key" rc (
    '(rc, _) ← api (dryice_check_key false);
    busy f "dryice_check_key" rc (
    rc ← api dryice_release_key_selection;
    busy f "dryice_release_key_selection" rc (
    '(rc, _) ← api (dryice_get_tamper_event false 0);
    busy f "dryice_get_tamper_event" rc (
    rc ← api (dryice_register_callback None 0);
    busy f "dryice_register_callback" rc (
    wait_done f busy_done (
    rc ← api dryice_release_key_selection;
    UNLESS f rc DI_SUCCESS "unable to release key selection" [] (mret PASS)))))))))))))
  else mret INVAL.

(** ** The table, loading and unloading *)
Inductive test_fn := help_fn | setp_fn | relp_fn | getp_fn | setr_fn | sel_fn | rel_fn | chk_fn | tamp_fn | busy_fn.
Definition tests : list (string * test_fn) :=
  [("help", help_fn); ("setp", setp_fn); ("relp", relp_fn); ("getp", getp_fn); ("setr", setr_fn);
   ("sel", sel_fn); ("rel", rel_fn); ("chk", chk_fn); ("tamp", tamp_fn); ("busy", busy_fn)]%string.

Fixpoint print_names (l : list (string * test_fn)) : M W unit :=
  match l with [] => skip | (name, _) :: l => printk " %s" [AStr name];; print_names l end.
Definition help : M W Z :=
  pr_info "Available tests:\n   " [];;
  print_names tests;;
  printk "\n\n" [];;
  mret PASS.
Definition run_test (t : test_fn) : M W Z :=
  match t with
  | help_fn => help | setp_fn => test_setp | relp_fn => test_relp | getp_fn => test_getp
  | setr_fn => test_setr | sel_fn => test_sel | rel_fn => test_rel | chk_fn => test_chk
  | tamp_fn => test_tamp | busy_fn => test_busy
  end.

Definition do_test (tp : string * test_fn) : M W Z :=
  n ← getg nr;
  pr_info "EXECUTE %s(%d)\n" [AStr (fst tp); AInt n];;
  rc ← run_test (snd tp);
  n ← getg nr;
  (if rc =? PASS then pr_info "RESULT %s(%d): PASS\n" [AStr (fst tp); AInt n]
   else if rc =? FAIL then pr_info "RESULT %s(%d): FAIL\n" [AStr (fst tp); AInt n]
   else when (rc =? INVAL) (pr_info "INVALID %s(%d)\n" [AStr (fst tp); AInt n]));;
  mret rc.

Fixpoint find_test (l : list (string * test_fn)) (name : string) (none : M W Z) : M W Z :=
  match l with
  | [] => none
  | tp :: l => if String.eqb name (fst tp) then rc ← do_test tp; mret (- rc) else find_test l name none
  end.
Definition dryice_test_init : M W Z :=
  pr_info "Good morning from %s\n" [AStr "dryice_test_init"];;
  name ← getg test;
  n ← getg nr;
  pr_info "Test=%s(%d)\n" [AStr name; AInt n];;
  find_test tests name (
    pr_info ("Unknown test " ++ quote ++ "%s" ++ quote ++ "\n") [AStr name];;
    _ ← help;
    mret (- EINVAL)).
Definition dryice_test_exit : M W unit :=
  pr_info "Have a great day from %s\n" [AStr "dryice_test_exit"].
End Tests.
