(* ===== verification/Rand16.v ===== *)
(** * The generator of the test keys

    [rand16] of [src/module_test/dryice_test.c] is a feedback shift register.
    Its step is linear over the field with two elements, so its powers are
    products of 16 by 16 matrices; the orders of the step that could be
    shorter than 65535 are excluded by inverse matrices. *)
From S2P Require Import Prelude CInt Dryice.

(** ** The step, bit by bit *)
Lemma truth_land_bit s k : 0 <= k -> truth (Z.land s (Z.shiftl 1 k)) = Z.testbit s k.
Proof.
  intros Hk. rewrite Z.shiftl_1_l.
  assert (Z.land s (2 ^ k) = if Z.testbit s k then 2 ^ k else 0) as ->.
  { apply Z.bits_inj'. intros n Hn. rewrite Z.land_spec, Z.pow2_bits_eqb by done.
    destruct (Z.eqb_spec k n) as [->|Hne].
    - destruct (Z.testbit s n); simpl; [by rewrite Z.pow2_bits_true|by rewrite Z.bits_0].
    - rewrite andb_false_r. destruct (Z.testbit s k); [by rewrite Z.pow2_bits_false|by rewrite Z.bits_0]. }
  destruct (Z.testbit s k); [|done]. apply truth_true.
  pose proof (pow2_pos k Hk). lia.
Qed.

Definition feedback (s : Z) : bool :=
  xorb (xorb (xorb (Z.testbit s 15) (Z.testbit s 13)) (Z.testbit s 7)) (Z.testbit s 2).

Lemma testbit_b2z b n : 0 <= n -> Z.testbit (b2z b) n = (n =? 0) && b.
Proof.
  intros Hn. destruct b; simpl; [|by rewrite Z.bits_0, andb_false_r].
  destruct n as [|p|p]; [done|by rewrite Z.bits_above_log2|lia].
Qed.

Lemma next_testbit s n :
  0 <= n -> Z.testbit (rand16_next s) n =
    (n <? 16) && (if n =? 0 then feedback s else Z.testbit s (n - 1)).
Proof.
  intros Hn. unfold rand16_next. rewrite !truth_land_bit by done.
  assert (Z.lxor (Z.lxor (Z.lxor (if Z.testbit s 15 then 0 else 1) (if Z.testbit s 13 then 1 else 0))
    (if Z.testbit s 7 then 0 else 1)) (if Z.testbit s 2 then 1 else 0) = b2z (feedback s)) as ->.
  { unfold feedback. by destruct (Z.testbit s 15), (Z.testbit s 13), (Z.testbit s 7), (Z.testbit s 2). }
  rewrite testbit_wrap, Z.lor_spec, testbit_b2z by done. f_equal.
  destruct (Z.eqb_spec n 0) as [->|]; [by rewrite Z.shiftl_spec_low|].
  by rewrite Z.shiftl_spec, orb_false_r by done.
Qed.

Lemma next_range s : in_uint 16 (rand16_next s).
Proof. apply wrap_range. lia. Qed.

(** ** Linear maps *)
Definition additive (f : Z -> Z) : Prop := forall a b, f (Z.lxor a b) = Z.lxor (f a) (f b).

Lemma additive_0 f : additive f -> f 0 = 0.
Proof. intros Hf. pose proof (Hf 0 0) as H0. by rewrite !Z.lxor_nilpotent in H0. Qed.

Lemma next_additive : additive rand16_next.
Proof.
  intros a b. apply Z.bits_inj'. intros n Hn. rewrite Z.lxor_spec, !next_testbit by done.
  destruct (n <? 16); [|done]. simpl. destruct (n =? 0); [|by rewrite Z.lxor_spec].
  unfold feedback. rewrite !Z.lxor_spec.
  by destruct (Z.testbit a 15), (Z.testbit a 13), (Z.testbit a 7), (Z.testbit a 2), (Z.testbit b 15),
    (Z.testbit b 13), (Z.testbit b 7), (Z.testbit b 2).
Qed.

(** A matrix is the list of its columns. *)
Fixpoint apply_mat (cols : list Z) (s : Z) : Z :=
  match cols with
  | [] => 0
  | c :: cols => Z.lxor (if Z.testbit s 0 then c else 0) (apply_mat cols (Z.shiftr s 1))
  end.
Fixpoint columns (f : Z -> Z) (n : nat) (k : Z) : list Z :=
  match n with O => [] | S n => f (2 ^ k) :: columns f n (k + 1) end.
Definition basis : list Z := columns (fun s => s) 16 0.

Lemma lxor_swap a b c d : Z.lxor (Z.lxor a b) (Z.lxor c d) = Z.lxor (Z.lxor a c) (Z.lxor b d).
Proof. rewrite !Z.lxor_assoc. f_equal. by rewrite <- !Z.lxor_assoc, (Z.lxor_comm b c). Qed.

Lemma apply_additive cols : additive (apply_mat cols).
Proof.
  induction cols as [|c cols IH]; intros a b; cbn [apply_mat]; [done|].
  rewrite Z.shiftr_lxor, IH, Z.lxor_spec, lxor_swap. f_equal.
  destruct (Z.testbit a 0), (Z.testbit b 0); simpl; by rewrite ?Z.lxor_nilpotent, ?Z.lxor_0_r, ?Z.lxor_0_l.
Qed.

Lemma low_bit s : s = Z.lxor (b2z (Z.testbit s 0)) (Z.shiftl (Z.shiftr s 1) 1).
Proof.
  apply Z.bits_inj'. intros n Hn. rewrite Z.lxor_spec, testbit_b2z by done.
  destruct (Z.eqb_spec n 0) as [->|]; [by rewrite Z.shiftl_spec_low, xorb_false_r|].
  rewrite Z.shiftl_spec, Z.shiftr_spec by lia. simpl. f_equal. lia.
Qed.

Lemma additive_columns f n k s :
  additive f -> 0 <= k -> in_uint (Z.of_nat n) s -> f (Z.shiftl s k) = apply_mat (columns f n k) s.
Proof.
  intros Hf. revert k s. induction n as [|n IH]; intros k s Hk Hs; cbn [columns apply_mat].
  { unfold in_uint in Hs. simpl in Hs. assert (s = 0) as -> by lia. rewrite Z.shiftl_0_l. by apply additive_0. }
  rewrite (low_bit s) at 1. rewrite Z.shiftl_lxor, Hf. f_equal.
  - destruct (Z.testbit s 0); simpl; [by rewrite Z.shiftl_1_l|]. rewrite Z.shiftl_0_l. by apply additive_0.
  - rewrite Z.shiftl_shiftl by lia. rewrite (Z.add_comm 1 k). apply IH; [lia|].
    unfold in_uint in *. rewrite Z.shiftr_div_pow2 by lia.
    replace (2 ^ Z.of_nat (S n)) with (2 * 2 ^ Z.of_nat n) in Hs
      by by rewrite Nat2Z.inj_succ, Z.pow_succ_r by lia.
    change (2 ^ 1) with 2. split; [apply Z.div_pos; lia|]. apply Z.div_lt_upper_bound; lia.
Qed.

Definition represents (cols : list Z) (f : Z -> Z) : Prop :=
  forall s, in_uint 16 s -> f s = apply_mat cols s.
Lemma represents_columns f : additive f -> represents (columns f 16 0) f.
Proof. intros Hf s Hs. rewrite <- (additive_columns f 16 0 s) by done. by rewrite Z.shiftl_0_r. Qed.

Definition mult (a b : list Z) : list Z := map (apply_mat a) b.
Lemma apply_mult a b s : apply_mat (mult a b) s = apply_mat a (apply_mat b s).
Proof.
  revert s. induction b as [|c b IH]; intros s; cbn [mult map apply_mat]; [by rewrite (additive_0 _ (apply_additive a))|].
  rewrite apply_additive, IH. f_equal. destruct (Z.testbit s 0); [done|].
  by rewrite (additive_0 _ (apply_additive a)).
Qed.
Definition madd (a b : list Z) : list Z := zip_with Z.lxor a b.
Lemma apply_madd a b s : length a = length b -> apply_mat (madd a b) s = Z.lxor (apply_mat a s) (apply_mat b s).
Proof.
  revert b s. induction a as [|x a IH]; intros [|y b] s Hl; try done. cbn [madd zip_with apply_mat].
  fold (madd a b).
  rewrite IH by (simpl in Hl; lia). rewrite lxor_swap. f_equal. by destruct (Z.testbit s 0).
Qed.
Lemma apply_basis s : in_uint 16 s -> apply_mat basis s = s.
Proof. intros Hs. symmetry. by apply (represents_columns (fun s => s)). Qed.

(** ** Powers of the step *)
Abbreviation steps n := (Nat.iter n rand16_next).
Definition step_mat : list Z := columns rand16_next 16 0.
Fixpoint mat_pow (p : positive) : list Z :=
  match p with
  | xH => step_mat
  | xO p => let m := mat_pow p in mult m m
  | xI p => let m := mat_pow p in mult step_mat (mult m m)
  end.

Lemma steps_add n m s : steps (n + m) s = steps n (steps m s).
Proof. induction n as [|n IH]; simpl; [done|]. by rewrite IH. Qed.
Lemma steps_range n s : in_uint 16 s -> in_uint 16 (steps n s).
Proof. intros Hs. destruct n; [done|apply next_range]. Qed.

Lemma mat_pow_spec p : represents (mat_pow p) (steps (Pos.to_nat p)).
Proof.
  induction p as [p IH|p IH|]; intros s Hs; simpl mat_pow.
  - rewrite !apply_mult, <- (IH s Hs), <- IH by by apply steps_range.
    rewrite Pos2Nat.inj_xI, <- steps_add. simpl Nat.iter.
    rewrite (represents_columns _ next_additive) by by apply steps_range. do 2 f_equal. lia.
  - rewrite apply_mult, <- (IH s Hs), <- IH by by apply steps_range.
    rewrite Pos2Nat.inj_xO, <- steps_add. f_equal. lia.
  - by apply (represents_columns _ next_additive).
Qed.

(** If [inv] undoes the [q]-th power less the identity, no other state than 0
    returns after [q] steps. *)
Lemma no_period q inv s :
  mult inv (madd (mat_pow q) basis) = basis -> length (mat_pow q) = 16%nat ->
  in_uint 16 s -> steps (Pos.to_nat q) s = s -> s = 0.
Proof.
  intros Hinv Hl Hs Hq. rewrite <- (apply_basis s Hs), <- Hinv, apply_mult, apply_madd by done.
  rewrite <- mat_pow_spec, apply_basis, Hq, Z.lxor_nilpotent by done. apply additive_0, apply_additive.
Qed.

Definition inverse_21845 : list Z :=
  [0x69b7; 0xd36f; 0xa6de; 0x240b; 0x4817; 0x902f; 0x205e; 0x40bc; 0xe8cf; 0xd19e; 0xa33d; 0x467b; 0x8cf6; 0x19ed; 0x5a6d; 0xb4db].
Definition inverse_13107 : list Z :=
  [0x2494; 0x4929; 0x9252; 0x31; 0x62; 0xc4; 0x188; 0x311; 0x22b6; 0x456d; 0x8adb; 0x15b6; 0x2b6c; 0x56d8; 0x8925; 0x124a].
Definition inverse_3855 : list Z :=
  [0x5485; 0xa90a; 0x5214; 0xf0ac; 0xe158; 0xc2b0; 0x8560; 0xac1; 0x4106; 0x820d; 0x41a; 0x834; 0x1069; 0x20d2; 0x1521; 0x2a42].
Definition inverse_255 : list Z :=
  [0x5200; 0xa400; 0x4800; 0xc200; 0x8401; 0x803; 0x1006; 0x200d; 0x121a; 0x2434; 0x4868; 0x90d0; 0x21a0; 0x4340; 0xd480; 0xa900].

Lemma no_short_period q s :
  q ∈ [21845; 13107; 3855; 255]%positive -> in_uint 16 s -> steps (Pos.to_nat q) s = s -> s = 0.
Proof.
  intros Hq. repeat (apply elem_of_cons in Hq as [->|Hq]; [|]); [| | | |by apply not_elem_of_nil in Hq].
  - apply (no_period _ inverse_21845); by vm_compute.
  - apply (no_period _ inverse_13107); by vm_compute.
  - apply (no_period _ inverse_3855); by vm_compute.
  - apply (no_period _ inverse_255); by vm_compute.
Qed.

(** ** The order of the step *)
Lemma full_period s : in_uint 16 s -> steps (Pos.to_nat 65535) s = s.
Proof.
  intros Hs. rewrite mat_pow_spec by done.
  assert (mat_pow 65535 = basis) as -> by by vm_compute. by apply apply_basis.
Qed.

Lemma next_injective s t : in_uint 16 s -> in_uint 16 t -> rand16_next s = rand16_next t -> s = t.
Proof.
  intros Hs Ht He. rewrite <- (full_period s Hs), <- (full_period t Ht).
  change (Pos.to_nat 65535) with (Pos.to_nat 65534 + 1)%nat. rewrite !steps_add. simpl Nat.iter at 2 4.
  by rewrite He.
Qed.
Lemma steps_injective n s t : in_uint 16 s -> in_uint 16 t -> steps n s = steps n t -> s = t.
Proof.
  intros Hs Ht. induction n as [|n IH]; simpl; [done|]. intros He.
  apply IH, next_injective; [by apply steps_range..|done].
Qed.

Lemma steps_mul n m s : steps n s = s -> steps (m * n) s = s.
Proof. intros Hn. induction m as [|m IH]; [done|]. simpl. by rewrite steps_add, IH. Qed.
Lemma steps_gcd a b s : steps a s = s -> steps b s = s -> steps (Nat.gcd a b) s = s.
Proof.
  intros Ha Hb. destruct (Nat.gcd_bezout a b) as [(u & v & He)|(u & v & He)].
  - pose proof (steps_mul a u s Ha) as Hu. by rewrite He, steps_add, steps_mul in Hu.
  - pose proof (steps_mul b u s Hb) as Hu. by rewrite He, steps_add, steps_mul in Hu.
Qed.

(** 65535 is 3 * 5 * 17 * 257: a divisor below it divides one of the four
    quotients. *)
Lemma prime_divisor p x :
  forallb (fun d => negb (p mod Z.of_nat d =? 0)) (seq 2 (Z.to_nat p - 2)) = true ->
  1 < p -> 0 <= x -> (x | p) -> x = 1 \/ x = p.
Proof.
  intros Hall Hp Hx Hd. destruct (decide (x = 1)) as [|H1]; [by left|].
  destruct (decide (x = p)) as [|Hxp]; [by right|]. exfalso.
  assert (x <> 0) by (intros ->; apply Z.divide_0_l in Hd; lia).
  pose proof (Z.divide_pos_le x p ltac:(lia) Hd).
  rewrite forallb_forall in Hall. specialize (Hall (Z.to_nat x)). rewrite in_seq in Hall.
  specialize (Hall ltac:(lia)). rewrite Z2Nat.id in Hall by done.
  by rewrite (proj2 (Z.mod_divide p x ltac:(lia)) Hd) in Hall.
Qed.
Lemma without_prime p m g :
  forallb (fun d => negb (p mod Z.of_nat d =? 0)) (seq 2 (Z.to_nat p - 2)) = true ->
  1 < p -> (g | p * m) -> (g | m) \/ (p | g).
Proof.
  intros Hall Hp Hg. destruct (prime_divisor p (Z.gcd g p) Hall Hp) as [H1|Hpp].
  - apply Z.gcd_nonneg.
  - apply Z.gcd_divide_r.
  - left. by apply Z.gauss with p.
  - right. rewrite <- Hpp. apply Z.gcd_divide_l.
Qed.
Lemma proper_divisor g :
  0 < g < 65535 -> (g | 65535) -> Exists (fun q => (g | Zpos q)) [21845; 13107; 3855; 255]%positive.
Proof.
  intros Hg Hd. rewrite !Exists_cons.
  destruct (without_prime 3 21845 g) as [|[a Ha]]; [done|lia|done|tauto|].
  destruct (without_prime 5 13107 g) as [|[b Hb]]; [done|lia|done|tauto|].
  destruct (without_prime 17 3855 g) as [|[c Hc]]; [done|lia|done|tauto|].
  destruct (without_prime 257 255 g) as [|[d He]]; [done|lia|done|tauto|]. lia.
Qed.

(** No state but 0 returns in fewer than 65535 steps. *)
Lemma no_early_return n s :
  in_uint 16 s -> s <> 0 -> 0 < Z.of_nat n < 65535 -> steps n s <> s.
Proof.
  intros Hs H0 Hn Hret. pose proof (steps_gcd n _ s Hret (full_period s Hs)) as Hg.
  set (g := Nat.gcd n (Pos.to_nat 65535)) in *.
  assert (Nat.divide g n /\ Nat.divide g (Pos.to_nat 65535)) as [Hgn [k' Hk']]
    by (split; [apply Nat.gcd_divide_l|apply Nat.gcd_divide_r]). clearbody g.
  pose proof (Nat.divide_pos_le g n ltac:(lia) Hgn) as Hle. destruct Hgn as [k Hk].
  assert (0 < Z.of_nat g < 65535) as Hgr by (destruct g; lia).
  assert ((Z.of_nat g | 65535)) as Hgd by (exists (Z.of_nat k'); lia).
  destruct (proj1 (Exists_exists _ _) (proper_divisor (Z.of_nat g) Hgr Hgd)) as (q & Hq & z & Hz).
  apply H0, (no_short_period q); [by apply list_elem_of_In|done|].
  assert (0 <= z) as Hz0 by nia.
  assert (Pos.to_nat q = (Z.to_nat z * g)%nat) as ->; [|by apply steps_mul].
  apply Nat2Z.inj. rewrite Nat2Z.inj_mul, Z2Nat.id, positive_nat_Z by done. done.
Qed.

(** The states that are visited. *)
Definition orbit (s : Z) : list Z := map (fun i => steps i s) (seq 0 (Pos.to_nat 65535)).
Lemma orbit_nodup s : in_uint 16 s -> s <> 0 -> NoDup (orbit s).
Proof.
  intros Hs H0. unfold orbit. apply NoDup_ListNoDup, Finite.Injective_map_NoDup_in; [|apply seq_NoDup].
  assert (forall i j, (i < j)%nat -> Z.of_nat j < 65535 -> steps i s <> steps j s) as Hlt.
  { intros i j Hij Hj He. apply (no_early_return (j - i) (steps i s)); [by apply steps_range| |lia|].
    - intros Hz. apply H0. apply (steps_injective i); [done|done|]. rewrite Hz.
      clear. induction i; [done|]. simpl. by rewrite <- IHi.
    - rewrite <- steps_add. by replace (j - i + i)%nat with j by lia. }
  intros i j Hi%in_seq Hj%in_seq He. destruct (Nat.lt_trichotomy i j) as [Hl|[?|Hl]]; [|done|].
  - destruct (Hlt i j Hl ltac:(lia) He).
  - destruct (Hlt j i Hl ltac:(lia) (eq_sym He)).
Qed.

(** C25: The key generator of the DryIce test has the longest possible period:
    from any nonzero 16-bit state it returns to it after 65535 steps and on
    the way visits every nonzero state once, so it never produces 0, as its
    comment says. *)
Theorem rand16_full_period s v :
  0 < s < 2 ^ 16 -> 0 < v < 2 ^ 16 ->
  (exists i, Z.of_nat i < 65535 /\ Nat.iter i rand16_next s = v) /\
  NoDup (orbit s) /\ Nat.iter (Pos.to_nat 65535) rand16_next s = s /\
  (forall i, Nat.iter i rand16_next s <> 0).
Proof.
  intros Hs Hv. assert (in_uint 16 s) as Hs16 by (unfold in_uint; lia).
  assert (forall i, steps i s <> 0) as Hnz.
  { intros i Hz. assert (s = 0); [|lia]. apply (steps_injective i); [done|done|]. rewrite Hz.
    clear. induction i; [done|]. simpl. by rewrite <- IHi. }
  pose proof (orbit_nodup s Hs16 ltac:(lia)) as Hnd. split; [|by split_and!; try apply full_period].
  set (all := map Z.of_nat (seq 1 (Pos.to_nat 65535))).
  assert (v ∈ orbit s) as Hin.
  { apply list_elem_of_In. apply (NoDup_length_incl (l' := all)).
    - by apply NoDup_ListNoDup.
    - unfold all, orbit. by rewrite !length_map, !length_seq.
    - intros x (i & <- & _)%in_map_iff. apply in_map_iff. exists (Z.to_nat (steps i s)).
      pose proof (steps_range i s Hs16) as Hr. specialize (Hnz i). unfold in_uint in Hr.
      split; [lia|]. apply in_seq. lia.
    - apply in_map_iff. exists (Z.to_nat v). split; [lia|]. apply in_seq. lia. }
  apply list_elem_of_fmap_1 in Hin as (i & -> & Hi%list_elem_of_In%in_seq). exists i. split; [lia|done].
Qed.

Lemma rand16_full_period_witness : exists i, Nat.iter i rand16_next 0x1234 = 0x4321.
Proof.
  destruct (rand16_full_period 0x1234 0x4321) as [(i & _ & Hi) _]; [lia|lia|]. by exists i.
Defined.
