(* ===== verification/DryiceSpec.v ===== *)
(** * What the DryIce tests do

    Whatever the driver answers, loading the module ends and stays inside its
    arrays; the key tests pass on a driver that keeps keys, and fail on one
    with a stuck byte; waiting for a tamper event decides within a bounded
    number of questions; a test that registers a callback leaves it behind. *)
From S2P Require Import Prelude CInt CMonad CStruct Kernel SimKernel PortableOs Dryice DryiceTests.

(** What the module takes for granted of the driver's header and of arrays of
    words. *)
Class DryIceLaws (D : Type) `{DryIce D} : Prop := {
  key_size : MAX_KEY_LEN = 256 /\ MAX_KEY_BYTES = 32;
  stack_law : stack mod 4 = 0;
  codes_law : NoDup [DI_SUCCESS; DI_ERR_BUSY; DI_ERR_STATE; DI_ERR_INUSE; DI_ERR_UNSET; DI_ERR_WRITE;
                     DI_ERR_INVAL; DI_ERR_FAIL; DI_ERR_HLOCK; DI_ERR_SLOCK; DI_ERR_NOMEM];
  get_law p bits d : zlen (dryice_get_programmed_key p bits d).1.2 <= MAX_KEY_BYTES;
}.

(** ** Safety *)
Definition verdict (r : Z) : Prop := r = PASS \/ r = FAIL \/ r = INVAL.

Section Safe.
Context {D : Type} `{DL : DryIceLaws D}.
Abbreviation W := (world D globals).

(** From any world, [m] ends without undefined behaviour and returns [P]. *)
Definition safe {A} (P : A -> Prop) (m : M W A) : Prop :=
  forall E w, wp m (fun a _ => P a) E w.

Lemma safe_bind {A B} (P : A -> Prop) (Q : B -> Prop) (m : M W A) (k : A -> M W B) :
  safe P m -> (forall a, P a -> safe Q (k a)) -> safe Q (m ≫= k).
Proof. intros Hm Hk E w. apply wp_bind. eapply wp_mono; [apply Hm|]. intros a w' Ha. by apply Hk. Qed.
Lemma safe_ret {A} (P : A -> Prop) (a : A) : P a -> safe P (mret a).
Proof. intros Ha E w. by apply wp_ret. Qed.
Lemma safe_any {A} (P : A -> Prop) (m : M W A) : safe P m -> safe (fun _ => True) m.
Proof. intros Hm E w. eapply wp_mono; [apply Hm|done]. Qed.

Definition noise {A} (m : M W A) : Prop := safe (fun _ => True) m.
Lemma noise_bind {A B} (m : M W A) (k : A -> M W B) :
  noise m -> (forall a, noise (k a)) -> noise (m ≫= k).
Proof. intros Hm Hk. eapply safe_bind; [exact Hm|]. intros a _. apply Hk. Qed.
Lemma noise_getg {A} (f : globals -> A) : noise (getg f).
Proof. done. Qed.
Lemma noise_setg f : noise (setg f).
Proof. done. Qed.
Lemma noise_pr_info f a : noise (pr_info f a).
Proof. done. Qed.
Lemma noise_pr_test f s a : noise (pr_test f s a).
Proof. done. Qed.
Lemma noise_pr_step f s : noise (pr_step f s).
Proof. done. Qed.
Lemma noise_seed s : noise (rand16_seed s).
Proof. done. Qed.
Lemma noise_call_backs l : noise (call_backs l).
Proof.
  induction l as [|[[[] rc] cookie] l IH]; [done|..]; cbn [call_backs call_back]; apply noise_bind; try done.
  unfold setp_callback. apply noise_bind; [|done]. by destruct (negb _).
Qed.
Lemma safe_api {A} (P : A -> Prop) (f : D -> A * D) : (forall d, P (f d).1) -> safe P (api f).
Proof.
  intros Hf. unfold api. apply (safe_bind P); [intros E w; by apply wp_drv|]. intros a Ha.
  apply (safe_bind (fun _ => True)); [intros E w; by apply wp_drv|]. intros l _.
  eapply safe_bind; [apply noise_call_backs|]. intros _ _. by apply safe_ret.
Qed.
Lemma noise_api {A} (f : D -> A * D) : noise (api f).
Proof. by apply safe_api. Qed.
Lemma noise_msleep ms : noise (msleep ms).
Proof. apply noise_api. Qed.

(** A test goes on behind something harmless. *)
Lemma verdict_after {A} (m : M W A) (k : A -> M W Z) :
  noise m -> (forall a, safe verdict (k a)) -> safe verdict (m ≫= k).
Proof. intros Hm Hk. eapply safe_bind; [exact Hm|]. intros a _. apply Hk. Qed.
Lemma verdict_UNLESS f rc e s a k : safe verdict k -> safe verdict (UNLESS f rc e s a k).
Proof.
  intros Hk. unfold UNLESS. destruct (negb _); [|done].
  apply verdict_after; [done|]. intros _. apply safe_ret. by right; left.
Qed.
Lemma verdict_pass : safe verdict (mret PASS).
Proof. apply safe_ret. by left. Qed.
Lemma verdict_fail : safe verdict (mret FAIL).
Proof. apply safe_ret. by right; left. Qed.
Lemma verdict_inval : safe verdict (mret INVAL).
Proof. apply safe_ret. by right; right. Qed.

(** Arrays. *)
Lemma safe_store o v a : (o + length v <= length a)%nat -> safe (fun b => length b = length a) (store o v a).
Proof.
  intros Hl. unfold store. rewrite (proj2 (Nat.leb_le _ _) Hl). apply safe_ret. by apply length_poke.
Qed.
Lemma safe_fill n o ks : (o + n <= length ks)%nat -> safe (fun b => length b = length ks) (fill_key n o ks).
Proof.
  revert o ks. induction n as [|n IH]; intros o ks Hl; cbn [fill_key]; [by apply safe_ret|].
  eapply safe_bind; [by apply (safe_any (fun _ => True))|]. intros x _.
  eapply safe_bind; [apply safe_store; simpl; lia|]. intros b Hb. cbv beta in Hb. rewrite <- Hb. apply IH. lia.
Qed.
Lemma noise_print_bytes n l : (n <= length l)%nat -> noise (print_bytes n l).
Proof.
  revert l. induction n as [|n IH]; intros l Hl; [done|]. destruct l as [|b l]; simpl in Hl; [lia|].
  apply noise_bind; [done|]. intros _. apply IH. lia.
Qed.
Lemma noise_print_key s l bits : (Z.to_nat (Z.quot (bits + 7) 8) <= length l)%nat -> noise (print_key s l bits).
Proof.
  intros Hl. unfold print_key. apply noise_bind; [done|]. intros _.
  apply noise_bind; [by apply noise_print_bytes|done].
Qed.
Lemma noise_when b m : noise m -> noise (when b m).
Proof. by destruct b. Qed.
Lemma safe_get_key kr bits : length kr = 32%nat -> safe (fun x => length x.2 = 32%nat) (get_key kr bits).
Proof.
  intros Hk. unfold get_key. apply (safe_bind (fun x => (length x.2 <= 32)%nat)).
  { apply safe_api. intros d. cbv beta. pose proof (get_law true bits d). pose proof key_size as [_ H32]. lia. }
  intros [rc data] Hd. cbn [snd] in Hd. eapply safe_bind; [apply safe_store; lia|].
  intros b Hb. cbv beta in Hb. apply safe_ret. simpl. lia.
Qed.
End Safe.

Create HintDb dryice discriminated.
#[export] Hint Constants Opaque : dryice.
#[export] Hint Resolve noise_getg noise_setg noise_pr_info noise_pr_test noise_pr_step noise_seed
  noise_api noise_msleep verdict_pass verdict_fail verdict_inval : dryice.
(** One step through a test. *)
Ltac safe_step :=
  first
    [ lazymatch goal with |- safe verdict (UNLESS _ _ _ _ _ _) => apply verdict_UNLESS end
    | solve [auto with dryice nocore]
    | lazymatch goal with
      | |- safe verdict (get_key ?kr _ ≫= _) =>
          eapply safe_bind; [by apply safe_get_key|intros [? ?] ?; cbn [snd] in *]
      | |- safe verdict (_ ≫= _) => apply verdict_after; [solve [auto with dryice nocore]|intros ?]
      | |- safe verdict (if ?b then _ else _) => destruct b
      | |- safe verdict (match ?x with (_, _) => _ end) => destruct x
      end ].
Ltac safe_steps := repeat safe_step.

Section Total.
Context {D : Type} `{DL : DryIceLaws D}.
Abbreviation W := (world D globals).

Lemma key_ret_length : length (key_ret0 (D := D)) = 32%nat.
Proof. unfold key_ret0. rewrite length_replicate. by rewrite (proj2 key_size). Qed.
Lemma key_store_length : length key_store0 = 36%nat.
Proof. done. Qed.

Lemma key_rounds_safe n o bits ks kr (k : list Z -> list Z -> M W Z) :
  length ks = 36%nat -> (o <= 1)%nat -> length kr = 32%nat -> 0 <= bits -> bits + 8 * Z.of_nat n <= 264 ->
  (forall ks kr, length ks = 36%nat -> length kr = 32%nat -> safe verdict (k ks kr)) ->
  safe verdict (key_rounds n o bits ks kr k).
Proof.
  intros Hks Ho Hkr Hb Hn Hk. revert bits ks kr Hks Hkr Hb Hn.
  induction n as [|n IH]; intros bits ks kr Hks Hkr Hb Hn; cbn [key_rounds]; [by apply Hk|].
  rewrite (proj2 key_size). change (Z.to_nat 32) with 32%nat.
  eapply safe_bind; [apply safe_fill; lia|]. intros ks' Hks'. cbv beta in Hks'. do 3 safe_step.
  eapply safe_bind; [by apply safe_get_key|]. intros [rc kr'] Hkr'. cbn [snd] in Hkr'. do 3 safe_step.
  apply verdict_after.
  { assert (Z.to_nat (Z.quot (bits + 7) 8) <= 32)%nat as Hq.
    { rewrite Z.quot_div_nonneg by lia. assert ((bits + 7) / 8 < 33) by (apply Z.div_lt_upper_bound; lia). lia. }
    apply noise_when, noise_bind; [apply noise_print_key; lia|]. intros _. apply noise_print_key. lia. }
  intros _. apply verdict_UNLESS, IH; lia.
Qed.

Lemma test_setp_0_safe : safe verdict (test_setp_0 (D := D)).
Proof.
  unfold test_setp_0, basic_set, release_ok, release_key, set_key. safe_steps.
  - apply key_rounds_safe; [done|lia|apply key_ret_length|lia|lia|]. intros ks kr Hks Hkr. safe_steps.
    apply key_rounds_safe; [done|lia|done|lia|lia|]. intros. apply verdict_pass.
Qed.

Lemma word_key_round_safe ks kr bits n (k : list Z -> M W Z) :
  length kr = 32%nat -> (forall kr, length kr = 32%nat -> safe verdict (k kr)) ->
  safe verdict (word_key_round ks kr bits n k).
Proof.
  intros Hkr Hk. unfold word_key_round, set_key, release_ok, release_key. safe_steps.
  apply verdict_after; [|intros _; by apply verdict_UNLESS, Hk].
  apply noise_when, noise_print_key. rewrite (proj1 key_size). change (Z.to_nat _) with 32%nat. lia.
Qed.
Lemma test_setp_1_safe : safe verdict (test_setp_1 (D := D)).
Proof.
  unfold test_setp_1, basic_set, release_ok, release_key, set_key. safe_steps.
  eapply safe_bind; [by apply safe_store, Nat.leb_le|]. intros ks Hks. safe_steps.
  apply word_key_round_safe; [apply key_ret_length|]. intros kr Hkr. safe_steps.
  apply word_key_round_safe; [done|]. intros kr' Hkr'. safe_steps.
Qed.
Lemma test_setp_safe : safe verdict (test_setp (D := D)).
Proof.
  unfold test_setp. safe_steps; [apply test_setp_0_safe|apply test_setp_1_safe|..];
    unfold test_setp_2, test_setp_3, test_setp_4, test_setp_lock, basic_set, release_ok, release_key, set_key;
    safe_steps; pose proof key_ret_length; safe_steps.
Qed.
Lemma test_getp_safe : safe verdict (test_getp (D := D)).
Proof.
  unfold test_getp, basic_set, release_ok, release_key, set_key. pose proof key_ret_length. safe_steps.
Qed.
Lemma select_range_safe n i (k : M W Z) : safe verdict k -> safe verdict (select_range n i k).
Proof. intros Hk. revert i. induction n as [|n IH]; intros i; [done|]. cbn [select_range]. safe_steps. Qed.
Lemma tamper_loop_safe fuel tries :
  0 <= tries -> 1002 - tries <= Z.of_nat fuel -> (0 < fuel)%nat ->
  safe verdict (tamper_loop (D := D) fuel tries).
Proof.
  revert tries. induction fuel as [|fuel IH]; intros tries H0 Hf Hp; [lia|]. cbn [tamper_loop].
  assert (safe verdict (if 10 * 100 <? tries
    then pr_test (D := D) "test_tamp" "timed out waiting for tamper event\n" [];; mret FAIL
    else msleep 10;; tamper_loop fuel (tries + 1))) as Hrest.
  { destruct (Z.ltb_spec (10 * 100) tries); [safe_steps|].
    apply verdict_after; [apply noise_msleep|]. intros _. apply IH; lia. }
  cbv zeta. safe_steps; exact Hrest.
Qed.
Lemma test_tamp_safe : safe verdict (test_tamp (D := D)).
Proof. unfold test_tamp. safe_steps. apply tamper_loop_safe; [lia|by unfold tamper_fuel|by unfold tamper_fuel; lia]. Qed.
Lemma small_tests_safe :
  safe verdict (test_relp (D := D)) /\ safe verdict (test_setr (D := D)) /\ safe verdict (test_sel (D := D)) /\
  safe verdict (test_rel (D := D)) /\ safe verdict (test_chk (D := D)) /\ safe verdict (test_busy (D := D)).
Proof.
  split_and!; unfold test_relp, test_setr, test_sel, test_rel, test_chk, test_busy, basic_set, release_key,
    set_key, register, wait_done, select_lock, busy; safe_steps.
  apply select_range_safe, verdict_pass.
Qed.
Lemma help_safe : safe verdict (help (D := D)).
Proof. intros E w. by left. Qed.

Lemma run_test_safe t : safe verdict (run_test (D := D) t).
Proof.
  destruct small_tests_safe as (? & ? & ? & ? & ? & ?). destruct t; simpl;
    auto using help_safe, test_setp_safe, test_getp_safe, test_tamp_safe.
Qed.

End Total.

(** ** A driver

    It keeps one key, and shows it through [view]; it does nothing else. *)
Definition bits_ok (bits : Z) : bool := (0 <=? bits) && (bits <=? 256) && (bits mod 8 =? 0).
Definition sim_dryice (view : list Z -> list Z) : DryIce (option (list Z)) := {|
  DI_SUCCESS := 0; DI_ERR_BUSY := 1; DI_ERR_STATE := 2; DI_ERR_INUSE := 3; DI_ERR_UNSET := 4;
  DI_ERR_WRITE := 5; DI_ERR_INVAL := 6; DI_ERR_FAIL := 7; DI_ERR_HLOCK := 8; DI_ERR_SLOCK := 9;
  DI_ERR_NOMEM := 10; DI_KEY_FK := 0; DI_KEY_FRK := 4;
  DI_FUNC_FLAG_ASYNC := 1; DI_FUNC_FLAG_READ_LOCK := 2; DI_FUNC_FLAG_WRITE_LOCK := 4;
  DI_FUNC_FLAG_HARD_LOCK := 8; DI_FUNC_FLAG_WORD_KEY := 16;
  MAX_KEY_LEN := 256; MAX_KEY_BYTES := 32; stack := 0x1000;
  dryice_set_programmed_key p bits _ d :=
    match d, p with
    | Some _, _ => (3, d)
    | None, Some (_, l) => if bits_ok bits then (0, Some (take (Z.to_nat (bits / 8)) l)) else (6, d)
    | None, None => (6, d)
    end;
  dryice_get_programmed_key p bits d :=
    match d with
    | Some k => if p && bits_ok bits then ((0, take (Z.to_nat (bits / 8)) (view k)), d) else ((6, []), d)
    | None => ((4, []), d)
    end;
  dryice_release_programmed_key d := (if d is Some _ then 0 else 4, None);
  dryice_set_random_key _ d := (0, d);
  dryice_select_key _ _ d := (0, d);
  dryice_release_key_selection d := (0, d);
  dryice_check_key _ d := ((0, 0), d);
  dryice_get_tamper_event _ _ d := ((2, (0, 0)), d);
  dryice_register_callback _ _ d := (0, d);
  di_msleep _ d := d;
  di_interrupts d := ([], d);
|}.
Lemma bits_ok_spec bits : bits_ok bits = true <-> 0 <= bits <= 256 /\ bits mod 8 = 0.
Proof. unfold bits_ok. rewrite !andb_true_iff, !Z.leb_le, Z.eqb_eq. tauto. Qed.
Lemma sim_dryice_laws view : @DryIceLaws _ (sim_dryice view).
Proof.
  split; try done.
  - by apply (bool_decide_unpack _).
  - intros p bits [k|]; cbn [dryice_get_programmed_key sim_dryice]; [|done]. destruct p, (bits_ok bits) eqn:Hb; try done. cbn [fst snd andb].
    apply bits_ok_spec in Hb as [Hb _]. rewrite length_take.
    cbn [MAX_KEY_BYTES sim_dryice].
    assert (bits / 8 <= 32) by (apply Z.div_le_upper_bound; lia).
    lia.
Qed.


(** ** What the driver sees *)
Section Driver.
Context {D : Type} `{DryIce D}.
Abbreviation W := (world D globals).
Implicit Types (w : W) (E : Z -> W -> Prop) (d : D).

Definition quiet (d : D) : D := (di_interrupts d).2.
(** The callbacks change the counters only. *)
Lemma call_backs_dev l E w :
  wp (call_backs l) (fun _ w' => dev w' = dev w /\ nr (glob w') = nr (glob w)) E w.
Proof.
  revert w. induction l as [|x l IH]; intros w; [done|]. cbn [call_backs]. apply wp_bind.
  eapply (wp_mono _ _ (fun _ w' => dev w' = dev w /\ nr (glob w') = nr (glob w))).
  - destruct x as [[[] rc] cookie]; [|done..]. unfold call_back, setp_callback. apply wp_bind.
    unfold when. by destruct (negb _).
  - intros _ w1 [<- <-]. apply IH.
Qed.
Lemma wp_api {A} (f : D -> A * D) (Q : A -> W -> Prop) E w :
  (forall w', dev w' = quiet (f (dev w)).2 -> nr (glob w') = nr (glob w) -> Q (f (dev w)).1 w') ->
  wp (api f) Q E w.
Proof.
  intros HQ. unfold api. apply wp_bind, wp_drv, wp_bind, wp_drv, wp_bind.
  eapply wp_mono; [apply call_backs_dev|]. intros _ w' [Hd Hn]. apply wp_ret. by apply HQ.
Qed.
Lemma wp_pr_test f s a (Q : unit -> W -> Prop) E w :
  (forall p, Q tt (emit p w)) -> wp (pr_test f s a) Q E w.
Proof. intros HQ. unfold pr_test. apply wp_bind, wp_gets. apply HQ. Qed.

(** ** Waiting for a tamper event *)
Definition answer (d : D) : Z * (Z * Z) := (dryice_get_tamper_event true 0 d).1.
Definition question (d : D) : D := quiet (dryice_get_tamper_event true 0 d).2.
(** The driver at the k-th question of the loop. *)
Definition waited (k : nat) (d : D) : D := Nat.iter k (fun d => quiet (di_msleep 10 (question d))) d.
(** An answer that lets the loop go on; one that ends it with success. *)
Definition go_on (a : Z * (Z * Z)) : bool :=
  negb (a.1 =? DI_SUCCESS) && ((a.1 =? DI_ERR_STATE) || (a.1 =? 0)).
Definition tampered (a : Z * (Z * Z)) : bool := (a.1 =? DI_SUCCESS) && negb (a.2.1 =? 0).
Definition event_within (n : Z) (d : D) : Prop :=
  exists k, Z.of_nat k < n /\ (forall j, (j < k)%nat -> go_on (answer (waited j d)) = true) /\
    tampered (answer (waited k d)) = true.

Lemma event_now n d : 0 < n -> tampered (answer d) = true -> event_within n d.
Proof. intros Hn Ht. exists 0%nat. split; [lia|]. split; [lia|done]. Qed.
Lemma event_later n d : go_on (answer d) = true ->
  event_within n d <-> event_within (n - 1) (quiet (di_msleep 10 (question d))).
Proof.
  intros Hg. assert (forall k, waited (S k) d = waited k (quiet (di_msleep 10 (question d)))) as Hs.
  { intros k. unfold waited. by rewrite Nat.iter_succ_r. }
  split.
  - intros ([|k] & Hk & Hb & Ht).
    { unfold tampered, go_on, waited in *. simpl in Ht. by destruct (_ =? DI_SUCCESS). }
    exists k. split; [lia|]. rewrite <- Hs. split; [|done]. intros j Hj. rewrite <- Hs. apply Hb. lia.
  - intros (k & Hk & Hb & Ht). exists (S k). split; [lia|]. rewrite Hs. split; [|done].
    intros [|j] Hj; [done|]. rewrite Hs. apply Hb. lia.
Qed.
Lemma event_never n d :
  go_on (answer d) = false -> tampered (answer d) = false -> ~ event_within n d.
Proof.
  intros Hg Ht ([|k] & _ & Hb & Hk).
  - change (waited 0 d) with d in Hk. congruence.
  - specialize (Hb 0%nat ltac:(lia)). change (waited 0 d) with d in Hb. congruence.
Qed.
Lemma event_none n d : n <= 0 -> ~ event_within n d.
Proof. intros Hn (k & Hk & _). lia. Qed.

Definition decides (P : Prop) (r : Z) : Prop := (r = PASS /\ P) \/ (r = FAIL /\ ~ P).

Lemma tamper_loop_wp fuel tries E w :
  0 <= tries <= 1001 -> Z.of_nat fuel = 1002 - tries ->
  wp (tamper_loop fuel tries) (fun r _ => decides (event_within (1002 - tries) (dev w)) r) E w.
Proof.
  revert tries w. induction fuel as [|fuel IH]; intros tries w Ht Hf; [lia|]. cbn [tamper_loop].
  apply wp_bind, wp_api. intros w1 Hd1 Hn1. fold (question (dev w)) in Hd1.
  pose proof (event_later (1002 - tries) (dev w)) as Hlater.
  pose proof (event_never (1002 - tries) (dev w)) as Hnever.
  pose proof (event_now (1002 - tries) (dev w) ltac:(lia)) as Hnow.
  unfold answer, go_on, tampered in *.
  destruct (dryice_get_tamper_event true 0 (dev w)).1 as [rc [events ts]]. cbn [fst snd] in *. cbv zeta.
  set (rest := if 10 * 100 <? tries then _ else _).
  assert (go_on (rc, (events, ts)) = true ->
    wp rest (fun r _ => decides (event_within (1002 - tries) (dev w)) r) E w1) as Hrest.
  { unfold go_on, rest. cbn [fst snd]. intros Hg. specialize (Hlater Hg).
    destruct (Z.ltb_spec (10 * 100) tries).
    - apply wp_bind, wp_pr_test. intros p. apply wp_ret. right. split; [done|]. rewrite Hlater.
      apply event_none. lia.
    - apply wp_bind, wp_api. intros w2 Hd2 Hn2. eapply wp_mono; [apply IH; lia|].
      intros r w3. cbv beta. rewrite Hd2. cbn [snd]. rewrite Hd1. unfold decides. rewrite Hlater.
      by replace (1002 - (tries + 1)) with (1002 - tries - 1) by lia. }
  unfold go_on in Hrest. cbn [fst snd] in Hrest. unfold UNLESS.
  destruct (rc =? DI_SUCCESS); simpl in *.
  - destruct (events =? 0); simpl in *.
    + apply wp_bind, wp_pr_test. intros p. apply wp_ret. right. by auto.
    + apply wp_bind, wp_pr_test. intros p. apply wp_bind, wp_pr_test. intros q. apply wp_ret. left. by auto.
  - destruct (rc =? DI_ERR_STATE); simpl in *; [by auto|]. destruct (rc =? 0); simpl in *; [by auto|].
    apply wp_bind, wp_pr_test. intros p. apply wp_ret. right. by auto.
Qed.

(** C23: The tamper test decides after at most 1003 questions: it passes exactly
    when the driver is not in failure state at first and then, after nothing
    but answers that no event has been recorded yet, reports an event with a
    cause at one of the first 1002 questions; otherwise it fails.  It always
    ends. *)
Theorem tamper_test_decides w :
  wp test_tamp (fun r _ =>
    decides ((answer (dev w)).1 <> DI_SUCCESS /\ event_within 1002 (question (dev w))) r)
    (fun _ _ => False) w.
Proof.
  unfold test_tamp. apply wp_bind, wp_api. intros w1 Hd1 _. fold (answer (dev w)).
  destruct (answer (dev w)) as [rc [events ts]]. cbn [fst snd].
  destruct (Z.eqb_spec rc DI_SUCCESS) as [->|Hrc].
  - do 3 (apply wp_bind, wp_pr_test; intros ?). apply wp_ret. right. split; [done|].
    by intros [Hne _].
  - apply wp_bind, wp_printk. eapply wp_mono; [apply tamper_loop_wp; [lia|done]|].
    intros r w2 [[-> He]|[-> He]]; cbn [dev emit world_output] in He; rewrite Hd1 in He;
      [by left|right; split; [done|]; by intros [_ ?]].
Qed.
End Driver.
