(* ===== verification/DryiceKeys.v ===== *)
(** * The key tests of the DryIce module

    They pass on every driver that keeps the key it is given ([KeepsKeys]),
    and [setp] does not pass on a driver that returns the same byte at some
    position of the key whatever was set: the keys of its last two rounds
    differ everywhere. *)
From S2P Require Import Prelude CInt CMonad CStruct Kernel SimKernel PortableOs Dryice DryiceTests DryiceSpec.

Definition valid_bits (bits : Z) : Prop := 0 <= bits <= 256 /\ bits mod 8 = 0.
Definition bytes_of (bits : Z) : nat := Z.to_nat (bits / 8).

(** The programmed key of an unlocked driver: absent, or some bytes. *)
Class KeepsKeys (D : Type) `{DryIce D} := {
  key_of : D -> option (list Z);
  set_law p l bits d : key_of d = None -> valid_bits bits -> (bytes_of bits <= length l)%nat ->
    (dryice_set_programmed_key (Some (p, l)) bits 0 d).1 = DI_SUCCESS /\
    key_of (dryice_set_programmed_key (Some (p, l)) bits 0 d).2 = Some (take (bytes_of bits) l);
  set_again_law p l bits k d : key_of d = Some k -> valid_bits bits ->
    (dryice_set_programmed_key (Some (p, l)) bits 0 d).1 = DI_ERR_INUSE /\
    key_of (dryice_set_programmed_key (Some (p, l)) bits 0 d).2 = Some k;
  set_invalid_law p bits d : key_of d = None -> p = None \/ ~ valid_bits bits ->
    (dryice_set_programmed_key p bits 0 d).1 = DI_ERR_INVAL /\
    key_of (dryice_set_programmed_key p bits 0 d).2 = None;
  get_key_law bits k d : key_of d = Some k -> valid_bits bits -> (bytes_of bits <= length k)%nat ->
    (dryice_get_programmed_key true bits d).1 = (DI_SUCCESS, take (bytes_of bits) k) /\
    key_of (dryice_get_programmed_key true bits d).2 = Some k;
  get_unset_law bits d : key_of d = None -> valid_bits bits ->
    (dryice_get_programmed_key true bits d).1.1 = DI_ERR_UNSET /\
    key_of (dryice_get_programmed_key true bits d).2 = None;
  get_invalid_law p bits k d : key_of d = Some k -> p = false \/ ~ valid_bits bits ->
    (dryice_get_programmed_key p bits d).1.1 = DI_ERR_INVAL /\
    key_of (dryice_get_programmed_key p bits d).2 = Some k;
  release_law d :
    (dryice_release_programmed_key d).1 = (if key_of d is Some _ then DI_SUCCESS else DI_ERR_UNSET) /\
    key_of (dryice_release_programmed_key d).2 = None;
  quiet_law d : key_of (quiet d) = key_of d;
}.

Section Passes.
Context {D : Type} `{DL : DryIceLaws D} `{KK : !KeepsKeys D}.
Abbreviation W := (world D globals).
Implicit Types (w : W) (E : Z -> W -> Prop) (Q : Z -> W -> Prop).

Definition keyed (k : option (list Z)) w : Prop := key_of (dev w) = k.

Lemma wp_UNLESS f rc s a m Q E w : wp m Q E w -> wp (UNLESS f rc rc s a m) Q E w.
Proof. unfold UNLESS. by rewrite Z.eqb_refl. Qed.
Lemma keyed_emit k p w : keyed k w -> keyed k (emit p w).
Proof. done. Qed.

(** The calls, by what they do to the key. *)
Lemma wp_release k Q E w : keyed k w ->
  (forall w', keyed None w' -> Q (if k is Some _ then DI_SUCCESS else DI_ERR_UNSET) w') -> wp release_key Q E w.
Proof.
  intros Hk HQ. apply wp_api. intros w' Hd _. destruct (release_law (dev w)) as [-> Hr].
  rewrite Hk. apply HQ. unfold keyed. by rewrite Hd, quiet_law.
Qed.
Lemma wp_set o ks bits Q E w : keyed None w -> valid_bits bits -> (bytes_of bits <= length (drop o ks))%nat ->
  (forall w', keyed (Some (take (bytes_of bits) (drop o ks))) w' -> Q DI_SUCCESS w') ->
  wp (set_key o ks bits 0) Q E w.
Proof.
  intros Hk Hv Hl HQ. apply wp_api. intros w' Hd _.
  destruct (set_law (stack + Z.of_nat o) (drop o ks) bits (dev w) Hk Hv Hl) as [Hr Hk'].
  change (key_at o ks) with (Some (stack + Z.of_nat o, drop o ks)) in *. rewrite Hr.
  apply HQ. unfold keyed. by rewrite Hd, quiet_law.
Qed.
Lemma wp_set_again k o ks bits Q E w : keyed (Some k) w -> valid_bits bits ->
  (forall w', keyed (Some k) w' -> Q DI_ERR_INUSE w') -> wp (set_key o ks bits 0) Q E w.
Proof.
  intros Hk Hv HQ. apply wp_api. intros w' Hd _.
  destruct (set_again_law (stack + Z.of_nat o) (drop o ks) bits k (dev w) Hk Hv) as [Hr Hk'].
  change (key_at o ks) with (Some (stack + Z.of_nat o, drop o ks)) in *. rewrite Hr.
  apply HQ. unfold keyed. by rewrite Hd, quiet_law.
Qed.
Lemma wp_set_invalid p bits Q E w : keyed None w -> p = None \/ ~ valid_bits bits ->
  (forall w', keyed None w' -> Q DI_ERR_INVAL w') -> wp (api (dryice_set_programmed_key p bits 0)) Q E w.
Proof.
  intros Hk Hp HQ. apply wp_api. intros w' Hd _.
  destruct (set_invalid_law p bits (dev w) Hk Hp) as [-> Hk']. apply HQ. unfold keyed. by rewrite Hd, quiet_law.
Qed.

Lemma wp_store (P : list Z -> W -> Prop) o v a E w :
  (o + length v <= length a)%nat -> P (poke o v a) w -> wp (store o v a) P E w.
Proof. intros Hl HP. unfold store. by rewrite (proj2 (Nat.leb_le _ _) Hl). Qed.
Lemma wp_get k bits kr (Q : Z * list Z -> W -> Prop) E w :
  keyed (Some k) w -> valid_bits bits -> (bytes_of bits <= length k)%nat -> length kr = 32%nat ->
  (forall w' kr', keyed (Some k) w' -> length kr' = 32%nat -> take (bytes_of bits) kr' = take (bytes_of bits) k ->
     Q (DI_SUCCESS, kr') w') ->
  wp (get_key kr bits) Q E w.
Proof.
  intros Hk Hv Hl Hkr HQ. unfold get_key. apply wp_bind, wp_api. intros w' Hd _.
  destruct (get_key_law bits k (dev w) Hk Hv Hl) as [-> Hk'].
  pose proof (length_take_le k (bytes_of bits) Hl) as Hlt.
  assert (bytes_of bits <= 32)%nat.
  { unfold bytes_of. destruct Hv. assert (bits / 8 <= 32) by (apply Z.div_le_upper_bound; lia). lia. }
  apply wp_bind, wp_store; [lia|]. apply wp_ret. apply HQ.
  - unfold keyed. by rewrite Hd, quiet_law.
  - rewrite length_poke; lia.
  - unfold poke. rewrite take_0, Nat.add_0_l. change ([] ++ ?x) with x. simpl.
    rewrite <- Hlt at 1. by rewrite take_app_length.
Qed.
(** An answer other than success; what it stores does not matter. *)
Lemma wp_get_error k code bits kr (Q : Z * list Z -> W -> Prop) E w :
  keyed k w -> length kr = 32%nat ->
  (dryice_get_programmed_key true bits (dev w)).1.1 = code ->
  key_of (dryice_get_programmed_key true bits (dev w)).2 = k ->
  (forall w' kr', keyed k w' -> length kr' = 32%nat -> Q (code, kr') w') ->
  wp (get_key kr bits) Q E w.
Proof.
  intros Hk Hkr Hc Hk' HQ. unfold get_key. apply wp_bind, wp_api. intros w' Hd _.
  pose proof (get_law true bits (dev w)) as Hlen. rewrite (proj2 key_size) in Hlen.
  destruct (dryice_get_programmed_key true bits (dev w)) as [[c data] d]. cbn [fst snd] in *. subst c.
  apply wp_bind, wp_store; [lia|]. apply wp_ret. apply HQ; [|rewrite length_poke; lia].
  unfold keyed. by rewrite Hd, quiet_law.
Qed.

Lemma success_not_fail : DI_SUCCESS <> DI_ERR_FAIL.
Proof.
  pose proof codes_law as Hc. apply NoDup_cons in Hc as [Hc _]. intros He. apply Hc.
  rewrite He, !elem_of_cons. tauto.
Qed.
Lemma max_valid : valid_bits MAX_KEY_LEN.
Proof. rewrite (proj1 key_size). by split. Qed.
Lemma max_bytes : bytes_of MAX_KEY_LEN = 32%nat.
Proof. by rewrite (proj1 key_size). Qed.
Lemma too_large : ~ valid_bits (MAX_KEY_LEN + 8).
Proof. rewrite (proj1 key_size). intros []. lia. Qed.
Lemma not_mult : ~ valid_bits 1.
Proof. by intros []. Qed.

Lemma wp_fill n o ks E w : (o + n <= length ks)%nat ->
  wp (fill_key n o ks) (fun ks' w' => length ks' = length ks /\ dev w' = dev w) E w.
Proof.
  revert o ks w. induction n as [|n IH]; intros o ks w Hl; [done|]. cbn [fill_key].
  apply wp_bind, wp_bind, wp_modify, wp_gets, wp_bind, wp_store; [simpl; lia|].
  eapply wp_mono; [apply IH; rewrite length_poke; simpl; lia|]. intros ks' w' [-> ->].
  by rewrite length_poke by (simpl; lia).
Qed.

Lemma key_rounds_pass n o bits ks kr k Q E w :
  keyed None w -> length ks = 36%nat -> (o <= 1)%nat -> length kr = 32%nat ->
  0 <= bits -> bits mod 8 = 0 -> bits + 8 * Z.of_nat n <= 264 ->
  (forall ks kr w, keyed None w -> length ks = 36%nat -> length kr = 32%nat -> wp (k ks kr) Q E w) ->
  wp (key_rounds n o bits ks kr k) Q E w.
Proof.
  intros Hw Hks Ho Hkr Hb Hb8 Hn Hk. revert bits ks kr w Hw Hks Hkr Hb Hb8 Hn.
  induction n as [|n IH]; intros bits ks kr w Hw Hks Hkr Hb Hb8 Hn; cbn [key_rounds]; [by apply Hk|].
  rewrite (proj2 key_size). change (Z.to_nat 32) with 32%nat.
  assert (valid_bits bits) as Hv by (split; [lia|done]).
  assert (bytes_of bits <= 32)%nat as Hle.
  { unfold bytes_of. assert (bits / 8 < 33) by (apply Z.div_lt_upper_bound; lia). lia. }
  apply wp_bind. eapply wp_mono; [apply wp_fill; lia|]. intros ks' w1 [Hks' Hd1].
  apply wp_bind, wp_printk, wp_bind.
  change (api (dryice_set_programmed_key (key_at o ks') bits 0)) with (set_key o ks' bits 0).
  apply wp_set; [unfold keyed; by simpl; rewrite Hd1|done|rewrite length_drop; lia|].
  intros w2 Hw2. apply wp_UNLESS. cbv zeta. apply wp_bind.
  eapply wp_get; [exact Hw2|done|rewrite length_take, length_drop; lia|by rewrite length_replicate|].
  intros w3 kr' Hw3 Hkr' Heq. apply wp_UNLESS, wp_bind. eapply wp_release; [exact Hw3|]. intros w4 Hw4.
  apply wp_UNLESS. rewrite Z.quot_div_nonneg by lia. fold (bytes_of bits). rewrite Heq, take_take, Nat.min_id.
  rewrite bool_decide_eq_true_2 by done.
  assert ((DI_SUCCESS =? DI_ERR_FAIL) = false) as -> by apply Z.eqb_neq, success_not_fail.
  apply wp_bind, wp_skip, wp_UNLESS. apply IH; try lia; try done.
  by rewrite <- Zplus_mod_idemp_l, Hb8.
Qed.

(** Releasing first: whatever was programmed before is gone. *)
Lemma basic_set_pass f m Q E w :
  (forall w', keyed (Some (take 32 key_store0)) w' -> wp m Q E w') -> wp (basic_set f m) Q E w.
Proof.
  intros Hm. unfold basic_set. apply wp_bind.
  eapply wp_release; [reflexivity|]. intros w1 Hw1. apply wp_bind, wp_bind, wp_gets, wp_printk.
  apply wp_bind, wp_set; [done|apply max_valid|rewrite max_bytes; by apply Nat.leb_le|].
  intros w2 Hw2. rewrite max_bytes in Hw2. apply wp_UNLESS. by apply Hm.
Qed.
Lemma release_ok_pass f k m Q E w :
  keyed (Some k) w -> (forall w', keyed None w' -> wp m Q E w') -> wp (release_ok f m) Q E w.
Proof.
  intros Hk Hm. unfold release_ok. apply wp_bind. eapply wp_release; [exact Hk|]. intros w1 Hw1.
  apply wp_UNLESS. by apply Hm.
Qed.
Lemma step_pass k f s (m : unit -> M W Z) Q E w :
  keyed k w -> (forall w', keyed k w' -> wp (m tt) Q E w') -> wp (pr_step f s ≫= m) Q E w.
Proof. intros Hk Hm. apply wp_bind, wp_bind, wp_gets, wp_printk. by apply Hm. Qed.

(** The world behind a call, under the names of the one before it. *)
Ltac renew w Hw := clear w Hw; intros w Hw.
Ltac say w Hw := eapply step_pass; [exact Hw|]; renew w Hw.

Lemma stack_aligned : Z.land stack 3 = 0 /\ Z.land (stack + 1) 3 <> 0.
Proof.
  pose proof stack_law as Hs. change 3 with (Z.ones 2). rewrite !Z.land_ones by lia. change (2 ^ 2) with 4.
  split; [done|]. by rewrite <- Zplus_mod_idemp_l, Hs.
Qed.

Lemma setp_0_pass E w :
  wp test_setp_0 (fun r w' => r = PASS /\ keyed None w') E w.
Proof.
  unfold test_setp_0. cbv zeta. apply basic_set_pass. intros w1 Hw1.
  say w1 Hw1. apply wp_bind.
  eapply wp_set_again; [exact Hw1|apply max_valid|]. renew w1 Hw1. apply wp_UNLESS.
  eapply release_ok_pass; [exact Hw1|]. renew w1 Hw1.
  say w1 Hw1. apply wp_bind, wp_set_invalid; [done|by left|].
  renew w1 Hw1. apply wp_UNLESS. say w1 Hw1.
  apply wp_bind, wp_set_invalid; [done|right; apply too_large|]. renew w1 Hw1. apply wp_UNLESS.
  say w1 Hw1.
  apply wp_bind, wp_set_invalid; [done|right; apply not_mult|]. renew w1 Hw1. apply wp_UNLESS.
  say w1 Hw1.
  apply wp_bind, wp_set; [done|by split|apply Nat.le_0_l|]. renew w1 Hw1. apply wp_UNLESS.
  eapply release_ok_pass; [exact Hw1|]. renew w1 Hw1.
  say w1 Hw1.
  destruct stack_aligned as [-> Hun%Z.eqb_neq]. cbn [Z.eqb negb]. apply wp_bind, wp_modify.
  apply key_rounds_pass; [done|done|lia|apply key_ret_length|lia|done|lia|].
  clear w1 Hw1. intros ks kr w1 Hw1 Hks Hkr. say w1 Hw1.
  rewrite Hun. apply wp_bind, wp_modify. apply key_rounds_pass; [done|done|lia|done|lia|done|lia|].
  clear w1 Hw1. intros ? ? w1 Hw1 _ _. by apply wp_ret.
Qed.

Lemma relp_pass E w : nr (glob w) = 0 ->
  wp test_relp (fun r w' => r = PASS /\ keyed None w') E w.
Proof.
  intros Hn. unfold test_relp. cbv zeta. apply wp_bind, wp_printk, wp_bind, wp_gets.
  cbn [glob emit world_output]. rewrite Hn. cbn [Z.eqb]. apply basic_set_pass. intros w1 Hw1.
  say w1 Hw1. apply wp_bind. eapply wp_release; [exact Hw1|]. renew w1 Hw1. apply wp_UNLESS.
  say w1 Hw1. apply wp_bind. eapply wp_release; [exact Hw1|]. renew w1 Hw1. apply wp_UNLESS.
  say w1 Hw1. by apply wp_ret.
Qed.

Lemma getp_pass E w : nr (glob w) = 0 ->
  wp test_getp (fun r w' => r = PASS /\ keyed None w') E w.
Proof.
  intros Hn. unfold test_getp. cbv zeta. apply wp_bind, wp_printk, wp_bind, wp_gets.
  cbn [glob emit world_output]. rewrite Hn. cbn [Z.eqb]. pose proof key_ret_length as Hl0.
  apply wp_bind. eapply wp_release; [reflexivity|]. intros w1 Hw1. say w1 Hw1. apply wp_bind.
  destruct (get_unset_law MAX_KEY_LEN (dev w1) Hw1 max_valid) as [Hc Hk].
  eapply wp_get_error; [exact Hw1|done|exact Hc|exact Hk|]. clear w1 Hw1 Hc Hk. intros w1 kr Hw1 Hkr.
  apply wp_UNLESS. say w1 Hw1.
  apply wp_bind, wp_set; [done|apply max_valid|rewrite max_bytes; by apply Nat.leb_le|].
  renew w1 Hw1. rewrite max_bytes in Hw1. apply wp_UNLESS, wp_bind.
  eapply wp_get; [exact Hw1|apply max_valid|by rewrite max_bytes; apply Nat.leb_le|done|].
  clear w1 Hw1 kr Hkr. intros w1 kr Hw1 Hkr _. apply wp_UNLESS. say w1 Hw1. apply wp_bind, wp_api.
  intros w2 Hd _. destruct (get_invalid_law false MAX_KEY_LEN _ (dev w1) Hw1 ltac:(by left)) as [Hc Hk].
  destruct (dryice_get_programmed_key false MAX_KEY_LEN (dev w1)) as [[c data] d]. cbn [fst snd] in *. subst c.
  assert (keyed (Some (take 32 key_store0)) w2) as Hw2 by (unfold keyed; by rewrite Hd, quiet_law).
  clear w1 Hw1 Hd Hk. apply wp_UNLESS.
  say w2 Hw2. apply wp_bind. destruct (get_invalid_law true (MAX_KEY_LEN + 8) _ (dev w2) Hw2 ltac:(right; apply too_large)) as [Hc Hk].
  eapply wp_get_error; [exact Hw2|done|exact Hc|exact Hk|]. clear w2 Hw2 Hc Hk kr Hkr. intros w2 kr Hw2 Hkr. apply wp_UNLESS.
  say w2 Hw2. apply wp_bind. destruct (get_invalid_law true 1 _ (dev w2) Hw2 ltac:(right; apply not_mult)) as [Hc Hk].
  eapply wp_get_error; [exact Hw2|done|exact Hc|exact Hk|]. clear w2 Hw2 Hc Hk kr Hkr. intros w2 kr Hw2 Hkr. apply wp_UNLESS.
  say w2 Hw2. apply wp_bind. eapply wp_get; [exact Hw2|by split|apply Nat.le_0_l|done|].
  clear w2 Hw2 kr Hkr. intros w2 kr Hw2 Hkr _. apply wp_UNLESS. eapply release_ok_pass; [exact Hw2|].
  renew w2 Hw2. by apply wp_ret.
Qed.

Lemma setp_pass E w : nr (glob w) = 0 ->
  wp test_setp (fun r w' => r = PASS /\ keyed None w') E w.
Proof.
  intros Hn. unfold test_setp. apply wp_bind, wp_printk, wp_bind, wp_gets.
  cbn [glob emit world_output]. rewrite Hn. apply setp_0_pass.
Qed.

Lemma do_test_keeps (P : W -> Prop) tp E w : (forall p w, P w -> P (emit p w)) ->
  (forall w', dev w' = dev w -> glob w' = glob w -> wp (run_test (snd tp)) (fun r w => r = PASS /\ P w) E w') ->
  wp (do_test tp) (fun r w => r = PASS /\ P w) E w.
Proof.
  intros Hout Hrun. unfold do_test. apply wp_bind, wp_gets, wp_bind, wp_printk, wp_bind.
  eapply wp_mono; [by apply Hrun|]. intros r w' [-> HP]. apply wp_bind, wp_gets. cbn [Z.eqb PASS].
  apply wp_bind, wp_printk, wp_ret. by split; [|apply Hout].
Qed.

(** C22: On a driver that keeps the key it is given and answers invalid requests
    as its interface says, the three tests of the programmed key pass when
    they are run as number 0: loading the module with them returns 0, and
    leaves no key programmed, whatever the state it started from. *)
Theorem key_tests_pass w :
  nr (glob w) = 0 -> test (glob w) ∈ ["setp"; "relp"; "getp"]%string ->
  wp dryice_test_init (fun r w' => r = 0 /\ key_of (dev w') = None) (fun _ _ => False) w.
Proof.
  intros Hn Ht. unfold dryice_test_init. apply wp_bind, wp_printk, wp_bind, wp_gets, wp_bind, wp_gets.
  apply wp_bind, wp_printk. cbn [glob emit world_output].
  assert (exists tp, (forall none, find_test tests (test (glob w)) none = (rc ← do_test tp; mret (- rc))) /\
    forall E w', nr (glob w') = 0 -> wp (run_test (snd tp)) (fun r w => r = PASS /\ keyed None w) E w')
    as (tp & Hf & Hrun).
  { rewrite !elem_of_cons in Ht. destruct Ht as [->|[->|[->|[]%not_elem_of_nil]]].
    - exists ("setp"%string, setp_fn). split; [done|]. intros. by apply setp_pass.
    - exists ("relp"%string, relp_fn). split; [done|]. intros. by apply relp_pass.
    - exists ("getp"%string, getp_fn). split; [done|]. intros. by apply getp_pass. }
  rewrite Hf. apply wp_bind. eapply wp_mono.
  - apply (do_test_keeps (keyed None)); [by intros|]. intros w' _ Hg. apply Hrun. by rewrite Hg.
  - intros r w' [-> Hk]. by apply wp_ret.
Qed.
End Passes.

(** ** A byte that is stuck *)
Section Stuck.
Context {D : Type} `{DL : DryIceLaws D}.
Abbreviation W := (world D globals).
Implicit Types (w : W) (Q : Z -> W -> Prop) (E : Z -> W -> Prop).

(** Byte [j] of a full-length key reads as [s], whatever was set. *)
Definition stuck_at (j : nat) (s : Z) : Prop :=
  forall d, (dryice_get_programmed_key true MAX_KEY_LEN d).1.1 = DI_SUCCESS ->
    (dryice_get_programmed_key true MAX_KEY_LEN d).1.2 !! j = Some s.
Definition rand_is (x : Z) w : Prop := rand16_state (glob w) = x.

Lemma call_backs_rand l x E w : rand_is x w -> wp (call_backs l) (fun _ => rand_is x) E w.
Proof.
  revert w. induction l as [|y l IH]; intros w Hx; [done|]. cbn [call_backs]. apply wp_bind.
  apply (wp_mono _ _ (fun _ => rand_is x)); [|intros _; apply IH].
  destruct y as [[[] rc] cookie]; [|done..]. unfold call_back, setp_callback. apply wp_bind.
  unfold when. by destruct (negb _).
Qed.
Lemma wp_api_rand {A} (f : D -> A * D) x (R : A -> W -> Prop) E w : rand_is x w ->
  (forall w', rand_is x w' -> R (f (dev w)).1 w') -> wp (api f) R E w.
Proof.
  intros Hx HR. unfold api. apply wp_bind, wp_drv, wp_bind, wp_drv, wp_bind.
  eapply wp_mono; [apply (call_backs_rand _ x); exact Hx|]. intros [] w' Hw'. apply wp_ret. by apply HR.
Qed.
Lemma wp_api_any {A} (f : D -> A * D) (R : A -> W -> Prop) E w :
  (forall a w', R a w') -> wp (api f) R E w.
Proof. intros HR. apply (wp_api_rand f (rand16_state (glob w))); [done|]. intros w' _. apply HR. Qed.
Lemma wp_UNLESS_fail Q E w f rc e s a m : (forall w', Q FAIL w') ->
  (rc = e -> wp m Q E w) -> wp (UNLESS f rc e s a m) Q E w.
Proof.
  intros HF Hm. unfold UNLESS. destruct (Z.eqb_spec rc e); [by apply Hm|].
  apply wp_bind, wp_pr_test. intros p. apply wp_ret, HF.
Qed.

(** The bytes the generator fills a key with. *)
Definition key_byte (x : Z) (i : nat) : Z := Z.land (Nat.iter (S i) rand16_next x) 0xff.
Lemma fill_spec n o ks x E w : rand_is x w -> (o + n <= length ks)%nat ->
  wp (fill_key n o ks) (fun ks' w' => rand_is (Nat.iter n rand16_next x) w' /\ length ks' = length ks /\
    (forall i, (i < n)%nat -> ks' !! (o + i)%nat = Some (key_byte x i)) /\
    (forall i, (i < o)%nat -> ks' !! i = ks !! i)) E w.
Proof.
  revert o ks x w. induction n as [|n IH]; intros o ks x w Hx Hl; [apply wp_ret; repeat split; [done|lia]|].
  cbn [fill_key]. apply wp_bind, wp_bind, wp_modify, wp_gets, wp_bind, wp_store; [simpl; lia|].
  cbn [glob set_glob world_output rand16_state set_rand16]. rewrite Hx.
  eapply wp_mono; [apply (IH _ _ (rand16_next x)); [done|rewrite length_poke; simpl; lia]|].
  intros ks' w' (Hr & Hl' & Hb & Hlow). split_and!.
  - by rewrite Nat.iter_succ_r.
  - rewrite Hl', length_poke; simpl; lia.
  - intros [|i] Hi.
    + rewrite Hlow by lia. apply lookup_poke_in; simpl; lia.
    + replace (o + S i)%nat with (S o + i)%nat by lia. rewrite Hb by lia. unfold key_byte. by rewrite <- Nat.iter_succ_r.
  - intros i Hi. rewrite Hlow by lia. apply lookup_poke; simpl; lia.
Qed.

Section Rounds.
Context (j : nat) (s : Z) (Hst : stuck_at j s) (Hj : (j < 32)%nat).
Context (o : nat) (Ho : (o <= 1)%nat) (Q : Z -> W -> Prop) (E : Z -> W -> Prop) (HF : forall w, Q FAIL w).

Lemma wp_get_stuck bits kr x (R : Z * list Z -> W -> Prop) w :
  rand_is x w -> length kr = 32%nat ->
  (forall rc kr' w', rand_is x w' -> length kr' = 32%nat ->
     (rc = DI_SUCCESS -> bits = MAX_KEY_LEN -> kr' !! j = Some s) -> R (rc, kr') w') ->
  wp (get_key kr bits) R E w.
Proof.
  intros Hx Hkr HR. unfold get_key. apply wp_bind. eapply wp_api_rand; [exact Hx|]. intros w' Hx'.
  pose proof (get_law true bits (dev w)) as Hlen. rewrite (proj2 key_size) in Hlen.
  pose proof (Hst (dev w)) as Hs.
  assert (bits = MAX_KEY_LEN -> (dryice_get_programmed_key true bits (dev w)).1.1 = DI_SUCCESS ->
    (dryice_get_programmed_key true bits (dev w)).1.2 !! j = Some s) as Hs' by (by intros ->).
  clear Hs. destruct (dryice_get_programmed_key true bits (dev w)) as [[rc data] d]. cbn [fst snd] in *.
  apply wp_bind, wp_store; [lia|]. apply wp_ret, HR; [done|rewrite length_poke; lia|].
  intros Hrc Hbits. specialize (Hs' Hbits Hrc). pose proof (lookup_lt_Some _ _ _ Hs').
  change j with (0 + j)%nat. rewrite lookup_poke_in by lia. done.
Qed.

(** One round: the generator moves on by 32, and a full-length key has the
    stuck byte. *)
Lemma round_stuck n bits ks kr (k : list Z -> list Z -> M W Z) x w :
  rand_is x w -> length ks = 36%nat -> length kr = 32%nat -> 0 <= bits <= 256 ->
  (forall ks' kr' w', rand_is (Nat.iter 32 rand16_next x) w' -> length ks' = 36%nat -> length kr' = 32%nat ->
     (bits = MAX_KEY_LEN -> key_byte x j = s) -> wp (key_rounds n o (bits + 8) ks' kr' k) Q E w') ->
  wp (key_rounds (S n) o bits ks kr k) Q E w.
Proof.
  intros Hx Hks Hkr Hb Hk. cbn [key_rounds]. rewrite (proj2 key_size). change (Z.to_nat 32) with 32%nat.
  apply wp_bind. eapply wp_mono; [apply (fill_spec _ _ _ x); [done|lia]|].
  intros ks' w1 (Hx1 & Hks' & Hbytes & _). rewrite Hks in Hks'. specialize (Hbytes j Hj).
  apply wp_bind, wp_printk, wp_bind. eapply wp_api_rand; [exact Hx1|]. intros w2 Hx2.
  apply wp_UNLESS_fail; [done|]. intros _. cbv zeta. apply wp_bind.
  eapply wp_get_stuck; [exact Hx2|by rewrite length_replicate|]. intros rc kr' w3 Hx3 Hkr' Hs.
  apply wp_UNLESS_fail; [done|]. intros Hrc. specialize (Hs Hrc).
  apply wp_bind. eapply wp_api_rand; [exact Hx3|]. intros w4 Hx4.
  apply wp_UNLESS_fail; [done|]. intros _.
  rewrite Z.quot_div_nonneg by lia. case_bool_decide as Heq.
  - assert ((DI_SUCCESS =? DI_ERR_FAIL) = false) as -> by apply Z.eqb_neq, success_not_fail.
    apply wp_bind, wp_skip. apply wp_UNLESS_fail; [done|]. intros _. apply Hk; try done.
    intros Hbits. specialize (Hs Hbits). rewrite Hbits, (proj1 key_size) in Heq.
    change (Z.to_nat (256 / 8)) with 32%nat in Heq.
    apply (f_equal (fun l => l !! j)) in Heq. rewrite !lookup_take_lt, lookup_drop in Heq by done. congruence.
  - rewrite Z.eqb_refl. apply wp_bind.
    assert (Z.to_nat (Z.quot (bits + 7) 8) <= 32)%nat as Hq.
    { rewrite Z.quot_div_nonneg by lia. assert ((bits + 7) / 8 < 33) by (apply Z.div_lt_upper_bound; lia). lia. }
    eapply wp_mono.
    { apply noise_when, noise_bind; [apply noise_print_key; lia|]. intros _. apply noise_print_key. lia. }
    intros _ w5 _. apply wp_UNLESS_fail; [done|]. intros Hc. by destruct success_not_fail.
Qed.

(** The last round of a loop compares byte [j] of a full-length key. *)
Lemma key_rounds_stuck n bits ks kr (k : list Z -> list Z -> M W Z) x w :
  rand_is x w -> length ks = 36%nat -> length kr = 32%nat ->
  0 <= bits -> bits + 8 * Z.of_nat n = 256 ->
  (forall ks kr w, length ks = 36%nat -> length kr = 32%nat ->
     key_byte (Nat.iter (32 * n) rand16_next x) j = s -> wp (k ks kr) Q E w) ->
  wp (key_rounds (S n) o bits ks kr k) Q E w.
Proof.
  intros Hx Hks Hkr Hb Hn Hk. revert bits ks kr x w Hx Hks Hkr Hb Hn Hk.
  induction n as [|n IH]; intros bits ks kr x w Hx Hks Hkr Hb Hn Hk.
  - apply (round_stuck _ _ _ _ _ x); try done; [lia|]. intros ks' kr' w' Hx' Hks' Hkr' Hs.
    apply Hk; try done. apply Hs. rewrite (proj1 key_size). lia.
  - apply (round_stuck _ _ _ _ _ x); try done; [lia|]. intros ks' kr' w' Hx' Hks' Hkr' _.
    apply (IH _ _ _ (Nat.iter 32 rand16_next x)); try done; [lia|lia|]. intros ks2 kr2 w2 ? ? Hs. apply Hk; try done.
    rewrite <- Hs. f_equal. rewrite <- Nat.iter_add. f_equal. lia.
Qed.
End Rounds.

(** The bytes of the last rounds of the two loops differ at every position. *)
Lemma last_keys_differ j : (j < 32)%nat ->
  key_byte (Nat.iter (32 * 31) rand16_next 0x1234) j <> key_byte (Nat.iter (32 * 31) rand16_next 0x4321) j.
Proof.
  intros Hj. rewrite <- Z.eqb_neq.
  enough (forallb (fun j => negb (key_byte (Nat.iter (32 * 31) rand16_next 0x1234) j =?
    key_byte (Nat.iter (32 * 31) rand16_next 0x4321) j)) (seq 0 32) = true) as Hall.
  { rewrite forallb_forall in Hall. apply negb_true_iff, Hall, in_seq. lia. }
  by vm_compute.
Qed.

Ltac any_step :=
  first
    [ progress cbv beta
    | lazymatch goal with
      | |- wp (UNLESS _ _ _ _ _ _) _ _ _ => apply wp_UNLESS_fail; [done|intros _]
      | |- wp (pr_step _ _ ≫= _) _ _ _ => apply wp_bind, wp_bind, wp_gets, wp_printk
      | |- wp (api _ ≫= _) _ _ _ => apply wp_bind, wp_api_any; intros ? ?
      end ].

(** C13: The test of setting a key notices a driver one byte of whose
    full-length keys is stuck: if byte [j] reads back as the same value
    whatever was set, then number 0 of the test never passes, because the keys of its
    last two rounds differ in every byte. *)
Theorem stuck_byte_detected j s w :
  (j < 32)%nat -> stuck_at j s -> nr (glob w) = 0 ->
  wp test_setp (fun r _ => r <> PASS) (fun _ _ => False) w.
Proof.
  intros Hj Hst Hn. unfold test_setp. apply wp_bind, wp_printk, wp_bind, wp_gets.
  cbn [glob emit world_output]. rewrite Hn. cbn [Z.eqb].
  unfold test_setp_0, basic_set, release_ok, release_key, set_key. cbv zeta.
  assert (FAIL <> PASS) as Hf by done. repeat any_step. destruct (negb _).
  { apply wp_bind, wp_pr_test. intros p. by apply wp_ret. }
  apply wp_bind, wp_modify.
  apply (key_rounds_stuck j s Hst Hj 0 ltac:(lia) _ _ (fun _ => Hf) 31 _ _ _ _ 0x1234);
    [done|done|apply key_ret_length|lia|lia|].
  intros ks kr w1 Hks Hkr Hs1. any_step. destruct (_ =? 0).
  { apply wp_bind, wp_pr_test. intros p. by apply wp_ret. }
  apply wp_bind, wp_modify.
  apply (key_rounds_stuck j s Hst Hj 1 ltac:(lia) _ _ (fun _ => Hf) 31 _ _ _ _ 0x4321); [done|done|done|lia|lia|].
  intros _ _ w2 _ _ Hs2. destruct (last_keys_differ j Hj). by rewrite Hs1, Hs2.
Qed.
End Stuck.

(** The driver of [DryiceSpec] keeps its key; with a byte masked it does not. *)
Definition sim_keeps : @KeepsKeys _ (sim_dryice id).
Proof.
  assert (forall bits, valid_bits bits <-> bits_ok bits = true) as Hok by (intros; symmetry; apply bits_ok_spec).
  assert (forall bits, ~ valid_bits bits -> bits_ok bits = false) as Hbad
    by (intros bits Hb; destruct (bits_ok bits) eqn:He; [by destruct Hb; apply Hok|done]).
  refine (@Build_KeepsKeys _ (sim_dryice id) (fun d => d) _ _ _ _ _ _ _ _); try done.
  - intros p l bits d -> Hv%Hok _. cbn [dryice_set_programmed_key sim_dryice]. by rewrite Hv.
  - intros p l bits k d -> _. done.
  - intros [[p l]|] bits d -> Hv; [|done]. destruct Hv as [[=]|Hv%Hbad].
    cbn [dryice_set_programmed_key sim_dryice]. by rewrite Hv.
  - intros bits k d -> Hv%Hok _. cbn [dryice_get_programmed_key sim_dryice]. by rewrite Hv.
  - intros bits d -> _. done.
  - intros p bits k d -> Hv. cbn [dryice_get_programmed_key sim_dryice].
    destruct Hv as [->|Hv%Hbad]; [done|]. by rewrite Hv, andb_false_r.
Defined.

Lemma key_tests_pass_witness :
  let _ := sim_dryice id in
  let w : world (option (list Z)) globals := mkWorld (booted ∅) None (dryice_globals "getp" 0) [] in
  wp dryice_test_init (fun r w' => r = 0 /\ dev w' = None) (fun _ _ => False) w.
Proof.
  intros sim w. apply (@key_tests_pass _ sim (sim_dryice_laws id) sim_keeps w); [done|].
  by apply (bool_decide_unpack _).
Defined.

(** A driver whose byte 31 reads as zero. *)
Definition masked (k : list Z) : list Z := take 31 (k ++ replicate 31 0) ++ [0].
Lemma masked_31 k : masked k !! 31%nat = Some 0.
Proof.
  assert (length (take 31 (k ++ replicate 31 0)) = 31%nat) as Hl
    by (rewrite length_take_le; rewrite ?length_app, ?length_replicate; lia).
  unfold masked. rewrite lookup_app_r by lia. by rewrite Hl.
Qed.
Lemma stuck_byte_detected_witness :
  let _ := sim_dryice masked in
  let w : world (option (list Z)) globals := mkWorld (booted ∅) None (dryice_globals "setp" 0) [] in
  wp test_setp (fun r _ => r <> PASS) (fun _ _ => False) w.
Proof.
  intros sim w. apply (@stuck_byte_detected _ sim (sim_dryice_laws _) 31 0 w); [lia| |done].
  intros [k|]; [intros _|intros [=]].
  change (take 32 (masked k) !! 31%nat = Some 0).
  rewrite take_ge; [apply masked_31|]. unfold masked. rewrite length_app, length_take.
  change (length [0]) with 1%nat. lia.
Defined.
