(* ===== verification/Rng.v ===== *)
(** * The random number generator test module

    [src/module_test/rng_test_driver.c] and [src/include/rng_test_driver.h]:
    a device whose files each own a context registered with the FSL SHW
    library, and whose ioctls fetch random bytes, add entropy and access
    registers.  The library and the RNG driver are the class [RngDriver]. *)
From S2P Require Import Prelude CInt CMonad CStruct Kernel SimKernel PortableOs.

(** ** rng_test_driver.h *)
Definition RNG_TEST_MAJOR_NODE : Z := 0.
Definition RNG_TEST_DRIVER_NAME : string := "rng_test".
Definition RNG_TEST_DRIVER_IOCTL_IDENTIFIER : Z := 114. (* 'r' *)

Definition rng_test_add_entropy_t : cstruct := struct
  [("function_return_code", Tenum); ("count_bytes", Tu32); ("entropy", Tptr)].
Definition rng_test_get_random_t : cstruct := struct
  [("count_bytes", Tint); ("random", Tptr); ("isr_flag", Tint); ("function_return_code", Tenum)].
Definition rng_test_reg_access_t : cstruct := struct
  [("reg_offset", Tu32); ("reg_data", Tu32); ("function_return_code", Tenum)].

Definition RNG_TEST_READ_REG : Z :=
  _IOWR RNG_TEST_DRIVER_IOCTL_IDENTIFIER 1 (sizeof rng_test_reg_access_t).
Definition RNG_TEST_WRITE_REG : Z :=
  _IOWR RNG_TEST_DRIVER_IOCTL_IDENTIFIER 2 (sizeof rng_test_reg_access_t).
Definition RNG_TEST_ADD_ENTROPY : Z :=
  _IOWR RNG_TEST_DRIVER_IOCTL_IDENTIFIER 3 (sizeof rng_test_add_entropy_t).
Definition RNG_TEST_GET_RANDOM : Z :=
  _IOWR RNG_TEST_DRIVER_IOCTL_IDENTIFIER 4 (sizeof rng_test_get_random_t).

(** ** The library below *)
Class RngDriver (D : Type) := {
  FSL_RETURN_OK_S : Z;
  RNG_RET_OK : Z;
  sizeof_uco : Z;
  fsl_shw_uco_init : Z -> list Z;
  fsl_shw_register_user : Z -> D -> Z * D;
  fsl_shw_deregister_user : Z -> D -> Z * D;
  fsl_shw_get_random : Z -> Z -> D -> (Z * list Z) * D;
  fsl_shw_add_entropy : Z -> Z -> list Z -> D -> Z * D;
  rng_read_register : Z -> Z -> D -> (Z * Z) * D;
  rng_write_register : Z -> Z -> D -> Z * D;
}.
Class RngDriverLaws (D : Type) `{RngDriver D} : Prop := {
  uco_law n : zlen (fsl_shw_uco_init n) = sizeof_uco;
  uco_pos : 0 < sizeof_uco;
  (* at most what was asked for, and all of it on success *)
  random_law ctx n d : 0 <= n -> zlen (fsl_shw_get_random ctx n d).1.2 <= n;
  random_ok_law ctx n d : 0 <= n ->
    (fsl_shw_get_random ctx n d).1.1 = RNG_RET_OK -> zlen (fsl_shw_get_random ctx n d).1.2 = n;
}.

(** ** State *)
Inductive rng_fn := rng_test_open_fn | rng_test_ioctl_fn | rng_test_release_fn.
Record globals := mkGlobals {
  rng_test_major_node : Z;
  rng_device_registered : Z;
  rng_reg : os_driver_reg rng_fn;
  private : gmap Z Z;              (* the private pointer of each open file *)
}.
Definition rng_globals : globals := mkGlobals RNG_TEST_MAJOR_NODE 0 no_reg ∅.
Definition set_registered (v : Z) (g : globals) : globals :=
  mkGlobals (rng_test_major_node g) v (rng_reg g) (private g).
Definition set_private (f : gmap Z Z -> gmap Z Z) (g : globals) : globals :=
  mkGlobals (rng_test_major_node g) (rng_device_registered g) (rng_reg g) (f (private g)).
#[export] Instance rng_has_reg : HasReg globals rng_fn.
Proof.
  refine {| reg_handle := rng_reg;
            set_reg r g := mkGlobals (rng_test_major_node g) (rng_device_registered g) r (private g) |}.
  done.
Defined.

Section Driver.
Context `{Kernel} `{PortableOs} {D : Type} `{RngDriver D} (RNG_DEBUG : bool).
Abbreviation W := (world D globals).

Definition getg {A} (f : globals -> A) : M W A := gets (fun w => f (glob w)).
Definition setg (f : globals -> globals) : M W unit := modify (fun w => set_glob (f (glob w)) w).
Definition debug (f : string) (a : list parg) : M W unit := os_printk RNG_DEBUG f a.

(** [os_dev_get_user_private] and [os_dev_set_user_private] of the open file. *)
Definition user_private (file : Z) : M W Z := getg (fun g => default 0 (private g !! file)).
Definition set_user_private (file p : Z) : M W unit := setg (set_private <[file := p]>).

(** ** Ioctl support *)
Definition rng_test_get_random (user_ctx rng_data : Z) : M W Z :=
  '(get_struct, err) ← os_copy_from_user rng_data (Z.of_nat (sizeof rng_test_get_random_t));
  if truth err then
    debug "RNG TEST: Error reading get struct from user\n" [];;
    mret OS_ERROR_BAD_ADDRESS_S
  else
    let count_bytes := i32 (get rng_test_get_random_t "count_bytes" get_struct) in
    data_buffer ← os_alloc_memory (u32 count_bytes);
    let count_words := i32 (u32 (count_bytes + 4 - 1) / 4) in
    '(rng_return, data) ← drv (fsl_shw_get_random user_ctx (u32 (4 * count_words)));
    kwrite data_buffer 0 data;;
    let get_struct := set rng_test_get_random_t "function_return_code" rng_return get_struct in
    code ← os_copy_to_user rng_data get_struct;
    code ← (if rng_return =? RNG_RET_OK then
              data ← kread data_buffer 0 (u32 count_bytes);
              os_copy_to_user (get rng_test_get_random_t "random" get_struct) data
            else mret code);
    when (negb (data_buffer =? 0)) (os_free_memory data_buffer);;
    mret code.

Definition rng_test_add_entropy (user_ctx rng_data : Z) : M W Z :=
  '(add_struct, code) ← os_copy_from_user rng_data (Z.of_nat (sizeof rng_test_add_entropy_t));
  if truth code then
    debug "RNG TEST: Error reading add struct from user\n" [];;
    mret code
  else
    let count_bytes := get rng_test_add_entropy_t "count_bytes" add_struct in
    entropy ← os_alloc_memory count_bytes;
    if negb (entropy =? 0) then
      data ← kread entropy 0 count_bytes;
      r ← drv (fsl_shw_add_entropy user_ctx count_bytes data);
      code ← os_copy_to_user rng_data
               (set rng_test_add_entropy_t "function_return_code" r add_struct);
      os_free_memory entropy;;
      mret code
    else
      debug "RNG TEST: Error allocating %d bytes for entropy\n" [AInt count_bytes];;
      mret OS_ERROR_NO_MEMORY_S.

Definition rng_test_read_register (rng_data : Z) : M W Z :=
  '(reg_struct, code) ← os_copy_from_user rng_data (Z.of_nat (sizeof rng_test_reg_access_t));
  if negb (code =? OS_ERROR_OK_S) then
    debug "RNG TEST: Error reading reg struct from user\n" [];;
    mret code
  else
    '(rng_return, v) ← drv (rng_read_register (get rng_test_reg_access_t "reg_offset" reg_struct)
                                             (get rng_test_reg_access_t "reg_data" reg_struct));
    let reg_struct := set rng_test_reg_access_t "reg_data" v reg_struct in
    let reg_struct := set rng_test_reg_access_t "function_return_code" rng_return reg_struct in
    os_copy_to_user rng_data reg_struct.

Definition rng_test_write_register (rng_data : Z) : M W Z :=
  '(reg_struct, code) ← os_copy_from_user rng_data (Z.of_nat (sizeof rng_test_reg_access_t));
  if negb (code =? OS_ERROR_OK_S) then
    debug "RNG TEST: Error reading reg struct from user\n" [];;
    mret code
  else
    rng_return ← drv (rng_write_register (get rng_test_reg_access_t "reg_offset" reg_struct)
                                         (get rng_test_reg_access_t "reg_data" reg_struct));
    let reg_struct := set rng_test_reg_access_t "function_return_code" rng_return reg_struct in
    os_copy_to_user rng_data reg_struct.

(** ** Entry points; [file] is the open file the call is made on *)
Definition rng_test_open (file : Z) : M W Z :=
  user_ctx ← os_alloc_memory sizeof_uco;
  if negb (user_ctx =? 0) then
    kwrite user_ctx 0 (fsl_shw_uco_init 20);;
    ret ← drv (fsl_shw_register_user user_ctx);
    if negb (ret =? FSL_RETURN_OK_S) then mret OS_ERROR_FAIL_S
    else
      set_user_private file user_ctx;;
      mret OS_ERROR_OK_S
  else mret OS_ERROR_NO_MEMORY_S.

Definition rng_test_ioctl (file cmd arg : Z) : M W Z :=
  user_ctx ← user_private file;
  if cmd =? RNG_TEST_GET_RANDOM then
    if negb (user_ctx =? 0) then rng_test_get_random user_ctx arg else mret OS_ERROR_FAIL_S
  else if cmd =? RNG_TEST_ADD_ENTROPY then
    if negb (user_ctx =? 0) then rng_test_add_entropy user_ctx arg else mret OS_ERROR_FAIL_S
  else if cmd =? RNG_TEST_READ_REG then rng_test_read_register arg
  else if cmd =? RNG_TEST_WRITE_REG then rng_test_write_register arg
  else mret OS_ERROR_FAIL_S.

Definition rng_test_release (file : Z) : M W Z :=
  user_ctx ← user_private file;
  when (negb (user_ctx =? 0)) (
    _ ← drv (fsl_shw_deregister_user user_ctx);
    os_free_memory user_ctx;;
    set_user_private file 0);;
  mret OS_ERROR_OK_S.

Definition rng_test_setup_user_driver_interaction : M W Z :=
  os_driver_init_registration;;
  os_driver_add_registration OS_FN_OPEN rng_test_open_fn;;
  os_driver_add_registration OS_FN_IOCTL rng_test_ioctl_fn;;
  os_driver_add_registration OS_FN_CLOSE rng_test_release_fn;;
  major ← getg rng_test_major_node;
  code ← os_driver_complete_registration major RNG_TEST_DRIVER_NAME;
  if negb (code =? OS_ERROR_OK_S) then
    debug "RNG Test: register device driver failed: %d\n" [AInt code];;
    mret code
  else
    setg (set_registered 1);;
    m ← getg (fun g => default 0 (live (rng_reg g)));
    debug "RNG Test:  Major node is %d\n" [AInt m];;
    mret code.

Definition rng_test_init : M W Z :=
  debug "%s: Driver Initialization begins\n" [AStr RNG_TEST_DRIVER_NAME];;
  code ← rng_test_setup_user_driver_interaction;
  debug "%s: Driver Completed: %d\n" [AStr RNG_TEST_DRIVER_NAME; AInt code];;
  mret code.

Definition rng_test_cleanup : M W Z :=
  registered ← getg rng_device_registered;
  code ← (if truth registered then
            code ← os_driver_remove_registration;
            setg (set_registered 0);;
            mret code
          else mret OS_ERROR_OK_S);
  debug "RNG Test: Cleaned up\n" [];;
  mret code.
End Driver.
