(* ===== verification/RngSpec.v ===== *)
(** * What the random number module does

    The context of an open file is the block its [open] allocated; a request
    for random bytes delivers what the library produced and gives its buffer
    back; when the request is not a multiple of four bytes the library is
    told to write past the buffer. *)
From S2P Require Import Prelude CInt CMonad CStruct Kernel SimKernel PortableOs Rng.

Section Spec.
Context `{KL : KernelLaws} `{PL : PortableOsLaws} {D : Type} `{RL : RngDriverLaws D} (RNG_DEBUG : bool).
Abbreviation W := (world D globals).
Implicit Types (w : W) (E : Z -> W -> Prop).

Lemma wp_os_copy_held U T p s (Q : list Z * Z -> W -> Prop) E w :
  holds T w p s -> Q (s, OS_ERROR_OK_S) w ->
  wpu U (os_copy_from_user p (Z.of_nat (sizeof T))) Q E w.
Proof.
  unfold holds. intros Hs HQ. apply wp_os_copy_from_user; [lia| |].
  - intros Hz. rewrite <- from_user_done by (lia || done). by rewrite Hs.
  - by rewrite Hs.
Qed.

Lemma count_words count :
  0 < count < 2 ^ 31 - 3 ->
  u32 (4 * i32 (u32 (count + 4 - 1) / 4)) = 4 * ((count + 3) / 4).
Proof.
  intros Hc. rewrite (wrap_id 32 (count + 4 - 1)) by (unfold in_uint; lia).
  replace (count + 4 - 1) with (count + 3) by lia.
  pose proof (Z.div_mod (count + 3) 4 ltac:(lia)). pose proof (Z.mod_pos_bound (count + 3) 4 ltac:(lia)).
  rewrite swrap_id by (unfold in_sint; lia). apply wrap_id. unfold in_uint. lia.
Qed.

(** The end of the call: the answer, the data, the buffer given back. *)
Lemma get_random_tail (buf random rc code count : Z) (data bs : list Z) m d E (w1 : W) :
  ZERO_SIZE_PTR < buf -> m !! buf = None ->
  kmem (kern w1) = <[buf := mkBlock Kmalloc (poke 0 data bs)]> m -> dev w1 = d ->
  0 <= count -> zlen bs = count -> zlen data <= count -> (rc = RNG_RET_OK -> zlen data = count) ->
  wp (code ← (if rc =? RNG_RET_OK then
                data ← kread buf 0 count; os_copy_to_user random data
              else mret code);
      when (negb (buf =? 0)) (os_free_memory buf);;
      mret code)
    (fun r w' => kmem (kern w') = m /\ dev w' = d /\
       (rc = RNG_RET_OK -> fits (ubytes (kern w1)) random (Z.to_nat count) = Z.to_nat count ->
        r = OS_ERROR_OK_S /\ ubytes (kern w') = uput (ubytes (kern w1)) random data /\
        uread (ubytes (kern w')) random (Z.to_nat count) = data)) E w1.
Proof.
  intros Hbuf Hfree Hm Hd H0c Hbs Hle Hok.
  assert ((buf =? 0) = false) as Hb by (apply Z.eqb_neq; unfold ZERO_SIZE_PTR in Hbuf; lia).
  assert (length (poke 0 data bs) = length bs) as Hlp by (apply length_poke; lia).
  apply wp_bind. destruct (Z.eqb_spec rc RNG_RET_OK) as [->|Hrc].
  - specialize (Hok eq_refl). apply wp_bind.
    eapply wp_kread; [by rewrite Hm, lookup_insert_eq|done|done|simpl; lia|]. simpl.
    change (Z.to_nat 0) with 0%nat.
    assert (peek 0 (Z.to_nat count) (poke 0 data bs) = data) as ->.
    { replace (Z.to_nat count) with (length data) by lia. apply peek_poke_eq. lia. }
    apply wp_os_copy_to_user.
    + intros Hfit. rewrite Hb. apply wp_bind. unfold os_free_memory.
      eapply wp_kfree; [done|simpl; by rewrite Hm, lookup_insert_eq|]. apply wp_ret. simpl.
      rewrite Hm, delete_insert_eq, delete_id by done. split; [done|]. split; [done|].
      intros _ _. split; [done|]. split; [done|]. replace (Z.to_nat count) with (length data) by lia.
      apply uread_uput.
    + intros k Hk Hkf. rewrite Hb. apply wp_bind. unfold os_free_memory.
      eapply wp_kfree; [done|simpl; by rewrite Hm, lookup_insert_eq|]. apply wp_ret. simpl.
      rewrite Hm, delete_insert_eq, delete_id by done. split; [done|]. split; [done|].
      replace (Z.to_nat count) with (length data) by lia. intros _ Hfit. lia.
  - apply wp_ret. rewrite Hb. apply wp_bind. unfold os_free_memory.
    eapply wp_kfree; [done|by rewrite Hm, lookup_insert_eq|]. apply wp_ret. simpl.
    by rewrite Hm, delete_insert_eq, delete_id.
Qed.

Lemma get_random_wp ctx p s count E w :
  holds rng_test_get_random_t w p s ->
  i32 (get rng_test_get_random_t "count_bytes" s) = count ->
  0 < count < 2 ^ 31 - 3 -> count mod 4 = 0 ->
  o_kmalloc (kmem (kern w)) (calls (kern w)) count <> None ->
  wp (rng_test_get_random RNG_DEBUG ctx p) (fun r w' =>
    kmem (kern w') = kmem (kern w) /\
    dev w' = (fsl_shw_get_random ctx count (dev w)).2 /\
    ((fsl_shw_get_random ctx count (dev w)).1.1 = RNG_RET_OK ->
     let random := get rng_test_get_random_t "random" s in
     fits (ubytes (kern w)) random (Z.to_nat count) = Z.to_nat count ->
     r = OS_ERROR_OK_S /\
     uread (ubytes (kern w')) random (Z.to_nat count) =
       (fsl_shw_get_random ctx count (dev w)).1.2 /\
     (fits (ubytes (kern w)) p (length s) = length s ->
      ubytes (kern w') = uput (uput (ubytes (kern w)) p (set rng_test_get_random_t "function_return_code"
        RNG_RET_OK s)) random (fsl_shw_get_random ctx count (dev w)).1.2))) E w.
Proof.
  intros Hs Hcount Hc H4 Hal. unfold rng_test_get_random.
  pose proof (holds_length _ _ _ _ Hs) as Hlen.
  apply wp_bind, (wp_os_copy_held _ _ _ s); [done|]. simpl truth. cbn iota. rewrite Hcount.
  assert (u32 count = count) as -> by (apply wrap_id; unfold in_uint; lia).
  rewrite count_words by done.
  assert (4 * ((count + 3) / 4) = count) as ->.
  { apply Z.mod_divide in H4 as [k ->]; [|lia].
    rewrite (Z.add_comm (k * 4)), Z.div_add by lia. change (3 / 4) with 0. lia. }
  apply wp_bind, wp_kmalloc; [lia|lia|done|]. intros buf bs Hn Ho Hbuf Hfree Hbs _.
  apply wp_bind, wp_drv. simpl.
  pose proof (random_law ctx count (dev w) ltac:(lia)) as Hle.
  pose proof (random_ok_law ctx count (dev w) ltac:(lia)) as Hok.
  destruct (fsl_shw_get_random ctx count (dev w)) as [[rc data] d]. simpl in *.
  apply wp_bind. eapply wp_kwrite; [simpl; by rewrite lookup_insert_eq|done|simpl; lia|].
  rewrite get_set_ne by layout_done.
  apply wp_bind, wp_os_copy_to_user.
  - intros _. eapply wp_mono; [eapply (get_random_tail buf _ rc _ count data bs (kmem (kern w)) d);
      try done; [lia|simpl; by rewrite insert_insert_eq|lia]|].
    simpl. intros r w' (? & ? & Hr). split; [done|]. split; [done|]. intros -> Hfit.
    destruct (Hr eq_refl) as (? & ? & ?); [by apply fits_uput|done].
  - intros k Hk Hkf. eapply wp_mono; [eapply (get_random_tail buf _ rc _ count data bs (kmem (kern w)) d);
      try done; [lia|simpl; by rewrite insert_insert_eq|lia]|].
    simpl. intros r w' (? & ? & Hr). split; [done|]. split; [done|]. intros Hrc Hfit.
    destruct (Hr Hrc) as (? & ? & ?); [by apply fits_uput|]. split; [done|]. split; [done|].
    intros Hfs. exfalso. rewrite length_set, <- Hlen in Hk, Hkf by done.
    change (k = fits (ubytes (kern w)) p (length s)) in Hkf. lia.
Qed.

(** The bytes the library is asked for. *)
Definition requested (count : Z) : Z := 4 * ((count + 3) / 4).

(** The library writes past the buffer unless the request is whole words. *)
Lemma get_random_overruns ctx p s count w :
  holds rng_test_get_random_t w p s ->
  i32 (get rng_test_get_random_t "count_bytes" s) = count ->
  0 < count < 2 ^ 31 - 3 -> kmem (kern w) !! 0 = None ->
  (fsl_shw_get_random ctx (requested count) (dev w)).1.1 = RNG_RET_OK ->
  o_kmalloc (kmem (kern w)) (calls (kern w)) count = None \/ count mod 4 <> 0 ->
  (rng_test_get_random RNG_DEBUG ctx p w).1 = Undef.
Proof.
  intros Hs Hcount Hc H0m Hrc Hbad. unfold rng_test_get_random.
  assert (os_copy_from_user p (Z.of_nat (sizeof rng_test_get_random_t)) w = (Ret (s, OS_ERROR_OK_S), w))
    as Hcopy.
  { unfold os_copy_from_user, copy_from_user, gets, mbind, M_bind. unfold holds in Hs. by rewrite Hs. }
  eapply undef_bind_eq; [exact Hcopy|]. simpl truth. cbn iota. rewrite Hcount.
  assert (u32 count = count) as -> by (apply wrap_id; unfold in_uint; lia).
  rewrite count_words by done. unfold requested in Hrc.
  pose proof (Z.div_mod (count + 3) 4 ltac:(lia)) as Hdm.
  pose proof (Z.mod_pos_bound (count + 3) 4 ltac:(lia)) as Hmb.
  pose proof (random_ok_law ctx (4 * ((count + 3) / 4)) (dev w) ltac:(lia) Hrc) as Hlen.
  assert (forall buf w1, dev w1 = dev w ->
    match kmem (kern w1) !! buf with
    | Some b => zlen (b_data b) < 4 * ((count + 3) / 4) | None => True end ->
    os_alloc_memory count w = (Ret buf, w1) -> forall k,
    ((os_alloc_memory count ≫= (fun data_buffer =>
      '(rng_return, data) ← drv (fsl_shw_get_random ctx (4 * ((count + 3) / 4)));
      kwrite data_buffer 0 data;; k data_buffer rng_return data : M W Z)) w).1 = Undef) as Hover.
  { intros buf w1 Hd Hm Hal k. eapply undef_bind_eq; [exact Hal|].
    eapply undef_bind_eq; [apply drv_eq|]. rewrite Hd.
    destruct (fsl_shw_get_random _ _ _) as [[rc data] d]. simpl in *.
    apply undef_bind, kwrite_undef; [by intros ->; simpl in Hlen; lia|]. simpl. by rewrite Hlen. }
  destruct (o_kmalloc (kmem (kern w)) (calls (kern w)) count) as [[buf bs]|] eqn:Ho.
  - destruct Hbad as [?|H4]; [done|]. pose proof Ho as Ho2.
    apply kmalloc_law in Ho2 as (_ & _ & Hbs & _); [|lia].
    eapply (Hover buf);
      [..|unfold os_alloc_memory, kmalloc; rewrite (proj2 (Z.eqb_neq count 0)) by lia; by rewrite Ho];
      [done|].
    simpl. rewrite lookup_insert_eq. simpl.
    pose proof (Z.div_mod count 4 ltac:(lia)). pose proof (Z.mod_pos_bound count 4 ltac:(lia)). lia.
  - eapply (Hover 0);
      [..|unfold os_alloc_memory, kmalloc; rewrite (proj2 (Z.eqb_neq count 0)) by lia; by rewrite Ho];
      [done|]. simpl. by rewrite H0m.
Qed.

(** A request for random bytes on an open file whose length is a multiple
    of four delivers to the process exactly the bytes the library produced
    for that length, gives the temporary buffer back and changes nothing else
    in kernel memory. *)
Theorem random_request_delivers file ctx p s count w :
  private (glob w) !! file = Some ctx -> ctx <> 0 ->
  holds rng_test_get_random_t w p s ->
  i32 (get rng_test_get_random_t "count_bytes" s) = count ->
  0 < count < 2 ^ 31 - 3 -> count mod 4 = 0 ->
  o_kmalloc (kmem (kern w)) (calls (kern w)) count <> None ->
  (fsl_shw_get_random ctx count (dev w)).1.1 = RNG_RET_OK ->
  fits (ubytes (kern w)) (get rng_test_get_random_t "random" s) (Z.to_nat count) = Z.to_nat count ->
  wp (rng_test_ioctl RNG_DEBUG file RNG_TEST_GET_RANDOM p) (fun r w' =>
    r = OS_ERROR_OK_S /\ kmem (kern w') = kmem (kern w) /\
    dev w' = (fsl_shw_get_random ctx count (dev w)).2 /\
    uread (ubytes (kern w')) (get rng_test_get_random_t "random" s) (Z.to_nat count) =
      (fsl_shw_get_random ctx count (dev w)).1.2) (fun _ _ => False) w.
Proof.
  intros Hf Hctx Hs Hcount Hc H4 Hal Hrc Hfit. unfold rng_test_ioctl, user_private.
  apply wp_bind, wp_gets. rewrite Hf. simpl default.
  change (RNG_TEST_GET_RANDOM =? RNG_TEST_GET_RANDOM) with true. apply Z.eqb_neq in Hctx as ->.
  eapply wp_mono; [by eapply get_random_wp|]. intros r w' (? & ? & Hr).
  by destruct (Hr Hrc Hfit) as (-> & ? & _).
Qed.

(** C10: A request for a positive number of random bytes below 2^31 - 3, which
    the library serves, stays inside its kernel buffer exactly when the buffer
    was allocated and the length is a multiple of four: the library is asked
    for the length rounded up to whole words, and a failed allocation is not
    noticed. *)
Theorem random_request_in_bounds_iff ctx p s count w :
  holds rng_test_get_random_t w p s ->
  i32 (get rng_test_get_random_t "count_bytes" s) = count ->
  0 < count < 2 ^ 31 - 3 -> kmem (kern w) !! 0 = None ->
  (fsl_shw_get_random ctx (requested count) (dev w)).1.1 = RNG_RET_OK ->
  (rng_test_get_random RNG_DEBUG ctx p w).1 <> Undef <->
  o_kmalloc (kmem (kern w)) (calls (kern w)) count <> None /\ count mod 4 = 0.
Proof.
  intros Hs Hcount Hc H0m Hrc. split.
  - intros Hdef. destruct (o_kmalloc _ _ _) eqn:Ho.
    + split; [done|]. destruct (decide (count mod 4 = 0)); [done|].
      destruct Hdef. eapply get_random_overruns; eauto.
    + destruct Hdef. eapply get_random_overruns; eauto.
  - intros [Hal H4]. pose proof (get_random_wp ctx p s count (fun _ _ => False) w Hs Hcount Hc H4 Hal) as Hw.
    unfold wpu in Hw. by destruct (rng_test_get_random RNG_DEBUG ctx p w) as [[] ?].
Qed.

(** Opening the device and closing it again gives the context back: after a
    successful open, close restores kernel memory and clears the file's
    private pointer.  An open that runs out of memory changes nothing, and an
    open the library refuses loses the context it allocated. *)
Theorem rng_open_close file w :
  private (glob w) !! file = None ->
  wp (r ← rng_test_open file; when (r =? OS_ERROR_OK_S) (_ ← rng_test_release file; skip);; mret r)
    (fun r w' =>
       (r = OS_ERROR_OK_S /\ kmem (kern w') = kmem (kern w) /\ private (glob w') !! file = Some 0) \/
       (r = OS_ERROR_NO_MEMORY_S /\ kmem (kern w') = kmem (kern w) /\ glob w' = glob w) \/
       (r = OS_ERROR_FAIL_S /\ glob w' = glob w /\ exists ctx bs,
          kmem (kern w) !! ctx = None /\
          kmem (kern w') = <[ctx := mkBlock Kmalloc bs]> (kmem (kern w))))
    (fun _ _ => False) w.
Proof.
  intros Hf. unfold rng_test_open, os_alloc_memory. pose proof uco_pos as Hpos.
  apply wp_bind, wp_bind, wp_kmalloc; [lia|lia| |].
  - intros _ _. simpl. apply wp_ret. rewrite (proj2 (Z.eqb_neq _ _) no_memory_law).
    apply wp_bind, wp_skip, wp_ret. right. left. done.
  - intros ctx bs _ _ Hctx Hfree Hbs _. assert (ctx <> 0) as Hn0 by (unfold ZERO_SIZE_PTR in *; lia).
    rewrite (proj2 (Z.eqb_neq _ _) Hn0). simpl. pose proof (uco_law 20) as Hu.
    apply wp_bind. eapply wp_kwrite; [simpl; by rewrite lookup_insert_eq|done|simpl; lia|].
    apply wp_bind, wp_drv. simpl. destruct (fsl_shw_register_user ctx (dev w)) as [ret d]. simpl.
    destruct (ret =? FSL_RETURN_OK_S); simpl.
    + apply wp_bind, wp_modify, wp_ret. simpl. unfold rng_test_release, user_private.
      apply wp_bind, wp_bind, wp_bind, wp_gets. simpl. rewrite lookup_insert_eq. simpl.
      rewrite (proj2 (Z.eqb_neq _ _) Hn0). simpl. apply wp_bind, wp_bind, wp_drv.
      apply wp_bind, (wp_kfree _ _ (poke 0 (fsl_shw_uco_init 20) bs)); [lia| |].
      { simpl. by rewrite insert_insert_eq, lookup_insert_eq. }
      apply wp_modify, wp_ret, wp_skip, wp_ret. left. simpl.
      rewrite insert_insert_eq, delete_insert_eq, delete_id by done.
      split; [done|]. split; [done|]. by rewrite lookup_insert_eq.
    + apply wp_ret. rewrite (proj2 (Z.eqb_neq _ _) fail_law).
      apply wp_bind, wp_skip, wp_ret. right. right. simpl. split; [done|]. split; [done|].
      eexists ctx, _. split; [done|]. by rewrite insert_insert_eq.
Qed.

(** The entropy a process passes never reaches the library: what is added is
    the content of the fresh buffer. *)
Lemma add_entropy_ignores_user ctx p s count e bs w :
  holds rng_test_add_entropy_t w p s ->
  get rng_test_add_entropy_t "count_bytes" s = count -> 0 < count ->
  o_kmalloc (kmem (kern w)) (calls (kern w)) count = Some (e, bs) ->
  wp (rng_test_add_entropy RNG_DEBUG ctx p) (fun _ w' =>
    dev w' = (fsl_shw_add_entropy ctx count bs (dev w)).2 /\ kmem (kern w') = kmem (kern w))
    (fun _ _ => False) w.
Proof.
  intros Hs Hcount Hc Ho. unfold rng_test_add_entropy.
  apply wp_bind, (wp_os_copy_held _ _ _ s); [done|]. simpl truth. cbn iota. rewrite Hcount.
  apply wp_bind, wp_kmalloc; [lia|lia|congruence|]. intros e' bs' _ Ho' He Hfree Hbs _.
  rewrite Ho in Ho'. injection Ho' as <- <-.
  assert (e <> 0) as Hn0 by (unfold ZERO_SIZE_PTR in *; lia).
  rewrite (proj2 (Z.eqb_neq _ _) Hn0). simpl. apply wp_bind.
  eapply wp_kread; [simpl; by rewrite lookup_insert_eq|done|lia|simpl; lia|]. simpl.
  assert (peek (Z.to_nat 0) (Z.to_nat count) bs = bs) as ->.
  { unfold peek. change (Z.to_nat 0) with 0%nat. rewrite drop_0. apply take_ge. lia. }
  apply wp_bind, wp_drv. simpl. destruct (fsl_shw_add_entropy ctx count bs (dev w)) as [r d].
  apply wp_bind, wp_os_copy_to_user; intros; apply wp_bind;
    (eapply wp_kfree; [lia|simpl; by rewrite lookup_insert_eq|]); apply wp_ret; simpl;
    by rewrite delete_insert_eq, delete_id.
Qed.
(** ** Loading and unloading *)
(** Loading registers the device under a number nobody had, the one asked for
    if there is one, or fails with nothing registered; unloading then takes
    back exactly what loading did, whatever its result. *)
Theorem rng_load_unload E w :
  rng_device_registered (glob w) = 0 -> live (rng_reg (glob w)) = None ->
  wp (r ← rng_test_init RNG_DEBUG;
      mid ← gets (fun w => chrdevs (kern w));
      c ← rng_test_cleanup RNG_DEBUG;
      mret (r, mid, c))
    (fun '(r, mid, c) w' =>
       let cs := chrdevs (kern w) in
       (r = OS_ERROR_OK_S -> exists m, (m ∉ cs.*1) /\ mid = (m, RNG_TEST_DRIVER_NAME) :: cs /\
          (rng_test_major_node (glob w) <> 0 -> m = rng_test_major_node (glob w))) /\
       (r <> OS_ERROR_OK_S -> mid = cs) /\
       c = OS_ERROR_OK_S /\ chrdevs (kern w') = cs /\ kmem (kern w') = kmem (kern w) /\
       rng_device_registered (glob w') = 0 /\ live (rng_reg (glob w')) = None /\
       stray (rng_reg (glob w')) = stray (rng_reg (glob w))) E w.
Proof.
  intros Hreg Hlive. unfold rng_test_init, rng_test_setup_user_driver_interaction, rng_test_cleanup, debug, getg, setg.
  apply wp_bind, wp_bind, wp_debugk. intros l1. apply wp_bind, wp_bind.
  do 4 (apply wp_modify, wp_bind). apply wp_gets, wp_bind, wp_complete; cbn.
  - intros m Hfresh _ Hm. apply wp_bind, wp_modify, wp_bind, wp_gets, wp_bind, wp_debugk. intros l2.
    apply wp_ret, wp_bind, wp_debugk. intros l3. apply wp_ret, wp_bind, wp_gets, wp_bind.
    apply wp_bind, wp_gets. cbn. apply wp_bind, wp_bind, wp_remove_registration. cbn.
    apply wp_bind, wp_modify, wp_ret, wp_bind, wp_debugk. intros l4. apply wp_ret. cbn.
    rewrite drop_key_cons by done. split; [intros _; eauto|]. done.
  - intros code Hc. rewrite (proj2 (Z.eqb_neq _ _) Hc). apply wp_bind, wp_debugk. intros l2.
    apply wp_ret, wp_bind, wp_debugk. intros l3. apply wp_ret, wp_bind, wp_gets, wp_bind.
    apply wp_bind, wp_gets. cbn. rewrite Hreg. apply wp_bind, wp_ret, wp_bind, wp_debugk. intros l4.
    apply wp_ret. split; [done|]. split_and!; done.
Qed.
End Spec.

(** ** The theorems at work *)
Section Witnesses.
#[local] Instance toy_rng : RngDriver (list Z) := {|
  FSL_RETURN_OK_S := 0; RNG_RET_OK := 0; sizeof_uco := 4;
  fsl_shw_uco_init n := to_le 4 n;
  fsl_shw_register_user ctx d := (0, ctx :: d);
  fsl_shw_deregister_user ctx d := (0, List.filter (fun c => negb (c =? ctx)) d);
  fsl_shw_get_random ctx n d := ((0, replicate (Z.to_nat n) 7), d);
  fsl_shw_add_entropy ctx n b d := (0, d);
  rng_read_register off old d := ((0, off + 1), d);
  rng_write_register off v d := (0, v :: d);
|}.
#[local] Instance toy_rng_laws : RngDriverLaws (list Z).
Proof.
  split; simpl; try done.
  - intros. rewrite length_replicate. lia.
  - intros. rewrite length_replicate. lia.
Qed.

(** A request for [n] bytes at 0x1000, to be stored at 0x2000. *)
Definition demo_request (n : Z) : list Z := to_le 4 n ++ to_le 4 0x2000 ++ to_le 4 0 ++ to_le 4 0.
Definition demo_world (n : Z) : world (list Z) globals :=
  mkWorld (booted (uput (user_at 0x1000 (demo_request n)) 0x2000 (replicate 8 0))) [0x5000]
    (mkGlobals 0 1 no_reg {[1 := 0x5000]}) [].

Lemma random_request_delivers_witness :
  wp (@rng_test_ioctl (sim sim_ok) (sim_os (fun _ => false)) _ _ false 1 RNG_TEST_GET_RANDOM 0x1000)
    (fun r w' => r = 0 /\ kmem (kern w') = kmem (kern (demo_world 8)) /\
       dev w' = [0x5000] /\ uread (ubytes (kern w')) 0x2000 8 = replicate 8 7)
    (fun _ _ => False) (demo_world 8).
Proof.
  apply (@random_request_delivers (sim sim_ok) (sim_laws sim_ok) (sim_os (fun _ => false)) _ _ toy_rng_laws false 1 0x5000 0x1000 (demo_request 8) 8 (demo_world 8));
    by vm_compute.
Defined.

(** Six bytes: the library writes eight. *)
Lemma random_request_in_bounds_iff_witness :
  ~ ((@rng_test_get_random (sim sim_ok) (sim_os (fun _ => false)) _ _ false 0x5000 0x1000
        (demo_world 6)).1 <> Undef).
Proof.
  rewrite (@random_request_in_bounds_iff (sim sim_ok) (sim_laws sim_ok) (sim_os (fun _ => false)) _ _ toy_rng_laws false 0x5000 0x1000 (demo_request 6) 6 (demo_world 6));
    [|by vm_compute..]. intros [_ H]. by vm_compute in H.
Defined.

Lemma rng_open_close_witness :
  wp (r ← @rng_test_open (sim sim_ok) (sim_os (fun _ => false)) _ _ 2;
      when (r =? OS_ERROR_OK_S) (_ ← rng_test_release 2; skip);; mret r)
    (fun r w' =>
       (r = 0 /\ kmem (kern w') = ∅ /\ private (glob w') !! 2 = Some 0) \/
       (r = - ENOMEM /\ kmem (kern w') = ∅ /\ glob w' = glob (demo_world 8)) \/
       (r = - EIO /\ glob w' = glob (demo_world 8) /\ exists ctx bs,
          (∅ : gmap Z block) !! ctx = None /\
          kmem (kern w') = <[ctx := mkBlock Kmalloc bs]> ∅))
    (fun _ _ => False) (demo_world 8).
Proof.
  apply (@rng_open_close (sim sim_ok) (sim_laws sim_ok) (sim_os (fun _ => false))
    (sim_os_laws _) _ _ toy_rng_laws 2 (demo_world 8)). by vm_compute.
Defined.
End Witnesses.
