(* ===== verification/RngSession.v ===== *)
(** * Sessions of the random number module

    Any number of files, opened, used and closed in any order while processes
    write their memory: the context of each open file is a live block of its
    own, closing a file gives it back, and nothing else in kernel memory
    changes; every call returns, but for the requests for random bytes that
    run out of their buffer. *)
From S2P Require Import Prelude CInt CMonad CStruct Kernel SimKernel PortableOs Rng RngSpec.

Section Session.
Context `{KL : KernelLaws} `{PL : PortableOsLaws} {D : Type} `{RL : RngDriverLaws D} (RNG_DEBUG : bool).
Abbreviation W := (world D globals).
Implicit Types (w : W) (E : Z -> W -> Prop).

(** ** Handlers that touch one block *)
(** Whatever else happens, a returning run leaves the globals and every block but the
    one at [p] alone. *)
Definition spares (p : Z) w w' : Prop :=
  glob w' = glob w /\ forall q, q <> p -> kmem (kern w') !! q = kmem (kern w) !! q.
Definition touches (p : Z) {A} (m : M W A) : Prop :=
  forall w, wpu True m (fun _ => spares p w) (fun _ _ => False) w.

Lemma spares_refl p w : spares p w w.
Proof. done. Qed.
Lemma spares_trans p w1 w2 w3 : spares p w1 w2 -> spares p w2 w3 -> spares p w1 w3.
Proof. intros [Hg Ha] [Hg' Hb]. split; [congruence|]. intros q Hq. by rewrite Hb, Ha. Qed.
Lemma touches_bind {A B} p (m : M W A) (k : A -> M W B) :
  touches p m -> (forall a, touches p (k a)) -> touches p (m ≫= k).
Proof.
  intros Hm Hk w. apply wp_bind. eapply wp_mono; [apply Hm|]. intros a w1 Ha. cbv beta in Ha.
  eapply wp_mono; [apply Hk|]. intros b w2 Hb. cbv beta in *. by eapply spares_trans.
Qed.
Lemma touches_kept {A} p (m : M W A) : mem_kept m -> touches p m.
Proof.
  intros Hm w. specialize (Hm (fun _ _ => False) w). unfold wpu in *.
  destruct (m w) as [[a|c| |] w']; try done. destruct Hm as [Hk Hg]. split; [done|]. by rewrite Hk.
Qed.
Lemma touches_kwrite p off l : touches p (kwrite p off l).
Proof.
  intros w. unfold wpu, kwrite. destruct l; [done|]. destruct (kmem (kern w) !! p) as [b|]; [|done].
  destruct (_ && _); [|done]. split; [done|]. intros q Hq. simpl. by rewrite lookup_insert_ne.
Qed.
Lemma touches_kread p q off n : touches p (kread q off n).
Proof.
  intros w. unfold wpu, kread. destruct (n =? 0); [done|]. destruct (kmem (kern w) !! q); [|done].
  by destruct (_ && _).
Qed.
(** Giving the block back. *)
Lemma kfree_touches p w : 
  wpu True (kfree p) (fun _ w' => spares p w w' /\ (ZERO_SIZE_PTR < p -> kmem (kern w') !! p = None))
    (fun _ _ => False) w.
Proof.
  unfold wpu, kfree. destruct (Z.leb_spec p ZERO_SIZE_PTR); [split; [done|lia]|].
  destruct (kmem (kern w) !! p) as [[[] bs]|] eqn:Hp; try done. split; [|intros _; apply lookup_delete_eq].
  split; [done|]. intros q Hq. simpl. by rewrite lookup_delete_ne.
Qed.


Lemma kept_os_from p n : mem_kept (D := D) (G := globals) (os_copy_from_user p n).
Proof. unfold os_copy_from_user. kept. Qed.
Lemma kept_os_to p l : mem_kept (D := D) (G := globals) (os_copy_to_user p l).
Proof. unfold os_copy_to_user. kept. Qed.

(** What an ioctl keeps: the globals and every block that can be a context. *)
Definition unmoved w w' : Prop :=
  glob w' = glob w /\ forall q, ZERO_SIZE_PTR < q -> kmem (kern w') !! q = kmem (kern w) !! q.
Definition steady {A} (m : M W A) : Prop := forall w, wpu True m (fun _ => unmoved w) (fun _ _ => False) w.
Lemma steady_kept {A} (m : M W A) : mem_kept m -> steady m.
Proof.
  intros Hm w. specialize (Hm (fun _ _ => False) w). unfold wpu in *.
  destruct (m w) as [[a|c| |] w']; try done. destruct Hm as [Hk Hg]. split; [done|]. by rewrite Hk.
Qed.
Lemma steady_bind {A B} (m : M W A) (k : A -> M W B) :
  steady m -> (forall a, steady (k a)) -> steady (m ≫= k).
Proof.
  intros Hm Hk w. apply wp_bind. eapply wp_mono; [apply Hm|]. intros a w1 [Hg Ha].
  eapply wp_mono; [apply Hk|]. intros b w2 [Hg2 Hb]. split; [congruence|]. intros q Hq. by rewrite Hb, Ha.
Qed.
Lemma steady_if {A} (b : bool) (m1 m2 : M W A) : steady m1 -> steady m2 -> steady (if b then m1 else m2).
Proof. by destruct b. Qed.
(** The rest of a handler that holds the fresh block [p], entered from [w]. *)
Definition gives_back (p : Z) w (m : M W Z) : Prop :=
  (ZERO_SIZE_PTR < p -> kmem (kern w) !! p = None) ->
  forall w1, glob w1 = glob w ->
    (forall q, ZERO_SIZE_PTR < q -> q <> p -> kmem (kern w1) !! q = kmem (kern w) !! q) ->
    wpu True m (fun _ => unmoved w) (fun _ _ => False) w1.
Lemma gives_back_step {A} p w (m : M W A) (k : A -> M W Z) :
  touches p m -> (forall a, gives_back p w (k a)) -> gives_back p w (m ≫= k).
Proof.
  intros Hm Hk Hp w1 Hg1 Hs1. apply wp_bind. eapply wp_mono; [apply Hm|]. intros a w2 [Hg2 Hs2].
  apply Hk; [done|congruence|]. intros q Hq Hne. by rewrite Hs2, Hs1.
Qed.
Lemma gives_back_free p w (r : Z) : gives_back p w (os_free_memory p;; mret r).
Proof.
  intros Hp w1 Hg1 Hs1. apply wp_bind. eapply wp_mono; [apply kfree_touches|].
  intros [] w2 [[Hg2 Hs2] Hfree]. apply wp_ret. split; [congruence|]. intros q Hq.
  destruct (decide (q = p)) as [->|Hne]; [by rewrite Hfree, Hp|]. by rewrite Hs2, Hs1.
Qed.
Lemma gives_back_none w (r : Z) : gives_back 0 w (mret r).
Proof. intros _ w1 Hg1 Hs1. apply wp_ret. split; [done|]. intros q Hq. apply Hs1; unfold ZERO_SIZE_PTR in *; lia. Qed.
Lemma steady_buffer n (k : Z -> M W Z) : 0 <= n ->
  (forall p w, gives_back p w (k p)) -> steady (os_alloc_memory n ≫= k).
Proof.
  intros Hn Hk w. apply wp_bind. apply wp_kmalloc; [done|..].
  - intros _. apply Hk; [lia|done|done].
  - intros _ _. apply Hk; [unfold ZERO_SIZE_PTR; lia|done|done].
  - intros p bs _ _ Hp Hfree _ _. apply Hk; [done|done|]. intros q _ Hne. simpl. by rewrite lookup_insert_ne.
Qed.

Lemma steady_get_random ctx p : steady (rng_test_get_random RNG_DEBUG ctx p).
Proof.
  unfold rng_test_get_random. apply steady_bind; [apply steady_kept, kept_os_from|]. intros [s err].
  destruct (truth err); [apply steady_kept; unfold debug, os_printk; kept|]. cbv zeta.
  apply steady_buffer; [apply wrap_range; lia|]. intros b w. cbv beta.
  apply gives_back_step; [apply touches_kept, kept_drv|]. intros [rc data].
  apply gives_back_step; [apply touches_kwrite|]. intros _.
  apply gives_back_step; [apply touches_kept, kept_os_to|]. intros code.
  apply gives_back_step.
  { destruct (rc =? RNG_RET_OK); [|done]. apply touches_bind; [apply touches_kread|].
    intros l. apply touches_kept, kept_os_to. }
  intros r. destruct (Z.eqb_spec b 0) as [->|]; [|apply gives_back_free].
  apply (gives_back_step (A := unit)); [done|]. intros _. apply gives_back_none.
Qed.
(** User memory holds bytes. *)
Definition bytes_in w : Prop := map_Forall (fun _ b => is_byte b) (ubytes (kern w)).
Lemma uread_bytes m p n : map_Forall (fun _ b => is_byte b) m -> Forall is_byte (uread m p n).
Proof.
  intros Hm. revert p. induction n as [|n IH]; intros p; [constructor|]. simpl.
  destruct (m !! p) as [b|] eqn:Hp; [|constructor]. constructor; [by eapply Hm|apply IH].
Qed.
Lemma add_entropy_unmoved ctx p w :
  bytes_in w -> wpu True (rng_test_add_entropy RNG_DEBUG ctx p) (fun _ => unmoved w) (fun _ _ => False) w.
Proof.
  intros Hw. unfold rng_test_add_entropy. apply wp_bind, wp_os_copy_from_user; [lia| |].
  - intros Hz. rewrite <- from_user_done by (lia || done).
    pose proof (length_from_user (ubytes (kern w)) p (Z.of_nat (sizeof rng_test_add_entropy_t))) as Hl.
    assert (Forall is_byte (from_user (ubytes (kern w)) p (Z.of_nat (sizeof rng_test_add_entropy_t))).1) as Hb
      by (rewrite from_user_done by (lia || done); by apply uread_bytes).
    set (s := (from_user _ _ _).1) in *. clearbody s. simpl truth. cbn iota. cbv zeta.
    apply steady_buffer.
    { apply get_range; [done|done|lia]. }
    intros b w1. cbv beta. destruct (Z.eqb_spec b 0) as [->|]; cbn [negb].
    { apply (gives_back_step (A := unit)); [apply touches_kept; unfold debug, os_printk; kept|].
      intros _. apply gives_back_none. }
    apply gives_back_step; [apply touches_kread|]. intros data.
    apply gives_back_step; [apply touches_kept, kept_drv|]. intros r.
    apply gives_back_step; [apply touches_kept, kept_os_to|]. intros code. apply gives_back_free.
  - intros _. cbn iota beta. rewrite truth_true by apply bad_address_law.
    apply steady_kept. unfold debug, os_printk. kept.
Qed.
Lemma ioctl_unmoved file cmd arg w :
  bytes_in w -> wpu True (rng_test_ioctl RNG_DEBUG file cmd arg) (fun _ => unmoved w) (fun _ _ => False) w.
Proof.
  intros Hw. unfold rng_test_ioctl. apply wp_bind, wp_gets. set (ctx := default 0 _). clearbody ctx.
  destruct (cmd =? RNG_TEST_GET_RANDOM); [destruct (negb _); [apply steady_get_random|done]|].
  destruct (cmd =? RNG_TEST_ADD_ENTROPY); [destruct (negb _); [by apply add_entropy_unmoved|done]|].
  unfold rng_test_read_register, rng_test_write_register, debug, os_printk.
  repeat match goal with |- context [if ?b then _ else _] => destruct b end; try done; apply steady_kept;
    pose proof kept_os_from; pose proof kept_os_to; kept.
Qed.

(** ** Calls that return *)
(** A request for random bytes whose number is not a positive multiple of four
    (or within four of 2^31), or for which the kernel finds no memory: the
    library is let write where the module has no buffer. *)
Definition overrun (p : Z) w : Prop :=
  exists s, holds rng_test_get_random_t w p s /\
    let count := i32 (get rng_test_get_random_t "count_bytes" s) in
    ~ (0 < count < 2 ^ 31 - 3 /\ count mod 4 = 0 /\ o_kmalloc (kmem (kern w)) (calls (kern w)) count <> None).

Lemma wp_both {A} (U : Prop) (m : M W A) (Q Q' : A -> W -> Prop) E w :
  wpu True m Q E w -> wpu U m Q' E w -> wpu U m Q E w.
Proof. unfold wpu. by destruct (m w) as [[] ?]. Qed.
Lemma wp_kept_any {A} U (m : M W A) E w : mem_kept m -> wpu U m (fun _ _ => True) E w.
Proof. intros Hm. apply wp_allow. eapply wp_mono; [apply Hm|done]. Qed.

Lemma get_random_returns ctx p E w :
  wpu (overrun p w) (rng_test_get_random RNG_DEBUG ctx p) (fun _ _ => True) E w.
Proof.
  assert (overrun p w \/ (rng_test_get_random RNG_DEBUG ctx p w).1 <> Undef) as Hcases.
  { destruct (from_user (ubytes (kern w)) p (Z.of_nat (sizeof rng_test_get_random_t))) as [s unc] eqn:Hf.
    destruct (decide (unc = 0)) as [->|Hunc].
    - set (count := i32 (get rng_test_get_random_t "count_bytes" s)).
      assert (Decision (o_kmalloc (kmem (kern w)) (calls (kern w)) count <> None)) as Hdec
        by (destruct (o_kmalloc _ _ _); [by left|right; tauto]).
      destruct (decide (0 < count < 2 ^ 31 - 3 /\ count mod 4 = 0 /\
        o_kmalloc (kmem (kern w)) (calls (kern w)) count <> None)) as [(Hc & H4 & Hal)|Hno].
      + right. pose proof (get_random_wp RNG_DEBUG ctx p s count (fun _ _ => False) w Hf eq_refl Hc H4 Hal) as Hw.
        unfold wpu in Hw. by destruct (rng_test_get_random RNG_DEBUG ctx p w) as [[] ?].
      + left. by exists s.
    - right. assert (wp (rng_test_get_random RNG_DEBUG ctx p) (fun _ _ => True) (fun _ _ => False) w) as Hw.
      { unfold rng_test_get_random. apply wp_bind, wp_os_copy_from_user; [lia| |]; rewrite Hf; [done|].
        intros _. cbv beta iota. rewrite truth_true by apply bad_address_law.
        apply wp_kept_any. unfold debug, os_printk. kept. }
      unfold wpu in Hw. by destruct (rng_test_get_random RNG_DEBUG ctx p w) as [[] ?]. }
  pose proof (steady_get_random ctx p w) as Hst. unfold wpu in *.
  destruct (rng_test_get_random RNG_DEBUG ctx p w) as [[] ?]; try done. by destruct Hcases.
Qed.
Lemma add_entropy_returns ctx p E w :
  bytes_in w -> wp (rng_test_add_entropy RNG_DEBUG ctx p) (fun _ _ => True) E w.
Proof.
  intros Hw. unfold rng_test_add_entropy. apply wp_bind, wp_os_copy_from_user; [lia| |].
  2: { intros _. cbv beta iota. rewrite truth_true by apply bad_address_law.
       apply wp_kept_any. unfold debug, os_printk. kept. }
  intros Hz. rewrite <- from_user_done by (lia || done).
  pose proof (length_from_user (ubytes (kern w)) p (Z.of_nat (sizeof rng_test_add_entropy_t))) as Hl.
  assert (Forall is_byte (from_user (ubytes (kern w)) p (Z.of_nat (sizeof rng_test_add_entropy_t))).1) as Hb
    by (rewrite from_user_done by (lia || done); by apply uread_bytes).
  set (s := (from_user _ _ _).1) in *. clearbody s. simpl truth. cbn iota. cbv zeta.
  assert (0 <= get rng_test_add_entropy_t "count_bytes" s) as Hn by (apply get_range; [done|done|lia]).
  set (n := get _ _ s) in *. clearbody n. apply wp_bind, wp_kmalloc; [done|..].
  - intros ->. cbn [Z.eqb negb ZERO_SIZE_PTR]. apply wp_bind. unfold wpu at 1, kread. cbn [Z.eqb].
    apply wp_bind, wp_drv, wp_bind. eapply wp_mono; [apply wp_kept_any, kept_os_to|]. intros code w2 _.
    apply wp_bind, wp_kfree_null; [done|]. by apply wp_ret.
  - intros _ _. apply wp_kept_any. unfold debug, os_printk. kept.
  - intros b bs Hpos _ Hb1 _ Hbs _. rewrite (proj2 (Z.eqb_neq b 0)) by (unfold ZERO_SIZE_PTR in *; lia). cbn [negb].
    apply wp_bind. eapply wp_kread; [simpl; by rewrite lookup_insert_eq|done|done|simpl; lia|].
    apply wp_bind, wp_drv, wp_bind. eapply wp_mono; [apply kept_os_to|]. intros code w2 [Hk _].
    apply wp_bind. eapply wp_kfree; [lia|rewrite Hk; simpl; by rewrite lookup_insert_eq|]. by apply wp_ret.
Qed.
Lemma ioctl_returns file cmd arg E w :
  bytes_in w ->
  wpu (cmd = RNG_TEST_GET_RANDOM /\ overrun arg w) (rng_test_ioctl RNG_DEBUG file cmd arg) (fun _ _ => True) E w.
Proof.
  intros Hw. unfold rng_test_ioctl. apply wp_bind, wp_gets. set (ctx := default 0 _). clearbody ctx.
  destruct (Z.eqb_spec cmd RNG_TEST_GET_RANDOM) as [->|].
  { destruct (negb _); [|done]. pose proof (get_random_returns ctx arg E w) as Hr.
    unfold wpu in *. by destruct (rng_test_get_random RNG_DEBUG ctx arg w) as [[] ?]. }
  destruct (cmd =? RNG_TEST_ADD_ENTROPY); [destruct (negb _); [by apply wp_allow, add_entropy_returns|done]|].
  unfold rng_test_read_register, rng_test_write_register, debug, os_printk.
  repeat match goal with |- context [if ?b then _ else _] => destruct b end; try done; apply wp_kept_any;
    pose proof kept_os_from; pose proof kept_os_to; kept.
Qed.

(** ** Sessions *)
Inductive call := Open (file : Z) | Ioctl (file cmd arg : Z) | Close (file : Z).
Definition serve (c : call) : M W Z :=
  match c with
  | Open f => rng_test_open f
  | Ioctl f cmd arg => rng_test_ioctl RNG_DEBUG f cmd arg
  | Close f => rng_test_release f
  end.
(** The kernel opens a file once; between calls the processes write what they
    like into their memory. *)
Definition possible (c : call) w : Prop :=
  bytes_in w /\ match c with Open f => default 0 (private (glob w) !! f) = 0 | _ => True end.
Definition user_writes (u : gmap Z Z) w : W := set_kern (set_ubytes (fun _ => u)) w.
Inductive reaches (w0 : W) : W -> Prop :=
| reaches_start : reaches w0 w0
| reaches_call c w r w' : reaches w0 w -> possible c w -> serve c w = (Ret r, w') -> reaches w0 w'
| reaches_user u w : reaches w0 w -> reaches w0 (user_writes u w).

Definition context w (f p : Z) : Prop := private (glob w) !! f = Some p /\ p <> 0.
Record contexts_ok (w0 w : W) : Prop := {
  ctx_live f p : context w f p -> ZERO_SIZE_PTR < p /\
    exists bs, kmem (kern w) !! p = Some (mkBlock Kmalloc bs) /\ zlen bs = sizeof_uco;
  ctx_own f g p : context w f p -> context w g p -> f = g;
  ctx_new f p : context w f p -> kmem (kern w0) !! p = None;
  ctx_rest q b : ZERO_SIZE_PTR < q -> kmem (kern w0) !! q = Some b -> kmem (kern w) !! q = Some b;
  ctx_all : (forall ctx d, (fsl_shw_register_user ctx d).1 = FSL_RETURN_OK_S) ->
    forall q, ZERO_SIZE_PTR < q -> (forall f, ~ context w f q) -> kmem (kern w) !! q = kmem (kern w0) !! q;
}.

Lemma contexts_unmoved w0 w w' : contexts_ok w0 w -> unmoved w w' -> contexts_ok w0 w'.
Proof.
  intros [Hl Ho Hn Hr Ha] [Hg Hk]. assert (forall f p, context w' f p <-> context w f p) as Hc
    by (intros; unfold context; by rewrite Hg).
  split.
  - intros f p Hp%Hc. destruct (Hl f p Hp) as [Hz Hb]. split; [done|]. by rewrite Hk.
  - intros f g p Hf%Hc Hg'%Hc. by eapply Ho.
  - intros f p Hp%Hc. by eapply Hn.
  - intros q b Hq Hb. rewrite Hk by done. by apply Hr.
  - intros Hreg q Hq Hno. rewrite Hk by done. apply Ha; [done|done|]. intros f Hf. by apply (Hno f), Hc.
Qed.

Lemma contexts_open w0 w f E : default 0 (private (glob w) !! f) = 0 -> contexts_ok w0 w ->
  wp (rng_test_open f) (fun _ => contexts_ok w0) E w.
Proof.
  intros Hf Hok. pose proof uco_pos as Hpos. unfold rng_test_open, os_alloc_memory.
  apply wp_bind, wp_kmalloc; [lia|lia| |].
  { intros _ _. simpl. apply wp_ret. by apply (contexts_unmoved w0 w). }
  intros p bs _ _ Hp Hfree Hbs _. assert (p <> 0) as Hn0 by (unfold ZERO_SIZE_PTR in *; lia).
  rewrite (proj2 (Z.eqb_neq _ _) Hn0). cbn [negb]. pose proof (uco_law 20) as Hu.
  apply wp_bind. eapply wp_kwrite; [simpl; by rewrite lookup_insert_eq|done|simpl; lia|].
  apply wp_bind, wp_drv. cbn [dev set_kern].
  assert (forall q, q <> p -> <[p:=mkBlock Kmalloc (poke 0 (fsl_shw_uco_init 20) bs)]> (<[p:=mkBlock Kmalloc bs]> (kmem (kern w))) !! q
    = kmem (kern w) !! q) as Hother by (intros q Hq; by rewrite !lookup_insert_ne).
  destruct Hok as [Hl Ho Hn Hr Ha].
  assert (forall q b, ZERO_SIZE_PTR < q -> kmem (kern w0) !! q = Some b -> q <> p) as Hw0
    by (intros q b Hq Hb ->; apply Hr in Hb; [congruence|done]).
  assert (forall f' q, context w f' q -> q <> p) as Hctx.
  { intros f' q Hc ->. destruct (Hl _ _ Hc) as [_ (bs' & Hb & _)]. congruence. }
  destruct (Z.eqb_spec (fsl_shw_register_user p (dev w)).1 FSL_RETURN_OK_S) as [Hreg|Hreg]; cbn [negb].
  - apply wp_bind, wp_modify, wp_ret.
    assert (forall f' q, context (set_glob (set_private <[f:=p]> (glob w)) w) f' q <->
      (f' = f /\ q = p) \/ (f' <> f /\ context w f' q)) as Hc.
    { intros f' q. unfold context. cbn [glob set_glob private set_private].
      destruct (decide (f' = f)) as [->|Hne]; [rewrite lookup_insert_eq|rewrite lookup_insert_ne by done; tauto].
      split; [intros [[= <-] ?]; auto|intros [[_ ->]|[? _]]; done]. }
    split.
    + intros f' q [[-> ->]|[_ Hq]]%Hc; simpl.
      * split; [lia|]. eexists. rewrite lookup_insert_eq. split; [done|]. rewrite length_poke; simpl; lia.
      * rewrite Hother by (by eapply Hctx). by eapply Hl.
    + intros f1 f2 q [[-> ->]|[_ Hq]]%Hc [[-> Hq2]|[_ Hq2]]%Hc; [done|by destruct (Hctx _ _ Hq2)|by destruct (Hctx _ _ Hq)|by eapply Ho].
    + intros f' q [[-> ->]|[_ Hq]]%Hc; [|by eapply Hn].
      destruct (kmem (kern w0) !! p) eqn:Hb; [|done]. by destruct (Hw0 p _ ltac:(lia) Hb).
    + intros q b Hq Hb. simpl. rewrite Hother by (by eapply Hw0). by apply Hr.
    + intros Hall q Hq Hno. simpl. assert (q <> p) as Hne by (intros ->; apply (Hno f), Hc; auto).
      rewrite Hother by done. apply Ha; [done|done|]. intros f' Hf'. apply (Hno f'), Hc.
      destruct (decide (f' = f)) as [->|]; [|auto]. destruct Hf' as [Hf' ?]. by rewrite Hf' in Hf.
  - apply wp_ret. split; simpl.
    + intros f' q Hq. rewrite Hother by (by eapply Hctx). by eapply Hl.
    + intros f1 f2 q Hf1 Hf2. by eapply Ho.
    + intros f' q Hq. by eapply Hn.
    + intros q b Hq Hb. rewrite Hother by (by eapply Hw0). by apply Hr.
    + intros Hall. by destruct Hreg.
Qed.

Lemma contexts_close w0 w f E : contexts_ok w0 w ->
  wp (rng_test_release f) (fun r w' => contexts_ok w0 w' /\ r = OS_ERROR_OK_S /\
    (forall p, ~ context w' f p) /\ (forall g p, g <> f -> context w' g p <-> context w g p)) E w.
Proof.
  intros Hok. unfold rng_test_release, user_private. apply wp_bind, wp_gets.
  set (p := default 0 (private (glob w) !! f)). destruct (Z.eqb_spec p 0) as [Hz0|Hp]; cbn [negb when].
  - apply wp_bind, wp_skip, wp_ret. split; [done|]. split; [done|]. split; [|done].
    intros q [Hq Hne]. apply Hne. rewrite <- Hz0. unfold p. by rewrite Hq.
  - assert (context w f p) as Hc.
    { split; [|done]. unfold p in *. by destruct (private (glob w) !! f). }
    destruct Hok as [Hl Ho Hn Hr Ha]. destruct (Hl f p Hc) as [Hz (bs & Hb & _)].
    apply wp_bind, wp_bind, wp_drv, wp_bind. eapply wp_kfree; [done|exact Hb|]. apply wp_modify, wp_ret.
    set (w' := set_glob _ _).
    assert (forall g q, context w' g q <-> g <> f /\ context w g q) as Hc'.
    { intros g q. unfold context, w'. simpl. destruct (decide (g = f)) as [->|Hne].
      - rewrite lookup_insert_eq. split; [intros [[= <-] ?]; done|tauto].
      - rewrite lookup_insert_ne by done. tauto. }
    assert (forall q, q <> p -> kmem (kern w') !! q = kmem (kern w) !! q) as Hother
      by (intros q Hq; simpl; by rewrite lookup_delete_ne).
    split; [|split; [done|split; [by intros q [? _]%Hc'|intros g q Hg; rewrite Hc'; tauto]]]. split.
    + intros g q [Hg Hq]%Hc'. assert (q <> p) as Hne by (intros ->; by apply Hg, (Ho _ _ p)).
      rewrite Hother by done. by eapply Hl.
    + intros g1 g2 q [_ Hq1]%Hc' [_ Hq2]%Hc'. by eapply Ho.
    + intros g q [_ Hq]%Hc'. by eapply Hn.
    + intros q b Hq Hb'. rewrite Hother; [by apply Hr|]. intros ->. rewrite (Hn f p Hc) in Hb'. done.
    + intros Hall q Hq Hno. destruct (decide (q = p)) as [->|Hne].
      * simpl. by rewrite lookup_delete_eq, (Hn f p Hc).
      * rewrite Hother by done. apply Ha; [done|done|]. intros g Hg.
        destruct (decide (g = f)) as [->|Hgf]; [|by apply (Hno g), Hc'].
        destruct Hc as [Hc _], Hg as [Hg _]. congruence.
Qed.

(** One call: it returns and keeps the contexts in order, or overruns. *)
Definition overruns (c : call) w : Prop :=
  exists f p, c = Ioctl f RNG_TEST_GET_RANDOM p /\ overrun p w.
Lemma serve_keeps w0 w c :
  possible c w -> contexts_ok w0 w ->
  wpu (overruns c w) (serve c) (fun _ => contexts_ok w0) (fun _ _ => False) w.
Proof.
  intros [Hb Hpos] Hok. destruct c as [f|f cmd arg|f]; cbn [serve].
  - by apply wp_allow, contexts_open.
  - apply (wp_both _ _ _ (fun _ _ => True)).
    + eapply wp_mono; [by apply ioctl_unmoved|]. intros r' w1. by apply contexts_unmoved.
    + pose proof (ioctl_returns f cmd arg (fun _ _ => False) w Hb) as Hr. revert Hr. unfold wpu.
      destruct (rng_test_ioctl RNG_DEBUG f cmd arg w) as [[] ?]; try done. intros [-> Ho]. by exists f, arg.
  - apply wp_allow. eapply wp_mono; [by apply contexts_close|]. by intros r w' [? _].
Qed.

Lemma reaches_contexts w0 w : private (glob w0) = ∅ -> reaches w0 w -> contexts_ok w0 w.
Proof.
  intros Hnone Hw. induction Hw as [|c w r w' _ IH [Hb Hpos] Hrun|u w _ IH].
  - assert (forall f p, ~ context w0 f p) as Hno by (intros f p [Hf _]; by rewrite Hnone in Hf).
    split; try done; intros f **; by destruct (Hno f _ ltac:(eassumption)).
  - pose proof (serve_keeps w0 w c (conj Hb Hpos) IH) as Hwp. unfold wpu in Hwp. by rewrite Hrun in Hwp.
  - apply (contexts_unmoved w0 w); [done|]. by split.
Qed.

(** C11: However processes open, use and close files of the random number
    module, as long as the calls return, every open file that has a context
    owns a live kernel block of the context's size that no other file has and
    that was not there when the module was loaded; the blocks that were there
    are untouched, and if the library refuses no registration, the contexts
    are the only blocks in addition, so nothing is lost.  In every such state
    the next call, whatever it is, does return and keeps all this, except a
    request for random bytes whose number is not a positive multiple of four
    below 2^31 - 3 or for which no memory is found: that one may write outside
    the module's memory, which is undefined.  Closing a file takes away its context only. *)
Theorem rng_contexts_owned w0 w :
  private (glob w0) = ∅ -> reaches w0 w ->
  contexts_ok w0 w /\
  (forall c, possible c w ->
     wpu (overruns c w) (serve c) (fun _ => contexts_ok w0) (fun _ _ => False) w) /\
  forall f, wp (rng_test_release f) (fun r w' => contexts_ok w0 w' /\ r = OS_ERROR_OK_S /\
    (forall p, ~ context w' f p) /\ (forall g p, g <> f -> context w' g p <-> context w g p))
    (fun _ _ => False) w.
Proof.
  intros Hnone Hw. pose proof (reaches_contexts w0 w Hnone Hw) as Hok. split; [done|]. split.
  - intros c Hc. by apply serve_keeps.
  - intros f. by apply contexts_close.
Qed.
End Session.

Section Witness.
#[local] Instance toy_kernel : Kernel := sim sim_ok.
#[local] Instance toy_os : PortableOs := sim_os (fun _ => false).
Definition fresh_world : world (list Z) globals :=
  mkWorld (booted ∅) [] (mkGlobals 0 1 no_reg ∅) [].
Definition two_open : world (list Z) globals :=
  (serve (H1 := toy_rng) false (Open 2) (serve (H1 := toy_rng) false (Open 1) fresh_world).2).2.

Lemma rng_contexts_owned_witness :
  contexts_ok (H1 := toy_rng) fresh_world two_open /\
  (forall c, possible c two_open ->
     wpu (overruns c two_open) (serve (H1 := toy_rng) false c)
       (fun _ => contexts_ok (H1 := toy_rng) fresh_world) (fun _ _ => False) two_open) /\
  forall f, wp (rng_test_release (H1 := toy_rng) f) (fun r w' => contexts_ok (H1 := toy_rng) fresh_world w' /\ r = 0 /\
    (forall p, ~ context w' f p) /\ (forall g p, g <> f -> context w' g p <-> context two_open g p))
    (fun _ _ => False) two_open.
Proof.
  apply (@rng_contexts_owned toy_kernel (sim_laws sim_ok) toy_os (sim_os_laws _) _ _ toy_rng_laws false); [done|].
  apply (reaches_call _ _ (Open 2) (serve (H1 := toy_rng) false (Open 1) fresh_world).2 0).
  - apply (reaches_call _ _ (Open 1) fresh_world 0); [apply reaches_start|by split|].
    apply returned. by vm_compute.
  - split; [by vm_compute|by vm_compute].
  - apply returned. by vm_compute.
Defined.
End Witness.
