(* ===== verification/Scc.v ===== *)
(** * The security controller test module

    [src/module_test/scc_test_driver.c] and [src/include/scc_test_driver.h]:
    ioctls that reach the SCC driver's registers, cipher and key slots.  The
    SCC driver ([<linux/mxc_scc_driver.h>]) is the class [SccDriver]; buffers
    handed to it are the bytes it reads and the bytes it writes. *)
From S2P Require Import Prelude CInt CMonad CStruct Kernel PortableOs.

(** ** scc_test_driver.h *)
Definition SCC_TEST_DRIVER_NAME : string := "scc_test".
Definition SCC_TEST_MAJOR_NODE : Z := 240.

Definition IOCTL_SCC_OK : Z := 0.
Definition IOCTL_SCC_INVALID_CMD : Z := ENOTTY.
Definition IOCTL_SCC_INVALID_MODE : Z := EINVAL.
Definition IOCTL_SCC_SCM_BUSY : Z := EBUSY.
Definition IOCTL_SCC_IMPROPER_STATE : Z := EBADFD.
Definition IOCTL_SCC_IMPROPER_ADDR : Z := EFAULT.
Definition IOCTL_SCC_NO_MEMORY : Z := ENOMEM.
Definition IOCTL_SCC_FAILURE : Z := ESPIPE.
Definition SCC_TEST_DRIVER_IOCTL_IDENTIFIER : Z := 115. (* 's' *)

Definition scc_configuration_access : cstruct := struct
  [("driver_major_version", Tint); ("driver_minor_version", Tint); ("scm_version", Tint);
   ("smn_version", Tint); ("block_size", Tint); ("black_ram_size", Tint); ("red_ram_size", Tint)].
Definition scc_reg_access : cstruct := struct
  [("reg_offset", Tu32); ("reg_data", Tu32); ("function_return_code", Tenum)].
Definition SCC_ENCRYPT_SLEEP : Z := 0.
Definition SCC_ENCRYPT_POLL : Z := 1.
Definition scc_encrypt_decrypt : cstruct := struct
  [("data_in", Tptr); ("data_in_length", Tulong); ("data_out", Tptr); ("data_out_length", Tulong);
   ("crypto_mode", Tenum); ("check_mode", Tenum); ("init_vector", Tarr 2 Tu32);
   ("wait_mode", Tenum); ("function_return_code", Tenum); ("verify_mode", Tenum)].
Definition scc_get_black_length_access : cstruct := struct
  [("value_size_bytes", Tu64); ("black_size_bytes", Tu32)].
Definition scc_alloc_slot_access : cstruct := struct
  [("value_size_bytes", Tu32); ("slot", Tu32); ("owner_id", Tu64); ("scc_status", Tenum)].
Definition scc_dealloc_slot_access : cstruct := struct
  [("slot", Tu32); ("scc_status", Tenum); ("owner_id", Tu64)].
Definition scc_load_slot_access : cstruct := struct
  [("slot", Tu32); ("key_is_red", Tu32); ("owner_id", Tu64); ("key_data", Tptr);
   ("key_data_length", Tu32); ("scc_status", Tenum)].
Definition scc_encrypt_slot_access : cstruct := struct
  [("slot", Tu32); ("key_data", Tptr); ("owner_id", Tu64); ("key_data_length", Tu32);
   ("scc_status", Tenum)].
Definition scc_get_slot_info_access : cstruct := struct
  [("slot", Tu32); ("address", Tu32); ("owner_id", Tu64); ("value_size_bytes", Tu32);
   ("slot_size_bytes", Tu32); ("scc_status", Tenum)].

Definition SCC_TEST_GET_CONFIGURATION : Z :=
  _IOW SCC_TEST_DRIVER_IOCTL_IDENTIFIER 0 (sizeof scc_configuration_access).
Definition SCC_TEST_READ_REG : Z :=
  _IOWR SCC_TEST_DRIVER_IOCTL_IDENTIFIER 1 (sizeof scc_reg_access).
Definition SCC_TEST_WRITE_REG : Z :=
  _IOWR SCC_TEST_DRIVER_IOCTL_IDENTIFIER 2 (sizeof scc_reg_access).
Definition SCC_TEST_ENCRYPT : Z :=
  _IOWR SCC_TEST_DRIVER_IOCTL_IDENTIFIER 3 (sizeof scc_encrypt_decrypt).
Definition SCC_TEST_DECRYPT : Z :=
  _IOWR SCC_TEST_DRIVER_IOCTL_IDENTIFIER 4 (sizeof scc_encrypt_decrypt).
Definition SCC_TEST_SET_ALARM : Z := _IO SCC_TEST_DRIVER_IOCTL_IDENTIFIER 5.
Definition SCC_TEST_ZEROIZE : Z :=
  _IOWR SCC_TEST_DRIVER_IOCTL_IDENTIFIER 6 (tsize Tenum).
Definition SCC_TEST_ALLOC_SLOT : Z :=
  _IOWR SCC_TEST_DRIVER_IOCTL_IDENTIFIER 7 (sizeof scc_alloc_slot_access).
Definition SCC_TEST_DEALLOC_SLOT : Z :=
  _IOWR SCC_TEST_DRIVER_IOCTL_IDENTIFIER 8 (sizeof scc_dealloc_slot_access).
Definition SCC_TEST_LOAD_SLOT : Z :=
  _IOWR SCC_TEST_DRIVER_IOCTL_IDENTIFIER 9 (sizeof scc_load_slot_access).
Definition SCC_TEST_GET_SLOT_INFO : Z :=
  _IOWR SCC_TEST_DRIVER_IOCTL_IDENTIFIER 10 (sizeof scc_get_slot_info_access).
Definition SCC_TEST_ENCRYPT_SLOT : Z :=
  _IOWR SCC_TEST_DRIVER_IOCTL_IDENTIFIER 11 (sizeof scc_encrypt_slot_access).

(** ** The SCC driver *)
Class SccDriver (D : Type) := {
  SCC_RET_INSUFFICIENT_SPACE : Z;
  SCC_CBC_MODE : Z;
  SCC_ENCRYPT : Z;
  SCC_DECRYPT : Z;
  SMN_STATUS : Z;
  SMN_STATUS_STATE_MASK : Z;
  SMN_STATE_FAIL : Z;
  SCC_BASE_ADDR : Z;
  scc_get_configuration : list Z;
  scc_read_register : Z -> Z -> D -> (Z * Z) * D;
  scc_write_register : Z -> Z -> D -> Z * D;
  (* length, input, init vector, direction, mode, check, room for output *)
  scc_crypt : Z -> list Z -> option (list Z) -> Z -> Z -> Z -> Z -> D -> (Z * list Z * Z) * D;
  scc_zeroize_memories : D -> Z * D;
  scc_alloc_slot : Z -> Z -> Z -> D -> (Z * Z) * D;
  scc_dealloc_slot : Z -> Z -> D -> Z * D;
  scc_get_slot_info : Z -> Z -> Z * Z * Z -> D -> (Z * (Z * Z * Z)) * D;
  scc_load_slot : Z -> Z -> list Z -> Z -> D -> Z * D;
  scc_decrypt_slot : Z -> Z -> Z -> list Z -> D -> Z * D;
  scc_encrypt_slot : Z -> Z -> Z -> D -> (Z * list Z) * D;
  scc_set_sw_alarm : D -> D;
  scc_monitor_security_failure : D -> D;
}.
(** The module tests results both with [!] and against this name: it is 0. *)
Definition SCC_RET_OK : Z := 0.

(** ** State *)
Inductive scc_fn := scc_test_open_fn | scc_test_ioctl_fn | scc_test_release_fn | scc_test_mmap_fn.
Record globals := mkGlobals {
  scc_test_major_node : Z;
  scc_reg : os_driver_reg scc_fn;
  scc_cfg : option (list Z);
}.
Definition scc_globals : globals := mkGlobals SCC_TEST_MAJOR_NODE no_reg None.
#[export] Instance scc_has_reg : HasReg globals scc_fn.
Proof.
  refine {| reg_handle := scc_reg;
            set_reg r g := mkGlobals (scc_test_major_node g) r (scc_cfg g) |}.
  done.
Defined.
Definition set_major (v : Z) (g : globals) : globals := mkGlobals v (scc_reg g) (scc_cfg g).
Definition set_cfg (v : list Z) (g : globals) : globals :=
  mkGlobals (scc_test_major_node g) (scc_reg g) (Some v).

(** What [mmap] gets from the kernel. *)
Record vm_area := mkVma { vm_start : Z; vm_pgoff : Z; vm_io : bool }.

Section Driver.
Context `{Kernel} `{PortableOs} {D : Type} `{SccDriver D} (SCC_DEBUG : bool).
Abbreviation W := (world D globals).

Definition getg {A} (f : globals -> A) : M W A := gets (fun w => f (glob w)).
Definition setg (f : globals -> globals) : M W unit := modify (fun w => set_glob (f (glob w)) w).
Definition debug (f : string) (a : list parg) : M W unit := debugk SCC_DEBUG f a.

Definition scc_test_get_configuration (scc_data : Z) : M W Z :=
  debug "SCC TEST: Configuration\n" [];;
  unc ← copy_to_user scc_data scc_get_configuration;
  if truth unc then
    debug "SCC TEST: Error writing data to user\n" [];;
    mret (- IOCTL_SCC_IMPROPER_ADDR)
  else mret IOCTL_SCC_OK.

(** The common end of the register calls: store the driver's answer. *)
Definition reply_reg (scc_data : Z) (reg_struct : list Z) (scc_return error_code : Z) : M W Z :=
  let reg_struct := set scc_reg_access "function_return_code" scc_return reg_struct in
  copy_code ← copy_to_user scc_data reg_struct;
  mret (if negb (copy_code =? 0) then IOCTL_SCC_FAILURE else error_code).

Definition scc_test_read_register (scc_data : Z) : M W Z :=
  '(reg_struct, unc) ← copy_from_user scc_data (Z.of_nat (sizeof scc_reg_access));
  if truth unc then
    debug "SCC TEST: Error reading reg struct from user\n" [];;
    reply_reg scc_data reg_struct (-1) (- IOCTL_SCC_IMPROPER_ADDR)
  else
    '(scc_return, v) ← drv (scc_read_register (get scc_reg_access "reg_offset" reg_struct)
                                             (get scc_reg_access "reg_data" reg_struct));
    let reg_struct := set scc_reg_access "reg_data" v reg_struct in
    reply_reg scc_data reg_struct scc_return
      (if negb (scc_return =? SCC_RET_OK) then - IOCTL_SCC_IMPROPER_ADDR else IOCTL_SCC_OK).

Definition scc_test_write_register (scc_data : Z) : M W Z :=
  '(reg_struct, unc) ← copy_from_user scc_data (Z.of_nat (sizeof scc_reg_access));
  if truth unc then
    debug "SCC TEST: Error reading reg struct from user\n" [];;
    reply_reg scc_data reg_struct (-1) (- IOCTL_SCC_IMPROPER_ADDR)
  else
    scc_return ← drv (scc_write_register (get scc_reg_access "reg_offset" reg_struct)
                                         (get scc_reg_access "reg_data" reg_struct));
    reply_reg scc_data reg_struct scc_return
      (if negb (scc_return =? SCC_RET_OK) then - IOCTL_SCC_IMPROPER_ADDR else IOCTL_SCC_OK).

(** [(int)p % 8], the offset a user address puts into the kernel buffer. *)
Definition block_offset (p : Z) : Z := Z.rem (i32 p) 8.

(** The cipher itself, both buffers being there: the error code, the answer
    of the driver and the request with the new output length. *)
Definition run_cipher (enc_dec area_in area_out : Z) (s : list Z) : M W (Z * Z * list Z) :=
  let T := scc_encrypt_decrypt in
  let input := block_offset (get T "data_in" s) in
  let output := block_offset (get T "data_out" s) in
  debug "SCC TEST: Input: 0x%p, Output: 0x%p\n" [AInt (area_in + input); AInt (area_out + output)];;
  '(data, copy_code) ← copy_from_user (get T "data_in" s) (get T "data_in_length" s);
  kwrite area_in input data;;
  if negb (copy_code =? 0) then mret (- IOCTL_SCC_NO_MEMORY, -1, s)
  else
    debug "SCC TEST: Running cipher of %ld bytes.\n" [AInt (get T "data_in_length" s)];;
    data ← kread area_in input (get T "data_in_length" s);
    '(return_code, result, out_length) ← drv (scc_crypt (get T "data_in_length" s) data
        (if get T "crypto_mode" s =? SCC_CBC_MODE then Some (get_bytes T "init_vector" s) else None)
        enc_dec (get T "crypto_mode" s) (get T "check_mode" s) (get T "data_out_length" s));
    kwrite area_out output result;;
    let s := set T "data_out_length" out_length s in
    '(copy_code, error_code) ← (if return_code =? SCC_RET_OK then
        data ← kread area_out output (get T "data_out_length" s);
        unc ← copy_to_user (get T "data_out" s) data;
        mret (unc, IOCTL_SCC_OK)
      else
        debug "SCC TEST: scc_crypt returned %d\n" [AInt return_code];;
        mret (0, if SCC_DEBUG then - IOCTL_SCC_FAILURE else IOCTL_SCC_OK));
    if negb (copy_code =? 0) || negb (return_code =? 0) then
      when (truth copy_code) (debug "SCC TEST: copy_to_user returned %d\n" [AInt copy_code]);;
      mret (ENOMEM, return_code, s)
    else mret (error_code, return_code, s).

Definition scc_test_cipher (cmd scc_data : Z) : M W Z :=
  let T := scc_encrypt_decrypt in
  '(cipher_struct, unc) ← copy_from_user scc_data (Z.of_nat (sizeof T));
  '(area_in, area_out, (error_code, return_code, cipher_struct)) ←
    (if truth unc then
       debug "SCC TEST: Error reading cipher struct from user\n" [];;
       mret (0, 0, (- IOCTL_SCC_IMPROPER_ADDR, -1, cipher_struct))
     else
       area_in ← kmalloc (u32 (get T "data_in_length" cipher_struct + 16));
       area_out ← kmalloc (u32 (get T "data_out_length" cipher_struct + 16));
       let enc_dec := if cmd =? SCC_TEST_ENCRYPT then SCC_ENCRYPT else SCC_DECRYPT in
       if (area_in =? 0) || (area_out =? 0) then
         mret (area_in, area_out, (- IOCTL_SCC_NO_MEMORY, -1, cipher_struct))
       else
         r ← run_cipher enc_dec area_in area_out cipher_struct;
         mret (area_in, area_out, r));
  let cipher_struct := set T "function_return_code" return_code cipher_struct in
  copy_code ← copy_to_user scc_data cipher_struct;
  let error_code := if negb (copy_code =? 0) then IOCTL_SCC_FAILURE else error_code in
  when (truth area_in) (kfree area_in);;
  when (truth area_out) (kfree area_out);;
  mret error_code.

Definition scc_test_zeroize (scc_data : Z) : M W Z :=
  return_code ← drv scc_zeroize_memories;
  copy_to_user scc_data (to_le 4 return_code).

Definition scc_test_alloc_slot (cmd scc_data : Z) : M W Z :=
  let T := scc_alloc_slot_access in
  '(acc, status) ← copy_from_user scc_data (Z.of_nat (sizeof T));
  if status =? 0 then
    '(r, slot) ← drv (scc_alloc_slot (get T "value_size_bytes" acc) (get T "owner_id" acc)
                                    (get T "slot" acc));
    copy_to_user scc_data (set T "scc_status" r (set T "slot" slot acc))
  else mret status.

Definition scc_test_dealloc_slot (cmd scc_data : Z) : M W Z :=
  let T := scc_dealloc_slot_access in
  '(acc, status) ← copy_from_user scc_data (Z.of_nat (sizeof T));
  if status =? 0 then
    r ← drv (scc_dealloc_slot (get T "owner_id" acc) (get T "slot" acc));
    copy_to_user scc_data (set T "scc_status" r acc)
  else mret status.

Definition scc_test_load_slot (cmd scc_data : Z) : M W Z :=
  let T := scc_load_slot_access in
  '(acc, status) ← copy_from_user scc_data (Z.of_nat (sizeof T));
  if status =? 0 then
    '(r, _) ← drv (scc_get_slot_info (get T "owner_id" acc) (get T "slot" acc) (0, 0, 0));
    r ← (if r =? SCC_RET_OK then
      key_data ← kmalloc (get T "key_data_length" acc);
      if key_data =? 0 then mret SCC_RET_INSUFFICIENT_SPACE
      else
        '(key, status) ← copy_from_user (get T "key_data" acc) (get T "key_data_length" acc);
        kwrite key_data 0 key;;
        if status =? 0 then
          key ← kread key_data 0 (get T "key_data_length" acc);
          if truth (get T "key_is_red" acc) then
            drv (scc_load_slot (get T "owner_id" acc) (get T "slot" acc) key
                   (get T "key_data_length" acc))
          else
            drv (scc_decrypt_slot (get T "owner_id" acc) (get T "slot" acc)
                   (get T "key_data_length" acc) key)
        else mret r
      else mret r);
    copy_to_user scc_data (set T "scc_status" r acc)
  else mret status.

Definition scc_test_encrypt_slot (cmd scc_data : Z) : M W Z :=
  let T := scc_encrypt_slot_access in
  '(acc, status) ← copy_from_user scc_data (Z.of_nat (sizeof T));
  if status =? 0 then
    '(r, _) ← drv (scc_get_slot_info (get T "owner_id" acc) (get T "slot" acc) (0, 0, 0));
    '(status, r) ← (if r =? SCC_RET_OK then
      key_data ← kmalloc (get T "key_data_length" acc);
      if key_data =? 0 then mret (status, SCC_RET_INSUFFICIENT_SPACE)
      else
        '(r, key) ← drv (scc_encrypt_slot (get T "owner_id" acc) (get T "slot" acc)
                           (get T "key_data_length" acc));
        kwrite key_data 0 key;;
        if r =? SCC_RET_OK then
          key ← kread key_data 0 (get T "key_data_length" acc);
          status ← copy_to_user (get T "key_data" acc) key;
          mret (i32 status, r)
        else mret (status, r)
      else mret (status, r));
    if status =? 0 then copy_to_user scc_data (set T "scc_status" r acc) else mret status
  else mret status.

Definition scc_test_get_slot_info (cmd scc_data : Z) : M W Z :=
  let T := scc_get_slot_info_access in
  '(acc, status) ← copy_from_user scc_data (Z.of_nat (sizeof T));
  if status =? 0 then
    '(r, (address, value_size, slot_size)) ←
      drv (scc_get_slot_info (get T "owner_id" acc) (get T "slot" acc)
             (get T "address" acc, get T "value_size_bytes" acc, get T "slot_size_bytes" acc));
    copy_to_user scc_data
      (set T "scc_status" r (set T "slot_size_bytes" slot_size
        (set T "value_size_bytes" value_size (set T "address" address acc))))
  else mret status.

(** ** Entry points *)
Definition scc_test_open : M W Z :=
  try_module_get;;
  debug "SCC TEST: Device Opened\n" [];;
  mret 0.

Definition scc_test_release : M W Z :=
  module_put;;
  debug "SCC TEST: Inside release\n" [];;
  mret 0.

Definition scc_test_ioctl (cmd scc_data : Z) : M W Z :=
  if cmd =? SCC_TEST_GET_CONFIGURATION then scc_test_get_configuration scc_data
  else if cmd =? SCC_TEST_READ_REG then scc_test_read_register scc_data
  else if cmd =? SCC_TEST_WRITE_REG then scc_test_write_register scc_data
  else if (cmd =? SCC_TEST_ENCRYPT) || (cmd =? SCC_TEST_DECRYPT) then scc_test_cipher cmd scc_data
  else if cmd =? SCC_TEST_ALLOC_SLOT then scc_test_alloc_slot cmd scc_data
  else if cmd =? SCC_TEST_DEALLOC_SLOT then scc_test_dealloc_slot cmd scc_data
  else if cmd =? SCC_TEST_LOAD_SLOT then scc_test_load_slot cmd scc_data
  else if cmd =? SCC_TEST_ENCRYPT_SLOT then scc_test_encrypt_slot cmd scc_data
  else if cmd =? SCC_TEST_GET_SLOT_INFO then scc_test_get_slot_info cmd scc_data
  else if cmd =? SCC_TEST_SET_ALARM then
    drv (fun d => (tt, scc_set_sw_alarm d));; mret OS_ERROR_OK_S
  else if cmd =? SCC_TEST_ZEROIZE then scc_test_zeroize scc_data
  else
    debug "SCC TEST: Error in ioctl(): (0x%x) is an invalid command (0x%x,0x%x)\n"
      [AInt cmd; AInt SCC_TEST_GET_CONFIGURATION; AInt SCC_TEST_ALLOC_SLOT];;
    debug "uint64 is %d, alloc is %d\n"
      [AInt (Z.of_nat (tsize Tu64)); AInt (Z.of_nat (sizeof scc_alloc_slot_access))];;
    mret (- IOCTL_SCC_INVALID_CMD).

Definition scc_test_mmap (vma : vm_area) : M W (Z * vm_area) :=
  printk "Mapping SCC at %p for user\n" [AInt SCC_BASE_ADDR];;
  let vma := mkVma (vm_start vma) (Z.shiftr SCC_BASE_ADDR 12) true in
  r ← remap_pfn_range (vm_start vma) (Z.shiftr SCC_BASE_ADDR 12) 8192;
  mret (r, vma).

(** ** Loading and unloading *)
Definition setup_user_driver_interaction : M W Z :=
  os_driver_init_registration;;
  os_driver_add_registration OS_FN_OPEN scc_test_open_fn;;
  os_driver_add_registration OS_FN_IOCTL scc_test_ioctl_fn;;
  os_driver_add_registration OS_FN_CLOSE scc_test_release_fn;;
  os_driver_add_registration OS_FN_MMAP scc_test_release_fn;;
  major ← getg scc_test_major_node;
  code ← os_driver_complete_registration major SCC_TEST_DRIVER_NAME;
  if negb (code =? OS_ERROR_OK_S) then
    debug "SCC TEST Driver: register device driver failed: %d\n" [AInt code];;
    mret code
  else
    when (major =? 0) (setg (set_major code));;
    m ← getg scc_test_major_node;
    debug "SCC TEST Driver:  Major node is %d\n" [AInt m];;
    mret code.

Definition scc_test_report_failure : M W unit :=
  printk "SCC TEST Driver: SMN reported alarm\n" [].

Definition scc_test_cleanup : M W unit :=
  major ← getg scc_test_major_node;
  when (truth major) (
    unregister_chrdev major SCC_TEST_DRIVER_NAME;;
    setg (set_major 0));;
  debug "SCC TEST: Cleaned up\n" [].

Definition scc_test_init : M W Z :=
  printk "SCC: Loading test interface, availabe at /dev/%s\n" [AStr SCC_TEST_DRIVER_NAME];;
  setg (set_cfg scc_get_configuration);;
  '(error_code, smn_status) ← drv (scc_read_register SMN_STATUS 0);
  error_code ← (if error_code =? 0 then
      error_code ← setup_user_driver_interaction;
      (if error_code =? 0 then
         if Z.land smn_status SMN_STATUS_STATE_MASK =? SMN_STATE_FAIL then
           printk "SCC TEST Driver: SCC is in Fail mode\n" []
         else printk "SCC TEST Driver: Ready\n" []
       else skip);;
      mret error_code
    else
      printk "SCC TEST: Could not read SMN_STATUS register: %d\n" [AInt error_code];;
      mret error_code);
  drv (fun d => (tt, scc_monitor_security_failure d));;
  when (truth error_code) scc_test_cleanup;;
  mret error_code.

(** A system call on the device file goes to the function registered for it. *)
Inductive syscall := Sopen | Sclose | Sioctl (cmd arg : Z) | Smmap (vma : vm_area).
Definition entry_point (c : syscall) : os_fn :=
  match c with Sopen => OS_FN_OPEN | Sclose => OS_FN_CLOSE | Sioctl _ _ => OS_FN_IOCTL | Smmap _ => OS_FN_MMAP end.
Definition serve (f : scc_fn) (c : syscall) : M W Z :=
  match f, c with
  | scc_test_open_fn, _ => scc_test_open
  | scc_test_release_fn, _ => scc_test_release
  | scc_test_ioctl_fn, Sioctl cmd arg => scc_test_ioctl cmd arg
  | scc_test_mmap_fn, Smmap vma => '(r, _) ← scc_test_mmap vma; mret r
  | _, _ => undef
  end.
Definition dispatch (c : syscall) : M W (option Z) :=
  r ← getg (fun g => handler (scc_reg g) (entry_point c));
  match r with
  | Some f => z ← serve f c; mret (Some z)
  | None => mret None
  end.
End Driver.
