(* ===== verification/SccSpec.v ===== *)
(** * What the security controller module does

    Register access, the cipher with its two kernel buffers, and the key slot
    commands, on every path; and where the module does not do what its
    comments say: keys that are not freed, a key that could not be read
    reported as loaded, [mmap] served by the close handler, and an unload that
    removes a registration of somebody else. *)
From S2P Require Import Prelude CInt CMonad CStruct Kernel SimKernel PortableOs Scc.

(** What the module relies on of the SCC driver: the cipher writes at most the
    room it was given, and on success as many bytes as it says. *)
Class SccDriverLaws (D : Type) `{SccDriver D} : Prop := {
  crypt_room n b iv dir mode check room d : 0 <= room ->
    let '((rc, res, len), _) := scc_crypt n b iv dir mode check room d in
    zlen res <= room /\ (rc = SCC_RET_OK -> len = zlen res);
  encrypt_room own slot n d : 0 <= n ->
    zlen (scc_encrypt_slot own slot n d).1.2 <= n;
}.

Section Spec.
Context `{KL : KernelLaws} `{PL : PortableOsLaws} {D : Type} `{SL : SccDriverLaws D} (SCC_DEBUG : bool).
Abbreviation W := (world D globals).
Implicit Types (w : W) (E : Z -> W -> Prop).

(** ** The cipher *)
Definition T := scc_encrypt_decrypt.
Definition data_in (s : list Z) : Z := get T "data_in" s.
Definition data_out (s : list Z) : Z := get T "data_out" s.
Definition in_length (s : list Z) : Z := get T "data_in_length" s.
Definition out_length (s : list Z) : Z := get T "data_out_length" s.

(** Requests whose buffers the driver computes rightly: the addresses are in
    the lower half of the address space or multiples of eight, the lengths do
    not wrap when the slack is added. *)
Definition cipher_ok (s : list Z) : Prop :=
  0 <= block_offset (data_in s) /\ 0 <= block_offset (data_out s) /\
  0 <= in_length s < 2 ^ 32 - 16 /\ 0 <= out_length s < 2 ^ 32 - 16.

#[export] Instance cipher_ok_dec s : Decision (cipher_ok s).
Proof. unfold cipher_ok. apply _. Defined.

Lemma block_offset_lt p : block_offset p < 8.
Proof. unfold block_offset. pose proof (Z.rem_bound_abs (i32 p) 8 ltac:(lia)). lia. Qed.

(** The call the module makes for a request and what it answers. *)
Definition crypt_call (enc_dec : Z) (s : list Z) (data : list Z) (d : D) :=
  scc_crypt (in_length s) data
    (if get T "crypto_mode" s =? SCC_CBC_MODE then Some (get_bytes T "init_vector" s) else None)
    enc_dec (get T "crypto_mode" s) (get T "check_mode" s) (out_length s) d.

(** The two buffers of a request in kernel memory [m]. *)
Definition buffers (m : gmap Z block) (a b : Z) (s : list Z) (w : W) : Prop :=
  exists ba bb, kmem (kern w) = <[a := mkBlock Kmalloc ba]> (<[b := mkBlock Kmalloc bb]> m) /\
    zlen ba = in_length s + 16 /\ zlen bb = out_length s + 16.

(** What the cipher does after the input was read: [data] in, and the answer. *)
Definition ciphered (enc_dec : Z) (s : list Z) (w : W) (r : Z * Z * list Z) (w' : W) : Prop :=
  let '(data, unc) := from_user (ubytes (kern w)) (data_in s) (in_length s) in
  if unc =? 0 then
    let '((rc, res, len), d) := crypt_call enc_dec s data (dev w) in
    dev w' = d /\ r.2 = set T "data_out_length" len s /\ r.1.2 = rc /\
    (rc = SCC_RET_OK -> fits (ubytes (kern w)) (data_out s) (length res) = length res ->
       r.1.1 = IOCTL_SCC_OK /\ ubytes (kern w') = uput (ubytes (kern w)) (data_out s) res) /\
    (rc <> SCC_RET_OK -> r.1.1 = ENOMEM /\ ubytes (kern w') = ubytes (kern w))
  else dev w' = dev w /\ r = (- IOCTL_SCC_NO_MEMORY, -1, s).

Lemma peek_back (o : Z) (v b : list Z) n :
  0 <= o -> o + zlen v <= zlen b -> n = zlen v ->
  peek (Z.to_nat o) (Z.to_nat n) (poke (Z.to_nat o) v b) = v.
Proof.
  intros Ho Hb ->. rewrite Nat2Z.id. apply peek_poke_eq. lia.
Qed.

Lemma run_cipher_wp enc_dec a b s m U E w :
  length s = sizeof T -> cipher_ok s ->
  a <> b -> buffers m a b s w ->
  wpu U (run_cipher SCC_DEBUG enc_dec a b s) (fun r w' =>
    buffers m a b s w' /\ length r.2 = sizeof T /\ ciphered enc_dec s w r w') E w.
Proof.
  intros Hs (Hoi & Hoo & Hi & Ho) Hab (ba & bb & Hm & Hba & Hbb).
  pose proof (block_offset_lt (data_in s)). pose proof (block_offset_lt (data_out s)).
  unfold run_cipher, debug, ciphered, crypt_call. fold T (data_in s) (data_out s) (in_length s) (out_length s).
  apply wp_bind. kstep. kstep. apply wp_copy_from_user. simpl ubytes.
  pose proof (length_from_user (ubytes (kern w)) (data_in s) (in_length s)) as Hlen.
  destruct (from_user (ubytes (kern w)) (data_in s) (in_length s)) as [data unc]. simpl in Hlen.
  apply wp_bind. eapply wp_kwrite; [simpl; by rewrite Hm, lookup_insert_eq|done|simpl; lia|].
  destruct (Z.eqb_spec unc 0) as [->|Hunc]; simpl.
  2: { apply wp_ret. split; [|done]. eexists _, bb. simpl. rewrite Hm, insert_insert_eq.
       split; [done|]. rewrite length_poke by lia. lia. }
  apply wp_bind. kstep. apply wp_bind.
  eapply wp_kread; [simpl; by rewrite lookup_insert_eq|done|lia|simpl; rewrite length_poke; lia|].
  simpl. rewrite peek_back by lia. apply wp_bind, wp_drv. simpl.
  pose proof (crypt_room (in_length s) data
    (if get T "crypto_mode" s =? SCC_CBC_MODE then Some (get_bytes T "init_vector" s) else None)
    enc_dec (get T "crypto_mode" s) (get T "check_mode" s) (out_length s) (dev w) ltac:(lia)) as Hroom.
  destruct (scc_crypt _ _ _ _ _ _ _ _) as [[[rc res] len] d]. simpl. destruct Hroom as [Hres Hlenok].
  apply wp_bind. eapply wp_kwrite; [simpl; by rewrite Hm, insert_insert_eq, lookup_insert_ne,
    lookup_insert_eq|done|simpl; lia|]. simpl.
  assert (forall w2, kmem (kern w2) =
      <[b := mkBlock Kmalloc (poke (Z.to_nat (block_offset (data_out s))) res bb)]>
      (<[a := mkBlock Kmalloc (poke (Z.to_nat (block_offset (data_in s))) data ba)]> (kmem (kern w))) ->
    buffers m a b s w2) as Hbuf.
  { intros w2 Hm2. eexists _, _. rewrite Hm2, Hm, insert_insert_eq, (insert_insert_ne _ b a),
      insert_insert_eq by done. split; [done|]. rewrite !length_poke by lia. lia. }
  assert (length (set T "data_out_length" len s) = sizeof T) as Hls by (by apply length_set).
  apply wp_bind. destruct (Z.eqb_spec rc SCC_RET_OK) as [->|Hrc].
  - specialize (Hlenok eq_refl). rewrite get_set_eq by layout_done.
    rewrite wrap_id by (simpl; unfold in_uint; lia). subst len.
    apply wp_bind. eapply wp_kread; [simpl; by rewrite lookup_insert_eq|done|lia|
      simpl; rewrite length_poke; lia|]. simpl. rewrite peek_back by lia.
    rewrite get_set_ne by layout_done. fold (data_out s).
    apply wp_bind, wp_copy_to_user. intros k Hk Hkl. apply wp_ret. simpl in *.
    destruct (Z.eqb_spec (zlen res - Z.of_nat k) 0) as [Hz|Hz]; simpl.
    + apply wp_ret. split; [by apply Hbuf|]. split; [done|]. split; [done|]. split; [done|].
      split; [done|]. split; [|done]. intros _ Hfit. split; [done|]. simpl. by rewrite take_ge by lia.
    + apply wp_bind, wp_when_debugk. intros lg. apply wp_ret. split; [by apply Hbuf|].
      split; [done|]. split; [done|]. split; [done|]. split; [done|]. split; [|done]. intros _ Hfit. lia.
  - apply wp_bind, wp_debugk. intros lg. apply wp_ret. cbv beta iota zeta.
    rewrite (proj2 (Z.eqb_neq rc 0)) by done. simpl.
    apply wp_bind, wp_skip, wp_ret. split; [by apply Hbuf|]. split; [done|]. split; [done|].
    split; [done|]. split; done.
Qed.

(** Both allocations of a request succeed. *)
Definition room_for (s : list Z) (w : W) : Prop :=
  match o_kmalloc (kmem (kern w)) (calls (kern w)) (in_length s + 16) with
  | Some (a, ba) => o_kmalloc (<[a := mkBlock Kmalloc ba]> (kmem (kern w))) (S (calls (kern w)))
                      (out_length s + 16) <> None
  | None => False
  end.

(** A cipher request that works out. *)
Definition cipher_done (cmd p : Z) (s : list Z) (w : W) (r : Z) (w' : W) : Prop :=
  let '(data, unc) := from_user (ubytes (kern w)) (data_in s) (in_length s) in
  let '((rc, res, len), d) :=
    crypt_call (if cmd =? SCC_TEST_ENCRYPT then SCC_ENCRYPT else SCC_DECRYPT) s data (dev w) in
  room_for s w -> unc = 0 -> fits (ubytes (kern w)) p (sizeof T) = sizeof T ->
  let s' := set T "function_return_code" rc (set T "data_out_length" len s) in
  (rc = SCC_RET_OK -> fits (ubytes (kern w)) (data_out s) (length res) = length res ->
   r = IOCTL_SCC_OK /\ dev w' = d /\
   ubytes (kern w') = uput (uput (ubytes (kern w)) (data_out s) res) p s') /\
  (rc <> SCC_RET_OK -> r = ENOMEM /\ dev w' = d /\ ubytes (kern w') = uput (ubytes (kern w)) p s').

(** The answer to the process and the buffers given back. *)
Lemma cipher_end U p area_in area_out ec rc s m1 m (Q : Z -> W -> Prop) E w :
  length s = sizeof T ->
  held area_in (kmem (kern w)) m1 -> held area_out m1 m ->
  (forall r w', kmem (kern w') = m -> dev w' = dev w ->
     (fits (ubytes (kern w)) p (sizeof T) = sizeof T ->
      r = ec /\ ubytes (kern w') =
        uput (ubytes (kern w)) p (set T "function_return_code" rc s)) -> Q r w') ->
  wpu U (copy_code ← copy_to_user p (set T "function_return_code" rc s);
         when (truth area_in) (kfree area_in);;
         when (truth area_out) (kfree area_out);;
         mret (if negb (copy_code =? 0) then IOCTL_SCC_FAILURE else ec)) Q E w.
Proof.
  intros Hs Hin Hout HQ. assert (length (set T "function_return_code" rc s) = sizeof T) as Hl
    by (by apply length_set).
  apply wp_bind, wp_copy_to_user. rewrite Hl. intros k Hk Hkl.
  apply wp_bind, (wp_kfree_held _ _ m1); [done|].
  apply wp_bind, (wp_kfree_held _ _ m); [done|].
  apply wp_ret. apply HQ; [done|done|]. intros Hfit.
  assert (k = sizeof T) as -> by lia. rewrite Z.sub_diag. simpl.
  split; [done|]. by rewrite take_ge by lia.
Qed.

(** What the cipher did and what the end of the call did make the request done. *)
Lemma ciphered_done cmd p s w w1 w2 w' r ec rc s' :
  ubytes (kern w1) = ubytes (kern w) -> dev w1 = dev w ->
  ciphered (if cmd =? SCC_TEST_ENCRYPT then SCC_ENCRYPT else SCC_DECRYPT) s w1 (ec, rc, s') w2 ->
  dev w' = dev w2 ->
  (fits (ubytes (kern w2)) p (sizeof T) = sizeof T ->
   r = ec /\ ubytes (kern w') = uput (ubytes (kern w2)) p (set T "function_return_code" rc s')) ->
  cipher_done cmd p s w r w'.
Proof.
  unfold cipher_done, ciphered. intros -> -> Hc Hd Hend.
  destruct (from_user (ubytes (kern w)) (data_in s) (in_length s)) as [data unc].
  destruct (crypt_call _ s data (dev w)) as [[[rc' res] len] d].
  intros _ -> Hfp. cbn [Z.eqb fst snd] in Hc. destruct Hc as (Hd2 & -> & -> & Hc & He). split.
  - intros Hrc Hfo. destruct (Hc Hrc Hfo) as [-> Hu2]. rewrite Hu2 in Hend.
    destruct (Hend (fits_uput _ _ _ _ _ Hfp)) as [-> Hu']. by rewrite Hd, Hd2, Hu'.
  - intros Hrc. destruct (He Hrc) as [-> Hu2]. rewrite Hu2 in Hend. destruct (Hend Hfp) as [-> Hu'].
    by rewrite Hd, Hd2, Hu'.
Qed.

Lemma cipher_wp cmd p U E w :
  (forall s, holds T w p s -> cipher_ok s) ->
  wpu U (scc_test_cipher SCC_DEBUG cmd p) (fun r w' =>
    kmem (kern w') = kmem (kern w) /\ forall s, holds T w p s -> cipher_done cmd p s w r w') E w.
Proof.
  intros Hok. unfold scc_test_cipher, debug. fold T. apply wp_bind, wp_copy_from_user.
  pose proof (length_from_user (ubytes (kern w)) p (Z.of_nat (sizeof T))) as Hlen.
  unfold holds in *. destruct (from_user (ubytes (kern w)) p (Z.of_nat (sizeof T))) as [s unc].
  simpl in Hlen. destruct (Z.eqb_spec unc 0) as [->|Hunc].
  2: { rewrite (truth_true unc) by done. apply wp_bind, wp_bind, wp_debugk. intros lg. apply wp_ret. cbv zeta.
       eapply (cipher_end U p 0 0 _ _ s (kmem (kern w)) (kmem (kern w)));
         [lia|by left|by left|]. intros r w' Hm _ _. split; [done|]. by intros s' [= _ ?]. }
  pose proof (Hok s eq_refl) as Hs. fold (in_length s) (out_length s).
  destruct Hs as (Hoi & Hoo & Hi & Ho). change (truth 0) with false. cbn iota.
  rewrite !wrap_id by (unfold in_uint; lia). assert (length s = sizeof T) as Hls by lia.
  apply wp_bind, wp_bind, wp_kmalloc; [lia|lia| |].
  - (* no memory for the input *)
    intros _ Hno1. apply wp_bind, wp_kmalloc; [lia|lia| |]; simpl.
    + intros _ _. apply wp_ret. cbv zeta.
      eapply (cipher_end U p 0 0 _ _ s (kmem (kern w)) (kmem (kern w))); [done|by left|by left|].
      intros r w' Hm _ _. split; [done|]. intros s' [= <-].
      unfold cipher_done, room_for. rewrite Hno1. by repeat case_match.
    + intros b bb _ _ Hb Hbf Hbb _. apply wp_ret. cbv zeta.
      eapply (cipher_end U p 0 b _ _ s _ (kmem (kern w))); [done|by left| |].
      { right. split; [lia|]. split; [done|]. by eexists. }
      intros r w' Hm _ _. split; [done|]. intros s' [= <-].
      unfold cipher_done, room_for. rewrite Hno1. by repeat case_match.
  - intros a ba _ Hka Ha Haf Hba _. assert (a <> 0) as Ha0 by (unfold ZERO_SIZE_PTR in Ha; lia).
    apply wp_bind, wp_kmalloc; [lia|lia| |]; simpl.
    + (* no memory for the output *)
      intros _ Hno2. rewrite orb_true_r. apply wp_ret. cbv zeta.
      eapply (cipher_end U p a 0 _ _ s (kmem (kern w)) (kmem (kern w))); [done| |by left|].
      { right. split; [lia|]. split; [done|]. by eexists. }
      intros r w' Hm _ _. split; [done|]. intros s' [= <-].
      unfold cipher_done, room_for. rewrite Hka. simpl in Hno2. rewrite Hno2. by repeat case_match.
    + intros b bb _ Hkb Hb Hbf Hbb _. assert (b <> 0) as Hb0 by (unfold ZERO_SIZE_PTR in Hb; lia).
      rewrite (proj2 (Z.eqb_neq a 0)), (proj2 (Z.eqb_neq b 0)) by done. simpl.
      assert (a <> b) as Hab by (intros ->; by rewrite lookup_insert_eq in Hbf).
      rewrite lookup_insert_ne in Hbf by done.
      apply wp_bind. eapply wp_mono.
      { apply (run_cipher_wp _ a b s (kmem (kern w))); [done|done|done|].
        exists ba, bb. simpl. by rewrite insert_insert_ne by done. }
      intros [[ec rc] s'] w2 ((ba' & bb' & Hm2 & _) & Hls' & Hc). apply wp_ret. cbv zeta.
      eapply (cipher_end U p a b _ _ s' (<[b := mkBlock Kmalloc bb']> (kmem (kern w))) (kmem (kern w)));
        [done|rewrite Hm2; right; split; [lia|]|right; split; [lia|]; split; [done|by eexists]|].
      { split; [by rewrite lookup_insert_ne|by eexists]. }
      intros r w' Hm Hd Hend. split; [done|]. intros s'' [= <-].
      by eapply ciphered_done; [..|exact Hc| |].
Qed.

(** ** The other commands *)

Ltac keep_all := unfold debug, reply_reg, scc_test_get_configuration, scc_test_read_register,
  scc_test_write_register, scc_test_alloc_slot, scc_test_dealloc_slot, scc_test_get_slot_info,
  scc_test_zeroize; kept.

Definition uses_key_buffer (cmd : Z) : bool :=
  (cmd =? SCC_TEST_LOAD_SLOT) || (cmd =? SCC_TEST_ENCRYPT_SLOT).
Definition is_cipher (cmd : Z) : bool := (cmd =? SCC_TEST_ENCRYPT) || (cmd =? SCC_TEST_DECRYPT).

(** Any other request of the cipher may run out of its buffers; what it does to
    memory, if it comes back, stays inside them. *)
Definition touched (a b : Z) (m m' : gmap Z block) : Prop :=
  (forall q, q <> a -> q <> b -> m' !! q = m !! q) /\
  (forall q, b_kind <$> m' !! q = b_kind <$> m !! q).
#[local] Instance touched_preorder a b : PreOrder (touched a b).
Proof. split; [done|]. intros m1 m2 m3 [Ho1 Hk1] [Ho2 Hk2]. split; intros; by rewrite ?Hk2, ?Ho2, ?Hk1, ?Ho1. Qed.

Lemma kwrite_touches a b p off l E w :
  p = a \/ p = b ->
  wpu True (kwrite p off l) (fun _ w' => touched a b (kmem (kern w)) (kmem (kern w'))) E w.
Proof.
  intros Hp. unfold wpu, kwrite. destruct l as [|x l]; [done|]. cbn [length Nat.eqb].
  destruct (kmem (kern w) !! p) as [blk|] eqn:Hb; [|done]. destruct (_ && _); [|done]. cbn -[lookup].
  split; intros q; [intros ??; rewrite lookup_insert_ne by (destruct Hp; congruence); done|].
  destruct (decide (p = q)) as [<-|Hq]; [by rewrite lookup_insert_eq, Hb|by rewrite lookup_insert_ne].
Qed.
Lemma kread_touches p off n E w :
  wpu True (kread p off n) (fun _ w' => w' = w) E w.
Proof. unfold wpu, kread. destruct (n =? 0); [done|]. destruct (_ !! p); [|done]. by destruct (_ && _). Qed.

Lemma run_cipher_touches enc_dec a b s E w :
  wpu True (run_cipher SCC_DEBUG enc_dec a b s)
    (fun _ w' => touched a b (kmem (kern w)) (kmem (kern w'))) E w.
Proof.
  unfold run_cipher, debug. apply wp_bind. kstep. apply wp_bind, wp_copy_from_user.
  destruct (from_user _ _ _) as [data unc]. apply wp_bind.
  eapply wp_mono; [apply (kwrite_touches a b); by left|]. cbv beta. cbn [kern emit world_output]. intros _ w1 Ht1.
  case_match; [by apply wp_ret|].
  apply wp_bind. kstep. apply wp_bind. eapply wp_mono; [apply kread_touches|]. intros x w2 ->.
  apply wp_bind, wp_drv. destruct (scc_crypt _ _ _ _ _ _ _ _) as [[[rc res] len] d]. cbn [fst snd].
  apply wp_bind. eapply wp_mono; [apply (kwrite_touches a b); by right|]. cbv beta. cbn. intros _ w3 Ht3.
  assert (touched a b (kmem (kern w)) (kmem (kern w3))) as H13 by (by etrans). clear Ht1 Ht3.
  apply wp_bind. case_match.
  - apply wp_bind. eapply wp_mono; [apply kread_touches|]. intros y w4 ->.
    apply wp_bind, wp_copy_to_user. intros k _ _. apply wp_ret. case_match; [|by apply wp_ret].
    apply wp_bind, wp_when_debugk. intros lg. by apply wp_ret.
  - apply wp_bind, wp_debugk. intros lg. apply wp_ret. case_match; [|by apply wp_ret].
    apply wp_bind, wp_when_debugk. intros lg'. by apply wp_ret.
Qed.
(** What [kmalloc] returned, a block or one of the two addresses that are none;
    and freeing it. *)
Definition got (p : Z) (m m' : gmap Z block) : Prop :=
  (p <= ZERO_SIZE_PTR /\ m' = m) \/
  (ZERO_SIZE_PTR < p /\ m !! p = None /\ exists bs, m' = <[p := mkBlock Kmalloc bs]> m).
Definition cleaned (p : Z) (m : gmap Z block) : gmap Z block :=
  if p <=? ZERO_SIZE_PTR then m else delete p m.
Definition no_low (m : gmap Z block) : Prop := forall q, q <= ZERO_SIZE_PTR -> m !! q = None.

Lemma kmalloc_got n E w :
  0 <= n -> wpu True (kmalloc n) (fun p w' => got p (kmem (kern w)) (kmem (kern w'))) E w.
Proof.
  intros Hn. apply wp_kmalloc; [done|by left|left; unfold ZERO_SIZE_PTR; split; [lia|done]|].
  intros p bs _ _ Hp Hf _ _. right. split; [lia|]. split; [done|by exists bs].
Qed.
Lemma wp_free_got p (Q : unit -> W -> Prop) E w :
  (ZERO_SIZE_PTR < p -> b_kind <$> kmem (kern w) !! p = Some Kmalloc) ->
  Q tt (set_kern (set_kmem (cleaned p)) w) -> wpu True (when (truth p) (kfree p)) Q E w.
Proof.
  unfold cleaned. intros Hp HQ. destruct (Z.leb_spec p ZERO_SIZE_PTR) as [Hle|Hgt].
  - assert (set_kern (set_kmem (fun m => m)) w = w) as Hw by (by destruct w as [[] ? ? ?]).
    rewrite Hw in HQ. destruct (truth p); [by apply wp_kfree_null|by apply wp_skip].
  - rewrite truth_true by (unfold ZERO_SIZE_PTR in Hgt; lia). specialize (Hp Hgt).
    destruct (kmem (kern w) !! p) as [[kd bs]|] eqn:Hb; [|done]. injection Hp as ->. by eapply wp_kfree.
Qed.
Lemma got_kind a b m m1 m2 m3 :
  got a m m1 -> got b m1 m2 -> touched a b m2 m3 ->
  (ZERO_SIZE_PTR < a -> b_kind <$> m3 !! a = Some Kmalloc) /\
  (ZERO_SIZE_PTR < b -> b_kind <$> cleaned a m3 !! b = Some Kmalloc).
Proof.
  intros Ha Hb [_ Hk]. split.
  - intros Hgt. rewrite Hk. destruct Ha as [[? _]|(_ & Hf & ba & ->)]; [lia|].
    destruct Hb as [[_ ->]|(_ & Hfb & bb & ->)]; [by rewrite lookup_insert_eq|].
    rewrite lookup_insert_ne; [by rewrite lookup_insert_eq|]. intros ->. by rewrite lookup_insert_eq in Hfb.
  - intros Hgt. destruct Hb as [[? _]|(_ & Hfb & bb & ->)]; [lia|].
    assert (cleaned a m3 !! b = m3 !! b) as ->.
    { unfold cleaned. destruct (Z.leb_spec a ZERO_SIZE_PTR); [done|]. apply lookup_delete_ne. intros ->.
      destruct Ha as [[? _]|(_ & _ & ba & ->)]; [lia|]. by rewrite lookup_insert_eq in Hfb. }
    by rewrite Hk, lookup_insert_eq.
Qed.
Lemma cleaned_lookup p m q : cleaned p m !! q = if decide (q = p /\ ZERO_SIZE_PTR < p) then None else m !! q.
Proof.
  unfold cleaned. destruct (Z.leb_spec p ZERO_SIZE_PTR).
  - rewrite decide_False; [done|lia].
  - case_decide as Hq; [destruct Hq as [-> _]; apply lookup_delete_eq|].
    apply lookup_delete_ne. intros ->. by apply Hq.
Qed.
Lemma got_clean a b m m1 m2 m3 :
  no_low m -> got a m m1 -> got b m1 m2 -> touched a b m2 m3 -> cleaned b (cleaned a m3) = m.
Proof.
  intros Hlow Ha Hb [Ho Hk].
  assert (forall q, (q = a \/ q = b) -> q <= ZERO_SIZE_PTR -> m3 !! q = None) as Hnone.
  { intros q Hq Hle. assert (b_kind <$> m3 !! q = None) as Hn; [|by destruct (m3 !! q)].
    rewrite Hk. destruct Hb as [[_ ->]|(Hb & _ & bb & ->)], Ha as [[_ ->]|(Ha & _ & ba & ->)];
      rewrite ?lookup_insert_ne by lia; by rewrite Hlow. }
  apply map_eq. intros q. rewrite !cleaned_lookup. case_decide as Hqb; [|case_decide as Hqa].
  - destruct Hqb as [-> Hgt]. destruct Hb as [[? _]|(_ & Hf & _)]; [lia|].
    destruct Ha as [[_ ->]|(_ & _ & ba & ->)]; [done|].
    destruct (decide (a = b)) as [->|]; [by rewrite lookup_insert_eq in Hf|by rewrite lookup_insert_ne in Hf].
  - destruct Hqa as [-> Hgt]. by destruct Ha as [[? _]|(_ & Hf & _)]; [lia|].
  - destruct (decide (q <= ZERO_SIZE_PTR /\ (q = a \/ q = b))) as [[Hle Hq]|Hq]; [by rewrite Hnone, Hlow|].
    assert (q <> a /\ q <> b) as [Hna Hnb] by lia. rewrite Ho by done.
    destruct Hb as [[_ ->]|(_ & _ & bb & ->)], Ha as [[_ ->]|(_ & _ & ba & ->)]; by rewrite ?lookup_insert_ne by done.
Qed.

Lemma cipher_any cmd p E w :
  no_low (kmem (kern w)) ->
  wpu True (scc_test_cipher SCC_DEBUG cmd p) (fun _ w' => kmem (kern w') = kmem (kern w)) E w.
Proof.
  intros Hlow. unfold scc_test_cipher, debug. fold T. apply wp_bind, wp_copy_from_user.
  destruct (from_user _ _ _) as [s unc]. apply wp_bind.
  eapply (wp_mono _ _ (fun r w3 => exists m1 m2, got r.1.1 (kmem (kern w)) m1 /\ got r.1.2 m1 m2 /\
    touched r.1.1 r.1.2 m2 (kmem (kern w3)))).
  - assert (got 0 (kmem (kern w)) (kmem (kern w))) as Hg0 by by left.
    destruct (truth unc).
    { apply wp_bind, wp_debugk. intros lg. apply wp_ret. by exists (kmem (kern w)), (kmem (kern w)). }
    apply wp_bind. eapply wp_mono; [apply kmalloc_got, wrap_range; lia|]. intros a w1 Ha. cbv beta in Ha.
    apply wp_bind. eapply wp_mono; [apply kmalloc_got, wrap_range; lia|]. intros b w2 Hb. cbv beta in Hb.
    case_match; [apply wp_ret; by exists (kmem (kern w1)), (kmem (kern w2))|].
    apply wp_bind. eapply wp_mono; [apply run_cipher_touches|]. intros r w3 Ht. apply wp_ret.
    by exists (kmem (kern w1)), (kmem (kern w2)).
  - intros [[a b] [[ec rc] s']] w3 (m1 & m2 & Ha & Hb & Ht). cbn [fst snd] in Ha, Hb, Ht. cbv zeta.
    destruct (got_kind _ _ _ _ _ _ Ha Hb Ht) as [Hka Hkb].
    apply wp_bind, wp_copy_to_user. intros k _ _. apply wp_bind, wp_free_got; [done|].
    apply wp_bind, wp_free_got; [done|]. apply wp_ret. by eapply got_clean.
Qed.

(** A cipher request with an address from 2^31 up that is no multiple of eight,
    or a length within 16 of 2^32. *)
Definition bad_cipher (cmd p : Z) (w : W) : Prop :=
  is_cipher cmd = true /\ exists s, holds scc_encrypt_decrypt w p s /\ ~ cipher_ok s.

Lemma cipher_either cmd p E w :
  is_cipher cmd = true -> no_low (kmem (kern w)) ->
  wpu (bad_cipher cmd p w) (scc_test_cipher SCC_DEBUG cmd p)
    (fun _ w' => kmem (kern w') = kmem (kern w)) E w.
Proof.
  intros Hc Hlow.
  assert ((exists s, holds T w p s /\ ~ cipher_ok s) \/ forall s, holds T w p s -> cipher_ok s) as [Hbad|Hok].
  { unfold holds. destruct (from_user _ p _) as [s unc].
    destruct (decide (unc = 0 /\ ~ cipher_ok s)) as [[-> Hn]|Hn]; [left; by exists s|].
    right. intros s' [= -> ->]. destruct (decide (cipher_ok s')); [done|]. by destruct Hn. }
  - pose proof (cipher_any cmd p E w Hlow) as Ha. revert Ha. unfold wpu.
    by destruct (scc_test_cipher SCC_DEBUG cmd p w) as [[] ?].
  - apply wp_allow. eapply wp_mono; [by apply cipher_wp|]. by intros r w' [? _].
Qed.

(** C16: Apart from the two commands that take a key buffer, every ioctl that
    comes back leaves kernel memory as it was, whatever the process passes
    and whatever the driver, the kernel's allocator and the user copies
    answer; and every ioctl does come back, without undefined behaviour,
    except, perhaps, a cipher request with an address from 2^31 up that is
    not a multiple of eight, or with a length within 16 of 2^32, for which
    the module computes its buffers wrong.  No block of memory is assumed to
    lie at or below the address kmalloc returns for nothing. *)
Theorem scc_ioctl_keeps_memory cmd p E w :
  uses_key_buffer cmd = false -> no_low (kmem (kern w)) ->
  wpu (bad_cipher cmd p w) (scc_test_ioctl SCC_DEBUG cmd p)
    (fun _ w' => kmem (kern w') = kmem (kern w)) E w.
Proof.
  unfold uses_key_buffer. intros Hkey Hlow. apply orb_false_iff in Hkey as [Hl He].
  assert (forall m : M W Z, mem_kept m ->
    wpu (bad_cipher cmd p w) m (fun _ w' => kmem (kern w') = kmem (kern w)) E w) as Hkept.
  { intros m Hm. apply wp_allow. eapply wp_mono; [apply Hm|by intros ? ? [? _]]. }
  unfold scc_test_ioctl. rewrite Hl, He. destruct (_ || (cmd =? SCC_TEST_DECRYPT)) eqn:Hci.
  - do 3 (case_match; [apply Hkept; keep_all|]). by apply cipher_either.
  - apply Hkept. keep_all.
Qed.

(** C2: A cipher request whose addresses are below 2^31 or multiples of eight
    and whose lengths are more than 16 below 2^32 ([cipher_ok]; the module
    computes its buffers wrong for others), for which memory is found, the
    input can be read, the output and the answer written, and the driver
    succeeds, hands the driver exactly the input bytes, the initialisation
    vector in CBC mode only, and the direction of the command; the process
    finds the driver's output at [data_out] and the request updated with its
    length and status; both kernel buffers are given back. *)
Theorem cipher_request_delivers cmd p s data res len d E w :
  is_cipher cmd = true ->
  holds scc_encrypt_decrypt w p s -> cipher_ok s -> room_for s w ->
  from_user (ubytes (kern w)) (data_in s) (in_length s) = (data, 0) ->
  crypt_call (if cmd =? SCC_TEST_ENCRYPT then SCC_ENCRYPT else SCC_DECRYPT) s data (dev w) =
    (SCC_RET_OK, res, len, d) ->
  fits (ubytes (kern w)) (data_out s) (length res) = length res ->
  fits (ubytes (kern w)) p (sizeof scc_encrypt_decrypt) = sizeof scc_encrypt_decrypt ->
  wp (scc_test_ioctl SCC_DEBUG cmd p) (fun r w' =>
    r = IOCTL_SCC_OK /\ kmem (kern w') = kmem (kern w) /\ dev w' = d /\
    ubytes (kern w') = uput (uput (ubytes (kern w)) (data_out s) res) p
      (set scc_encrypt_decrypt "function_return_code" SCC_RET_OK
        (set scc_encrypt_decrypt "data_out_length" (zlen res) s))) E w.
Proof.
  unfold is_cipher. intros Hcmd Hs Hok Hroom Hin Hcall Hfo Hfp.
  assert (len = zlen res) as <-.
  { destruct Hok as (_ & _ & _ & Ho). unfold crypt_call in Hcall. fold (out_length s) in Ho.
    pose proof (crypt_room (in_length s) data
      (if get T "crypto_mode" s =? SCC_CBC_MODE then Some (get_bytes T "init_vector" s) else None)
      (if cmd =? SCC_TEST_ENCRYPT then SCC_ENCRYPT else SCC_DECRYPT)
      (get T "crypto_mode" s) (get T "check_mode" s) (out_length s) (dev w) ltac:(lia)) as Hr.
    rewrite Hcall in Hr. by apply Hr. }
  unfold scc_test_ioctl. rewrite Hcmd.
  assert (cmd = SCC_TEST_ENCRYPT \/ cmd = SCC_TEST_DECRYPT) as Hor
    by (rewrite orb_true_iff, !Z.eqb_eq in Hcmd; done).
  replace (cmd =? SCC_TEST_GET_CONFIGURATION) with false by (by destruct Hor as [-> | ->]).
  replace (cmd =? SCC_TEST_READ_REG) with false by (by destruct Hor as [-> | ->]).
  replace (cmd =? SCC_TEST_WRITE_REG) with false by (by destruct Hor as [-> | ->]).
  eapply wp_mono; [apply cipher_wp|].
  { intros s' Hs'. assert (s' = s) as -> by (unfold holds, T in *; congruence). done. }
  intros r w' [Hm Hd]. specialize (Hd s Hs). unfold cipher_done in Hd. rewrite Hin, Hcall in Hd.
  by destruct (proj1 (Hd Hroom eq_refl Hfp) eq_refl Hfo) as (-> & -> & ->).
Qed.

(** ** Registers *)
Definition R := scc_reg_access.
Definition reg_offset (s : list Z) : Z := get R "reg_offset" s.
Definition reg_data (s : list Z) : Z := get R "reg_data" s.
Definition status_code (rc : Z) : Z := if rc =? SCC_RET_OK then IOCTL_SCC_OK else - IOCTL_SCC_IMPROPER_ADDR.

Lemma reply_reg_wp U p s rc ec (Q : Z -> W -> Prop) E w :
  length s = sizeof R -> fits (ubytes (kern w)) p (sizeof R) = sizeof R ->
  Q ec (set_kern (set_ubytes (fun m => uput m p (set R "function_return_code" rc s))) w) ->
  wpu U (reply_reg p s rc ec) Q E w.
Proof.
  intros Hs Hf HQ. unfold reply_reg. fold R. apply wp_bind, wp_copy_to_user.
  assert (length (set R "function_return_code" rc s) = sizeof R) as -> by (by apply length_set).
  intros k Hk _. assert (k = sizeof R) as -> by lia. apply wp_ret.
  rewrite take_ge by (by rewrite length_set). rewrite Z.sub_diag. done.
Qed.

Lemma write_register_wp U p s (Q : Z -> W -> Prop) E w :
  holds R w p s -> fits (ubytes (kern w)) p (sizeof R) = sizeof R ->
  (let '(rc, d) := scc_write_register (reg_offset s) (reg_data s) (dev w) in
   Q (status_code rc) (set_kern (set_ubytes (fun m => uput m p (set R "function_return_code" rc s)))
                         (set_dev d w))) ->
  wpu U (scc_test_write_register SCC_DEBUG p) Q E w.
Proof.
  intros Hs Hf HQ. unfold scc_test_write_register. pose proof (holds_length _ _ _ _ Hs).
  apply wp_bind. eapply wp_copy_held; [done|]. change (truth 0) with false. cbn iota.
  fold R (reg_offset s) (reg_data s). apply wp_bind, wp_drv.
  destruct (scc_write_register _ _ _) as [rc d]. apply reply_reg_wp; [done|done|].
  unfold status_code in HQ. simpl. by destruct (rc =? SCC_RET_OK).
Qed.

Lemma read_register_wp U p s (Q : Z -> W -> Prop) E w :
  holds R w p s -> fits (ubytes (kern w)) p (sizeof R) = sizeof R ->
  (let '((rc, v), d) := scc_read_register (reg_offset s) (reg_data s) (dev w) in
   Q (status_code rc) (set_kern (set_ubytes (fun m => uput m p
        (set R "function_return_code" rc (set R "reg_data" v s)))) (set_dev d w))) ->
  wpu U (scc_test_read_register SCC_DEBUG p) Q E w.
Proof.
  intros Hs Hf HQ. unfold scc_test_read_register. pose proof (holds_length _ _ _ _ Hs).
  apply wp_bind. eapply wp_copy_held; [done|]. change (truth 0) with false. cbn iota.
  fold R (reg_offset s) (reg_data s). apply wp_bind, wp_drv.
  destruct (scc_read_register _ _ _) as [[rc v] d]. apply reply_reg_wp; [by apply length_set|done|].
  unfold status_code in HQ. simpl. by destruct (rc =? SCC_RET_OK).
Qed.

(** C28: Writing a register by one ioctl and reading it by another, for a
    register that keeps what is written to it, gives the process the value it
    wrote, both calls reporting success. *)
Theorem register_roundtrip p q s t d E w :
  holds scc_reg_access w p s -> holds scc_reg_access w q t ->
  get scc_reg_access "reg_offset" t = get scc_reg_access "reg_offset" s ->
  q + 12 <= p \/ p + 12 <= q ->
  fits (ubytes (kern w)) p 12 = 12%nat -> fits (ubytes (kern w)) q 12 = 12%nat ->
  let v := get scc_reg_access "reg_data" s in
  scc_write_register (get scc_reg_access "reg_offset" s) v (dev w) = (SCC_RET_OK, d) ->
  (forall x, (scc_read_register (get scc_reg_access "reg_offset" s) x d).1 = (SCC_RET_OK, v)) ->
  wp (a ← scc_test_ioctl SCC_DEBUG SCC_TEST_WRITE_REG p;
      b ← scc_test_ioctl SCC_DEBUG SCC_TEST_READ_REG q; mret (a, b))
    (fun r w' => r = (IOCTL_SCC_OK, IOCTL_SCC_OK) /\ kmem (kern w') = kmem (kern w) /\
       let t' := uread (ubytes (kern w')) q 12 in
       get scc_reg_access "reg_data" t' = u32 v /\
       get scc_reg_access "function_return_code" t' = SCC_RET_OK) E w.
Proof.
  intros Hs Ht Hoff Hpq Hfp Hfq v Hw Hr. subst v. fold R in *. fold (reg_offset s) (reg_data s) in *.
  assert (sizeof R = 12%nat) as H12 by done.
  pose proof (holds_length _ _ _ _ Hs) as Hls. pose proof (holds_length _ _ _ _ Ht) as Hlt.
  assert (forall rc, length (set R "function_return_code" rc s) = 12%nat) as Hl
    by (intros; by rewrite length_set).
  apply wp_bind. change (scc_test_ioctl SCC_DEBUG SCC_TEST_WRITE_REG p) with
    (scc_test_write_register SCC_DEBUG p).
  apply (write_register_wp _ _ s); [done|by rewrite H12|]. rewrite Hw.
  apply wp_bind. change (scc_test_ioctl SCC_DEBUG SCC_TEST_READ_REG q) with
    (scc_test_read_register SCC_DEBUG q).
  apply (read_register_wp _ _ t); [apply holds_uput; [rewrite Hl, H12; lia|done]| |].
  { rewrite H12. by apply fits_uput. }
  change (reg_offset t) with (get R "reg_offset" t). rewrite Hoff. cbn [set_kern set_dev dev].
  specialize (Hr (reg_data t)). destruct (scc_read_register _ _ _) as [[rc v] d'].
  cbn [fst] in Hr. injection Hr as -> ->. apply wp_ret. split; [done|]. split; [done|].
  assert (length (set R "reg_data" (reg_data s) t) = sizeof R) as Hl2 by (by apply length_set).
  cbn [kern set_kern set_ubytes ubytes set_dev].
  assert (length (set R "function_return_code" SCC_RET_OK (set R "reg_data" (reg_data s) t)) = 12%nat)
    as Hl3 by (by rewrite length_set).
  rewrite <- Hl3, uread_uput. rewrite get_set_ne, get_set_eq by layout_done.
  split; [done|]. by rewrite get_set_eq by layout_done.
Qed.

(** ** Key slots *)
Definition L := scc_load_slot_access.
Definition owner (s : list Z) : Z := get L "owner_id" s.
Definition slot (s : list Z) : Z := get L "slot" s.
Definition key_length (s : list Z) : Z := get L "key_data_length" s.

(** C33: Loading a key into a slot never gives the buffer of the key back: once
    the slot was found and the buffer allocated, every path ends with the
    block still allocated.  When the key itself cannot be read, the driver is
    not asked to load anything, and yet the call returns 0 and the process
    reads the status "ok". *)
Theorem load_slot_loses_the_key p s key bs E w :
  holds scc_load_slot_access w p s ->
  0 < key_length s < 2 ^ 32 ->
  (scc_get_slot_info (owner s) (slot s) (0, 0, 0) (dev w)).1.1 = SCC_RET_OK ->
  o_kmalloc (kmem (kern w)) (calls (kern w)) (key_length s) = Some (key, bs) ->
  wp (scc_test_ioctl SCC_DEBUG SCC_TEST_LOAD_SLOT p) (fun r w' =>
    (exists b, kmem (kern w) !! key = None /\ zlen b = key_length s /\
       kmem (kern w') = <[key := mkBlock Kmalloc b]> (kmem (kern w))) /\
    ((from_user (ubytes (kern w)) (get scc_load_slot_access "key_data" s) (key_length s)).2 <> 0 ->
     dev w' = (scc_get_slot_info (owner s) (slot s) (0, 0, 0) (dev w)).2 /\
     (fits (ubytes (kern w)) p (sizeof scc_load_slot_access) = sizeof scc_load_slot_access ->
      r = 0 /\ ubytes (kern w') = uput (ubytes (kern w)) p
                (set scc_load_slot_access "scc_status" SCC_RET_OK s)))) E w.
Proof.
  intros Hs Hn Hinfo Hk. fold L in *. pose proof (holds_length _ _ _ _ Hs) as Hls.
  change (scc_test_ioctl SCC_DEBUG SCC_TEST_LOAD_SLOT p) with
    (scc_test_load_slot SCC_TEST_LOAD_SLOT p).
  unfold scc_test_load_slot. fold L. fold (owner s) (slot s) (key_length s).
  apply wp_bind. eapply wp_copy_held; [done|]. cbn [Z.eqb]. fold (owner s) (slot s) (key_length s).
  apply wp_bind, wp_drv.
  destruct (scc_get_slot_info (owner s) (slot s) (0, 0, 0) (dev w)) as [[r0 i] d] eqn:Hgi.
  cbn [fst snd] in Hinfo |- *. subst r0. change (SCC_RET_OK =? SCC_RET_OK) with true. cbn iota.
  apply wp_bind, wp_bind, wp_kmalloc; [lia|lia| |]; cbn [set_dev kern]; [congruence|].
  intros key' bs' _ Hk' Hkey Hfree Hbs _. rewrite Hk in Hk'. injection Hk' as <- <-.
  assert (key <> 0) as Hk0 by (unfold ZERO_SIZE_PTR in Hkey; lia).
  rewrite (proj2 (Z.eqb_neq key 0)) by done. apply wp_bind, wp_copy_from_user.
  cbn [set_kern set_dev kern asked set_kmem ubytes].
  pose proof (length_from_user (ubytes (kern w)) (get L "key_data" s) (key_length s)) as Hlk.
  destruct (from_user _ (get L "key_data" s) (key_length s)) as [kb unc]. cbn [fst] in Hlk.
  apply wp_bind. eapply wp_kwrite; [simpl; by rewrite lookup_insert_eq|done|simpl; lia|].
  cbn [set_kern set_dev kern asked set_kmem ubytes kmem b_kind b_data dev glob klog].
  assert (zlen (poke (Z.to_nat 0) kb bs) = key_length s) as Hlb by (rewrite length_poke; simpl; lia).
  assert (forall rc, length (set L "scc_status" rc s) = sizeof L) as Hl by (intros; by apply length_set).
  destruct (Z.eqb_spec unc 0) as [->|Hunc].
  - apply wp_bind. eapply wp_kread; [simpl; by rewrite lookup_insert_eq|done|lia|simpl b_data; lia|].
    destruct (truth (get L "key_is_red" s)); apply wp_drv; apply wp_copy_to_user;
      intros k _ _; (split; [eexists; split; [done|]; split; [exact Hlb|by apply insert_insert_eq]|done]).
  - apply wp_ret, wp_copy_to_user. intros k Hkf _. split.
    + eexists. split; [done|]. split; [exact Hlb|by apply insert_insert_eq].
    + intros _. split; [done|]. intros Hfit. rewrite Hl in Hkf |- *. cbn in Hkf.
      assert (k = sizeof L) as -> by (rewrite Hkf; exact Hfit). split; [lia|].
      rewrite take_ge by (by rewrite Hl). done.
Qed.

(** ** Loading, unloading, and the device file *)
Lemma setup_wp U (Q : Z -> W -> Prop) E w :
  scc_test_major_node (glob w) <> 0 ->
  (let m := scc_test_major_node (glob w) in forall lg,
   m ∉ (chrdevs (kern w)).*1 ->
   Q 0 (mkWorld (set_chrdevs (cons (m, SCC_TEST_DRIVER_NAME)) (asked (kern w))) (dev w)
        (mkGlobals m (mkReg [(OS_FN_MMAP, scc_test_release_fn); (OS_FN_CLOSE, scc_test_release_fn);
                             (OS_FN_IOCTL, scc_test_ioctl_fn); (OS_FN_OPEN, scc_test_open_fn)]
                            (Some m) (stray (scc_reg (glob w)))) (scc_cfg (glob w))) lg)) ->
  (forall code g lg, code <> 0 -> scc_test_major_node g = scc_test_major_node (glob w) ->
   scc_cfg g = scc_cfg (glob w) ->
   Q code (mkWorld (asked (kern w)) (dev w) g lg)) ->
  wpu U (setup_user_driver_interaction SCC_DEBUG) Q E w.
Proof.
  intros Hm0 Hok Hbad. unfold setup_user_driver_interaction, debug, getg.
  do 5 apply wp_bind, wp_modify. apply wp_bind, wp_gets. cbn.
  apply wp_bind, wp_complete.
  - intros m Hfresh _ Hm. cbn in *. specialize (Hm Hm0). subst m.
    rewrite (proj2 (Z.eqb_neq _ _) Hm0). apply wp_bind, wp_skip, wp_bind, wp_gets.
    apply wp_bind, wp_debugk. intros lg. apply wp_ret. by apply Hok.
  - intros code Hcode. rewrite (proj2 (Z.eqb_neq _ _) Hcode). cbn [negb].
    apply wp_bind, wp_debugk. intros lg. apply wp_ret. by apply Hbad.
Qed.

Lemma cleanup_wp U (Q : unit -> W -> Prop) E w :
  let m := scc_test_major_node (glob w) in m <> 0 ->
  (forall lg, Q tt (mkWorld (set_chrdevs (drop_key m) (kern w)) (dev w)
     (mkGlobals 0 (scc_reg (glob w)) (scc_cfg (glob w))) lg)) ->
  wpu U (scc_test_cleanup SCC_DEBUG) Q E w.
Proof.
  intros m Hm HQ. unfold scc_test_cleanup, debug, getg, setg. apply wp_bind, wp_gets.
  fold m. rewrite truth_true by done. apply wp_bind, wp_bind, wp_modify, wp_modify, wp_debugk.
  intros lg. apply HQ.
Qed.

(** What loading the module leaves. *)
Definition loaded (w w' : W) : Prop :=
  let m := scc_test_major_node (glob w) in
  (m ∉ (chrdevs (kern w)).*1) /\ chrdevs (kern w') = (m, SCC_TEST_DRIVER_NAME) :: chrdevs (kern w) /\
  scc_test_major_node (glob w') = m /\
  fops (scc_reg (glob w')) =
    [(OS_FN_MMAP, scc_test_release_fn); (OS_FN_CLOSE, scc_test_release_fn);
     (OS_FN_IOCTL, scc_test_ioctl_fn); (OS_FN_OPEN, scc_test_open_fn)].

Lemma init_wp U E w :
  scc_test_major_node (glob w) <> 0 ->
  wpu U (scc_test_init SCC_DEBUG) (fun r w' =>
    kmem (kern w') = kmem (kern w) /\ ubytes (kern w') = ubytes (kern w) /\
    vmaps (kern w') = vmaps (kern w) /\ mod_refs (kern w') = mod_refs (kern w) /\
    scc_cfg (glob w') = Some scc_get_configuration /\
    (r = 0 -> loaded w w') /\
    (r <> 0 -> chrdevs (kern w') = drop_key (scc_test_major_node (glob w)) (chrdevs (kern w)) /\
               scc_test_major_node (glob w') = 0)) E w.
Proof.
  intros Hm0. unfold scc_test_init. apply wp_bind, wp_printk, wp_bind, wp_modify.
  apply wp_bind, wp_drv. destruct (scc_read_register SMN_STATUS 0 _) as [[ec st] d]. cbn.
  apply wp_bind. destruct (Z.eqb_spec ec 0) as [->|Hec].
  - apply wp_bind, setup_wp; cbn; [done| |].
    + intros lg Hfresh. apply wp_bind.
      case_match; apply wp_printk, wp_ret, wp_bind, wp_drv, wp_bind, wp_skip, wp_ret; cbn; done.
    + intros code g lg Hcode Hg Hcfg. rewrite (proj2 (Z.eqb_neq _ _) Hcode).
      apply wp_bind, wp_skip, wp_ret, wp_bind, wp_drv, wp_bind. rewrite truth_true by done. cbn [when].
      apply cleanup_wp; cbn; rewrite Hg; [done|]. intros lg2. by rewrite Hcfg.
  - apply wp_bind, wp_printk, wp_ret, wp_bind, wp_drv, wp_bind. rewrite truth_true by done. cbn [when].
    apply cleanup_wp; cbn; [done|]. done.
Qed.

(** C34: Loading the module with a given major number either registers the
    device under that number, which nobody had, with the close handler in the
    place of [mmap]; or it fails, with nothing registered by it, and then
    removes the registration of that number whoever made it. *)
Theorem scc_load_outcome E w :
  scc_test_major_node (glob w) <> 0 ->
  wp (scc_test_init SCC_DEBUG) (fun r w' =>
    kmem (kern w') = kmem (kern w) /\
    (r = 0 -> loaded w w' /\
       handler (scc_reg (glob w')) OS_FN_IOCTL = Some scc_test_ioctl_fn /\
       handler (scc_reg (glob w')) OS_FN_MMAP = Some scc_test_release_fn) /\
    (r <> 0 -> chrdevs (kern w') = drop_key (scc_test_major_node (glob w)) (chrdevs (kern w)) /\
       scc_test_major_node (glob w') = 0)) E w.
Proof.
  intros Hm0. eapply wp_mono; [by apply init_wp|].
  intros r w' (Hm & _ & _ & _ & _ & Hok & Hbad). split; [done|]. split; [|done].
  intros Hr. specialize (Hok Hr). split; [done|]. destruct Hok as (_ & _ & _ & Hf).
  unfold handler. by rewrite Hf.
Qed.

(** On the loaded module, the call that should map the registers for a
    process maps nothing, reports success, and takes a reference of the module
    away, as it is served by the close handler. *)
Theorem scc_mmap_closes vma E w :
  scc_test_major_node (glob w) <> 0 ->
  wp (r ← scc_test_init SCC_DEBUG;
      x ← (if r =? 0 then dispatch SCC_DEBUG (Smmap vma) else mret None); mret (r, x))
    (fun '(r, x) w' => r = 0 ->
       x = Some 0 /\ vmaps (kern w') = vmaps (kern w) /\
       mod_refs (kern w') = mod_refs (kern w) - 1) E w.
Proof.
  intros Hm0. apply wp_bind. eapply wp_mono; [by apply init_wp|].
  intros r w1 (_ & _ & Hv & Hr & _ & Hok & _). apply wp_bind.
  destruct (Z.eqb_spec r 0) as [->|]; [|by apply wp_ret].
  destruct (Hok eq_refl) as (_ & _ & _ & Hf). unfold dispatch, getg.
  apply wp_bind, wp_gets. unfold handler. rewrite Hf. cbn.
  unfold scc_test_release. apply wp_bind, wp_bind, wp_modify, wp_bind. unfold debug.
  apply wp_debugk. intros lg. repeat apply wp_ret. intros _. cbn [kern set_kern add_refs vmaps mod_refs].
  split; [done|].
  by rewrite <- Hv, <- Hr.
Qed.

(** A request whose input address is in the upper half of the address space
    and not a multiple of eight would be read to before the buffer. *)
Lemma negative_offset_undef enc_dec a b s w data :
  from_user (ubytes (kern w)) (data_in s) (in_length s) = (data, 0) ->
  block_offset (data_in s) < 0 -> 0 < in_length s ->
  (run_cipher SCC_DEBUG enc_dec a b s w).1 = Undef.
Proof.
  intros Hin Hoff Hn. unfold run_cipher, debug. fold T (data_in s) (data_out s) (in_length s).
  pose proof (length_from_user (ubytes (kern w)) (data_in s) (in_length s)) as Hl.
  rewrite Hin in Hl. cbn in Hl. eapply undef_bind_eq; [apply debugk_eq|].
  set (w1 := if SCC_DEBUG then _ else w).
  assert (copy_from_user (data_in s) (in_length s) w1 = (Ret (data, 0), w1)) as Hc.
  { unfold copy_from_user, gets. assert (ubytes (kern w1) = ubytes (kern w)) as ->; [|by rewrite Hin].
    subst w1. by destruct SCC_DEBUG. }
  eapply undef_bind_eq; [exact Hc|]. cbv beta iota. apply undef_bind. unfold kwrite.
  destruct data; [cbn in Hl; lia|]. cbn [length Nat.eqb].
  destruct (kmem (kern w1) !! a); [|done].
  by rewrite (proj2 (Z.leb_gt _ _)) by lia.
Qed.
End Spec.

(** ** The theorems at work *)
Section Witnesses.
(** A controller with plain registers whose cipher adds one to each byte. *)
#[local] Instance toy_scc : SccDriver (gmap Z Z) := {|
  SCC_RET_INSUFFICIENT_SPACE := 3; SCC_CBC_MODE := 1; SCC_ENCRYPT := 0; SCC_DECRYPT := 1;
  SMN_STATUS := 0x1000; SMN_STATUS_STATE_MASK := 0x1f; SMN_STATE_FAIL := 9;
  SCC_BASE_ADDR := 0x53fac000;
  scc_get_configuration := replicate 28 1;
  scc_read_register off _ d := ((0, default 0 (d !! off)), d);
  scc_write_register off v d := (0, <[off := v]> d);
  scc_crypt n b iv dir mode check room d :=
    if zlen b <=? room then ((0, map (fun x => u8 (x + 1)) b, zlen b), d) else ((1, [], 0), d);
  scc_zeroize_memories d := (0, d);
  scc_alloc_slot n own slot d := ((0, slot), d);
  scc_dealloc_slot own slot d := (0, d);
  scc_get_slot_info own slot _ d := ((0, (0x100, 16, 16)), d);
  scc_load_slot own slot key n d := (0, <[slot := of_le key]> d);
  scc_decrypt_slot own slot n key d := (0, <[slot := of_le key]> d);
  scc_encrypt_slot own slot n d := ((0, []), d);
  scc_set_sw_alarm d := d;
  scc_monitor_security_failure d := d;
|}.
#[local] Instance toy_scc_laws : SccDriverLaws (gmap Z Z).
Proof.
  split; cbn; [|done]. intros n b iv dir mode check room d Hr. destruct (Z.leb_spec (zlen b) room); cbn.
  - rewrite length_map. done.
  - done.
Qed.

Definition struct_bytes (l : list (nat * Z)) : list Z := concat (map (fun x => to_le x.1 x.2) l).
Definition demo (user : gmap Z Z) : world (gmap Z Z) globals :=
  mkWorld (booted user) ∅ scc_globals [].
#[local] Instance K : Kernel := sim sim_ok.
#[local] Instance KO : PortableOs := sim_os (fun _ => false).

(** Three bytes at 0x2004 encrypted to 0x3002. *)
Definition demo_cipher : list Z := struct_bytes
  [(4%nat, 0x2004); (4%nat, 3); (4%nat, 0x3002); (4%nat, 5); (4%nat, 0); (4%nat, 0); (4%nat, 7);
   (4%nat, 8); (4%nat, 0); (4%nat, 0); (4%nat, 0)].
Definition cipher_world : world (gmap Z Z) globals :=
  demo (uput (uput (user_at 0x1000 demo_cipher) 0x2004 [10; 20; 255]) 0x3002 (replicate 5 0)).

Lemma demo_cipher_ok : cipher_ok demo_cipher.
Proof. by vm_compute. Qed.

Lemma scc_ioctl_keeps_memory_witness :
  wpu (bad_cipher SCC_TEST_ENCRYPT 0x1000 cipher_world) (@scc_test_ioctl K _ _ false SCC_TEST_ENCRYPT 0x1000)
    (fun _ w' => kmem (kern w') = ∅) (fun _ _ => False) cipher_world.
Proof.
  by apply (@scc_ioctl_keeps_memory K (sim_laws sim_ok) _ _ toy_scc_laws false SCC_TEST_ENCRYPT 0x1000
    (fun _ _ => False) cipher_world).
Defined.
Lemma demo_is_not_bad : ~ bad_cipher SCC_TEST_ENCRYPT 0x1000 cipher_world.
Proof.
  intros (_ & s & Hs & Hn). apply Hn. assert (s = demo_cipher) as ->; [|apply demo_cipher_ok].
  assert (holds scc_encrypt_decrypt cipher_world 0x1000 demo_cipher) as Hd by (by vm_compute).
  unfold holds in *. congruence.
Qed.

Lemma cipher_request_delivers_witness :
  wp (@scc_test_ioctl K _ _ false SCC_TEST_ENCRYPT 0x1000)
    (fun r w' => r = 0 /\ kmem (kern w') = ∅ /\ dev w' = ∅ /\
       ubytes (kern w') = uput (uput (ubytes (kern cipher_world)) 0x3002 [11; 21; 0]) 0x1000
         (struct_bytes [(4%nat, 0x2004); (4%nat, 3); (4%nat, 0x3002); (4%nat, 3); (4%nat, 0); (4%nat, 0);
            (4%nat, 7); (4%nat, 8); (4%nat, 0); (4%nat, 0); (4%nat, 0)]))
    (fun _ _ => False) cipher_world.
Proof.
  apply (@cipher_request_delivers K (sim_laws sim_ok) _ _ toy_scc_laws false SCC_TEST_ENCRYPT 0x1000
    demo_cipher [10; 20; 255] [11; 21; 0] 3 ∅ (fun _ _ => False) cipher_world); by vm_compute.
Defined.

(** 77 to register 8 by the request at 0x1000, back by the one at 0x1100. *)
Definition reg_world : world (gmap Z Z) globals :=
  demo (uput (user_at 0x1000 (struct_bytes [(4%nat, 8); (4%nat, 77); (4%nat, 0)])) 0x1100
    (struct_bytes [(4%nat, 8); (4%nat, 0); (4%nat, 5)])).

Lemma register_roundtrip_witness :
  wp (a ← @scc_test_ioctl K _ _ false SCC_TEST_WRITE_REG 0x1000;
      b ← scc_test_ioctl false SCC_TEST_READ_REG 0x1100; mret (a, b))
    (fun r w' => r = (0, 0) /\ kmem (kern w') = ∅ /\
       let t' := uread (ubytes (kern w')) 0x1100 12 in
       get scc_reg_access "reg_data" t' = 77 /\
       get scc_reg_access "function_return_code" t' = 0)
    (fun _ _ => False) reg_world.
Proof.
  apply (@register_roundtrip K _ _ false 0x1000 0x1100
    (struct_bytes [(4%nat, 8); (4%nat, 77); (4%nat, 0)])
    (struct_bytes [(4%nat, 8); (4%nat, 0); (4%nat, 5)]) {[8 := 77]} (fun _ _ => False) reg_world);
    try (by vm_compute).
  right. by vm_compute.
Defined.

(** A key of four bytes at an address that is not mapped. *)
Definition demo_load : list Z := struct_bytes
  [(4%nat, 2); (4%nat, 1); (8%nat, 99); (4%nat, 0x8000); (4%nat, 4); (4%nat, 7); (4%nat, 0)].
Definition load_world : world (gmap Z Z) globals := demo (user_at 0x1000 demo_load).

Lemma load_slot_loses_the_key_witness :
  wp (@scc_test_ioctl K _ _ false SCC_TEST_LOAD_SLOT 0x1000)
    (fun r w' =>
      (exists b, kmem (kern w') = {[4096 := mkBlock Kmalloc b]}) /\
      dev w' = ∅ /\ r = 0 /\ ubytes (kern w') = uput (ubytes (kern load_world)) 0x1000
         (set scc_load_slot_access "scc_status" 0 demo_load))
    (fun _ _ => False) load_world.
Proof.
  eapply wp_mono; [apply (@load_slot_loses_the_key K (sim_laws sim_ok) _ _ false 0x1000
    demo_load 4096 (replicate 4 0xa5) (fun _ _ => False) load_world); by vm_compute|].
  intros r w' [(b & _ & _ & Hm) Hr]. split; [by eexists|].
  destruct Hr as [Hd Hu]; [by vm_compute|]. split; [done|]. apply Hu. by vm_compute.
Defined.

Lemma scc_load_outcome_witness :
  wp (@scc_test_init KO _ _ false) (fun r w' =>
    kmem (kern w') = ∅ /\
    (r = 0 -> loaded (demo ∅) w' /\
       handler (scc_reg (glob w')) OS_FN_IOCTL = Some scc_test_ioctl_fn /\
       handler (scc_reg (glob w')) OS_FN_MMAP = Some scc_test_release_fn) /\
    (r <> 0 -> chrdevs (kern w') = [] /\ scc_test_major_node (glob w') = 0))
    (fun _ _ => False) (demo ∅).
Proof.
  apply (@scc_load_outcome KO (sim_os_laws _) _ _ false (fun _ _ => False) (demo ∅)).
  by vm_compute.
Defined.

Lemma scc_mmap_closes_witness :
  wp (r ← @scc_test_init KO _ _ false;
      x ← (if r =? 0 then dispatch false (Smmap (mkVma 0x40000000 0 false)) else mret None); mret (r, x))
    (fun '(r, x) w' => r = 0 ->
       x = Some 0 /\ vmaps (kern w') = [] /\ mod_refs (kern w') = 0 - 1)
    (fun _ _ => False) (demo ∅).
Proof.
  apply (@scc_mmap_closes K KO (sim_os_laws _) _ _ false (mkVma 0x40000000 0 false)
    (fun _ _ => False) (demo ∅)). by vm_compute.
Defined.
End Witnesses.
