(* ===== verification/Scc2.v ===== *)
(** * The second security controller test module

    [src/module_test/scc2_test_driver.c] and [src/include/scc2_test_driver.h]:
    ioctls, one at a time under a mutex, that reach the registers and the
    memory partitions of the SCC2 driver.  That driver
    ([<linux/mxc_scc2_driver.h>]) is the class [Scc2Driver]; the memory of its
    partitions, which the module also touches directly at the addresses a
    process passes, is part of the driver's state.

    [SCC2_DEBUG] is left undefined: with it the file names a command that no
    header declares.  Two processes in the driver at once are the step
    relation of the last section. *)
From S2P Require Import Prelude CInt CMonad CStruct Kernel PortableOs.

(** ** scc2_test_driver.h *)
Definition SCC2_TEST_DRIVER_NAME : string := "scc2_test".

Definition IOCTL_SCC2_OK : Z := 0.
Definition IOCTL_SCC2_INVALID_CMD : Z := ENOTTY.
Definition IOCTL_SCC2_INVALID_MODE : Z := EINVAL.
Definition IOCTL_SCC2_SCM_BUSY : Z := EBUSY.
Definition IOCTL_SCC2_IMPROPER_STATE : Z := EBADFD.
Definition IOCTL_SCC2_IMPROPER_ADDR : Z := EFAULT.
Definition IOCTL_SCC2_NO_MEMORY : Z := ENOMEM.
Definition IOCTL_SCC2_FAILURE : Z := ESPIPE.
Definition SCC2_TEST_DRIVER_IOCTL_IDENTIFIER : Z := 115. (* 's' *)

Definition scc_configuration_access : cstruct := struct
  [("driver_major_version", Tint); ("driver_minor_version", Tint); ("scm_version", Tint);
   ("smn_version", Tint); ("block_size", Tint); ("black_ram_size", Tint); ("red_ram_size", Tint)].
Definition scc_reg_access : cstruct := struct
  [("reg_offset", Tu32); ("reg_data", Tu32); ("function_return_code", Tenum)].
(** The union begins after the first word; the status follows its longer arm. *)
Definition scc_partition_access : cstruct :=
  let '(first, o) := place 0 [("virt_address", Tu32)] in
  let '(arms, o) := union_at o
    [[("smid", Tu32); ("part_no", Tu32); ("phys_address", Tu32)];
     [("umid", Tptr); ("permissions", Tu32)]] in
  let '(last, o) := place o [("scc_status", Tenum)] in
  mkStruct (first ++ arms ++ last) (align_up o 4).
Definition scc_part_cipher_access : cstruct := struct
  [("virt_address", Tu32); ("red_offset", Tu32); ("black_address", Tptr); ("size_bytes", Tu32);
   ("iv", Tu64); ("scc_status", Tenum)].

Definition SCC2_TEST_GET_CONFIGURATION : Z :=
  _IOW SCC2_TEST_DRIVER_IOCTL_IDENTIFIER 0 (sizeof scc_configuration_access).
Definition SCC2_TEST_READ_REG : Z :=
  _IOWR SCC2_TEST_DRIVER_IOCTL_IDENTIFIER 1 (sizeof scc_reg_access).
Definition SCC2_TEST_WRITE_REG : Z :=
  _IOWR SCC2_TEST_DRIVER_IOCTL_IDENTIFIER 2 (sizeof scc_reg_access).
Definition SCC2_TEST_SET_ALARM : Z := _IO SCC2_TEST_DRIVER_IOCTL_IDENTIFIER 5.
Definition SCC2_TEST_ZEROIZE : Z :=
  _IOWR SCC2_TEST_DRIVER_IOCTL_IDENTIFIER 6 (tsize Tenum).
Definition SCC2_TEST_ALLOC_PART : Z :=
  _IOWR SCC2_TEST_DRIVER_IOCTL_IDENTIFIER 12 (sizeof scc_partition_access).
Definition SCC2_TEST_ENGAGE_PART : Z :=
  _IOWR SCC2_TEST_DRIVER_IOCTL_IDENTIFIER 13 (sizeof scc_partition_access).
Definition SCC2_TEST_ENCRYPT_PART : Z :=
  _IOWR SCC2_TEST_DRIVER_IOCTL_IDENTIFIER 14 (sizeof scc_part_cipher_access).
Definition SCC2_TEST_DECRYPT_PART : Z :=
  _IOWR SCC2_TEST_DRIVER_IOCTL_IDENTIFIER 15 (sizeof scc_part_cipher_access).
Definition SCC2_TEST_RELEASE_PART : Z :=
  _IOWR SCC2_TEST_DRIVER_IOCTL_IDENTIFIER 16 (sizeof scc_partition_access).
Definition SCC2_TEST_LOAD_PART : Z :=
  _IOWR SCC2_TEST_DRIVER_IOCTL_IDENTIFIER 17 (sizeof scc_part_cipher_access).
Definition SCC2_TEST_READ_PART : Z :=
  _IOWR SCC2_TEST_DRIVER_IOCTL_IDENTIFIER 18 (sizeof scc_part_cipher_access).

(** ** The SCC2 driver *)
Class Scc2Driver (D : Type) := {
  SMN_STATUS_REG : Z;
  SMN_STATUS_STATE_MASK : Z;
  SMN_STATE_FAIL : Z;
  SCC_CYPHER_MODE_CBC : Z;
  scc_get_configuration : list Z;
  scc_read_register : Z -> Z -> D -> (Z * Z) * D;
  scc_write_register : Z -> Z -> D -> Z * D;
  (* smid; partition number, virtual and physical address as they were *)
  scc_allocate_partition : Z -> Z * Z * Z -> D -> (Z * (Z * Z * Z)) * D;
  scc_engage_partition : Z -> option (list Z) -> Z -> D -> Z * D;
  scc_release_partition : Z -> D -> Z * D;
  (* partition, offset, size, initialisation vector, mode: what is written
     to the black buffer *)
  scc_encrypt_region : Z -> Z -> Z -> list Z -> Z -> D -> (Z * list Z) * D;
  (* the same with the content of the black buffer *)
  scc_decrypt_region : Z -> Z -> Z -> list Z -> list Z -> Z -> D -> Z * D;
  (* direct access to mapped partitions; None outside of them *)
  part_read : Z -> Z -> D -> option (list Z);
  part_write : Z -> list Z -> D -> option D;
  scc_set_sw_alarm : D -> D;
  scc_monitor_security_failure : D -> D;
}.
(** As [!] on a result of the driver means success, this is 0. *)
Definition SCC_RET_OK : Z := 0.

(** ** State *)
Inductive scc2_fn := scc2_test_open_fn | scc2_test_ioctl_fn | scc2_test_release_fn.
Record globals := mkGlobals {
  scc2_test_major_node : Z;
  scc2_reg : os_driver_reg scc2_fn;
  scc_cfg : option (list Z);
  scc2_test_mutex : bool;           (* held *)
}.
Definition scc2_globals : globals := mkGlobals 0 no_reg None false.
#[export] Instance scc2_has_reg : HasReg globals scc2_fn.
Proof.
  refine {| reg_handle := scc2_reg;
            set_reg r g := mkGlobals (scc2_test_major_node g) r (scc_cfg g) (scc2_test_mutex g) |}.
  done.
Defined.
Definition set_major (v : Z) (g : globals) : globals :=
  mkGlobals v (scc2_reg g) (scc_cfg g) (scc2_test_mutex g).
Definition set_cfg (v : list Z) (g : globals) : globals :=
  mkGlobals (scc2_test_major_node g) (scc2_reg g) (Some v) (scc2_test_mutex g).
Definition set_mutex (v : bool) (g : globals) : globals :=
  mkGlobals (scc2_test_major_node g) (scc2_reg g) (scc_cfg g) v.

Section Driver.
Context `{Kernel} `{PortableOs} {D : Type} `{Scc2Driver D} (DEBUG : bool).
Abbreviation W := (world D globals).

Definition getg {A} (f : globals -> A) : M W A := gets (fun w => f (glob w)).
Definition setg (f : globals -> globals) : M W unit := modify (fun w => set_glob (f (glob w)) w).
Definition pr_debug (f : string) (a : list parg) : M W unit := debugk DEBUG f a.

(** A process that takes a mutex it holds already waits for ever. *)
Definition mutex_lock : M W unit :=
  h ← getg scc2_test_mutex;
  if (h : bool) then no_fuel else setg (set_mutex true).
Definition mutex_unlock : M W unit := setg (set_mutex false).

Definition scc2_test_get_configuration (scc_data : Z) : M W Z :=
  unc ← copy_to_user scc_data scc_get_configuration;
  mret (if truth unc then - IOCTL_SCC2_IMPROPER_ADDR else IOCTL_SCC2_OK).

(** The common end of the register calls; whether the answer could be stored
    is not looked at. *)
Definition reply_reg (scc_data : Z) (reg_struct : list Z) (scc_return error_code : Z) : M W Z :=
  retval ← copy_to_user scc_data (set scc_reg_access "function_return_code" scc_return reg_struct);
  mret error_code.

Definition scc2_test_read_register (scc_data : Z) : M W Z :=
  '(reg_struct, unc) ← copy_from_user scc_data (Z.of_nat (sizeof scc_reg_access));
  if truth unc then reply_reg scc_data reg_struct (-1) (- IOCTL_SCC2_IMPROPER_ADDR)
  else
    '(scc_return, v) ← drv (scc_read_register (get scc_reg_access "reg_offset" reg_struct)
                                             (get scc_reg_access "reg_data" reg_struct));
    reply_reg scc_data (set scc_reg_access "reg_data" v reg_struct) scc_return
      (if negb (scc_return =? SCC_RET_OK) then - IOCTL_SCC2_IMPROPER_ADDR else IOCTL_SCC2_OK).

Definition scc2_test_write_register (scc_data : Z) : M W Z :=
  '(reg_struct, unc) ← copy_from_user scc_data (Z.of_nat (sizeof scc_reg_access));
  if truth unc then reply_reg scc_data reg_struct (-1) (- IOCTL_SCC2_IMPROPER_ADDR)
  else
    scc_return ← drv (scc_write_register (get scc_reg_access "reg_offset" reg_struct)
                                         (get scc_reg_access "reg_data" reg_struct));
    reply_reg scc_data reg_struct scc_return
      (if negb (scc_return =? SCC_RET_OK) then - IOCTL_SCC2_IMPROPER_ADDR else IOCTL_SCC2_OK).

(** ** Partitions *)
Definition scc2_test_alloc_part (scc_data : Z) : M W Z :=
  let T := scc_partition_access in
  '(acc, status) ← copy_from_user scc_data (Z.of_nat (sizeof T));
  if status =? 0 then
    '(r, (part_no, virt, phys)) ← drv (scc_allocate_partition (get T "smid" acc)
       (get T "part_no" acc, get T "virt_address" acc, get T "phys_address" acc));
    copy_to_user scc_data (set T "scc_status" r (set T "phys_address" phys
      (set T "virt_address" virt (set T "part_no" part_no acc))))
  else mret status.

Definition scc2_test_engage_part (scc_data : Z) : M W Z :=
  let T := scc_partition_access in
  printk (KERN_ALERT ++ "calling copy_from_user\n") [];;
  '(acc, status) ← copy_from_user scc_data (Z.of_nat (sizeof T));
  if status =? 0 then
    '(umid, status) ← (if negb (get T "umid" acc =? 0) then
        printk (KERN_ALERT ++ "calling copy_from_user\n") [];;
        '(umid, status) ← copy_from_user (get T "umid" acc) 16;
        mret (Some umid, status)
      else mret (None, status));
    if status =? 0 then
      printk (KERN_ALERT ++ "calling engage_partition\n") [];;
      r ← drv (scc_engage_partition (get T "virt_address" acc) umid (get T "permissions" acc));
      copy_to_user scc_data (set T "scc_status" r acc)
    else mret status
  else mret status.

(** The first half of the initialisation vector is given, the rest is zero. *)
Definition build_iv (acc : list Z) : list Z :=
  get_bytes scc_part_cipher_access "iv" acc ++ replicate 8 0.

Definition do_encrypt_part (acc : list Z) (local_black : Z) : M W (Z * list Z) :=
  let T := scc_part_cipher_access in
  '(r, black) ← drv (scc_encrypt_region (get T "virt_address" acc) (get T "red_offset" acc)
                       (get T "size_bytes" acc) (build_iv acc) SCC_CYPHER_MODE_CBC);
  kwrite local_black 0 black;;
  let acc := set T "scc_status" r acc in
  black ← kread local_black 0 (get T "size_bytes" acc);
  status ← copy_to_user (get T "black_address" acc) black;
  mret (i32 status, acc).

Definition do_decrypt_part (acc : list Z) (local_black : Z) : M W (Z * list Z) :=
  let T := scc_part_cipher_access in
  '(black, status) ← copy_from_user (get T "black_address" acc) (get T "size_bytes" acc);
  kwrite local_black 0 black;;
  if status =? 0 then
    black ← kread local_black 0 (get T "size_bytes" acc);
    r ← drv (scc_decrypt_region (get T "virt_address" acc) (get T "red_offset" acc)
               (get T "size_bytes" acc) black (build_iv acc) SCC_CYPHER_MODE_CBC);
    mret (i32 status, set T "scc_status" r acc)
  else mret (i32 status, acc).

Definition scc2_test_encrypt_part (cmd scc_data : Z) : M W Z :=
  let T := scc_part_cipher_access in
  '(acc, status) ← copy_from_user scc_data (Z.of_nat (sizeof T));
  if status =? 0 then
    '(black, black_phys) ← dma_alloc_coherent (get T "size_bytes" acc);
    let status := if black =? 0 then IOCTL_SCC2_NO_MEMORY else status in
    '(status, acc) ← (if status =? 0 then
        if cmd =? SCC2_TEST_ENCRYPT_PART then do_encrypt_part acc black
        else do_decrypt_part acc black
      else mret (status, acc));
    when (truth black) (dma_free_coherent (get T "size_bytes" acc) black black_phys);;
    if status =? 0 then copy_to_user scc_data acc else mret status
  else mret status.

Definition scc2_test_load_data (scc_data : Z) : M W Z :=
  let T := scc_part_cipher_access in
  '(acc, status) ← copy_from_user scc_data (Z.of_nat (sizeof T));
  if status =? 0 then
    let p := u32 (get T "virt_address" acc + get T "red_offset" acc) in
    '(data, status) ← copy_from_user (get T "black_address" acc) (get T "size_bytes" acc);
    d ← gets dev;
    match part_write p data d with
    | Some d => modify (set_dev d);; mret (i32 status)
    | None => undef
    end
  else mret status.

Definition scc2_test_read_data (scc_data : Z) : M W Z :=
  let T := scc_part_cipher_access in
  '(acc, status) ← copy_from_user scc_data (Z.of_nat (sizeof T));
  if status =? 0 then
    let p := u32 (get T "virt_address" acc + get T "red_offset" acc) in
    d ← gets dev;
    match part_read p (get T "size_bytes" acc) d with
    | Some data => status ← copy_to_user (get T "black_address" acc) data; mret (i32 status)
    | None => undef
    end
  else mret status.

Definition scc2_test_release_part (scc_data : Z) : M W Z :=
  let T := scc_partition_access in
  '(acc, status) ← copy_from_user scc_data (Z.of_nat (sizeof T));
  if status =? 0 then
    r ← drv (scc_release_partition (get T "virt_address" acc));
    copy_to_user scc_data (set T "scc_status" r acc)
  else mret status.

(** ** Entry points *)
Definition scc2_test_open : M W Z := mret OS_ERROR_OK_S.
Definition scc2_test_release : M W Z := mret OS_ERROR_OK_S.

Definition ioctl_body (cmd scc_data : Z) : M W Z :=
  if cmd =? SCC2_TEST_GET_CONFIGURATION then scc2_test_get_configuration scc_data
  else if cmd =? SCC2_TEST_READ_REG then scc2_test_read_register scc_data
  else if cmd =? SCC2_TEST_WRITE_REG then scc2_test_write_register scc_data
  else if cmd =? SCC2_TEST_SET_ALARM then
    drv (fun d => (tt, scc_set_sw_alarm d));; mret OS_ERROR_OK_S
  else if cmd =? SCC2_TEST_ALLOC_PART then scc2_test_alloc_part scc_data
  else if cmd =? SCC2_TEST_ENGAGE_PART then scc2_test_engage_part scc_data
  else if (cmd =? SCC2_TEST_ENCRYPT_PART) || (cmd =? SCC2_TEST_DECRYPT_PART) then
    scc2_test_encrypt_part cmd scc_data
  else if cmd =? SCC2_TEST_LOAD_PART then scc2_test_load_data scc_data
  else if cmd =? SCC2_TEST_READ_PART then scc2_test_read_data scc_data
  else if cmd =? SCC2_TEST_RELEASE_PART then scc2_test_release_part scc_data
  else mret (- IOCTL_SCC2_INVALID_CMD).

Definition scc2_test_ioctl (cmd scc_data : Z) : M W Z :=
  mutex_lock;;
  error_code ← ioctl_body cmd scc_data;
  mutex_unlock;;
  mret error_code.

(** ** Loading and unloading *)
Definition setup_user_driver_interaction : M W Z :=
  os_driver_init_registration;;
  os_driver_add_registration OS_FN_OPEN scc2_test_open_fn;;
  os_driver_add_registration OS_FN_IOCTL scc2_test_ioctl_fn;;
  os_driver_add_registration OS_FN_CLOSE scc2_test_release_fn;;
  major ← getg scc2_test_major_node;
  code ← os_driver_complete_registration major SCC2_TEST_DRIVER_NAME;
  if negb (code =? OS_ERROR_OK_S) then
    printk "SCC2 TEST Driver: register device driver failed: %d\n" [AInt code];;
    mret code
  else
    when (major =? 0) (setg (set_major code));;
    m ← getg scc2_test_major_node;
    pr_debug "SCC2 TEST Driver:  Major node is %d\n" [AInt m];;
    mret code.

Definition scc2_test_report_failure : M W unit :=
  printk "SCC2 TEST Driver: SMN reported alarm\n" [].

Definition scc2_test_cleanup : M W unit :=
  _ ← os_driver_remove_registration;
  pr_debug "SCC2 TEST: Cleaned up\n" [].

Definition scc2_test_init : M W Z :=
  setg (set_cfg scc_get_configuration);;
  '(error_code, smn_status) ← drv (scc_read_register SMN_STATUS_REG 0);
  error_code ← (if error_code =? 0 then
      error_code ← setup_user_driver_interaction;
      (if error_code =? 0 then
         if Z.land smn_status SMN_STATUS_STATE_MASK =? SMN_STATE_FAIL then
           printk "SCC2 TEST Driver: SCC is in Fail mode\n" []
         else printk "SCC2 TEST Driver: Ready\n" []
       else skip);;
      mret error_code
    else
      printk "SCC2 TEST: Could not read SMN_STATUS register: %d\n" [AInt error_code];;
      mret error_code);
  drv (fun d => (tt, scc_monitor_security_failure d));;
  when (truth error_code) scc2_test_cleanup;;
  mret error_code.
End Driver.

(** ** Several processes in the driver

    Each process issues its requests in order.  Taking the mutex, the work of
    the request, and giving the mutex back are separate steps; between them
    any other process may go on. *)
Inductive place_in := Outside | Entered | Leaving (answer : Z).
Record process := mkProcess {
  todo : list (Z * Z);            (* requests not finished: command and argument *)
  pc : place_in;
  answers : list Z;               (* latest first *)
}.

Section System.
Context `{Kernel} {D : Type} `{Scc2Driver D}.
Abbreviation W := (world D globals).
Record system := mkSystem { sys_world : W; procs : list process }.

Inductive step : system -> system -> Prop :=
  | step_lock w w' ps i cmd arg rest ans :
      ps !! i = Some (mkProcess ((cmd, arg) :: rest) Outside ans) ->
      mutex_lock w = (Ret tt, w') ->
      step (mkSystem w ps)
           (mkSystem w' (<[i := mkProcess ((cmd, arg) :: rest) Entered ans]> ps))
  | step_run w w' ps i cmd arg rest ans r :
      ps !! i = Some (mkProcess ((cmd, arg) :: rest) Entered ans) ->
      ioctl_body cmd arg w = (Ret r, w') ->
      step (mkSystem w ps)
           (mkSystem w' (<[i := mkProcess ((cmd, arg) :: rest) (Leaving r) ans]> ps))
  | step_unlock w w' ps i cmd arg rest ans r :
      ps !! i = Some (mkProcess ((cmd, arg) :: rest) (Leaving r) ans) ->
      mutex_unlock w = (Ret tt, w') ->
      step (mkSystem w ps)
           (mkSystem w' (<[i := mkProcess rest Outside (r :: ans)]> ps)).

Definition start (w : W) (requests : list (list (Z * Z))) : system :=
  mkSystem w (map (fun l => mkProcess l Outside []) requests).
Definition finished (s : system) : Prop :=
  Forall (fun p => todo p = [] /\ pc p = Outside) (procs s).
End System.
