(* ===== verification/Scc2Spec.v ===== *)
(** * What the second security controller module does

    Every request is answered and the mutex given back, also when several
    processes compete; the partition cipher hands the driver the right
    buffers; and data loaded into a partition can be read back, although the
    process is never told the status of either call. *)
From S2P Require Import Prelude CInt CMonad CStruct Kernel SimKernel PortableOs Scc2.

(** What the module relies on of the SCC2 driver: it writes at most the black
    bytes it was asked for; and partition memory keeps what is written. *)
Class Scc2DriverLaws (D : Type) `{Scc2Driver D} : Prop := {
  encrypt_room base off n iv mode d : 0 <= n ->
    zlen (scc_encrypt_region base off n iv mode d).1.2 <= n;
  part_keeps p l d d' : part_write p l d = Some d' -> part_read p (zlen l) d' = Some l;
}.

Section Spec.
Context `{KL : KernelLaws} `{PL : PortableOsLaws} {D : Type} `{SL : Scc2DriverLaws D}.
Abbreviation W := (world D globals).
Implicit Types (w : W) (E : Z -> W -> Prop).

(** ** The partition cipher *)
Definition P := scc_part_cipher_access.
Definition base (s : list Z) : Z := get P "virt_address" s.
Definition offset (s : list Z) : Z := get P "red_offset" s.
Definition black (s : list Z) : Z := get P "black_address" s.
Definition size (s : list Z) : Z := get P "size_bytes" s.

(** The driver's answer to an encryption request. *)
Definition encrypt_call (s : list Z) (d : D) :=
  scc_encrypt_region (base s) (offset s) (size s) (build_iv s) SCC_CYPHER_MODE_CBC d.

(** The request with its buffer [b] in place, on top of the memory [m]. *)
Definition with_buffer (b phys n : Z) (m : gmap Z block) (w : W) : Prop :=
  exists bs, kmem (kern w) = <[b := mkBlock (Dma phys) bs]> m /\ zlen bs = n.

Lemma do_encrypt_wp s b phys m E w :
  length s = sizeof P -> with_buffer b phys (size s) m w ->
  wp (do_encrypt_part s b) (fun r w' =>
    with_buffer b phys (size s) m w' /\ glob w' = glob w /\
    let '((rc, out), d) := encrypt_call s (dev w) in
    r.2 = set P "scc_status" rc s /\
    (zlen out = size s -> fits (ubytes (kern w)) (black s) (length out) = length out ->
     r.1 = 0 /\ dev w' = d /\ ubytes (kern w') = uput (ubytes (kern w)) (black s) out)) E w.
Proof.
  intros Hls (bs & Hm & Hbs). unfold do_encrypt_part. fold P. fold (base s) (offset s) (size s).
  apply wp_bind, wp_drv. fold (encrypt_call s (dev w)).
  pose proof (encrypt_room (base s) (offset s) (size s) (build_iv s) SCC_CYPHER_MODE_CBC (dev w)
    ltac:(lia)) as Hroom. fold (encrypt_call s (dev w)) in Hroom.
  destruct (encrypt_call s (dev w)) as [[rc out] d]. cbn [fst snd] in Hroom |- *.
  apply wp_bind. eapply wp_kwrite; [cbn; by rewrite Hm, lookup_insert_eq|done|cbn; lia|].
  assert (zlen (poke (Z.to_nat 0) out bs) = size s) as Hlp by (rewrite length_poke; simpl; lia).
  cbn [b_kind b_data]. apply wp_bind. rewrite !get_set_ne by layout_done. fold (size s) (black s).
  eapply wp_kread; [cbn; by rewrite lookup_insert_eq|done|lia|cbn [b_data]; lia|].
  cbn [b_data]. apply wp_bind, wp_copy_to_user. intros k Hk Hkl. apply wp_ret.
  cbn. split; [eexists; split; [cbn; by rewrite Hm, insert_insert_eq|done]|]. split; [done|]. split; [done|].
  intros Hlo Hfit. rewrite <- Hlo in Hk |- *.
  replace (peek _ _ _) with out in *; [|symmetry; rewrite Nat2Z.id; apply peek_poke_eq; simpl; lia].
  cbn in Hk. assert (k = length out) as -> by congruence. by rewrite Z.sub_diag, take_ge.
Qed.

Lemma do_decrypt_wp s b phys m E w :
  length s = sizeof P -> with_buffer b phys (size s) m w ->
  wp (do_decrypt_part s b) (fun r w' => with_buffer b phys (size s) m w' /\ glob w' = glob w /\
    exists st, r.2 = s \/ r.2 = set P "scc_status" st s) E w.
Proof.
  intros Hls (bs & Hm & Hbs). unfold do_decrypt_part. fold P. fold (base s) (offset s) (size s) (black s).
  apply wp_bind, wp_copy_from_user.
  pose proof (length_from_user (ubytes (kern w)) (black s) (size s)) as Hl.
  destruct (from_user _ _ _) as [data unc]. cbn [fst] in Hl.
  apply wp_bind. eapply wp_kwrite; [by rewrite Hm, lookup_insert_eq|done|cbn; lia|].
  assert (zlen (poke (Z.to_nat 0) data bs) = size s) as Hlp by (rewrite length_poke; simpl; lia).
  cbn [b_kind b_data]. destruct (unc =? 0).
  - apply wp_bind. eapply wp_kread; [cbn; by rewrite lookup_insert_eq|done|lia|cbn [b_data]; lia|].
    apply wp_bind, wp_drv, wp_ret. cbn. split; [eexists; split; [cbn; by rewrite Hm, insert_insert_eq|done]|].
    split; [done|]. eexists. by right.
  - apply wp_ret. cbn. split; [eexists; split; [cbn; by rewrite Hm, insert_insert_eq|done]|].
    split; [done|]. by exists 0; left.
Qed.

(** A request to encrypt that works out. *)
Definition encrypted (p : Z) (s : list Z) (w : W) (r : Z) (w' : W) : Prop :=
  let '((rc, out), d) := encrypt_call s (dev w) in
  o_dma (kmem (kern w)) (calls (kern w)) (size s) <> None -> zlen out = size s ->
  fits (ubytes (kern w)) (black s) (length out) = length out ->
  fits (ubytes (kern w)) p (sizeof P) = sizeof P ->
  r = 0 /\ dev w' = d /\
  ubytes (kern w') = uput (uput (ubytes (kern w)) (black s) out) p (set P "scc_status" rc s).

(** The end of the call: the buffer given back, the request answered. *)
Lemma part_end b phys st s p m (Q : Z -> W -> Prop) E w :
  with_buffer b phys (size s) m w -> m !! b = None -> b <> 0 -> length s = sizeof P ->
  (forall r w', kmem (kern w') = m -> glob w' = glob w -> dev w' = dev w ->
     (st = 0 -> fits (ubytes (kern w)) p (sizeof P) = sizeof P ->
        r = 0 /\ ubytes (kern w') = uput (ubytes (kern w)) p s) -> Q r w') ->
  wp (when (truth b) (dma_free_coherent (size s) b phys);;
      if st =? 0 then copy_to_user p s else mret st) Q E w.
Proof.
  intros (bs & Hm & Hbs) Hfree Hb Hls HQ. apply wp_bind. rewrite truth_true by done. cbn [when].
  eapply wp_dma_free; [by rewrite Hm, lookup_insert_eq|done|].
  assert (delete b (kmem (kern w)) = m) as Hdel by (rewrite Hm, delete_insert_eq; by apply delete_id).
  destruct (Z.eqb_spec st 0) as [->|Hst].
  - apply wp_copy_to_user. intros k Hk _. apply HQ; [exact Hdel|done|done|]. rewrite Hls in Hk |- *.
    intros _ Hf. assert (k = sizeof P) as -> by (rewrite Hk; exact Hf). by rewrite Z.sub_diag, take_ge by lia.
  - apply wp_ret. by apply HQ.
Qed.

Lemma encrypt_part_wp cmd p E w :
  wp (scc2_test_encrypt_part cmd p) (fun r w' =>
    kmem (kern w') = kmem (kern w) /\ glob w' = glob w /\
    (cmd = SCC2_TEST_ENCRYPT_PART -> forall s, holds P w p s -> encrypted p s w r w')) E w.
Proof.
  unfold scc2_test_encrypt_part. fold P. apply wp_bind, wp_copy_from_user.
  pose proof (length_from_user (ubytes (kern w)) p (Z.of_nat (sizeof P))) as Hls.
  unfold holds in *. destruct (from_user _ p _) as [s unc]. cbn [fst] in Hls. rewrite Nat2Z.id in Hls.
  destruct (Z.eqb_spec unc 0) as [->|Hunc].
  2: { apply wp_ret. split; [done|]. split; [done|]. by intros _ s' [= _ ?]. }
  fold (size s). apply wp_bind. unfold wpu at 1, dma_alloc_coherent.
  destruct (o_dma _ _ _) as [[[b phys] bs]|] eqn:Ho.
  2: { cbn. split; [done|]. split; [done|]. intros _ s' [= <-]. unfold encrypted. rewrite Ho.
       by repeat case_match. }
  pose proof Ho as (Hb & Hfree & _ & _ & Hbs & _)%dma_law. assert (b <> 0) as Hb0 by lia.
  rewrite (proj2 (Z.eqb_neq b 0)) by done. cbv zeta. cbn [Z.eqb]. apply wp_bind.
  set (w1 := set_kern _ w). assert (with_buffer b phys (size s) (kmem (kern w)) w1) as Hbuf by by exists bs.
  destruct (cmd =? SCC2_TEST_ENCRYPT_PART) eqn:Hcmd.
  - eapply wp_mono; [by apply do_encrypt_wp|]. intros [st s'] w2 (Hbuf2 & Hg & Henc).
    cbn [fst snd] in Henc. change (dev w1) with (dev w) in Henc.
    destruct (encrypt_call s (dev w)) as [[rc out] d] eqn:Hcall. destruct Henc as [-> Henc].
    assert (size (set P "scc_status" rc s) = size s) as Hsz by (unfold size; by rewrite get_set_ne by layout_done).
    fold (size (set P "scc_status" rc s)). rewrite <- Hsz in Hbuf2.
    eapply part_end; [done..|by apply length_set|]. intros r w' Hm' Hg' Hd' Hr. split; [done|].
    split; [by rewrite Hg', Hg|]. intros _ s0 [= <-]. unfold encrypted. rewrite Hcall.
    intros _ Hlo Hfo Hfp. destruct (Henc Hlo Hfo) as (-> & Hd2 & Hu2).
    rewrite Hu2 in Hr. destruct (Hr eq_refl (fits_uput _ _ _ _ _ Hfp)) as [-> Hu]. by rewrite Hd', Hd2, Hu.
  - eapply wp_mono; [by apply do_decrypt_wp|]. intros [st s'] w2 (Hbuf2 & Hg & rc & Hs').
    assert (size s' = size s /\ length s' = sizeof P) as [Hsz Hl'].
    { cbn in Hs'. destruct Hs' as [-> | ->]; [done|]. unfold size. rewrite get_set_ne by layout_done.
      by rewrite length_set. }
    fold (size s'). rewrite <- Hsz in Hbuf2. eapply part_end; [done..|].
    intros r w' Hm' Hg' _ _. split; [done|]. split; [by rewrite Hg', Hg|].
    intros ->. by rewrite Z.eqb_refl in Hcmd.
Qed.

(** ** One process *)

(** The driver refuses the command its header declares for erasing memory. *)
Lemma scc2_refuses_zeroize p w : ioctl_body SCC2_TEST_ZEROIZE p w = (Ret (- IOCTL_SCC2_INVALID_CMD), w).
Proof. reflexivity. Qed.

Lemma ioctl_wp cmd p (Q : Z -> W -> Prop) E w :
  scc2_test_mutex (glob w) = false ->
  wp (ioctl_body cmd p) (fun r w' => Q r (set_glob (set_mutex false (glob w')) w')) E
    (set_glob (set_mutex true (glob w)) w) ->
  wp (scc2_test_ioctl cmd p) Q E w.
Proof.
  intros Hfree HQ. unfold scc2_test_ioctl, mutex_lock, mutex_unlock, getg, setg.
  apply wp_bind, wp_bind, wp_gets. rewrite Hfree. apply wp_modify, wp_bind.
  eapply wp_mono; [exact HQ|]. intros r w' Hr. by apply wp_bind, wp_modify, wp_ret.
Qed.

(** C30: A request to encrypt partition memory for which a buffer is found
    hands the driver the partition address, the offset, the size and the
    vector whose second half is zero; the process finds the black bytes and
    the driver's status, the buffer is given back and the mutex free. *)
Theorem part_encryption_delivers p s rc out d E w :
  scc2_test_mutex (glob w) = false ->
  holds scc_part_cipher_access w p s ->
  scc_encrypt_region (base s) (offset s) (size s)
    (get_bytes scc_part_cipher_access "iv" s ++ replicate 8 0) SCC_CYPHER_MODE_CBC (dev w) = (rc, out, d) ->
  o_dma (kmem (kern w)) (calls (kern w)) (size s) <> None -> zlen out = size s ->
  fits (ubytes (kern w)) (black s) (length out) = length out ->
  fits (ubytes (kern w)) p (sizeof scc_part_cipher_access) = sizeof scc_part_cipher_access ->
  wp (scc2_test_ioctl SCC2_TEST_ENCRYPT_PART p) (fun r w' =>
    r = 0 /\ kmem (kern w') = kmem (kern w) /\ dev w' = d /\ scc2_test_mutex (glob w') = false /\
    ubytes (kern w') = uput (uput (ubytes (kern w)) (black s) out) p
      (set scc_part_cipher_access "scc_status" rc s)) E w.
Proof.
  intros Hfree Hs Hcall Hdma Hlen Hfo Hfp. apply ioctl_wp; [done|].
  change (ioctl_body SCC2_TEST_ENCRYPT_PART p) with (scc2_test_encrypt_part SCC2_TEST_ENCRYPT_PART p).
  eapply wp_mono; [apply encrypt_part_wp|]. intros r w' (Hm & Hg & He).
  specialize (He eq_refl s Hs). unfold encrypted, encrypt_call in He.
  cbn [set_glob kern dev] in He, Hm.
  change (build_iv s) with (get_bytes scc_part_cipher_access "iv" s ++ replicate 8 0) in He.
  rewrite Hcall in He. destruct (He Hdma Hlen Hfo Hfp) as (-> & Hd & Hu). done.
Qed.

(** C29: Data a process loads into a partition is what it reads back from there,
    both calls returning 0; neither request is updated, so the status the
    process finds in them is the one it put there. *)
Theorem load_read_roundtrip p q s t data d E w :
  scc2_test_mutex (glob w) = false ->
  holds scc_part_cipher_access w p s -> holds scc_part_cipher_access w q t ->
  u32 (base t + offset t) = u32 (base s + offset s) -> size t = size s ->
  from_user (ubytes (kern w)) (black s) (size s) = (data, 0) -> 0 <= size s ->
  part_write (u32 (base s + offset s)) data (dev w) = Some d ->
  fits (ubytes (kern w)) (black t) (length data) = length data ->
  wp (a ← scc2_test_ioctl SCC2_TEST_LOAD_PART p; b ← scc2_test_ioctl SCC2_TEST_READ_PART q; mret (a, b))
    (fun r w' => r = (0, 0) /\ dev w' = d /\ kmem (kern w') = kmem (kern w) /\
       ubytes (kern w') = uput (ubytes (kern w)) (black t) data) E w.
Proof.
  intros Hfree Hs Ht Haddr Hsz Hin Hpos Hpw Hfit.
  apply wp_bind, ioctl_wp; [done|].
  change (ioctl_body SCC2_TEST_LOAD_PART p) with (scc2_test_load_data p).
  unfold scc2_test_load_data. fold P. apply wp_bind. eapply wp_copy_held; [exact Hs|]. cbn [Z.eqb].
  fold (base s) (offset s) (black s) (size s). cbv zeta. apply wp_bind, wp_copy_from_user.
  cbn [set_glob kern]. rewrite Hin. apply wp_bind, wp_gets. cbn [dev set_glob]. rewrite Hpw.
  apply wp_bind, wp_modify, wp_ret.
  apply wp_bind, ioctl_wp; [done|].
  change (ioctl_body SCC2_TEST_READ_PART q) with (scc2_test_read_data q).
  unfold scc2_test_read_data. fold P. apply wp_bind. eapply wp_copy_held; [exact Ht|]. cbn [Z.eqb].
  fold (base t) (offset t) (black t) (size t). cbv zeta. rewrite Haddr, Hsz.
  apply wp_bind, wp_gets. cbn [dev set_dev set_glob].
  pose proof (length_from_user (ubytes (kern w)) (black s) (size s)) as Hl. rewrite Hin in Hl. cbn in Hl.
  apply part_keeps in Hpw. replace (zlen data) with (size s) in Hpw by lia. rewrite Hpw.
  apply wp_bind, wp_copy_to_user. intros k Hk _. cbn in Hk. assert (k = length data) as -> by congruence.
  apply wp_ret, wp_ret. rewrite Z.sub_diag, take_ge by done. done.
Qed.

(** ** Several processes *)

(** A load or a read whose address lies in no partition: the driver follows
    the address the process chose into whatever memory is there. *)
Definition stray_access (cmd p : Z) (w : W) : Prop :=
  exists s, holds P w p s /\
    (cmd = SCC2_TEST_LOAD_PART /\
       part_write (u32 (base s + offset s)) (from_user (ubytes (kern w)) (black s) (size s)).1 (dev w) = None \/
     cmd = SCC2_TEST_READ_PART /\ part_read (u32 (base s + offset s)) (size s) (dev w) = None).

(** What a request leaves alone, if it ends. *)
Definition left_alone (w : W) (_ : Z) (w' : W) : Prop := kmem (kern w') = kmem (kern w) /\ glob w' = glob w.

Lemma load_keeps p E w :
  wpu (stray_access SCC2_TEST_LOAD_PART p w) (scc2_test_load_data p) (left_alone w) E w.
Proof.
  unfold scc2_test_load_data. fold P. apply wp_bind, wp_copy_from_user. cbv beta zeta.
  destruct (from_user _ p _) as [s unc] eqn:Hs. destruct (Z.eqb_spec unc 0) as [->|]; [|by apply wp_ret].
  fold (base s) (offset s) (black s) (size s). apply wp_bind, wp_copy_from_user. cbv beta zeta.
  destruct (from_user _ (black s) _) as [data unc] eqn:Hd. apply wp_bind, wp_gets. cbv beta.
  destruct (part_write _ data (dev w)) eqn:Hw.
  - by apply wp_bind, wp_modify, wp_ret.
  - apply wp_undef. exists s. split; [exact Hs|]. left. by rewrite Hd.
Qed.
Lemma read_keeps p E w :
  wpu (stray_access SCC2_TEST_READ_PART p w) (scc2_test_read_data p) (left_alone w) E w.
Proof.
  unfold scc2_test_read_data. fold P. apply wp_bind, wp_copy_from_user. cbv beta zeta.
  destruct (from_user _ p _) as [s unc] eqn:Hs. destruct (Z.eqb_spec unc 0) as [->|]; [|by apply wp_ret].
  fold (base s) (offset s) (black s) (size s). apply wp_bind, wp_gets. cbv beta zeta.
  destruct (part_read _ _ (dev w)) eqn:Hw.
  - apply wp_bind, wp_copy_to_user. intros k _ _. by apply wp_ret.
  - apply wp_undef. exists s. split; [exact Hs|]. by right.
Qed.
Lemma body_keeps cmd p E w : wpu (stray_access cmd p w) (ioctl_body cmd p) (left_alone w) E w.
Proof.
  assert (forall m : M W Z, mem_kept m -> wpu (stray_access cmd p w) m (left_alone w) E w) as Hkept.
  { intros m Hk. apply wp_allow, Hk. }
  unfold ioctl_body. do 6 (case_match; [apply Hkept; unfold scc2_test_get_configuration,
    scc2_test_read_register, scc2_test_write_register, scc2_test_alloc_part, scc2_test_engage_part,
    reply_reg; kept|]).
  case_match.
  { apply Hkept. intros E' w0. eapply wp_mono; [apply encrypt_part_wp|]. by intros r w' (? & ? & _). }
  case_match. { assert (cmd = SCC2_TEST_LOAD_PART) as -> by lia. apply load_keeps. }
  case_match. { assert (cmd = SCC2_TEST_READ_PART) as -> by lia. apply read_keeps. }
  apply Hkept. case_match; [unfold scc2_test_release_part|]; kept.
Qed.

(** The work of a request ends, or is a stray access. *)
Lemma body_cases cmd p w :
  (exists r w', ioctl_body cmd p w = (Ret r, w') /\ left_alone w r w') \/
  (stray_access cmd p w /\ (ioctl_body cmd p w).1 = Undef).
Proof.
  pose proof (body_keeps cmd p (fun _ _ => False) w) as Hk. unfold wpu in Hk.
  destruct (ioctl_body cmd p w) as [[r| | |] w']; try done; [left; by exists r, w'|by right].
Qed.

Lemma sum_insert {A} (f : A -> nat) (l : list A) i x y :
  l !! i = Some x -> (sum_list_with f (<[i := y]> l) + f x = sum_list_with f l + f y)%nat.
Proof.
  revert i. induction l as [|a l IH]; intros [|i] Hi; simpl in *; try done.
  - injection Hi as ->. lia.
  - specialize (IH i Hi). lia.
Qed.
Lemma sum_lookup {A} (f : A -> nat) (l : list A) i x :
  l !! i = Some x -> (f x <= sum_list_with f l)%nat.
Proof. revert i. induction l as [|a l IH]; intros [|i] Hi; simpl in *; [done..|by injection Hi as ->; lia|]. apply IH in Hi. lia. Qed.

Definition busy (p : process) : nat := match pc p with Outside => 0 | _ => 1 end.
(** Steps a process has still to make. *)
Definition work (p : process) : nat :=
  3 * length (todo p) - match pc p with Outside => 0 | Entered => 1 | Leaving _ => 2 end.
Definition well_placed (p : process) : Prop := pc p <> Outside -> todo p <> [].

(** What every interleaving keeps. *)
Record sys_inv (w0 : W) (requests : list (list (Z * Z))) (s : system (D := D)) : Prop := {
  inv_mutex : sum_list_with busy (procs s) = if scc2_test_mutex (glob (sys_world s)) then 1%nat else 0%nat;
  inv_placed : Forall well_placed (procs s);
  inv_mem : kmem (kern (sys_world s)) = kmem (kern w0);
  inv_answers : Forall2 (fun l p => length (todo p) + length (answers p) = length l)%nat requests (procs s);
}.

Lemma inv_start w requests :
  scc2_test_mutex (glob w) = false -> sys_inv w requests (start w requests).
Proof.
  intros Hfree. split; simpl.
  - rewrite Hfree. by induction requests.
  - apply Forall_fmap, Forall_true. by intros l [].
  - done.
  - induction requests; simpl; constructor; [simpl; lia|auto].
Qed.

(** Changing one process. *)
Lemma inv_update w0 requests w w' ps i x y :
  sys_inv w0 requests (mkSystem w ps) -> ps !! i = Some x ->
  (busy y + (if scc2_test_mutex (glob w) then 1 else 0) =
   busy x + (if scc2_test_mutex (glob w') then 1 else 0))%nat ->
  kmem (kern w') = kmem (kern w) -> well_placed y ->
  (length (todo y) + length (answers y) = length (todo x) + length (answers x))%nat ->
  sys_inv w0 requests (mkSystem w' (<[i := y]> ps)).
Proof.
  intros [Hmu Hpl Hmem Hans] Hi Hb Hk Hy Hlen. simpl in *. split; simpl.
  - pose proof (sum_insert busy ps i x y Hi). lia.
  - by apply Forall_insert.
  - congruence.
  - apply Forall2_lookup. intros j. rewrite Forall2_lookup in Hans. specialize (Hans j).
    destruct (decide (i = j)) as [<-|Hij].
    + rewrite Hi in Hans. rewrite list_lookup_insert_eq by (by eapply lookup_lt_Some).
      inversion Hans as [l ? Hx|]; subst. constructor. lia.
    + by rewrite list_lookup_insert_ne.
Qed.

Lemma inv_step w0 requests s s' : sys_inv w0 requests s -> step s s' -> sys_inv w0 requests s'.
Proof.
  intros Hinv Hstep. pose proof (inv_placed _ _ _ Hinv) as Hpl. inversion Hstep; subst; simpl in *;
    pose proof (Forall_lookup_1 _ _ _ _ Hpl ltac:(eassumption)) as Hne; simpl in *.
  - unfold mutex_lock, getg, gets, mbind, M_bind in *. simpl in *.
    destruct (scc2_test_mutex (glob w)) eqn:Hmu; [done|].
    match goal with H : setg _ _ = _ |- _ => unfold setg, modify in H; injection H as <- end.
    eapply inv_update; [done|done|cbn; by rewrite Hmu|done|done|done].
  - destruct (body_cases cmd arg w) as [(r' & w2 & Hb & Hm & Hg)|[_ Hu]];
      match goal with H : ioctl_body _ _ _ = _ |- _ => first [rewrite H in Hb; injection Hb as <- <-|by rewrite H in Hu] end.
    eapply inv_update; [done|done|by rewrite Hg|done|done|done].
  - match goal with H : mutex_unlock _ = _ |- _ => injection H as <- end.
    assert (scc2_test_mutex (glob w) = true) as Hmu.
    { pose proof (inv_mutex _ _ _ Hinv) as Hmu. simpl in Hmu.
      pose proof (sum_lookup busy ps i _ ltac:(eassumption)) as Hle. cbn in Hle.
      by destruct (scc2_test_mutex (glob w)); [|lia]. }
    eapply inv_update; [done|done|cbn; by rewrite Hmu|done|by intros []|cbn; lia].
Qed.

Lemma step_works w0 requests s s' :
  sys_inv w0 requests s -> step s s' -> (sum_list_with work (procs s') < sum_list_with work (procs s))%nat.
Proof.
  intros Hinv Hstep. inversion Hstep; subst; simpl in *;
    match goal with |- context [<[?i := ?y]> ?ps] =>
      match goal with H : ps !! i = Some ?x |- _ =>
        pose proof (sum_insert work ps i x y H); enough (work y < work x)%nat by lia end end;
    unfold work; cbn [todo pc length]; lia.
Qed.

(** The process inside has asked for memory that is in no partition. *)
Definition gone_astray (s : system (D := D)) : Prop :=
  exists i cmd arg rest ans, procs s !! i = Some (mkProcess ((cmd, arg) :: rest) Entered ans) /\
    stray_access cmd arg (sys_world s) /\ (ioctl_body cmd arg (sys_world s)).1 = Undef.

(** Somebody can go on. *)
Lemma inv_progress w0 requests s :
  sys_inv w0 requests s -> finished s \/ (exists s', step s s') \/ gone_astray s.
Proof.
  destruct s as [w ps]. intros [Hmu Hpl _ _]. simpl in *.
  destruct (scc2_test_mutex (glob w)) eqn:Hm.
  - (* the one inside *)
    assert (exists i p, ps !! i = Some p /\ pc p <> Outside) as (i & p & Hi & Hp).
    { clear Hpl. induction ps as [|p ps IH]; [done|]. simpl in Hmu. destruct (pc p) eqn:Hpc.
      - destruct IH as (i & q & Hi & Hq); [assert (busy p = 0%nat) by (unfold busy; by rewrite Hpc); lia|]. by exists (S i), q.
      - exists O, p. by rewrite Hpc.
      - exists O, p. by rewrite Hpc. }
    pose proof (Forall_lookup_1 _ _ _ _ Hpl Hi) as Hne. right.
    destruct p as [[|[cmd arg] rest] q ans]; simpl in *; [by destruct (Hne Hp)|].
    destruct q as [| |r]; [done| |].
    + destruct (body_cases cmd arg w) as [(r & w' & Hb & _)|Hstray].
      * left. eexists. by eapply step_run.
      * right. by exists i, cmd, arg, rest, ans.
    + left. eexists. by eapply step_unlock.
  - (* nobody inside: whoever has work may enter *)
    assert (Forall (fun p => pc p = Outside) ps) as Hout.
    { clear Hpl. induction ps as [|p ps IH]; [done|]. simpl in Hmu. constructor.
      - assert (busy p = 0%nat) as Hb by lia. unfold busy in Hb. by destruct (pc p).
      - apply IH. lia. }
    destruct (decide (Forall (fun p => todo p = []) ps)) as [Hdone|Hmore].
    + left. unfold finished. simpl. rewrite Forall_forall in *. naive_solver.
    + right. apply not_Forall_Exists in Hmore; [|intros x; apply _].
      apply Exists_exists in Hmore as (p & [i Hi]%list_elem_of_lookup & Hp).
      pose proof (Forall_lookup_1 _ _ _ _ Hout Hi) as Ho. simpl in *.
      destruct p as [[|[cmd arg] rest] q ans]; simpl in *; [done|]. subst q.
      left. eexists. eapply step_lock; [done|]. unfold mutex_lock, getg, gets, mbind, M_bind. simpl.
      by rewrite Hm.
Qed.

Lemma inv_acc w0 requests s : sys_inv w0 requests s -> Acc (flip step) s.
Proof.
  remember (sum_list_with work (procs s)) as n eqn:Hn. revert s Hn.
  induction (lt_wf n) as [n _ IH]. intros s -> Hinv. constructor. intros s' Hs.
  eapply IH; [by eapply step_works|done|by eapply inv_step].
Qed.

Lemma one_inside (ps : list process) i j p q :
  (sum_list_with busy ps <= 1)%nat -> ps !! i = Some p -> ps !! j = Some q ->
  busy p = 1%nat -> busy q = 1%nat -> i = j.
Proof.
  intros Hle Hi Hj Hp Hq. destruct (decide (i = j)) as [|Hij]; [done|].
  pose proof (sum_insert busy ps i p (mkProcess [] Outside []) Hi) as Hs.
  pose proof (sum_lookup busy (<[i := mkProcess [] Outside []]> ps) j q) as Hl.
  rewrite list_lookup_insert_ne in Hl by done. specialize (Hl Hj). cbn in Hs. lia.
Qed.

(** C3: Whatever the order in which processes enter the driver, go on inside it
    and leave it, at most one is inside; the requests of all of them come to
    an end: no order goes on for ever, and as long as a request is left some
    process can go on, unless the process inside asked to load or read at an
    address that lies in no partition, which the driver follows into memory
    it does not own; and when all are done every request has its answer, the
    mutex is free and kernel memory is as before.  The mutex is free at the
    start; processes and requests are arbitrary. *)
Theorem scc2_requests_complete w requests s :
  scc2_test_mutex (glob w) = false ->
  rtc step (start w requests) s ->
  (forall i j p q, procs s !! i = Some p -> procs s !! j = Some q ->
     pc p <> Outside -> pc q <> Outside -> i = j) /\
  Acc (flip step) s /\ (finished s \/ (exists s', step s s') \/ gone_astray s) /\
  (finished s ->
     Forall2 (fun l p => length (answers p) = length l) requests (procs s) /\
     scc2_test_mutex (glob (sys_world s)) = false /\
     kmem (kern (sys_world s)) = kmem (kern w)).
Proof.
  intros Hfree Hrun.
  assert (sys_inv w requests s) as Hinv.
  { pose proof (inv_start w requests Hfree) as H0inv. revert H0inv.
    induction Hrun as [|s1 s2 s3 Hs _ IH]; [done|]. intros H1inv. apply IH. by eapply inv_step. }
  split; [|split; [by eapply inv_acc|split; [by eapply inv_progress|]]].
  - intros i j p q Hi Hj Hp Hq. pose proof (inv_mutex _ _ _ Hinv) as Hmu.
    apply (one_inside (procs s) i j p q); [rewrite Hmu; case_match; lia|done|done| |].
    + revert Hp. unfold busy. by destruct (pc p).
    + revert Hq. unfold busy. by destruct (pc q).
  - intros Hfin. unfold finished in Hfin. split; [|split].
    + pose proof (inv_answers _ _ _ Hinv) as Ha. clear -Ha Hfin.
      induction Ha as [|l p ls ps Hlp _ IH]; [constructor|]. apply Forall_cons in Hfin as [[Ht _] Hf].
      constructor; [cbn in Hlp; rewrite Ht in Hlp; exact Hlp|auto].
    + pose proof (inv_mutex _ _ _ Hinv) as Hmu. destruct (scc2_test_mutex (glob (sys_world s))); [|done].
      assert (sum_list_with busy (procs s) = 0%nat) as Hz; [|by rewrite Hz in Hmu].
      clear -Hfin. induction Hfin as [|p ps [_ Hp] _ IH]; simpl; [done|]. unfold busy at 1. by rewrite Hp, IH.
    + apply (inv_mem _ _ _ Hinv).
Qed.

(** The three steps of one process in a row are the handler. *)
Lemma ioctl_is_three_steps cmd arg rest ans w r w' :
  scc2_test_ioctl cmd arg w = (Ret r, w') ->
  rtc step (mkSystem w [mkProcess ((cmd, arg) :: rest) Outside ans])
           (mkSystem w' [mkProcess rest Outside (r :: ans)]).
Proof.
  unfold scc2_test_ioctl. destruct (mutex_lock w) as [[[]| | |] w1] eqn:Hlock;
    unfold mbind, M_bind in *; rewrite Hlock; try done.
  destruct (ioctl_body cmd arg w1) as [[r1| | |] w2] eqn:Hbody; try done. cbn. intros [= <- <-].
  eapply rtc_l; [by eapply (step_lock _ _ _ 0)|]. eapply rtc_l; [by eapply (step_run _ _ _ 0)|].
  eapply rtc_l; [by eapply (step_unlock _ _ _ 0)|]. apply rtc_refl.
Qed.
(** ** Loading and unloading *)
Lemma scc2_setup_wp (DEBUG : bool) U (Q : Z -> W -> Prop) E w :
  let same (g : globals) := stray (scc2_reg g) = stray (scc2_reg (glob w)) /\
    scc2_test_mutex g = scc2_test_mutex (glob w) in
  (forall m g l, m ∉ (chrdevs (kern w)).*1 ->
     (scc2_test_major_node (glob w) <> 0 -> m = scc2_test_major_node (glob w)) ->
     live (scc2_reg g) = Some m -> same g ->
     Q 0 (mkWorld (set_chrdevs (cons (m, SCC2_TEST_DRIVER_NAME)) (asked (kern w))) (dev w) g l)) ->
  (forall code g l, code <> 0 -> live (scc2_reg g) = live (scc2_reg (glob w)) -> same g ->
     Q code (mkWorld (asked (kern w)) (dev w) g l)) ->
  wpu U (setup_user_driver_interaction DEBUG) Q E w.
Proof.
  intros same Hok Hbad. unfold setup_user_driver_interaction, pr_debug, getg.
  apply wp_bind. do 4 (apply wp_modify, wp_bind). apply wp_gets, wp_bind, wp_complete; cbn.
  - intros m Hfresh _ Hm. apply wp_bind. destruct (_ =? 0).
    + apply wp_modify, wp_bind, wp_gets, wp_bind, wp_debugk. intros l. by apply wp_ret, Hok.
    + apply wp_skip, wp_bind, wp_gets, wp_bind, wp_debugk. intros l. by apply wp_ret, Hok.
  - intros code Hc. rewrite (proj2 (Z.eqb_neq _ _) Hc). apply wp_bind, wp_printk, wp_ret. by apply Hbad.
Qed.
Lemma scc2_cleanup_wp (DEBUG : bool) U (Q : unit -> W -> Prop) E w :
  (forall g l, live (scc2_reg g) = None -> scc2_test_mutex g = scc2_test_mutex (glob w) ->
     stray (scc2_reg g) = match live (scc2_reg (glob w)) with Some _ => stray (scc2_reg (glob w)) | None => S (stray (scc2_reg (glob w))) end ->
     Q tt (mkWorld (match live (scc2_reg (glob w)) with Some m => set_chrdevs (drop_key m) (kern w) | None => kern w end) (dev w) g l)) ->
  wpu U (scc2_test_cleanup DEBUG) Q E w.
Proof.
  intros HQ. unfold scc2_test_cleanup, pr_debug. apply wp_bind, wp_remove_registration, wp_debugk. intros l.
  by apply HQ.
Qed.
(** Loading registers the device under a number nobody had, or fails and
    registers nothing; what unloading takes back is what loading registered.
    After a failure the registration, of which there is none, is removed once
    by loading itself. *)
Theorem scc2_load_unload (DEBUG : bool) E w :
  live (scc2_reg (glob w)) = None ->
  wp (r ← scc2_test_init DEBUG;
      mid ← gets (fun w => chrdevs (kern w));
      when (r =? 0) (scc2_test_cleanup DEBUG);;
      mret (r, mid))
    (fun '(r, mid) w' =>
       let cs := chrdevs (kern w) in
       (r = 0 -> (exists m, (m ∉ cs.*1) /\ mid = (m, SCC2_TEST_DRIVER_NAME) :: cs /\
            (scc2_test_major_node (glob w) <> 0 -> m = scc2_test_major_node (glob w))) /\
          stray (scc2_reg (glob w')) = stray (scc2_reg (glob w))) /\
       (r <> 0 -> mid = cs /\ stray (scc2_reg (glob w')) = S (stray (scc2_reg (glob w)))) /\
       chrdevs (kern w') = cs /\ kmem (kern w') = kmem (kern w) /\ live (scc2_reg (glob w')) = None /\
       scc2_test_mutex (glob w') = scc2_test_mutex (glob w)) E w.
Proof.
  intros Hlive. unfold scc2_test_init, getg, setg.
  apply wp_bind, wp_bind, wp_modify, wp_bind, wp_drv. destruct (scc_read_register SMN_STATUS_REG 0 _) as [[ec st] d].
  cbn [fst snd]. apply wp_bind. destruct (Z.eqb_spec ec 0) as [->|Hec].
  - apply wp_bind, scc2_setup_wp; cbn.
    + intros m g l Hfresh Hm Hl [Hs Hx]. apply wp_bind. case_match; apply wp_printk, wp_ret, wp_bind, wp_drv; cbn;
        apply wp_bind, wp_skip, wp_ret, wp_bind, wp_gets, wp_bind, scc2_cleanup_wp; intros g' l' Hl' Hx' Hs'; cbn in *;
        rewrite Hl in Hs' |- *; cbn; rewrite drop_key_cons by done; split_and!; try congruence; eauto 6 with congruence.
    + intros code g l Hc Hl [Hs Hx]. rewrite (proj2 (Z.eqb_neq _ _) Hc). apply wp_bind, wp_skip, wp_ret, wp_bind, wp_drv, wp_bind.
      rewrite truth_true by done. apply scc2_cleanup_wp. intros g' l' Hl' Hx' Hs'; cbn in *.
      rewrite Hl, Hlive in Hs' |- *. apply wp_bind, wp_gets, wp_bind. rewrite (proj2 (Z.eqb_neq _ _) Hc).
      apply wp_skip. cbn. split_and!; first [done|congruence|by split; congruence].
  - apply wp_bind, wp_printk, wp_ret, wp_bind, wp_drv, wp_bind. rewrite truth_true by done. apply scc2_cleanup_wp.
    intros g' l' Hl' Hx' Hs'; cbn in *. rewrite Hlive in Hs' |- *. apply wp_bind, wp_gets, wp_bind.
    rewrite (proj2 (Z.eqb_neq _ _) Hec). apply wp_skip. cbn. split_and!; first [done|congruence|by split; congruence].
Qed.
End Spec.

(** ** The theorems at work *)
Section Witnesses.
(** A controller with one mapped partition of 256 bytes. *)
Definition in_part (p n : Z) : bool := (0x100000 <=? p) && (0 <=? n) && (p + n <=? 0x100100).
#[local] Instance toy_scc2 : Scc2Driver (gmap Z Z) := {|
  SMN_STATUS_REG := 8; SMN_STATUS_STATE_MASK := 0x1f; SMN_STATE_FAIL := 9; SCC_CYPHER_MODE_CBC := 1;
  scc_get_configuration := replicate 28 1;
  scc_read_register off _ d := ((0, off), d);
  scc_write_register off v d := (0, d);
  scc_allocate_partition smid _ d := ((0, (3, 0x100000, 0x7800000)), d);
  scc_engage_partition p umid perm d := (0, d);
  scc_release_partition p d := (0, d);
  scc_encrypt_region b off n iv mode d := ((0, map (fun x => u8 (x + 1)) (take (Z.to_nat n) (replicate 4 65))), d);
  scc_decrypt_region b off n black iv mode d := (0, d);
  part_read p n d :=
    let l := uread d p (Z.to_nat n) in if in_part p n && (zlen l =? n) then Some l else None;
  part_write p l d := if in_part p (zlen l) then Some (uput d p l) else None;
  scc_set_sw_alarm d := d;
  scc_monitor_security_failure d := d;
|}.
#[local] Instance toy_scc2_laws : Scc2DriverLaws (gmap Z Z).
Proof.
  split; cbn.
  - intros b off n iv mode d Hn. rewrite length_map, length_take. lia.
  - intros p l d d'. destruct (in_part p (zlen l)) eqn:Hr; [|done]. intros [= <-].
    by rewrite Nat2Z.id, uread_uput, Z.eqb_refl.
Qed.

Definition struct_bytes (l : list (nat * Z)) : list Z := concat (map (fun x => to_le x.1 x.2) l).
Definition demo (user : gmap Z Z) : world (gmap Z Z) globals :=
  mkWorld (booted user) ∅ scc2_globals [].
#[local] Instance K : Kernel := sim sim_ok.

(** Four bytes of the partition, encrypted to 0x3000. *)
Definition demo_request (addr : Z) : list Z := struct_bytes
  [(4%nat, 0x100000); (4%nat, 16); (4%nat, addr); (4%nat, 4); (8%nat, 99); (4%nat, 5); (4%nat, 0)].
Definition demo_world : world (gmap Z Z) globals :=
  demo (uput (uput (uput (user_at 0x1000 (demo_request 0x2000)) 0x1100 (demo_request 0x3000))
    0x2000 [1; 2; 3; 4]) 0x3000 (replicate 4 0)).

Lemma part_encryption_delivers_witness :
  wp (scc2_test_ioctl SCC2_TEST_ENCRYPT_PART 0x1100) (fun r w' =>
    r = 0 /\ kmem (kern w') = ∅ /\ dev w' = ∅ /\ scc2_test_mutex (glob w') = false /\
    ubytes (kern w') = uput (uput (ubytes (kern demo_world)) 0x3000 [66; 66; 66; 66]) 0x1100
      (set scc_part_cipher_access "scc_status" 0 (demo_request 0x3000))) (fun _ _ => False) demo_world.
Proof.
  apply (@part_encryption_delivers K (sim_laws sim_ok) _ _ toy_scc2_laws 0x1100 (demo_request 0x3000)
    0 [66; 66; 66; 66] ∅ (fun _ _ => False) demo_world); by vm_compute.
Defined.

Lemma load_read_roundtrip_witness :
  wp (a ← scc2_test_ioctl SCC2_TEST_LOAD_PART 0x1000; b ← scc2_test_ioctl SCC2_TEST_READ_PART 0x1100;
      mret (a, b))
    (fun r w' => r = (0, 0) /\ dev w' = uput ∅ 0x100010 [1; 2; 3; 4] /\ kmem (kern w') = ∅ /\
       ubytes (kern w') = uput (ubytes (kern demo_world)) 0x3000 [1; 2; 3; 4]) (fun _ _ => False) demo_world.
Proof.
  apply (@load_read_roundtrip K _ _ toy_scc2_laws 0x1000 0x1100 (demo_request 0x2000)
    (demo_request 0x3000) [1; 2; 3; 4] (uput ∅ 0x100010 [1; 2; 3; 4]) (fun _ _ => False) demo_world);
    by vm_compute.
Defined.

(** Two processes, one with two requests; the second has entered. *)
Definition demo_requests : list (list (Z * Z)) :=
  [[(SCC2_TEST_SET_ALARM, 0); (SCC2_TEST_ENCRYPT_PART, 0x1100)]; [(SCC2_TEST_GET_CONFIGURATION, 0x3000)]].
Definition demo_system : system :=
  mkSystem (set_glob (set_mutex true scc2_globals) demo_world)
    [mkProcess [(SCC2_TEST_SET_ALARM, 0); (SCC2_TEST_ENCRYPT_PART, 0x1100)] Outside [];
     mkProcess [(SCC2_TEST_GET_CONFIGURATION, 0x3000)] Entered []].

Lemma scc2_requests_complete_witness :
  Acc (flip step) demo_system /\ (finished demo_system \/ (exists s', step demo_system s') \/ gone_astray demo_system).
Proof.
  assert (rtc step (start demo_world demo_requests) demo_system) as Hrun.
  { eapply rtc_l; [eapply (step_lock _ _ _ 1); done|]. apply rtc_refl. }
  destruct (@scc2_requests_complete K (sim_laws sim_ok) _ _ toy_scc2_laws demo_world demo_requests
    demo_system) as (_ & Hacc & Hgo & _); [done|done|]. done.
Defined.
End Witnesses.
