(* ===== verification/SocCheck.v ===== *)
(** * The processor check of the unit tests

    [src/include/soc_check.h]: the programs under [src/test] that exist for
    some processors only compare the name the kernel reports in
    [/sys/devices/soc0/soc_id] with a list that ends with a string beginning
    with a blank.  Walking past the end of a list without one is undefined:
    [None]. *)
From S2P Require Import Prelude CInt CStr.
From stdpp Require Import list strings.
From Stdlib Require String.

Definition LEN : nat := 10.
Definition NUL : ascii := "000"%char.
Definition newline : ascii := "010"%char.

(** The C string at the start of an array. *)
Fixpoint c_string (l : list ascii) : string :=
  match l with
  | [] => EmptyString
  | c :: l => if Ascii.eqb c NUL then EmptyString else String c (c_string l)
  end.
(** [**list == ' ']. *)
Definition is_end (s : string) : bool :=
  match s with String c _ => Ascii.eqb c " "%char | EmptyString => false end.

(** The loop: the list from the entry where it stops. *)
Fixpoint search (name : string) (l : list string) : option (list string) :=
  match l with
  | [] => None
  | x :: r => if is_end x then Some l else if streq name x then Some l else search name r
  end.

(** [soc_id] is the content of the file, if it can be opened. *)
Definition soc_version_check (soc_id : option (list ascii)) (soc_name : list string) : option bool :=
  match soc_id with
  | None => Some false
  | Some content =>
      let ret := Nat.min LEN (length content) in
      if (ret =? 0)%nat then Some false
      else
        let name := c_string (<[(ret - 1)%nat := NUL]> (take LEN content)) in
        match search name soc_name with
        | Some (x :: _) => Some (negb (is_end x))
        | _ => None
        end
  end.

(** ** What it decides *)
Definition has_no_nul (s : string) : Prop := NUL ∉ String.list_ascii_of_string s.

Fixpoint front (n : nat) (s : string) : string :=
  match n, s with
  | S n, String c s => String c (front n s)
  | _, _ => EmptyString
  end.
Lemma front_all n s : (String.length s <= n)%nat -> front n s = s.
Proof.
  revert s. induction n as [|n IH]; intros [|c s] Hn; simpl in *; try done; [lia|].
  rewrite IH by lia. done.
Qed.

Lemma c_string_front n s r :
  has_no_nul s -> c_string (take n (String.list_ascii_of_string s) ++ NUL :: r) = front n s.
Proof.
  unfold has_no_nul. revert n. induction s as [|c s IH]; intros [|n] Hs; simpl in *; try done.
  apply not_elem_of_cons in Hs as [Hc Hs].
  destruct (Ascii.eqb_spec c NUL) as [->|_]; [done|]. by rewrite IH.
Qed.

Lemma search_names name names e rest :
  Forall (fun x => is_end x = false) names -> is_end e = true ->
  exists x r, search name (names ++ e :: rest) = Some (x :: r) /\
    negb (is_end x) = bool_decide (name ∈ names).
Proof.
  intros Hn He. induction Hn as [|x l Hx _ IH]; simpl.
  - rewrite He. exists e, rest. by rewrite He.
  - rewrite Hx. unfold streq. destruct (String.eqb_spec name x) as [->|Hne].
    + exists x, (l ++ e :: rest). rewrite Hx, bool_decide_eq_true_2 by by left. done.
    + destruct IH as (y & r & -> & Hy). exists y, r. split; [done|]. rewrite Hy.
      apply bool_decide_ext. rewrite elem_of_cons. split; [by right|by intros [?|?]].
Qed.

Lemma terminate_last (l : list ascii) (y z : ascii) :
  <[(Nat.min LEN (length (l ++ [y])) - 1)%nat := z]> (take LEN (l ++ [y])) = take 9 l ++ [z].
Proof.
  rewrite length_app. simpl length. unfold LEN. destruct (decide (length l <= 9)%nat) as [Hl|Hl].
  - rewrite !take_ge by (rewrite ?length_app; simpl; lia).
    replace (Nat.min 10 (length l + 1) - 1)%nat with (length l + 0)%nat by lia.
    by rewrite insert_app_r.
  - replace (Nat.min 10 (length l + 1) - 1)%nat with 9%nat by lia.
    rewrite take_app_le by lia. destruct (lookup_lt_is_Some_2 l 9 ltac:(lia)) as [c Hc].
    rewrite (take_S_r l 9 c Hc). replace 9%nat with (length (take 9 l) + 0)%nat at 1
      by (rewrite length_take; lia). by rewrite insert_app_r.
Qed.

(** C37: On a list that ends as it should, the check is defined and says whether
    the first nine characters of the processor's name are in the list before
    its end; of a name of nine characters or fewer nothing is cut. *)
Theorem soc_check_decides id names e rest :
  has_no_nul id -> Forall (fun x => is_end x = false) names -> is_end e = true ->
  soc_version_check (Some (String.list_ascii_of_string id ++ [newline])) (names ++ e :: rest) =
    Some (bool_decide (front 9 id ∈ names)) /\
  ((String.length id <= 9)%nat -> front 9 id = id).
Proof.
  intros Hid Hn He. split; [|apply front_all]. unfold soc_version_check.
  destruct (Nat.eqb_spec (Nat.min LEN (length (String.list_ascii_of_string id ++ [newline]))) 0) as [H0|_].
  { rewrite length_app in H0. unfold LEN in H0. cbn [length] in H0. lia. }
  rewrite terminate_last, c_string_front by done.
  destruct (search_names (front 9 id) names e rest Hn He) as (x & r & -> & Hx). by rewrite Hx.
Qed.

Lemma soc_check_decides_witness :
  soc_version_check (Some (String.list_ascii_of_string "i.MX6QP" ++ [newline])) (["i.MX6Q"; "i.MX6QP"] ++ " " :: []) =
    Some true /\ ((String.length "i.MX6QP" <= 9)%nat -> front 9 "i.MX6QP" = "i.MX6QP").
Proof.
  apply (soc_check_decides "i.MX6QP" ["i.MX6Q"; "i.MX6QP"] " " []); [|by repeat constructor|done].
  unfold has_no_nul. simpl. rewrite !not_elem_of_cons. split_and!; try done. apply not_elem_of_nil.
Defined.

(** A list without an end is walked past. *)
Lemma unterminated_list_undef :
  soc_version_check (Some (String.list_ascii_of_string "i.MX53" ++ [newline])) ["i.MX6Q"; "i.MX6DL"] = None.
Proof. reflexivity. Qed.
