(* ===== verification/Dptc.v ===== *)
(** * The messages of the DPTC daemon

    [src/include/dptc_daemon.h]: the commands and the fixed part of a message
    between the daemon and its front end, and the answers the daemon gives.
    The daemon itself is not in the repository. *)
From S2P Require Import Prelude CInt CStruct.

Inductive cmd_type_e :=
  | ENABLE_DPTC | DISABLE_DPTC | WRITE_TABLE | READ_TABLE | SET_FREQ | GET_FREQ | GET_STATE | GET_LOG
  | QUIT | ACK | NACK.
#[export] Instance cmd_type_e_eq_dec : EqDecision cmd_type_e.
Proof. solve_decision. Defined.
Definition cmd_value (c : cmd_type_e) : Z :=
  match c with
  | ENABLE_DPTC => 0 | DISABLE_DPTC => 1 | WRITE_TABLE => 2 | READ_TABLE => 3 | SET_FREQ => 4
  | GET_FREQ => 5 | GET_STATE => 6 | GET_LOG => 7 | QUIT => 8 | ACK => 98 | NACK => 99
  end.

Definition connection_param_s : cstruct := struct [("socket", Tint); ("dptc_fd", Tint); ("log_fd", Tint)].
Definition command_msg_s : cstruct := struct [("cmd", Tenum); ("param", Tint); ("size", Tint)].
Definition return_values_s : cstruct := struct
  [("ret_msg.cmd", Tenum); ("ret_msg.param", Tint); ("ret_msg.size", Tint); ("data", Tptr)].

Definition DEFAULT_PORT_NUMBER : Z := 3532.
Definition BACKLOG : Z := 10.
Definition MAX_NUM_OF_FREQS : Z := 50.
Definition MAX_NUM_OF_WP : Z := 50.
Definition INVALED_VALUE_ERR : Z := -1.
Definition DRIVER_ACCESS_ERR : Z := -2.
Definition INVLID_DRIVER_VALS_ERR : Z := -3.
Definition MEM_ALLOC_ERR : Z := -4.

(** The commands are told apart, and fit the four bytes of a message. *)
Lemma cmd_value_inj a b : cmd_value a = cmd_value b -> a = b.
Proof. by destruct a, b. Qed.
Lemma message_sizes :
  sizeof connection_param_s = 12%nat /\ sizeof command_msg_s = 12%nat /\ sizeof return_values_s = 16%nat.
Proof. done. Qed.
