(* ===== verification/UserProc.v ===== *)
(** * A process

    A test program that drives a module of this repository: its memory is the
    user memory of the kernel's record, so the module reads and writes the
    program's structures and buffers; [vars] are its own variables.  System
    calls run the module's entry points; the C library's part is what the
    programs use of it: [perror], [calloc], [malloc], hexadecimal [sscanf]. *)
From S2P Require Import Prelude CInt CMonad CStr CStruct Kernel.
Open Scope Z_scope.

(** ** State: the kernel with the module, and the process *)
Record proc (D G V : Type) := mkProc {
  kside : world D G;
  vars : V;
  errno : Z;
  allocs : nat;                      (* allocations so far *)
  stdout : list print;
  stderr : list print;
}.
Arguments mkProc {D G V}.
Arguments kside {D G V}.
Arguments vars {D G V}.
Arguments errno {D G V}.
Arguments allocs {D G V}.
Arguments stdout {D G V}.
Arguments stderr {D G V}.

#[export] Instance proc_output {D G V} : Output (proc D G V).
Proof.
  refine {| log p := stdout p;
    emit x p := mkProc (kside p) (vars p) (errno p) (allocs p) (x :: stdout p) (stderr p) |}.
  done.
Defined.

Section Setters.
Context {D G V : Type}.
Implicit Types p : proc D G V.
Definition set_kside (w : world D G) p := mkProc w (vars p) (errno p) (allocs p) (stdout p) (stderr p).
Definition set_vars (f : V -> V) p := mkProc (kside p) (f (vars p)) (errno p) (allocs p) (stdout p) (stderr p).
Definition set_errno (e : Z) p := mkProc (kside p) (vars p) e (allocs p) (stdout p) (stderr p).
Definition alloced p := mkProc (kside p) (vars p) (errno p) (S (allocs p)) (stdout p) (stderr p).
Definition emit_err (x : print) p := mkProc (kside p) (vars p) (errno p) (allocs p) (stdout p) (x :: stderr p).
End Setters.

(** ** Parsing numbers: [%x] of [sscanf], and what is left *)
Definition bare_0x (s : string) : bool :=
  match s with String "0" (String x _) => (chr x =? 120) || (chr x =? 88) | _ => false end.
Definition scan_x (w : Z) (s : string) : option (Z * string) :=
  let '(neg, r) := sign_of (skip_space s) in
  let r' := drop_0x 16 r in
  let '(v, rest) := digits 16 0 r' in
  if streq rest r' || (streq r' r && bare_0x r) then None
  else Some (if 2 ^ w <=? v then 2 ^ w - 1 else if neg : bool then wrap w (- v) else v, rest).
Definition scan_hex : string -> option (Z * string) := scan_x 32.
(** [%d] into an unsigned variable. *)
Definition scan_dec (s : string) : option (Z * string) :=
  let '(neg, r) := sign_of (skip_space s) in
  let '(v, rest) := digits 10 0 r in
  if streq rest r then None
  else
    let z := if neg : bool then - v else v in
    Some (u32 (if z <? - 2 ^ 31 then - 2 ^ 31 else if 2 ^ 31 <=? z then 2 ^ 31 - 1 else z), rest).
(** [%s]: up to white space. *)
Fixpoint token (s : string) : string :=
  match s with
  | EmptyString => EmptyString
  | String c r => if isspace c then EmptyString else String c (token r)
  end.
(** ["%x:%x"] *)
Definition scan_hex_pair (s : string) : option (Z * Z) :=
  match scan_hex s with
  | Some (a, String ":" rest) => match scan_hex rest with Some (b, _) => Some (a, b) | None => None end
  | _ => None
  end.

Section Calls.
Context `{Kernel} {D G V : Type}.
Abbreviation P := (proc D G V).
(** What memory holds before it is set; where [calloc] and [malloc] find
    memory and what it holds. *)
Context (junk : list Z) (o_alloc : nat -> Z -> option (Z * list Z)).

Definition getv {A} (f : V -> A) : M P A := gets (fun p => f (vars p)).
Definition setv (f : V -> V) : M P unit := modify (set_vars f).
Definition fprintf_stderr (f : string) (a : list parg) : M P unit := modify (emit_err (Printf f a)).
(** [%m] stands for the text of [errno]. *)
Definition perror (s : string) : M P unit :=
  e ← gets errno; fprintf_stderr "%s: %m\n" [AStr s; AInt e].

(** ** System calls *)
Definition lift {A} (m : M (world D G) A) : M P A := fun p =>
  let '(r, w) := m (kside p) in (r, set_kside w p).
(** A negative result of the module is the error number. *)
Definition syscall (m : M (world D G) Z) : M P Z :=
  r ← lift m;
  if r <? 0 then modify (set_errno (- r));; mret (-1) else mret r.

(** ** Memory of the process *)
Definition store (q : Z) (l : list Z) : M P unit :=
  lift (modify (set_kern (set_ubytes (fun m => uput m q l)))).
Definition load (q : Z) (n : nat) : M P (list Z) :=
  l ← lift (gets (fun w => uread (ubytes (kern w)) q n));
  if (length l =? n)%nat then mret l else undef.
(** A structure on the stack: its bytes before it is set. *)
Definition fresh (T : cstruct) : list Z := take (sizeof T) (junk ++ replicate (sizeof T) 0).
(** [p->x] and [p->x = v] for a structure at [p]. *)
Definition field (T : cstruct) (p : Z) (x : string) : M P Z :=
  s ← load p (sizeof T); mret (get T x s).
Definition assign (T : cstruct) (p : Z) (x : string) (v : Z) : M P unit :=
  s ← load p (sizeof T); store p (set T x v s).
(** A variable that may not have been set. *)
Definition value_of {A} (v : option A) : M P A := match v with Some a => mret a | None => undef end.
Definition malloc (n : Z) : M P (option Z) :=
  i ← gets allocs;
  modify alloced;;
  match o_alloc i n with
  | Some (q, bs) => store q (take (Z.to_nat n) (bs ++ replicate (Z.to_nat n) 0));; mret (Some q)
  | None => mret None
  end.
Definition calloc (n : Z) : M P (option Z) :=
  i ← gets allocs;
  modify alloced;;
  match o_alloc i n with
  | Some (q, _) => store q (replicate (Z.to_nat n) 0);; mret (Some q)
  | None => mret None
  end.
End Calls.

(** ** User memory that was written *)
Section Memory.
Context `{Kernel}.
Implicit Types (m : gmap Z Z) (l : list Z).

Lemma room_read m p n :
  length (uread m p n) = n -> (forall i, p <= i < p + Z.of_nat n -> writable i = true) -> room m p n = n.
Proof.
  revert p. induction n as [|n IH]; intros p Hl Hw; [done|]. cbn [uread room] in *.
  destruct (m !! p) as [b|]; [|done]. cbn [length] in Hl. rewrite Hw by lia. f_equal. apply IH; [lia|].
  intros i Hi. apply Hw. lia.
Qed.
Lemma fits_read m p n :
  access_ok p (Z.of_nat n) = true -> length (uread m p n) = n ->
  (forall i, p <= i < p + Z.of_nat n -> writable i = true) -> fits m p n = n.
Proof. intros Ha Hl Hw. unfold fits. rewrite Ha. by apply room_read. Qed.
Lemma from_user_read m p l :
  access_ok p (zlen l) = true -> uread m p (length l) = l -> from_user m p (zlen l) = (l, 0).
Proof.
  intros Ha Hl. unfold from_user. rewrite Ha, Nat2Z.id, Hl, Nat.sub_diag. cbn [replicate].
  by rewrite app_nil_r, Z.sub_diag.
Qed.
Lemma uread_tail m p b l : uread m p (S (length l)) = b :: l -> m !! p = Some b /\ uread m (p + 1) (length l) = l.
Proof. cbn [uread]. destruct (m !! p); [|done]. by intros [= -> ->]. Qed.
(** [n] bytes the kernel may write. *)
Definition user_block (q n : Z) : Prop :=
  access_ok q n = true /\ forall i, q <= i < q + n -> writable i = true.
(** [l] lies at [p]. *)
Definition mem_at m p l : Prop := uread m p (length l) = l.
Lemma mem_at_uput m p l : mem_at (uput m p l) p l.
Proof. apply uread_uput. Qed.
Lemma mem_at_uput_ne m p l q l' :
  q + zlen l' <= p \/ p + zlen l <= q -> mem_at m q l' -> mem_at (uput m p l) q l'.
Proof. intros Hd Hm. unfold mem_at. by rewrite uread_uput_ne by lia. Qed.
Lemma mem_at_cons m p b l : mem_at m p (b :: l) <-> m !! p = Some b /\ mem_at m (p + 1) l.
Proof.
  unfold mem_at. split; [apply uread_tail|]. intros [Hb Hl]. cbn [length uread]. by rewrite Hb, Hl.
Qed.
Lemma mem_at_app m p l l' : mem_at m p (l ++ l') <-> mem_at m p l /\ mem_at m (p + zlen l) l'.
Proof.
  revert p. induction l as [|b l IH]; intros p.
  - cbn [app length]. rewrite Z.add_0_r. split; [by split|by intros [_ ?]].
  - cbn [app length]. rewrite !mem_at_cons, IH. replace (p + Z.of_nat (S (length l))) with (p + 1 + zlen l) by lia.
    tauto.
Qed.
(** A part of what lies there. *)
Lemma mem_at_part m p l i n :
  mem_at m p l -> (i + n <= length l)%nat -> uread m (p + Z.of_nat i) n = take n (drop i l).
Proof.
  intros Hm Hl. rewrite <- (take_drop i l), mem_at_app in Hm. destruct Hm as [_ Hm].
  rewrite length_take_le in Hm by lia. rewrite <- (take_drop n (drop i l)), mem_at_app in Hm.
  destruct Hm as [Hm _]. unfold mem_at in Hm. by rewrite length_take_le in Hm by (rewrite length_drop; lia).
Qed.
(** Writing over the beginning. *)
Lemma mem_at_poke m p l l' :
  mem_at m p l -> (length l' <= length l)%nat -> mem_at (uput m p l') p (poke 0 l' l).
Proof.
  intros Hm Hl. unfold poke. cbn [Nat.add]. rewrite take_0. cbn [app]. apply mem_at_app.
  split; [apply mem_at_uput|]. apply mem_at_uput_ne; [rewrite length_drop; lia|].
  rewrite <- (take_drop (length l') l), mem_at_app in Hm. destruct Hm as [_ Hm].
  by rewrite length_take_le in Hm by lia.
Qed.
Lemma mem_at_fits m p l :
  mem_at m p l -> user_block p (zlen l) -> fits m p (length l) = length l.
Proof. intros Hm [Ha Hw]. apply fits_read; [done| |done]. by rewrite Hm. Qed.
Lemma mem_at_from_user m p l : mem_at m p l -> access_ok p (zlen l) = true -> from_user m p (zlen l) = (l, 0).
Proof. intros Hm Ha. by apply from_user_read. Qed.
Lemma user_block_part q n i k : user_block q n -> 0 <= i -> 0 <= k -> i + k <= n -> user_block (q + i) k.
Proof.
  intros [Ha Hw] Hi Hk Hn. unfold access_ok in *. apply andb_true_iff in Ha as [H0 Hs]. apply Z.leb_le in H0, Hs.
  split; [apply andb_true_iff; split; apply Z.leb_le; lia|]. intros j Hj. apply Hw. lia.
Qed.
Lemma length_fresh junk T : length (fresh junk T) = sizeof T.
Proof. unfold fresh. apply length_take_le. rewrite length_app, length_replicate. lia. Qed.
End Memory.

(** ** Rules *)
Section Rules.
Context `{Kernel} {D G V : Type} (junk : list Z) (o_alloc : nat -> Z -> option (Z * list Z)).
Abbreviation P := (proc D G V).
Implicit Types (p : P) (E : Z -> P -> Prop).

Lemma wp_lift {A} U (m : M (world D G) A) (Q : A -> P -> Prop) E p :
  wpu U m (fun a w => Q a (set_kside w p)) (fun c w => E c (set_kside w p)) (kside p) -> wpu U (lift m) Q E p.
Proof. unfold wpu, lift. by destruct (m (kside p)) as [[] ?]. Qed.
Lemma syscall_wp U m (Q : Z -> P -> Prop) E p :
  wpu U m (fun r w => 0 <= r /\ Q r (set_kside w p)) (fun c w => E c (set_kside w p)) (kside p) ->
  wpu U (syscall m) Q E p.
Proof.
  intros Hm. unfold syscall. apply wp_bind, wp_lift. eapply wp_mono; [exact Hm|].
  intros r w [Hr HQ]. cbv beta. by rewrite (proj2 (Z.ltb_ge _ _) Hr).
Qed.

(** [p] with other user memory. *)
Definition with_ubytes (m : gmap Z Z) p : P := set_kside (set_kern (set_ubytes (fun _ => m)) (kside p)) p.
Lemma wp_store_user U q l (Q : unit -> P -> Prop) E p :
  Q tt (with_ubytes (uput (ubytes (kern (kside p))) q l) p) -> wpu U (store q l) Q E p.
Proof. intros HQ. by apply wp_lift, wp_modify. Qed.
Lemma wp_load U q n l (Q : list Z -> P -> Prop) E p :
  uread (ubytes (kern (kside p))) q n = l -> length l = n -> Q l p -> wpu U (load q n) Q E p.
Proof.
  intros <- Hl HQ. unfold load. apply wp_bind, wp_lift, wp_gets. rewrite Hl, Nat.eqb_refl.
  apply wp_ret. by destruct p.
Qed.

(** The structure at [q] is [s]. *)
Lemma wp_field U T q x s (Q : Z -> P -> Prop) E p :
  mem_at (ubytes (kern (kside p))) q s -> length s = sizeof T -> Q (get T x s) p -> wpu U (field T q x) Q E p.
Proof. intros Hm Hl HQ. unfold field. apply wp_bind. eapply (wp_load _ _ _ s); [rewrite <- Hl; exact Hm|done|]. by apply wp_ret. Qed.
Lemma wp_assign U T q x v s (Q : unit -> P -> Prop) E p :
  mem_at (ubytes (kern (kside p))) q s -> length s = sizeof T ->
  Q tt (with_ubytes (uput (ubytes (kern (kside p))) q (set T x v s)) p) -> wpu U (assign T q x v) Q E p.
Proof.
  intros Hm Hl HQ. unfold assign. apply wp_bind. eapply (wp_load _ _ _ s); [rewrite <- Hl; exact Hm|done|]. by apply wp_store_user.
Qed.
Lemma wp_load_at U q i l (Q : list Z -> P -> Prop) E p b :
  mem_at (ubytes (kern (kside p))) q l -> l !! i = Some b -> Q [b] p ->
  wpu U (load (q + Z.of_nat i) 1) Q E p.
Proof.
  intros Hm Hb HQ. pose proof (lookup_lt_Some _ _ _ Hb). apply (wp_load _ _ _ [b]); [|done|exact HQ].
  rewrite (mem_at_part _ _ l) by (done || lia). rewrite (drop_S _ _ _ Hb). done.
Qed.
(** A system call, whatever it returns. *)
Lemma syscall_cases U m (Q : Z -> P -> Prop) E p :
  wpu U m (fun r w => (r < 0 -> Q (-1) (set_errno (- r) (set_kside w p))) /\ (0 <= r -> Q r (set_kside w p)))
    (fun c w => E c (set_kside w p)) (kside p) ->
  wpu U (syscall m) Q E p.
Proof.
  intros Hm. unfold syscall. apply wp_bind, wp_lift. eapply wp_mono; [exact Hm|].
  intros r w [Hn Hp]. cbv beta. destruct (Z.ltb_spec r 0).
  - apply wp_bind, wp_modify, wp_ret. auto.
  - apply wp_ret. auto.
Qed.

(** Showing lines. *)
Definition shown (l : list print) p : P :=
  mkProc (kside p) (vars p) (errno p) (allocs p) (rev l ++ stdout p) (stderr p).
Lemma shown_nil p : shown [] p = p.
Proof. by destruct p. Qed.
Lemma shown_cons x l p : shown l (emit x p) = shown (x :: l) p.
Proof. unfold shown. cbn. by rewrite <- app_assoc. Qed.
End Rules.
