(* ===== verification/ShwHelp.v ===== *)
(** * Support functions of the SHW tests

    [src/test/mxc_sahara_test/apihelp.c], which the test suites and the random
    number program are linked with: comparing two byte strings and showing
    where they differ, the names of result codes, the sizes of hashes.  The
    numbers of the codes are defined by the library ([ShwCodes]). *)
From S2P Require Import Prelude CInt CMonad.
From stdpp Require Import list.
Open Scope Z_scope.

Definition MAX_DUMP : Z := 20.

(** ** Result codes *)
Inductive fsl_shw_return_t :=
  | FSL_RETURN_OK_S | FSL_RETURN_ERROR_S | FSL_RETURN_NO_RESOURCE_S | FSL_RETURN_BAD_ALGORITHM_S
  | FSL_RETURN_BAD_MODE_S | FSL_RETURN_BAD_FLAG_S | FSL_RETURN_BAD_KEY_LENGTH_S
  | FSL_RETURN_BAD_KEY_PARITY_S | FSL_RETURN_BAD_DATA_LENGTH_S | FSL_RETURN_AUTH_FAILED_S
  | FSL_RETURN_MEMORY_ERROR_S | FSL_RETURN_INTERNAL_ERROR_S.
Inductive fsl_shw_hash_alg_t :=
  | FSL_HASH_ALG_MD5 | FSL_HASH_ALG_SHA1 | FSL_HASH_ALG_SHA224 | FSL_HASH_ALG_SHA256.
Class ShwCodes := {
  return_code : fsl_shw_return_t -> Z;
  hash_alg : fsl_shw_hash_alg_t -> Z;
}.

Section Codes.
Context `{ShwCodes}.
Definition error_strings : list (fsl_shw_return_t * string) :=
  [(FSL_RETURN_OK_S, "No error"); (FSL_RETURN_ERROR_S, "Error"); (FSL_RETURN_NO_RESOURCE_S, "No resource");
   (FSL_RETURN_BAD_ALGORITHM_S, "Bad algorithm"); (FSL_RETURN_BAD_MODE_S, "Bad mode");
   (FSL_RETURN_BAD_FLAG_S, "Bad flag"); (FSL_RETURN_BAD_KEY_LENGTH_S, "Bad key length");
   (FSL_RETURN_BAD_KEY_PARITY_S, "Bad key parity"); (FSL_RETURN_BAD_DATA_LENGTH_S, "Bad data length");
   (FSL_RETURN_AUTH_FAILED_S, "Authentication failed"); (FSL_RETURN_MEMORY_ERROR_S, "Memory error");
   (FSL_RETURN_INTERNAL_ERROR_S, "Internal error")]%string.
(** A [switch] over codes. *)
Definition switch {A B} (code : A -> Z) (cases : list (A * B)) (other : B) (x : Z) : B :=
  match List.find (fun c => code c.1 =? x) cases with Some (_, b) => b | None => other end.
Definition fsl_error_string (code : Z) : string := switch return_code error_strings "unknown value"%string code.
Definition hash_sizes : list (fsl_shw_hash_alg_t * Z) :=
  [(FSL_HASH_ALG_MD5, 16); (FSL_HASH_ALG_SHA1, 20); (FSL_HASH_ALG_SHA224, 28); (FSL_HASH_ALG_SHA256, 32)].
Definition get_hash_size (alg : Z) : Z := switch hash_alg hash_sizes 1 alg.

(** Every code has its text and its size, as long as the codes differ. *)
Lemma switch_case {A B} (code : A -> Z) (cases : list (A * B)) other a b :
  NoDup (map (fun c => code c.1) cases) -> (a, b) ∈ cases -> switch code cases other (code a) = b.
Proof.
  unfold switch. induction cases as [|[a' b'] cases IH]; intros Hn Hin; [by apply not_elem_of_nil in Hin|].
  cbn [map] in Hn. apply NoDup_cons in Hn as [Hnot Hn]. apply elem_of_cons in Hin as [[= -> ->]|Hin].
  - cbn [List.find fst]. by rewrite Z.eqb_refl.
  - cbn [List.find fst] in *. destruct (Z.eqb_spec (code a') (code a)) as [Heq|]; [|by apply IH].
    destruct Hnot. rewrite Heq. change (code a) with ((fun c : A * B => code c.1) (a, b)).
    by apply list_elem_of_fmap_2.
Qed.
End Codes.

(** ** Comparing *)
Section Compare.
Context {W : Type} `{Output W}.
(** [l[i]]; a read outside the array is undefined. *)
Definition byte_at (l : list Z) (i : Z) : M W Z :=
  match l !! Z.to_nat i with Some b => mret b | None => undef end.
(** The first loop: where it stops. *)
Fixpoint differs_at (n : nat) (model result : list Z) (i : Z) : M W Z :=
  match n with
  | O => mret i
  | S n =>
      a ← byte_at model i;
      b ← byte_at result i;
      if a =? b then differs_at n model result (i + 1) else mret i
  end.
Definition dump (l : list Z) (start_offset dump_count : Z) : M W unit :=
  for_m (Z.to_nat dump_count) start_offset (fun i => b ← byte_at l i; printf "%02x " [AInt b]).

(** The arrays with their addresses, which are printed. *)
Definition compare_result (model_p : Z) (model : list Z) (result_p : Z) (result : list Z) (length_ : Z)
    (name : string) : M W Z :=
  i ← differs_at (Z.to_nat length_) model result 0;
  if negb (i =? length_) then
    let start_offset := if 10 <? i then i - 4 else 0 in
    let dump_count := if MAX_DUMP <? length_ then MAX_DUMP else length_ in
    let dump_count := if length_ <? u32 (start_offset + dump_count) then length_ - start_offset else dump_count in
    printf "Comparison of %s differs at offset %u of %u\n" [AStr name; AInt i; AInt length_];;
    printf "Good: %p (%d) " [AInt model_p; AInt start_offset];;
    dump model start_offset dump_count;;
    printf "\nBad:  %p (%d) " [AInt result_p; AInt start_offset];;
    dump result start_offset dump_count;;
    printf "\n" [];;
    mret 1
  else mret 0.
End Compare.

Section CompareSpec.
Context {W : Type} `{Output W}.
Implicit Types (w : W) (E : Z -> W -> Prop).

Lemma byte_at_eq (l : list Z) i b w : l !! Z.to_nat i = Some b -> byte_at l i w = (Ret b, w).
Proof. unfold byte_at. by intros ->. Qed.
Lemma wp_byte_at (l : list Z) i (Q : Z -> W -> Prop) E w :
  0 <= i < zlen l -> (forall b, l !! Z.to_nat i = Some b -> Q b w) -> wp (byte_at l i) Q E w.
Proof.
  intros Hi HQ. destruct (lookup_lt_is_Some_2 l (Z.to_nat i)) as [b Hb]; [lia|].
  unfold wpu. rewrite (byte_at_eq _ _ _ _ Hb). by apply HQ.
Qed.

Lemma differs_at_wp n (model result : list Z) i (Q : Z -> W -> Prop) E w :
  0 <= i -> i + Z.of_nat n <= zlen model -> i + Z.of_nat n <= zlen result ->
  (forall j, i <= j <= i + Z.of_nat n -> 
     (forall k, i <= k < j -> model !! Z.to_nat k = result !! Z.to_nat k) ->
     (j < i + Z.of_nat n -> model !! Z.to_nat j <> result !! Z.to_nat j) -> Q j w) ->
  wp (differs_at n model result i) Q E w.
Proof.
  revert i. induction n as [|n IH]; intros i Hi Hm Hr HQ; cbn [differs_at].
  - apply wp_ret, HQ; [lia|intros; lia|lia].
  - apply wp_bind, wp_byte_at; [lia|]. intros a Ha. apply wp_bind, wp_byte_at; [lia|]. intros b Hb.
    destruct (Z.eqb_spec a b) as [->|Hne].
    + apply IH; [lia..|]. intros j Hj Hbefore Hat. apply HQ; [lia| |intros; apply Hat; lia].
      intros k Hk. destruct (Z.eq_dec k i) as [->|]; [congruence|]. apply Hbefore. lia.
    + apply wp_ret, HQ; [lia|intros; lia|]. intros _. congruence.
Qed.

Lemma dump_wp (l : list Z) start n (Q : unit -> W -> Prop) E w :
  0 <= start -> 0 <= n -> start + n <= zlen l -> (forall w', Q tt w') -> wp (dump l start n) Q E w.
Proof.
  intros Hs Hn Hl HQ. unfold dump. rewrite <- (Z2Nat.id n) in Hl by done. clear Hn.
  revert start w Hs Hl. induction (Z.to_nat n) as [|m IH]; intros start w Hs Hl; cbn [for_m]; [by apply wp_skip|].
  apply wp_bind, wp_bind, wp_byte_at; [lia|]. intros b _. apply wp_printf, IH; lia.
Qed.

(** The comparison decides whether the first [n] bytes are equal, and what it
    shows of a difference lies inside the arrays. *)
Theorem compare_result_decides p (model : list Z) q result n name w :
  0 <= n < 2 ^ 32 - 20 -> n <= zlen model -> n <= zlen result ->
  wp (compare_result p model q result n name)
    (fun r _ => r = if bool_decide (take (Z.to_nat n) model = take (Z.to_nat n) result) then 0 else 1)
    (fun _ _ => False) w.
Proof.
  intros Hn Hm Hr. unfold compare_result. apply wp_bind, differs_at_wp; [lia|lia|lia|].
  rewrite Z2Nat.id, Z.add_0_l by lia. intros i Hi Hbefore Hat.
  destruct (Z.eqb_spec i n) as [->|Hne]; cbn [negb].
  - apply wp_ret. rewrite bool_decide_eq_true_2; [done|]. apply list_eq. intros k.
    destruct (Nat.lt_ge_cases k (Z.to_nat n)); [|by rewrite !lookup_take_ge].
    rewrite !lookup_take_lt by done. rewrite <- (Nat2Z.id k). apply Hbefore. lia.
  - set (start := if 10 <? i then i - 4 else 0).
    assert (0 <= start /\ start <= i) as [Hs0 Hs] by (unfold start; destruct (Z.ltb_spec 10 i); lia).
    rewrite (wrap_id 32) by (unfold in_uint, MAX_DUMP; simpl in *; destruct (Z.ltb_spec 20 n); lia).
    set (count := if n <? _ then _ else _). assert (0 <= count /\ start + count <= n) as [Hc0 Hc].
    { unfold count, MAX_DUMP. clearbody start.
      destruct (Z.ltb_spec 20 n); [destruct (Z.ltb_spec n (start + 20))|destruct (Z.ltb_spec n (start + n))]; lia. }
    apply wp_bind, wp_printf, wp_bind, wp_printf, wp_bind, dump_wp; [lia|lia|lia|]. intros w1.
    apply wp_bind, wp_printf, wp_bind, dump_wp; [lia|lia|lia|]. intros w2.
    apply wp_bind, wp_printf, wp_ret. rewrite bool_decide_eq_false_2; [done|]. intros Heq.
    apply (Hat ltac:(lia)). apply (f_equal (fun l => l !! Z.to_nat i)) in Heq.
    by rewrite !lookup_take_lt in Heq by lia.
Qed.
End CompareSpec.
