(* ===== verification/RngProgram.v ===== *)
(** * The random number test program

    [src/test/mxc_rng_test/rng_test.c]: a program that asks for random bytes
    and adds entropy, either through the SHW library in its own process or
    through the test module ([Rng]), and reads and writes registers through
    the module.  Its memory is the user memory of the kernel's record, so the
    module reads and writes the program's structures.  [getopt] is represented
    by the sequence of its results; the library of the process is the class
    [UserShw], the registers of the chip the class [RngRegisters]. *)
From S2P Require Import Prelude CInt CMonad CStr CStruct Kernel PortableOs UserProc Rng ShwHelp.
Open Scope Z_scope.

(** The SHW library in the process. *)
Class UserShw (L : Type) := {
  user_uco_init : Z -> L -> L;
  user_register : L -> Z * L;
  user_deregister : L -> L;
  (* the code and the bytes it stores *)
  user_get_random : Z -> L -> (Z * list Z) * L;
  user_add_entropy : list Z -> L -> Z * L;
}.
(** Which generator the program is compiled for, its registers and bits. *)
Class RngRegisters := {
  FSL_HAVE_RNGA : bool;
  RNGA_STATUS : Z; RNGA_CONTROL : Z; RNGC_STATUS : Z; RNGC_CONTROL : Z;
  RNGA_STATUS_OSCILLATOR_DEAD : Z; RNGA_STATUS_ZEROS1_MASK : Z; RNGA_STATUS_ZEROS2_MASK : Z;
  RNGA_STATUS_SLEEP : Z; RNGA_STATUS_ERROR_INTERRUPT : Z; RNGA_STATUS_FIFO_UNDERFLOW : Z;
  RNGA_STATUS_LAST_READ_STATUS : Z; RNGA_STATUS_SECURITY_VIOLATION : Z;
  RNGA_STATUS_OUTPUT_FIFO_SIZE_MASK : Z; RNGA_STATUS_OUTPUT_FIFO_SIZE_SHIFT : Z;
  RNGA_STATUS_OUTPUT_FIFO_LEVEL_MASK : Z; RNGA_STATUS_OUTPUT_FIFO_LEVEL_SHIFT : Z;
  RNGA_CONTROL_ZEROS_MASK : Z; RNGA_CONTROL_SLEEP : Z; RNGA_CONTROL_CLEAR_INTERRUPT : Z;
  RNGA_CONTROL_MASK_INTERRUPTS : Z; RNGA_CONTROL_HIGH_ASSURANCE : Z; RNGA_CONTROL_GO : Z;
  RNGC_STATUS_SEC_STATE : Z; RNGC_STATUS_BUSY : Z; RNGC_STATUS_SLEEP : Z; RNGC_STATUS_RESEED : Z;
  RNGC_STATUS_ST_DONE : Z; RNGC_STATUS_SEED_DONE : Z; RNGC_STATUS_NEXT_SEED_DONE : Z;
  RNGC_STATUS_ERROR : Z; RNGC_STATUS_ST_PF_PRNG : Z; RNGC_STATUS_ST_PF_TRNG : Z;
  RNGC_STATUS_STAT_TEST_PF_MASK : Z; RNGC_STATUS_STAT_TEST_PF_SHIFT : Z;
  RNGC_STATUS_FIFO_LEVEL_MASK : Z; RNGC_STATUS_FIFO_LEVEL_SHIFT : Z;
  RNGC_STATUS_FIFO_SIZE_MASK : Z; RNGC_STATUS_FIFO_SIZE_SHIFT : Z;
  RNGC_CONTROL_AUTO_SEED : Z; RNGC_CONTROL_MASK_DONE : Z; RNGC_CONTROL_MASK_ERROR : Z;
  RNGC_CONTROL_VERIF_MODE : Z; RNGC_CONTROL_CTL_ACC : Z;
}.

(** ** Variables: the library of the process, the [static] flags *)
Record rng_vars (L : Type) := mkVars {
  user_lib : L;
  use_kernel_api : bool;
  fd_inited : bool;
  ctx_inited : bool;
}.
Arguments mkVars {L}.
Arguments user_lib {L}.
Arguments use_kernel_api {L}.
Arguments fd_inited {L}.
Arguments ctx_inited {L}.
Definition prog (D L : Type) : Type := proc D globals (rng_vars L).

Section Setters.
Context {L : Type}.
Implicit Types v : rng_vars L.
Definition set_lib (l : L) v := mkVars l (use_kernel_api v) (fd_inited v) (ctx_inited v).
Definition set_kernel_api v := mkVars (user_lib v) true (fd_inited v) (ctx_inited v).
Definition set_fd_inited v := mkVars (user_lib v) (use_kernel_api v) true (ctx_inited v).
Definition set_ctx_inited v := mkVars (user_lib v) (use_kernel_api v) (fd_inited v) true.
End Setters.

Section Program.
Context `{Kernel} `{PortableOs} {D : Type} `{RngDriver D} (RNG_DEBUG : bool).
Context {L : Type} `{UserShw L} `{ShwCodes} `{RngRegisters}.
Abbreviation P := (proc D globals (rng_vars L)).
(** The number of the open file; where the structure of a request and the
    entropy lie on the stack, and what they hold before they are set; where
    [calloc] finds memory. *)
Context (rngTestFD frame entropy_p : Z) (junk : list Z) (o_alloc : nat -> Z -> option (Z * list Z)).

(** ** System calls *)
Definition open_device : M P Z :=
  r ← lift (rng_test_open rngTestFD);
  if negb (r =? 0) then modify (set_errno (- r));; mret (-1) else mret rngTestFD.
Definition ioctl (cmd arg : Z) : M P Z := syscall (rng_test_ioctl RNG_DEBUG rngTestFD cmd arg).

(** ** Opening, once *)
Definition setup_test_fd : M P unit :=
  inited ← getv fd_inited;
  when (negb inited) (
    fd ← open_device;
    if fd <? 0 then
      perror "Cannot open RNG test device";;
      setv (fun v => set_lib (user_deregister (user_lib v)) v);;
      exit 1
    else setv set_fd_inited).
Definition user_call {A} (f : L -> A * L) : M P A := fun p =>
  let '(a, l) := f (user_lib (vars p)) in (Ret a, set_vars (set_lib l) p).
Definition setup_user_ctx : M P unit :=
  inited ← getv ctx_inited;
  when (negb inited) (
    setv (fun v => set_lib (user_uco_init 10 (user_lib v)) v);;
    code ← user_call user_register;
    if negb (code =? return_code FSL_RETURN_OK_S) then
      printf "fsl_shw_register_user() failed with error: %s\n" [AStr (fsl_error_string code)];;
      exit 1
    else setv set_ctx_inited).

(** ** Random bytes *)
Definition valuesPerLine : Z := 20.
Definition printEntropy (data count : Z) : M P unit :=
  for_m (Z.to_nat count) 0 (fun i =>
    b ← load (data + i) 1;
    printf "%02x " [AInt (of_le b)];;
    when (i mod valuesPerLine =? valuesPerLine - 1) (printf "\n" []));;
  when (truth (count mod valuesPerLine)) (printf "\n" []).

Definition rngGetEntropy (byte_count : Z) : M P unit :=
  when (byte_count <? 0) (fprintf_stderr "Byte count of %d not accepted\n" [AInt byte_count]);;
  entropy ← calloc o_alloc (u32 byte_count);
  match entropy with
  | Some q =>
      store frame (set rng_test_get_random_t "function_return_code" (-1)
        (set rng_test_get_random_t "random" q
          (set rng_test_get_random_t "count_bytes" byte_count (fresh junk rng_test_get_random_t))));;
      printf "Getting random from RNG TEST driver\n" [];;
      error_code ← ioctl RNG_TEST_GET_RANDOM frame;
      if 0 <=? error_code then
        ge ← load frame (sizeof rng_test_get_random_t);
        let code := get rng_test_get_random_t "function_return_code" ge in
        if negb (code =? u32 (return_code FSL_RETURN_OK_S)) then
          fprintf_stderr "Could not read entropy: %s\n" [AStr (fsl_error_string code)]
        else printEntropy q (get rng_test_get_random_t "count_bytes" ge)
      else perror "ioctl() to test device failed."
  | None => fprintf_stderr "Could not get enough memory for entropy\n" []
  end.
Definition rngGetUserEntropy (byte_count : Z) : M P unit :=
  when (byte_count <? 0) (fprintf_stderr "Byte count of %d not accepted\n" [AInt byte_count]);;
  entropy ← calloc o_alloc (u32 byte_count);
  match entropy with
  | Some q =>
      '(code, data) ← user_call (user_get_random (u32 byte_count));
      store q data;;
      if code =? return_code FSL_RETURN_OK_S then printEntropy q (u32 byte_count)
      else fprintf_stderr "Could not read entropy: %s\n" [AStr (fsl_error_string code)]
  | None => fprintf_stderr "Could not get enough memory for entropy\n" []
  end.
Definition rngAddEntropy (entropy : Z) : M P unit :=
  store entropy_p (to_le 4 entropy);;
  store frame (set rng_test_add_entropy_t "entropy" entropy_p
    (set rng_test_add_entropy_t "count_bytes" 4 (fresh junk rng_test_add_entropy_t)));;
  error_code ← ioctl RNG_TEST_ADD_ENTROPY frame;
  when (negb (error_code =? 0)) (
    ae ← load frame (sizeof rng_test_add_entropy_t);
    fprintf_stderr "rng error: %d" [AInt (i32 (get rng_test_add_entropy_t "function_return_code" ae))]).
Definition rngAddUserEntropy (entropy : Z) : M P unit :=
  code ← user_call (user_add_entropy (to_le 4 entropy));
  when (negb (code =? return_code FSL_RETURN_OK_S))
    (fprintf_stderr "Could not read entropy: %s\n" [AStr (fsl_error_string code)]).

(** ** Registers; a value that was not read is [None] *)
Definition readRngRegister (address : Z) : M P (Z * option Z) :=
  store frame (set rng_test_reg_access_t "reg_offset" address (fresh junk rng_test_reg_access_t));;
  errorCode ← ioctl RNG_TEST_READ_REG frame;
  if errorCode <? 0 then
    perror "Could not read register: ";;
    e ← gets errno;
    mret (e, None)
  else
    ra ← load frame (sizeof rng_test_reg_access_t);
    mret (errorCode, Some (get rng_test_reg_access_t "reg_data" ra)).
Definition writeRngRegister (address value : Z) : M P Z :=
  store frame (set rng_test_reg_access_t "reg_data" value
    (set rng_test_reg_access_t "reg_offset" address (fresh junk rng_test_reg_access_t)));;
  errorCode ← ioctl RNG_TEST_WRITE_REG frame;
  if errorCode <? 0 then
    perror "Could not write register: ";;
    gets errno
  else mret 0.

(** ** Printing registers *)
Definition flag (status mask : Z) (text : string) : M P unit :=
  when (truth (Z.land status mask)) (printf text []).
Definition field (status mask : Z) (text : string) : M P unit :=
  when (truth (Z.land status mask)) (printf text [AInt (Z.land status mask)]).
Definition printRngStatusRegister_A (status : Z) : M P unit :=
  printf "RNGA Status: 0x%08x: " [AInt status];;
  flag status RNGA_STATUS_OSCILLATOR_DEAD "OscillatorDead, ";;
  field status RNGA_STATUS_ZEROS1_MASK "zeros1=0x%x, ";;
  field status RNGA_STATUS_ZEROS2_MASK "zeros2=0x%x, ";;
  flag status RNGA_STATUS_SLEEP "Sleeping, ";;
  flag status RNGA_STATUS_ERROR_INTERRUPT "ErrorInterrupt, ";;
  flag status RNGA_STATUS_FIFO_UNDERFLOW "FifoUnderflow, ";;
  flag status RNGA_STATUS_LAST_READ_STATUS "LastReadStatus, ";;
  flag status RNGA_STATUS_SECURITY_VIOLATION "SecurityViolation, ";;
  printf "fifo size: %d, fifo level: %d\n"
    [AInt (Z.shiftr (Z.land status RNGA_STATUS_OUTPUT_FIFO_SIZE_MASK) RNGA_STATUS_OUTPUT_FIFO_SIZE_SHIFT);
     AInt (Z.shiftr (Z.land status RNGA_STATUS_OUTPUT_FIFO_LEVEL_MASK) RNGA_STATUS_OUTPUT_FIFO_LEVEL_SHIFT)].
Definition printRngControlRegister_A (control : Z) : M P unit :=
  printf "RNGA Control: 0x%08x: " [AInt control];;
  field control RNGA_CONTROL_ZEROS_MASK "zeros: 0x%x, ";;
  flag control RNGA_CONTROL_SLEEP "sleep, ";;
  flag control RNGA_CONTROL_CLEAR_INTERRUPT "ClearInterrupt!, ";;
  flag control RNGA_CONTROL_MASK_INTERRUPTS "InterruptsMasked, ";;
  flag control RNGA_CONTROL_HIGH_ASSURANCE "HighAssurance, ";;
  flag control RNGA_CONTROL_GO "Go";;
  printf "\n" [].

Definition RNGCStatusNames : list (Z * string) :=
  [(RNGC_STATUS_SEC_STATE, "SecureState"); (RNGC_STATUS_BUSY, "Busy"); (RNGC_STATUS_SLEEP, "Sleeping");
   (RNGC_STATUS_RESEED, "ReseedRequired"); (RNGC_STATUS_ST_DONE, "SelfTestDone");
   (RNGC_STATUS_SEED_DONE, "SeedDone"); (RNGC_STATUS_NEXT_SEED_DONE, "NextSeedDone");
   (RNGC_STATUS_ERROR, "Error"); (RNGC_STATUS_ST_PF_PRNG, "PRNGSelfTestFail");
   (RNGC_STATUS_ST_PF_TRNG, "TRNGSelfTestFail")]%string.
Definition RNGCControlNames : list (Z * string) :=
  [(RNGC_CONTROL_AUTO_SEED, "AutoSeed"); (RNGC_CONTROL_MASK_DONE, "MaskDone");
   (RNGC_CONTROL_MASK_ERROR, "MaskError"); (RNGC_CONTROL_VERIF_MODE, "VerificationMode");
   (RNGC_CONTROL_CTL_ACC, "ControlAccessMode")]%string.
Definition RNGCSTATUSNAMESLENGTH : nat := length RNGCStatusNames.
Definition RNGCCONTROLNAMESLENGTH : nat := length RNGCStatusNames.
Definition print_names (length_ : nat) (names : list (Z * string)) (status : Z) : M P unit :=
  for_m length_ 0 (fun i =>
    match names !! Z.to_nat i with
    | Some (code, name) => when (truth (Z.land status code)) (printf "%s, " [AStr name])
    | None => undef
    end).
Definition printRngStatusRegister_C (status : Z) : M P unit :=
  printf "RNG Status: 0x%08x: " [AInt status];;
  print_names RNGCSTATUSNAMESLENGTH RNGCStatusNames status;;
  printf "\n" [];;
  printf "SelfTest: 0x%02x\n"
    [AInt (Z.shiftr (Z.land status RNGC_STATUS_STAT_TEST_PF_MASK) RNGC_STATUS_STAT_TEST_PF_SHIFT)];;
  printf "fifo level: %d, fifo size: %d\n"
    [AInt (Z.shiftr (Z.land status RNGC_STATUS_FIFO_LEVEL_MASK) RNGC_STATUS_FIFO_LEVEL_SHIFT);
     AInt (Z.shiftr (Z.land status RNGC_STATUS_FIFO_SIZE_MASK) RNGC_STATUS_FIFO_SIZE_SHIFT)].
Definition printRngControlRegister_C (control : Z) : M P unit :=
  printf "RNG Control: 0x%08x: " [AInt control];;
  print_names RNGCCONTROLNAMESLENGTH RNGCControlNames control;;
  printf "\n" [].
Definition printRngStatusRegister (status : Z) : M P unit :=
  if FSL_HAVE_RNGA then printRngStatusRegister_A status else printRngStatusRegister_C status.
Definition printRngControlRegister (control : Z) : M P unit :=
  if FSL_HAVE_RNGA then printRngControlRegister_A control else printRngControlRegister_C control.

(** ** The command line: the results of [getopt] with their arguments *)
Definition get_entropy (optarg : string) : M P unit :=
  api ← getv use_kernel_api;
  if api : bool then setup_test_fd;; rngGetEntropy (atoi optarg)
  else setup_user_ctx;; rngGetUserEntropy (atoi optarg).
Definition set_option (optarg : string) : M P unit :=
  match optarg with
  | String "b" _ => skip
  | String "k" _ => setv set_kernel_api
  | String c _ => fprintf_stderr "unknown option %c\n" [AInt (chr c)]
  | EmptyString => fprintf_stderr "unknown option %c\n" [AInt 0]
  end.
Definition read_command (optarg : string) : M P unit :=
  match scan_hex optarg with
  | None => fprintf_stderr "improper use of -R %s\n" [AStr optarg]
  | Some (offset, _) =>
      setup_test_fd;;
      '(err, value) ← readRngRegister offset;
      if err =? 0 then
        value ← value_of value;
        printf "0x%05x: %08x\n" [AInt offset; AInt value]
      else perror "Reading register: "
  end.
Definition safe_command : M P unit :=
  setup_test_fd;;
  '(_, status) ← readRngRegister (if FSL_HAVE_RNGA then RNGA_STATUS else RNGC_STATUS);
  '(_, control) ← readRngRegister (if FSL_HAVE_RNGA then RNGA_CONTROL else RNGC_CONTROL);
  status ← value_of status;
  printRngStatusRegister status;;
  control ← value_of control;
  printRngControlRegister control.
Definition write_command (optarg : string) : M P unit :=
  match scan_hex_pair optarg with
  | None => fprintf_stderr "improper use of -W (%s)\n" [AStr optarg]
  | Some (offset, value) =>
      setup_test_fd;;
      err ← writeRngRegister offset value;
      if err =? 0 then
        '(err, read) ← readRngRegister offset;
        if err =? 0 then
          value ← value_of read;
          printf "0x%05x => %08x\n" [AInt offset; AInt value]
        else perror "Reading register after write: "
      else perror "Writing register: "
  end.
Definition entropy_command (optarg : string) : M P unit :=
  match scan_hex optarg with
  | None => fprintf_stderr "improper use of -Z (%s)\n" [AStr optarg]
  | Some (more_entropy, _) =>
      api ← getv use_kernel_api;
      if api : bool then setup_test_fd;; rngAddEntropy more_entropy
      else setup_user_ctx;; rngAddUserEntropy more_entropy
  end.
Definition command (argumentSwitch : ascii) (optarg : string) : M P unit :=
  match argumentSwitch with
  | "E" => get_entropy optarg
  | "O" => set_option optarg
  | "R" => read_command optarg
  | "S" => safe_command
  | "W" => write_command optarg
  | "Z" => entropy_command optarg
  | _ =>
      fprintf_stderr "Usage: rng_test [-E entropybytes] -Zval [-Oswitch] [-S] [-Wreg:val] [-Rreg]]\n" [];;
      exit 1
  end%char.
Fixpoint main (opts : list (ascii * string)) : M P Z :=
  match opts with
  | [] => exit 0
  | (c, optarg) :: opts => command c optarg;; main opts
  end.
(** The process: when the program exits, the kernel closes its file. *)
Definition process (opts : list (ascii * string)) : M P Z := fun p =>
  match main opts p with
  | (Exit c, p') =>
      (inited ← getv fd_inited;
       when inited (_ ← lift (rng_test_release rngTestFD); skip);;
       mret c) p'
  | r => r
  end.
End Program.
