(* ===== verification/RngProgramSpec.v ===== *)
(** * What the random number test program does

    Random bytes requested through the test module: the program and the module
    together print the bytes the library produced, in lines of twenty, and
    leave kernel memory as it was, exactly when the length is a multiple of
    four.  The names of the control register's bits are read past their
    table. *)
From S2P Require Import Prelude CInt CMonad CStr CStruct Kernel SimKernel PortableOs UserProc Rng RngSpec RngSession ShwHelp RngProgram.
Open Scope Z_scope.

(** ** Lines of twenty bytes *)
Definition newline : print := Printf "\n" [].
Definition byte_print (b : Z) : print := Printf "%02x " [AInt b].
Fixpoint rows (fuel : nat) (l : list Z) : list (list Z) :=
  match fuel, l with
  | S fuel, _ :: _ => take 20 l :: rows fuel (drop 20 l)
  | _, _ => []
  end.
Definition hex_dump (l : list Z) : list print :=
  concat (map (fun row => map byte_print row ++ [newline]) (rows (length l) l)).

(** What the loop prints from index [i] on. *)
Fixpoint printed (i : Z) (l : list Z) : list print :=
  match l with
  | [] => if truth (i mod 20) then [newline] else []
  | b :: l => byte_print b :: (if i mod 20 =? 19 then [newline] else []) ++ printed (i + 1) l
  end.

Lemma printed_full n i l :
  (0 < n <= 20)%nat -> 0 <= i -> i mod 20 = 20 - Z.of_nat n -> (n <= length l)%nat ->
  printed i l = map byte_print (take n l) ++ newline :: printed (i + Z.of_nat n) (drop n l).
Proof.
  revert i l. induction n as [|n IH]; intros i l Hn Hi Hm Hl; [lia|].
  destruct l as [|b l]; [simpl in Hl; lia|]. cbn [printed take drop map app].
  destruct (Nat.eq_dec n 0%nat) as [->|].
  - rewrite (proj2 (Z.eqb_eq _ _)) by lia. cbn [take drop map app]. by rewrite drop_0.
  - rewrite (proj2 (Z.eqb_neq _ _)) by lia. cbn [app]. f_equal.
    assert ((i + 1) mod 20 = 20 - Z.of_nat n) as Hm1.
    { rewrite Z.add_mod, Hm by lia. change (1 mod 20) with 1. rewrite Z.mod_small; lia. }
    rewrite (IH (i + 1)) by (simpl in Hl; lia). by replace (i + 1 + Z.of_nat n) with (i + Z.of_nat (S n)) by lia.
Qed.
Lemma printed_rest n i l :
  (0 < n <= 20)%nat -> 0 <= i -> i mod 20 = 20 - Z.of_nat n -> (length l < n)%nat -> (n < 20)%nat \/ l <> [] ->
  printed i l = map byte_print l ++ [newline].
Proof.
  revert i l. induction n as [|n IH]; intros i l Hn Hi Hm Hl Hne; [lia|].
  destruct l as [|b l]; cbn [printed map app].
  - destruct Hne as [Hne|]; [|done]. by rewrite truth_true by lia.
  - simpl in Hl. rewrite (proj2 (Z.eqb_neq _ _)) by lia. cbn [app]. f_equal. apply IH; [lia|lia| |lia|left; lia].
    rewrite Z.add_mod, Hm by lia. change (1 mod 20) with 1. rewrite Z.mod_small; lia.
Qed.
Lemma printed_hex_dump fuel i l :
  0 <= i -> i mod 20 = 0 -> (length l <= fuel)%nat ->
  printed i l = concat (map (fun row => map byte_print row ++ [newline]) (rows fuel l)).
Proof.
  revert i l. induction fuel as [|fuel IH]; intros i l Hi Hm Hl.
  - destruct l; [|simpl in Hl; lia]. cbn [printed rows map concat]. by rewrite Hm.
  - destruct l as [|b l]; [cbn [printed rows map concat]; by rewrite Hm|].
    destruct (Nat.lt_ge_cases (length (b :: l)) 20) as [Hlt|Hge].
    + rewrite (printed_rest 20) by (try done; lia || by right). cbn [rows]. rewrite take_ge, drop_ge by lia.
      destruct fuel; cbn [rows map concat]; by rewrite app_nil_r.
    + rewrite (printed_full 20) by lia. cbn [rows map concat]. rewrite <- !app_assoc. cbn [app]. do 2 f_equal.
      apply IH; [lia| |rewrite length_drop; simpl in *; lia].
      rewrite Z.add_mod, Hm by lia. done.
Qed.

Section Spec.
Context `{KL : KernelLaws} `{PL : PortableOsLaws} {D : Type} `{RL : RngDriverLaws D} (RNG_DEBUG : bool).
Context {L : Type} `{UserShw L} `{ShwCodes} `{RngRegisters}.
Context (rngTestFD frame entropy_p : Z) (junk : list Z) (o_alloc : nat -> Z -> option (Z * list Z)).
Abbreviation P := (proc D globals (rng_vars L)).
Abbreviation KW := (world D globals).
Implicit Types (p : P) (E : Z -> P -> Prop).

Lemma printEntropy_loop U q i l (Q : unit -> P -> Prop) E p :
  uread (ubytes (kern (kside p))) (q + i) (length l) = l -> 0 <= i ->
  Q tt (shown (printed i l) p) ->
  wpu U (for_m (length l) i (fun i =>
      b ← load (q + i) 1;
      printf "%02x " [AInt (of_le b)];;
      when (i mod valuesPerLine =? valuesPerLine - 1) (printf "\n" [])))
    (fun _ => wpu U (when (truth ((i + zlen l) mod valuesPerLine)) (printf "\n" [])) Q E) E p.
Proof.
  unfold valuesPerLine. change (20 - 1) with 19. revert i p.
  induction l as [|b l IH]; intros i p Hl Hi HQ; cbn [length for_m printed] in *.
  - apply wp_skip. rewrite Z.add_0_r. destruct (truth (i mod 20)).
    + apply wp_printf. exact HQ.
    + apply wp_skip. by rewrite shown_nil in HQ.
  - apply uread_tail in Hl as [Hb Hl]. apply wp_bind, wp_bind.
    eapply wp_load; [cbn [uread]; by rewrite Hb|done|]. apply wp_bind, wp_printf.
    cbn [of_le]. replace (b + 256 * 0) with b by lia. fold (byte_print b). rewrite <- shown_cons in HQ.
    replace (i + Z.of_nat (S (length l))) with (i + 1 + zlen l) by lia. rewrite <- Z.add_assoc in Hl.
    destruct (i mod 20 =? 19); cbn [when app] in *.
    + apply wp_printf, IH; [exact Hl|lia|]. by rewrite <- shown_cons in HQ.
    + apply wp_skip, IH; [exact Hl|lia|exact HQ].
Qed.
Lemma printEntropy_wp U q l (Q : unit -> P -> Prop) E p :
  uread (ubytes (kern (kside p))) q (length l) = l -> Q tt (shown (hex_dump l) p) ->
  wpu U (printEntropy q (zlen l)) Q E p.
Proof.
  intros Hl HQ. unfold printEntropy. rewrite Nat2Z.id. apply wp_bind.
  apply (printEntropy_loop U q 0 l); [by rewrite Z.add_0_r|done|].
  by rewrite (printed_hex_dump (length l)).
Qed.

(** ** Opening and closing the device *)
(** The file is open: its context is one block on top of [m]. *)
Definition file_open (m : gmap Z block) (w : KW) : Prop :=
  exists ctx bs, ZERO_SIZE_PTR < ctx /\ m !! ctx = None /\ kmem (kern w) = <[ctx := mkBlock Kmalloc bs]> m /\
    private (glob w) !! rngTestFD = Some ctx.
(** What opening leaves when the context is allocated at [ctx]. *)
Definition opened (ctx : Z) (bs : list Z) (w : KW) : KW :=
  set_glob (set_private <[rngTestFD := ctx]> (glob w))
    (set_dev (fsl_shw_register_user ctx (dev w)).2
      (set_kern (fun k => asked (set_kmem <[ctx := mkBlock Kmalloc (poke 0 (fsl_shw_uco_init 20) bs)]> k)) w)).
Lemma open_wp U ctx bs (w : KW) (Q : Z -> KW -> Prop) (E' : Z -> KW -> Prop) :
  o_kmalloc (kmem (kern w)) (calls (kern w)) sizeof_uco = Some (ctx, bs) ->
  (fsl_shw_register_user ctx (dev w)).1 = Rng.FSL_RETURN_OK_S ->
  Q 0 (opened ctx bs w) -> wpu U (rng_test_open rngTestFD) Q E' w.
Proof.
  intros Ho Hreg HQ. unfold rng_test_open, os_alloc_memory. pose proof uco_pos as Hpos.
  apply wp_bind, wp_kmalloc; [lia|lia|congruence|]. rewrite Ho.
  intros ? ? _ [= <- <-] Hctx Hfree Hbs _. assert (ctx <> 0) as Hn0 by (unfold ZERO_SIZE_PTR in *; lia).
  rewrite (proj2 (Z.eqb_neq _ _) Hn0). cbn [negb]. pose proof (uco_law 20) as Hu.
  apply wp_bind. eapply wp_kwrite; [simpl; by rewrite lookup_insert_eq|done|simpl; lia|].
  apply wp_bind, wp_drv. cbn [dev set_kern]. rewrite Hreg, Z.eqb_refl. cbn [negb]. apply wp_bind, wp_modify, wp_ret.
  unfold opened in HQ. destruct w as [[] ? ? ?]. unfold set_kern, set_kmem, asked in *. cbn in *.
  by rewrite insert_insert_eq.
Qed.
Lemma release_wp_file m (w : KW) U (Q : Z -> KW -> Prop) (E' : Z -> KW -> Prop) :
  file_open m w -> (forall r w', kmem (kern w') = m -> Q r w') -> wpu U (rng_test_release rngTestFD) Q E' w.
Proof.
  intros (ctx & bs & Hctx & Hfree & Hk & Hp) HQ. unfold rng_test_release, user_private.
  apply wp_bind, wp_gets. rewrite Hp. cbn [default from_option id].
  rewrite (proj2 (Z.eqb_neq _ _)) by (unfold ZERO_SIZE_PTR in *; lia). cbn [negb when].
  apply wp_bind, wp_bind, wp_drv, wp_bind. eapply (wp_kfree _ _ bs); [done|cbn; by rewrite Hk, lookup_insert_eq|].
  apply wp_modify, wp_ret, HQ. cbn. by rewrite Hk, delete_insert_eq, delete_id.
Qed.

(** ** The request *)
Definition request (q n : Z) : list Z :=
  set rng_test_get_random_t "function_return_code" (-1)
    (set rng_test_get_random_t "random" q
      (set rng_test_get_random_t "count_bytes" n (fresh junk rng_test_get_random_t))).
Lemma length_request q n : length (request q n) = sizeof rng_test_get_random_t.
Proof. unfold request. repeat (apply length_set; [done|]). apply length_fresh. Qed.
Lemma get_request q n :
  in_uint 32 q ->
  get rng_test_get_random_t "count_bytes" (request q n) = u32 n /\
  get rng_test_get_random_t "random" (request q n) = q.
Proof.
  intros Hq. unfold request. pose proof (length_fresh junk rng_test_get_random_t) as Hf.
  assert (forall v, length (set rng_test_get_random_t "count_bytes" v (fresh junk rng_test_get_random_t)) =
    sizeof rng_test_get_random_t) as Hc by (intros; by apply length_set).
  assert (forall v v', length (set rng_test_get_random_t "random" v'
    (set rng_test_get_random_t "count_bytes" v (fresh junk rng_test_get_random_t))) =
    sizeof rng_test_get_random_t) as Hr by (intros; by apply length_set).
  rewrite !(get_set_ne _ "function_return_code") by done. split.
  - rewrite get_set_ne by done. by rewrite get_set_eq.
  - rewrite get_set_eq by done. by apply wrap_id.
Qed.

(** When the program asks: its file is open, the buffer at [q] and the request
    lie in its memory, apart from each other. *)
Record asking (m : gmap Z block) (ctx q n : Z) (d : D) (w : KW) : Prop := {
  ask_private : private (glob w) !! rngTestFD = Some ctx;
  ask_context : ZERO_SIZE_PTR < ctx /\ m !! ctx = None /\ exists bs, kmem (kern w) = <[ctx := mkBlock Kmalloc bs]> m;
  ask_dev : dev w = d;
  ask_request : holds rng_test_get_random_t w frame (request q n);
  ask_frame : fits (ubytes (kern w)) frame (length (request q n)) = length (request q n);
  ask_buffer : fits (ubytes (kern w)) q (Z.to_nat n) = Z.to_nat n;
}.
(** What the module stores over the request. *)
Definition answer (q n : Z) : list Z := set rng_test_get_random_t "function_return_code" RNG_RET_OK (request q n).
Lemma length_answer q n : length (answer q n) = sizeof rng_test_get_random_t.
Proof. apply length_set; [done|apply length_request]. Qed.

Section Asking.
Context (m : gmap Z block) (ctx q n : Z) (d : D) (w : KW) (Hw : asking m ctx q n d w).
Context (Hq : in_uint 32 q) (Hn : 0 < n < 2 ^ 31 - 3).
Lemma ask_ctx_nonzero : (ctx =? 0) = false.
Proof. destruct Hw as [_ [Hc _] _ _ _ _]. apply Z.eqb_neq. unfold ZERO_SIZE_PTR in Hc. lia. Qed.
Lemma ask_count : i32 (get rng_test_get_random_t "count_bytes" (request q n)) = n.
Proof.
  destruct (get_request q n Hq) as [-> _]. rewrite (wrap_id 32 n) by (unfold in_uint; lia).
  apply swrap_id; [done|]. unfold in_sint. lia.
Qed.
Lemma ioctl_random_delivers (E' : Z -> KW -> Prop) :
  n mod 4 = 0 -> o_kmalloc (kmem (kern w)) (calls (kern w)) n <> None ->
  (fsl_shw_get_random ctx n d).1.1 = RNG_RET_OK ->
  frame + zlen (answer q n) <= q \/ q + n <= frame ->
  wp (rng_test_ioctl RNG_DEBUG rngTestFD RNG_TEST_GET_RANDOM frame) (fun r w' =>
    r = OS_ERROR_OK_S /\ file_open m w' /\
    uread (ubytes (kern w')) frame (sizeof rng_test_get_random_t) = answer q n /\
    uread (ubytes (kern w')) q (Z.to_nat n) = (fsl_shw_get_random ctx n d).1.2) E' w.
Proof.
  intros Hmod Hal Hrc Hap. pose proof ask_ctx_nonzero as Hc0. pose proof ask_count as Hcount.
  destruct Hw as [Hp [Hc [Hfree [bs Hk]]] Hd Hs Hff Hfq].
  unfold rng_test_ioctl, user_private. apply wp_bind, wp_gets. rewrite Hp. cbn [default from_option id].
  change (RNG_TEST_GET_RANDOM =? RNG_TEST_GET_RANDOM) with true. rewrite Hc0. cbn [negb].
  eapply wp_mono; [eapply wp_conj; [by apply get_random_wp; [exact Hs|..]|apply (steady_get_random RNG_DEBUG ctx frame w)]|].
  intros r w' [(Hk' & _ & Hr) [Hg _]]. destruct (get_request q n Hq) as [_ Hrand]. rewrite Hrand, Hd in Hr.
  destruct (Hr Hrc Hfq) as (-> & Hdata & Hub). split; [done|]. split.
  - exists ctx, bs. split; [done|]. split; [done|]. split; [by rewrite Hk'|by rewrite Hg].
  - split; [|exact Hdata]. rewrite (Hub Hff). rewrite <- (length_answer q n).
    pose proof (random_ok_law ctx n d ltac:(lia) Hrc) as Hl.
    rewrite uread_uput_ne by lia. apply uread_uput.
Qed.
Lemma ioctl_random_overruns :
  m !! 0 = None -> (fsl_shw_get_random ctx (requested n) d).1.1 = RNG_RET_OK -> n mod 4 <> 0 ->
  (rng_test_ioctl RNG_DEBUG rngTestFD RNG_TEST_GET_RANDOM frame w).1 = Undef.
Proof.
  intros Hz Hrc Hmod. pose proof ask_ctx_nonzero as Hc0. pose proof ask_count as Hcount.
  destruct Hw as [Hp [Hc [Hfree [bs Hk]]] Hd Hs Hff Hfq].
  unfold rng_test_ioctl, user_private. eapply undef_bind_eq; [reflexivity|]. rewrite Hp. cbn [default from_option id].
  change (RNG_TEST_GET_RANDOM =? RNG_TEST_GET_RANDOM) with true. rewrite Hc0. cbn [negb].
  eapply get_random_overruns; [done..| |by rewrite Hd|by right].
  rewrite Hk. by rewrite lookup_insert_ne by (unfold ZERO_SIZE_PTR in *; lia).
Qed.
End Asking.

(** ** The run of the program *)
Lemma process_wp U opts (Q : Z -> P -> Prop) E p :
  wpu U (main RNG_DEBUG rngTestFD frame entropy_p junk o_alloc opts) Q
    (fun c p' => wpu U (inited ← getv fd_inited;
       when inited (_ ← lift (rng_test_release rngTestFD); skip);; mret c) Q E p') p ->
  wpu U (process RNG_DEBUG rngTestFD frame entropy_p junk o_alloc opts) Q E p.
Proof. unfold wpu, process. by destruct (main _ _ _ _ _ _ _ p) as [[] p']. Qed.
(** What a request that succeeds leaves. *)
Definition delivered (m : gmap Z block) (q n : Z) (data : list Z) (w : KW) : Prop :=
  file_open m w /\ uread (ubytes (kern w)) frame (sizeof rng_test_get_random_t) = answer q n /\
  uread (ubytes (kern w)) q (Z.to_nat n) = data /\ zlen data = n.
Lemma answer_fields q n :
  in_uint 32 q -> 0 <= n < 2 ^ 32 ->
  get rng_test_get_random_t "function_return_code" (answer q n) = u32 RNG_RET_OK /\
  get rng_test_get_random_t "count_bytes" (answer q n) = n.
Proof.
  intros Hq Hn. unfold answer. pose proof (length_request q n) as Hl. split; [by rewrite get_set_eq|].
  rewrite get_set_ne by done. destruct (get_request q n Hq) as [-> _]. by apply wrap_id.
Qed.

Section Run.
Context (U X : Prop) (p : P) (n q ctx : Z) (bs cs data : list Z).
Abbreviation w0 := (kside p).
Context (Hq : in_uint 32 q) (Hn : 0 < n < 2 ^ 31 - 3) (Hok : RNG_RET_OK = return_code FSL_RETURN_OK_S).
Context (Hopen : o_kmalloc (kmem (kern w0)) (calls (kern w0)) sizeof_uco = Some (ctx, bs)).
Context (Hreg : (fsl_shw_register_user ctx (dev w0)).1 = Rng.FSL_RETURN_OK_S).
Context (Hcalloc : o_alloc (allocs p) n = Some (q, cs)).
Context (Hframe : user_block frame (Z.of_nat (sizeof rng_test_get_random_t))) (Hbuffer : user_block q n).
Context (Hap : frame + Z.of_nat (sizeof rng_test_get_random_t) <= q \/ q + n <= frame).

(** The kernel when the request is made. *)
Definition at_request : KW :=
  let w := opened ctx bs w0 in
  set_kern (set_ubytes (fun u => uput (uput u q (replicate (Z.to_nat n) 0)) frame (request q n))) w.
Lemma at_request_asking :
  asking (kmem (kern w0)) ctx q n (fsl_shw_register_user ctx (dev w0)).2 at_request.
Proof.
  pose proof Hopen as Ho. apply kmalloc_law in Ho as (Hc & Hfree & _); [|apply uco_pos].
  pose proof (length_request q n) as Hl. destruct Hframe as [Hfa Hfw], Hbuffer as [Hqa Hqw].
  assert (ubytes (kern at_request) = uput (uput (ubytes (kern w0)) q (replicate (Z.to_nat n) 0)) frame (request q n))
    as Hub by done.
  split; rewrite ?Hub.
  - cbn. by rewrite lookup_insert_eq.
  - split; [lia|]. split; [done|]. by eexists.
  - done.
  - unfold holds. rewrite Hub, <- Hl. apply from_user_read; [by rewrite Hl|]. apply uread_uput.
  - rewrite Hl. apply fits_read; [done| |done]. by rewrite <- Hl, uread_uput.
  - apply fits_uput, fits_read; [by rewrite Z2Nat.id by lia| |intros; apply Hqw; lia].
    pose proof (uread_uput (ubytes (kern w0)) q (replicate (Z.to_nat n) 0)) as Hr.
    rewrite length_replicate in Hr. by rewrite Hr, length_replicate.
Qed.

(** The request, given what the module makes of it. *)
Lemma rngGetEntropy_wp p1 (Q : unit -> P -> Prop) E :
  kside p1 = opened ctx bs w0 -> allocs p1 = allocs p ->
  wpu U (rng_test_ioctl RNG_DEBUG rngTestFD RNG_TEST_GET_RANDOM frame)
    (fun r w => r = OS_ERROR_OK_S /\ delivered (kmem (kern w0)) q n data w /\ X) (fun _ _ => False) at_request ->
  (forall p', file_open (kmem (kern w0)) (kside p') -> stderr p' = stderr p1 -> fd_inited (vars p') = fd_inited (vars p1) ->
    stdout p' = rev (Printf "Getting random from RNG TEST driver\n" [] :: hex_dump data) ++ stdout p1 -> X ->
    Q tt p') ->
  wpu U (rngGetEntropy RNG_DEBUG rngTestFD frame junk o_alloc n) Q E p1.
Proof.
  intros Hk Hcalls Hio HQ. unfold rngGetEntropy.
  rewrite (proj2 (Z.ltb_ge _ _)) by lia. apply wp_bind, wp_skip, wp_bind.
  unfold calloc. apply wp_bind, wp_gets, wp_bind, wp_modify. rewrite Hcalls, (wrap_id 32 n), Hcalloc by (unfold in_uint; lia).
  apply wp_bind, wp_store_user, wp_ret, wp_bind, wp_store_user, wp_bind, wp_printf. fold (request q n).
  apply wp_bind, syscall_wp.
  match goal with |- wpu _ _ _ _ (kside ?r) => set (p2 := r) end.
  assert (kside p2 = at_request /\ stderr p2 = stderr p1 /\ fd_inited (vars p2) = fd_inited (vars p1) /\
    stdout p2 = Printf "Getting random from RNG TEST driver\n" [] :: stdout p1) as (-> & He & Hf & Ho)
    by (subst p2; destruct p1; simpl in *; by subst).
  clearbody p2. eapply wp_mono_exit; [exact Hio| |done].
  intros r w (-> & (Hfile & Hans & Hdata & Hlen) & HX). split; [done|]. cbn [OS_ERROR_OK_S Z.leb Z.compare].
  apply wp_bind. eapply wp_load; [exact Hans|apply length_answer|].
  destruct (answer_fields q n) as [-> ->]; [done|lia|]. rewrite Hok, Z.eqb_refl. cbn [negb]. rewrite <- Hlen.
  apply printEntropy_wp; [by rewrite <- Hdata at 2; rewrite <- Hlen, Nat2Z.id|].
  apply HQ; try done. cbn [stdout shown set_kside]. rewrite Ho. cbn [rev]. by rewrite <- app_assoc.
Qed.

(** The run, given what the module makes of the request. *)
Lemma run_wp s :
  0 <= rngTestFD -> fd_inited (vars p) = false -> atoi s = n ->
  wpu U (rng_test_ioctl RNG_DEBUG rngTestFD RNG_TEST_GET_RANDOM frame)
    (fun r w => r = OS_ERROR_OK_S /\ delivered (kmem (kern w0)) q n data w /\ X) (fun _ _ => False) at_request ->
  wpu U (process RNG_DEBUG rngTestFD frame entropy_p junk o_alloc [("O"%char, "k"); ("E"%char, s)]%string)
    (fun r p' => r = 0 /\ kmem (kern (kside p')) = kmem (kern w0) /\ stderr p' = stderr p /\
       stdout p' = rev (Printf "Getting random from RNG TEST driver\n" [] :: hex_dump data) ++ stdout p /\ X)
    (fun _ _ => False) p.
Proof.
  intros Hpos Hfd Hs Hio. apply process_wp. cbn [main command set_option]. apply wp_bind, wp_modify, wp_bind.
  unfold get_entropy. apply wp_bind, wp_gets. cbn [vars set_vars use_kernel_api set_kernel_api]. apply wp_bind. rewrite Hs.
  unfold setup_test_fd. apply wp_bind, wp_gets. cbn [vars set_vars fd_inited set_kernel_api]. rewrite Hfd. cbn [negb when].
  apply wp_bind. unfold open_device. apply wp_bind, wp_lift, (open_wp _ ctx bs); [done|done|]. cbn [Z.eqb negb].
  apply wp_ret. rewrite (proj2 (Z.ltb_ge _ _) Hpos). apply wp_modify.
  apply rngGetEntropy_wp; [done|done|exact Hio|]. intros p' Hfile He Hf Ho HX.
  apply wp_exit, wp_bind, wp_gets. rewrite Hf. cbn [kside set_kside vars set_vars fd_inited set_fd_inited when].
  apply wp_bind, wp_bind, wp_lift. eapply release_wp_file; [exact Hfile|]. intros r w Hk.
  apply wp_skip, wp_ret. by split_and!.
Qed.
End Run.

Lemma requested_whole n : n mod 4 = 0 -> requested n = n.
Proof.
  unfold requested. pose proof (Z.div_mod n 4 ltac:(lia)). intros Hm. rewrite Hm in *.
  replace (n + 3) with (3 + n / 4 * 4) by lia. rewrite Z.div_add by lia. change (3 / 4) with 0. lia.
Qed.
Lemma undef_wpu {W A} (m : M W A) w : wpu True m (fun _ _ => False) (fun _ _ => False) w -> (m w).1 = Undef.
Proof. unfold wpu. by destruct (m w) as [[] ?]. Qed.

(** C31: Random bytes through the module, program and module together, run as
    [rng_test -Ok -E<n>] for a positive [n] below 2^31 - 3, with memory for the
    buffers, a context the library registers, and random bytes it delivers:
    if [n] is a multiple of four, the program opens the device, asks for [n]
    bytes, prints exactly the bytes the library produced in lines of twenty,
    exits with 0, and kernel memory is as before the run; if [n] is not a
    multiple of four, the same run makes the library write past the module's
    buffer, which is undefined. *)
Theorem rng_program_kernel_random p s n q cs ctx bs :
  0 <= rngTestFD -> fd_inited (vars p) = false -> atoi s = n -> 0 < n < 2 ^ 31 - 3 ->
  o_alloc (allocs p) n = Some (q, cs) -> in_uint 32 q ->
  user_block frame (Z.of_nat (sizeof rng_test_get_random_t)) -> user_block q n ->
  frame + Z.of_nat (sizeof rng_test_get_random_t) <= q \/ q + n <= frame ->
  let w := kside p in
  o_kmalloc (kmem (kern w)) (calls (kern w)) sizeof_uco = Some (ctx, bs) -> kmem (kern w) !! 0 = None ->
  (fsl_shw_register_user ctx (dev w)).1 = Rng.FSL_RETURN_OK_S ->
  let w1 := opened ctx bs w in
  o_kmalloc (kmem (kern w1)) (calls (kern w1)) n <> None ->
  (fsl_shw_get_random ctx (requested n) (dev w1)).1.1 = RNG_RET_OK ->
  RNG_RET_OK = return_code FSL_RETURN_OK_S ->
  let run := process RNG_DEBUG rngTestFD frame entropy_p junk o_alloc [("O"%char, "k"); ("E"%char, s)]%string in
  (n mod 4 = 0 ->
   wp run (fun r p' => r = 0 /\ kmem (kern (kside p')) = kmem (kern w) /\ stderr p' = stderr p /\
     stdout p' = rev (Printf "Getting random from RNG TEST driver\n" [] ::
                      hex_dump (fsl_shw_get_random ctx n (dev w1)).1.2) ++ stdout p) (fun _ _ => False) p) /\
  (n mod 4 <> 0 -> (run p).1 = Undef).
Proof.
  intros Hpos Hfd Hs Hn Hcal Hq Hfr Hbuf Hap w Hopen Hz Hreg w1 Hal Hrc Hok run.
  pose proof (at_request_asking p n q ctx bs Hn Hopen Hfr Hbuf) as Hask. split; intros Hm.
  - rewrite requested_whole in Hrc by done. eapply wp_mono.
    + eapply (run_wp False True); try done. eapply wp_mono.
      * eapply ioctl_random_delivers; [exact Hask|done..|]. rewrite length_answer. lia.
      * intros r w' (-> & Hf & Ha & Hd). split; [done|]. split; [|done]. split; [done|]. split; [done|]. split; [done|].
        apply random_ok_law; [lia|done].
    + intros r p' (? & ? & ? & ? & _). done.
  - apply undef_wpu. eapply wp_mono.
    + eapply (run_wp True False _ _ _ _ _ cs []); try done. unfold wpu.
      pose proof (ioctl_random_overruns _ _ _ _ _ _ Hask Hq Hn Hz Hrc Hm) as Hu.
      destruct (rng_test_ioctl _ _ _ _ _) as [o ?]. cbn in Hu. by subst o.
    + intros r p' (_ & _ & _ & _ & []).
Qed.

(** ** Names of bits *)
(** The names of the bits of [v] that are set. *)
Definition bit_names (names : list (Z * string)) (v : Z) : list print :=
  map (fun x => Printf "%s, " [AStr x.2]) (List.filter (fun x => truth (Z.land v x.1)) names).
Lemma print_names_loop names n i v U (Q : unit -> P -> Prop) E p :
  (i + n <= length names)%nat -> Q tt (shown (bit_names (take n (drop i names)) v) p) ->
  wpu U (for_m n (Z.of_nat i) (fun i =>
    match names !! Z.to_nat i with
    | Some (code, name) => when (truth (Z.land v code)) (printf "%s, " [AStr name])
    | None => undef
    end)) Q E p.
Proof.
  revert i p. induction n as [|n IH]; intros i p Hl HQ; cbn [for_m].
  - rewrite take_0 in HQ. apply wp_skip. by rewrite shown_nil in HQ.
  - rewrite Nat2Z.id. destruct (names !! i) as [[code name]|] eqn:Hi; [|apply lookup_ge_None in Hi; lia].
    rewrite (drop_S _ _ _ Hi) in HQ. unfold bit_names in HQ. cbn [take List.filter fst snd] in HQ.
    replace (Z.of_nat i + 1) with (Z.of_nat (S i)) by lia. apply wp_bind.
    destruct (truth (Z.land v code)); cbn [when map snd] in *.
    + apply wp_printf, IH; [lia|]. by rewrite shown_cons.
    + apply wp_skip, IH; [lia|exact HQ].
Qed.
Lemma print_names_wp names n v U (Q : unit -> P -> Prop) E p :
  (n <= length names)%nat -> Q tt (shown (bit_names (take n names) v) p) ->
  wpu U (print_names n names v) Q E p.
Proof. intros Hn HQ. apply (print_names_loop names n 0); [lia|]. by rewrite drop_0. Qed.
Lemma for_m_split {W} a b i (f : Z -> M W unit) w :
  for_m (a + b) i f w = (for_m a i f;; for_m b (i + Z.of_nat a) f) w.
Proof.
  revert i w. induction a as [|a IH]; intros i w; cbn [for_m Nat.add].
  - by rewrite Z.add_0_r.
  - unfold mbind, M_bind. destruct (f i w) as [[] w']; try done. rewrite IH.
    replace (i + 1 + Z.of_nat a) with (i + Z.of_nat (S a)) by lia. done.
Qed.

(** The names of the bits that are set are printed in the table's order as
    long as the length that is passed is within the table; the length used
    for the control register's table is that of the status register's, ten
    where five names are, so printing the control register always reads past
    the table. *)
Theorem register_names_printed v p :
  wp (print_names RNGCSTATUSNAMESLENGTH RNGCStatusNames v)
    (fun _ p' => p' = shown (bit_names RNGCStatusNames v) p) (fun _ _ => False) p /\
  (printRngControlRegister_C v p).1 = Undef.
Proof.
  split; [by apply print_names_wp|]. unfold printRngControlRegister_C.
  apply undef_wpu, wp_bind, wp_printf, wp_bind. unfold print_names.
  change RNGCCONTROLNAMESLENGTH with (5 + 5)%nat. unfold wpu at 1. rewrite for_m_split.
  change (wpu True (for_m 5 0 (fun i =>
      match RNGCControlNames !! Z.to_nat i with
      | Some (code, name) => when (truth (Z.land v code)) (printf "%s, " [AStr name])
      | None => undef
      end) ;; for_m 5 5 (fun i =>
      match RNGCControlNames !! Z.to_nat i with
      | Some (code, name) => when (truth (Z.land v code)) (printf "%s, " [AStr name])
      | None => undef
      end)) (fun _ p' => wpu True (printf "\n" []) (fun _ _ => False) (fun _ _ => False) p') (fun _ _ => False)
      (emit (Printf "RNG Control: 0x%08x: " [AInt v]) p)).
  apply wp_bind, (print_names_wp _ 5); [by cbn|]. by apply wp_bind.
Qed.
End Spec.

(** ** The theorem at work *)
Section Witness.
#[local] Instance run_kernel : Kernel := sim sim_ok.
#[local] Instance run_os : PortableOs := sim_os (fun _ => false).
#[local] Instance run_user : UserShw unit := {|
  user_uco_init _ l := l; user_register l := (0, l); user_deregister l := l;
  user_get_random n l := ((0, replicate (Z.to_nat n) 9), l); user_add_entropy _ l := (0, l);
|}.
#[local] Instance run_codes : ShwCodes := {|
  return_code c := match c with FSL_RETURN_OK_S => 0 | FSL_RETURN_ERROR_S => 1 | FSL_RETURN_NO_RESOURCE_S => 2
    | FSL_RETURN_BAD_ALGORITHM_S => 3 | FSL_RETURN_BAD_MODE_S => 4 | FSL_RETURN_BAD_FLAG_S => 5
    | FSL_RETURN_BAD_KEY_LENGTH_S => 6 | FSL_RETURN_BAD_KEY_PARITY_S => 7 | FSL_RETURN_BAD_DATA_LENGTH_S => 8
    | FSL_RETURN_AUTH_FAILED_S => 9 | FSL_RETURN_MEMORY_ERROR_S => 10 | FSL_RETURN_INTERNAL_ERROR_S => 11 end;
  hash_alg a := match a with FSL_HASH_ALG_MD5 => 0 | FSL_HASH_ALG_SHA1 => 1 | FSL_HASH_ALG_SHA224 => 2
    | FSL_HASH_ALG_SHA256 => 3 end;
|}.
#[local] Instance run_registers : RngRegisters := {|
  FSL_HAVE_RNGA := false;
  RNGA_STATUS := 4; RNGA_CONTROL := 0; RNGC_STATUS := 12; RNGC_CONTROL := 8; RNGA_STATUS_OSCILLATOR_DEAD := 1;
  RNGA_STATUS_ZEROS1_MASK := 2; RNGA_STATUS_ZEROS2_MASK := 4; RNGA_STATUS_SLEEP := 8;
  RNGA_STATUS_ERROR_INTERRUPT := 16; RNGA_STATUS_FIFO_UNDERFLOW := 32; RNGA_STATUS_LAST_READ_STATUS := 64;
  RNGA_STATUS_SECURITY_VIOLATION := 128; RNGA_STATUS_OUTPUT_FIFO_SIZE_MASK := 256;
  RNGA_STATUS_OUTPUT_FIFO_SIZE_SHIFT := 8; RNGA_STATUS_OUTPUT_FIFO_LEVEL_MASK := 512;
  RNGA_STATUS_OUTPUT_FIFO_LEVEL_SHIFT := 8; RNGA_CONTROL_ZEROS_MASK := 1; RNGA_CONTROL_SLEEP := 2;
  RNGA_CONTROL_CLEAR_INTERRUPT := 4; RNGA_CONTROL_MASK_INTERRUPTS := 8; RNGA_CONTROL_HIGH_ASSURANCE := 16;
  RNGA_CONTROL_GO := 32; RNGC_STATUS_SEC_STATE := 1; RNGC_STATUS_BUSY := 2; RNGC_STATUS_SLEEP := 4;
  RNGC_STATUS_RESEED := 8; RNGC_STATUS_ST_DONE := 16; RNGC_STATUS_SEED_DONE := 32;
  RNGC_STATUS_NEXT_SEED_DONE := 64; RNGC_STATUS_ERROR := 128; RNGC_STATUS_ST_PF_PRNG := 256;
  RNGC_STATUS_ST_PF_TRNG := 512; RNGC_STATUS_STAT_TEST_PF_MASK := 1024; RNGC_STATUS_STAT_TEST_PF_SHIFT := 8;
  RNGC_STATUS_FIFO_LEVEL_MASK := 2048; RNGC_STATUS_FIFO_LEVEL_SHIFT := 8; RNGC_STATUS_FIFO_SIZE_MASK := 4096;
  RNGC_STATUS_FIFO_SIZE_SHIFT := 8; RNGC_CONTROL_AUTO_SEED := 1; RNGC_CONTROL_MASK_DONE := 2;
  RNGC_CONTROL_MASK_ERROR := 4; RNGC_CONTROL_VERIF_MODE := 8; RNGC_CONTROL_CTL_ACC := 16;
|}.
(** The program before it starts; its memory is mapped as it is used. *)
Definition run_start : prog (list Z) unit :=
  mkProc (mkWorld (booted ∅) [] (mkGlobals 0 1 no_reg ∅) []) (mkVars tt false false false) 0 0 [] [].
Abbreviation run s := (process (H1 := toy_rng) false 3 0x1000 0x1800 [] (fun _ _ => Some (0x2000, []))
  [("O"%char, "k"); ("E"%char, s)]%string).

(** Eight bytes are printed; six overrun the module's buffer. *)
Lemma rng_program_kernel_random_witness :
  wp (run "8") (fun r p' => r = 0 /\ kmem (kern (kside p')) = ∅ /\ stderr p' = [] /\
    stdout p' = newline :: replicate 8 (byte_print 7) ++ [Printf "Getting random from RNG TEST driver\n" []])
    (fun _ _ => False) run_start /\
  (run "6" run_start).1 = Undef.
Proof.
  split.
  - apply (@rng_program_kernel_random run_kernel (sim_laws sim_ok) run_os _ _ toy_rng_laws false unit
      run_user run_codes run_registers 3 0x1000 0x1800 [] (fun _ _ => Some (0x2000, [])) run_start "8" 8 0x2000 [] 4096
      (replicate 4 0xa5)); first [by vm_compute | by split | by right | by left].
  - apply (@rng_program_kernel_random run_kernel (sim_laws sim_ok) run_os _ _ toy_rng_laws false unit
      run_user run_codes run_registers 3 0x1000 0x1800 [] (fun _ _ => Some (0x2000, [])) run_start "6" 6 0x2000 [] 4096
      (replicate 4 0xa5)); first [by vm_compute | by split | by right | by left].
Defined.
End Witness.
