(* ===== verification/SccProgram.v ===== *)
(** * The security controller test program

    [src/test/mxc_scc/scc_test.c]: a program that encrypts and decrypts its
    plain text, wraps and unwraps a key, and shows and changes registers, all
    through the ioctls of the test module ([Scc]).  Its structures and buffers
    are in the user memory the module reads and writes; the results of
    [getopt] are a sequence.  The numbers of [mxc_scc_driver.h], which is not
    in the repository, are the classes [SccDriver] and [SccHeader]. *)
From S2P Require Import Prelude CInt CMonad CStr CStruct Kernel PortableOs Scc UserProc.
Open Scope Z_scope.

Class SccHeader := {
  SCC_ECB_MODE : Z; SCC_VERIFY_MODE_NONE : Z; SCC_VERIFY_MODE_CCITT_CRC : Z;
  SCC_RET_FAIL : Z; SCC_RET_VERIFICATION_FAILED : Z; SCC_RET_TOO_MANY_FUNCTIONS : Z; SCC_RET_BUSY : Z;
  SCM_RED_START : Z; SCM_BLACK_START : Z; SCM_LENGTH : Z; SCM_CONTROL : Z; SCM_STATUS : Z;
  SCM_ERROR_STATUS : Z; SCM_INTERRUPT_CTRL : Z; SCM_CONFIGURATION : Z; SCM_INIT_VECTOR_0 : Z;
  SCM_INIT_VECTOR_1 : Z; SCM_RED_MEMORY : Z; SCM_BLACK_MEMORY : Z;
  SMN_COMMAND : Z; SMN_SEQUENCE_START : Z; SMN_SEQUENCE_END : Z; SMN_SEQUENCE_CHECK : Z;
  SMN_BIT_COUNT : Z; SMN_BITBANK_INC_SIZE : Z; SMN_COMPARE_SIZE : Z; SMN_PLAINTEXT_CHECK : Z;
  SMN_CIPHERTEXT_CHECK : Z; SMN_TIMER_IV : Z; SMN_TIMER_CONTROL : Z; SMN_DEBUG_DETECT_STAT : Z;
  SMN_TIMER : Z;
  SCM_INTERRUPT_CTRL_CLEAR_INTERRUPT : Z; SCM_INTERRUPT_CTRL_MASK_INTERRUPTS : Z;
  SMN_TIMER_LOAD_TIMER : Z; SMN_TIMER_START_TIMER : Z; SMN_TIMER_STOP_MASK : Z;
  SMN_TIMER_CTRL_ZEROS_MASK : Z;
  SMN_STATUS_VERSION_ID_MASK : Z; SMN_STATUS_VERSION_ID_SHIFT : Z;
  SMN_STATUS_STATE_SHIFT : Z;
  SMN_STATUS_CACHEABLE_ACCESS : Z; SMN_STATUS_ILLEGAL_MASTER : Z; SMN_STATUS_SCAN_EXIT : Z;
  SMN_STATUS_UNALIGNED_ACCESS : Z; SMN_STATUS_BYTE_ACCESS : Z; SMN_STATUS_ILLEGAL_ADDRESS : Z;
  SMN_STATUS_USER_ACCESS : Z; SMN_STATUS_DEFAULT_KEY : Z; SMN_STATUS_BAD_KEY : Z;
  SMN_STATUS_ILLEGAL_ACCESS : Z; SMN_STATUS_SCM_ERROR : Z; SMN_STATUS_SMN_STATUS_IRQ : Z;
  SMN_STATUS_SOFTWARE_ALARM : Z; SMN_STATUS_TIMER_ERROR : Z; SMN_STATUS_PC_ERROR : Z;
  SMN_STATUS_ASC_ERROR : Z; SMN_STATUS_SECURITY_POLICY_ERROR : Z; SMN_STATUS_DEBUG_ACTIVE : Z;
  SMN_STATUS_ZEROIZE_FAIL : Z; SMN_STATUS_INTERNAL_BOOT : Z;
  SMN_STATE_START : Z; SMN_STATE_ZEROIZE_RAM : Z; SMN_STATE_HEALTH_CHECK : Z;
  SMN_STATE_SECURE : Z; SMN_STATE_NON_SECURE : Z;
  SCM_STATUS_LENGTH_ERROR : Z; SCM_STATUS_BLOCK_ACCESS_REMOVED : Z; SCM_STATUS_CIPHERING_DONE : Z;
  SCM_STATUS_ZEROIZING_DONE : Z; SCM_STATUS_INTERRUPT_STATUS : Z; SCM_STATUS_SECRET_KEY : Z;
  SCM_STATUS_INTERNAL_ERROR : Z; SCM_STATUS_BAD_SECRET_KEY : Z; SCM_STATUS_ZEROIZE_FAILED : Z;
  SCM_STATUS_SMN_BLOCKING_ACCESS : Z; SCM_STATUS_CIPHERING : Z; SCM_STATUS_ZEROIZING : Z;
  SCM_STATUS_BUSY : Z;
  SCM_CONTROL_CIPHER_MODE_MASK : Z; SCM_DECRYPT_MODE : Z; SCM_CONTROL_CHAINING_MODE_MASK : Z;
  SCM_CBC_MODE : Z; SCM_CONTROL_START_CIPHER : Z;
  SCM_ERR_CACHEABLE_ACCESS : Z; SCM_ERR_ILLEGAL_MASTER : Z; SCM_ERR_UNALIGNED_ACCESS : Z;
  SCM_ERR_BYTE_ACCESS : Z; SCM_ERR_ILLEGAL_ADDRESS : Z; SCM_ERR_USER_ACCESS : Z;
  SCM_ERR_SECRET_KEY_IN_USE : Z; SCM_ERR_INTERNAL_ERROR : Z; SCM_ERR_BAD_SECRET_KEY : Z;
  SCM_ERR_ZEROIZE_FAILED : Z; SCM_ERR_SMN_BLOCKING_ACCESS : Z; SCM_ERR_CIPHERING : Z;
  SCM_ERR_ZEROIZING : Z; SCM_ERR_BUSY : Z;
  SMN_COMMAND_ZEROS_MASK : Z; SMN_COMMAND_CLEAR_INTERRUPT : Z; SMN_COMMAND_CLEAR_BIT_BANK : Z;
  SMN_COMMAND_ENABLE_INTERRUPT : Z; SMN_COMMAND_SET_SOFTWARE_ALARM : Z;
  SMN_DBG_ZEROS_MASK : Z;
  SMN_DBG_D1 : Z; SMN_DBG_D2 : Z; SMN_DBG_D3 : Z; SMN_DBG_D4 : Z; SMN_DBG_D5 : Z; SMN_DBG_D6 : Z;
  SMN_DBG_D7 : Z; SMN_DBG_D8 : Z; SMN_DBG_D9 : Z; SMN_DBG_D10 : Z; SMN_DBG_D11 : Z; SMN_DBG_D12 : Z;
}.

(** ** Variables of the program *)
Definition DEFAULT_PLAINTEXT_LENGTH : Z := 24.
Definition DEFAULT_PADDING_ALLOWANCE : Z := 10.
Record scc_vars := mkVars {
  debug : bool;
  plaintext_length : Z;
  byte_offset : Z;
  encrypt_padding_allowance : Z;
  decrypt_padding_allowance : Z;
  check_mode : Z;
  crypto_mode : Z;
  encrypt_only : bool;
  inject_crc_error : Z;
  superbrief_read_register : bool;
  config : option Z;                 (* of get_scc_configuration *)
  rands : nat;                       (* calls of rand() *)
  scc_opened : bool;                 (* the file is open *)
}.
Section Setters.
Implicit Types v : scc_vars.
Definition set_debug b v := mkVars b (plaintext_length v) (byte_offset v) (encrypt_padding_allowance v)
  (decrypt_padding_allowance v) (check_mode v) (crypto_mode v) (encrypt_only v) (inject_crc_error v)
  (superbrief_read_register v) (config v) (rands v) (scc_opened v).
Definition set_plaintext_length n v := mkVars (debug v) n (byte_offset v) (encrypt_padding_allowance v)
  (decrypt_padding_allowance v) (check_mode v) (crypto_mode v) (encrypt_only v) (inject_crc_error v)
  (superbrief_read_register v) (config v) (rands v) (scc_opened v).
Definition set_byte_offset n v := mkVars (debug v) (plaintext_length v) n (encrypt_padding_allowance v)
  (decrypt_padding_allowance v) (check_mode v) (crypto_mode v) (encrypt_only v) (inject_crc_error v)
  (superbrief_read_register v) (config v) (rands v) (scc_opened v).
Definition set_encrypt_padding n v := mkVars (debug v) (plaintext_length v) (byte_offset v) n
  (decrypt_padding_allowance v) (check_mode v) (crypto_mode v) (encrypt_only v) (inject_crc_error v)
  (superbrief_read_register v) (config v) (rands v) (scc_opened v).
Definition set_decrypt_padding n v := mkVars (debug v) (plaintext_length v) (byte_offset v)
  (encrypt_padding_allowance v) n (check_mode v) (crypto_mode v) (encrypt_only v) (inject_crc_error v)
  (superbrief_read_register v) (config v) (rands v) (scc_opened v).
Definition set_check_mode n v := mkVars (debug v) (plaintext_length v) (byte_offset v)
  (encrypt_padding_allowance v) (decrypt_padding_allowance v) n (crypto_mode v) (encrypt_only v)
  (inject_crc_error v) (superbrief_read_register v) (config v) (rands v) (scc_opened v).
Definition set_crypto_mode n v := mkVars (debug v) (plaintext_length v) (byte_offset v)
  (encrypt_padding_allowance v) (decrypt_padding_allowance v) (check_mode v) n (encrypt_only v)
  (inject_crc_error v) (superbrief_read_register v) (config v) (rands v) (scc_opened v).
Definition set_encrypt_only b v := mkVars (debug v) (plaintext_length v) (byte_offset v)
  (encrypt_padding_allowance v) (decrypt_padding_allowance v) (check_mode v) (crypto_mode v) b
  (inject_crc_error v) (superbrief_read_register v) (config v) (rands v) (scc_opened v).
Definition set_inject n v := mkVars (debug v) (plaintext_length v) (byte_offset v)
  (encrypt_padding_allowance v) (decrypt_padding_allowance v) (check_mode v) (crypto_mode v)
  (encrypt_only v) n (superbrief_read_register v) (config v) (rands v) (scc_opened v).
Definition set_superbrief b v := mkVars (debug v) (plaintext_length v) (byte_offset v)
  (encrypt_padding_allowance v) (decrypt_padding_allowance v) (check_mode v) (crypto_mode v)
  (encrypt_only v) (inject_crc_error v) b (config v) (rands v) (scc_opened v).
Definition set_config c v := mkVars (debug v) (plaintext_length v) (byte_offset v)
  (encrypt_padding_allowance v) (decrypt_padding_allowance v) (check_mode v) (crypto_mode v)
  (encrypt_only v) (inject_crc_error v) (superbrief_read_register v) c (rands v) (scc_opened v).
Definition count_rand v := mkVars (debug v) (plaintext_length v) (byte_offset v)
  (encrypt_padding_allowance v) (decrypt_padding_allowance v) (check_mode v) (crypto_mode v)
  (encrypt_only v) (inject_crc_error v) (superbrief_read_register v) (config v) (S (rands v)) (scc_opened v).
Definition set_opened b v := mkVars (debug v) (plaintext_length v) (byte_offset v)
  (encrypt_padding_allowance v) (decrypt_padding_allowance v) (check_mode v) (crypto_mode v)
  (encrypt_only v) (inject_crc_error v) (superbrief_read_register v) (config v) (rands v) b.
End Setters.

(** The plain text: what is compiled in, then [i % 256]. *)
Definition plaintext_data : list Z :=
  [0xca; 0xbb; 0xad; 0xba; 0xde; 0xad; 0xbe; 0xef; 0xdb; 0xea; 0x11; 0xbe;
   65; 66; 67; 68; 0x73; 0x1c; 0xab; 0xad; 0xab; 0xad; 0xac; 0x24].
Definition sizeof_plaintext : Z := 4096.

(** ** Parsing of the key slot arguments *)
(** ["%d:%Lx"] *)
Definition scan_slot (s : string) : option (Z * Z * string) :=
  match scan_dec s with
  | Some (a, String ":" rest) =>
      match scan_x 64 rest with Some (b, rest) => Some (a, b, rest) | None => None end
  | _ => None
  end.
(** ["%d:%Lx:%c:%s"] *)
Definition scan_key (s : string) : option (Z * Z * ascii * string) :=
  match scan_slot s with
  | Some (a, b, String ":" (String c (String ":" rest))) =>
      match token (skip_space rest) with EmptyString => None | t => Some (a, b, c, t) end
  | _ => None
  end.
(** [sscanf(s + i, "%2x", &byte)] for each second [i], the bytes that were
    read and whether all were. *)
Definition scan_byte (s : string) : option Z :=
  match scan_x 32 (match s with String a (String b _) => String a (String b EmptyString) | _ => s end) with
  | Some (v, _) => Some v
  | None => None
  end.
Fixpoint hex_values (s : string) : list (option Z) :=
  match s with
  | EmptyString => []
  | String _ EmptyString => [scan_byte s]
  | String _ (String _ r) => scan_byte s :: hex_values r
  end.
Definition hex_digit (d : Z) : ascii := ascii_of_N (Z.to_N (if d <? 10 then 48 + d else 87 + d)).
Definition hex02 (b : Z) : string := String (hex_digit (b / 16)) (String (hex_digit (b mod 16)) EmptyString).

(** Where the objects of the program lie: the plain text, one structure of
    each kind on the stack, the word, key and blob. *)
Record places := mkPlaces {
  plaintext : Z; cipher_control : Z; register_access : Z; value_p : Z;
  alloc_acc : Z; dealloc_acc : Z; load_acc : Z; info_acc : Z; unload_acc : Z; key_p : Z; blob_p : Z;
}.

Section Program.
Context `{Kernel} `{PortableOs} {D : Type} `{SccDriver D} `{SccHeader} (SCC_DEBUG : bool).
Abbreviation P := (proc D globals scc_vars).
(** What memory holds before it is set, where [malloc] finds it, the results of
    [rand], the descriptor of the open file and where [mmap] maps it. *)
Context (at_ : places) (junk : list Z) (o_alloc : nat -> Z -> option (Z * list Z)) (o_rand : nat -> Z)
  (scc_fd mmap_p : Z).

Definition puts (s : string) : M P unit := printf s [].
Definition ioctl (cmd arg : Z) : M P Z := UserProc.syscall (scc_test_ioctl SCC_DEBUG cmd arg).
Definition flag (v mask : Z) (text : string) : parg :=
  AStr (if truth (Z.land v mask) then text else EmptyString).

Definition init_vars : scc_vars :=
  mkVars false DEFAULT_PLAINTEXT_LENGTH 0 DEFAULT_PADDING_ALLOWANCE 0 SCC_VERIFY_MODE_NONE SCC_ECB_MODE
    false 0 false None 0 false.

(** ** Registers *)
Definition write_scc_register (reg value : Z) : M P Z :=
  store (register_access at_) (set scc_reg_access "reg_data" value
    (set scc_reg_access "reg_offset" reg (fresh junk scc_reg_access)));;
  status ← ioctl SCC_TEST_WRITE_REG (register_access at_);
  when (negb (status =? IOCTL_SCC_OK)) (perror "Ioctl SCC_TEST_WRITE_REG failed: ");;
  mret status.
(** With what [*value] is after the call. *)
Definition read_scc_register (reg : Z) (value : option Z) : M P (Z * option Z) :=
  store (register_access at_) (set scc_reg_access "reg_offset" reg (fresh junk scc_reg_access));;
  status ← ioctl SCC_TEST_READ_REG (register_access at_);
  if negb (status =? IOCTL_SCC_OK) then
    perror "Ioctl SCC_TEST_READ_REG failed: ";;
    mret (status, value)
  else
    v ← field scc_reg_access (register_access at_) "reg_data";
    mret (status, Some v).

(** ** Showing values *)
Definition print_ram_data (ram address count : Z) : M P unit :=
  for_m (Z.to_nat count) 0 (fun i =>
    when (i mod 8 =? 0) (printf "(%04X) " [AInt (u32 (address + i * 4))]);;
    w ← load (ram + 4 * i) 4;
    printf "%08x " [AInt (of_le w)];;
    if i mod 8 =? 7 then puts "\n"
    else when (i mod 8 =? 3) (puts " "));;
  when (negb (count mod 8 =? 0)) (puts "\n").
Definition get_smn_state_name (state : Z) : string :=
  if state =? SMN_STATE_START then "START"
  else if state =? SMN_STATE_ZEROIZE_RAM then "ZEROIZE"
  else if state =? SMN_STATE_HEALTH_CHECK then "HEALTH CHECK"
  else if state =? SMN_STATE_FAIL then "FAIL"
  else if state =? SMN_STATE_SECURE then "SECURE"
  else if state =? SMN_STATE_NON_SECURE then "NON-SECURE"
  else "UNKNOWN".
Definition print_smn_status_register (status : Z) : M P unit :=
  let version_id := Z.shiftr (Z.land status SMN_STATUS_VERSION_ID_MASK) SMN_STATUS_VERSION_ID_SHIFT in
  let state := u8 (Z.shiftr (Z.land status SMN_STATUS_STATE_MASK) SMN_STATUS_STATE_SHIFT) in
  printf "Version %d %s%s%s%s%s%s%s%s%s%s%s%s%s%s%s%s%s%s%s%s, State: %s\n"
    [AInt version_id;
     flag status SMN_STATUS_CACHEABLE_ACCESS ", CACHEABLE_ACCESS";
     flag status SMN_STATUS_ILLEGAL_MASTER ", ILLEGAL_MASTER";
     flag status SMN_STATUS_SCAN_EXIT ", SCAN_EXIT";
     flag status SMN_STATUS_UNALIGNED_ACCESS ", UNALIGNED_ACCESS";
     flag status SMN_STATUS_BYTE_ACCESS ", BYTE_ACCESS";
     flag status SMN_STATUS_ILLEGAL_ADDRESS ", ILLEGAL_ADDRESS";
     flag status SMN_STATUS_USER_ACCESS ", USER_ACCESS";
     flag status SMN_STATUS_DEFAULT_KEY ", DEFAULT_KEY";
     flag status SMN_STATUS_BAD_KEY ", BAD_KEY";
     flag status SMN_STATUS_ILLEGAL_ACCESS ", ILLEGAL_ACCESS";
     flag status SMN_STATUS_SCM_ERROR ", SCM_ERROR";
     flag status SMN_STATUS_SMN_STATUS_IRQ ", SMN_IRQ";
     flag status SMN_STATUS_SOFTWARE_ALARM ", SOFTWARE_ALARM";
     flag status SMN_STATUS_TIMER_ERROR ", TIMER_ERROR";
     flag status SMN_STATUS_PC_ERROR ", PC_ERROR";
     flag status SMN_STATUS_ASC_ERROR ", ASC_ERROR";
     flag status SMN_STATUS_SECURITY_POLICY_ERROR ", SECURITY_POLICY_ERROR";
     flag status SMN_STATUS_DEBUG_ACTIVE ", DEBUG_ACTIVE";
     flag status SMN_STATUS_ZEROIZE_FAIL ", ZEROIZE_FAIL";
     flag status SMN_STATUS_INTERNAL_BOOT ", INTERNAL_BOOT";
     AStr (get_smn_state_name state)].
Definition print_scm_status_register (status : Z) : M P unit :=
  printf "%s%s%s%s%s%s%s%s%s%s%s%s%s\n"
    [flag status SCM_STATUS_LENGTH_ERROR ", LENGTH_ERROR";
     flag status SCM_STATUS_BLOCK_ACCESS_REMOVED ", NO_BLOCK_ACCESS";
     flag status SCM_STATUS_CIPHERING_DONE ", CIPHERING_DONE";
     flag status SCM_STATUS_ZEROIZING_DONE ", ZEROIZING_DONE";
     flag status SCM_STATUS_INTERRUPT_STATUS ", INTERRUPT_STATUS";
     flag status SCM_STATUS_SECRET_KEY ", SECRET_KEY_IN_USE";
     flag status SCM_STATUS_INTERNAL_ERROR ", INTERNAL_ERROR";
     flag status SCM_STATUS_BAD_SECRET_KEY ", BAD_SECRET_KEY";
     flag status SCM_STATUS_ZEROIZE_FAILED ", ZEROIZE_FAILED";
     flag status SCM_STATUS_SMN_BLOCKING_ACCESS ", SMN_BLOCKING_ACCESS";
     flag status SCM_STATUS_CIPHERING ", CIPHERING";
     flag status SCM_STATUS_ZEROIZING ", ZEROIZING";
     flag status SCM_STATUS_BUSY ", BUSY"].
Definition print_scm_control_register (control : Z) : M P unit :=
  printf "%s%s%s\n"
    [AStr (if Z.land control SCM_CONTROL_CIPHER_MODE_MASK =? SCM_DECRYPT_MODE then "DECRYPT " else "ENCRYPT ");
     AStr (if Z.land control SCM_CONTROL_CHAINING_MODE_MASK =? SCM_CBC_MODE then "CBC " else "ECB ");
     flag control SCM_CONTROL_START_CIPHER "CipherStart"].
Definition print_scc_error_status_register (error : Z) : M P unit :=
  printf "%s%s%s%s%s%s%s%s%s%s%s%s%s%s%s\n"
    [AStr EmptyString;
     flag error SCM_ERR_CACHEABLE_ACCESS ", CACHEABLE_ACCESS";
     flag error SCM_ERR_ILLEGAL_MASTER ", ILLEGAL_MASTER";
     flag error SCM_ERR_UNALIGNED_ACCESS ", UNALIGNED_ACCESS";
     flag error SCM_ERR_BYTE_ACCESS ", BYTE_ACCESS";
     flag error SCM_ERR_ILLEGAL_ADDRESS ", ILLEGAL_ADDRESS";
     flag error SCM_ERR_USER_ACCESS ", USER_ACCESS";
     flag error SCM_ERR_SECRET_KEY_IN_USE ", SECRET_KEY_IN_USE";
     flag error SCM_ERR_INTERNAL_ERROR ", INTERNAL_ERROR";
     flag error SCM_ERR_BAD_SECRET_KEY ", BAD_SECRET_KEY";
     flag error SCM_ERR_ZEROIZE_FAILED ", ZEROIZE_FAILED";
     flag error SCM_ERR_SMN_BLOCKING_ACCESS ", SMN_BLOCKING_ACCESS";
     flag error SCM_ERR_CIPHERING ", CIPHERING";
     flag error SCM_ERR_ZEROIZING ", ZEROIZING";
     flag error SCM_ERR_BUSY ", BUSY"].
(** The zero bits shown are those of the global [debug], not of the register. *)
Definition debug_value : M P Z := d ← getv debug; mret (if d : bool then 1 else 0).
Definition print_smn_command_register (command : Z) : M P unit :=
  when (truth (Z.land command SMN_COMMAND_ZEROS_MASK)) (
    d ← debug_value; printf " zeroes: 0x%08x" [AInt (Z.land d SMN_COMMAND_ZEROS_MASK)]);;
  printf "%s%s%s%s\n"
    [flag command SMN_COMMAND_CLEAR_INTERRUPT " CLEAR_INTERRUPT";
     flag command SMN_COMMAND_CLEAR_BIT_BANK " CLEAR_BITBANK";
     flag command SMN_COMMAND_ENABLE_INTERRUPT " ENABLE_INTERRUPT";
     flag command SMN_COMMAND_SET_SOFTWARE_ALARM " SET_SOFWARE_ALARM"].
Definition print_smn_timer_control_register (control : Z) : M P unit :=
  when (truth (Z.land control SMN_TIMER_CTRL_ZEROS_MASK)) (
    d ← debug_value; printf " zeroes: 0x%08x" [AInt (Z.land d SMN_TIMER_CTRL_ZEROS_MASK)]);;
  printf "%s%s\n" [flag control SMN_TIMER_LOAD_TIMER " LOAD_TIMER"; flag control SMN_TIMER_START_TIMER " START_TIMER"].
Definition print_scc_debug_detector_register (debug : Z) : M P unit :=
  when (truth (Z.land debug SMN_DBG_ZEROS_MASK))
    (printf " zeroes: 0x%08x" [AInt (Z.land debug SMN_DBG_ZEROS_MASK)]);;
  printf "%s%s%s%s%s%s%s%s%s%s%s%s\n"
    [flag debug SMN_DBG_D1 " D1"; flag debug SMN_DBG_D2 " D2"; flag debug SMN_DBG_D3 " D3";
     flag debug SMN_DBG_D4 " D4"; flag debug SMN_DBG_D5 " D5"; flag debug SMN_DBG_D6 " D6";
     flag debug SMN_DBG_D7 " D7"; flag debug SMN_DBG_D8 " D8"; flag debug SMN_DBG_D9 " D9";
     flag debug SMN_DBG_D10 " D10"; flag debug SMN_DBG_D11 " D11"; flag debug SMN_DBG_D12 " D12"].
Definition return_code_name (code : Z) : option string :=
  if code =? SCC_RET_OK then Some "SCC_RET_OK"
  else if code =? SCC_RET_FAIL then Some "SCC_RET_FAIL"
  else if code =? SCC_RET_VERIFICATION_FAILED then Some "SCC_RET_VERIFICATION_FAILED"
  else if code =? SCC_RET_TOO_MANY_FUNCTIONS then Some "SCC_RET_TOO_MANY_FUNCTIONS"
  else if code =? SCC_RET_BUSY then Some "SCC_RET_BUSY"
  else if code =? SCC_RET_INSUFFICIENT_SPACE then Some "SCC_RET_INSUFFICIENT_SPACE"
  else None.
Definition print_scc_return_code (code : Z) : M P unit :=
  match return_code_name code with
  | Some msg => printf "SCC return code: %s\n" [AStr msg]
  | None => printf "SCC return code: %d\n" [AInt code]
  end.
Definition dump_cipher_control_block : M P unit :=
  s ← load (cipher_control at_) (sizeof scc_encrypt_decrypt);
  printf "data_out_length: %ld" [AInt (i32 (get scc_encrypt_decrypt "data_out_length" s))];;
  when (get scc_encrypt_decrypt "crypto_mode" s =? SCC_CBC_MODE) (
    let iv := get_bytes scc_encrypt_decrypt "init_vector" s in
    printf ", init_vector: 0x%08x%08x" [AInt (of_le (take 4 iv)); AInt (of_le (drop 4 iv))]);;
  puts "\n".

(** Registers with what is printed for each, and the interpretation. *)
Definition no_interpretation (_ : Z) : M P unit := skip.
Fixpoint show_registers (l : list (Z * string * (Z -> M P unit) * string)) : M P Z :=
  match l with
  | [] => mret 0
  | (reg, text, interpret, failed) :: l =>
      '(status, value) ← read_scc_register reg None;
      had_error ← (if status =? 0 then
          value ← value_of value;
          printf text [AInt reg; AInt value];;
          interpret value;;
          mret 0
        else puts failed;; mret 1);
      more ← show_registers l;
      mret (had_error + more)
  end.
Definition scm_status_line : Z * string * (Z -> M P unit) * string :=
  (SCM_STATUS, "(%04X) SCM Status                     (0x%08x): ", print_scm_status_register,
   "(Could not get SCM Status Register)\n")%string.
Definition scm_error_line : Z * string * (Z -> M P unit) * string :=
  (SCM_ERROR_STATUS, "(%04X) SCM Error Register             (0x%08x):", print_scc_error_status_register,
   "(Could not get SCM Error Register)\n")%string.
Definition scm_interrupt_line : Z * string * (Z -> M P unit) * string :=
  (SCM_INTERRUPT_CTRL, "(%04X) SCM Interrupt Control Register: 0x%08x\n", no_interpretation,
   "(Could not get SCM Interrupt Control Register)\n")%string.
Definition scm_configuration_line : Z * string * (Z -> M P unit) * string :=
  (SCM_CONFIGURATION, "(%04X) SCM Configuration Register:     0x%08x\n", no_interpretation,
   "(Could not get SCM Configuration Register)\n")%string.
Definition smn_status_line : Z * string * (Z -> M P unit) * string :=
  (SMN_STATUS, "(%04X) SMN Status Register            (0x%08x): ", print_smn_status_register,
   "(Could not get SMN Status Register)\n")%string.
Definition smn_command_line : Z * string * (Z -> M P unit) * string :=
  (SMN_COMMAND, "(%04X) SMN Command Register:          (0x%08x):", print_smn_command_register,
   "(Could not get SMN Command Register)\n")%string.
Definition smn_debug_line : Z * string * (Z -> M P unit) * string :=
  (SMN_DEBUG_DETECT_STAT, "(%04X) SMN Debug Detected Register:   (0x%08x):",
   print_scc_debug_detector_register, "(Could not get SMN Debug Detected Register)\n")%string.
Definition check_safe_registers : M P Z :=
  had_error ← show_registers [scm_status_line; scm_error_line; scm_interrupt_line; scm_configuration_line;
    smn_status_line; smn_command_line; smn_debug_line];
  mret (if had_error =? 0 then 0 else 1).
Definition dump_registers : M P Z :=
  scm ← show_registers [
    (SCM_RED_START, "(%04X) SCM Red Start Register:         0x%08x\n", no_interpretation,
     "(Could not get SCM Red Start Register)\n");
    (SCM_BLACK_START, "(%04X) SCM Black Start Register:       0x%08x\n", no_interpretation,
     "(Could not get SCM Black Start Register)\n");
    (SCM_LENGTH, "(%04X) SCM Length Register:            0x%08x\n", no_interpretation,
     "(Could not get SCM Length Register)\n");
    (SCM_CONTROL, "(%04X) SCM Control Register           (0x%08x): ", print_scm_control_register,
     "(Could not get SCM Control Register)\n");
    scm_status_line; scm_error_line; scm_interrupt_line; scm_configuration_line;
    (SCM_INIT_VECTOR_0, "(%04X) SCM Init Vector 0 Register:     0x%08x\n", no_interpretation,
     "(Could not get SCM Init Vector 0 Register)\n");
    (SCM_INIT_VECTOR_1, "(%04X) SCM Init Vector 1 Register:     0x%08x\n", no_interpretation,
     "(Could not get SCM Init Vector 1 Register)\n")]%string;
  puts "\n";;
  smn ← show_registers [
    smn_status_line; smn_command_line;
    (SMN_SEQUENCE_START, "(%04X) SMN Sequence Start Register:    0x%08x\n", no_interpretation,
     "(Could not get SMN Sequence Start Register)\n");
    (SMN_SEQUENCE_END, "(%04X) SMN Sequence End Register:      0x%08x\n", no_interpretation,
     "(Could not get SMN Sequence IV Register)\n");
    (SMN_SEQUENCE_CHECK, "(%04X) SMN Sequence Check Register:    0x%08x\n", no_interpretation,
     "(Could not get SMN Sequence Check Register)\n");
    (SMN_BIT_COUNT, "(%04X) SMN Bit Count Register:         0x%08x\n", no_interpretation,
     "(Could not get SMN Bit Count Register)\n");
    (SMN_BITBANK_INC_SIZE, "(%04X) SMN Bit Bank Inc Size Register: 0x%08x\n", no_interpretation,
     "(Could not get SMN Bit Bank Inc Size Register)\n");
    (SMN_COMPARE_SIZE, "(%04X) SMN Compare  Size Register:     0x%08x\n", no_interpretation,
     "(Could not get SMN Compare Size Register)\n");
    (SMN_PLAINTEXT_CHECK, "(%04X) SMN Plaintext  Check Register:  0x%08x\n", no_interpretation,
     "(Could not get SMN Plaintext Check Register)\n");
    (SMN_CIPHERTEXT_CHECK, "(%04X) SMN Ciphertext  Check Register: 0x%08x\n", no_interpretation,
     "(Could not get SMN Ciphertext Check Register)\n");
    (SMN_TIMER_IV, "(%04X) SMN Timer IV Register:          0x%08x\n", no_interpretation,
     "(Could not get SMN Timer IV Register)\n");
    (SMN_TIMER_CONTROL, "(%04X) SMN Timer Control Register     (0x%08x): ", print_smn_timer_control_register,
     "(Could not get SMN Timer IV Register)\n");
    smn_debug_line;
    (SMN_TIMER, "(%04X) SMN Timer Register:            (0x%08x)\n", no_interpretation,
     "(Could not get SMN Timer Register)\n")]%string;
  mret (if scm + smn =? 0 then 0 else 1).

(** ** Configuration *)
Definition get_scc_configuration : M P (option Z) :=
  c ← getv config;
  match c with
  | Some q => mret (Some q)
  | None =>
      q ← calloc o_alloc (Z.of_nat (sizeof scc_configuration_access));
      match q with
      | None => mret None
      | Some q =>
          status ← ioctl SCC_TEST_GET_CONFIGURATION q;
          if negb (status =? IOCTL_SCC_OK) then
            perror "Ioctl SCC_GET_CONFIGURATION failed: ";;
            mret None
          else setv (set_config (Some q));; mret (Some q)
      end
  end.
Definition display_configuration : M P unit :=
  c ← get_scc_configuration;
  match c with
  | None => perror "\nCannot display SCC Configuration"
  | Some q =>
      s ← load q (sizeof scc_configuration_access);
      let f x := AInt (i32 (get scc_configuration_access x s)) in
      printf "SCM version: %d, SMN version: %d, driver version %d.%d\n"
        [f "scm_version"; f "smn_version"; f "driver_major_version"; f "driver_minor_version"];;
      printf "SCM block size is %d bytes, Black has %d blocks, Red has %d blocks\n"
        [f "block_size"; f "black_ram_size"; f "red_ram_size"]
  end.

(** ** Zeroizing, alarm, timer *)
Definition zeroize_check (reg : Z) (value : option Z) : M P (option Z) :=
  '(_, value) ← read_scc_register reg value;
  v ← value_of value;
  when (v =? 42) (fprintf_stderr "Zeroize failed at 0x%x\n" [AInt reg]);;
  mret (Some v).
Definition run_zeroize_tests : M P unit :=
  puts "\n***Zeroize Test\n";;
  _ ← write_scc_register SCM_RED_MEMORY 42;
  _ ← write_scc_register (SCM_RED_MEMORY + 1020) 42;
  _ ← write_scc_register SCM_BLACK_MEMORY 42;
  _ ← write_scc_register (SCM_BLACK_MEMORY + 1020) 42;
  store (value_p at_) (take 4 (junk ++ replicate 4 0));;
  status ← ioctl SCC_TEST_ZEROIZE (value_p at_);
  value ← load (value_p at_) 4;
  if negb (status =? IOCTL_SCC_OK) then
    perror "Ioctl SCC_TEST_ZEROIZE failed: ";;
    fprintf_stderr "Function return code: %0x\n" [AInt (of_le value)]
  else
    value ← zeroize_check SCM_RED_MEMORY (Some (of_le value));
    value ← zeroize_check (SCM_RED_MEMORY + 1020) value;
    value ← zeroize_check SCM_BLACK_MEMORY value;
    _ ← zeroize_check (SCM_BLACK_MEMORY + 1020) value;
    skip.
Definition set_software_alarm : M P unit := _ ← ioctl SCC_TEST_SET_ALARM 0; skip.
Definition run_timer_tests (timer_iv : Z) : M P unit :=
  printf "Writing 0x%x into SMN_TIMER_IV\n" [AInt timer_iv];;
  _ ← write_scc_register SMN_TIMER_IV timer_iv;
  puts "Loading timer using SMN_TIMER_CONTROL\n";;
  _ ← write_scc_register SMN_TIMER_CONTROL SMN_TIMER_LOAD_TIMER;
  '(_, value) ← read_scc_register SMN_TIMER None;
  v ← value_of value;
  printf "SMN_TIMER value: 0x%x\n" [AInt v];;
  puts "Starting timer using SMN_TIMER_CONTROL\n";;
  _ ← write_scc_register SMN_TIMER_CONTROL SMN_TIMER_START_TIMER;
  puts "Stopping the timer\n";;
  '(_, value) ← read_scc_register SMN_TIMER_CONTROL value;
  v ← value_of value;
  _ ← write_scc_register SMN_TIMER_CONTROL (Z.land v (Z.lxor (2 ^ 32 - 1) SMN_TIMER_STOP_MASK));
  '(_, value) ← read_scc_register SMN_TIMER value;
  v ← value_of value;
  printf "SMN_TIMER value: 0x%x\n" [AInt v].
Definition run_aic_tests : M P Z :=
  _ ← write_scc_register SMN_SEQUENCE_START 4;
  _ ← write_scc_register SMN_SEQUENCE_END 5;
  _ ← write_scc_register SMN_SEQUENCE_CHECK 5;
  '(_, value) ← read_scc_register SMN_STATUS None;
  puts "SMN Status: ";;
  v ← value_of value;
  print_smn_status_register v;;
  mret 0.
Definition run_plaintext_cipher_text_tests : M P unit := skip.

(** ** Encryption and decryption *)
(** [init_vector[0] = init_vector[1] = 0]. *)
Definition clear_init_vector : M P unit :=
  s ← load (cipher_control at_) (sizeof scc_encrypt_decrypt);
  store (cipher_control at_) (set_bytes scc_encrypt_decrypt "init_vector" (replicate 8 0) s).
Definition show_status (scm_text smn_text : string) : M P unit :=
  '(_, value) ← read_scc_register SCM_STATUS None;
  v ← value_of value;
  printf scm_text [AInt v];;
  print_scm_status_register v;;
  '(_, value) ← read_scc_register SMN_STATUS value;
  v ← value_of value;
  printf smn_text [AInt v];;
  print_smn_status_register v;;
  '(_, value) ← read_scc_register SCM_ERROR_STATUS value;
  v ← value_of value;
  printf "SCM Error Register          (0x%08x):" [AInt v];;
  print_scc_error_status_register v.
(** [ciphertext[rand()%n] ^= 1] *)
Definition corrupt (ciphertext n : Z) : M P unit :=
  i ← getv rands;
  setv count_rand;;
  if n =? 0 then undef
  else
    let q := ciphertext + o_rand i mod n in
    b ← load q 1;
    store q [Z.lxor (of_le b) 1].
(** [while (bytes_to_check--)]: from the last byte to the first; whether one differs. *)
Fixpoint compare_loop (bytes_to_check : nat) (new_plaintext : Z) (had_error : Z) : M P Z :=
  match bytes_to_check with
  | O => mret had_error
  | S bytes_to_check =>
      let i := Z.of_nat bytes_to_check in
      a ← load (plaintext at_ + i) 1;
      b ← load (new_plaintext + i) 1;
      if negb (of_le a =? of_le b) then
        printf "Error:  input plaintext (0x%02x) and output plaintext (0x%02x) do not match at offset %d.\n"
          [AInt (of_le a); AInt (of_le b); AInt i];;
        compare_loop bytes_to_check new_plaintext 1
      else compare_loop bytes_to_check new_plaintext had_error
  end.
Definition run_decryption (ciphertext new_plaintext : Z) : M P Z :=
  let T := scc_encrypt_decrypt in
  let p := cipher_control at_ in
  v ← gets vars;
  run_zeroize_tests;;
  assign T p "data_in" ciphertext;;
  out_length ← field T p "data_out_length";
  assign T p "data_in_length" out_length;;
  assign T p "data_out" new_plaintext;;
  assign T p "data_out_length" (u32 (plaintext_length v + decrypt_padding_allowance v));;
  when (truth (inject_crc_error v)) (corrupt ciphertext out_length);;
  when (crypto_mode v =? SCC_CBC_MODE) clear_init_vector;;
  assign T p "crypto_mode" (crypto_mode v);;
  assign T p "check_mode" (check_mode v);;
  assign T p "wait_mode" SCC_ENCRYPT_POLL;;
  _ ← write_scc_register SCM_INIT_VECTOR_0 0;
  _ ← write_scc_register SCM_INIT_VECTOR_1 0;
  _ ← write_scc_register SCM_INTERRUPT_CTRL
        (Z.lor SCM_INTERRUPT_CTRL_CLEAR_INTERRUPT SCM_INTERRUPT_CTRL_MASK_INTERRUPTS);
  puts "**Start Decrypting...\n";;
  status ← ioctl SCC_TEST_DECRYPT p;
  if negb (status =? IOCTL_SCC_OK) then
    fprintf_stderr "Decrypt failed\n" [];;
    rc ← field T p "function_return_code";
    print_scc_return_code rc;;
    mret 1
  else
    when (debug v) (
      dump_cipher_control_block;;
      print_ram_data new_plaintext SCM_RED_MEMORY 10;;
      show_status "SCM Register                (0x%08x): " "SMN Register                (0x%08x): ");;
    out_length ← field T p "data_out_length";
    when (negb (out_length =? u32 (plaintext_length v)))
      (printf "Error:  input plaintext length (%d) and output plaintext length (%ld) do not match.\n"
         [AInt (plaintext_length v); AInt (i32 out_length)]);;
    had_error ← compare_loop (Z.to_nat (plaintext_length v)) new_plaintext 0;
    puts "***Successful end of Cipher Test\n";;
    mret had_error.
Definition run_cipher_tests : M P Z :=
  let T := scc_encrypt_decrypt in
  let p := cipher_control at_ in
  v ← gets vars;
  q ← malloc o_alloc sizeof_plaintext;
  let ciphertext := u32 (default 0 q + byte_offset v) in
  q ← malloc o_alloc (u32 (sizeof_plaintext + byte_offset v));
  let new_plaintext := default 0 q in
  store p (fresh junk T);;
  assign T p "data_in" (plaintext at_);;
  assign T p "data_in_length" (plaintext_length v);;
  assign T p "data_out" ciphertext;;
  assign T p "data_out_length" (u32 (plaintext_length v + encrypt_padding_allowance v));;
  clear_init_vector;;
  assign T p "crypto_mode" (crypto_mode v);;
  assign T p "check_mode" (check_mode v);;
  assign T p "wait_mode" SCC_ENCRYPT_POLL;;
  _ ← write_scc_register SCM_INIT_VECTOR_0 0;
  _ ← write_scc_register SCM_INIT_VECTOR_1 0;
  puts "***CIPHER: Start Encrypting....\n";;
  status ← ioctl SCC_TEST_ENCRYPT p;
  if negb (status =? IOCTL_SCC_OK) then
    fprintf_stderr "Encrypt failed\n" [];;
    rc ← field T p "function_return_code";
    print_scc_return_code rc;;
    mret 1
  else
    when (debug v) (
      dump_cipher_control_block;;
      print_ram_data ciphertext SCM_BLACK_MEMORY 32;;
      show_status "SCM Status                  (0x%08x): " "SMN Status                  (0x%08x): ");;
    puts "***End of Encryption\n";;
    if encrypt_only v then mret 0 else run_decryption ciphertext new_plaintext.

(** ** Mapping the registers *)
Definition run_mmap_tests : M P unit :=
  r ← lift (dispatch SCC_DEBUG (Smmap (mkVma mmap_p 0 false)));
  let r := default (- ENODEV) r in
  if r <? 0 then modify (set_errno (- r));; perror "mmap failed: "
  else
    printf "SMN appears at %08x\n" [AInt mmap_p];;
    a ← load (mmap_p + 4 * SMN_SEQUENCE_CHECK) 4;
    printf "SMN_SEQUENCE_CHECK: %08x\n" [AInt (of_le a)];;
    b ← load (mmap_p + 4 * SMN_PLAINTEXT_CHECK) 4;
    printf "SMN_PLAINTEXT_CHECK: %08x\n" [AInt (of_le b)];;
    c ← load (mmap_p + 4 * SMN_CIPHERTEXT_CHECK) 4;
    printf "SMN_CIPHERTEXT_CHECK: %08x\n" [AInt (of_le c)].

(** ** Key slots *)
(** An ioctl on a slot structure: 0, the result of the call, or 1 when the
    driver refused. *)
Definition slot_call (cmd : Z) (T : cstruct) (p : Z) (call_failed refused : string) : M P Z :=
  status ← ioctl cmd p;
  if negb (status =? 0) then
    printf call_failed [AInt status];;
    mret status
  else
    scc_status ← field T p "scc_status";
    if negb (i32 scc_status =? SCC_RET_OK) then
      printf refused [AInt (i32 scc_status)];;
      mret 1
    else mret 0.
(** The words of the key in the controller's memory. *)
Definition check_key (key : list Z) (first : Z -> Z -> M P unit) (second : M P unit) (passed : M P unit) : M P Z :=
  address ← field scc_get_slot_info_access (info_acc at_) "address";
  '(status, word) ← read_scc_register (address mod 8192) None;
  if negb (status =? 0) then mret status
  else
    word ← value_of word;
    if negb (word =? of_le (take 4 key)) then
      first word (of_le (take 4 key));;
      mret 1
    else
      '(status, word) ← read_scc_register (address mod 8192 + 4) (Some word);
      if negb (status =? 0) then mret status
      else
        word ← value_of word;
        if negb (word =? of_le (take 4 (drop 4 key))) then second;; mret 1
        else passed;; mret 0.
(** ["abcdefgh"] and its terminator *)
Definition wrap_key : list Z := [97; 98; 99; 100; 101; 102; 103; 104; 0].
Definition run_wrap_tests : M P Z :=
  let A := scc_alloc_slot_access in let L := scc_load_slot_access in
  let I := scc_get_slot_info_access in let U := scc_encrypt_slot_access in
  store (key_p at_) wrap_key;;
  store (alloc_acc at_) (fresh junk A);;
  store (load_acc at_) (fresh junk L);;
  store (info_acc at_) (fresh junk I);;
  store (unload_acc at_) (fresh junk U);;
  assign A (alloc_acc at_) "owner_id" 42;;
  assign A (alloc_acc at_) "value_size_bytes" 8;;
  status ← slot_call SCC_TEST_ALLOC_SLOT A (alloc_acc at_) "ioctl for slot alloc returned %d\n"
             "Slot alloc returned %d\n";
  let slot_allocated := status =? 0 in
  when (status =? 0) (
    slot ← field A (alloc_acc at_) "slot";
    printf "Using slot %d\n" [AInt (i32 slot)]);;
  status ← (if status =? 0 then
      slot ← field A (alloc_acc at_) "slot";
      assign L (load_acc at_) "slot" slot;;
      assign L (load_acc at_) "owner_id" 42;;
      assign L (load_acc at_) "key_is_red" 1;;
      assign L (load_acc at_) "key_data" (key_p at_);;
      size ← field A (alloc_acc at_) "value_size_bytes";
      assign L (load_acc at_) "key_data_length" size;;
      slot_call SCC_TEST_LOAD_SLOT L (load_acc at_) "ioctl for load RED value returned %d\n"
        "Red value load returned %d\n"
    else mret status);
  status ← (if status =? 0 then
      slot ← field A (alloc_acc at_) "slot";
      assign I (info_acc at_) "slot" slot;;
      assign I (info_acc at_) "owner_id" 42;;
      status ← slot_call SCC_TEST_GET_SLOT_INFO I (info_acc at_) "ioctl for get slot info returned %d\n"
                 "Get slot info returned %d\n";
      if status =? 0 then
        key ← load (key_p at_) 8;
        check_key key
          (fun word k => printf "First word of RED key does not match!:  0x%x/0x%x\n" [AInt word; AInt k])
          (puts "Second word of RED key does not match!\n") skip
      else mret status
    else mret status);
  (* unload the key *)
  '(status, slot_allocated) ← (if status =? 0 then
      slot ← field A (alloc_acc at_) "slot";
      assign U (unload_acc at_) "slot" slot;;
      assign U (unload_acc at_) "owner_id" 42;;
      assign U (unload_acc at_) "key_data" (blob_p at_);;
      size ← field A (alloc_acc at_) "value_size_bytes";
      assign U (unload_acc at_) "key_data_length" size;;
      status ← slot_call SCC_TEST_ENCRYPT_SLOT U (unload_acc at_) "ioctl for encrypt value returned %d\n"
                 "Value unload returned %d\n";
      mret (status, if status =? 0 then false else slot_allocated)
    else mret (status, slot_allocated));
  (* a slot again *)
  '(status, slot_allocated) ← (if (status =? 0) && negb slot_allocated then
      status ← slot_call SCC_TEST_ALLOC_SLOT A (alloc_acc at_) "ioctl for slot (re)alloc returned %d\n"
                 "Slot (re)alloc returned %d\n";
      mret (status, if status =? 0 then true else slot_allocated)
    else mret (status, slot_allocated));
  (* the black key *)
  status ← (if (status =? 0) && slot_allocated then
      assign L (load_acc at_) "key_is_red" 0;;
      assign L (load_acc at_) "key_data" (blob_p at_);;
      status ← slot_call SCC_TEST_LOAD_SLOT L (load_acc at_) "ioctl for load BLACK value returned %d\n"
                 "Black value load returned %d\n";
      if status =? 0 then
        key ← load (key_p at_) 8;
        check_key key (fun _ _ => puts "First word of reloaded key does not match!\n")
          (puts "Second word of reloaded key does not match!\n") (puts "Wrapped Key test passed\n")
      else mret status
    else mret status);
  if slot_allocated : bool then
    store (dealloc_acc at_) (fresh junk scc_dealloc_slot_access);;
    assign scc_dealloc_slot_access (dealloc_acc at_) "owner_id" 42;;
    slot ← field A (alloc_acc at_) "slot";
    assign scc_dealloc_slot_access (dealloc_acc at_) "slot" slot;;
    status ← slot_call SCC_TEST_DEALLOC_SLOT scc_dealloc_slot_access (dealloc_acc at_)
               "ioctl for slot dealloc returned %d\n" "Slot dealloc returned %d\n";
    if status =? 0 then puts "(slot successfully deallocated)\n";; mret 0 else mret 1
  else mret status.

(** ** One request about a slot *)
Definition ask_info (slot owner : Z) : M P (Z * Z) :=
  let I := scc_get_slot_info_access in
  store (info_acc at_) (fresh junk I);;
  assign I (info_acc at_) "slot" slot;;
  assign I (info_acc at_) "owner_id" owner;;
  status ← ioctl SCC_TEST_GET_SLOT_INFO (info_acc at_);
  scc_status ← field I (info_acc at_) "scc_status";
  mret (status, i32 scc_status).
Definition allocate_slot (arg : string) : M P Z :=
  match scan_slot arg with
  | None =>
      printf "improper use of -Ka (%s); need decimal slot size and hex owner:  -KaSSS:OOOO\n" [AStr arg];;
      mret 1
  | Some (slot_size, owner, _) =>
      let A := scc_alloc_slot_access in
      store (alloc_acc at_) (fresh junk A);;
      assign A (alloc_acc at_) "owner_id" owner;;
      assign A (alloc_acc at_) "value_size_bytes" slot_size;;
      status ← slot_call SCC_TEST_ALLOC_SLOT A (alloc_acc at_) "ioctl for slot alloc returned %d\n"
                 "Slot alloc returned %d\n";
      if status =? 0 then
        slot ← field A (alloc_acc at_) "slot";
        '(status, scc_status) ← ask_info slot owner;
        if negb (status =? 0) || negb (scc_status =? SCC_RET_OK) then
          printf "ioctl for slot info returned %d for allocated slot %d/%d\n"
            [AInt status; AInt scc_status; AInt (i32 slot)];;
          mret 1
        else
          address ← field scc_get_slot_info_access (info_acc at_) "address";
          printf "Slot %d at %x is now allocated\n" [AInt (i32 slot); AInt address];;
          mret 0
      else mret status
  end.
Definition deallocate_slot (arg : string) : M P Z :=
  match scan_slot arg with
  | None =>
      printf "improper use of -Kd (%s); need decimal slot id and hex owner:  -KaSSS:OOOO\n" [AStr arg];;
      mret 1
  | Some (slot, owner, _) =>
      let T := scc_dealloc_slot_access in
      store (dealloc_acc at_) (fresh junk T);;
      assign T (dealloc_acc at_) "owner_id" owner;;
      assign T (dealloc_acc at_) "slot" slot;;
      status ← slot_call SCC_TEST_DEALLOC_SLOT T (dealloc_acc at_) "ioctl for slot dealloc returned %d\n"
                 "Slot dealloc returned %d\n";
      if status =? 0 then
        slot ← field T (dealloc_acc at_) "slot";
        printf "Slot %d is now deallocated\n" [AInt (i32 slot)];;
        mret 0
      else mret status
  end.
(** The text of the value is read into 200 bytes. *)
Definition hex_value_size : Z := 200.
Definition load_value (arg : string) : M P Z :=
  match scan_key arg with
  | Some (slot, owner, color, hex_value) =>
      if hex_value_size <=? strlen hex_value then undef
      else if negb (Ascii.eqb color "b") && negb (Ascii.eqb color "r") then
        printf "improper use of -Kl (%s); need decimal slot id, 'r' or 'b', and hex value: -KlSSS:OOOO:r:VVVV\n"
          [AStr arg];;
        mret 1
      else
        let values := hex_values hex_value in
        let bad := List.filter (fun v => match v with None => true | Some _ => false end) values in
        times (length bad) (puts "Hex value is not formed properly\n");;
        if truth (zlen bad) then mret 1
        else
          let T := scc_load_slot_access in
          store (key_p at_) (map (fun v => u8 (default 0 v)) values);;
          store (load_acc at_) (fresh junk T);;
          assign T (load_acc at_) "owner_id" owner;;
          assign T (load_acc at_) "slot" slot;;
          assign T (load_acc at_) "key_is_red" (if Ascii.eqb color "r" then 1 else 0);;
          assign T (load_acc at_) "key_data" (key_p at_);;
          assign T (load_acc at_) "key_data_length" (zlen values);;
          status ← slot_call SCC_TEST_LOAD_SLOT T (load_acc at_) "ioctl for load value returned %d\n"
                     "Slot load value returned %d\n";
          if status =? 0 then
            slot ← field T (load_acc at_) "slot";
            printf "Slot %d is now loaded\n" [AInt (i32 slot)];;
            mret 0
          else mret status
  | None =>
      printf "improper use of -Kl (%s); need decimal slot id, 'r' or 'b', and hex value: -KlSSS:OOOO:r:VVVV\n"
        [AStr arg];;
      mret 1
  end.
(** [blob[i]] into [hex_blob + 2*i], 200 and 400 bytes long, with the terminator. *)
Definition sizeof_blob : Z := 200.
Fixpoint hex_text (n : nat) (q : Z) : M P string :=
  match n with
  | O => mret EmptyString
  | S n =>
      b ← load q 1;
      r ← hex_text n (q + 1);
      mret (hex02 (of_le b) +:+ r)
  end.
Definition unload_value (arg : string) : M P Z :=
  match scan_slot arg with
  | None =>
      printf "improper use of -Ku (%s); need decimal slot id and hex owner:  -KaSSS:OOOO\n" [AStr arg];;
      mret 1
  | Some (slot, owner, _) =>
      let T := scc_encrypt_slot_access in
      '(status, scc_status) ← ask_info slot owner;
      if negb (status =? 0) || negb (scc_status =? SCC_RET_OK) then
        printf "ioctl for get slot info returned %d; scc may have returned %d\n" [AInt status; AInt scc_status];;
        mret 1
      else
        size ← field scc_get_slot_info_access (info_acc at_) "value_size_bytes";
        store (unload_acc at_) (fresh junk T);;
        assign T (unload_acc at_) "owner_id" owner;;
        assign T (unload_acc at_) "slot" slot;;
        assign T (unload_acc at_) "key_data" (blob_p at_);;
        assign T (unload_acc at_) "key_data_length" size;;
        status ← slot_call SCC_TEST_ENCRYPT_SLOT T (unload_acc at_) "ioctl for slot encrypt returned %d\n"
                   "Slot encrypt returned %d\n";
        if status =? 0 then
          n ← field T (unload_acc at_) "key_data_length";
          if sizeof_blob <=? n then undef
          else
            hex_blob ← hex_text (Z.to_nat n) (blob_p at_);
            printf "Encrypted value is %s\n" [AStr hex_blob];;
            mret 0
        else mret status
  end.
Definition do_slot_function (arg : string) : M P Z :=
  match arg with
  | String "a" arg => allocate_slot arg
  | String "d" arg => deallocate_slot arg
  | String "l" arg => load_value arg
  | String "u" arg => unload_value arg
  | String c _ => fprintf_stderr "Unknown flag %c" [AInt (chr c)];; mret 1
  | EmptyString => fprintf_stderr "Unknown flag %c" [AInt 0];; mret 1
  end.

(** ** Switches: [-S+x] and [-S-x] *)
Definition default_error : Z := 0x1959.
Definition choose_length (n : Z) (v : scc_vars) : scc_vars * list print :=
  if sizeof_plaintext <? u32 n then
    (set_plaintext_length sizeof_plaintext v,
     [Printf "plaintext size too large. Using %ld\n" [AInt sizeof_plaintext]])
  else (set_plaintext_length n v, []).
(** The variables after the switch [c] with the text [rest] behind it, and the
    message. *)
Definition apply_switch (plus : bool) (c : ascii) (rest : string) (v : scc_vars) : scc_vars * list print :=
  match c with
  | "c" =>
      if plus then
        match rest with
        | EmptyString => (set_inject default_error v, [])
        | _ => match scan_hex rest with
               | Some (x, _) => (set_inject (i32 x) v, [])
               | None => (set_inject default_error v, [Printf "improper hex value with -S+c\n" []])
               end
        end
      else (set_inject 0 v, [])
  | "D" => (set_debug plus v, [])
  | "e" => (set_encrypt_only plus v, [])
  | "l" =>
      if plus then choose_length (atoi rest) v
      else (set_plaintext_length DEFAULT_PLAINTEXT_LENGTH v, [])
  | "m" => (set_crypto_mode (if plus then SCC_CBC_MODE else SCC_ECB_MODE) v, [])
  | "o" => (set_byte_offset (if plus then atoi rest else 0) v, [])
  | "p" => (if plus then set_encrypt_padding (atoi rest) v else set_decrypt_padding (atoi rest) v, [])
  | "Q" => (set_superbrief plus v, [])
  | "v" => (set_check_mode (if plus then SCC_VERIFY_MODE_CCITT_CRC else SCC_VERIFY_MODE_NONE) v, [])
  | _ => (v, [Printf "unknown switch %c\n" [AInt (chr c)]])
  end%char.
Fixpoint print_errors (l : list print) : M P unit :=
  match l with
  | [] => skip
  | x :: l => modify (emit_err x);; print_errors l
  end.
Definition set_switch (optarg : string) : M P unit :=
  match optarg with
  | EmptyString => undef
  | String sign EmptyString => fprintf_stderr "unknown switch %c\n" [AInt 0]
  | String sign (String c rest) =>
      '(v, errors) ← getv (apply_switch (Ascii.eqb sign "+") c rest);
      setv (fun _ => v);;
      print_errors errors
  end.

(** ** The command line *)
Definition read_command (optarg : string) (test_status : Z) : M P Z :=
  match scan_hex optarg with
  | None => fprintf_stderr "improper use of -R %s\n" [AStr optarg];; mret test_status
  | Some (offset, _) =>
      '(err, value) ← read_scc_register offset None;
      if err =? 0 then
        brief ← getv superbrief_read_register;
        value ← value_of value;
        (if brief : bool then printf "%08x\n" [AInt value]
         else printf "0x%05x: %08x\n" [AInt offset; AInt value]);;
        mret test_status
      else perror "Reading register: ";; mret 1
  end.
Definition write_command (optarg : string) (test_status : Z) : M P Z :=
  match scan_hex_pair optarg with
  | None => fprintf_stderr "improper use of -W (%s)\n" [AStr optarg];; mret test_status
  | Some (offset, value) =>
      err ← write_scc_register offset value;
      if err =? 0 then
        '(err, value) ← read_scc_register offset (Some value);
        (if err =? 0 then
           value ← value_of value;
           printf "0x%05x => %08x\n" [AInt offset; AInt value]
         else perror "Reading register after write: ");;
        mret test_status
      else perror "Writing register: ";; mret 1
  end.
Definition usage : string :=
  "Usage: scc_test [-P sccpath] [-T timerIV] [-Roff] [Woff:hex_value]\n [-Kaction:arguments] where action can be\n    a(allocate slot) with args length:hex_owner\n    d(deallocate slot) with args slot:hex_owner\n    l(load key value) with args slot:hex_owner:color:hex_value, (color is r/b)\n    u(unload key value) with args slot:hex_owner\n [-L tests] where tests can be a(alarm)\n    C(config)\n    e(encrypt/decrypt)\n    r(print Registers)\n    s(print Safe registers)\n    w(key-wrapping tests)\n    z(zeroize memories)\n [-Sopt] where options can be\n    c(corrupt ciphertext before decrypting)\n    D(print debug messages)\n    l(set Length of plaintext for cipher test)\n    m(+set/-reset CBC mode)\n    o(change byte offset of ciphertext&recovered plaintext\n    p(change padding allowance of ciphertext buffer\n    v(turn +on/-off cipher verification mode\n".
(** One option: the tests to run, the initial value of the timer, the status. *)
Definition option_step (c : ascii) (optarg : string) (test_to_run : string) (timer_value test_status : Z) :
    M P (string * Z * Z) :=
  match c with
  | "K" => r ← do_slot_function optarg; mret (EmptyString, timer_value, Z.lor test_status r)
  | "L" => mret (optarg, timer_value, test_status)
  | "P" => mret (test_to_run, timer_value, test_status)
  | "R" => test_status ← read_command optarg test_status; mret (EmptyString, timer_value, test_status)
  | "M" => run_mmap_tests;; mret (EmptyString, timer_value, test_status)
  | "S" => set_switch optarg;; mret (test_to_run, timer_value, test_status)
  | "T" => mret (test_to_run, 44%Z, test_status)
  | "W" => test_status ← write_command optarg test_status; mret (EmptyString, timer_value, test_status)
  | _ => fprintf_stderr usage [];; exit 1
  end%char.
Fixpoint option_loop (opts : list (ascii * string)) (test_to_run : string) (timer_value test_status : Z) :
    M P (string * Z * Z) :=
  match opts with
  | [] => mret (test_to_run, timer_value, test_status)
  | (c, optarg) :: opts =>
      '(test_to_run, timer_value, test_status) ← option_step c optarg test_to_run timer_value test_status;
      option_loop opts test_to_run timer_value test_status
  end.
Definition test_step (test_switch : ascii) (timer_value test_status : Z) : M P Z :=
  puts "\n";;
  match test_switch with
  | "a" => set_software_alarm;; mret test_status
  | "c" => _ ← run_aic_tests; mret test_status
  | "C" => display_configuration;; mret test_status
  | "e" => r ← run_cipher_tests; mret (Z.lor test_status r)
  | "p" => run_plaintext_cipher_text_tests;; mret test_status
  | "r" => r ← dump_registers; mret (Z.lor test_status r)
  | "s" => r ← check_safe_registers; mret (Z.lor test_status r)
  | "t" => run_timer_tests timer_value;; mret test_status
  | "w" => r ← run_wrap_tests; mret (Z.lor test_status r)
  | "z" => run_zeroize_tests;; mret test_status
  | _ => fprintf_stderr "Test switch %c unknown\n" [AInt (chr test_switch)];; mret test_status
  end%char.
Fixpoint test_loop (tests : string) (timer_value test_status : Z) : M P Z :=
  match tests with
  | EmptyString => mret test_status
  | String c tests =>
      test_status ← test_step c timer_value test_status;
      test_loop tests timer_value test_status
  end.
(** The compiled plain text is in memory when the program starts. *)
Definition init_plaintext : M P unit :=
  for_m (Z.to_nat (sizeof_plaintext - 24)) 24 (fun i => store (plaintext at_ + i) [i mod 256]).
Definition close_device : M P unit := _ ← lift (scc_test_release SCC_DEBUG); setv (set_opened false).
Definition main (opts : list (ascii * string)) : M P Z :=
  init_plaintext;;
  r ← UserProc.syscall (scc_test_open SCC_DEBUG);
  scc_fd ← (if r =? 0 then setv (set_opened true);; mret scc_fd else mret (-1));
  if scc_fd <? 0 then perror "Cannot open SCC device";; exit 1
  else
    '(test_to_run, timer_value, test_status) ← option_loop opts "Cres" 0x5f0000 0;
    test_status ← test_loop test_to_run timer_value test_status;
    close_device;;
    exit (if test_status =? 0 then 0 else 1).
(** When the program exits the kernel closes its file. *)
Definition at_exit (m : M P Z) : M P Z := fun p =>
  match m p with
  | (Exit c, p') => (opened ← getv scc_opened; when opened close_device;; mret c) p'
  | r => r
  end.
Definition process (opts : list (ascii * string)) : M P Z :=
  store (plaintext at_) (plaintext_data ++ replicate (Z.to_nat (sizeof_plaintext - 24)) 0);;
  at_exit (main opts).
End Program.
