(* ===== verification/SccProgramSpec.v ===== *)
(** * What the security controller test program decides

    The cipher test, program and module together: the status with which
    [scc_test -Le] exits says whether the controller encrypted the plain text
    and gave it back; whatever it answers, the program returns and kernel
    memory is as before. *)
From S2P Require Import Prelude CInt CMonad CStr CStruct Kernel SimKernel PortableOs Scc SccSpec UserProc SccProgram.
Open Scope Z_scope.

(** ** Blocks of memory that do not overlap *)
Definition apart (q n q' n' : Z) : Prop := q + n <= q' \/ q' + n' <= q.
Fixpoint separate (l : list (Z * Z)) : Prop :=
  match l with
  | [] => True
  | (q, n) :: l => Forall (fun '(q', n') => apart q n q' n') l /\ separate l
  end.
Lemma apart_sym q n q' n' : apart q n q' n' -> apart q' n' q n.
Proof. unfold apart. tauto. Qed.
Lemma apart_part q n q' n' i k : apart q n q' n' -> 0 <= i -> i + k <= n -> apart (q + i) k q' n'.
Proof. unfold apart. lia. Qed.
Lemma separate_apart l i j q n q' n' :
  separate l -> (i < j)%nat -> l !! i = Some (q, n) -> l !! j = Some (q', n') -> apart q n q' n'.
Proof.
  revert i j. induction l as [|[a k] l IH]; intros i j; [done|]. cbn [separate]. intros [Ha Hs] Hij Hi Hj.
  destruct j as [|j]; [lia|]. destruct i as [|i].
  - injection Hi as -> ->. rewrite Forall_lookup in Ha. by apply (Ha j (q', n')).
  - apply (IH i j); [done|lia|done|done].
Qed.

(** ** References to the module *)
Section Refs.
Context `{Kernel} {D : Type}.
Abbreviation W := (world D globals).
Definition refs_kept {A} (m : M W A) : Prop :=
  forall w, wpu True m (fun _ w' => mod_refs (kern w') = mod_refs (kern w)) (fun _ _ => True) w.
Lemma refs_bind {A B} (m : M W A) (k : A -> M W B) : refs_kept m -> (forall a, refs_kept (k a)) -> refs_kept (m ≫= k).
Proof. intros Hm Hk w. apply wp_bind. eapply wp_mono; [apply Hm|]. intros a w1 <-. apply Hk. Qed.
Lemma refs_ret {A} (a : A) : refs_kept (mret a).
Proof. done. Qed.
Lemma refs_debugk b f a : refs_kept (debugk b f a).
Proof. by destruct b. Qed.
Lemma refs_from p n : refs_kept (copy_from_user p n).
Proof. done. Qed.
Lemma refs_to p l : refs_kept (copy_to_user p l).
Proof. done. Qed.
Lemma refs_drv {A} (f : D -> A * D) : refs_kept (drv f).
Proof. intros w. by apply wp_drv. Qed.
Lemma refs_kmalloc n : refs_kept (kmalloc n).
Proof. intros w. unfold wpu, kmalloc. repeat case_match; simplify_eq; done. Qed.
Lemma refs_kfree p : refs_kept (kfree p).
Proof. intros w. unfold wpu, kfree. repeat case_match; simplify_eq; done. Qed.
Lemma refs_kread p o n : refs_kept (kread p o n).
Proof. intros w. unfold wpu, kread. repeat case_match; simplify_eq; done. Qed.
Lemma refs_kwrite p o l : refs_kept (kwrite p o l).
Proof. intros w. unfold wpu, kwrite. repeat case_match; simplify_eq; done. Qed.
End Refs.
Create HintDb refs.
#[export] Hint Resolve refs_ret refs_debugk refs_from refs_to refs_drv refs_kmalloc refs_kfree refs_kread refs_kwrite : refs.
Ltac refs := repeat first [ solve [eauto with refs] | apply refs_bind; [|intros ?] | case_match ].

(** ** Fields of a structure that was assigned in several steps *)
Ltac len_struct :=
  repeat first [apply length_set; [reflexivity|] | apply length_set_bytes; [reflexivity|reflexivity|]]; assumption.
Ltac fields := repeat first
  [ rewrite get_set_eq by (first [reflexivity | len_struct])
  | rewrite get_set_ne by (first [reflexivity | len_struct])
  | rewrite get_set_bytes_ne by (first [reflexivity | len_struct]) ].

Section Spec.
Context `{KL : KernelLaws} `{PL : PortableOs} {D : Type} `{SL : SccDriverLaws D} `{SccHeader} (SCC_DEBUG : bool).
Context (pl : places) (junk : list Z) (o_alloc : nat -> Z -> option (Z * list Z)) (o_rand : nat -> Z)
  (scc_fd mmap_p : Z).
Abbreviation P := (proc D globals scc_vars).
Abbreviation KW := (world D globals).
Abbreviation ub p := (ubytes (kern (kside p))).
Implicit Types (p : P) (E : Z -> P -> Prop).

Lemma cipher_refs cmd q : refs_kept (D := D) (scc_test_cipher SCC_DEBUG cmd q).
Proof. unfold scc_test_cipher, run_cipher, Scc.debug, when, skip. refs. Qed.

(** ** Calls that change the two scratch words only *)
Definition off_scratch (q n : Z) : Prop := apart q n (register_access pl) 12 /\ apart q n (value_p pl) 4.
Record quiet p p' : Prop := {
  quiet_vars : vars p' = vars p;
  quiet_kmem : kmem (kern (kside p')) = kmem (kern (kside p));
  quiet_refs : mod_refs (kern (kside p')) = mod_refs (kern (kside p));
  quiet_mem q l : off_scratch q (zlen l) -> mem_at (ub p) q l -> mem_at (ub p') q l;
}.
Lemma quiet_refl p : quiet p p.
Proof. done. Qed.
Lemma quiet_trans p1 p2 p3 : quiet p1 p2 -> quiet p2 p3 -> quiet p1 p3.
Proof. intros [] []. split; [congruence..|]. auto. Qed.
Context (Hreg : user_block (register_access pl) 12) (Hval : user_block (value_p pl) 4).

Lemma quiet_write p p' q l :
  vars p' = vars p -> kmem (kern (kside p')) = kmem (kern (kside p)) ->
  mod_refs (kern (kside p')) = mod_refs (kern (kside p)) -> ub p' = uput (ub p) q l ->
  (q, zlen l) = (register_access pl, 12) \/ (q, zlen l) = (value_p pl, 4) -> quiet p p'.
Proof.
  intros Hv Hk Hr Hu Hql. split; [done..|]. intros q' l' [Ha Hb] Hm. rewrite Hu. apply mem_at_uput_ne; [|done].
  destruct Hql as [[= -> ->]|[= -> ->]]; [exact Ha|exact Hb].
Qed.
Lemma perror_quiet U text p0 (Q : unit -> P -> Prop) E p :
  quiet p0 p -> (forall p', quiet p0 p' -> Q tt p') -> wpu U (perror text) Q E p.
Proof. intros Hp HQ. unfold perror. apply wp_bind, wp_gets, wp_modify, HQ. by destruct Hp. Qed.
Lemma when_quiet U b m p0 (Q : unit -> P -> Prop) E p :
  quiet p0 p -> (forall p', quiet p0 p' -> Q tt p') -> (b = true -> wpu U m Q E p) -> wpu U (when b m) Q E p.
Proof. intros Hp HQ Hm. destruct b; [by apply Hm|]. by apply wp_skip, HQ. Qed.

(** The register ioctls on the scratch structure. *)
Lemma register_ioctl_quiet p p1 s rc q d w :
  p1 = with_ubytes (uput (ub p) (register_access pl) s) p -> length s = sizeof scc_reg_access ->
  length q = sizeof scc_reg_access ->
  w = set_kern (set_ubytes (fun m => uput m (register_access pl) (set scc_reg_access "function_return_code" rc q)))
        (set_dev d (kside p1)) ->
  quiet p (set_kside w p1).
Proof.
  intros Hp1 Hs Hq Hw. assert (quiet p p1) as H1'.
  { apply (quiet_write _ _ (register_access pl) s); [by rewrite Hp1..|]. left. by rewrite Hs. }
  eapply quiet_trans; [exact H1'|]. eapply (quiet_write _ _ (register_access pl)); [by rewrite Hw..|].
  left. by rewrite length_set.
Qed.
Lemma write_scc_register_wp U reg v (Q : Z -> P -> Prop) E p :
  (forall r p', quiet p p' -> Q r p') -> wpu U (write_scc_register SCC_DEBUG pl junk reg v) Q E p.
Proof.
  intros HQ. unfold write_scc_register. apply wp_bind, wp_store_user, wp_bind. set (s := set _ _ _ _).
  pose proof (length_fresh junk scc_reg_access) as Hf.
  assert (length s = sizeof scc_reg_access) as Hl by len_struct.
  set (p1 := with_ubytes _ p). assert (mem_at (ub p1) (register_access pl) s) as Hm by apply mem_at_uput.
  apply syscall_cases. change (scc_test_ioctl SCC_DEBUG SCC_TEST_WRITE_REG (register_access pl)) with
    (scc_test_write_register SCC_DEBUG (register_access pl)).
  apply (write_register_wp _ _ _ s).
  - unfold holds, SccSpec.R. rewrite <- Hl. apply mem_at_from_user; [done|]. rewrite Hl. apply Hreg.
  - unfold SccSpec.R. rewrite <- Hl. apply mem_at_fits; [done|]. by rewrite Hl.
  - destruct (scc_write_register _ _ _) as [rc d]. set (w := set_kern _ _).
    pose proof (register_ioctl_quiet p p1 s rc s d w eq_refl Hl Hl eq_refl) as Hw. split; intros _; apply wp_bind.
    + apply (perror_quiet _ _ p); [by destruct Hw|]. intros p' Hp'. by apply wp_ret, HQ.
    + eapply (when_quiet _ _ _ p); [done| |].
      * intros p' Hp'. by apply wp_ret, HQ.
      * intros _. apply (perror_quiet _ _ p); [done|]. intros p' Hp'. by apply wp_ret, HQ.
Qed.
Lemma read_scc_register_wp U reg old (Q : Z * option Z -> P -> Prop) E p :
  (forall r v p', quiet p p' -> (v = None -> old = None) -> Q (r, v) p') ->
  wpu U (read_scc_register SCC_DEBUG pl junk reg old) Q E p.
Proof.
  intros HQ. unfold read_scc_register. apply wp_bind, wp_store_user, wp_bind. set (s := set _ _ _ _).
  pose proof (length_fresh junk scc_reg_access) as Hf.
  assert (length s = sizeof scc_reg_access) as Hl by len_struct.
  set (p1 := with_ubytes _ p). assert (mem_at (ub p1) (register_access pl) s) as Hm by apply mem_at_uput.
  apply syscall_cases. change (scc_test_ioctl SCC_DEBUG SCC_TEST_READ_REG (register_access pl)) with
    (scc_test_read_register SCC_DEBUG (register_access pl)).
  apply (read_register_wp _ _ _ s).
  - unfold holds, SccSpec.R. rewrite <- Hl. apply mem_at_from_user; [done|]. rewrite Hl. apply Hreg.
  - unfold SccSpec.R. rewrite <- Hl. apply mem_at_fits; [done|]. by rewrite Hl.
  - destruct (scc_read_register _ _ _) as [[rc v] d]. set (w := set_kern _ _).
    assert (length (set scc_reg_access "reg_data" v s) = sizeof scc_reg_access) as Hl2 by len_struct.
    pose proof (register_ioctl_quiet p p1 s rc _ d w eq_refl Hl Hl2 eq_refl) as Hw. split; intros _.
    + change (negb (-1 =? IOCTL_SCC_OK)) with true. cbn iota. apply wp_bind.
      apply (perror_quiet _ _ p); [by destruct Hw|]. intros p' Hp'. by apply wp_ret, HQ.
    + destruct (negb _); apply wp_bind.
      * apply (perror_quiet _ _ p); [done|]. intros p' Hp'. by apply wp_ret, HQ.
      * eapply wp_field; [apply mem_at_uput|by apply length_set|]. by apply wp_ret, HQ.
Qed.

Lemma zeroize_check_wp U reg x p0 (Q : option Z -> P -> Prop) E p :
  quiet p0 p -> (forall v p', quiet p0 p' -> Q (Some v) p') ->
  wpu U (zeroize_check SCC_DEBUG pl junk reg (Some x)) Q E p.
Proof.
  intros Hp HQ. unfold zeroize_check. apply wp_bind, read_scc_register_wp. intros r v p1 Hp1 Hv.
  assert (quiet p0 p1) as Hp01 by by eapply quiet_trans.
  destruct v as [v|]; [|by discriminate Hv]. apply wp_bind, wp_ret, wp_bind.
  apply (when_quiet _ _ _ p0); [done| |].
  - intros p2 Hp2. by apply wp_ret, HQ.
  - intros _. apply wp_modify, wp_ret, HQ. by destruct Hp01.
Qed.
Lemma ioctl_zeroize q : scc_test_ioctl SCC_DEBUG SCC_TEST_ZEROIZE q = scc_test_zeroize (D := D) q.
Proof.
  unfold scc_test_ioctl. replace (SCC_TEST_ZEROIZE =? SCC_TEST_GET_CONFIGURATION) with false by reflexivity.
  reflexivity.
Qed.
Lemma zeroize_ioctl_wp U b p0 (Q : Z -> P -> Prop) E p :
  quiet p0 p -> mem_at (ub p) (value_p pl) b -> length b = 4%nat ->
  (forall r p' b', quiet p0 p' -> mem_at (ub p') (value_p pl) b' -> length b' = 4%nat -> Q r p') ->
  wpu U (SccProgram.ioctl SCC_DEBUG SCC_TEST_ZEROIZE (value_p pl)) Q E p.
Proof.
  intros Hp Hm Hb HQ. unfold SccProgram.ioctl. apply syscall_cases.
  rewrite ioctl_zeroize. unfold scc_test_zeroize. apply wp_bind, wp_drv, wp_copy_to_user. intros k Hkf _. rewrite length_to_le in Hkf.
  assert (fits (ub p) (value_p pl) 4 = 4%nat) as Hfit.
  { rewrite <- Hb. apply mem_at_fits; [done|]. by rewrite Hb. }
  change (k = fits (ub p) (value_p pl) 4) in Hkf. rewrite Hfit in Hkf. subst k.
  rewrite take_ge by (by rewrite length_to_le). set (l := to_le 4 _).
  assert (length l = 4%nat) as Hl by apply length_to_le. clearbody l.
  set (w := set_kern _ _). assert (quiet p (set_kside w p)) as Hw.
  { apply (quiet_write _ _ (value_p pl) l); [done..|]. right. by rewrite Hl. }
  rewrite Hl. split; intros ?; [lia|].
  apply (HQ _ _ l); [by eapply quiet_trans|apply mem_at_uput|done].
Qed.
Lemma run_zeroize_tests_wp U (Q : unit -> P -> Prop) E p :
  (forall p', quiet p p' -> Q tt p') -> wpu U (run_zeroize_tests SCC_DEBUG pl junk) Q E p.
Proof.
  intros HQ. unfold run_zeroize_tests. apply wp_bind, wp_printf.
  apply wp_bind, write_scc_register_wp. intros _ p1 H1'. apply wp_bind, write_scc_register_wp. intros _ p2 H2'.
  apply wp_bind, write_scc_register_wp. intros _ p3 H3'. apply wp_bind, write_scc_register_wp. intros _ p4 H4'.
  assert (quiet p p1) as Hp1 by by destruct H1'.
  pose proof (quiet_trans _ _ _ (quiet_trans _ _ _ (quiet_trans _ _ _ Hp1 H2') H3') H4') as Hp4.
  apply wp_bind, wp_store_user. set (b := take 4 _).
  assert (length b = 4%nat) as Hb by (subst b; rewrite length_take_le; [done|rewrite length_app; simpl; lia]).
  set (p5 := with_ubytes _ p4). assert (quiet p p5) as Hp5.
  { eapply quiet_trans; [exact Hp4|]. apply (quiet_write _ _ (value_p pl) b); [done..|]. right. by rewrite Hb. }
  apply wp_bind, (zeroize_ioctl_wp _ b p); [done|apply mem_at_uput|done|]. intros r p6 b' Hp6 Hb' Hl'.
  apply wp_bind. eapply wp_load; [rewrite <- Hl'; exact Hb'|done|]. destruct (negb _).
  - apply wp_bind, (perror_quiet _ _ p); [done|]. intros p7 Hp7. apply wp_modify, HQ. by destruct Hp7.
  - apply wp_bind, (zeroize_check_wp _ _ _ p); [done|]. intros v1 p7 Hp7.
    apply wp_bind, (zeroize_check_wp _ _ _ p); [done|]. intros v2 p8 Hp8.
    apply wp_bind, (zeroize_check_wp _ _ _ p); [done|]. intros v3 p9 Hp9.
    apply wp_bind, (zeroize_check_wp _ _ _ p); [done|]. intros v4 p10 Hp10. by apply wp_skip, HQ.
Qed.

(** ** Comparing *)
Definition same_state p p' : Prop := kside p' = kside p /\ vars p' = vars p.
Lemma compare_loop_wp U n q PT NP acc (Q : Z -> P -> Prop) E p :
  mem_at (ub p) (plaintext pl) PT -> mem_at (ub p) q NP -> (n <= length PT)%nat -> (n <= length NP)%nat ->
  (forall p', same_state p p' -> Q (if bool_decide (take n NP = take n PT) then acc else 1) p') ->
  wpu U (compare_loop pl n q acc) Q E p.
Proof.
  revert acc p. induction n as [|n IH]; intros acc p HP HN Hlp Hln HQ; cbn [compare_loop].
  - apply wp_ret. by apply (HQ p).
  - destruct (lookup_lt_is_Some_2 PT n ltac:(lia)) as [a Ha].
    destruct (lookup_lt_is_Some_2 NP n ltac:(lia)) as [b Hb].
    rewrite (take_S_r _ _ _ Ha), (take_S_r _ _ _ Hb) in HQ.
    apply wp_bind, (wp_load_at _ _ _ PT _ _ _ a); [done|done|].
    apply wp_bind, (wp_load_at _ _ _ NP _ _ _ b); [done|done|]. cbn [of_le]. rewrite !Z.add_0_r.
    destruct (Z.eqb_spec a b) as [->|Hne]; cbn [negb].
    + apply IH; [done|done|lia|lia|]. intros p' Hp'. specialize (HQ p' Hp').
      destruct (decide (take n NP = take n PT)) as [Heq|Hneq].
      * rewrite Heq, bool_decide_eq_true_2 in HQ by done. by rewrite bool_decide_eq_true_2.
      * rewrite bool_decide_eq_false_2 in HQ by (intros Hc%app_inj_tail; by destruct Hc).
        by rewrite bool_decide_eq_false_2.
    + apply wp_bind, wp_printf, IH; [done|done|lia|lia|]. intros p' Hp'.
      assert (same_state p p') as Hp2 by by destruct Hp'. specialize (HQ p' Hp2).
      rewrite bool_decide_eq_false_2 in HQ by (intros [_ [= ->]]%app_inj_tail; done). by case_match.
Qed.

(** ** The cipher ioctls *)
(** The kernel finds memory for both buffers of a request. *)
Definition memory_found (m : gmap Z block) (a b : Z) : Prop :=
  forall i, match o_kmalloc m i a with
            | Some (q, bs) => o_kmalloc (<[q := mkBlock Kmalloc bs]> m) (S i) b <> None
            | None => False
            end.
Definition cc := cipher_control pl.
Lemma cipher_ioctl_wp cmd s data old rc res len (Q : Z -> P -> Prop) E p :
  is_cipher cmd = true -> mem_at (ub p) cc s -> length s = sizeof scc_encrypt_decrypt ->
  user_block cc (Z.of_nat (sizeof scc_encrypt_decrypt)) -> cipher_ok s ->
  memory_found (kmem (kern (kside p))) (in_length s + 16) (out_length s + 16) ->
  mem_at (ub p) (data_in s) data -> zlen data = in_length s -> access_ok (data_in s) (zlen data) = true ->
  (forall d, (crypt_call (if cmd =? SCC_TEST_ENCRYPT then SCC_ENCRYPT else SCC_DECRYPT) s data d).1 = (rc, res, len)) ->
  mem_at (ub p) (data_out s) old -> user_block (data_out s) (zlen old) -> out_length s <= zlen old ->
  (forall p', vars p' = vars p -> kmem (kern (kside p')) = kmem (kern (kside p)) ->
     mod_refs (kern (kside p')) = mod_refs (kern (kside p)) -> zlen res <= out_length s ->
     (rc = SCC_RET_OK -> len = zlen res) ->
     ub p' = uput (if rc =? SCC_RET_OK then uput (ub p) (data_out s) res else ub p) cc
               (set scc_encrypt_decrypt "function_return_code" rc (set scc_encrypt_decrypt "data_out_length" len s)) ->
     Q (if rc =? SCC_RET_OK then IOCTL_SCC_OK else ENOMEM) p') ->
  wp (SccProgram.ioctl SCC_DEBUG cmd cc) Q E p.
Proof.
  intros Hcmd Hs Hl Hcc Hok Hmem Hdata Hdl Hda Hcall Hold Hob Hol HQ. unfold SccProgram.ioctl.
  assert (scc_test_ioctl SCC_DEBUG cmd cc = scc_test_cipher SCC_DEBUG cmd cc) as ->.
  { unfold scc_test_ioctl, is_cipher in *. rewrite Hcmd.
    assert (cmd = SCC_TEST_ENCRYPT \/ cmd = SCC_TEST_DECRYPT) as [-> | ->]; [|done|done].
    by rewrite orb_true_iff, !Z.eqb_eq in Hcmd. }
  assert (holds scc_encrypt_decrypt (kside p) cc s) as Hh.
  { unfold holds. rewrite <- Hl. apply mem_at_from_user; [done|]. rewrite Hl. apply Hcc. }
  assert (forall s', holds scc_encrypt_decrypt (kside p) cc s' -> s' = s) as Huniq
    by (intros s' Hs'; unfold holds in *; congruence).
  apply syscall_cases. eapply wp_mono_exit; [eapply wp_conj; [apply (cipher_wp _ _ _ _ (fun _ _ => False))|apply cipher_refs]| |done].
  { intros s' ->%Huniq. exact Hok. }
  intros r w [[Hk Hd] Hr]. specialize (Hd s Hh). unfold cipher_done in Hd.
  assert (from_user (ub p) (data_in s) (in_length s) = (data, 0)) as Hfrom.
  { rewrite <- Hdl. by apply mem_at_from_user. }
  rewrite Hfrom in Hd. specialize (Hcall (dev (kside p))).
  destruct Hok as (_ & _ & _ & Hor).
  pose proof (crypt_room (in_length s) data
    (if get SccSpec.T "crypto_mode" s =? SCC_CBC_MODE then Some (get_bytes SccSpec.T "init_vector" s) else None)
    (if cmd =? SCC_TEST_ENCRYPT then SCC_ENCRYPT else SCC_DECRYPT)
    (get SccSpec.T "crypto_mode" s) (get SccSpec.T "check_mode" s) (out_length s) (dev (kside p)) ltac:(lia)) as Hroom.
  change (scc_crypt _ _ _ _ _ _ _ _) with
    (crypt_call (if cmd =? SCC_TEST_ENCRYPT then SCC_ENCRYPT else SCC_DECRYPT) s data (dev (kside p))) in Hroom.
  destruct (crypt_call _ s data (dev (kside p))) as [[[rc' res'] len'] d].
  cbn [fst] in Hcall. injection Hcall as -> -> ->. destruct Hroom as [Hres Hlen].
  assert (room_for s (kside p)) as Hrf by apply Hmem.
  assert (fits (ub p) cc (sizeof SccSpec.T) = sizeof SccSpec.T) as Hfc.
  { unfold SccSpec.T. rewrite <- Hl. apply mem_at_fits; [done|]. by rewrite Hl. }
  specialize (Hd Hrf eq_refl Hfc) as [Hgood Hbad]. specialize (HQ (set_kside w p) eq_refl Hk Hr Hres Hlen).
  destruct (Z.eqb_spec rc SCC_RET_OK) as [->|Hrc].
  - destruct (Hgood eq_refl) as (-> & _ & Hu).
    { apply fits_read; [| |intros j Hj; apply Hob; lia].
      - destruct (user_block_part (data_out s) (zlen old) 0 (zlen res) Hob) as [Ha _]; try lia. by rewrite Z.add_0_r in Ha.
      - pose proof (mem_at_part _ _ old 0 (length res) Hold ltac:(lia)) as Hp. rewrite Z.add_0_r in Hp.
        rewrite Hp. apply length_take_le. rewrite drop_0. lia. }
    split; [done|]. intros _. by apply HQ.
  - destruct (Hbad Hrc) as (-> & _ & Hu). split; [done|]. intros _. by apply HQ.
Qed.

(** ** The memory of the cipher test *)
Lemma mem_at_insert m q l i b b' :
  mem_at m q l -> l !! i = Some b -> mem_at (uput m (q + Z.of_nat i) [b']) q (<[i := b']> l).
Proof.
  intros Hm Hb. pose proof (lookup_lt_Some _ _ _ Hb) as Hi. rewrite insert_take_drop by done.
  rewrite <- (take_drop_middle l i b Hb) in Hm. rewrite mem_at_app, mem_at_cons in Hm.
  rewrite length_take_le in Hm by lia. destruct Hm as (Hm1 & _ & Hm2).
  rewrite mem_at_app, mem_at_cons, length_take_le by lia. split_and!.
  - apply mem_at_uput_ne; [rewrite length_take_le by lia; lia|done].
  - cbn [uput]. by rewrite lookup_insert_eq.
  - apply mem_at_uput_ne; [simpl; lia|done].
Qed.
Section Cipher.
Abbreviation T := scc_encrypt_decrypt.
Abbreviation size := (Z.of_nat (sizeof T)).
Context (v : scc_vars) (m0 : gmap Z block) (r0 : Z) (PT : list Z) (ctp nct npp nnp : Z).
Context (Hcc : user_block cc size) (Hpt : access_ok (plaintext pl) (zlen PT) = true)
  (Hct : user_block ctp nct) (Hnp : user_block npp nnp).
Context (Acp : apart cc size (plaintext pl) (zlen PT)) (Acc : apart cc size ctp nct) (Acn : apart cc size npp nnp)
  (Atp : apart ctp nct (plaintext pl) (zlen PT)) (Anp : apart npp nnp (plaintext pl) (zlen PT))
  (Atn : apart ctp nct npp nnp).
Context (Sc : off_scratch cc size) (Sp : off_scratch (plaintext pl) (zlen PT)) (St : off_scratch ctp nct)
  (Sn : off_scratch npp nnp).

(** The request is [s], [c] and [n] are the buffers of the cipher and the recovered text. *)
Record holding (a : scc_vars) (s c n : list Z) p : Prop := {
  hold_vars : vars p = a;
  hold_kmem : kmem (kern (kside p)) = m0;
  hold_refs : mod_refs (kern (kside p)) = r0;
  hold_pt : mem_at (ub p) (plaintext pl) PT;
  hold_request : mem_at (ub p) cc s /\ length s = sizeof T;
  hold_cipher : mem_at (ub p) ctp c /\ zlen c = nct;
  hold_new : mem_at (ub p) npp n /\ zlen n = nnp;
}.
Lemma holding_quiet a s c n p p' : holding a s c n p -> quiet p p' -> holding a s c n p'.
Proof.
  intros [Hv Hk Hr Hp [Hs Hl] [Hc Hcl] [Hn Hnl]] [Hv' Hk' Hr' Hm].
  split; [congruence..|by apply Hm|split; [apply Hm|]|split; [apply Hm|]|split; [apply Hm|]]; try done.
  - by rewrite Hl.
  - by rewrite Hcl.
  - by rewrite Hnl.
Qed.
(** Storing the request. *)
Lemma holding_store a s s' c n p :
  holding a s c n p -> length s' = sizeof T -> holding a s' c n (with_ubytes (uput (ub p) cc s') p).
Proof.
  intros [Hv Hk Hr Hp [Hs Hl] [Hc Hcl] [Hn Hnl]] Hl'. split; try done; cbn.
  - apply mem_at_uput_ne; [|done]. rewrite Hl'. apply apart_sym, Acp.
  - split; [apply mem_at_uput|done].
  - split; [|done]. apply mem_at_uput_ne; [|done]. rewrite Hl', Hcl. apply apart_sym, Acc.
  - split; [|done]. apply mem_at_uput_ne; [|done]. rewrite Hl', Hnl. apply apart_sym, Acn.
Qed.
Lemma assign_wp U x y a s c n (Q : unit -> P -> Prop) E p :
  holding a s c n p -> inside T x = true -> (forall p', holding a (set T x y s) c n p' -> Q tt p') ->
  wpu U (assign T cc x y) Q E p.
Proof.
  intros Hh Hx HQ. destruct (hold_request _ _ _ _ _ Hh) as [Hs Hl].
  apply (wp_assign _ _ _ _ _ s); [done|done|]. apply HQ, (holding_store a s); [done|]. by apply length_set.
Qed.
Lemma clear_wp U a s c n (Q : unit -> P -> Prop) E p :
  holding a s c n p -> (forall p', holding a (set_bytes T "init_vector" (replicate 8 0) s) c n p' -> Q tt p') ->
  wpu U (clear_init_vector pl) Q E p.
Proof.
  intros Hh HQ. destruct (hold_request _ _ _ _ _ Hh) as [Hs Hl]. unfold clear_init_vector.
  apply wp_bind. eapply (wp_load _ _ _ s); [rewrite <- Hl; exact Hs|done|]. apply wp_store_user.
  apply HQ, (holding_store a s); [done|]. by apply length_set_bytes.
Qed.
Lemma field_wp U x a s c n (Q : Z -> P -> Prop) E p :
  holding a s c n p -> Q (get T x s) p -> wpu U (field T cc x) Q E p.
Proof. intros Hh HQ. destruct (hold_request _ _ _ _ _ Hh) as [Hs Hl]. by apply (wp_field _ _ _ _ s). Qed.
Lemma write_register_holding U reg y a s c n (Q : Z -> P -> Prop) E p :
  holding a s c n p -> (forall r p', holding a s c n p' -> Q r p') ->
  wpu U (write_scc_register SCC_DEBUG pl junk reg y) Q E p.
Proof. intros Hh HQ. apply write_scc_register_wp. intros r p' Hq. apply HQ. by eapply holding_quiet. Qed.
(** A line that is printed. *)
Lemma printf_holding U f args a s c n (Q : unit -> P -> Prop) E p :
  holding a s c n p -> (forall p', holding a s c n p' -> Q tt p') -> wpu U (printf f args) Q E p.
Proof. intros Hh HQ. apply wp_printf, HQ. by destruct Hh. Qed.

(** What a request says. *)
Record asks (i ni o no : Z) (s : list Z) : Prop := {
  asks_in : data_in s = i; asks_in_length : in_length s = ni;
  asks_out : data_out s = o; asks_out_length : out_length s = no;
  asks_mode : get T "crypto_mode" s = crypto_mode v; asks_check : get T "check_mode" s = check_mode v;
  asks_vector : crypto_mode v = SCC_CBC_MODE -> get_bytes T "init_vector" s = replicate 8 0;
}.
Definition vector : option (list Z) := if crypto_mode v =? SCC_CBC_MODE then Some (replicate 8 0) else None.
Lemma asks_call dir i ni o no s data d :
  asks i ni o no s -> crypt_call dir s data d = scc_crypt ni data vector dir (crypto_mode v) (check_mode v) no d.
Proof.
  intros [Hi Hni Ho Hno Hm Hc Hv]. unfold crypt_call, SccSpec.T, vector. rewrite Hni, Hno, Hm, Hc.
  destruct (Z.eqb_spec (crypto_mode v) SCC_CBC_MODE) as [Heq|]; [|done]. by rewrite Hv.
Qed.

Definition answered (rc len : Z) (s : list Z) : list Z :=
  set T "function_return_code" rc (set T "data_out_length" len s).
Lemma length_answered rc len s : length s = sizeof T -> length (answered rc len s) = sizeof T.
Proof. intros Hs. unfold answered. len_struct. Qed.
Lemma access_ok_part q n k : access_ok q n = true -> k <= n -> access_ok q k = true.
Proof. unfold access_ok. rewrite !andb_true_iff, !Z.leb_le. lia. Qed.
Lemma mem_at_take m q l k : mem_at m q l -> mem_at m q (take k l).
Proof. intros Hm. rewrite <- (take_drop k l), mem_at_app in Hm. by destruct Hm. Qed.
(** The first [ni] bytes of [l], at [i], go to the controller; what it returns
    comes to [o], where [old] is. *)
Lemma request_wp cmd i ni o no l old a s c n rc res len (Q : Z -> P -> Prop) E p :
  is_cipher cmd = true -> holding a s c n p -> asks i ni o no s ->
  mem_at (ub p) i l -> access_ok i (zlen l) = true -> 0 <= ni <= zlen l -> ni < 2 ^ 32 - 16 -> 0 <= no < 2 ^ 32 - 16 ->
  0 <= block_offset i -> 0 <= block_offset o -> memory_found m0 (ni + 16) (no + 16) ->
  (forall d, (scc_crypt ni (take (Z.to_nat ni) l) vector
     (if cmd =? SCC_TEST_ENCRYPT then SCC_ENCRYPT else SCC_DECRYPT) (crypto_mode v) (check_mode v) no d).1 = (rc, res, len)) ->
  mem_at (ub p) o old -> user_block o (zlen old) -> no <= zlen old ->
  (forall p', vars p' = a -> kmem (kern (kside p')) = m0 -> mod_refs (kern (kside p')) = r0 -> zlen res <= no ->
     (rc = SCC_RET_OK -> len = zlen res) ->
     ub p' = uput (if rc =? SCC_RET_OK then uput (ub p) o res else ub p) cc (answered rc len s) ->
     Q (if rc =? SCC_RET_OK then IOCTL_SCC_OK else ENOMEM) p') ->
  wp (SccProgram.ioctl SCC_DEBUG cmd cc) Q E p.
Proof.
  intros Hcmd Hh Ha Hl Hla Hni Hni32 Hno Hbi Hbo Hmem Hcall Hold Hob Hnol HQ.
  destruct (hold_request _ _ _ _ _ Hh) as [Hs Hls].
  pose proof (asks_in _ _ _ _ _ Ha) as Hin. pose proof (asks_in_length _ _ _ _ _ Ha) as Hinl.
  pose proof (asks_out _ _ _ _ _ Ha) as Hout. pose proof (asks_out_length _ _ _ _ _ Ha) as Houtl.
  assert (zlen (take (Z.to_nat ni) l) = ni) as Htl by (rewrite length_take_le by lia; lia).
  apply (cipher_ioctl_wp cmd s (take (Z.to_nat ni) l) old rc res len); rewrite ?Hin, ?Hinl, ?Hout, ?Houtl; try done.
  - unfold cipher_ok. rewrite Hin, Hinl, Hout, Houtl. lia.
  - by rewrite (hold_kmem _ _ _ _ _ Hh).
  - by apply mem_at_take.
  - rewrite Htl. apply (access_ok_part i (zlen l)); [done|lia].
  - intros d. rewrite (asks_call _ i ni o no) by done. apply Hcall.
  - intros p' Hv Hk Hr Hres Hlen Hu. destruct Hh. apply HQ; congruence || done.
Qed.
(** Encryption: from the plain text to [ctp]. *)
Lemma encrypt_wp N no a s c n rc res len (Q : Z -> P -> Prop) E p :
  holding a s c n p -> asks (plaintext pl) N ctp no s -> 0 <= N <= zlen PT -> N < 2 ^ 32 - 16 -> 0 <= no < 2 ^ 32 - 16 ->
  no <= nct -> 0 <= block_offset (plaintext pl) -> 0 <= block_offset ctp -> memory_found m0 (N + 16) (no + 16) ->
  (forall d, (scc_crypt N (take (Z.to_nat N) PT) vector SCC_ENCRYPT (crypto_mode v) (check_mode v) no d).1 = (rc, res, len)) ->
  (rc = SCC_RET_OK -> len = zlen res -> zlen res <= no ->
   forall p', holding a (answered rc len s) (poke 0 res c) n p' -> Q IOCTL_SCC_OK p') ->
  (rc <> SCC_RET_OK -> forall p', holding a (answered rc len s) c n p' -> Q ENOMEM p') ->
  wp (SccProgram.ioctl SCC_DEBUG SCC_TEST_ENCRYPT cc) Q E p.
Proof.
  intros Hh Ha HN HN32 Hno Hnc Hbi Hbo Hmem Hcall Hgood Hbad. pose proof Hh as [Hv Hk Hr Hp [Hs Hl] [Hc Hcl] [Hn Hnl]].
  eapply (request_wp _ _ N ctp no PT c); try done; [by rewrite Hcl|lia|].
  intros p' Hv' Hk' Hr' Hres Hlen Hu. pose proof (length_answered rc len s Hl) as Hla.
  destruct (Z.eqb_spec rc SCC_RET_OK) as [->|Hrc].
  - apply (Hgood eq_refl); [by apply Hlen|done|]. split; [done..|rewrite Hu|rewrite Hu|rewrite Hu|rewrite Hu].
    + apply mem_at_uput_ne; [rewrite Hla; apply apart_sym, Acp|]. apply mem_at_uput_ne; [|done].
      apply apart_sym. rewrite <- (Z.add_0_r ctp). eapply (apart_part _ nct); [exact Atp|lia|lia].
    + split; [apply mem_at_uput|done].
    + split; [|rewrite length_poke; lia]. apply mem_at_uput_ne.
      * rewrite Hla, length_poke, Hcl by lia. apply apart_sym, Acc.
      * apply mem_at_poke; [done|lia].
    + split; [|done]. apply mem_at_uput_ne; [rewrite Hla, Hnl; apply apart_sym, Acn|]. apply mem_at_uput_ne; [|done].
      apply apart_sym. rewrite <- (Z.add_0_r ctp), Hnl. eapply (apart_part _ nct); [exact Atn|lia|lia].
  - apply (Hbad Hrc). split; [done..|rewrite Hu|rewrite Hu|rewrite Hu|rewrite Hu].
    + apply mem_at_uput_ne; [rewrite Hla; apply apart_sym, Acp|done].
    + split; [apply mem_at_uput|done].
    + split; [|done]. apply mem_at_uput_ne; [rewrite Hla, Hcl; apply apart_sym, Acc|done].
    + split; [|done]. apply mem_at_uput_ne; [rewrite Hla, Hnl; apply apart_sym, Acn|done].
Qed.

(** Decryption: from [ctp] to [npp]. *)
Lemma decrypt_wp no a s ct rest n rc res len (Q : Z -> P -> Prop) E p :
  holding a s (ct ++ rest) n p -> asks ctp (zlen ct) npp no s -> zlen ct < 2 ^ 32 - 16 -> 0 <= no < 2 ^ 32 - 16 ->
  no <= nnp -> 0 <= block_offset ctp -> 0 <= block_offset npp -> memory_found m0 (zlen ct + 16) (no + 16) ->
  (forall d, (scc_crypt (zlen ct) ct vector SCC_DECRYPT (crypto_mode v) (check_mode v) no d).1 = (rc, res, len)) ->
  (rc = SCC_RET_OK -> zlen res <= no ->
   forall p', holding a (answered rc len s) (ct ++ rest) (poke 0 res n) p' -> Q IOCTL_SCC_OK p') ->
  (rc <> SCC_RET_OK -> forall p', holding a (answered rc len s) (ct ++ rest) n p' -> Q ENOMEM p') ->
  wp (SccProgram.ioctl SCC_DEBUG SCC_TEST_DECRYPT cc) Q E p.
Proof.
  intros Hh Ha Hc32 Hno Hnn Hbi Hbo Hmem Hcall Hgood Hbad. pose proof Hh as [Hv Hk Hr Hp [Hs Hl] [Hc Hcl] [Hn Hnl]].
  pose proof (f_equal Z.of_nat (length_app ct rest)) as Hcr. rewrite Nat2Z.inj_add in Hcr.
  eapply (request_wp _ _ (zlen ct) npp no (ct ++ rest) n); try done; [rewrite Hcl; apply Hct|lia|..|by rewrite Hnl|lia|].
  { intros d. rewrite Nat2Z.id, take_app_length. apply Hcall. }
  intros p' Hv' Hk' Hr' Hres Hlen Hu. pose proof (length_answered rc len s Hl) as Hla.
  destruct (Z.eqb_spec rc SCC_RET_OK) as [->|Hrc].
  - apply (Hgood eq_refl); [done|]. split; [done..|rewrite Hu|rewrite Hu|rewrite Hu|rewrite Hu].
    + apply mem_at_uput_ne; [rewrite Hla; apply apart_sym, Acp|]. apply mem_at_uput_ne; [|done].
      apply apart_sym. rewrite <- (Z.add_0_r npp). eapply (apart_part _ nnp); [exact Anp|lia|lia].
    + split; [apply mem_at_uput|done].
    + split; [|done]. apply mem_at_uput_ne; [rewrite Hla, Hcl; apply apart_sym, Acc|]. apply mem_at_uput_ne; [|done].
      apply apart_sym. rewrite <- (Z.add_0_r npp), Hcl. eapply (apart_part _ nnp); [apply apart_sym, Atn|lia|lia].
    + split; [|rewrite length_poke; lia]. apply mem_at_uput_ne.
      * rewrite Hla, length_poke, Hnl by lia. apply apart_sym, Acn.
      * apply mem_at_poke; [done|lia].
  - apply (Hbad Hrc). split; [done..|rewrite Hu|rewrite Hu|rewrite Hu|rewrite Hu].
    + apply mem_at_uput_ne; [rewrite Hla; apply apart_sym, Acp|done].
    + split; [apply mem_at_uput|done].
    + split; [|done]. apply mem_at_uput_ne; [rewrite Hla, Hcl; apply apart_sym, Acc|done].
    + split; [|done]. apply mem_at_uput_ne; [rewrite Hla, Hnl; apply apart_sym, Acn|done].
Qed.

Context (Hctp : in_uint 32 ctp) (Hnpp : in_uint 32 npp) (Hptp : in_uint 32 (plaintext pl))
  (Hmode : in_uint 32 (crypto_mode v)) (Hcheck : in_uint 32 (check_mode v)).
Context (Hbp : 0 <= block_offset (plaintext pl)) (Hbc : 0 <= block_offset ctp) (Hbn : 0 <= block_offset npp).
Context (Hdebug : debug v = false) (HN : 0 <= plaintext_length v <= zlen PT)
  (HPT : zlen PT < 2 ^ 32 - 16) (HNn : plaintext_length v <= nnp).
Definition unharmed p : Prop :=
  (vars p = v \/ vars p = count_rand v) /\ kmem (kern (kside p)) = m0 /\ mod_refs (kern (kside p)) = r0.
Lemma holding_unharmed a s c n p : a = v \/ a = count_rand v -> holding a s c n p -> unharmed p.
Proof. intros Ha [Hv ? ? _ _ _ _]. unfold unharmed. by rewrite Hv. Qed.

(** With [-S+c] one bit of the cipher text is turned before it goes back. *)
Definition corrupted (ct : list Z) : list Z :=
  let i := Z.to_nat (o_rand (rands v) mod zlen ct) in <[i := Z.lxor (ct !!! i) 1]> ct.
Definition sent (ct : list Z) : list Z := if truth (inject_crc_error v) then corrupted ct else ct.
Lemma length_sent ct : length (sent ct) = length ct.
Proof. unfold sent, corrupted. destruct (truth _); [apply length_insert|done]. Qed.
Lemma corrupt_wp U s ct rest n (Q : unit -> P -> Prop) E p :
  holding v s (ct ++ rest) n p -> 0 < zlen ct ->
  (forall p', holding (count_rand v) s (corrupted ct ++ rest) n p' -> Q tt p') ->
  wpu U (corrupt o_rand ctp (zlen ct)) Q E p.
Proof.
  intros [Hv Hk Hr Hp [Hs Hl] [Hc Hcl] [Hn Hnl]] Hpos HQ. unfold corrupt.
  apply wp_bind, wp_gets. rewrite Hv. apply wp_bind, wp_modify. rewrite (proj2 (Z.eqb_neq _ _)) by lia.
  pose proof (Z.mod_pos_bound (o_rand (rands v)) (zlen ct) Hpos) as Hi.
  set (i := Z.to_nat (o_rand (rands v) mod zlen ct)) in *.
  replace (o_rand (rands v) mod zlen ct) with (Z.of_nat i) by lia.
  destruct (lookup_lt_is_Some_2 ct i ltac:(lia)) as [b Hb].
  assert ((ct ++ rest) !! i = Some b) as Hb' by (apply lookup_app_l_Some; exact Hb).
  pose proof (lookup_lt_Some _ _ _ Hb') as Hlt.
  apply wp_bind, (wp_load_at _ _ _ (ct ++ rest) _ _ _ b); [exact Hc|done|].
  cbn [of_le]. rewrite Z.add_0_r. apply wp_store_user, HQ.
  assert (corrupted ct ++ rest = <[i := Z.lxor b 1]> (ct ++ rest)) as ->.
  { unfold corrupted. fold i. rewrite (list_lookup_total_correct _ _ _ Hb). symmetry. apply insert_app_l. lia. }
  split; [by cbn; rewrite Hv|done|done|..]; cbn [kside with_ubytes set_vars kern]; unfold apart in Acc, Atp, Atn.
  - apply mem_at_uput_ne; [simpl; lia|exact Hp].
  - split; [|done]. apply mem_at_uput_ne; [simpl; lia|exact Hs].
  - split; [|by rewrite length_insert]. by apply (mem_at_insert _ _ _ _ b).
  - split; [|done]. apply mem_at_uput_ne; [simpl; lia|exact Hn].
Qed.
(** What the decryption reports: the recovered text is what was decrypted over
    what was in the buffer. *)
Definition recovers (rc : Z) (res n : list Z) : Z :=
  if rc =? SCC_RET_OK then
    let N := Z.to_nat (plaintext_length v) in
    if bool_decide (take N (poke 0 res n) = take N PT) then 0 else 1
  else 1.

(** The second request, as it is assigned over the first. *)
Definition second (s : list Z) (nct room : Z) : list Z :=
  let s := set T "data_out_length" room (set T "data_out" npp (set T "data_in_length" nct (set T "data_in" ctp s))) in
  let s := if crypto_mode v =? SCC_CBC_MODE then set_bytes T "init_vector" (replicate 8 0) s else s in
  set T "wait_mode" SCC_ENCRYPT_POLL (set T "check_mode" (check_mode v) (set T "crypto_mode" (crypto_mode v) s)).
Lemma second_asks s k room :
  length s = sizeof T -> in_uint 32 k -> in_uint 32 room -> asks ctp k npp room (second s k room).
Proof.
  intros Hs Hk Hroom. unfold second.
  destruct (Z.eqb_spec (crypto_mode v) SCC_CBC_MODE) as [Heq|Hne].
  - split; unfold data_in, in_length, data_out, out_length, SccSpec.T; try (fields; by apply wrap_id).
    intros _. rewrite !get_bytes_set_ne by (first [reflexivity | len_struct]).
    apply get_bytes_set_bytes_eq; [reflexivity|reflexivity|len_struct].
  - split; unfold data_in, in_length, data_out, out_length, SccSpec.T; try (fields; by apply wrap_id). done.
Qed.

Definition decrypt_room : Z := u32 (plaintext_length v + decrypt_padding_allowance v).
Lemma run_decryption_wp s ct rest n rc res len (Q : Z -> P -> Prop) E p :
  holding v s (ct ++ rest) n p -> (inject_crc_error v <> 0 -> 0 < zlen ct) -> get T "data_out_length" s = zlen ct -> zlen ct < 2 ^ 32 - 16 ->
  decrypt_room < 2 ^ 32 - 16 -> decrypt_room <= nnp -> memory_found m0 (zlen ct + 16) (decrypt_room + 16) ->
  (forall d, (scc_crypt (zlen ct) (sent ct) vector SCC_DECRYPT (crypto_mode v) (check_mode v) decrypt_room d).1 = (rc, res, len)) ->
  (forall p', unharmed p' -> Q (recovers rc res n) p') ->
  wp (run_decryption SCC_DEBUG pl junk o_rand ctp npp) Q E p.
Proof.
  intros Hh Hpos Hlen Hc32 Hr32 Hrn Hmem Hdec HQ. rewrite <- (length_sent ct) in Hlen, Hc32, Hmem, Hdec.
  unfold run_decryption. fold cc.
  destruct (hold_request _ _ _ _ _ Hh) as [_ Hl]. assert (in_uint 32 decrypt_room) as Hru by (apply wrap_range; lia).
  apply wp_bind, wp_gets. rewrite (hold_vars _ _ _ _ _ Hh).
  apply wp_bind, run_zeroize_tests_wp. intros p1 Hp1. pose proof (holding_quiet _ _ _ _ _ _ Hh Hp1) as H1'.
  apply wp_bind. eapply assign_wp; [exact H1'|reflexivity|]. clear H1'. intros p2 H2'.
  apply wp_bind. eapply field_wp; [exact H2'|]. rewrite get_set_ne, Hlen by done.
  do 3 (apply wp_bind; eapply assign_wp; [exact H2'|reflexivity|]; clear H2'; intros ? H2'). fold decrypt_room in H2'.
  set (s5 := set T "data_out_length" _ _) in H2'.
  match type of H2' with holding _ _ _ _ ?q => assert (forall Q' : unit -> P -> Prop,
    (forall a p', a = v \/ a = count_rand v -> holding a s5 (sent ct ++ rest) n p' -> Q' tt p') ->
    wp (when (truth (inject_crc_error v)) (corrupt o_rand ctp (zlen (sent ct)))) Q' E q) as Hsent end.
  { intros Q' HQ'. rewrite length_sent. unfold sent in HQ'. destruct (truth (inject_crc_error v)) eqn:Hi; [|apply wp_skip, (HQ' v); [by left|done]].
    eapply corrupt_wp; [exact H2'|apply Hpos; intros Hz; by rewrite Hz in Hi|]. intros p8 Hp8. apply (HQ' (count_rand v)); [by right|done]. }
  apply wp_bind, Hsent. clear Hsent H2'. intros a ? Ha H2'. apply wp_bind.
  set (ct' := sent ct) in *. clearbody ct'.
  match type of H2' with holding _ _ _ _ ?q => assert (forall Q' : unit -> P -> Prop,
    (forall p', holding a (if crypto_mode v =? SCC_CBC_MODE then set_bytes T "init_vector" (replicate 8 0) s5 else s5)
       (ct' ++ rest) n p' -> Q' tt p') ->
    wp (when (crypto_mode v =? SCC_CBC_MODE) (clear_init_vector pl)) Q' E q) as Hclear end.
  { intros Q' HQ'. destruct (_ =? _); [by eapply clear_wp|by apply wp_skip, HQ']. }
  apply Hclear. clear Hclear H2'. intros p6 H2'.
  do 3 (apply wp_bind; eapply assign_wp; [exact H2'|reflexivity|]; clear H2'; intros ? H2').
  match type of H2' with holding _ _ _ _ ?q => change (holding a (second s (zlen ct') decrypt_room) (ct' ++ rest) n q) in H2' end.
  do 3 (apply wp_bind; eapply write_register_holding; [exact H2'|]; clear H2'; intros _ ? H2').
  apply wp_bind. eapply printf_holding; [exact H2'|]. clear H2'. intros q4 H4'.
  pose proof (second_asks s (zlen ct') decrypt_room Hl ltac:(unfold in_uint; lia) Hru) as Hasks.
  destruct (hold_request _ _ _ _ _ H4') as [_ Hl4].
  apply wp_bind, (decrypt_wp decrypt_room a (second s (zlen ct') decrypt_room) ct' rest n rc res len); try done;
    [by destruct Hru|..].
  - intros -> Hres q5 H5''. cbn [IOCTL_SCC_OK Z.eqb negb]. rewrite Hdebug. apply wp_bind, wp_skip.
    apply wp_bind; eapply field_wp; [exact H5''|]. apply wp_bind.
    assert (forall (b : bool) f args (Q' : unit -> P -> Prop), (forall q6, holding a (answered SCC_RET_OK len (second s (zlen ct') decrypt_room))
      (ct' ++ rest) (poke 0 res n) q6 -> Q' tt q6) -> wp (when b (printf f args)) Q' E q5) as Hwhen.
    { intros [] f args Q' HQ'; [by eapply printf_holding|by apply wp_skip, HQ']. }
    apply Hwhen. intros q6 H6'. clear Hwhen.
    destruct (hold_new _ _ _ _ _ H6') as [Hn Hnl].
    apply wp_bind, (compare_loop_wp _ _ _ PT (poke 0 res n)); [apply (hold_pt _ _ _ _ _ H6')|done|lia|lia|].
    intros q7 [Hk7 Hv7]. apply wp_bind, wp_printf, wp_ret.
    assert (unharmed (emit (Printf "***Successful end of Cipher Test\n" []) q7)) as Hu.
    { destruct H6'. unfold unharmed. cbn. by rewrite Hk7, Hv7, hold_vars0. }
    specialize (HQ _ Hu). unfold recovers in HQ. done.
  - intros Hrc q5 H5''. change (negb (ENOMEM =? IOCTL_SCC_OK)) with true. cbn iota.
    apply wp_bind, wp_modify, wp_bind. eapply field_wp; [destruct H5''; split; eassumption|].
    unfold print_scc_return_code. apply wp_bind. unfold recovers in HQ. rewrite (proj2 (Z.eqb_neq _ _) Hrc) in HQ.
    destruct (return_code_name _); apply wp_printf, wp_ret, HQ; destruct H5'' as [Hv5 ? ? _ _ _ _]; unfold unharmed; cbn; by rewrite Hv5.
Qed.

(** The first request. *)
Definition encrypt_room : Z := u32 (plaintext_length v + encrypt_padding_allowance v).
Definition first : list Z :=
  set T "wait_mode" SCC_ENCRYPT_POLL (set T "check_mode" (check_mode v) (set T "crypto_mode" (crypto_mode v)
    (set_bytes T "init_vector" (replicate 8 0)
      (set T "data_out_length" encrypt_room (set T "data_out" ctp (set T "data_in_length" (plaintext_length v)
        (set T "data_in" (plaintext pl) (fresh junk T)))))))).
Lemma first_asks : asks (plaintext pl) (plaintext_length v) ctp encrypt_room first.
Proof.
  pose proof (length_fresh junk T) as Hf. unfold first. assert (in_uint 32 encrypt_room) by (apply wrap_range; lia).
  assert (in_uint 32 (plaintext_length v)) by (unfold in_uint; lia).
  split; unfold data_in, in_length, data_out, out_length, SccSpec.T; try (fields; by apply wrap_id).
  intros _. rewrite !get_bytes_set_ne by (first [reflexivity | len_struct]).
  apply get_bytes_set_bytes_eq; [reflexivity|reflexivity|len_struct].
Qed.

(** The result of the cipher test: both directions succeed and the text is back. *)
Definition cipher_status (erc drc : Z) (res n : list Z) : Z :=
  if erc =? SCC_RET_OK then if encrypt_only v then 0 else recovers drc res n else 1.
Context (c n ct res : list Z) (erc elen drc dlen : Z).
Context (Her : encrypt_room < 2 ^ 32 - 16) (Hern : encrypt_room <= nct) (Hdr : decrypt_room < 2 ^ 32 - 16)
  (Hdrn : decrypt_room <= nnp).
Context (Hmem1 : memory_found m0 (plaintext_length v + 16) (encrypt_room + 16))
  (Hmem2 : memory_found m0 (zlen ct + 16) (decrypt_room + 16)).
Context (Henc : forall d, (scc_crypt (plaintext_length v) (take (Z.to_nat (plaintext_length v)) PT) vector SCC_ENCRYPT
    (crypto_mode v) (check_mode v) encrypt_room d).1 = (erc, ct, elen))
  (Hpos : erc = SCC_RET_OK -> encrypt_only v = false -> inject_crc_error v <> 0 -> 0 < zlen ct)
  (Hdec : forall d, (scc_crypt (zlen ct) (sent ct) vector SCC_DECRYPT (crypto_mode v) (check_mode v) decrypt_room d).1 =
    (drc, res, dlen)).
(** From the assignments on. *)
Lemma cipher_run_wp s p (Q : Z -> P -> Prop) E :
  s = fresh junk T -> holding v s c n p -> (forall p', unharmed p' -> Q (cipher_status erc drc res n) p') ->
  wp (assign T cc "data_in" (plaintext pl);;
      assign T cc "data_in_length" (plaintext_length v);;
      assign T cc "data_out" ctp;;
      assign T cc "data_out_length" encrypt_room;;
      clear_init_vector pl;;
      assign T cc "crypto_mode" (crypto_mode v);;
      assign T cc "check_mode" (check_mode v);;
      assign T cc "wait_mode" SCC_ENCRYPT_POLL;;
      _ ← write_scc_register SCC_DEBUG pl junk SCM_INIT_VECTOR_0 0;
      _ ← write_scc_register SCC_DEBUG pl junk SCM_INIT_VECTOR_1 0;
      puts "***CIPHER: Start Encrypting....\n";;
      status ← SccProgram.ioctl SCC_DEBUG SCC_TEST_ENCRYPT cc;
      if negb (status =? IOCTL_SCC_OK) then
        fprintf_stderr "Encrypt failed\n" [];;
        rc ← field T cc "function_return_code";
        print_scc_return_code rc;;
        mret 1
      else
        when (debug v) (
          dump_cipher_control_block pl;;
          print_ram_data ctp SCM_BLACK_MEMORY 32;;
          show_status SCC_DEBUG pl junk "SCM Status                  (0x%08x): " "SMN Status                  (0x%08x): ");;
        puts "***End of Encryption\n";;
        if encrypt_only v then mret 0 else run_decryption SCC_DEBUG pl junk o_rand ctp npp) Q E p.
Proof.
  intros -> H2' HQ. pose proof (length_fresh junk T) as Hf.
  do 4 (apply wp_bind; eapply assign_wp; [exact H2'|reflexivity|]; clear H2'; intros ? H2').
  apply wp_bind. eapply clear_wp; [exact H2'|]. clear H2'. intros ? H2'.
  do 3 (apply wp_bind; eapply assign_wp; [exact H2'|reflexivity|]; clear H2'; intros ? H2').
  match type of H2' with holding _ _ _ _ ?q => change (holding v first c n q) in H2' end.
  do 2 (apply wp_bind; eapply write_register_holding; [exact H2'|]; clear H2'; intros _ ? H2').
  apply wp_bind. eapply printf_holding; [exact H2'|]. clear H2'. intros q4 H4'.
  destruct (hold_request _ _ _ _ _ H4') as [_ Hl4]. destruct (hold_cipher _ _ _ _ _ H4') as [_ Hcl].
  assert (in_uint 32 encrypt_room) as Heu by (apply wrap_range; lia).
  apply wp_bind, (encrypt_wp (plaintext_length v) encrypt_room v first c n erc ct elen); try done;
    [apply first_asks|lia|by destruct Heu|..].
  - intros -> -> Hres q5 H5'. unfold cipher_status in HQ. cbn [Z.eqb SCC_RET_OK] in HQ.
    change (negb (IOCTL_SCC_OK =? IOCTL_SCC_OK)) with false. cbn iota. rewrite Hdebug. apply wp_bind, wp_skip.
    apply wp_bind. eapply printf_holding; [exact H5'|]. clear H5'. intros q6 H6'.
    destruct (encrypt_only v) eqn:Heo; [apply wp_ret, HQ; eapply holding_unharmed; [by left|exact H6']|].
    unfold poke in H6'. rewrite take_0, app_nil_l in H6'.
    eapply run_decryption_wp; [exact H6'|by apply Hpos| |lia|done|done|done|exact Hdec|exact HQ].
    unfold answered. fields. apply wrap_id. destruct Heu. cbn. unfold in_uint. lia.
  - intros Hrc q5 H5'. change (negb (ENOMEM =? IOCTL_SCC_OK)) with true. cbn iota.
    apply wp_bind, wp_modify, wp_bind. eapply field_wp; [destruct H5'; split; eassumption|].
    unfold print_scc_return_code. apply wp_bind. unfold cipher_status in HQ. rewrite (proj2 (Z.eqb_neq _ _) Hrc) in HQ.
    destruct (return_code_name _); apply wp_printf, wp_ret, HQ; destruct H5' as [Hv5 ? ? _ _ _ _]; unfold unharmed; cbn; auto.
Qed.
End Cipher.

(** ** The cipher test *)
Definition full_plaintext : list Z := plaintext_data ++ map (fun i => i mod 256) (seqZ 24 4072).
(** The objects of the program: the buffers at [q1] and [q2] are from [malloc]. *)
Definition blocks (v : scc_vars) (q1 q2 : Z) : list (Z * Z) :=
  [(plaintext pl, 4096); (cc, Z.of_nat (sizeof scc_encrypt_decrypt)); (register_access pl, 12); (value_p pl, 4);
   (q1, 4096); (q2, 4096 + byte_offset v)].
Record laid_out (v : scc_vars) (q1 q2 : Z) : Prop := {
  lay_user : Forall (fun b => user_block b.1 b.2) (blocks v q1 q2);
  lay_apart : separate (blocks v q1 q2);
  lay_task : TASK_SIZE <= 2 ^ 32;
  lay_offsets : 0 <= block_offset (plaintext pl) /\ 0 <= block_offset (q1 + byte_offset v) /\ 0 <= block_offset q2;
}.
(** Settings with which nothing is written past a buffer, and without the dumps
    of [-S+D], which show registers whether or not they could be read. *)
Record plain (v : scc_vars) : Prop := {
  plain_debug : debug v = false;
  plain_length : 0 <= plaintext_length v <= 4096;
  plain_offset : 0 <= byte_offset v < 4096;
  plain_modes : in_uint 32 (crypto_mode v) /\ in_uint 32 (check_mode v);
  plain_rooms : encrypt_room v <= 4096 - byte_offset v /\ decrypt_room v <= 4096 + byte_offset v;
}.
Lemma user_block_uint q n : user_block q n -> TASK_SIZE <= 2 ^ 32 -> 0 < n -> in_uint 32 q.
Proof. intros [Ha _] Ht Hn. unfold access_ok in Ha. rewrite andb_true_iff, !Z.leb_le in Ha. unfold in_uint. lia. Qed.
Lemma malloc_wp U n q bs (Q : option Z -> P -> Prop) E p :
  o_alloc (allocs p) n = Some (q, bs) ->
  Q (Some q) (with_ubytes (uput (ub p) q (take (Z.to_nat n) (bs ++ replicate (Z.to_nat n) 0))) (alloced p)) ->
  wpu U (malloc o_alloc n) Q E p.
Proof.
  intros Ho HQ. unfold malloc. apply wp_bind, wp_gets, wp_bind, wp_modify. rewrite Ho.
  apply wp_bind, wp_store_user. by apply wp_ret.
Qed.
Definition block_of (n : Z) (bs : list Z) : list Z := take (Z.to_nat n) (bs ++ replicate (Z.to_nat n) 0).
Lemma length_block_of n bs : 0 <= n -> zlen (block_of n bs) = n.
Proof. intros Hn. unfold block_of. rewrite length_take_le by (rewrite length_app, length_replicate; lia). lia. Qed.
Lemma length_full_plaintext : zlen full_plaintext = 4096.
Proof. unfold full_plaintext. by rewrite length_app, length_map, length_seqZ. Qed.
#[local] Opaque full_plaintext.
Section Layout.
Context (v : scc_vars) (q1 q2 : Z) (Hlay : laid_out v q1 q2).
Lemma laid_block i q n : blocks v q1 q2 !! i = Some (q, n) -> user_block q n.
Proof. intros Hq. pose proof (lay_user _ _ _ Hlay) as Hu. rewrite Forall_lookup in Hu. by apply (Hu i (q, n)). Qed.
Lemma laid_apart i j q n q' n' :
  blocks v q1 q2 !! i = Some (q, n) -> blocks v q1 q2 !! j = Some (q', n') -> i <> j -> apart q n q' n'.
Proof.
  intros Hi Hj Hij. destruct (decide (i < j)%nat).
  - by apply (separate_apart _ i j _ _ _ _ (lay_apart _ _ _ Hlay)).
  - apply apart_sym. apply (separate_apart _ j i _ _ _ _ (lay_apart _ _ _ Hlay)); [lia|done|done].
Qed.
Context (Hoff : 0 <= byte_offset v < 4096).
(** The cipher text begins [byte_offset] bytes after the beginning of its block. *)
Lemma laid_cipher i q n :
  blocks v q1 q2 !! i = Some (q, n) -> i <> 4%nat -> apart (q1 + byte_offset v) (4096 - byte_offset v) q n.
Proof. intros Hq Hi. apply (apart_part _ 4096); [|lia|lia]. by apply (laid_apart 4 i). Qed.
Lemma start_holding p B1 B2 s p1 :
  mem_at (ub p) (plaintext pl) full_plaintext -> zlen B1 = 4096 -> zlen B2 = 4096 + byte_offset v ->
  length s = sizeof scc_encrypt_decrypt -> vars p1 = v ->
  ub p1 = uput (uput (uput (ub p) q1 B1) q2 B2) cc s ->
  holding (kmem (kern (kside p1))) (mod_refs (kern (kside p1))) full_plaintext (q1 + byte_offset v)
    (4096 - byte_offset v) q2 (4096 + byte_offset v) v s (drop (Z.to_nat (byte_offset v)) B1) B2 p1.
Proof.
  intros Hpt HB1 HB2 Hs Hv Hub. pose proof length_full_plaintext as HlP. split; [done..|rewrite Hub|rewrite Hub|rewrite Hub|rewrite Hub].
  - apply mem_at_uput_ne; [rewrite Hs, HlP; by apply (laid_apart 0 1)|].
    apply mem_at_uput_ne; [rewrite HB2, HlP; by apply (laid_apart 0 5)|].
    apply mem_at_uput_ne; [rewrite HB1, HlP; by apply (laid_apart 0 4)|done].
  - split; [apply mem_at_uput|done].
  - split; [|rewrite length_drop; lia].
    assert (forall m, mem_at m q1 B1 -> mem_at m (q1 + byte_offset v) (drop (Z.to_nat (byte_offset v)) B1)) as Hdrop.
    { intros m Hm1. rewrite <- (take_drop (Z.to_nat (byte_offset v)) B1), mem_at_app in Hm1. destruct Hm1 as [_ Hm1].
      rewrite length_take_le in Hm1 by lia. by rewrite Z2Nat.id in Hm1 by lia. }
    apply Hdrop. apply mem_at_uput_ne; [rewrite Hs, HB1; by apply (laid_apart 4 1)|].
    apply mem_at_uput_ne; [rewrite HB2, HB1; by apply (laid_apart 4 5)|]. apply mem_at_uput.
  - split; [|done]. apply mem_at_uput_ne; [rewrite Hs, HB2; by apply (laid_apart 5 1)|]. apply mem_at_uput.
Qed.
End Layout.
Lemma run_cipher_tests_wp v q1 bs1 q2 bs2 ct res erc elen drc dlen (Q : Z -> P -> Prop) E p :
  vars p = v -> mem_at (ub p) (plaintext pl) full_plaintext ->
  o_alloc (allocs p) 4096 = Some (q1, bs1) -> o_alloc (S (allocs p)) (4096 + byte_offset v) = Some (q2, bs2) ->
  laid_out v q1 q2 -> plain v ->
  memory_found (kmem (kern (kside p))) (plaintext_length v + 16) (encrypt_room v + 16) ->
  memory_found (kmem (kern (kside p))) (zlen ct + 16) (decrypt_room v + 16) ->
  (forall d, (scc_crypt (plaintext_length v) (take (Z.to_nat (plaintext_length v)) full_plaintext) (vector v) SCC_ENCRYPT
    (crypto_mode v) (check_mode v) (encrypt_room v) d).1 = (erc, ct, elen)) ->
  (erc = SCC_RET_OK -> encrypt_only v = false -> inject_crc_error v <> 0 -> 0 < zlen ct) ->
  (forall d, (scc_crypt (zlen ct) (sent v ct) (vector v) SCC_DECRYPT (crypto_mode v) (check_mode v) (decrypt_room v) d).1 =
    (drc, res, dlen)) ->
  (forall p', unharmed v (kmem (kern (kside p))) (mod_refs (kern (kside p))) p' ->
     Q (cipher_status v full_plaintext erc drc res (block_of (4096 + byte_offset v) bs2)) p') ->
  wp (run_cipher_tests SCC_DEBUG pl junk o_alloc o_rand) Q E p.
Proof.
  intros Hv Hpt Ho1 Ho2 Hlay [Hd HN Hoff [Hm Hc] [Her Hdr]] Hf1 Hf2 Henc Hpos Hdec HQ.
  pose proof (lay_task _ _ _ Hlay) as Ht. pose proof (lay_offsets _ _ _ Hlay) as (Hb1 & Hb2 & Hb3).
  pose proof length_full_plaintext as HlP. pose proof (laid_block v q1 q2 Hlay) as Hblock.
  pose proof (laid_apart v q1 q2 Hlay) as Hap. pose proof (laid_cipher v q1 q2 Hlay Hoff) as Hca.
  unfold run_cipher_tests, sizeof_plaintext. apply wp_bind, wp_gets. rewrite Hv.
  apply wp_bind, (malloc_wp _ _ q1 bs1); [exact Ho1|]. fold (block_of 4096 bs1).
  assert (in_uint 32 (4096 + byte_offset v)) as Hou by (unfold in_uint; lia).
  apply wp_bind. assert (u32 (4096 + byte_offset v) = 4096 + byte_offset v) as -> by by apply wrap_id.
  apply (malloc_wp _ _ q2 bs2); [exact Ho2|]. fold (block_of (4096 + byte_offset v) bs2).
  cbn [default from_option id].
  pose proof (length_block_of 4096 bs1 ltac:(lia)) as HB1. pose proof (length_block_of (4096 + byte_offset v) bs2 ltac:(lia)) as HB2.
  set (B1 := block_of 4096 bs1) in *. set (B2 := block_of (4096 + byte_offset v) bs2) in *. clearbody B1 B2.
  assert (user_block (q1 + byte_offset v) (4096 - byte_offset v)) as Huc
    by (eapply user_block_part; [by apply (Hblock 4%nat)|lia..]).
  assert (in_uint 32 (q1 + byte_offset v)) as Hcu by (apply (user_block_uint _ _ Huc); lia).
  assert (u32 (q1 + byte_offset v) = q1 + byte_offset v) as -> by by apply wrap_id.
  apply wp_bind, wp_store_user. fold cc. set (p1 := with_ubytes _ _).
  pose proof (start_holding v q1 q2 Hlay Hoff p B1 B2 (fresh junk scc_encrypt_decrypt) p1 Hpt HB1 HB2
    (length_fresh junk scc_encrypt_decrypt) Hv eq_refl) as Hh.
  pose proof (cipher_run_wp v (kmem (kern (kside p))) (mod_refs (kern (kside p))) full_plaintext (q1 + byte_offset v)
    (4096 - byte_offset v) q2 (4096 + byte_offset v)) as Hrun. rewrite HlP in Hrun.
  eapply Hrun; clear Hrun; [..|exact HQ]; try (assumption || lia || reflexivity).
  - by apply (Hblock 1%nat).
  - apply (Hblock 0%nat). reflexivity.
  - by apply (Hblock 5%nat).
  - by apply (Hap 1%nat 0%nat).
  - by apply apart_sym, (Hca 1%nat).
  - by apply (Hap 1%nat 5%nat).
  - by apply (Hca 0%nat).
  - by apply (Hap 5%nat 0%nat).
  - by apply (Hca 5%nat).
  - split; [by apply (Hap 1%nat 2%nat)|by apply (Hap 1%nat 3%nat)].
  - split; [by apply (Hap 0%nat 2%nat)|by apply (Hap 0%nat 3%nat)].
  - split; [by apply (Hca 2%nat)|by apply (Hca 3%nat)].
  - split; [by apply (Hap 5%nat 2%nat)|by apply (Hap 5%nat 3%nat)].
  - apply (user_block_uint q2 (4096 + byte_offset v)); [by apply (Hblock 5%nat)|done|lia].
  - apply (user_block_uint _ 4096); [by apply (Hblock 0%nat)|done|lia].
  - exact Hf2.
  - exact Henc.
  - exact Hpos.
  - exact Hdec.
  - exact Hh.
Qed.

(** ** The program *)
(** What neither the kernel's allocator nor the module's count sees. *)
Definition inside_process p p' : Prop :=
  kmem (kern (kside p')) = kmem (kern (kside p)) /\ mod_refs (kern (kside p')) = mod_refs (kern (kside p)) /\
  allocs p' = allocs p.
Lemma fill_wp U n pre (Q : unit -> P -> Prop) E p :
  mem_at (ub p) (plaintext pl) pre ->
  (forall p', inside_process p p' -> vars p' = vars p ->
     mem_at (ub p') (plaintext pl) (pre ++ map (fun i => i mod 256) (seqZ (zlen pre) (Z.of_nat n))) -> Q tt p') ->
  wpu U (for_m n (zlen pre) (fun i => store (plaintext pl + i) [i mod 256])) Q E p.
Proof.
  revert pre p. induction n as [|n IH]; intros pre p Hm HQ; cbn [for_m].
  - apply wp_skip, (HQ p); [done|done|]. by rewrite app_nil_r.
  - apply wp_bind, wp_store_user. set (a := zlen pre mod 256) in *.
    replace (zlen pre + 1) with (zlen (pre ++ [a])) by (rewrite length_app; cbn; lia).
    apply IH.
    + apply (mem_at_app (uput (ub p) (plaintext pl + zlen pre) [a])). split; [|apply mem_at_uput].
      apply mem_at_uput_ne; [lia|done].
    + intros p' Hi Hv Hm'. apply HQ; [done|done|]. rewrite (seqZ_cons (zlen pre)) by lia. cbn [map].
      replace (Z.pred (Z.of_nat (S n))) with (Z.of_nat n) by lia.
      replace (Z.succ (zlen pre)) with (zlen (pre ++ [a])) by (rewrite length_app; cbn; lia).
      by rewrite <- app_assoc in Hm'.
Qed.
(** [-S] and its arguments, of which none is empty. *)
Definition switched (optarg : string) (v : scc_vars) : option scc_vars :=
  match optarg with
  | EmptyString => None
  | String _ EmptyString => Some v
  | String sign (String c rest) => Some (apply_switch (Ascii.eqb sign "+") c rest v).1
  end.
Fixpoint switches (l : list string) (v : scc_vars) : option scc_vars :=
  match l with
  | [] => Some v
  | x :: l => match switched x v with Some v => switches l v | None => None end
  end.
Lemma print_errors_wp U l (Q : unit -> P -> Prop) E p :
  (forall p', kside p' = kside p -> vars p' = vars p -> allocs p' = allocs p -> Q tt p') ->
  wpu U (print_errors l) Q E p.
Proof.
  revert p. induction l as [|x l IH]; intros p HQ; cbn [print_errors]; [by apply wp_skip, HQ|].
  apply wp_bind, wp_modify, IH. intros p' Hk Hv Ha. by apply HQ.
Qed.
Lemma set_switch_wp U x v' (Q : unit -> P -> Prop) E p :
  switched x (vars p) = Some v' ->
  (forall p', kside p' = kside p -> vars p' = v' -> allocs p' = allocs p -> Q tt p') -> wpu U (set_switch x) Q E p.
Proof.
  intros Hx HQ. destruct x as [|sign [|c rest]]; [done| |].
  - injection Hx as Hx. apply wp_modify. by apply HQ.
  - unfold set_switch. apply wp_bind, wp_gets. injection Hx as Hx.
    destruct (apply_switch _ c rest (vars p)) as [v2 errors]. cbn [fst] in Hx. subst v2.
    apply wp_bind, wp_modify, print_errors_wp. intros p' Hk Hv Ha. by apply HQ.
Qed.
Definition cipher_options (l : list string) : list (ascii * string) :=
  map (fun s => ("S"%char, s)) l ++ [("L"%char, "e"%string)].
Abbreviation option_loop := (option_loop SCC_DEBUG pl junk mmap_p).
Lemma option_loop_wp U l tests timer st v' (Q : string * Z * Z -> P -> Prop) E p :
  switches l (vars p) = Some v' ->
  (forall p', kside p' = kside p -> vars p' = v' -> allocs p' = allocs p -> Q ("e"%string, timer, st) p') ->
  wpu U (option_loop (cipher_options l) tests timer st) Q E p.
Proof.
  revert tests p. induction l as [|x l IH]; intros tests p Hs HQ; cbn [cipher_options map app SccProgram.option_loop].
  - injection Hs as Hs. apply wp_bind, wp_ret, wp_ret. by apply HQ.
  - cbn [switches] in Hs. destruct (switched x (vars p)) as [v1|] eqn:Hx; [|done].
    apply wp_bind. cbn [option_step]. apply wp_bind, (set_switch_wp _ _ v1); [done|]. intros p1 Hk Hv Ha.
    apply wp_ret, IH; [by rewrite Hv|]. intros p' Hk' Hv' Ha'. apply HQ; congruence.
Qed.
Lemma open_device_wp (Q : Z -> P -> Prop) E p :
  (forall p', kmem (kern (kside p')) = kmem (kern (kside p)) -> mod_refs (kern (kside p')) = mod_refs (kern (kside p)) + 1 ->
     ub p' = ub p -> vars p' = vars p -> allocs p' = allocs p -> Q 0 p') ->
  wp (UserProc.syscall (scc_test_open SCC_DEBUG)) Q E p.
Proof.
  intros HQ. apply syscall_wp. unfold scc_test_open. apply wp_bind, wp_modify, wp_bind. unfold Scc.debug.
  destruct SCC_DEBUG; apply wp_ret; (split; [done|]); apply HQ; try done; cbn; lia.
Qed.
Lemma close_device_wp (Q : unit -> P -> Prop) E p :
  (forall p', kmem (kern (kside p')) = kmem (kern (kside p)) -> mod_refs (kern (kside p')) = mod_refs (kern (kside p)) - 1 ->
     vars p' = set_opened false (vars p) -> Q tt p') ->
  wp (close_device SCC_DEBUG) Q E p.
Proof.
  intros HQ. unfold close_device, scc_test_release. apply wp_bind, wp_lift, wp_bind, wp_modify, wp_bind.
  unfold Scc.debug. destruct SCC_DEBUG; apply wp_ret, wp_modify, HQ; try done; cbn; lia.
Qed.
Lemma at_exit_wp m (Q : Z -> P -> Prop) E p :
  wp m (fun _ _ => False) (fun c p' => scc_opened (vars p') = false /\ Q c p') p ->
  wp (at_exit SCC_DEBUG m) Q E p.
Proof.
  unfold wpu, at_exit. destruct (m p) as [[] p']; try done. intros [Ho HQ].
  unfold getv, gets, mbind, M_bind. by rewrite Ho.
Qed.
(** The text is complete when the tests begin. *)
Lemma process_start_wp opts (Q : Z -> P -> Prop) E p :
  (forall p', inside_process p p' -> vars p' = vars p -> mem_at (ub p') (plaintext pl) full_plaintext ->
     wp (r ← UserProc.syscall (scc_test_open SCC_DEBUG);
         scc_fd ← (if r =? 0 then setv (set_opened true);; mret scc_fd else mret (-1));
         if scc_fd <? 0 then perror "Cannot open SCC device";; exit 1
         else
           '(test_to_run, timer_value, test_status) ← option_loop opts "Cres" 0x5f0000 0;
           test_status ← test_loop SCC_DEBUG pl junk o_alloc o_rand test_to_run timer_value test_status;
           close_device SCC_DEBUG;;
           exit (if test_status =? 0 then 0 else 1))
       (fun (_ : Z) _ => False) (fun c p' => scc_opened (vars p') = false /\ Q c p') p') ->
  wp (process SCC_DEBUG pl junk o_alloc o_rand scc_fd mmap_p opts) Q E p.
Proof.
  intros HQ. unfold process. apply wp_bind, wp_store_user. set (zeros := replicate _ 0).
  apply at_exit_wp. unfold main, init_plaintext. apply wp_bind.
  change 24 with (zlen plaintext_data) at 2. apply fill_wp.
  - assert (mem_at (uput (ub p) (plaintext pl) (plaintext_data ++ zeros)) (plaintext pl) plaintext_data) as Hm0;
      [|exact Hm0]. pose proof (mem_at_uput (ub p) (plaintext pl) (plaintext_data ++ zeros)) as Hm0.
    clearbody zeros. rewrite mem_at_app in Hm0. exact (proj1 Hm0).
  - intros p1 Hi Hv Hm. by apply HQ.
Qed.
(** With which settings and for which results the program succeeds. *)
Lemma cipher_status_cases v erc drc res n :
  let st := cipher_status v full_plaintext erc drc res n in
  let N := Z.to_nat (plaintext_length v) in
  (if st =? 0 then 0 else 1) = st /\
  (st = 0 <-> erc = SCC_RET_OK /\
     (encrypt_only v = true \/ drc = SCC_RET_OK /\ take N (poke 0 res n) = take N full_plaintext)).
Proof.
  unfold cipher_status, recovers. cbn zeta.
  destruct (Z.eqb_spec erc SCC_RET_OK); [|intuition congruence]. destruct (encrypt_only v); [by intuition|].
  destruct (Z.eqb_spec drc SCC_RET_OK); [|intuition congruence]. case_bool_decide; intuition congruence.
Qed.
End Spec.

Section Run.
Context `{KL : KernelLaws} `{PL : PortableOs} {D : Type} `{SL : SccDriverLaws D} `{SccHeader} (SCC_DEBUG : bool).
Context (pl : places) (junk : list Z) (o_alloc : nat -> Z -> option (Z * list Z)) (o_rand : nat -> Z)
  (scc_fd mmap_p : Z).
Implicit Types p : proc D globals scc_vars.

(** C7: [scc_test -S... -Le], after any switches that do not ask for the debug
    output (-S+D) and whose sizes fit the program's buffers: if memory is found
    in the process, where the module handles it rightly, and in the kernel for
    the requests, and what the controller answers to the two requests does not
    depend on its state, then the program returns; it exits with 0 exactly if the
    controller encrypted the plain text and, unless only encryption was asked
    for, decrypted what it was then sent to bytes that, over what the second
    buffer held before, begin with the plain text, and with 1 otherwise.  What
    is sent is the cipher text, with -S+c with the lowest bit of one byte of it
    turned (which must then not be empty).  Kernel memory and the module's use
    count are as before. *)
Theorem scc_program_cipher_status l v q1 bs1 q2 bs2 ct res erc elen drc dlen E p :
  vars p = init_vars -> switches l (set_opened true init_vars) = Some v -> 0 <= scc_fd ->
  o_alloc (allocs p) 4096 = Some (q1, bs1) -> o_alloc (S (allocs p)) (4096 + byte_offset v) = Some (q2, bs2) ->
  laid_out pl v q1 q2 -> plain v ->
  memory_found (kmem (kern (kside p))) (plaintext_length v + 16) (encrypt_room v + 16) ->
  memory_found (kmem (kern (kside p))) (zlen ct + 16) (decrypt_room v + 16) ->
  (forall d, (scc_crypt (plaintext_length v) (take (Z.to_nat (plaintext_length v)) full_plaintext) (vector v) SCC_ENCRYPT
    (crypto_mode v) (check_mode v) (encrypt_room v) d).1 = (erc, ct, elen)) ->
  (erc = SCC_RET_OK -> encrypt_only v = false -> inject_crc_error v <> 0 -> 0 < zlen ct) ->
  (forall d, (scc_crypt (zlen ct) (sent o_rand v ct) (vector v) SCC_DECRYPT (crypto_mode v) (check_mode v) (decrypt_room v) d).1 =
    (drc, res, dlen)) ->
  wp (process SCC_DEBUG pl junk o_alloc o_rand scc_fd mmap_p (cipher_options l))
    (fun status p' =>
       let N := Z.to_nat (plaintext_length v) in
       (status = 0 \/ status = 1) /\
       (status = 0 <-> erc = SCC_RET_OK /\
          (encrypt_only v = true \/
           drc = SCC_RET_OK /\ take N (poke 0 res (block_of (4096 + byte_offset v) bs2)) = take N full_plaintext)) /\
       kmem (kern (kside p')) = kmem (kern (kside p)) /\ mod_refs (kern (kside p')) = mod_refs (kern (kside p))) E p.
Proof.
  intros Hv Hsw Hfd Ho1 Ho2 Hlay Hpl Hf1 Hf2 Henc Hpos Hdec.
  apply process_start_wp. intros p1 (Hk1 & Hr1 & Ha1) Hv1 Hm1.
  apply wp_bind, open_device_wp. intros p2 Hk2 Hr2 Hu2 Hv2 Ha2.
  apply wp_bind, wp_bind, wp_modify, wp_ret. rewrite (proj2 (Z.ltb_ge _ _) Hfd).
  apply wp_bind, option_loop_wp with (v' := v); [cbn; congruence|]. cbn [kside vars allocs set_vars].
  intros p3 Hk3 Hv3 Ha3. cbn [test_loop test_step].
  apply wp_bind, wp_bind, wp_bind, wp_printf, wp_bind. set (p4 := emit _ p3).
  assert (kmem (kern (kside p4)) = kmem (kern (kside p))) as Hk4 by (cbn; congruence).
  apply (run_cipher_tests_wp SCC_DEBUG pl junk o_alloc o_rand (laid_block pl v q1 q2 Hlay 2 _ _ eq_refl) (laid_block pl v q1 q2 Hlay 3 _ _ eq_refl)
    v q1 bs1 q2 bs2 ct res erc elen drc dlen); rewrite ?Hk4; try done.
  - cbn. rewrite Hk3. cbn. by rewrite Hu2.
  - cbn. rewrite Ha3. cbn. by rewrite Ha2, Ha1.
  - cbn. rewrite Ha3. cbn. by rewrite Ha2, Ha1.
  - intros p5 (Hv5 & Hk5 & Hr5). apply wp_ret, wp_ret. rewrite Z.lor_0_l.
    apply wp_bind, close_device_wp. intros p6 Hk6 Hr6 Hv6. apply wp_exit. split; [by rewrite Hv6|].
    pose proof (cipher_status_cases v erc drc res (block_of (4096 + byte_offset v) bs2)) as [Hst Hiff].
    split; [|split; [by rewrite Hst|split; [congruence|]]].
    + destruct (_ =? 0); auto.
    + rewrite Hr6, Hr5. cbn. rewrite Hk3. cbn. lia.
Qed.
End Run.

(** ** Runs on a simulated kernel: a cipher that adds and subtracts 1, and key
    slots that keep the keys loaded into them or do not *)
#[local] Instance header : SccHeader := {|
  SCC_ECB_MODE := 0; SCC_VERIFY_MODE_NONE := 1; SCC_VERIFY_MODE_CCITT_CRC := 2; SCC_RET_FAIL := 3;
  SCC_RET_VERIFICATION_FAILED := 4; SCC_RET_TOO_MANY_FUNCTIONS := 5; SCC_RET_BUSY := 6; SCM_RED_START := 7;
  SCM_BLACK_START := 8; SCM_LENGTH := 9; SCM_CONTROL := 10; SCM_STATUS := 11; SCM_ERROR_STATUS := 12;
  SCM_INTERRUPT_CTRL := 13; SCM_CONFIGURATION := 14; SCM_INIT_VECTOR_0 := 15; SCM_INIT_VECTOR_1 := 16;
  SCM_RED_MEMORY := 17; SCM_BLACK_MEMORY := 18; SMN_COMMAND := 19; SMN_SEQUENCE_START := 20;
  SMN_SEQUENCE_END := 21; SMN_SEQUENCE_CHECK := 22; SMN_BIT_COUNT := 23; SMN_BITBANK_INC_SIZE := 24;
  SMN_COMPARE_SIZE := 25; SMN_PLAINTEXT_CHECK := 26; SMN_CIPHERTEXT_CHECK := 27; SMN_TIMER_IV := 28;
  SMN_TIMER_CONTROL := 29; SMN_DEBUG_DETECT_STAT := 30; SMN_TIMER := 31;
  SCM_INTERRUPT_CTRL_CLEAR_INTERRUPT := 32; SCM_INTERRUPT_CTRL_MASK_INTERRUPTS := 33;
  SMN_TIMER_LOAD_TIMER := 34; SMN_TIMER_START_TIMER := 35; SMN_TIMER_STOP_MASK := 36;
  SMN_TIMER_CTRL_ZEROS_MASK := 37; SMN_STATUS_VERSION_ID_MASK := 38; SMN_STATUS_VERSION_ID_SHIFT := 39;
  SMN_STATUS_STATE_SHIFT := 40; SMN_STATUS_CACHEABLE_ACCESS := 41; SMN_STATUS_ILLEGAL_MASTER := 42;
  SMN_STATUS_SCAN_EXIT := 43; SMN_STATUS_UNALIGNED_ACCESS := 44; SMN_STATUS_BYTE_ACCESS := 45;
  SMN_STATUS_ILLEGAL_ADDRESS := 46; SMN_STATUS_USER_ACCESS := 47; SMN_STATUS_DEFAULT_KEY := 48;
  SMN_STATUS_BAD_KEY := 49; SMN_STATUS_ILLEGAL_ACCESS := 50; SMN_STATUS_SCM_ERROR := 51;
  SMN_STATUS_SMN_STATUS_IRQ := 52; SMN_STATUS_SOFTWARE_ALARM := 53; SMN_STATUS_TIMER_ERROR := 54;
  SMN_STATUS_PC_ERROR := 55; SMN_STATUS_ASC_ERROR := 56; SMN_STATUS_SECURITY_POLICY_ERROR := 57;
  SMN_STATUS_DEBUG_ACTIVE := 58; SMN_STATUS_ZEROIZE_FAIL := 59; SMN_STATUS_INTERNAL_BOOT := 60;
  SMN_STATE_START := 61; SMN_STATE_ZEROIZE_RAM := 62; SMN_STATE_HEALTH_CHECK := 63; SMN_STATE_SECURE := 64;
  SMN_STATE_NON_SECURE := 65; SCM_STATUS_LENGTH_ERROR := 66; SCM_STATUS_BLOCK_ACCESS_REMOVED := 67;
  SCM_STATUS_CIPHERING_DONE := 68; SCM_STATUS_ZEROIZING_DONE := 69; SCM_STATUS_INTERRUPT_STATUS := 70;
  SCM_STATUS_SECRET_KEY := 71; SCM_STATUS_INTERNAL_ERROR := 72; SCM_STATUS_BAD_SECRET_KEY := 73;
  SCM_STATUS_ZEROIZE_FAILED := 74; SCM_STATUS_SMN_BLOCKING_ACCESS := 75; SCM_STATUS_CIPHERING := 76;
  SCM_STATUS_ZEROIZING := 77; SCM_STATUS_BUSY := 78; SCM_CONTROL_CIPHER_MODE_MASK := 79;
  SCM_DECRYPT_MODE := 80; SCM_CONTROL_CHAINING_MODE_MASK := 81; SCM_CBC_MODE := 82;
  SCM_CONTROL_START_CIPHER := 83; SCM_ERR_CACHEABLE_ACCESS := 84; SCM_ERR_ILLEGAL_MASTER := 85;
  SCM_ERR_UNALIGNED_ACCESS := 86; SCM_ERR_BYTE_ACCESS := 87; SCM_ERR_ILLEGAL_ADDRESS := 88;
  SCM_ERR_USER_ACCESS := 89; SCM_ERR_SECRET_KEY_IN_USE := 90; SCM_ERR_INTERNAL_ERROR := 91;
  SCM_ERR_BAD_SECRET_KEY := 92; SCM_ERR_ZEROIZE_FAILED := 93; SCM_ERR_SMN_BLOCKING_ACCESS := 94;
  SCM_ERR_CIPHERING := 95; SCM_ERR_ZEROIZING := 96; SCM_ERR_BUSY := 97; SMN_COMMAND_ZEROS_MASK := 98;
  SMN_COMMAND_CLEAR_INTERRUPT := 99; SMN_COMMAND_CLEAR_BIT_BANK := 100;
  SMN_COMMAND_ENABLE_INTERRUPT := 101; SMN_COMMAND_SET_SOFTWARE_ALARM := 102; SMN_DBG_ZEROS_MASK := 103;
  SMN_DBG_D1 := 104; SMN_DBG_D2 := 105; SMN_DBG_D3 := 106; SMN_DBG_D4 := 107; SMN_DBG_D5 := 108;
  SMN_DBG_D6 := 109; SMN_DBG_D7 := 110; SMN_DBG_D8 := 111; SMN_DBG_D9 := 112; SMN_DBG_D10 := 113;
  SMN_DBG_D11 := 114; SMN_DBG_D12 := 115
|}.
Definition set_key (keeps : bool) (key : list Z) (d : gmap Z Z) : gmap Z Z :=
  if keeps then <[0x104 := of_le (drop 4 key)]> (<[0x100 := of_le (take 4 key)]> d) else d.
Definition slots_scc (keeps : bool) : SccDriver (gmap Z Z) := {|
  SCC_RET_INSUFFICIENT_SPACE := 3; SCC_CBC_MODE := 1; SCC_ENCRYPT := 0; SCC_DECRYPT := 1;
  SMN_STATUS := 0x1000; SMN_STATUS_STATE_MASK := 0x1f; SMN_STATE_FAIL := 9;
  SCC_BASE_ADDR := 0x53fac000;
  scc_get_configuration := replicate 28 1;
  scc_read_register off _ d := ((0, default 0 (d !! off)), d);
  scc_write_register off v d := (0, <[off := v]> d);
  scc_crypt n b iv dir mode check room d :=
    if zlen b <=? room then ((0, map (fun x => u8 (if dir =? 0 then x + 1 else x - 1)) b, zlen b), d)
    else ((1, [], 0), d);
  scc_zeroize_memories d := (0, ∅);
  scc_alloc_slot n own slot d := ((0, 5), d);
  scc_dealloc_slot own slot d := (0, d);
  scc_get_slot_info own slot _ d := ((0, (0x100, 16, 16)), d);
  scc_load_slot own slot key n d := (0, set_key keeps key d);
  scc_decrypt_slot own slot n key d := (0, set_key keeps key d);
  scc_encrypt_slot own slot n d :=
    ((0, take (Z.to_nat n) (to_le 4 (default 0 (d !! 0x100)) ++ to_le 4 (default 0 (d !! 0x104)))), d);
  scc_set_sw_alarm d := d;
  scc_monitor_security_failure d := d;
|}.
#[local] Instance toy_scc : SccDriver (gmap Z Z) := slots_scc true.
#[local] Instance toy_scc_ok : SccDriverLaws (gmap Z Z).
Proof.
  split.
  - intros n b iv dir mode check room d Hr. cbn. destruct (Z.leb_spec (zlen b) room); cbn; [|done].
    by rewrite length_map.
  - intros own slot n d Hn. cbn [scc_encrypt_slot toy_scc slots_scc fst snd]. rewrite length_take. lia.
Qed.
#[local] Instance K : Kernel := sim sim_ok.
Definition where_ : places :=
  mkPlaces 0x10000 0x2000 0x2100 0x2200 0x2300 0x2400 0x2500 0x2600 0x2700 0x2800 0x2900.
Definition malloc_at (i : nat) (n : Z) : option (Z * list Z) := Some (0x20000 + 0x2000 * Z.of_nat i, []).
Definition start : proc (gmap Z Z) globals scc_vars :=
  mkProc (mkWorld (booted ∅) ∅ scc_globals []) init_vars 0 0 [] [].
(** [-S+l8 -S+o3 -Le] *)
Definition demo_switches : list string := ["+l8"; "+o3"]%string.
Definition demo_vars : scc_vars :=
  mkVars false 8 3 10 0 SCC_VERIFY_MODE_NONE SCC_ECB_MODE false 0 false None 0 true.

Lemma demo_laid_out : laid_out where_ demo_vars 0x20000 0x22000.
Proof.
  split; [| |done|by vm_compute].
  - assert (forall q n, access_ok q n = true -> user_block q n) as Hu by (intros q n Hq; by split).
    repeat (apply Forall_cons; split; [by apply Hu; vm_compute|]). by apply Forall_nil.
  - unfold blocks. cbn [separate]. change (Z.of_nat (sizeof scc_encrypt_decrypt)) with 44. split_and!; try done;
      repeat (apply Forall_cons; split; [unfold apart, cc; cbn; lia|]); by apply Forall_nil.
Qed.
Lemma demo_memory a b : memory_found ∅ a b.
Proof.
  intros i. pose proof (Z.mod_pos_bound (Z.of_nat i) 65536 ltac:(lia)). pose proof (Z.mod_pos_bound (Z.of_nat (S i)) 65536 ltac:(lia)).
  assert (page i <> page (S i)) by (unfold page; pose proof (Z_div_mod_eq_full (Z.of_nat i) 65536);
    pose proof (Z_div_mod_eq_full (Z.of_nat (S i)) 65536); lia).
  cbn. unfold free_at. rewrite lookup_empty, (proj2 (Z.ltb_lt (page i) _)) by (unfold page; lia). cbn.
  rewrite lookup_insert_ne, lookup_empty, (proj2 (Z.ltb_lt (page (S i)) _)) by (done || (unfold page; lia)). done.
Qed.

Lemma scc_program_cipher_status_witness :
  wp (@process K _ _ _ false where_ [] malloc_at (fun _ => 5) 3 0x50000 (cipher_options demo_switches))
    (fun status p' =>
       (status = 0 \/ status = 1) /\
       (status = 0 <-> 0 = 0 /\ (false = true \/ 0 = 0 /\ take 8 (poke 0 (take 8 plaintext_data) (block_of 4099 [])) =
                                                     take 8 full_plaintext)) /\
       kmem (kern (kside p')) = ∅ /\ mod_refs (kern (kside p')) = 0) (fun _ _ => False) start.
Proof.
  apply (@scc_program_cipher_status K (sim_laws sim_ok) _ _ toy_scc_ok _ false where_ [] malloc_at (fun _ => 5) 3
    0x50000 demo_switches demo_vars 0x20000 [] 0x22000 [] (map (fun x => u8 (x + 1)) (take 8 plaintext_data))
    (take 8 plaintext_data) 0 8 0 8 (fun _ _ => False) start).
  - done.
  - by vm_compute.
  - done.
  - done.
  - done.
  - apply demo_laid_out.
  - split; try done; by vm_compute.
  - apply demo_memory.
  - apply demo_memory.
  - intros d. by vm_compute.
  - by intros _ _ [].
  - intros d. by vm_compute.
Defined.
(** With [-S+c] the controller gets another text back, and the program says so. *)
Example injected_error_is_seen :
  (@process K _ _ _ false where_ [] malloc_at (fun _ => 5) 3 0x50000 (cipher_options (demo_switches ++ ["+c"%string])) start).1 =
  Ret 1.
Proof. by vm_compute. Qed.

(** [-Lw]: the exit status, the lines shown and the blocks of kernel memory that are left. *)
Definition wrap_run (keeps : bool) : outcome Z * list string * list Z :=
  let start := set_kside (mkWorld (booted (uput ∅ 0x2900 (replicate 48 0))) ∅ scc_globals []) start in
  let '(r, p) := @process K _ (slots_scc keeps) _ false where_ [] malloc_at (fun _ => 5) 3 0x50000 [("L"%char, "w"%string)] start in
  (r, rev (map fmt (stdout p)), map fst (map_to_list (kmem (kern (kside p))))).
(** A slot that does not hold the key is seen, and the program reports success:
    the status of giving the slot back replaces the one of the comparison. *)
Example wrap_mismatch_succeeds :
  wrap_run false = (Ret 0, ["\n"; "Using slot %d\n"; "First word of RED key does not match!:  0x%x/0x%x\n";
    "(slot successfully deallocated)\n"]%string, [4096]).
Proof. by vm_compute. Qed.
(** A run that succeeds leaves three blocks of kernel memory behind: the buffers of
    two loads and of the unload. *)
Example wrap_loses_memory :
  wrap_run true = (Ret 0, ["\n"; "Using slot %d\n"; "Wrapped Key test passed\n";
    "(slot successfully deallocated)\n"]%string, [12288; 8192; 4096]).
Proof. by vm_compute. Qed.
