(* ===== verification/Asrc.v ===== *)
(** * The sample rate converter test

    [src/test/mxc_asrc_test/mxc_asrc_test.c]: reads a WAV file, widens its
    samples to 24 bits in words of 32, sends them through the ASRC device in
    buffers of 4096 bytes and writes a WAV file with the new rate.  The device
    is the class [AsrcDevice]; [malloc] and the files are parameters.  Signed
    overflow, a store outside an array and a null pointer are undefined. *)
From S2P Require Import Prelude CInt CMonad CStr CStruct.

Definition DMA_BUF_SIZE : Z := 4096.
Definition WAVE_HEAD_SIZE : Z := 44 + 14 + 16.

(** ** The device *)
Inductive asrc_inclk :=
  | INCLK_NONE | INCLK_ESAI_RX | INCLK_SSI1_RX | INCLK_SSI2_RX | INCLK_SPDIF_RX | INCLK_MLB_CLK
  | INCLK_ESAI_TX | INCLK_SSI1_TX | INCLK_SSI2_TX | INCLK_SPDIF_TX | INCLK_ASRCK1_CLK.
Inductive asrc_outclk :=
  | OUTCLK_NONE | OUTCLK_ESAI_TX | OUTCLK_SSI1_TX | OUTCLK_SSI2_TX | OUTCLK_SPDIF_TX | OUTCLK_MLB_CLK
  | OUTCLK_ESAI_RX | OUTCLK_SSI1_RX | OUTCLK_SSI2_RX | OUTCLK_SPDIF_RX | OUTCLK_ASRCK1_CLK.
(** The width a zeroed structure has, and the one the program sets. *)
Inductive asrc_word_width := ASRC_WIDTH_ZERO | ASRC_WIDTH_24_BIT.

Record asrc_config := mkConfig {
  pair : Z; channel_num : Z; dma_buffer_size : Z; input_sample_rate : Z; output_sample_rate_ : Z;
  input_word_width_ : asrc_word_width; output_word_width_ : asrc_word_width;
  inclk_ : asrc_inclk; outclk_ : asrc_outclk;
}.
Class AsrcDevice (D : Type) := {
  ASRC_INVALID_PAIR : Z;
  asrc_open : D -> Z * D;
  (* the result, and the index and the number of channels it stores *)
  ASRC_REQ_PAIR : Z -> D -> (Z * (Z * Z)) * D;
  ASRC_CONFIG_PAIR : asrc_config -> D -> Z * D;
  ASRC_START_CONV : Z -> D -> Z * D;
  ASRC_STOP_CONV : Z -> D -> Z * D;
  ASRC_RELEASE_PAIR : Z -> D -> Z * D;
  (* the input bytes and the room for output; the result, the bytes it stores
     and the length it reports *)
  ASRC_CONVERT : list Z -> Z -> D -> (Z * (list Z * Z)) * D;
}.

(** ** State *)
Record audio_info_s := mkInfo {
  sample_rate : Z; channel : Z; input_data_len : Z; output_data_len : Z; output_used : Z;
  output_sample_rate : Z; frame_bits : Z; blockalign : Z;
  input_word_width : asrc_word_width; output_word_width : asrc_word_width;
}.
(** A pointer to allocated bytes, or null. *)
Definition buffer : Type := option (list Z).
Record world (D : Type) := mkWorld {
  dev : D;
  info : audio_info_s;
  header : list Z;
  input_buffer : buffer;
  output_buffer : buffer;
  input_null : buffer;
  pair_index : Z;
  inclk : asrc_inclk;
  outclk : asrc_outclk;
  mallocs : nat;              (* calls so far *)
  src : list Z * Z;           (* the bytes of the source file, and the position in it *)
  dst : list Z;               (* what was written *)
  out : list print;
}.
Arguments mkWorld {D}.
Arguments dev {D}.
Arguments info {D}.
Arguments header {D}.
Arguments input_buffer {D}.
Arguments output_buffer {D}.
Arguments input_null {D}.
Arguments pair_index {D}.
Arguments inclk {D}.
Arguments outclk {D}.
Arguments mallocs {D}.
Arguments src {D}.
Arguments dst {D}.
Arguments out {D}.

#[export] Instance asrc_output {D} : Output (world D).
Proof.
  refine {| log w := out w;
    emit p w := mkWorld (dev w) (info w) (header w) (input_buffer w) (output_buffer w) (input_null w)
      (pair_index w) (inclk w) (outclk w) (mallocs w) (src w) (dst w) (p :: out w) |}.
  done.
Defined.

Section Setters.
Context {D : Type}.
Implicit Types w : world D.
Definition set_dev (d : D) w := mkWorld d (info w) (header w) (input_buffer w) (output_buffer w)
  (input_null w) (pair_index w) (inclk w) (outclk w) (mallocs w) (src w) (dst w) (out w).
Definition set_info (f : audio_info_s -> audio_info_s) w :=
  mkWorld (dev w) (f (info w)) (header w) (input_buffer w) (output_buffer w)
    (input_null w) (pair_index w) (inclk w) (outclk w) (mallocs w) (src w) (dst w) (out w).
Definition set_header (h : list Z) w := mkWorld (dev w) (info w) h (input_buffer w) (output_buffer w)
  (input_null w) (pair_index w) (inclk w) (outclk w) (mallocs w) (src w) (dst w) (out w).
Definition set_input (b : buffer) w := mkWorld (dev w) (info w) (header w) b (output_buffer w)
  (input_null w) (pair_index w) (inclk w) (outclk w) (mallocs w) (src w) (dst w) (out w).
Definition set_output (b : buffer) w := mkWorld (dev w) (info w) (header w) (input_buffer w) b
  (input_null w) (pair_index w) (inclk w) (outclk w) (mallocs w) (src w) (dst w) (out w).
Definition set_null (b : buffer) w := mkWorld (dev w) (info w) (header w) (input_buffer w)
  (output_buffer w) b (pair_index w) (inclk w) (outclk w) (mallocs w) (src w) (dst w) (out w).
Definition set_pair (p : Z) w := mkWorld (dev w) (info w) (header w) (input_buffer w) (output_buffer w)
  (input_null w) p (inclk w) (outclk w) (mallocs w) (src w) (dst w) (out w).
Definition set_inclk (c : asrc_inclk) w := mkWorld (dev w) (info w) (header w) (input_buffer w)
  (output_buffer w) (input_null w) (pair_index w) c (outclk w) (mallocs w) (src w) (dst w) (out w).
Definition set_outclk (c : asrc_outclk) w := mkWorld (dev w) (info w) (header w) (input_buffer w)
  (output_buffer w) (input_null w) (pair_index w) (inclk w) c (mallocs w) (src w) (dst w) (out w).
Definition malloced w := mkWorld (dev w) (info w) (header w) (input_buffer w) (output_buffer w)
  (input_null w) (pair_index w) (inclk w) (outclk w) (S (mallocs w)) (src w) (dst w) (out w).
Definition set_src (s : list Z * Z) w := mkWorld (dev w) (info w) (header w) (input_buffer w)
  (output_buffer w) (input_null w) (pair_index w) (inclk w) (outclk w) (mallocs w) s (dst w) (out w).
Definition set_dst (l : list Z) w := mkWorld (dev w) (info w) (header w) (input_buffer w)
  (output_buffer w) (input_null w) (pair_index w) (inclk w) (outclk w) (mallocs w) (src w) l (out w).
End Setters.

(** Members of the structure. *)
Definition set_format (channel rate align bits : Z) (i : audio_info_s) :=
  mkInfo rate channel (input_data_len i) (output_data_len i) (output_used i) (output_sample_rate i) bits
    align (input_word_width i) (output_word_width i).
Definition set_input_len (n : Z) (i : audio_info_s) :=
  mkInfo (sample_rate i) (channel i) n (output_data_len i) (output_used i) (output_sample_rate i)
    (frame_bits i) (blockalign i) (input_word_width i) (output_word_width i).
Definition set_output_len (n : Z) (i : audio_info_s) :=
  mkInfo (sample_rate i) (channel i) (input_data_len i) n (output_used i) (output_sample_rate i)
    (frame_bits i) (blockalign i) (input_word_width i) (output_word_width i).
Definition set_output_used (n : Z) (i : audio_info_s) :=
  mkInfo (sample_rate i) (channel i) (input_data_len i) (output_data_len i) n (output_sample_rate i)
    (frame_bits i) (blockalign i) (input_word_width i) (output_word_width i).
Definition set_output_rate (n : Z) (i : audio_info_s) :=
  mkInfo (sample_rate i) (channel i) (input_data_len i) (output_data_len i) (output_used i) n
    (frame_bits i) (blockalign i) (input_word_width i) (output_word_width i).
Definition set_bits (bits : Z) (i : audio_info_s) :=
  mkInfo (sample_rate i) (channel i) (input_data_len i) (output_data_len i) (output_used i)
    (output_sample_rate i) bits (blockalign i) (input_word_width i) (output_word_width i).
Definition set_align (align : Z) (i : audio_info_s) :=
  mkInfo (sample_rate i) (channel i) (input_data_len i) (output_data_len i) (output_used i)
    (output_sample_rate i) (frame_bits i) align (input_word_width i) (output_word_width i).
Definition set_input_width (x : asrc_word_width) (i : audio_info_s) :=
  mkInfo (sample_rate i) (channel i) (input_data_len i) (output_data_len i) (output_used i)
    (output_sample_rate i) (frame_bits i) (blockalign i) x (output_word_width i).
Definition set_output_width (x : asrc_word_width) (i : audio_info_s) :=
  mkInfo (sample_rate i) (channel i) (input_data_len i) (output_data_len i) (output_used i)
    (output_sample_rate i) (frame_bits i) (blockalign i) (input_word_width i) x.
Definition info0 : audio_info_s := mkInfo 0 0 0 0 0 0 0 0 ASRC_WIDTH_ZERO ASRC_WIDTH_ZERO.

Section Program.
Context {D : Type} `{AsrcDevice D}.
(** [malloc]: the bytes found at the n-th call, if there is room; and what a
    local variable of four bytes holds before it is set. *)
Context (o_malloc : nat -> Z -> option (list Z)) (junk : list Z).
Abbreviation W := (world D).

Definition call {A} (f : D -> A * D) : M W A := fun w =>
  let '(a, d) := f (dev w) in (Ret a, set_dev d w).
Definition geti {A} (f : audio_info_s -> A) : M W A := gets (fun w => f (info w)).
Definition seti (f : audio_info_s -> audio_info_s) : M W unit := modify (set_info f).

(** The result of a signed operation. *)
Definition int (z : Z) : M W Z := if (- 2 ^ 31 <=? z) && (z <? 2 ^ 31) then mret z else undef.

Definition malloc (n : Z) : M W buffer :=
  i ← gets mallocs; modify malloced;; mret (o_malloc i (u32 n)).
(** The [n] bytes at an offset, and storing bytes there. *)
Definition window (b : buffer) (o n : Z) : M W (list Z) :=
  match b with
  | Some l => if (0 <=? o) && (0 <=? n) && (o + n <=? zlen l) then mret (peek (Z.to_nat o) (Z.to_nat n) l) else undef
  | None => undef
  end.
Definition stored (b : buffer) (o : Z) (v : list Z) : M W buffer :=
  match b with
  | Some l => if (0 <=? o) && (o + zlen v <=? zlen l) then mret (Some (poke (Z.to_nat o) v l)) else undef
  | None => undef
  end.
Definition hget (o n : Z) : M W Z := h ← gets header; b ← window (Some h) o n; mret (of_le b).
Definition hput (o : Z) (v : list Z) : M W unit :=
  h ← gets header;
  b ← stored (Some h) o v;
  modify (set_header (default h b)).

(** ** The source file *)
Definition fread (n : Z) : M W (list Z) :=
  '(file, pos) ← gets src;
  let l := take (Z.to_nat n) (drop (Z.to_nat pos) file) in
  modify (set_src (file, pos + zlen l));;
  mret l.
(** Into a variable of four bytes: what it holds, and whether all four came. *)
Definition fread4 (v : list Z) : M W (list Z * bool) :=
  l ← fread 4; mret (poke 0 l v, zlen l =? 4).
Definition fseek_set (pos : Z) : M W unit := '(file, _) ← gets src; modify (set_src (file, pos)).
Definition fseek_cur (off : Z) : M W unit :=
  '(file, pos) ← gets src; when (0 <=? pos + off) (modify (set_src (file, pos + off))).

(** ** The size of the output *)
Fixpoint whole_part (fuel : nat) (outsample input_sample_rate i : Z) : M W (Z * Z) :=
  if input_sample_rate <=? outsample then
    match fuel with
    | O => no_fuel
    | S fuel =>
        i ← int (i + 1);
        outsample ← int (outsample - input_sample_rate);
        whole_part fuel outsample input_sample_rate i
    end
  else mret (i, outsample).
Fixpoint binary_part (fuel : nat) (input_buffer_size input_sample_rate i outsample size : Z) : M W Z :=
  if (2 <? Z.shiftr input_buffer_size i) && truth outsample then
    match fuel with
    | O => no_fuel
    | S fuel =>
        twice ← int (2 * outsample);
        d ← int (twice - input_sample_rate);
        if 0 <=? d then
          size ← int (size + Z.shiftr input_buffer_size i);
          binary_part fuel input_buffer_size input_sample_rate (i + 1) d size
        else binary_part fuel input_buffer_size input_sample_rate (i + 1) twice size
    end
  else mret size.
Definition asrc_get_output_buffer_size (input_buffer_size input_sample_rate output_sample_rate : Z) : M W Z :=
  '(i, outsample) ← whole_part (Z.to_nat (Z.quot output_sample_rate input_sample_rate))
                      output_sample_rate input_sample_rate 0;
  outbuffer_size ← int (i * input_buffer_size);
  outbuffer_size ← binary_part 31 input_buffer_size input_sample_rate 1 outsample outbuffer_size;
  int (Z.shiftl (Z.shiftr outbuffer_size 3) 3).

(** ** The header *)
Definition bytes_of (s : string) : list Z := map chr (String.list_ascii_of_string s).
(** [while (strncmp(chunk_id, id, 4) != 0)]: to the next chunk with the name,
    if there is one; [chunk_id] and [chunk_size] as they are left. *)
Fixpoint find_chunk (fuel : nat) (id : list Z) (none : M W unit) (chunk_id chunk_size : list Z) :
    M W (option (list Z * list Z)) :=
  if bool_decide (chunk_id = id) then mret (Some (chunk_id, chunk_size))
  else
    match fuel with
    | O => no_fuel
    | S fuel =>
        '(chunk_size, _) ← fread4 chunk_size;
        fseek_cur (i32 (of_le chunk_size));;
        '(chunk_id, ok) ← fread4 chunk_id;
        if ok : bool then find_chunk fuel id none chunk_id chunk_size
        else none;; mret None
    end.
(** Four bytes of the file are read in every turn, and none twice unless a
    size is negative. *)
Definition chunk_fuel (w : W) : nat := S (length (src w).1).

Definition wrong_format : M W unit := printf "Wrong wave file format \n" [].
Definition no_data_chunk : M W unit := printf "No data chunk found \nWrong wave file format \n" [].

Definition set_lengths (data_len format_size : Z) : M W unit :=
  at_ ← int (24 + format_size);
  hput at_ (to_le 4 data_len);;
  t ← int (data_len + 20);
  total ← int (t + format_size);
  hput 4 (to_le 4 total).

(** The chunk "fmt " once its name was read: the format into the header and
    the members. *)
Definition parse_format : M W Z :=
  '(format_size, _) ← fread4 junk;
  let format_size := i32 (of_le format_size) in
  fseek_cur (-8);;
  n ← int (format_size + 8);
  l ← fread (u32 n);
  hput 12 l;;
  channel ← hget 22 2;
  rate ← hget 24 4;
  align ← hget 32 2;
  bits ← hget 34 2;
  seti (set_format (swrap 16 channel) (i32 rate) (u16 align) (u16 bits));;
  mret format_size.
(** The chunk "data": its length, the length of the output, and the header of
    the output file. *)
Definition parse_data (format_size : Z) : M W Z :=
  data_len ← geti input_data_len;
  '(data_len, _) ← fread4 (to_le 4 data_len);
  seti (set_input_len (i32 (of_le data_len)));;
  fseek_cur (-8);;
  l ← fread 8;
  at_ ← int (format_size + 20);
  hput at_ l;;
  i ← geti (fun i => i);
  n ← asrc_get_output_buffer_size (input_data_len i) (sample_rate i) (output_sample_rate i);
  seti (set_output_len n);;
  set_lengths n format_size;;
  hput 24 (to_le 4 (output_sample_rate i));;
  rate ← int (output_sample_rate i * channel i);
  rate ← int (rate * Z.quot (frame_bits i) 8);
  hput 28 (to_le 4 rate);;
  mret 1.

Definition header_parser : M W Z :=
  fuel ← gets chunk_fuel;
  fseek_set 0;;
  '(chunk_id, _) ← fread4 junk;
  r ← find_chunk fuel (bytes_of "RIFF") wrong_format chunk_id junk;
  match r with
  | None => mret (-1)
  | Some (_, chunk_size) =>
      fseek_cur (-4);;
      l ← fread 12;
      hput 0 l;;
      '(chunk_id, _) ← fread4 (bytes_of "RIFF");
      r ← find_chunk fuel (bytes_of "fmt ") wrong_format chunk_id chunk_size;
      match r with
      | None => mret (-1)
      | Some (_, chunk_size) =>
          format_size ← parse_format;
          '(chunk_id, _) ← fread4 (bytes_of "fmt ");
          r ← find_chunk fuel (bytes_of "data") no_data_chunk chunk_id chunk_size;
          match r with
          | None => mret (-1)
          | Some _ => parse_data format_size
          end
      end
  end.

(** ** Widening the samples *)
Definition update_datachunk_length (format_size : Z) : M W unit :=
  n ← geti output_data_len; set_lengths n format_size.
Definition update_blockalign : M W unit :=
  i ← geti (fun i => i);
  hput 32 (to_le 2 (blockalign i));;
  rate ← int (output_sample_rate i * blockalign i);
  hput 28 (to_le 4 rate).
Definition update_sample_bitdepth : M W unit := bits ← geti frame_bits; hput 34 (to_le 2 bits).

(** [do { fread(&data, n, 1, src); input_buffer[i++] = f(data); } while (--nleft)] *)
Fixpoint widen_loop (fuel : nat) (n : Z) (f : Z -> Z) (i : Z) (data : list Z) (nleft : Z) : M W unit :=
  match fuel with
  | O => no_fuel
  | S fuel =>
      l ← fread n;
      let data := poke 0 l data in
      b ← gets input_buffer;
      b ← stored b (4 * i) (to_le 4 (f (of_le data)));
      modify (set_input b);;
      if truth (nleft - 1) then widen_loop fuel n f (i + 1) data (nleft - 1) else skip
  end.
(** The index leaves the buffer before this runs out. *)
Definition widen_fuel (b : buffer) : nat := match b with Some l => S (length l) | None => 1 end.

Definition bitshift : M W unit :=
  format_size ← hget 16 4;
  let format_size := i32 format_size in
  i ← geti (fun i => i);
  let nleft := Z.shiftr (input_data_len i) (if frame_bits i <=? 16 then 1 else 2) in
  b ← malloc (4 * nleft + 4096);
  modify (set_input b);;
  when (bool_decide (b = None)) (printf "allocate input buffer error\n" []);;
  let fuel := widen_fuel b in
  b ← malloc 4096;
  modify (set_null b);;
  when (bool_decide (b = None)) (printf "allocate input null error\n" []);;
  (if frame_bits i <=? 16 then
     widen_loop fuel 2 (fun data => Z.land (shl32 data 8) 0xffff00) 0 junk nleft;;
     n ← int (2 * input_data_len i);
     seti (set_input_len n);;
     n ← int (2 * output_data_len i);
     seti (set_output_len n);;
     update_datachunk_length format_size;;
     seti (set_align 8);;
     update_blockalign
   else if frame_bits i =? 24 then widen_loop fuel 4 (fun data => data) 0 junk nleft
   else when (frame_bits i =? 32)
     (widen_loop fuel 4 (fun data => Z.land (Z.shiftr data 8) 0xffffff) 0 junk nleft));;
  seti (set_bits 24);;
  seti (set_input_width ASRC_WIDTH_24_BIT);;
  update_sample_bitdepth;;
  n ← geti output_data_len;
  n ← int (n + 256 * 1024);
  b ← malloc n;
  modify (set_output b);;
  when (bool_decide (b = None)) (printf "output buffer allocate error\n" []).

(** ** Conversion *)
Definition configure_asrc_channel : M W Z :=
  i ← geti (fun i => i);
  '(err, (index, chn_num)) ← call (ASRC_REQ_PAIR (channel i));
  if err <? 0 then printf "Req ASRC pair FAILED\n" [];; mret err
  else
    (if index =? 0 then printf "Pair A requested\n" []
     else if index =? 1 then printf "Pair B requested\n" []
     else when (index =? 2) (printf "Pair C requested\n" []));;
    inclk ← gets inclk;
    outclk ← gets outclk;
    modify (set_pair index);;
    err ← call (ASRC_CONFIG_PAIR (mkConfig index chn_num DMA_BUF_SIZE (sample_rate i)
                 (output_sample_rate i) (input_word_width i) (output_word_width i) inclk outclk));
    if err <? 0 then mret err else mret 0.

(** The next buffer of input, from the samples and then from the zeros, and
    where the samples go on. *)
Definition next_input (input_p : Z) : M W (list Z * Z) :=
  n ← geti input_data_len;
  let input_buffer_length := if DMA_BUF_SIZE <? n then DMA_BUF_SIZE else n in
  if 0 <? n then
    seti (set_input_len (n - input_buffer_length));;
    b ← gets input_buffer;
    data ← window b input_p DMA_BUF_SIZE;
    mret (data, input_p + input_buffer_length)
  else
    b ← gets input_null;
    data ← window b 0 DMA_BUF_SIZE;
    mret (data, input_p).
(** The account of [len] bytes of output: how far [output_p] moves. *)
Definition account_output (len : Z) : M W Z :=
  left ← geti output_data_len;
  used ← geti output_used;
  let step := if len <? u32 left then len else left in
  seti (set_output_used (i32 (used + step)));;
  seti (set_output_len (i32 (left - step)));;
  mret step.
(** [while (convert_flag)]: [input_p] and [output_p] are offsets into the two
    buffers.  The flag stays set; the loop leaves when the output is complete
    or the device fails. *)
Fixpoint convert_loop (fuel : nat) (input_p output_p output_dma_size tail : Z) : M W Z :=
  match fuel with
  | O => no_fuel
  | S fuel =>
      '(data, input_p) ← next_input input_p;
      '(err, (bytes, len)) ← call (ASRC_CONVERT data (u32 (output_dma_size + tail)));
      b ← gets output_buffer;
      b ← stored b output_p bytes;
      modify (set_output b);;
      if err <? 0 then mret err
      else
        step ← account_output len;
        left ← geti output_data_len;
        if left =? 0 then
          pair ← gets pair_index;
          call (ASRC_STOP_CONV pair)
        else convert_loop fuel input_p (output_p + step) output_dma_size tail
  end.

Definition play_file (fuel : nat) : M W Z :=
  i ← geti (fun i => i);
  output_dma_size ← asrc_get_output_buffer_size DMA_BUF_SIZE (sample_rate i) (output_sample_rate i);
  let tail := u32 (channel i * 4 * 2) in
  b ← gets input_null;
  b ← stored b 0 (replicate (Z.to_nat DMA_BUF_SIZE) 0);
  modify (set_null b);;
  pair ← gets pair_index;
  err ← call (ASRC_START_CONV pair);
  if err <? 0 then mret err
  else
    seti (set_output_used 0);;
    convert_loop fuel 0 0 output_dma_size tail.

(** ** The output file *)
Definition fwrite (l : list Z) : M W unit := modify (fun w => set_dst (dst w ++ l) w).
(** [while (i < n) fwrite(&header[i++], 1, 1, dst)] *)
Fixpoint write_header (n : nat) (i : Z) : M W unit :=
  match n with
  | O => skip
  | S n => x ← hget i 1; fwrite [x];; write_header n (i + 1)
  end.
Fixpoint write_samples (fuel : nat) (i size : Z) : M W unit :=
  match fuel with
  | O => no_fuel
  | S fuel =>
      b ← gets output_buffer;
      data ← window b (4 * i) 4;
      fwrite (to_le 4 (Z.land (of_le data) 0xffffff));;
      let size := u32 (size - 4) in
      if 0 <? size then write_samples fuel (i + 1) size else skip
  end.
Definition convert_data : M W unit :=
  format_size ← hget 16 4;
  let format_size := i32 format_size in
  used ← geti output_used;
  set_lengths used format_size;;
  at_ ← int (24 + format_size);
  size ← hget at_ 4;
  n ← int (format_size + 28);
  write_header (Z.to_nat n) 0;;
  b ← gets output_buffer;
  write_samples (widen_fuel b) 0 size.

(** ** The command line *)
Definition help_lines : list string :=
  ["\n\n**************************************************\n";
   "* Test aplication for ASRC\n";
   "* Options : \n\n";
   "-to <output sample rate> <origin.wav> <converted.wav>\n";
   "<input clock source> <output clock source>\n";
   "input clock source types are:\n\n";
   "0  --  INCLK_NONE\n";
   "1  --  INCLK_ESAI_RX\n";
   "2  --  INCLK_SSI1_RX\n";
   "3  --  INCLK_SSI2_RX\n";
   "4  --  INCLK_SPDIF_RX\n";
   "5  --  INCLK_MLB_CLK\n";
   "6  --  INCLK_ESAI_TX\n";
   "7  --  INCLK_SSI1_TX\n";
   "8  --  INCLK_SSI2_TX\n";
   "9  --  INCLK_SPDIF_TX\n";
   "10 --  INCLK_ASRCK1_CLK\n";
   "default option for output clock source is 0\n";
   "output clock source types are:\n\n";
   "0  --  OUTCLK_NONE\n";
   "1  --  OUTCLK_ESAI_TX\n";
   "2  --  OUTCLK_SSI1_TX\n";
   "3  --  OUTCLK_SSI2_TX\n";
   "4  --  OUTCLK_SPDIF_TX\n";
   "5  --  OUTCLK_MLB_CLK\n";
   "6  --  OUTCLK_ESAI_RX\n";
   "7  --  OUTCLK_SSI1_RX\n";
   "8  --  OUTCLK_SSI2_RX\n";
   "9  --  OUTCLK_SPDIF_RX\n";
   "10 --  OUTCLK_ASRCK1_CLK\n";
   "default option for output clock source is 10\n";
   "**************************************************\n\n"]%string.
Fixpoint print_lines (l : list string) : M W unit :=
  match l with [] => skip | x :: l => printf x [];; print_lines l end.
Definition help_info : M W unit := print_lines help_lines.
Definition inclks : list (asrc_inclk * string) :=
  [(INCLK_NONE, "inclk : INCLK_NONE\n"); (INCLK_ESAI_RX, "inclk : INCLK_ESAI_RX\n");
   (INCLK_SSI1_RX, "inclk : INCLK_SSI1_RX\n"); (INCLK_SSI2_RX, "inclk : INCLK_SSI2_RX\n");
   (INCLK_SPDIF_RX, "inclk : INCLK_SPDIF_RX\n"); (INCLK_MLB_CLK, "inclk : INCLK_MLB_CLK\n");
   (INCLK_ESAI_TX, "inclk : INCLK_ESAI_TX\n"); (INCLK_SSI1_TX, "inclk : INCLK_SSI1_TX\n");
   (INCLK_SSI2_TX, "inclk : INCLK_SSI2_TX\n"); (INCLK_SPDIF_TX, "inclk : INCLK_SPDIF_TX\n");
   (INCLK_ASRCK1_CLK, "inclk : INCLK_ASRCK1_CLK\n")]%string.
Definition outclks : list (asrc_outclk * string) :=
  [(OUTCLK_NONE, "outclk : OUTCLK_NONE\n"); (OUTCLK_ESAI_TX, "outclk : OUTCLK_ESAI_TX\n");
   (OUTCLK_SSI1_TX, "outclk : OUTCLK_SSI1_TX\n"); (OUTCLK_SSI2_TX, "outclk : OUTCLK_SSI2_TX\n");
   (OUTCLK_SPDIF_TX, "outclk : OUTCLK_SPDIF_TX\n"); (OUTCLK_MLB_CLK, "outclk : OUTCLK_MLB_CLK\n");
   (OUTCLK_ESAI_RX, "outclk : OUTCLK_ESAI_RX\n"); (OUTCLK_SSI1_RX, "outclk : OUTCLK_SSI1_RX\n");
   (OUTCLK_SSI2_RX, "outclk : OUTCLK_SSI2_RX\n"); (OUTCLK_SPDIF_RX, "outclk : OUTCLK_SPDIF_RX\n");
   (OUTCLK_ASRCK1_CLK, "outclk : OUTCLK_ASRCK1_CLK\n")]%string.
(** [switch (atoi(arg))] over a table of clocks. *)
Definition choose {A} (table : list (A * string)) (arg : option string) : M W (option A) :=
  match arg with
  | None => undef
  | Some s =>
      match (if 0 <=? atoi s then table !! Z.to_nat (atoi s) else None) with
      | Some (c, msg) => printf msg [];; mret (Some c)
      | None => printf "Incorrect clock source\n" [];; mret None
      end
  end.

(** The loops that look for an option among the arguments from the first on;
    the argument of the option is taken even if there is none. *)
Fixpoint scan_option (opt : string) (set : Z -> M W unit) (av : list string) : M W unit :=
  match av with
  | [] => skip
  | a :: av =>
      if streq a opt then
        match av with
        | [] => undef
        | v :: av => set (atoi v);; scan_option opt set av
        end
      else scan_option opt set av
  end.
Definition set_rate (n : Z) : M W unit := seti (set_output_rate n).
Definition set_width (n : Z) : M W unit :=
  when (negb (n =? 24)) (printf "Only 24bit output is support!\n" []);;
  seti (set_output_width ASRC_WIDTH_24_BIT).

(** [ac > 5]: the clocks; whether the program goes on. *)
Definition choose_clocks (av : list string) : M W bool :=
  if (5 <? zlen av) then
    c ← choose inclks (av !! 5%nat);
    match c with
    | None => mret false
    | Some c =>
        modify (set_inclk c);;
        c ← choose outclks (av !! 6%nat);
        match c with
        | None => mret false
        | Some c => modify (set_outclk c);; mret true
        end
    end
  else mret true.

(** What follows the label [err_dst_not_found]. *)
Definition release_pair (err : Z) : M W Z :=
  pair ← gets pair_index;
  _ ← call (ASRC_RELEASE_PAIR pair);
  mret err.
Definition convert_file (fuel : nat) : M W Z :=
  r ← header_parser;
  if r <=? 0 then release_pair 0
  else
    bitshift;;
    err ← configure_asrc_channel;
    if err <? 0 then release_pair err
    else
      e ← play_file fuel;
      err ← int (err + e);
      if err <? 0 then release_pair err
      else
        convert_data;;
        printf "All tests passed with success\n" [];;
        mret 0.

Context (fopen : string -> string -> option (list Z)).
(** [main]; [fuel] bounds the number of buffers the device is given. *)
Definition main (fuel : nat) (av : list string) : M W Z :=
  modify (fun w => set_pair ASRC_INVALID_PAIR (set_outclk OUTCLK_ASRCK1_CLK (set_inclk INCLK_NONE w)));;
  printf "Hi... \n" [];;
  if zlen av <? 5 then help_info;; mret 1
  else
    seti (fun _ => info0);;
    fd ← call asrc_open;
    when (fd <? 0) (printf "Unable to open device\n" []);;
    scan_option "-to" set_rate (tail av);;
    scan_option "-wid" set_width (tail av);;
    go ← choose_clocks av;
    if negb go then mret 1
    else
      match av !! 4%nat, av !! 3%nat with
      | Some to, Some from =>
          match fopen to "wb+" with
          | None => release_pair 0
          | Some l =>
              modify (set_dst l);;
              match fopen from "r" with
              | None => release_pair 0
              | Some l => modify (set_src (l, 0));; convert_file fuel
              end
          end
      | _, _ => undef
      end.
End Program.
