(* ===== verification/AsrcSpec.v ===== *)
(** * What the sample rate converter test does

    The size of the output buffer is the exact quotient rounded down; and a
    device for the examples. *)
From S2P Require Import Prelude CInt CMonad CStr CStruct Asrc.

Section Rules.
Context {D : Type} `{AsrcDevice D} (U : Prop).
Abbreviation W := (world D).
Implicit Types (w : W) (E : Z -> W -> Prop).

Lemma wp_int z (Q : Z -> W -> Prop) E w : in_sint 32 z -> Q z w -> wpu U (int z) Q E w.
Proof.
  intros [Hl Hu] HQ. unfold int. change (2 ^ 31) with (2 ^ (32 - 1)).
  rewrite (proj2 (Z.leb_le _ _)), (proj2 (Z.ltb_lt _ _)) by done. done.
Qed.
Lemma wp_geti {A} (f : audio_info_s -> A) (Q : A -> W -> Prop) E w :
  Q (f (info w)) w -> wpu U (geti f) Q E w.
Proof. done. Qed.
Lemma wp_seti f (Q : unit -> W -> Prop) E w : Q tt (set_info f w) -> wpu U (seti f) Q E w.
Proof. done. Qed.
End Rules.

(** ** The size of the output *)
Section Size.
Context {D : Type} `{AsrcDevice D}.
Abbreviation W := (world D).
Implicit Types (w : W) (E : Z -> W -> Prop).

Lemma whole_part_wp fuel o r i E w :
  0 < r <= 2 ^ 30 -> 0 <= o < 2 ^ 31 -> 0 <= i -> i + o / r < 2 ^ 31 -> Z.of_nat fuel = o / r ->
  wp (whole_part fuel o r i) (fun x w' => w' = w /\ x = (i + o / r, o mod r)) E w.
Proof.
  revert o i. induction fuel as [|fuel IH]; intros o i Hr Ho Hi Hb Hf; cbn [whole_part].
  - assert (o < r) as Hlt by (destruct (Z.lt_ge_cases o r); [done|]; pose proof (Z.div_str_pos o r); lia).
    rewrite (proj2 (Z.leb_gt _ _)) by done. apply wp_ret. split; [done|].
    rewrite Z.mod_small, Z.div_small by lia. f_equal. lia.
  - assert (r <= o) as Hge by (destruct (Z.lt_ge_cases o r); [|done]; rewrite Z.div_small in Hf by lia; lia).
    rewrite (proj2 (Z.leb_le _ _)) by done.
    assert (o / r = (o - r) / r + 1) as Hd by (replace o with (o - r + 1 * r) at 1 by lia; apply Z.div_add; lia).
    apply wp_bind, wp_int; [unfold in_sint; pose proof (Z.div_pos (o - r) r); lia|].
    apply wp_bind, wp_int; [unfold in_sint; lia|].
    eapply wp_mono; [apply IH; lia|]. intros x w' [-> ->]. split; [done|].
    rewrite Hd. f_equal; [lia|]. replace o with (o - r + 1 * r) at 2 by lia. by rewrite Z.mod_add by lia.
Qed.

(** One binary digit of the quotient per turn; [b] bounds what is summed. *)
Lemma binary_part_wp fuel n r i x size b E w :
  0 <= n < 2 ^ 31 -> 0 < r <= 2 ^ 30 -> 0 <= x < r -> 1 <= i -> 32 <= i + Z.of_nat fuel ->
  0 <= size -> b < 2 ^ 31 * r -> size * r * 2 ^ (i - 1) + x * n <= b * 2 ^ (i - 1) ->
  wp (binary_part fuel n r i x size) (fun s w' => w' = w /\ size <= s /\ s * r <= b /\
    forall k, n = 2 ^ k -> i <= k - 1 -> s = size + 4 * (x * 2 ^ (k - 1 - i) / r)) E w.
Proof.
  intros Hn Hr Hx Hi Hf Hs Hb Hinv. revert i x size Hx Hi Hf Hs Hinv.
  induction fuel as [|fuel IH]; intros i x size Hx Hi Hf Hs Hinv; cbn [binary_part];
    pose proof (Z.shiftr_div_pow2 n i ltac:(lia)) as Hsh; pose proof (pow2_pos (i - 1) ltac:(lia)) as Hp;
    assert (2 ^ i = 2 * 2 ^ (i - 1)) as H2 by (rewrite <- Z.pow_succ_r by lia; f_equal; lia).
  all: assert ((2 <? Z.shiftr n i) && truth x = false ->
    wp (mret (M := M W) size) (fun s w' => w' = w /\ size <= s /\ s * r <= b /\
      forall k, n = 2 ^ k -> i <= k - 1 -> s = size + 4 * (x * 2 ^ (k - 1 - i) / r)) E w) as Hstop.
  1,3: intros Hc; apply wp_ret; split_and!; [done|lia|nia|]; intros k -> Hk;
    apply andb_false_iff in Hc as [Hc%Z.ltb_ge|Hc].
  1,3: rewrite Hsh, <- Z.pow_sub_r in Hc by lia;
    assert (k - i = 1) as Hki by (destruct (Z.le_gt_cases 2 (k - i)) as [Hge|]; [|lia];
      pose proof (Z.pow_le_mono_r 2 2 (k - i) ltac:(lia) Hge); lia);
    replace (k - 1 - i) with 0 by lia; rewrite Z.pow_0_r, Z.mul_1_r, Z.div_small by lia; lia.
  1,2: assert (x = 0) as -> by (destruct (Z.eq_dec x 0); [done|by rewrite truth_true in Hc]);
    rewrite Z.mul_0_l, Z.div_0_l by lia; lia.
  - rewrite Hsh in *. assert (n / 2 ^ i = 0) as Hz.
    { apply Z.div_small. pose proof (Z.pow_le_mono_r 2 32 i). lia. }
    rewrite Hz in *. by apply Hstop.
  - destruct ((2 <? Z.shiftr n i) && truth x) eqn:Hc; [|by apply Hstop]. clear Hstop.
    apply andb_true_iff in Hc as [Hc%Z.ltb_lt _].
    pose proof (Z.mul_div_le n (2 ^ i) ltac:(lia)) as Hle. rewrite <- Hsh in Hle.
    set (t := Z.shiftr n i) in *. change (2 ^ 30) with 1073741824 in Hr. change (2 ^ 31) with 2147483648 in *.
    apply wp_bind, wp_int; [unfold in_sint; simpl; lia|].
    apply wp_bind, wp_int; [unfold in_sint; simpl; lia|].
    destruct (Z.leb_spec 0 (2 * x - r)).
    + assert ((size + t) * r * 2 ^ i + (2 * x - r) * n <= b * 2 ^ i) as Hnext by nia.
      assert ((size + t) * r <= b) as Hst by nia.
      apply wp_bind, wp_int; [unfold in_sint; simpl; nia|].
      eapply wp_mono; [apply (IH (i + 1)); [lia|lia|lia|lia|by replace (i + 1 - 1) with i by lia]|].
      intros s w' (-> & Hge & Hsb & Hex). split_and!; [done|lia|done|]. intros k -> Hk.
      assert (t = 2 ^ (k - i)) as Ht by (rewrite Hsh, <- Z.pow_sub_r by lia; done).
      assert (i + 1 <= k - 1) as Hk'.
      { destruct (Z.le_gt_cases (i + 1) (k - 1)); [done|]. assert (k - i = 1) as Hki by lia. rewrite Hki in Ht. lia. }
      rewrite (Hex k eq_refl Hk'), Ht. replace (k - 1 - i) with (Z.succ (k - 1 - (i + 1))) by lia.
      rewrite Z.pow_succ_r by lia. set (m := 2 ^ (k - 1 - (i + 1))).
      replace (2 ^ (k - i)) with (4 * m) by (unfold m; change 4 with (2 ^ 2); rewrite <- Z.pow_add_r by lia; f_equal; lia).
      replace (x * (2 * m)) with ((2 * x - r) * m + m * r) by lia. rewrite Z.div_add by lia. lia.
    + assert (size * r * 2 ^ i + 2 * x * n <= b * 2 ^ i) as Hnext by nia.
      eapply wp_mono; [apply (IH (i + 1)); [lia|lia|lia|lia|by replace (i + 1 - 1) with i by lia]|].
      intros s w' (-> & Hge & Hsb & Hex). split_and!; [done|lia|done|]. intros k -> Hk.
      assert (i + 1 <= k - 1) as Hk'.
      { destruct (Z.le_gt_cases (i + 1) (k - 1)); [done|]. assert (k - i = 1) as Hki by lia.
        rewrite Hsh, <- Z.pow_sub_r, Hki in Hc by lia. lia. }
      rewrite (Hex k eq_refl Hk'). replace (k - 1 - i) with (Z.succ (k - 1 - (i + 1))) by lia.
      rewrite Z.pow_succ_r by lia. f_equal. f_equal. f_equal. lia.
Qed.

Lemma size_wp n r o E w :
  0 <= n < 2 ^ 31 -> 0 < r <= 2 ^ 30 -> 0 <= o < 2 ^ 31 -> n * o < 2 ^ 31 * r ->
  wp (asrc_get_output_buffer_size n r o) (fun s w' => w' = w /\ 0 <= s /\ s mod 8 = 0 /\ s * r <= n * o /\
    forall k, n = 2 ^ k -> 2 <= k -> s = 8 * (n * o / (8 * r))) E w.
Proof.
  intros Hn Hr Ho Hb. unfold asrc_get_output_buffer_size. rewrite Z.quot_div_nonneg by lia.
  pose proof (Z.div_pos o r ltac:(lia) ltac:(lia)) as Hq.
  pose proof (Z.div_mod o r ltac:(lia)) as Hdm. pose proof (Z.mod_pos_bound o r ltac:(lia)) as Hm.
  assert (o / r < 2 ^ 31) as Hq31 by (apply Z.div_lt_upper_bound; lia).
  apply wp_bind. eapply wp_mono; [apply whole_part_wp; [lia|lia|lia|lia|lia]|]. intros ? w1 [-> ->].
  rewrite Z.add_0_l. assert (o / r * n * r <= n * o) as Hqn by nia.
  apply wp_bind, wp_int; [unfold in_sint; simpl in *; nia|].
  apply wp_bind. eapply wp_mono; [apply (binary_part_wp _ _ _ _ _ _ (n * o)); [lia|lia|lia|lia|lia|nia|lia|]|].
  { change (2 ^ (1 - 1)) with 1. nia. }
  intros s w1 (-> & Hge & Hs & Hex). rewrite Z.shiftl_mul_pow2, Z.shiftr_div_pow2 by lia. change (2 ^ 3) with 8.
  assert (0 <= s) as Hs0 by nia. pose proof (Z.mul_div_le s 8 ltac:(lia)). pose proof (Z.div_pos s 8 Hs0 ltac:(lia)).
  apply wp_int; [unfold in_sint; simpl in *; nia|]. split_and!; [done|lia|by apply Z.mod_mul|nia|].
  intros k -> Hk. rewrite (Hex k eq_refl) by lia.
  assert (2 ^ k = 4 * 2 ^ (k - 1 - 1)) as -> by (change 4 with (2 ^ 2); rewrite <- Z.pow_add_r by lia; f_equal; lia).
  set (m := 2 ^ (k - 1 - 1)) in *. assert (0 < m) by (apply pow2_pos; lia).
  replace (o / r * (4 * m) + 4 * ((o mod r) * m / r)) with (4 * (o * m / r)).
  - rewrite (Z.mul_comm 4 (o * m / r)). change 8 with (2 * 4) at 1. rewrite Z.div_mul_cancel_r by lia.
    rewrite Z.div_div by lia. replace (4 * m * o) with (o * m * 4) by lia.
    replace (8 * r) with (r * 2 * 4) by lia. rewrite Z.div_mul_cancel_r by lia. lia.
  - replace (o * m) with ((o mod r) * m + (o / r * m) * r) by nia. rewrite Z.div_add by lia. lia.
Qed.

(** C27: If the size of the input buffer is not negative, the input rate is
    between 1 and 2^30, the output rate not negative, and the product of size
    and output rate over the input rate in the range of [int], then the loops
    that compute the size of the output buffer end, nothing overflows, and
    the size is that quotient rounded: a multiple of eight that does not
    exceed it, and for a size that is a power of two from 4 up exactly the
    largest such multiple.  (Rates of zero or below and larger quotients, with
    which the loops run into overflow, are left out.) *)
Theorem asrc_output_size_is_quotient n input_rate output_rate w :
  0 <= n < 2 ^ 31 -> 0 < input_rate <= 2 ^ 30 -> 0 <= output_rate < 2 ^ 31 ->
  n * output_rate < 2 ^ 31 * input_rate ->
  wp (asrc_get_output_buffer_size n input_rate output_rate) (fun s w' =>
    w' = w /\ s mod 8 = 0 /\ 0 <= s <= n * output_rate / input_rate /\
    forall k, n = 2 ^ k -> 2 <= k -> s = 8 * (n * output_rate / input_rate / 8)) (fun _ _ => False) w.
Proof.
  intros Hn Hr Ho Hb. eapply wp_mono; [by apply size_wp|]. intros s w' (-> & H0 & H8 & Hle & Hex).
  split_and!; [done|done|done|apply Z.div_le_lower_bound; lia|].
  intros k Hk Hk2. rewrite (Hex k Hk Hk2), Z.div_div by lia. by rewrite (Z.mul_comm input_rate 8).
Qed.
End Size.

(** ** A device that delivers what it is given *)
Definition sim_asrc : AsrcDevice nat := {|
  ASRC_INVALID_PAIR := -1;
  asrc_open d := (3, d);
  ASRC_REQ_PAIR channels d := ((0, (1, channels)), d);
  ASRC_CONFIG_PAIR _ d := (0, d);
  ASRC_START_CONV _ d := (0, d);
  ASRC_STOP_CONV _ d := (0, d);
  ASRC_RELEASE_PAIR _ d := (0, d);
  ASRC_CONVERT data room d := ((0, (take (Z.to_nat room) data, zlen (take (Z.to_nat room) data))), S d);
|}.
#[export] Existing Instance sim_asrc.
Definition sim_asrc_world (rate : Z) (file : list Z) : world nat :=
  mkWorld 0%nat (set_output_rate rate info0) (replicate 74 0) None None None (-1) INCLK_NONE OUTCLK_ASRCK1_CLK 0
    (file, 0) [] [].

(** 4096 bytes from 44100 to 48000 Hz. *)
Lemma asrc_output_size_witness :
  wp (asrc_get_output_buffer_size 4096 44100 48000) (fun s _ => s = 4456) (fun _ _ => False) (sim_asrc_world 48000 []).
Proof.
  eapply wp_mono; [apply (asrc_output_size_is_quotient 4096 44100 48000); by vm_compute|].
  intros s w' (_ & _ & _ & Hs). by rewrite (Hs 12).
Defined.
