(* ===== verification/AsrcHeader.v ===== *)
(** * The header the converter test reads and writes

    Rules for the file and for the array of the header; a WAV file, with any
    chunks before its format and before its data, is parsed to its format, its
    length and the header of the output file. *)
From S2P Require Import Prelude CInt CMonad CStr CStruct Asrc AsrcSpec.

(** Storing into a part of a list, and behind it. *)
Lemma poke_app_l o v a b : (o + length v <= length a)%nat -> poke o v (a ++ b) = poke o v a ++ b.
Proof.
  intros Hl. unfold poke. rewrite take_app_le, drop_app_le by lia. by rewrite <- !app_assoc.
Qed.
Lemma poke_app_r o v a b : poke (length a + o) v (a ++ b) = a ++ poke o v b.
Proof.
  unfold poke. rewrite take_app_add, <- Nat.add_assoc, drop_app_add. by rewrite <- app_assoc.
Qed.
Lemma peek_app_l o n a b : (o + n <= length a)%nat -> peek o n (a ++ b) = peek o n a.
Proof. intros Hl. unfold peek. rewrite drop_app_le by lia. by rewrite take_app_le by (rewrite length_drop; lia). Qed.

Section Rules.
Context {D : Type} `{AsrcDevice D} (U : Prop).
Abbreviation W := (world D).
Implicit Types (w : W) (E : Z -> W -> Prop).

(** ** The file: the position is between [pre] and [post]. *)
Definition at_file (pre post : list Z) w : Prop := src w = (pre ++ post, zlen pre).
Lemma at_file_set pre post w : at_file pre post (set_src (pre ++ post, zlen pre) w).
Proof. done. Qed.

Lemma wp_fread n pre v post (Q : list Z -> W -> Prop) E w :
  at_file pre (v ++ post) w -> zlen v = n ->
  Q v (set_src ((pre ++ v) ++ post, zlen (pre ++ v)) w) -> wpu U (fread n) Q E w.
Proof.
  intros Hf Hn HQ. unfold fread. apply wp_bind, wp_gets. rewrite Hf, <- Hn, !Nat2Z.id.
  cbv zeta. rewrite drop_app_length, take_app_length.
  replace (zlen pre + zlen v) with (zlen (pre ++ v)) by (rewrite length_app; lia).
  apply wp_bind, wp_modify, wp_ret. by rewrite app_assoc.
Qed.
Lemma wp_fread4 old pre v post (Q : list Z * bool -> W -> Prop) E w :
  at_file pre (v ++ post) w -> length v = 4%nat -> length old = 4%nat ->
  Q (v, true) (set_src ((pre ++ v) ++ post, zlen (pre ++ v)) w) -> wpu U (fread4 old) Q E w.
Proof.
  intros Hf Hv Ho HQ. unfold fread4. apply wp_bind. eapply wp_fread; [exact Hf|lia|].
  apply wp_ret. assert (poke 0 v old = v) as ->.
  { unfold poke. rewrite drop_ge by lia. by rewrite app_nil_r. }
  by rewrite Hv.
Qed.
Lemma wp_fseek_back n pre v post (Q : unit -> W -> Prop) E w :
  at_file (pre ++ v) post w -> zlen v = n ->
  Q tt (set_src (pre ++ v ++ post, zlen pre) w) -> wpu U (fseek_cur (- n)) Q E w.
Proof.
  intros Hf Hn HQ. unfold fseek_cur. apply wp_bind, wp_gets. rewrite Hf.
  replace (zlen (pre ++ v) + - n) with (zlen pre) by (rewrite length_app; lia).
  rewrite (proj2 (Z.leb_le _ _)) by lia. cbn [when]. apply wp_modify. by rewrite <- app_assoc.
Qed.
Lemma wp_fseek_on n pre v post (Q : unit -> W -> Prop) E w :
  at_file pre (v ++ post) w -> zlen v = n ->
  Q tt (set_src ((pre ++ v) ++ post, zlen (pre ++ v)) w) -> wpu U (fseek_cur n) Q E w.
Proof.
  intros Hf Hn HQ. unfold fseek_cur. apply wp_bind, wp_gets. rewrite Hf.
  replace (zlen pre + n) with (zlen (pre ++ v)) by (rewrite length_app; lia).
  rewrite (proj2 (Z.leb_le _ _)) by lia. cbn [when]. apply wp_modify. by rewrite app_assoc.
Qed.

(** ** The header: what is known of its first bytes *)
Definition head_is (l : list Z) w : Prop :=
  zlen (header w) = WAVE_HEAD_SIZE /\ exists rest, header w = l ++ rest.
Lemma head_le l w : head_is l w -> zlen l <= WAVE_HEAD_SIZE.
Proof. intros [Hl [rest Hh]]. rewrite Hh, length_app in Hl. lia. Qed.
Lemma wp_hput o v l (Q : unit -> W -> Prop) E w :
  head_is l w -> 0 <= o -> o + zlen v <= zlen l ->
  (forall w', head_is (poke (Z.to_nat o) v l) w' -> (exists h, w' = set_header h w) -> Q tt w') ->
  wpu U (hput o v) Q E w.
Proof.
  intros Hh Ho Hl HQ. pose proof (head_le _ _ Hh) as Hle. destruct Hh as [Hlen [rest Hr]].
  unfold hput. apply wp_bind, wp_gets, wp_bind. unfold stored.
  rewrite (proj2 (Z.leb_le 0 o)), (proj2 (Z.leb_le _ (zlen (header w)))) by lia. cbn [andb].
  apply wp_ret, wp_modify. cbn [default from_option id]. apply HQ; [|by eexists]. split.
  - cbn [header set_header]. rewrite length_poke by lia. done.
  - exists rest. cbn [header set_header]. rewrite Hr. apply poke_app_l. lia.
Qed.
(** Behind what is known. *)
Lemma wp_hput_end v l (Q : unit -> W -> Prop) E w :
  head_is l w -> zlen l + zlen v <= WAVE_HEAD_SIZE ->
  (forall w', head_is (l ++ v) w' -> (exists h, w' = set_header h w) -> Q tt w') ->
  wpu U (hput (zlen l) v) Q E w.
Proof.
  intros [Hlen [rest Hr]] Hl HQ. unfold hput. apply wp_bind, wp_gets, wp_bind. unfold stored.
  rewrite (proj2 (Z.leb_le 0 _)), (proj2 (Z.leb_le _ (zlen (header w)))) by lia. cbn [andb].
  apply wp_ret, wp_modify. cbn [default from_option id]. rewrite Nat2Z.id. apply HQ; [|by eexists]. split.
  - cbn [header set_header]. rewrite length_poke by lia. done.
  - exists (drop (length v) rest). cbn [header set_header]. rewrite Hr.
    rewrite <- (Nat.add_0_r (length l)), poke_app_r, <- app_assoc. done.
Qed.
Lemma wp_hget o n l (Q : Z -> W -> Prop) E w :
  head_is l w -> 0 <= o -> 0 <= n -> o + n <= zlen l ->
  Q (of_le (peek (Z.to_nat o) (Z.to_nat n) l)) w -> wpu U (hget o n) Q E w.
Proof.
  intros Hh Ho Hn Hl HQ. pose proof (head_le _ _ Hh) as Hle. destruct Hh as [Hlen [rest Hr]].
  unfold hget. apply wp_bind, wp_gets, wp_bind. unfold window.
  rewrite (proj2 (Z.leb_le 0 o)), (proj2 (Z.leb_le 0 n)), (proj2 (Z.leb_le _ (zlen (header w)))) by lia.
  cbn [andb]. apply wp_ret, wp_ret. rewrite Hr, peek_app_l by lia. done.
Qed.
End Rules.

(** ** WAV files *)
Record format := mkFormat {
  f_tag : Z; f_channels : Z; f_rate : Z; f_byte_rate : Z; f_align : Z; f_bits : Z; f_ext : list Z;
}.
Definition fmt_size (f : format) : Z := 16 + zlen (f_ext f).
Definition fmt_bytes (f : format) : list Z :=
  to_le 2 (f_tag f) ++ to_le 2 (f_channels f) ++ to_le 4 (f_rate f) ++ to_le 4 (f_byte_rate f) ++
  to_le 2 (f_align f) ++ to_le 2 (f_bits f) ++ f_ext f.
Definition riff_part (total : Z) : list Z := bytes_of "RIFF" ++ to_le 4 total ++ bytes_of "WAVE".
Definition fmt_part (f : format) : list Z := bytes_of "fmt " ++ to_le 4 (fmt_size f) ++ fmt_bytes f.
Definition data_part (n : Z) : list Z := bytes_of "data" ++ to_le 4 n.
Definition wav_header (total : Z) (f : format) (n : Z) : list Z := riff_part total ++ fmt_part f ++ data_part n.
(** A chunk of no interest: its name and its content.  A chunk is what the
    program takes for one: behind its size come as many bytes and then the
    next chunk.  RIFF pads a chunk of odd length with one byte more, which the
    program does not skip ([padded_chunk_misread] below), so in what follows
    chunks have even lengths or are not padded. *)
Definition chunk : Type := list Z * list Z.
Definition chunk_bytes (c : chunk) : list Z := c.1 ++ to_le 4 (zlen c.2) ++ c.2.
Definition chunks (l : list chunk) : list Z := concat (map chunk_bytes l).
Definition skipped (id : list Z) (c : chunk) : Prop := length c.1 = 4%nat /\ c.1 <> id /\ zlen c.2 < 2 ^ 31.
Definition wav_file (total : Z) (f : format) (n : Z) (before between : list chunk) (samples : list Z) : list Z :=
  riff_part total ++ chunks before ++ fmt_part f ++ chunks between ++ data_part n ++ samples.
(** The formats that fit the array. *)
Definition format_ok (f : format) : Prop :=
  in_uint 16 (f_channels f) /\ in_uint 32 (f_rate f) /\ in_uint 16 (f_align f) /\ in_uint 16 (f_bits f) /\
  zlen (f_ext f) <= 30.

Lemma length_fmt_part f : zlen (fmt_part f) = fmt_size f + 8.
Proof.
  unfold fmt_part, fmt_bytes, fmt_size. rewrite !length_app, !length_to_le.
  change (length (bytes_of "fmt ")) with 4%nat. lia.
Qed.

Section Chunks.
Context {D : Type} `{AsrcDevice D}.
Abbreviation W := (world D).
Implicit Types (w : W) (E : Z -> W -> Prop).

Lemma set_src_same w : set_src (src w) w = w.
Proof. by destruct w. Qed.

Lemma wp_find_chunk id none cs fuel pre cid rest post csz (Q : option (list Z * list Z) -> W -> Prop) E w :
  at_file (pre ++ cid) rest w -> length cid = 4%nat -> length csz = 4%nat -> length id = 4%nat ->
  cid ++ rest = chunks cs ++ id ++ post -> Forall (skipped id) cs -> (length cs <= fuel)%nat ->
  (forall csz' s, length csz' = 4%nat -> at_file (pre ++ chunks cs ++ id) post (set_src s w) ->
     Q (Some (id, csz')) (set_src s w)) ->
  wp (find_chunk fuel id none cid csz) Q E w.
Proof.
  intros Hf Hcid Hcsz Hid Heq Hcs Hfuel HQ.
  revert fuel pre cid rest csz w Hf Hcid Hcsz Heq Hfuel HQ.
  induction cs as [|[name body] cs IH]; intros fuel pre cid rest csz w Hf Hcid Hcsz Heq Hfuel HQ.
  - change (cid ++ rest = id ++ post) in Heq. apply app_inj_1 in Heq as [-> ->]; [|lia].
    assert (find_chunk fuel id none id csz w = (Ret (Some (id, csz)), w)) as Hrun
      by (destruct fuel; cbn [find_chunk]; by rewrite bool_decide_eq_true_2).
    unfold wpu. rewrite Hrun. rewrite <- (set_src_same w). apply HQ; [done|]. by rewrite set_src_same.
  - pose proof (Forall_inv Hcs) as (Hn & Hne & Hlen). apply Forall_inv_tail in Hcs. simpl in Hn, Hne, Hlen.
    destruct fuel as [|fuel]; [simpl in Hfuel; lia|].
    unfold chunks in Heq. cbn [map concat] in Heq. unfold chunk_bytes at 1 in Heq. cbn [fst snd] in Heq.
    fold (chunks cs) in Heq. rewrite <- !app_assoc in Heq.
    apply app_inj_1 in Heq as [-> ->]; [|lia]. cbn [find_chunk]. rewrite bool_decide_eq_false_2 by done.
    apply wp_bind. eapply wp_fread4; [exact Hf|apply length_to_le|done|].
    rewrite of_to_le. change (8 * Z.of_nat 4) with 32. rewrite i32_u32, swrap_id by (unfold in_sint; lia).
    apply wp_bind. eapply wp_fseek_on; [reflexivity|done|].
    set (tail := chunks cs ++ id ++ post).
    assert (length (take 4 tail) = 4%nat) as Ht.
    { apply length_take_le. unfold tail. destruct cs as [|c cs']; [rewrite !length_app; lia|].
      pose proof (Forall_inv Hcs) as (Hc & _). unfold chunks. cbn [map concat]. unfold chunk_bytes.
      rewrite !length_app. lia. }
    apply wp_bind. eapply (wp_fread4 _ _ _ (take 4 tail) (drop 4 tail));
      [unfold at_file; rewrite take_drop; reflexivity|done|done|].
    cbv iota beta. eapply (IH Hcs fuel _ (take 4 tail) (drop 4 tail));
      [reflexivity|done|by rewrite length_to_le|by rewrite take_drop|simpl in Hfuel; lia|].
    intros csz' s Hcsz' Hs. apply (HQ csz' s); [done|].
    unfold at_file in *. cbn [src set_src] in *. rewrite Hs.
    unfold chunks at 3 4. cbn [map concat]. fold (chunks cs). unfold chunk_bytes. cbn [fst snd].
    rewrite <- !app_assoc. done.
Qed.
End Chunks.

(** ** Reading and changing a header *)
Definition with_rate (rate : Z) (f : format) : format :=
  mkFormat (f_tag f) (f_channels f) rate (f_byte_rate f) (f_align f) (f_bits f) (f_ext f).
Definition with_byte_rate (r : Z) (f : format) : format :=
  mkFormat (f_tag f) (f_channels f) (f_rate f) r (f_align f) (f_bits f) (f_ext f).
Definition with_align (a : Z) (f : format) : format :=
  mkFormat (f_tag f) (f_channels f) (f_rate f) (f_byte_rate f) a (f_bits f) (f_ext f).
Definition with_bits (b : Z) (f : format) : format :=
  mkFormat (f_tag f) (f_channels f) (f_rate f) (f_byte_rate f) (f_align f) b (f_ext f).

Lemma length_wav_header t f n : zlen (wav_header t f n) = fmt_size f + 28.
Proof.
  unfold wav_header. rewrite !length_app, !Nat2Z.inj_add, length_fmt_part. unfold riff_part, data_part.
  rewrite !length_app, !length_to_le. change (length (bytes_of "RIFF")) with 4%nat.
  change (length (bytes_of "WAVE")) with 4%nat. change (length (bytes_of "data")) with 4%nat. lia.
Qed.
Lemma poke_total v t f n : poke 4 (to_le 4 v) (wav_header t f n) = wav_header v f n.
Proof. reflexivity. Qed.
Lemma poke_rate v t f n : poke 24 (to_le 4 v) (wav_header t f n) = wav_header t (with_rate v f) n.
Proof. reflexivity. Qed.
Lemma poke_byte_rate v t f n : poke 28 (to_le 4 v) (wav_header t f n) = wav_header t (with_byte_rate v f) n.
Proof. reflexivity. Qed.
Lemma poke_align v t f n : poke 32 (to_le 2 v) (wav_header t f n) = wav_header t (with_align v f) n.
Proof. reflexivity. Qed.
Lemma poke_bits v t f n : poke 34 (to_le 2 v) (wav_header t f n) = wav_header t (with_bits v f) n.
Proof. reflexivity. Qed.
Lemma wav_split t f n : wav_header t f n = (riff_part t ++ fmt_part f ++ bytes_of "data") ++ to_le 4 n.
Proof. unfold wav_header, data_part. by rewrite <- !app_assoc. Qed.
Lemma length_split t f : length (riff_part t ++ fmt_part f ++ bytes_of "data") = Z.to_nat (24 + fmt_size f).
Proof.
  pose proof (length_wav_header t f 0) as Hl. rewrite wav_split, length_app, length_to_le in Hl.
  unfold fmt_size in *. lia.
Qed.
Lemma poke_data v t f n : poke (Z.to_nat (24 + fmt_size f)) (to_le 4 v) (wav_header t f n) = wav_header t f v.
Proof.
  rewrite !wav_split, <- (length_split t f), <- (Nat.add_0_r (length _)), poke_app_r. reflexivity.
Qed.
Lemma peek_data t f n : peek (Z.to_nat (24 + fmt_size f)) 4 (wav_header t f n) = to_le 4 n.
Proof. unfold peek. rewrite wav_split, <- (length_split t f), drop_app_length. by apply take_ge. Qed.
Lemma peek_size t f n : peek 16 4 (wav_header t f n) = to_le 4 (fmt_size f).
Proof. reflexivity. Qed.
Lemma peek_format t f :
  peek 22 2 (riff_part t ++ fmt_part f) = to_le 2 (f_channels f) /\
  peek 24 4 (riff_part t ++ fmt_part f) = to_le 4 (f_rate f) /\
  peek 32 2 (riff_part t ++ fmt_part f) = to_le 2 (f_align f) /\
  peek 34 2 (riff_part t ++ fmt_part f) = to_le 2 (f_bits f).
Proof. done. Qed.
Lemma length_chunks id cs : Forall (skipped id) cs -> (length cs <= length (chunks cs))%nat.
Proof.
  induction 1 as [|c cs (Hc & _) _ IH]; [done|]. unfold chunks in *. cbn [map concat length].
  unfold chunk_bytes at 1. rewrite !length_app. lia.
Qed.

(** ** Parsing *)
Section Parse.
Context {D : Type} `{AsrcDevice D} (junk : list Z) (Hjunk : length junk = 4%nat).
Abbreviation W := (world D).
Implicit Types (w : W) (E : Z -> W -> Prop).

Lemma of_le_2 v : in_uint 16 v -> of_le (to_le 2 v) = v.
Proof. intros Hv. rewrite of_to_le. by apply wrap_id. Qed.
Lemma of_le_4 v : in_uint 32 v -> of_le (to_le 4 v) = v.
Proof. intros Hv. rewrite of_to_le. by apply wrap_id. Qed.
Lemma i32_of_le_4 v : in_sint 32 v -> i32 (of_le (to_le 4 v)) = v.
Proof. intros Hv. rewrite of_to_le. change (8 * Z.of_nat 4) with 32. rewrite i32_u32. by apply swrap_id. Qed.

(** The file is read up to [pre], the header is known to be [l], and only
    header and file position differ from [w0], with the information [i]. *)
Definition reading (i : audio_info_s) (l : list Z) (w0 : W) (pre post : list Z) w : Prop :=
  head_is l w /\ at_file pre post w /\ exists s h, w = set_src s (set_header h (set_info (fun _ => i) w0)).
Lemma reading_info i l w0 pre post w : reading i l w0 pre post w -> info w = i.
Proof. by intros (_ & _ & s & h & ->). Qed.
Lemma reading_start i l w0 w h pre post s :
  i = info w0 -> w = set_src s w0 -> s = (pre ++ post, zlen pre) -> head_is l (set_header h w) ->
  reading i l w0 pre post (set_header h w).
Proof. intros -> -> -> Hl. split_and!; [done|done|]. eexists _, h. by destruct w0. Qed.

(** ** The rules for such a state *)
Section ReadingRules.
Context (i : audio_info_s) (l : list Z) (w0 : W).
Lemma rd_seti f pre post (Q : unit -> W -> Prop) E w :
  reading i l w0 pre post w -> (forall w', reading (f i) l w0 pre post w' -> Q tt w') -> wp (seti f) Q E w.
Proof. intros (Hl & Hf & s & h & ->) HQ. apply wp_seti, HQ. split_and!; [done|done|by exists s, h]. Qed.
Lemma rd_geti {A} (f : audio_info_s -> A) pre post (Q : A -> W -> Prop) E w :
  reading i l w0 pre post w -> Q (f i) w -> wp (geti f) Q E w.
Proof. intros Hw HQ. apply wp_geti. by rewrite (reading_info _ _ _ _ _ _ Hw). Qed.
Lemma rd_file pre post pre' post' w :
  reading i l w0 pre post w -> reading i l w0 pre' post' (set_src (pre' ++ post', zlen pre') w).
Proof. intros (Hl & Hf & s & h & ->). split_and!; [done|done|by eexists _, h]. Qed.
Lemma rd_fread n v pre post (Q : list Z -> W -> Prop) E w :
  reading i l w0 pre (v ++ post) w -> zlen v = n ->
  (forall w', reading i l w0 (pre ++ v) post w' -> Q v w') -> wp (fread n) Q E w.
Proof. intros Hw Hn HQ. eapply wp_fread; [apply Hw|done|]. apply HQ. by eapply rd_file. Qed.
Lemma rd_fread4 old v pre post (Q : list Z * bool -> W -> Prop) E w :
  reading i l w0 pre (v ++ post) w -> length v = 4%nat -> length old = 4%nat ->
  (forall w', reading i l w0 (pre ++ v) post w' -> Q (v, true) w') -> wp (fread4 old) Q E w.
Proof. intros Hw Hv Ho HQ. eapply wp_fread4; [apply Hw|done|done|]. apply HQ. by eapply rd_file. Qed.
Lemma rd_back n v pre post (Q : unit -> W -> Prop) E w :
  reading i l w0 (pre ++ v) post w -> zlen v = n ->
  (forall w', reading i l w0 pre (v ++ post) w' -> Q tt w') -> wp (fseek_cur (- n)) Q E w.
Proof. intros Hw Hn HQ. eapply wp_fseek_back; [apply Hw|done|]. apply HQ. by eapply rd_file. Qed.
Lemma rd_hget o n pre post (Q : Z -> W -> Prop) E w :
  reading i l w0 pre post w -> 0 <= o -> 0 <= n -> o + n <= zlen l ->
  Q (of_le (peek (Z.to_nat o) (Z.to_nat n) l)) w -> wp (hget o n) Q E w.
Proof. intros Hw Ho Hn Hl HQ. by eapply wp_hget; [apply Hw|..]. Qed.
Lemma rd_hput o v l' pre post (Q : unit -> W -> Prop) E w :
  reading i l w0 pre post w -> 0 <= o -> o + zlen v <= zlen l -> poke (Z.to_nat o) v l = l' ->
  (forall w', reading i l' w0 pre post w' -> Q tt w') -> wp (hput o v) Q E w.
Proof.
  intros Hw Ho Hl <- HQ. destruct Hw as (Hh & Hf & s & h & ->).
  eapply wp_hput; [done..|]. intros w' Hh' [h' ->]. apply HQ. split_and!; [done|done|by exists s, h'].
Qed.
Lemma rd_hput_end o v pre post (Q : unit -> W -> Prop) E w :
  reading i l w0 pre post w -> o = zlen l -> zlen l + zlen v <= WAVE_HEAD_SIZE ->
  (forall w', reading i (l ++ v) w0 pre post w' -> Q tt w') -> wp (hput o v) Q E w.
Proof.
  intros Hw -> Hl HQ. destruct Hw as (Hh & Hf & s & h & ->).
  eapply wp_hput_end; [done..|]. intros w' Hh' [h' ->]. apply HQ. split_and!; [done|done|by exists s, h'].
Qed.
(** To a chunk past those of no interest. *)
Lemma rd_find_chunk id none cs fuel pre old csz post {A} (K : option (list Z * list Z) -> M W A) (Q : A -> W -> Prop) E w :
  reading i l w0 pre (chunks cs ++ id ++ post) w -> length old = 4%nat -> length csz = 4%nat ->
  length id = 4%nat -> Forall (skipped id) cs -> (length cs <= fuel)%nat ->
  (forall csz' w', length csz' = 4%nat -> reading i l w0 (pre ++ chunks cs ++ id) post w' -> wp (K (Some (id, csz'))) Q E w') ->
  wp ('(chunk_id, _) ← fread4 old; r ← find_chunk fuel id none chunk_id csz; K r) Q E w.
Proof.
  intros Hw Hold Hcsz Hid Hcs Hfuel HK. set (tail := chunks cs ++ id ++ post) in *.
  assert (length (take 4 tail) = 4%nat) as Ht.
  { apply length_take_le. unfold tail. destruct cs as [|c cs']; [rewrite !length_app; lia|].
    pose proof (Forall_inv Hcs) as (Hc & _). unfold chunks. cbn [map concat]. unfold chunk_bytes.
    rewrite !length_app. lia. }
  rewrite <- (take_drop 4 tail) in Hw. apply wp_bind. eapply rd_fread4; [exact Hw|done|done|].
  intros w1 Hw1. cbv iota beta. apply wp_bind. eapply wp_find_chunk; [apply Hw1|done|done|done| |done|done|].
  { rewrite take_drop. reflexivity. }
  intros csz' s Hcsz' Hs. apply HK; [done|]. destruct Hw1 as (Hh & _ & s1 & h1 & ->).
  split_and!; [done|done|by exists s, h1].
Qed.
End ReadingRules.

Definition with_format (f : format) : audio_info_s -> audio_info_s :=
  set_format (swrap 16 (f_channels f)) (i32 (f_rate f)) (f_align f) (f_bits f).
Definition parsed (f : format) (n : Z) (i : audio_info_s) : audio_info_s := set_input_len n (with_format f i).

Lemma parse_format_wp f pre post i t w0 w (Q : Z -> W -> Prop) E :
  format_ok f -> reading i (riff_part t) w0 (pre ++ bytes_of "fmt ") (to_le 4 (fmt_size f) ++ fmt_bytes f ++ post) w ->
  (forall w', reading (with_format f i) (riff_part t ++ fmt_part f) w0 (pre ++ fmt_part f) post w' ->
     Q (fmt_size f) w') ->
  wp (parse_format junk) Q E w.
Proof.
  intros (Hch & Hrate & Hal & Hbits & Hext) Hw HQ. unfold parse_format.
  assert (in_sint 32 (fmt_size f) /\ in_uint 32 (fmt_size f + 8)) as [Hs Hs8]
    by (unfold in_sint, in_uint, fmt_size; simpl; lia).
  apply wp_bind. eapply rd_fread4; [exact Hw|apply length_to_le|done|]. clear w Hw. intros w Hw. cbv iota beta.
  rewrite i32_of_le_4 by done. rewrite <- app_assoc in Hw.
  apply wp_bind. eapply (rd_back _ _ _ 8); [exact Hw|by rewrite length_app, length_to_le|].
  clear w Hw. intros w Hw. rewrite <- app_assoc, (app_assoc _ (fmt_bytes f)), (app_assoc _ _ post) in Hw.
  fold (fmt_part f) in Hw.
  apply wp_bind, wp_int; [unfold in_sint, fmt_size in *; simpl; lia|]. rewrite (wrap_id 32) by done.
  apply wp_bind. eapply rd_fread; [exact Hw|by rewrite length_fmt_part|]. clear w Hw. intros w Hw.
  apply wp_bind. eapply rd_hput_end; [exact Hw|done|rewrite length_fmt_part; unfold fmt_size, WAVE_HEAD_SIZE; simpl; lia|].
  clear w Hw. intros w Hw. destruct (peek_format t f) as (P1 & P2 & P3 & P4).
  assert (36 <= zlen (riff_part t ++ fmt_part f)) as Hl.
  { rewrite length_app, Nat2Z.inj_add, length_fmt_part. change (zlen (riff_part t)) with 12. unfold fmt_size. lia. }
  do 4 (apply wp_bind; eapply rd_hget; [exact Hw|lia..|]).
  change (Z.to_nat 22) with 22%nat. change (Z.to_nat 24) with 24%nat. change (Z.to_nat 32) with 32%nat.
  change (Z.to_nat 34) with 34%nat. change (Z.to_nat 2) with 2%nat. change (Z.to_nat 4) with 4%nat.
  rewrite P1, P2, P3, P4, !of_le_2, of_le_4 by done. rewrite !(wrap_id 16) by done.
  apply wp_bind. eapply rd_seti; [exact Hw|]. intros w' Hw'. by apply wp_ret, HQ.
Qed.

Lemma set_lengths_wp i t f v n w0 pre post w (Q : unit -> W -> Prop) E :
  reading i (wav_header t f n) w0 pre post w -> zlen (f_ext f) <= 30 -> in_sint 32 (v + 200) -> 0 <= v ->
  (forall w', reading i (wav_header (v + 20 + fmt_size f) f v) w0 pre post w' -> Q tt w') ->
  wp (set_lengths v (fmt_size f)) Q E w.
Proof.
  clear Hjunk. intros Hw Hext Hv Hv0 HQ. unfold set_lengths. unfold in_sint in Hv. simpl in Hv.
  pose proof (length_wav_header t f n) as Hl. pose proof (length_wav_header t f v) as Hl'.
  unfold fmt_size in Hl, Hl'.
  apply wp_bind, wp_int; [unfold in_sint, fmt_size; simpl; lia|].
  apply wp_bind. eapply rd_hput; [exact Hw|unfold fmt_size; lia|rewrite length_to_le; unfold fmt_size; lia|apply poke_data|].
  clear w Hw. intros w Hw. apply wp_bind, wp_int; [unfold in_sint; simpl; lia|].
  apply wp_bind, wp_int; [unfold in_sint, fmt_size; simpl; lia|].
  eapply rd_hput; [exact Hw|lia|rewrite length_to_le; lia|apply poke_total|]. exact HQ.
Qed.

(** What a format and a length have to satisfy for the sizes to stay in range. *)
Definition convertible (f : format) (n orate : Z) : Prop :=
  format_ok f /\ 0 <= n < 2 ^ 31 /\ 0 < f_rate f <= 2 ^ 30 /\ 0 <= orate < 2 ^ 31 /\
  n * orate / f_rate f < 2 ^ 31 - 200 /\ 0 <= f_channels f < 2 ^ 15 /\
  orate * f_channels f * (f_bits f / 8) < 2 ^ 31 /\ orate * f_channels f < 2 ^ 31.
(** The header after parsing: the output's rate and length. *)
Definition parsed_header (f : format) (orate m : Z) : list Z :=
  wav_header (m + 20 + fmt_size f)
    (with_byte_rate (orate * f_channels f * (f_bits f / 8)) (with_rate orate f)) m.

(** What is known of the size of the output. *)
Definition output_sizes (n rate orate : Z) (P : Z -> Prop) : Prop :=
  forall w E, wp (asrc_get_output_buffer_size n rate orate) (fun m _ => P m) E w.

(** The computation of the size neither reads nor changes anything: its result
    is a value. *)
Definition a_value {A} (m : M W A) : Prop := exists o, forall w, m w = (o, w).
Lemma value_bind {A B} (m : M W A) (k : A -> M W B) :
  a_value m -> (forall a, a_value (k a)) -> a_value (m ≫= k).
Proof.
  intros [o Ho] Hk. destruct o as [a|c| |]; [|by eexists; intros w; unfold mbind, M_bind; rewrite Ho..].
  destruct (Hk a) as [o' Ho']. exists o'. intros w. unfold mbind, M_bind. by rewrite Ho.
Qed.
Lemma value_int v : a_value (int v : M W Z).
Proof. unfold int. case_match; by eexists. Qed.
Lemma value_if {A} (b : bool) (m1 m2 : M W A) : a_value m1 -> a_value m2 -> a_value (if b then m1 else m2).
Proof. by destruct b. Qed.
Lemma value_ret {A} (o : outcome A) : a_value (fun w : W => (o, w)).
Proof. by exists o. Qed.
Lemma value_whole fuel o r i : a_value (whole_part fuel o r i : M W _).
Proof.
  revert o i. induction fuel as [|fuel IH]; intros o i; cbn [whole_part]; apply value_if; try apply value_ret.
  do 2 (apply value_bind; [apply value_int|intros ?]). apply IH.
Qed.
Lemma value_binary fuel n r i o z : a_value (binary_part fuel n r i o z : M W Z).
Proof.
  revert i o z. induction fuel as [|fuel IH]; intros i o z; cbn [binary_part]; apply value_if; try apply value_ret.
  do 2 (apply value_bind; [apply value_int|intros ?]). apply value_if; [|apply IH].
  apply value_bind; [apply value_int|intros ?; apply IH].
Qed.
Lemma value_size n r o : a_value (asrc_get_output_buffer_size n r o : M W Z).
Proof.
  unfold asrc_get_output_buffer_size. apply value_bind; [apply value_whole|]. intros [i q].
  apply value_bind; [apply value_int|intros z]. apply value_bind; [apply value_binary|intros z']. apply value_int.
Qed.
(** [m] is the size computed for the output; for a power of two the quotient of
    the rates, rounded down to a multiple of eight. *)
Definition output_size (n rate orate m : Z) : Prop :=
  (forall w, asrc_get_output_buffer_size n rate orate w = (Ret m, w)) /\
  (forall k, n = 2 ^ k -> 2 <= k -> m = 8 * (n * orate / rate / 8)).

Lemma convertible_small f n orate :
  convertible f n orate ->
  0 <= n < 2 ^ 31 /\ 0 < f_rate f <= 2 ^ 30 /\ 0 <= orate < 2 ^ 31 /\ n * orate < 2 ^ 31 * f_rate f.
Proof.
  intros (_ & Hn & Hr & Ho & Hb & _). split_and!; [lia..|].
  pose proof (Z.mul_succ_div_gt (n * orate) (f_rate f) ltac:(lia)). simpl in *. nia.
Qed.

Lemma convertible_output f n orate :
  convertible f n orate -> output_sizes n (f_rate f) orate (output_size n (f_rate f) orate).
Proof.
  intros Hc w E. destruct (convertible_small _ _ _ Hc) as (Hn & Hr & Ho & Hlt).
  destruct (value_size n (f_rate f) orate) as [o Hval].
  pose proof (size_wp n (f_rate f) orate (fun _ _ => False) w Hn Hr Ho Hlt) as Hs. unfold wpu in Hs |- *.
  rewrite Hval in Hs |- *. destruct o as [m| | |]; try done. destruct Hs as (_ & _ & _ & _ & Hex). split; [exact Hval|].
  intros k Hk Hk2. rewrite (Hex k Hk Hk2), Z.div_div by lia. by rewrite (Z.mul_comm (f_rate f) 8).
Qed.

Lemma convertible_size f n orate w E (P : Z -> Prop) :
  convertible f n orate ->
  output_sizes n (f_rate f) orate P ->
  wp (asrc_get_output_buffer_size n (f_rate f) orate) (fun m w' =>
    w' = w /\ P m /\ 0 <= m <= n * orate / f_rate f /\ m mod 8 = 0) E w.
Proof.
  intros Hc HP. destruct (convertible_small _ _ _ Hc) as (Hn & Hr & Ho & Hlt).
  eapply wp_mono; [eapply (wp_conj _ False _ _ _ E E); [by apply size_wp|apply HP]|]. intros m w' [(-> & H0 & H8 & Hle & _) HPm].
  split; [done|]. split; [done|]. split; [|done]. split; [done|]. apply Z.div_le_lower_bound; lia.
Qed.

Lemma parse_data_wp f n i pre samples t w0 w (P : Z -> Prop) (Q : Z -> W -> Prop) E :
  convertible f n (output_sample_rate i) -> output_sizes n (f_rate f) (output_sample_rate i) P ->
  reading (with_format f i) (riff_part t ++ fmt_part f) w0 (pre ++ bytes_of "data") (to_le 4 n ++ samples) w ->
  (forall m w', P m -> 0 <= m <= n * output_sample_rate i / f_rate f -> m mod 8 = 0 ->
     reading (set_output_len m (parsed f n i)) (parsed_header f (output_sample_rate i) m) w0
       (pre ++ data_part n) samples w' -> Q 1 w') ->
  wp (parse_data (fmt_size f)) Q E w.
Proof.
  intros Hc HP Hw HQ. pose proof Hc as (Hok & Hn & Hr & Ho & Hb & Hch & Hbr & Hrc).
  pose proof Hok as (_ & _ & _ & Hbits & Hext). unfold parse_data.
  assert (in_sint 32 n /\ in_sint 32 (f_rate f)) as [Hn32 Hr32] by (unfold in_sint; simpl in *; lia).
  apply wp_bind. eapply rd_geti; [exact Hw|].
  apply wp_bind. eapply rd_fread4; [exact Hw|apply length_to_le..|]. clear w Hw. intros w Hw. cbv iota beta.
  rewrite i32_of_le_4 by done. rewrite <- app_assoc in Hw.
  apply wp_bind. eapply rd_seti; [exact Hw|]. clear w Hw. intros w Hw. fold (parsed f n i) in Hw.
  apply wp_bind. eapply (rd_back _ _ _ 8); [exact Hw|by rewrite length_app, length_to_le|].
  clear w Hw. intros w Hw. fold (data_part n) in Hw.
  apply wp_bind. eapply rd_fread; [exact Hw|done|]. clear w Hw. intros w Hw.
  assert (zlen (riff_part t ++ fmt_part f) = fmt_size f + 20) as Hlen
    by (rewrite length_app, Nat2Z.inj_add, length_fmt_part; change (zlen (riff_part t)) with 12; lia).
  apply wp_bind, wp_int; [unfold in_sint, fmt_size; simpl; lia|].
  apply wp_bind. eapply rd_hput_end; [exact Hw|done|rewrite Hlen; unfold WAVE_HEAD_SIZE, fmt_size; simpl; lia|].
  clear w Hw. intros w Hw. rewrite <- app_assoc in Hw. fold (wav_header t f n) in Hw.
  apply wp_bind. eapply rd_geti; [exact Hw|].
  assert (swrap 16 (f_channels f) = f_channels f) as Hsw by (apply swrap_id; unfold in_sint; simpl in *; lia).
  change (input_data_len (parsed f n i)) with n. change (sample_rate (parsed f n i)) with (i32 (f_rate f)).
  change (output_sample_rate (parsed f n i)) with (output_sample_rate i).
  change (channel (parsed f n i)) with (swrap 16 (f_channels f)).
  change (frame_bits (parsed f n i)) with (f_bits f).
  rewrite Hsw, (swrap_id 32 (f_rate f)) by done. apply wp_bind.
  eapply wp_mono; [exact (convertible_size f n (output_sample_rate i) w E P Hc HP)|].
  intros m w' (-> & HPm & Hm & Hm8).
  apply wp_bind. eapply rd_seti; [exact Hw|]. clear w Hw. intros w Hw.
  apply wp_bind. eapply set_lengths_wp; [exact Hw|done|unfold in_sint; simpl in *; lia|lia|].
  clear w Hw. intros w Hw. pose proof (length_wav_header (m + 20 + fmt_size f) f m) as Hl. unfold fmt_size at 2 in Hl.
  apply wp_bind. eapply rd_hput; [exact Hw|lia|rewrite length_to_le; lia|apply poke_rate|].
  clear w Hw. intros w Hw.
  rewrite Z.quot_div_nonneg by (unfold in_uint in Hbits; lia).
  pose proof (Z.div_pos (f_bits f) 8 ltac:(unfold in_uint in Hbits; lia) ltac:(lia)).
  apply wp_bind, wp_int; [unfold in_sint; simpl in *; nia|].
  apply wp_bind, wp_int; [unfold in_sint; simpl in *; nia|].
  pose proof (length_wav_header (m + 20 + fmt_size f) (with_rate (output_sample_rate i) f) m) as Hl2.
  unfold fmt_size at 2 in Hl2. cbn [f_ext with_rate] in Hl2.
  apply wp_bind. eapply rd_hput; [exact Hw|lia|rewrite length_to_le; lia|apply poke_byte_rate|].
  clear w Hw. intros w Hw. apply wp_ret. by eapply (HQ m).
Qed.

(** Parsing, with what is known of the output's size. *)
Lemma header_parser_wp total f n before between samples w (P : Z -> Prop) E :
  src w = (wav_file total f n before between samples, 0) -> zlen (header w) = WAVE_HEAD_SIZE ->
  Forall (skipped (bytes_of "fmt ")) before -> Forall (skipped (bytes_of "data")) between ->
  convertible f n (output_sample_rate (info w)) -> output_sizes n (f_rate f) (output_sample_rate (info w)) P ->
  wp (header_parser junk) (fun r w' => r = 1 /\ exists m pre, P m /\
    0 <= m <= n * output_sample_rate (info w) / f_rate f /\ m mod 8 = 0 /\
    reading (set_output_len m (parsed f n (info w))) (parsed_header f (output_sample_rate (info w)) m) w
      pre samples w') E w.
Proof.
  intros Hsrc Hlen Hbefore Hbetween Hc HP. pose proof Hc as (Hok & _). unfold header_parser.
  apply wp_bind, wp_gets. set (fuel := chunk_fuel w).
  assert ((length before <= fuel)%nat /\ (length between <= fuel)%nat) as [Hf1 Hf2].
  { unfold fuel, chunk_fuel. rewrite Hsrc. pose proof (length_chunks _ _ Hbefore).
    pose proof (length_chunks _ _ Hbetween). unfold wav_file. cbn [fst]. rewrite !length_app. lia. }
  clearbody fuel. set (i := info w) in *.
  set (rest2 := data_part n ++ samples).
  set (rest := bytes_of "fmt " ++ (to_le 4 (fmt_size f) ++ fmt_bytes f) ++ chunks between ++ rest2).
  assert (reading i [] w [] (chunks [] ++ bytes_of "RIFF" ++ to_le 4 total ++ bytes_of "WAVE" ++ chunks before ++ rest)
    (set_src (wav_file total f n before between samples, 0) w)) as Hw.
  { split_and!; [split; [exact Hlen|by exists (header w)]|done|]. eexists _, (header w). by destruct w. }
  apply wp_bind. unfold fseek_set. apply wp_bind, wp_gets. rewrite Hsrc. apply wp_modify.
  revert Hw. generalize (set_src (wav_file total f n before between samples, 0) w). intros w1 Hw.
  eapply (rd_find_chunk _ _ _ _ wrong_format [] fuel); [exact Hw|done|exact Hjunk|done|by constructor|simpl; lia|].
  clear w1 Hw. intros csz w1 Hcsz Hw. cbv iota beta.
  apply wp_bind. eapply (rd_back _ _ _ 4 (bytes_of "RIFF") []); [exact Hw|done|]. clear w1 Hw. intros w1 Hw.
  change (bytes_of "RIFF" ++ to_le 4 total ++ bytes_of "WAVE" ++ chunks before ++ rest)
    with (riff_part total ++ chunks before ++ rest) in Hw.
  apply wp_bind. eapply rd_fread; [exact Hw|done|]. clear w1 Hw. intros w1 Hw.
  apply wp_bind. eapply rd_hput_end; [exact Hw|done|by unfold WAVE_HEAD_SIZE|]. clear w1 Hw. intros w1 Hw.
  eapply (rd_find_chunk _ _ _ (bytes_of "fmt ")); [exact Hw|done|exact Hcsz|done|done|done|].
  clear w1 Hw csz Hcsz. intros csz w1 Hcsz Hw. cbv iota beta. rewrite app_assoc, <- (app_assoc (to_le 4 _)) in Hw.
  apply wp_bind. eapply (parse_format_wp f); [done|exact Hw|]. clear w1 Hw. intros w1 Hw.
  eapply (rd_find_chunk _ _ _ (bytes_of "data")); [exact Hw|done|exact Hcsz|done|done|done|].
  clear w1 Hw csz Hcsz. intros csz w1 Hcsz Hw. cbv iota beta. rewrite app_assoc in Hw.
  eapply (parse_data_wp f n); [exact Hc|exact HP|exact Hw|]. clear w1 Hw.
  intros m w1 HPm Hm Hm8 Hw.
  split; [done|]. eexists m, _. split_and!; [done|lia|lia|done|exact Hw].
Qed.

(** C26: On a WAV file whose format fits the array and can be converted (rate
    from 1 to 2^30, sizes and byte rate of the output in the range of int:
    [convertible]), with any chunks before its format and before its data
    (below 2^31 bytes, and without the pad byte of RIFF if their length is
    odd, which the program does not skip), parsing ends with 1: the format and
    the length of the samples are those of the file, the length of the output
    is the one computed from them, the file is read up to its first sample,
    and the header for the output is the same format with the output's rate,
    byte rate and lengths.  Nothing else has changed. *)
Theorem header_parser_reads_wav total f n before between samples w :
  src w = (wav_file total f n before between samples, 0) -> zlen (header w) = WAVE_HEAD_SIZE ->
  Forall (skipped (bytes_of "fmt ")) before -> Forall (skipped (bytes_of "data")) between ->
  convertible f n (output_sample_rate (info w)) ->
  wp (header_parser junk) (fun r w' => r = 1 /\ exists m pre,
    output_size n (f_rate f) (output_sample_rate (info w)) m /\
    0 <= m <= n * output_sample_rate (info w) / f_rate f /\ m mod 8 = 0 /\
    reading (set_output_len m (parsed f n (info w))) (parsed_header f (output_sample_rate (info w)) m) w
      pre samples w')
    (fun _ _ => False) w.
Proof.
  intros Hsrc Hlen Hbefore Hbetween Hc.
  eapply wp_mono; [eapply header_parser_wp; [done..|by apply convertible_output]|]. by cbv beta.
Qed.
End Parse.

(** A file with a chunk before its format and one before its data. *)
Definition sim_format : format := mkFormat 1 1 8000 16000 2 16 [].
Definition sim_wav : list Z :=
  wav_file 70 sim_format 8 [(bytes_of "LIST", [1; 2; 3])] [(bytes_of "fact", [])] [1; 0; 2; 0; 3; 0; 4; 0].

Lemma sim_convertible : convertible sim_format 8 8000.
Proof. unfold convertible, format_ok. split_and!; by vm_compute. Qed.

Lemma header_parser_witness :
  wp (header_parser [0; 0; 0; 0]) (fun r w' => r = 1 /\ input_data_len (info w') = 8 /\ sample_rate (info w') = 8000)
    (fun _ _ => False) (sim_asrc_world 8000 sim_wav).
Proof.
  eapply wp_mono.
  - apply (header_parser_reads_wav [0; 0; 0; 0] eq_refl 70 sim_format 8 [(bytes_of "LIST", [1; 2; 3])]
      [(bytes_of "fact", [])] [1; 0; 2; 0; 3; 0; 4; 0]); [reflexivity|reflexivity| | |apply sim_convertible].
    + constructor; [|constructor]. by vm_compute.
    + constructor; [|constructor]. by vm_compute.
  - intros r w' (-> & m & pre & _ & _ & _ & Hw). by rewrite (reading_info _ _ _ _ _ _ Hw).
Defined.

(** A chunk of odd length with its pad byte, as RIFF has it: the search goes on
    one byte early, no longer finds the beginning of a chunk, and the file is
    refused. *)
Example padded_chunk_misread :
  let file := riff_part 70 ++ chunk_bytes (bytes_of "LIST", [1; 2; 3]) ++ [0] ++ fmt_part sim_format ++
                data_part 8 ++ [1; 0; 2; 0; 3; 0; 4; 0] in
  (header_parser [0; 0; 0; 0] (sim_asrc_world 8000 file)).1 = Ret (-1).
Proof. by vm_compute. Qed.
