(* ===== verification/AsrcPlay.v ===== *)
(** * Conversion in the sample rate converter test

    What the device is given and what becomes of its output: [play_file]
    refines a stream of blocks, stays inside its buffers and ends, on every
    device that never stores more than its room and always makes progress. *)
From S2P Require Import Prelude CInt CMonad CStr CStruct Asrc AsrcSpec.

(** What the driver promises for a whole buffer of input, and that the results
    of the calls are in the range of [int]. *)
Class AsrcLaws (D : Type) `{AsrcDevice D} : Prop := {
  start_int p d : in_sint 32 (ASRC_START_CONV p d).1;
  stop_int p d : in_sint 32 (ASRC_STOP_CONV p d).1;
  convert_law (data : list Z) (room : Z) (d : D) :
    zlen data = DMA_BUF_SIZE -> 0 < room ->
    let '((err, (bytes, len)), _) := ASRC_CONVERT data room d in
    in_sint 32 err /\ zlen bytes <= room /\ (0 <= err -> zlen bytes = len /\ 0 < len);
}.

(** ** The stream of blocks *)
Section Stream.
Context {D : Type} `{AsrcDevice D} (ib : list Z) (n room : Z).
(** The k-th block of input: a buffer from the samples, then zeros. *)
Definition block (k : nat) : list Z :=
  if DMA_BUF_SIZE * Z.of_nat k <? n
  then peek (Z.to_nat (DMA_BUF_SIZE * Z.of_nat k)) (Z.to_nat DMA_BUF_SIZE) ib
  else replicate (Z.to_nat DMA_BUF_SIZE) 0.
(** What the device has delivered after [k] blocks, and its state. *)
Fixpoint stream (k : nat) (d : D) : list Z * D :=
  match k with
  | O => ([], d)
  | S k =>
      let '(out, d) := stream k d in
      let '((_, (bytes, _)), d) := ASRC_CONVERT (block k) room d in
      (out ++ bytes, d)
  end.
End Stream.

Section Play.
Context {D : Type} `{AsrcLaws D}.
Abbreviation W := (world D).
Implicit Types (w : W) (E : Z -> W -> Prop).

(** Storing behind what was stored. *)
Lemma take_poke_end (out v ob : list Z) :
  take (length out) ob = out -> (length out + length v <= length ob)%nat ->
  take (length (out ++ v)) (poke (length out) v ob) = out ++ v.
Proof.
  intros Ht Hl. unfold poke. rewrite Ht, app_assoc. apply take_app_length.
Qed.

Lemma wp_window b l o n (Q : list Z -> W -> Prop) E w :
  b = Some l -> 0 <= o -> 0 <= n -> o + n <= zlen l ->
  Q (peek (Z.to_nat o) (Z.to_nat n) l) w -> wp (window b o n) Q E w.
Proof.
  intros -> Ho Hn Hl HQ. unfold window.
  by rewrite (proj2 (Z.leb_le 0 o)), (proj2 (Z.leb_le 0 n)), (proj2 (Z.leb_le _ (zlen l))) by lia.
Qed.
Lemma wp_stored b l o v (Q : buffer -> W -> Prop) E w :
  b = Some l -> 0 <= o -> o + zlen v <= zlen l -> Q (Some (poke (Z.to_nat o) v l)) w -> wp (stored b o v) Q E w.
Proof.
  intros -> Ho Hl HQ. unfold stored.
  by rewrite (proj2 (Z.leb_le 0 o)), (proj2 (Z.leb_le _ (zlen l))) by lia.
Qed.
Lemma wp_call {A} (f : D -> A * D) a d (Q : A -> W -> Prop) E w :
  f (dev w) = (a, d) -> Q a (set_dev d w) -> wp (call f) Q E w.
Proof. intros Hf HQ. unfold wpu, call. by rewrite Hf. Qed.

Section Loop.
Context (w0 : W) (ib : list Z) (d0 : D) (n N size tail L : Z).
Let i0 : audio_info_s := info w0.
Let room : Z := size + tail.
Context (Hib : input_buffer w0 = Some ib)
  (Hnull : input_null w0 = Some (replicate (Z.to_nat DMA_BUF_SIZE) 0))
  (Hn : 0 <= n < 2 ^ 31) (HN : 0 <= N < 2 ^ 31)
  (Hlen : forall k, 0 <= k -> DMA_BUF_SIZE * k < n -> DMA_BUF_SIZE * (k + 1) <= zlen ib)
  (Hroom : 0 < room < 2 ^ 32) (HL : N + room <= L).
Abbreviation stream := (stream ib n room).

(** The members after [k] blocks of input and [P] bytes of output. *)
Definition info_at (k : nat) (P : Z) : audio_info_s :=
  set_output_len (N - P) (set_output_used P (set_input_len (n - Z.min n (DMA_BUF_SIZE * Z.of_nat k)) i0)).
(** After [k] blocks, when the output is not complete. *)
Record playing (k : nat) (out : list Z) (ob : list Z) w : Prop := {
  playing_stream : stream k d0 = (out, dev w);
  playing_world : w = set_dev (dev w) (set_output (Some ob) (set_info (fun _ => info_at k (zlen out)) w0));
  playing_prefix : take (length out) ob = out;
  playing_room : zlen ob = L;
  playing_left : k = 0%nat \/ zlen out < N;
}.
(** What there is at the end: nothing is written to the file in between. *)
Definition failed (r : Z) w : Prop := in_sint 32 r /\ r < 0 /\ dst w = dst w0.
Definition played (r : Z) w : Prop :=
  exists k out d d' ob', stream (S k) d0 = (out, d) /\ (k = 0%nat \/ zlen (stream k d0).1 < N) /\ N <= zlen out /\
    zlen ob' = L /\ take (Z.to_nat N) ob' = take (Z.to_nat N) out /\
    ASRC_STOP_CONV (pair_index w0) d = (r, d') /\
    w = set_dev d' (set_output (Some ob') (set_info (fun _ => info_at (S k) N) w0)).

(** The next block of input. *)
Lemma next_input_wp k out ob w (Q : list Z * Z -> W -> Prop) E :
  playing k out ob w ->
  (forall w', w' = set_info (set_input_len (n - Z.min n (DMA_BUF_SIZE * Z.of_nat (S k)))) w ->
     Q (block ib n k, Z.min n (DMA_BUF_SIZE * Z.of_nat (S k))) w') ->
  wp (next_input (Z.min n (DMA_BUF_SIZE * Z.of_nat k))) Q E w.
Proof.
  intros Hp HQ. pose proof (playing_world _ _ _ _ Hp) as Hw. unfold next_input, block in *.
  assert (DMA_BUF_SIZE = 4096) as HD by done. pose proof (Hlen (Z.of_nat k) ltac:(lia)) as Hk.
  replace (Z.of_nat (S k)) with (Z.of_nat k + 1) in HQ by lia. rewrite Z.mul_add_distr_l, Z.mul_1_r in *.
  assert (0 <= DMA_BUF_SIZE * Z.of_nat k) as Hx by lia. revert Hp HQ Hk Hw Hx. unfold info_at.
  generalize (DMA_BUF_SIZE * Z.of_nat k). intros x Hp HQ Hk Hw Hx.
  assert (input_data_len (info w) = n - Z.min n x) as Hleft by by rewrite Hw.
  apply wp_bind, wp_geti. rewrite Hleft.
  destruct (Z.ltb_spec x n).
  - rewrite (proj2 (Z.ltb_lt 0 _)) by lia.
    set (m := if DMA_BUF_SIZE <? n - Z.min n x then DMA_BUF_SIZE else n - Z.min n x).
    assert (Z.min n x + m = Z.min n (x + DMA_BUF_SIZE)) as Hm
      by (unfold m; destruct (Z.ltb_spec DMA_BUF_SIZE (n - Z.min n x)); lia).
    apply wp_bind, wp_seti, wp_bind, wp_gets, wp_bind.
    eapply (wp_window _ ib); [rewrite Hw; exact Hib|lia|lia|specialize (Hk ltac:(lia)); lia|].
    apply wp_ret. rewrite Hm. replace (Z.min n x) with x by lia. apply HQ. f_equal. f_equal. lia.
  - rewrite (proj2 (Z.ltb_ge 0 _)) by lia. apply wp_bind, wp_gets, wp_bind.
    eapply (wp_window _ (replicate (Z.to_nat DMA_BUF_SIZE) 0)); [rewrite Hw; exact Hnull|lia|lia|rewrite length_replicate; lia|].
    apply wp_ret. unfold peek. rewrite drop_0, take_ge by by rewrite length_replicate.
    replace (Z.min n (x + DMA_BUF_SIZE)) with (Z.min n x) in HQ by lia. apply HQ.
    rewrite Hw. reflexivity.
Qed.

Lemma length_block k : zlen (block ib n k) = DMA_BUF_SIZE.
Proof.
  unfold block. assert (DMA_BUF_SIZE = 4096) as HD by done. destruct (Z.ltb_spec (DMA_BUF_SIZE * Z.of_nat k) n).
  - pose proof (Hlen (Z.of_nat k) ltac:(lia) ltac:(done)). rewrite length_peek; lia.
  - rewrite length_replicate. lia.
Qed.

Lemma account_wp len k P w (Q : Z -> W -> Prop) E :
  info w = set_input_len (n - Z.min n (DMA_BUF_SIZE * Z.of_nat (S k))) (info_at k P) ->
  0 <= P <= N -> 0 < len ->
  (forall w', w' = set_info (fun _ => info_at (S k) (Z.min N (P + len))) w -> Q (Z.min (N - P) len) w') ->
  wp (account_output len) Q E w.
Proof.
  intros Hi HP Hl HQ. unfold account_output. apply wp_bind, wp_geti. rewrite Hi.
  change (output_data_len _) with (N - P). apply wp_bind, wp_geti. rewrite Hi. change (output_used _) with P.
  rewrite (wrap_id 32 (N - P)) by (unfold in_uint; simpl in *; lia).
  assert ((if len <? N - P then len else N - P) = Z.min (N - P) len) as -> by (destruct (Z.ltb_spec len (N - P)); lia).
  rewrite !swrap_id by (unfold in_sint; simpl in *; lia).
  apply wp_bind, wp_seti, wp_bind, wp_seti, wp_ret, HQ. unfold info_at.
  replace (N - Z.min N (P + len)) with (N - P - Z.min (N - P) len) by lia.
  replace (Z.min N (P + len)) with (P + Z.min (N - P) len) by lia.
  unfold set_info. cbn. rewrite Hi. reflexivity.
Qed.

(** The loop: the device fails, or the output is complete. *)
Lemma convert_loop_wp fuel k out ob w E :
  playing k out ob w -> zlen out <= N -> N - zlen out < Z.of_nat fuel ->
  wp (convert_loop fuel (Z.min n (DMA_BUF_SIZE * Z.of_nat k)) (zlen out) size tail)
    (fun r w' => failed r w' \/ played r w') E w.
Proof.
  revert k out ob w. induction fuel as [|fuel IH]; intros k out ob w Hp Hout Hf; [lia|].
  cbn [convert_loop]. apply wp_bind. eapply next_input_wp; [exact Hp|]. intros w1 Hw1. cbv iota beta.
  pose proof (wrap_id 32 room) as Hw32. fold room. rewrite Hw32 by (unfold in_uint; simpl in *; lia).
  destruct (ASRC_CONVERT (block ib n k) room (dev w)) as [[err [bytes len]] d] eqn:Hconv.
  assert (zlen (block ib n k) = DMA_BUF_SIZE) as Hblock.
  { apply length_block. }
  pose proof (convert_law _ _ (dev w) Hblock (proj1 Hroom)) as Hlaw. rewrite Hconv in Hlaw. destruct Hlaw as (Herr32 & Hbytes & Hok).
  assert (stream (S k) d0 = (out ++ bytes, d)) as Hstream.
  { cbn [AsrcPlay.stream]. rewrite (playing_stream _ _ _ _ Hp). by rewrite Hconv. }
  apply wp_bind. eapply wp_call; [rewrite Hw1; exact Hconv|]. cbv iota beta.
  pose proof (playing_world _ _ _ _ Hp) as Hw. pose proof (playing_room _ _ _ _ Hp) as Hob.
  apply wp_bind, wp_gets, wp_bind. eapply (wp_stored _ ob); [rewrite Hw1, Hw; reflexivity|lia|lia|].
  apply wp_bind, wp_modify. destruct (Z.ltb_spec err 0) as [Herr|Herr].
  { apply wp_ret. left. split_and!; [done|done|]. by rewrite Hw1, Hw. }
  destruct (Hok Herr) as [Hlen' Hpos]. rewrite Nat2Z.id. set (ob' := poke (length out) bytes ob).
  assert (length ob' = length ob) as Hob' by (apply length_poke; lia).
  assert (take (length (out ++ bytes)) ob' = out ++ bytes) as Hpre
    by (apply take_poke_end; [apply (playing_prefix _ _ _ _ Hp)|lia]).
  apply wp_bind. eapply (account_wp len k (zlen out)); [by rewrite Hw1, Hw|lia|done|].
  intros w2 Hw2.
  assert (w2 = set_dev d (set_output (Some ob') (set_info (fun _ => info_at (S k) (Z.min N (zlen out + len))) w0)))
    as Hw2' by by rewrite Hw2, Hw1, Hw.
  clear Hw2 Hw1 w1. subst w2. apply wp_bind, wp_geti. cbn [info set_dev set_output set_info].
  change (output_data_len (info_at _ ?x)) with (N - x).
  assert (zlen (out ++ bytes) = zlen out + len) as Hlo by (rewrite length_app; lia).
  destruct (Z.eqb_spec (N - Z.min N (zlen out + len)) 0) as [Hz|Hz].
  - apply wp_bind, wp_gets. destruct (ASRC_STOP_CONV (pair_index w0) d) as [r d'] eqn:Hstop.
    eapply wp_call; [exact Hstop|]. right. exists k, (out ++ bytes), d, d', ob'.
    split_and!; [done|rewrite (playing_stream _ _ _ _ Hp); apply (playing_left _ _ _ _ Hp)|lia|lia| |done|].
    + rewrite <- Hpre, take_take. f_equal. lia.
    + replace (Z.min N (zlen out + len)) with N by lia. reflexivity.
  - replace (Z.min N (zlen out + len)) with (zlen (out ++ bytes)) by lia.
    replace (zlen out + Z.min (N - zlen out) len) with (zlen (out ++ bytes)) by lia.
    apply (IH (S k) (out ++ bytes) ob'); [|lia|lia]. split; [done|done|done|lia|lia].
Qed.
End Loop.

(** The size of the device's output for a buffer, and the room it is given. *)
Definition output_room (w : W) : Z :=
  8 * (DMA_BUF_SIZE * output_sample_rate (info w) / sample_rate (info w) / 8) + channel (info w) * 8.

(** Conversion on a device that keeps to its room and delivers something
    for every full buffer: the loop ends after at most one turn more than
    there are bytes of output; either the device has failed, or it was given
    the blocks of the samples, padded with zeros as long as output was
    missing and no longer, the output buffer holds the first bytes of what it
    delivered, exactly as many as announced, and it was told to stop.  No
    buffer is left on either side. *)
Lemma play_file_wp fuel w ib nb ob n N E :
  input_buffer w = Some ib -> input_null w = Some nb -> zlen nb = DMA_BUF_SIZE ->
  output_buffer w = Some ob -> zlen ob = N + 256 * 1024 ->
  input_data_len (info w) = n -> output_data_len (info w) = N -> 0 <= n < 2 ^ 31 -> 0 <= N < 2 ^ 31 ->
  (forall k, 0 <= k -> DMA_BUF_SIZE * k < n -> DMA_BUF_SIZE * (k + 1) <= zlen ib) ->
  0 < sample_rate (info w) <= 2 ^ 30 -> 0 <= output_sample_rate (info w) < 2 ^ 31 ->
  0 < channel (info w) -> output_room w <= 256 * 1024 -> N < Z.of_nat fuel ->
  let d0 := (ASRC_START_CONV (pair_index w) (dev w)).2 in
  wp (play_file fuel) (fun r w' => in_sint 32 r /\ (
    (r < 0 /\ dst w' = dst w) \/
    exists k out d ob', stream ib n (output_room w) (S k) d0 = (out, d) /\
      (k = 0%nat \/ zlen (stream ib n (output_room w) k d0).1 < N) /\
      N <= zlen out /\ zlen ob' = zlen ob /\ take (Z.to_nat N) ob' = take (Z.to_nat N) out /\
      r = (ASRC_STOP_CONV (pair_index w) d).1 /\
      w' = set_dev (ASRC_STOP_CONV (pair_index w) d).2 (set_output (Some ob')
             (set_null (Some (replicate (Z.to_nat DMA_BUF_SIZE) 0))
               (set_info (fun i => set_output_len 0 (set_output_used N (set_input_len
                 (n - Z.min n (DMA_BUF_SIZE * Z.of_nat (S k))) i))) w)))))
    E w.
Proof.
  intros Hib Hnb Hlnb Hob Hlob Hn HN Hnr HNr Hlen Hrate Horate Hch Hroom Hfuel d0. unfold play_file.
  unfold output_room in *. set (s := 8 * _) in *.
  assert (0 <= DMA_BUF_SIZE * output_sample_rate (info w) / sample_rate (info w)) as Hq
    by (apply Z.div_pos; unfold DMA_BUF_SIZE; lia).
  pose proof (Z.div_pos _ 8 Hq ltac:(lia)) as Hs0.
  pose proof (Z.mul_succ_div_gt (DMA_BUF_SIZE * output_sample_rate (info w) / sample_rate (info w)) 8 ltac:(lia)) as Hs8.
  pose proof (Z.mul_succ_div_gt (DMA_BUF_SIZE * output_sample_rate (info w)) (sample_rate (info w)) ltac:(lia)) as Hsq.
  apply wp_bind, wp_geti, wp_bind. eapply wp_mono.
  { apply (size_wp DMA_BUF_SIZE); [unfold DMA_BUF_SIZE; simpl; lia|done|done|simpl in *; nia]. }
  intros s' ? (-> & _ & _ & _ & Hs). specialize (Hs 12 eq_refl ltac:(lia)). rewrite (Z.mul_comm 8 (sample_rate _)), <- Z.div_div in Hs by lia.
  fold s in Hs. subst s'. cbv zeta.
  apply wp_bind, wp_gets, wp_bind. eapply (wp_stored _ nb); [exact Hnb|lia|rewrite length_replicate; unfold DMA_BUF_SIZE in *; lia|].
  assert (poke (Z.to_nat 0) (replicate (Z.to_nat DMA_BUF_SIZE) 0) nb = replicate (Z.to_nat DMA_BUF_SIZE) 0) as ->.
  { unfold poke. rewrite drop_ge by (rewrite length_replicate; change (Z.to_nat 0) with 0%nat; lia). by rewrite app_nil_r. }
  apply wp_bind, wp_modify, wp_bind, wp_gets, wp_bind. cbn [pair_index set_null].
  pose proof (start_int (pair_index w) (dev w)) as Hint. unfold d0. clear d0.
  destruct (ASRC_START_CONV (pair_index w) (dev w)) as [err d0] eqn:Hstart.
  eapply wp_call; [exact Hstart|]. destruct (Z.ltb_spec err 0); [apply wp_ret; split; [done|by left]|].
  apply wp_bind, wp_seti. set (w0 := set_info _ _).
  replace (u32 (channel (info w) * 4 * 2)) with (channel (info w) * 8) by (rewrite wrap_id; unfold in_uint; simpl; lia).
  assert (playing w0 ib d0 n N s (channel (info w) * 8) (zlen ob) 0 [] ob w0) as Hstart0.
  { split; [done| |done|done|by left]. unfold info_at.
    rewrite Z.mul_0_r, Z.min_r, !Z.sub_0_r by lia. subst n N w0. revert Hob. clear.
    destruct w as [? [] ? ? ? ? ? ? ? ? ? ? ?]. cbn. intros ->. done. }
  pose proof (convert_loop_wp w0 ib d0 n N s (channel (info w) * 8) (zlen ob) Hib eq_refl Hnr HNr Hlen
    ltac:(simpl; lia) ltac:(lia) fuel 0 [] ob w0 E Hstart0 ltac:(simpl; lia) ltac:(simpl; lia)) as Hloop.
  rewrite Z.mul_0_r, Z.min_r in Hloop by lia.
  eapply wp_mono; [exact Hloop|]. intros r w' [(Hr32 & Hr & Hdst)|(k & out & d & d' & ob' & Hst & Hk & HNo & Hl & Ht & Hstop & Hw')].
  { split; [done|]. by left. }
  cbn [w0 pair_index set_info set_dev set_null] in Hstop. pose proof (stop_int (pair_index w) d) as Hr32.
  rewrite Hstop in Hr32. split; [done|]. right. exists k, out, d, ob'. cbn [snd]. rewrite Hstop.
  split_and!; [done..|]. rewrite Hw'. unfold info_at. by rewrite Z.sub_diag.
Qed.
End Play.

#[export] Instance sim_asrc_laws : AsrcLaws nat.
Proof.
  split; [by vm_compute|by vm_compute|]. intros data room d Hd Hr. cbn. rewrite length_take.
  unfold DMA_BUF_SIZE in Hd. unfold in_sint. simpl. lia.
Qed.
