(* ===== verification/AsrcFile.v ===== *)
(** * From file to file in the sample rate converter test

    Widening the samples, writing the output, and the whole of
    [convert_file] and [main]: the file that is written is a WAV file with the
    output's format and what the device delivered for the widened samples. *)
From S2P Require Import Prelude CInt CMonad CStr CStruct Asrc AsrcSpec AsrcHeader AsrcPlay.

(** ** Samples *)
Definition sample_bytes (k : nat) (vs : list Z) : list Z := concat (map (to_le k) vs).
Definition sample_size (bits : Z) : nat := if bits <=? 16 then 2 else 4.
(** A sample of 16, 24 or 32 bits as one of 24 bits. *)
Definition widened (bits v : Z) : Z := if bits =? 16 then v * 256 else if bits =? 24 then v else v / 256.

Lemma length_sample_bytes k vs : length (sample_bytes k vs) = (k * length vs)%nat.
Proof.
  unfold sample_bytes. induction vs as [|v vs IH]; [simpl; lia|].
  cbn [map concat length]. rewrite length_app, length_to_le, IH. lia.
Qed.
Lemma of_le_app a b : of_le (a ++ b) = of_le a + 256 ^ zlen a * of_le b.
Proof.
  induction a as [|x a IH]; [cbn [app of_le length]; lia|]. cbn [app of_le length].
  rewrite IH, Nat2Z.inj_succ, Z.pow_succ_r by lia. lia.
Qed.
Lemma land_field x : Z.land x 0xffff00 = 256 * (x / 256 mod 65536).
Proof.
  change 0xffff00 with (Z.shiftl (Z.ones 16) 8). change 65536 with (2 ^ 16). change 256 with (2 ^ 8).
  rewrite <- (Z.land_ones (x / 2 ^ 8) 16), <- Z.shiftr_div_pow2, (Z.mul_comm (2 ^ 8)), <- Z.shiftl_mul_pow2 by lia.
  apply Z.bits_inj'. intros i Hi. rewrite Z.land_spec. destruct (Z.ltb_spec i 8).
  - rewrite !Z.shiftl_spec_low by lia. by rewrite andb_false_r.
  - rewrite !Z.shiftl_spec, Z.land_spec, Z.shiftr_spec by lia. do 2 f_equal. lia.
Qed.
Lemma widen_16 v r :
  in_uint 16 v -> Z.land (shl32 (of_le (to_le 2 v ++ r)) 8) 0xffff00 = v * 256.
Proof.
  intros Hv. rewrite of_le_app, of_le_2, length_to_le by done. rewrite land_field. unfold in_uint in Hv. simpl in Hv.
  unfold shl32, wrap. rewrite Z.shiftl_mul_pow2 by lia. change (256 ^ Z.of_nat 2) with 65536.
  change (2 ^ 8) with 256. change (2 ^ 32) with (256 * 16777216).
  rewrite Z.mul_comm at 1. rewrite (Z.mul_comm (v + _) 256), Z.mul_mod_distr_l by lia.
  rewrite (Z.mul_comm 256 (_ mod 16777216)), Z.div_mul by lia. f_equal.
  change 16777216 with (65536 * 256). rewrite Z.rem_mul_r by lia. rewrite (Z.mul_comm 65536), Z.mod_add by lia.
  rewrite (Z.mul_comm 65536 (_ mod 256)), Z.mod_add, Z.mod_mod, Z.mod_small by lia. done.
Qed.
Lemma widen_32 v : in_uint 32 v -> Z.land (Z.shiftr v 8) 0xffffff = v / 256.
Proof.
  intros Hv. unfold in_uint in Hv. simpl in Hv. change 0xffffff with (Z.ones 24).
  rewrite Z.land_ones, Z.shiftr_div_pow2 by lia. change (2 ^ 8) with 256. apply Z.mod_small.
  split; [apply Z.div_pos; lia|apply Z.div_lt_upper_bound; simpl; lia].
Qed.

Section Widen.
Context {D : Type} `{AsrcDevice D}.
Abbreviation W := (world D).
Implicit Types (w : W) (E : Z -> W -> Prop).

(** The loop that widens: [f] on the word in memory, [g] on the sample. *)
Lemma widen_loop_wp fuel k (f g : Z -> Z) vs pre post i dn rest old w (Q : unit -> W -> Prop) E :
  (k <= 4)%nat ->
  (forall v r, in_uint (8 * Z.of_nat k) v -> length r = (4 - k)%nat -> f (of_le (to_le k v ++ r)) = g v) ->
  vs <> [] -> Forall (in_uint (8 * Z.of_nat k)) vs -> (length vs <= fuel)%nat -> length old = 4%nat ->
  at_file pre (sample_bytes k vs ++ post) w -> input_buffer w = Some (dn ++ rest) -> zlen dn = 4 * i ->
  (4 * length vs <= length rest)%nat ->
  (forall w', w' = set_src ((pre ++ sample_bytes k vs) ++ post, zlen (pre ++ sample_bytes k vs))
     (set_input (Some (dn ++ sample_bytes 4 (map g vs) ++ drop (4 * length vs) rest)) w) -> Q tt w') ->
  wp (widen_loop fuel (Z.of_nat k) f i old (zlen vs)) Q E w.
Proof.
  intros Hk Hfg. revert fuel pre i dn rest old w. induction vs as [|v vs IH]; [done|].
  intros fuel pre i dn rest old w _ Hvs Hfuel Hold Hsrc Hib Hdn Hrest HQ.
  destruct fuel as [|fuel]; [simpl in Hfuel; lia|]. cbn [widen_loop].
  pose proof (Forall_inv Hvs) as Hv. apply Forall_inv_tail in Hvs. cbn [length] in Hfuel, Hrest.
  unfold sample_bytes in Hsrc. cbn [map concat] in Hsrc. fold (sample_bytes k vs) in Hsrc. rewrite <- app_assoc in Hsrc.
  apply wp_bind. eapply wp_fread; [exact Hsrc|by rewrite length_to_le|].
  assert (poke 0 (to_le k v) old = to_le k v ++ drop k old) as -> by (unfold poke; by rewrite length_to_le).
  rewrite Hfg by (try done; rewrite length_drop; lia).
  apply wp_bind, wp_gets, wp_bind. eapply wp_stored; [cbn; exact Hib|lia|rewrite length_app, length_to_le; lia|].
  rewrite <- Hdn, Nat2Z.id, <- (Nat.add_0_r (length dn)), poke_app_r.
  apply wp_bind, wp_modify.
  assert (poke 0 (to_le 4 (g v)) rest = to_le 4 (g v) ++ drop 4 rest) as -> by reflexivity.
  destruct vs as [|v' vs'].
  - cbn [length]. change (truth (Z.of_nat 1 - 1)) with false. cbv iota. apply wp_skip, HQ.
    unfold sample_bytes. cbn [map concat]. rewrite !app_nil_r. reflexivity.
  - rewrite truth_true by (cbn [length]; lia).
    replace (zlen (v :: v' :: vs') - 1) with (zlen (v' :: vs')) by (cbn [length]; lia).
    eapply (IH fuel _ (i + 1) (dn ++ to_le 4 (g v)) (drop 4 rest)); [done|done|cbn [length] in *; lia| |done| | | |].
    + rewrite length_app, length_to_le, length_drop. lia.
    + cbn. by rewrite <- app_assoc.
    + rewrite length_app, length_to_le. lia.
    + rewrite length_drop. cbn [length] in *. lia.
    + intros w' ->. apply HQ. unfold sample_bytes. cbn [map concat].
      rewrite <- !app_assoc, drop_drop.
      by replace (4 + 4 * length (v' :: vs'))%nat with (4 * length (v :: v' :: vs'))%nat by (cbn [length]; lia).
Qed.
End Widen.

(** ** Before the conversion *)
Definition scale (f : format) (x : Z) : Z := if f_bits f <=? 16 then 2 * x else x.
(** The format of the output at a rate. *)
Definition out_format (f : format) (o : Z) : format :=
  if f_bits f <=? 16 then with_bits 24 (with_byte_rate (o * 8) (with_align 8 (with_rate o f)))
  else with_bits 24 (with_byte_rate (o * f_channels f * (f_bits f / 8)) (with_rate o f)).
Definition out_header (f : format) (o N : Z) : list Z := wav_header (N + 20 + fmt_size f) (out_format f o) N.

Section Before.
Context {D : Type} `{AsrcDevice D} (o_malloc : nat -> Z -> option (list Z)) (junk : list Z).
(** There is memory. *)
Context (Hmalloc : forall i n, 0 <= n -> exists l, o_malloc i n = Some l /\ zlen l = n) (Hjunk : length junk = 4%nat).
Abbreviation W := (world D).
Implicit Types (w : W) (E : Z -> W -> Prop).

Lemma wp_malloc n (Q : buffer -> W -> Prop) E w :
  in_uint 32 n -> (forall l, zlen l = n -> Q (Some l) (malloced w)) -> wp (malloc o_malloc n) Q E w.
Proof.
  intros Hn HQ. unfold malloc. apply wp_bind, wp_gets, wp_bind, wp_modify, wp_ret.
  rewrite wrap_id by done. destruct (Hmalloc (mallocs w) n) as (l & -> & Hl); [apply Hn|]. by apply HQ.
Qed.
Lemma reading_refl l pre post w : head_is l w -> at_file pre post w -> reading (info w) l w pre post w.
Proof. intros Hl Hf. split_and!; [done|done|]. exists (src w), (header w). by destruct w. Qed.

(** The samples are in the input buffer, the other buffers are there, and the
    header for the output is ready; the output file is as before. *)
Record prepared (f : format) (o n m : Z) (ib : list Z) (w0 w : W) : Prop := {
  pr_dst : dst w = dst w0;
  pr_clocks : (inclk w, outclk w) = (inclk w0, outclk w0);
  pr_header : head_is (out_header f o (scale f m)) w;
  pr_file : exists pre post, at_file pre post w;
  pr_input : exists rest, input_buffer w = Some (ib ++ rest) /\ zlen rest = 4096;
  pr_null : exists nb, input_null w = Some nb /\ zlen nb = 4096;
  pr_output : exists ob, output_buffer w = Some ob /\ zlen ob = scale f m + 256 * 1024;
  pr_info : (input_data_len (info w), output_data_len (info w)) = (scale f n, scale f m) /\
    (sample_rate (info w), output_sample_rate (info w), channel (info w)) = (f_rate f, o, f_channels f) /\
    (frame_bits (info w), input_word_width (info w), output_word_width (info w)) =
      (24, ASRC_WIDTH_24_BIT, output_word_width (info w0));
}.

(** What the loop leaves, from any state with the samples next in the file. *)
Lemma widen_wp f vs pre post l w fuel (Q : unit -> W -> Prop) E :
  forall k, k = sample_size (f_bits f) ->
  f_bits f = 16 \/ f_bits f = 24 \/ f_bits f = 32 ->
  vs <> [] -> Forall (in_uint (8 * Z.of_nat k)) vs -> (length vs <= fuel)%nat ->
  at_file pre (sample_bytes k vs ++ post) w -> input_buffer w = Some l -> zlen l = 4 * zlen vs + 4096 ->
  (forall w' rest, zlen rest = 4096 -> w' = set_src ((pre ++ sample_bytes k vs) ++ post, zlen (pre ++ sample_bytes k vs))
     (set_input (Some (sample_bytes 4 (map (widened (f_bits f)) vs) ++ rest)) w) -> Q tt w') ->
  (f_bits f = 16 -> wp (widen_loop fuel 2 (fun data => Z.land (shl32 data 8) 0xffff00) 0 junk (zlen vs)) Q E w) /\
  (f_bits f = 24 -> wp (widen_loop fuel 4 (fun data => data) 0 junk (zlen vs)) Q E w) /\
  (f_bits f = 32 -> wp (widen_loop fuel 4 (fun data => Z.land (Z.shiftr data 8) 0xffffff) 0 junk (zlen vs)) Q E w).
Proof.
  intros k Hk Hb Hne Hvs Hfuel Hf Hib Hl HQ.
  assert (forall g, (forall v r, in_uint (8 * Z.of_nat k) v -> length r = (4 - k)%nat ->
      g (of_le (to_le k v ++ r)) = widened (f_bits f) v) ->
    wp (widen_loop fuel (Z.of_nat k) g 0 junk (zlen vs)) Q E w) as Hloop.
  { intros g Hg. eapply (widen_loop_wp fuel k g (widened (f_bits f)) vs pre post 0 [] l);
      [rewrite Hk; unfold sample_size; destruct (f_bits f <=? 16); lia|done|done|done|done|done|done|done|done|lia|].
    intros w' Hw'. apply (HQ w' (drop (4 * length vs) l)); [rewrite length_drop; lia|exact Hw']. }
  split_and!; intros Hbits; rewrite Hbits in Hloop, Hk; cbn in Hk; subst k; apply (Hloop _); intros v r Hv Hr;
    unfold widened; cbn [Z.eqb Pos.eqb].
  - by apply widen_16.
  - destruct r; [|done]. rewrite app_nil_r. by apply of_le_4.
  - destruct r; [|done]. rewrite app_nil_r, of_le_4 by done. by apply widen_32.
Qed.

(** The members and the header once the samples are widened. *)
Definition widened_info (f : format) (n m : Z) (i : audio_info_s) : audio_info_s :=
  if f_bits f <=? 16
  then set_align 8 (set_output_len (2 * m) (set_input_len (2 * n) (set_output_len m (parsed f n i))))
  else set_output_len m (parsed f n i).
Definition widened_header (f : format) (o m : Z) : list Z :=
  if f_bits f <=? 16
  then wav_header (2 * m + 20 + fmt_size f) (with_byte_rate (o * 8) (with_align 8 (with_rate o f))) (2 * m)
  else parsed_header f o m.

Lemma lengths_wp f n m i w0 pre post w (Q : unit -> W -> Prop) E :
  let o := output_sample_rate i in
  f_bits f <= 16 -> zlen (f_ext f) <= 30 -> 0 <= n -> 2 * n < 2 ^ 31 -> 0 <= m -> 2 * m + 200 < 2 ^ 31 ->
  0 <= o -> o * 8 < 2 ^ 31 ->
  reading (set_output_len m (parsed f n i)) (parsed_header f o m) w0 pre post w ->
  (forall w', reading (widened_info f n m i) (widened_header f o m) w0 pre post w' -> Q tt w') ->
  wp (n' ← int (2 * n); seti (set_input_len n');; m' ← int (2 * m); seti (set_output_len m');;
      update_datachunk_length (fmt_size f);; seti (set_align 8);; update_blockalign) Q E w.
Proof.
  intros o Hb Hext Hn Hn2 Hm Hm2 Ho Ho8 Hw HQ. unfold widened_info, widened_header in HQ.
  rewrite (proj2 (Z.leb_le _ _)) in HQ by done.
  apply wp_bind, wp_int; [unfold in_sint; simpl in *; lia|].
  apply wp_bind. eapply rd_seti; [exact Hw|]. clear w Hw. intros w Hw.
  apply wp_bind, wp_int; [unfold in_sint; simpl in *; lia|].
  apply wp_bind. eapply rd_seti; [exact Hw|]. clear w Hw. intros w Hw.
  apply wp_bind. unfold update_datachunk_length. apply wp_bind. eapply rd_geti; [exact Hw|].
  change (output_data_len _) with (2 * m).
  eapply (set_lengths_wp _ _ (with_byte_rate (o * f_channels f * (f_bits f / 8)) (with_rate o f)));
    [exact Hw|done|unfold in_sint; simpl in *; lia|lia|].
  clear w Hw. intros w Hw.
  apply wp_bind. eapply rd_seti; [exact Hw|]. clear w Hw. intros w Hw.
  unfold update_blockalign. apply wp_bind. eapply rd_geti; [exact Hw|]. change (blockalign _) with 8.
  change (output_sample_rate _) with o.
  pose proof (fun t g m => length_wav_header t g m) as Hl.
  apply wp_bind. eapply rd_hput; [exact Hw|lia|rewrite Hl, length_to_le; unfold fmt_size; lia|apply poke_align|].
  clear w Hw. intros w Hw. apply wp_bind, wp_int; [unfold in_sint; simpl in *; lia|].
  eapply rd_hput; [exact Hw|lia|rewrite Hl, length_to_le; unfold fmt_size; lia|apply poke_byte_rate|]. exact HQ.
Qed.

(** After the samples: the bit depth, and the output buffer. *)
Lemma output_buffer_wp f n m i w0 pre post w (Q : unit -> W -> Prop) E :
  let o := output_sample_rate i in
  zlen (f_ext f) <= 30 -> 0 <= m -> scale f m + 256 * 1024 < 2 ^ 31 ->
  reading (widened_info f n m i) (widened_header f o m) w0 pre post w ->
  (forall w' ob, zlen ob = scale f m + 256 * 1024 ->
     reading (set_input_width ASRC_WIDTH_24_BIT (set_bits 24 (widened_info f n m i))) (out_header f o (scale f m)) w0 pre post w' ->
     Q tt (set_output (Some ob) (malloced w'))) ->
  wp (seti (set_bits 24);; seti (set_input_width ASRC_WIDTH_24_BIT);; update_sample_bitdepth;;
      n' ← geti output_data_len; n' ← int (n' + 256 * 1024); b ← malloc o_malloc n'; modify (set_output b);;
      when (bool_decide (b = None)) (printf "output buffer allocate error\n" [])) Q E w.
Proof.
  intros o Hext Hm Hm2 Hw HQ. unfold scale in *.
  apply wp_bind. eapply rd_seti; [exact Hw|]. clear w Hw. intros w Hw.
  apply wp_bind. eapply rd_seti; [exact Hw|]. clear w Hw. intros w Hw.
  apply wp_bind. unfold update_sample_bitdepth. apply wp_bind. eapply rd_geti; [exact Hw|].
  change (frame_bits _) with 24. pose proof (fun t g m => length_wav_header t g m) as Hl.
  eapply (rd_hput _ _ _ _ _ (out_header f o (scale f m))); [exact Hw|lia| | |].
  { unfold widened_header, parsed_header. destruct (f_bits f <=? 16);
      rewrite Hl, length_to_le; unfold fmt_size; cbn; lia. }
  { unfold widened_header, out_header, out_format, scale, parsed_header. by destruct (f_bits f <=? 16). }
  clear w Hw. intros w Hw. apply wp_bind. eapply rd_geti; [exact Hw|].
  assert (output_data_len (set_input_width ASRC_WIDTH_24_BIT (set_bits 24 (widened_info f n m i))) = scale f m) as ->
    by (unfold widened_info, scale; by destruct (f_bits f <=? 16)).
  apply wp_bind, wp_int; [unfold in_sint, scale; simpl in *; destruct (f_bits f <=? 16); lia|].
  apply wp_bind. eapply wp_malloc; [unfold in_uint, scale; simpl in *; destruct (f_bits f <=? 16); lia|].
  intros ob Hob. apply wp_bind, wp_modify, wp_skip. by apply HQ.
Qed.

Lemma bitshift_wp f n m vs w0 pre post w (Q : unit -> W -> Prop) E :
  let o := output_sample_rate (info w0) in let k := sample_size (f_bits f) in
  f_bits f = 16 \/ f_bits f = 24 \/ f_bits f = 32 -> vs <> [] -> Forall (in_uint (8 * Z.of_nat k)) vs ->
  n = zlen (sample_bytes k vs) -> zlen (f_ext f) <= 30 -> 2 * n + 4096 < 2 ^ 31 -> 0 <= m -> 
  scale f m + 256 * 1024 + 200 < 2 ^ 31 -> 0 <= o -> o * 8 < 2 ^ 31 -> 
  in_sint 32 (f_rate f) -> 0 <= f_channels f < 2 ^ 15 ->
  reading (set_output_len m (parsed f n (info w0))) (parsed_header f o m) w0 pre (sample_bytes k vs ++ post) w ->
  (forall w', prepared f o n m (sample_bytes 4 (map (widened (f_bits f)) vs)) w0 w' -> dev w' = dev w0 -> Q tt w') ->
  wp (bitshift o_malloc junk) Q E w.
Proof.
  intros o k Hb Hne Hvs Hn Hext Hn2 Hm Hm2 Ho Ho8 Hrate Hch Hw HQ. unfold bitshift.
  rewrite length_sample_bytes in Hn.
  assert (zlen (parsed_header f o m) = fmt_size f + 28) as Hl by (unfold parsed_header; by rewrite length_wav_header).
  apply wp_bind. eapply rd_hget; [exact Hw|lia|lia|rewrite Hl; unfold fmt_size; lia|].
  change (Z.to_nat 16) with 16%nat. change (Z.to_nat 4) with 4%nat. unfold parsed_header at 1. rewrite peek_size.
  rewrite i32_of_le_4 by (unfold in_sint, fmt_size; simpl; lia).
  apply wp_bind. eapply rd_geti; [exact Hw|].
  change (input_data_len _) with n. change (frame_bits _) with (f_bits f). change (output_data_len _) with m.
  assert (Z.shiftr n (if f_bits f <=? 16 then 1 else 2) = zlen vs) as ->.
  { rewrite Hn. unfold k, sample_size. destruct (f_bits f <=? 16); rewrite Z.shiftr_div_pow2 by lia.
    - change (2 ^ 1) with 2. rewrite Nat2Z.inj_mul, Z.mul_comm, Z.div_mul by lia. done.
    - change (2 ^ 2) with 4. rewrite Nat2Z.inj_mul, Z.mul_comm, Z.div_mul by lia. done. }
  assert (2 * zlen vs <= n) as Hvn by (rewrite Hn; unfold k, sample_size; destruct (f_bits f <=? 16); lia).
  apply wp_bind. eapply wp_malloc; [unfold in_uint; simpl in *; lia|]. intros l Hll.
  apply wp_bind, wp_modify, wp_bind, wp_skip, wp_bind. eapply wp_malloc; [unfold in_uint; simpl; lia|].
  intros nb Hnb. apply wp_bind, wp_modify, wp_bind, wp_skip, wp_bind.
  set (w1 := set_null (Some nb) _).
  assert (at_file pre (sample_bytes k vs ++ post) w1) as Hf1 by apply Hw.
  set (s2 := ((pre ++ sample_bytes k vs) ++ post, zlen (pre ++ sample_bytes k vs))).
  set (ib := sample_bytes 4 (map (widened (f_bits f)) vs)).
  eapply (wp_mono _ _ (fun _ w' => exists rest, zlen rest = 4096 /\
    reading (widened_info f n m (info w0)) (widened_header f o m) (set_src s2 (set_input (Some (ib ++ rest)) w1))
      (pre ++ sample_bytes k vs) post w')).
  - assert (forall rest, reading (set_output_len m (parsed f n (info w0))) (parsed_header f o m)
      (set_src s2 (set_input (Some (ib ++ rest)) w1)) (pre ++ sample_bytes k vs) post
      (set_src s2 (set_input (Some (ib ++ rest)) w1))) as Hr.
    { intros rest. rewrite <- (reading_info _ _ _ _ _ _ Hw).
      refine (reading_refl _ _ _ (set_src s2 (set_input (Some (ib ++ rest)) w1)) _ _); [apply Hw|done]. }
    destruct (Z.leb_spec (f_bits f) 16) as [Hb16|Hb16].
    + apply wp_bind. refine (proj1 (widen_wp f vs pre post l w1 (S (length l)) _ E k eq_refl Hb Hne Hvs ltac:(lia) Hf1 eq_refl Hll _) ltac:(lia)).
      intros w2 rest Hrest ->. eapply (lengths_wp f n m (info w0)); [done|done|lia|lia|done| |done|done|apply Hr|].
      { unfold scale in Hm2. rewrite (proj2 (Z.leb_le _ _)) in Hm2 by done. lia. }
      intros w3 Hw3. by exists rest.
    + assert (forall w' rest, zlen rest = 4096 -> w' = set_src s2 (set_input (Some (ib ++ rest)) w1) ->
        exists rest, zlen rest = 4096 /\ reading (widened_info f n m (info w0)) (widened_header f o m)
          (set_src s2 (set_input (Some (ib ++ rest)) w1)) (pre ++ sample_bytes k vs) post w') as HR.
      { intros w' rest Hrest ->. exists rest. split; [done|].
        unfold widened_info, widened_header. rewrite (proj2 (Z.leb_gt _ _)) by done. apply Hr. }
      destruct (widen_wp f vs pre post l w1 (S (length l))
        (fun _ w' => exists rest, zlen rest = 4096 /\ reading (widened_info f n m (info w0)) (widened_header f o m)
          (set_src s2 (set_input (Some (ib ++ rest)) w1)) (pre ++ sample_bytes k vs) post w')
        E k eq_refl Hb Hne Hvs ltac:(lia) Hf1 eq_refl Hll HR) as (_ & W24 & W32).
      destruct (Z.eqb_spec (f_bits f) 24) as [H24|H24]; [by apply W24|].
      rewrite (proj2 (Z.eqb_eq (f_bits f) 32)) by lia. apply W32. lia.
  - intros [] w2 (rest & Hrest & Hw2). eapply (output_buffer_wp f n m (info w0)); [done|done|lia|exact Hw2|].
    intros w3 ob Hob Hw3. apply HQ; [|by destruct Hw3 as (_ & _ & s & h & ->); destruct Hw as (_ & _ & s0 & h0 & ->)]. destruct Hw3 as (Hh3 & Hf3 & s & h & ->). destruct Hw as (_ & _ & s0 & h0 & ->).
    assert (i32 (f_rate f) = f_rate f) as Hr by by apply swrap_id.
    assert (swrap 16 (f_channels f) = f_channels f) as Hc by (apply swrap_id; unfold in_sint; simpl; lia).
    split; [done|done|exact Hh3|by eexists _, _|by exists rest|by exists nb|by exists ob|].
    unfold widened_info, scale. cbn [info set_output malloced set_src set_header set_info].
    unfold parsed, with_format. rewrite Hr, Hc. by destruct (f_bits f <=? 16).
Qed.
End Before.

(** ** Writing the output *)
(** The first [q] words of a list, 24 bits of each. *)
Fixpoint mask24 (q : nat) (l : list Z) : list Z :=
  match q with
  | O => []
  | S q => to_le 4 (Z.land (of_le (take 4 l)) 0xffffff) ++ mask24 q (drop 4 l)
  end.
Lemma mask24_ext q l l' : take (4 * q) l = take (4 * q) l' -> mask24 q l = mask24 q l'.
Proof.
  revert l l'. induction q as [|q IH]; intros l l' Hl; [done|]. cbn [mask24].
  replace (4 * S q)%nat with (4 + 4 * q)%nat in Hl by lia. f_equal.
  - do 3 f_equal. apply (f_equal (take 4)) in Hl. rewrite !take_take in Hl.
    by replace (4 `min` (4 + 4 * q))%nat with 4%nat in Hl by lia.
  - apply IH. apply (f_equal (drop 4)) in Hl. rewrite !skipn_firstn_comm in Hl.
    by replace (4 + 4 * q - 4)%nat with (4 * q)%nat in Hl by lia.
Qed.

Section After.
Context {D : Type} `{AsrcDevice D}.
Abbreviation W := (world D).
Implicit Types (w : W) (E : Z -> W -> Prop).

Lemma write_header_wp n i l w (Q : unit -> W -> Prop) E :
  head_is l w -> 0 <= i -> i + Z.of_nat n = zlen l ->
  Q tt (set_dst (dst w ++ drop (Z.to_nat i) l) w) -> wp (write_header n i) Q E w.
Proof.
  revert i w. induction n as [|n IH]; intros i w Hl Hi Hn HQ; cbn [write_header].
  - apply wp_skip. rewrite drop_ge, app_nil_r in HQ by lia. by destruct w.
  - apply wp_bind. eapply wp_hget; [exact Hl|lia|lia|lia|].
    destruct (drop (Z.to_nat i) l) as [|x rest] eqn:Hd.
    { apply (f_equal length) in Hd. rewrite length_drop in Hd. simpl in Hd. lia. }
    unfold peek. rewrite Hd. change (take (Z.to_nat 1) (x :: rest)) with [x]. cbn [of_le].
    replace (x + 256 * 0) with x by lia. apply wp_bind, wp_modify. apply IH; [done|lia|lia|].
    replace (Z.to_nat (i + 1)) with (Z.to_nat i + 1)%nat by lia. rewrite <- drop_drop, Hd.
    cbn [drop dst set_dst]. rewrite <- app_assoc. exact HQ.
Qed.

Lemma write_samples_wp fuel q i ob w (Q : unit -> W -> Prop) E :
  output_buffer w = Some ob -> (0 < q <= fuel)%nat -> 0 <= i -> 4 * (i + Z.of_nat q) <= zlen ob ->
  4 * Z.of_nat q < 2 ^ 32 ->
  Q tt (set_dst (dst w ++ mask24 q (drop (Z.to_nat (4 * i)) ob)) w) ->
  wp (write_samples fuel i (4 * Z.of_nat q)) Q E w.
Proof.
  revert q i w. induction fuel as [|fuel IH]; intros q i w Hob Hq Hi Hl Hq32 HQ; [lia|].
  destruct q as [|q]; [lia|]. cbn [write_samples mask24] in *.
  apply wp_bind, wp_gets, wp_bind. eapply wp_window; [exact Hob|lia|lia|lia|].
  apply wp_bind, wp_modify. rewrite wrap_id by (unfold in_uint; simpl in *; lia).
  replace (4 * Z.of_nat (S q) - 4) with (4 * Z.of_nat q) by lia.
  destruct q as [|q].
  - change (0 <? 4 * Z.of_nat 0) with false. cbv iota. apply wp_skip. cbn [mask24] in HQ. by rewrite app_nil_r in HQ.
  - rewrite (proj2 (Z.ltb_lt _ _)) by lia. apply IH; [done|lia|lia|lia|lia|].
    replace (Z.to_nat (4 * (i + 1))) with (Z.to_nat (4 * i) + 4)%nat by lia. rewrite <- drop_drop.
    cbn [dst set_dst]. rewrite <- app_assoc. exact HQ.
Qed.

Lemma convert_data_wp t f x N ob pre post w (Q : unit -> W -> Prop) E :
  head_is (wav_header t f x) w -> at_file pre post w -> zlen (f_ext f) <= 30 ->
  output_buffer w = Some ob -> output_used (info w) = N ->
  0 < N -> N mod 4 = 0 -> N <= zlen ob -> N + 200 < 2 ^ 31 ->
  (forall w', dst w' = dst w ++ wav_header (N + 20 + fmt_size f) f N ++ mask24 (Z.to_nat (N / 4)) ob -> Q tt w') ->
  wp convert_data Q E w.
Proof.
  intros Hh Hf Hext Hob Hused HN HN4 Hl HN31 HQ. unfold convert_data.
  pose proof (fun t m => length_wav_header t f m) as Hlen.
  assert (reading (info w) (wav_header t f x) w pre post w) as Hw
    by (split_and!; [done|done|]; exists (src w), (header w); by destruct w).
  apply wp_bind. eapply rd_hget; [exact Hw|lia|lia|rewrite Hlen; unfold fmt_size; lia|].
  change (Z.to_nat 16) with 16%nat. change (Z.to_nat 4) with 4%nat. rewrite peek_size.
  rewrite i32_of_le_4 by (unfold in_sint, fmt_size; simpl; lia). cbv zeta.
  apply wp_bind. eapply rd_geti; [exact Hw|]. rewrite Hused. apply wp_bind.
  eapply set_lengths_wp; [exact Hw|done|unfold in_sint; simpl in *; lia|lia|]. clear Hw. intros w1 Hw.
  apply wp_bind, wp_int; [unfold in_sint, fmt_size; simpl; lia|].
  apply wp_bind. eapply rd_hget; [exact Hw|unfold fmt_size; lia|lia|rewrite Hlen; unfold fmt_size; lia|].
  change (Z.to_nat 4) with 4%nat. rewrite peek_data, of_le_4 by (unfold in_uint; simpl in *; lia).
  apply wp_bind, wp_int; [unfold in_sint, fmt_size; simpl; lia|].
  apply wp_bind. eapply write_header_wp; [apply Hw|lia|rewrite Hlen; unfold fmt_size; lia|]. change (Z.to_nat 0) with 0%nat.
  destruct Hw as (_ & _ & s & h & ->). rewrite drop_0. apply wp_bind, wp_gets.
  pose proof (Z.div_mod N 4 ltac:(lia)) as Hdm.
  assert (forall size, size = 4 * Z.of_nat (Z.to_nat (N / 4)) -> forall fuel w, (Z.to_nat (N / 4) <= fuel)%nat ->
    output_buffer w = Some ob -> Q tt (set_dst (dst w ++ mask24 (Z.to_nat (N / 4)) ob) w) ->
    wp (write_samples fuel 0 size) Q E w) as Hws.
  { intros ? -> fuel w' Hfuel Hob' HQ'. by eapply write_samples_wp; [exact Hob'|lia|lia|lia|simpl in *; lia|]. }
  apply Hws; [lia|cbn; rewrite Hob; cbn; lia|exact Hob|]. apply HQ. cbn. by rewrite <- app_assoc.
Qed.
End After.

(** ** The whole *)
Section Convert.
Context {D : Type} `{AsrcLaws D} (o_malloc : nat -> Z -> option (list Z)) (junk : list Z).
Context (Hmalloc : forall i n, 0 <= n -> exists l, o_malloc i n = Some l /\ zlen l = n) (Hjunk : length junk = 4%nat).
Abbreviation W := (world D).
Implicit Types (w : W) (E : Z -> W -> Prop).

(** The device once a pair was requested and configured and the conversion
    was started. *)
Definition started (f : format) (o : Z) (width : asrc_word_width) (ic : asrc_inclk) (oc : asrc_outclk) (d : D) : D :=
  let '((_, (index, chn)), d) := ASRC_REQ_PAIR (f_channels f) d in
  let '(_, d) := ASRC_CONFIG_PAIR (mkConfig index chn DMA_BUF_SIZE (f_rate f) o ASRC_WIDTH_24_BIT width ic oc) d in
  (ASRC_START_CONV index d).2.
(** The room the device is given for a buffer. *)
Definition room_for (f : format) (o : Z) : Z := 8 * (DMA_BUF_SIZE * o / f_rate f / 8) + f_channels f * 8.
(** The files that are converted: samples of 16, 24 or 32 bits, in sizes that
    [int] and the buffers have room for. *)
Record suitable (f : format) (vs : list Z) (o m : Z) : Prop := {
  su_bits : f_bits f = 16 \/ f_bits f = 24 \/ f_bits f = 32;
  su_samples : Forall (in_uint (8 * Z.of_nat (sample_size (f_bits f)))) vs;
  su_convertible : convertible f (zlen (sample_bytes (sample_size (f_bits f)) vs)) o;
  su_channels : 0 < f_channels f;
  su_input : 2 * zlen (sample_bytes (sample_size (f_bits f)) vs) + 4096 < 2 ^ 31;
  su_output : scale f m + 256 * 1024 + 200 < 2 ^ 31;
  su_rate : o * 8 < 2 ^ 31;
  su_room : room_for f o <= 256 * 1024;
  su_size : forall w E, wp (asrc_get_output_buffer_size (D := D) (zlen (sample_bytes (sample_size (f_bits f)) vs)) (f_rate f) o)
              (fun x _ => x = m) E w;
  su_some : 0 < m;
}.

Lemma configure_wp f o n m ib w0 w (Q : Z -> W -> Prop) E :
  prepared f o n m ib w0 w -> dev w = dev w0 ->
  (forall e w', e < 0 -> dst w' = dst w0 -> Q e w') ->
  (forall w', prepared f o n m ib w0 w' -> (ASRC_START_CONV (pair_index w') (dev w')).2 = started f o (output_word_width (info w0)) (inclk w0) (outclk w0) (dev w0) -> Q 0 w') ->
  wp configure_asrc_channel Q E w.
Proof.
  intros Hw Hdev Hbad Hgood. unfold configure_asrc_channel. unfold started in Hgood.
  destruct (pr_info _ _ _ _ _ _ _ Hw) as (_ & Hfmt & Hbits). pose proof (pr_clocks _ _ _ _ _ _ _ Hw) as Hclk.
  injection Hfmt as Hr Ho Hc. injection Hbits as _ Hiw How. injection Hclk as Hic Hoc.
  apply wp_bind, (wp_geti _ (fun i => i)), wp_bind. rewrite Hr, Ho, Hc, Hiw, How, <- Hdev in *.
  destruct (ASRC_REQ_PAIR (f_channels f) (dev w)) as [[err [index chn]] d1] eqn:Hreq.
  eapply wp_call; [exact Hreq|]. cbv iota beta.
  destruct (Z.ltb_spec err 0) as [Herr|Herr].
  { apply wp_bind, wp_printf, wp_ret, Hbad; [done|]. apply Hw. }
  assert (forall w', prepared f o n m ib w0 w' -> dev w' = d1 -> wp (inclk ← gets inclk; outclk ← gets outclk; modify (set_pair index);;
    err ← call (ASRC_CONFIG_PAIR (mkConfig index chn DMA_BUF_SIZE (f_rate f) o ASRC_WIDTH_24_BIT
                 (output_word_width (info w0)) inclk outclk));
    if err <? 0 then mret err else mret 0) Q E w') as Htail.
  { intros w' Hw' Hd. pose proof (pr_clocks _ _ _ _ _ _ _ Hw') as Hclk. injection Hclk as Hic' Hoc'.
    apply wp_bind, wp_gets, wp_bind, wp_gets, wp_bind, wp_modify, wp_bind. rewrite Hic', Hoc'.
    destruct (ASRC_CONFIG_PAIR _ d1) as [err2 d2] eqn:Hcfg.
    eapply wp_call; [cbn [dev set_pair]; rewrite Hd; exact Hcfg|].
    destruct (Z.ltb_spec err2 0); apply wp_ret; [apply Hbad; [done|apply Hw']|].
    apply Hgood; [|done]. destruct Hw'. by split. }
  destruct Hw. apply wp_bind.
  destruct (index =? 0); [by apply wp_printf, Htail; [split|]|].
  destruct (index =? 1); [by apply wp_printf, Htail; [split|]|].
  destruct (index =? 2); [by apply wp_printf, Htail; [split|]|]. by apply wp_skip, Htail; [split|].
Qed.

Lemma release_pair_wp e w0 w (R : Z -> W -> Prop) E :
  e < 0 -> dst w = dst w0 -> wp (release_pair e) (fun r w' => (r < 0 /\ dst w' = dst w0) \/ R r w') E w.
Proof.
  intros He Hdst. unfold release_pair. apply wp_bind, wp_gets, wp_bind.
  destruct (ASRC_RELEASE_PAIR (pair_index w) (dev w)) as [x d] eqn:Hrel.
  eapply wp_call; [exact Hrel|]. apply wp_ret. by left.
Qed.

(** The output file: 24 bits, the output's rate, the announced lengths, and as
    samples 24 bits of each word of what the device delivered, in order, for
    the input's samples widened to 24 bits and sent in whole buffers, padded
    with zeros as long as output was missing. *)
Definition converted (f : format) (o : Z) (vs : list Z) (N : Z) (d0 : D) (file : list Z) : Prop :=
  exists rest blocks out d,
    let input := sample_bytes 4 (map (widened (f_bits f)) vs) ++ rest in
    stream input (4 * zlen vs) (room_for f o) (S blocks) d0 = (out, d) /\
    (blocks = 0%nat \/ zlen (stream input (4 * zlen vs) (room_for f o) blocks d0).1 < N) /\ N <= zlen out /\
    file = wav_file (N + 20 + fmt_size f) (out_format f o) N [] [] (mask24 (Z.to_nat (N / 4)) out).

(** From the prepared buffers to the file. *)
Lemma play_and_write_wp fuel f o vs m w w2 d0 E :
  let k := sample_size (f_bits f) in let N := scale f m in
  suitable f vs o m -> m mod 8 = 0 -> N < Z.of_nat fuel ->
  prepared f o (zlen (sample_bytes k vs)) m (sample_bytes 4 (map (widened (f_bits f)) vs)) w w2 ->
  (ASRC_START_CONV (pair_index w2) (dev w2)).2 = d0 ->
  wp (e ← play_file fuel; err ← int (0 + e);
      if err <? 0 then release_pair err
      else convert_data;; printf "All tests passed with success\n" [];; mret 0) (fun r w' => (r < 0 /\ dst w' = dst w) \/
    r = 0 /\ exists file, dst w' = dst w ++ file /\ converted f o vs N d0 file) E w2.
Proof.
  intros k N Hsu Hm8 Hfuel Hw2 Hst. destruct Hsu.
  pose proof su_convertible0 as (Hok & Hn & Hrate & Ho & Hb & Hch & _). pose proof Hok as (_ & _ & _ & _ & Hext).
  destruct (pr_info _ _ _ _ _ _ _ Hw2) as (Hlens & Hfmt & _). injection Hlens as Hin Hout. injection Hfmt as Hir Hor Hch2.
  destruct (pr_input _ _ _ _ _ _ _ Hw2) as (rest & Hib & Hrest). destruct (pr_null _ _ _ _ _ _ _ Hw2) as (nb & Hnb & Hlnb).
  destruct (pr_output _ _ _ _ _ _ _ Hw2) as (ob & Hob & Hlob). destruct (pr_file _ _ _ _ _ _ _ Hw2) as (pr & po & Hf2).
  assert (scale f (zlen (sample_bytes k vs)) = 4 * zlen vs) as Hscale.
  { rewrite length_sample_bytes. unfold scale, k, sample_size. destruct (f_bits f <=? 16); lia. }
  assert (output_room w2 = room_for f o) as Hroom by (unfold output_room, room_for; by rewrite Hir, Hor, Hch2).
  assert (0 < N /\ N mod 4 = 0) as [HN HN4].
  { unfold N, scale. pose proof (Z.div_mod m 8 ltac:(lia)). destruct (f_bits f <=? 16); split; [lia| |lia|];
      symmetry; [apply (Z.mod_unique_pos _ _ (4 * (m / 8)))|apply (Z.mod_unique_pos _ _ (2 * (m / 8)))]; lia. }
  fold N in Hlob, Hout. fold k in Hin. rewrite Hscale in Hin. apply wp_bind. eapply wp_mono.
  { apply (play_file_wp fuel w2 _ nb ob (4 * zlen vs) N E Hib Hnb Hlnb Hob Hlob Hin Hout).
    - rewrite length_sample_bytes in su_input0. unfold sample_size in su_input0. destruct (f_bits f <=? 16); lia.
    - unfold N. lia.
    - intros j Hj Hlt. rewrite length_app, length_sample_bytes, length_map. unfold DMA_BUF_SIZE in *. lia.
    - lia.
    - lia.
    - lia.
    - rewrite Hroom. exact su_room0.
    - exact Hfuel. }
  intros e w3 (He32 & Hplay). apply wp_bind, wp_int; [exact He32|]. rewrite Z.add_0_l.
  destruct (Z.ltb_spec e 0) as [He|He].
  { apply release_pair_wp; [done|]. destruct Hplay as [[_ ->]|(? & ? & ? & ? & _ & _ & _ & _ & _ & _ & ->)]; apply Hw2. }
  destruct Hplay as [[? _]|(blocks & out & d & ob' & Hstream & Hleast & HNout & Hlob' & Htake & _ & ->)]; [lia|].
  rewrite Hroom, Hst in *. apply wp_bind.
  eapply (convert_data_wp _ (out_format f o) N N ob' pr po); [apply Hw2|exact Hf2| |reflexivity|reflexivity|done|done|lia|lia|].
  { unfold out_format. by destruct (f_bits f <=? 16). }
  intros w4 Hdst. apply wp_bind, wp_printf, wp_ret. right. split; [done|]. eexists.
  split; [|exists rest, blocks, out, d; split_and!; [done|done|done|reflexivity]]. cbn [dst emit asrc_output]. rewrite Hdst. cbn [dst set_dev set_output set_null set_info].
  rewrite (pr_dst _ _ _ _ _ _ _ Hw2). f_equal.
  assert (mask24 (Z.to_nat (N / 4)) ob' = mask24 (Z.to_nat (N / 4)) out) as ->.
  { apply mask24_ext. pose proof (Z.div_mod N 4 ltac:(lia)). replace (4 * Z.to_nat (N / 4))%nat with (Z.to_nat N) by lia. done. }
  unfold wav_file, wav_header. rewrite <- !app_assoc. unfold out_format. by destruct (f_bits f <=? 16).
Qed.

(** A file to a file: the program fails, and then nothing is written, or it
    returns 0 and the output is complete. *)
Lemma convert_file_wp fuel total f before between vs trail m w E :
  let o := output_sample_rate (info w) in let k := sample_size (f_bits f) in let N := scale f m in
  src w = (wav_file total f (zlen (sample_bytes k vs)) before between (sample_bytes k vs ++ trail), 0) ->
  zlen (header w) = WAVE_HEAD_SIZE ->
  Forall (skipped (bytes_of "fmt ")) before -> Forall (skipped (bytes_of "data")) between ->
  vs <> [] -> suitable f vs o m -> N < Z.of_nat fuel ->
  wp (convert_file o_malloc junk fuel) (fun r w' => (r < 0 /\ dst w' = dst w) \/
    r = 0 /\ exists file, dst w' = dst w ++ file /\
      converted f o vs N (started f o (output_word_width (info w)) (inclk w) (outclk w) (dev w)) file) E w.
Proof.
  intros o k N Hsrc Hlen Hbefore Hbetween Hne Hsu Hfuel. destruct Hsu. pose proof su_convertible0 as (Hok & Hn & Hrate & Ho & Hb & Hch & _).
  pose proof Hok as (_ & _ & _ & _ & Hext). unfold convert_file.
  apply wp_bind. eapply wp_mono.
  { eapply (header_parser_wp junk Hjunk total f _ before between _ w (fun x => x = m)); [exact Hsrc|done|done|done|done|].
    intros w' E'. apply su_size0. }
  intros r w1 (-> & ? & pre & -> & Hm & Hm8 & Hw1). change (1 <=? 0) with false. cbv iota.
  apply wp_bind. eapply (bitshift_wp o_malloc junk Hmalloc Hjunk f _ m vs w);
    [done|done|done|reflexivity|done|done|lia|done|lia|done|unfold in_sint; simpl in *; lia|lia|exact Hw1|].
  clear w1 Hw1. intros w1 Hw1 Hd1. apply wp_bind. eapply configure_wp; [exact Hw1|exact Hd1| |].
  { intros e w2 He Hdst. rewrite (proj2 (Z.ltb_lt _ _)) by done. by apply release_pair_wp. }
  clear w1 Hw1 Hd1. intros w2 Hw2 Hst. change (0 <? 0) with false. cbv iota.
  by eapply play_and_write_wp.
Qed.
(** C6: The program on the command line [prog -to RATE FROM TO], on a WAV file
    that suits it and with a device that keeps to the laws: it comes to an
    end with every access inside its buffers, and either it fails with a
    negative status and the output file is empty, or it returns 0 and the
    output file is complete: 24 bits, the new rate, the announced lengths,
    and as samples 24 bits of each word that the device delivered for the
    input's samples, widened to 24 bits and sent in whole buffers, then zeros
    as long as output was missing. *)
Theorem asrc_main_converts fopen fuel prog rate from to total f before between vs trail m w :
  let o := atoi rate in let k := sample_size (f_bits f) in
  Forall (fun a => streq a "-to" = false /\ streq a "-wid" = false) [rate; from; to] ->
  fopen to "wb+"%string = Some [] ->
  fopen from "r"%string = Some (wav_file total f (zlen (sample_bytes k vs)) before between (sample_bytes k vs ++ trail)) ->
  zlen (header w) = WAVE_HEAD_SIZE ->
  Forall (skipped (bytes_of "fmt ")) before -> Forall (skipped (bytes_of "data")) between ->
  vs <> [] -> suitable f vs o m -> scale f m < Z.of_nat fuel ->
  wp (main o_malloc junk fopen fuel [prog; "-to"%string; rate; from; to]) (fun r w' =>
    (r < 0 /\ dst w' = []) \/
    r = 0 /\ converted f o vs (scale f m)
      (started f o ASRC_WIDTH_ZERO INCLK_NONE OUTCLK_ASRCK1_CLK (asrc_open (dev w)).2) (dst w'))
    (fun _ _ => False) w.
Proof.
  intros o k Hargs Hto Hfrom Hlen Hbefore Hbetween Hne Hsu Hfuel.
  destruct (Forall_inv Hargs) as [_ Hr2]. apply Forall_inv_tail in Hargs. destruct (Forall_inv Hargs) as [Hf1 Hf2].
  apply Forall_inv_tail, Forall_inv in Hargs as [Ht1 Ht2]. unfold main.
  apply wp_bind, wp_modify, wp_bind, wp_printf. change (zlen [prog; "-to"%string; rate; from; to] <? 5) with false. cbv iota.
  apply wp_bind, wp_seti, wp_bind. destruct (asrc_open (dev w)) as [fd d] eqn:Hopen.
  eapply wp_call; [exact Hopen|]. cbv zeta. apply wp_bind.
  eapply (wp_mono _ _ (fun _ w1 => dev w1 = d /\ info w1 = info0 /\ header w1 = header w /\
    (inclk w1, outclk w1) = (INCLK_NONE, OUTCLK_ASRCK1_CLK))).
  { destruct (fd <? 0); [by apply wp_printf|by apply wp_skip]. }
  intros [] w1 (Hdev & Hinfo & Hheader & Hclk). injection Hclk as Hic Hoc. cbn [list.tail scan_option].
  change (streq "-to" "-to") with true. change (streq "-to" "-wid") with false. cbv iota.
  rewrite Hr2, Hf1, Ht1, Hf2, Ht2. apply wp_bind, wp_bind, wp_seti, wp_skip, wp_bind, wp_skip, wp_bind, wp_ret.
  cbn [negb].
  change ([prog; "-to"%string; rate; from; to] !! 4%nat) with (Some to).
  change ([prog; "-to"%string; rate; from; to] !! 3%nat) with (Some from). cbv iota.
  rewrite Hto. apply wp_bind, wp_modify. rewrite Hfrom. apply wp_bind, wp_modify.
  eapply wp_mono.
  - eapply convert_file_wp; [reflexivity|by rewrite <- Hlen, <- Hheader|exact Hbefore|exact Hbetween|exact Hne| |exact Hfuel].
    cbn. exact Hsu.
  - cbn. rewrite Hdev, Hinfo, Hic, Hoc. intros r w' [Hr|(-> & file & Hdst & Hc)]; [by left|right]. by rewrite Hdst.
Qed.
End Convert.

(** ** Four samples through the device that delivers what it is given *)
Definition sim_asrc_malloc (i : nat) (n : Z) : option (list Z) := Some (replicate (Z.to_nat n) 0).
Lemma sim_suitable : suitable (D := nat) sim_format [1; 2; 3; 4] 8000 8.
Proof.
  split; [by left| |apply sim_convertible|done|done|done|done|done|by vm_compute|done].
  repeat constructor; by vm_compute.
Qed.

Definition sim_fopen (name mode : string) : option (list Z) :=
  if streq mode "r" then if streq name "in.wav" then Some sim_wav else None else Some [].

Lemma asrc_main_witness :
  wp (main sim_asrc_malloc [0; 0; 0; 0] sim_fopen 17 ["asrc"; "-to"; "8000"; "in.wav"; "out.wav"]%string)
    (fun r w' => r < 0 \/ r = 0) (fun _ _ => False) (sim_asrc_world 0 []).
Proof.
  eapply wp_mono.
  - apply (asrc_main_converts sim_asrc_malloc [0; 0; 0; 0]
      ltac:(intros i n Hn; eexists; split; [reflexivity|rewrite length_replicate; lia]) eq_refl sim_fopen
      17 "asrc" "8000" "in.wav" "out.wav" 70 sim_format [(bytes_of "LIST", [1; 2; 3])] [(bytes_of "fact", [])]
      [1; 2; 3; 4] [] 8); [by repeat constructor|reflexivity|reflexivity|reflexivity| | |done|apply sim_suitable|by vm_compute].
    + constructor; [|constructor]. by vm_compute.
    + constructor; [|constructor]. by vm_compute.
  - intros r w' [[Hr _]|[-> _]]; [by left|by right].
Defined.
(** The run succeeds, and the output is the widened samples with their header. *)
Example asrc_main_runs :
  let '(r, w) := main sim_asrc_malloc [0; 0; 0; 0] sim_fopen 17 ["asrc"; "-to"; "8000"; "in.wav"; "out.wav"]%string
    (sim_asrc_world 0 []) in
  r = Ret 0 /\
  dst w = wav_file 52 (mkFormat 1 1 8000 64000 8 24 []) 16 [] [] [0; 1; 0; 0; 0; 2; 0; 0; 0; 3; 0; 0; 0; 4; 0; 0].
Proof. vm_compute. split; reflexivity. Qed.
